(* ===== verification/_CoqProject ===== *)
-Q . S2P
Prelude.v
Bytes.v
InodeStore.v
Treedisk.v
TreediskSpec.v
TreediskTrees.v
TreediskProof.v
TreediskUpdate.v
TreediskWrite.v
TreediskTop.v
TreediskCreate.v
Memory.v
Earth.v
RamDisk.v
TreediskTheorems.v
Paging.v
Mmu.v
MmuProof.v
PageTable.v
Kernel.v
KernelSpec.v
KernelIpc.v
KernelTrap.v
KernelReach.v
KernelPres.v
Bus.v
Timer.v
Tty.v
EarthState.v
KernelTheorems.v
Devices.v
KernelExample.v
EarthTheorems.v
FsDisk.v
Sd.v
SdCard.v
SdDevice.v
Elf.v
ElfProof.v
Boot.v
BootTheorems.v
Layout.v
Dir.v
DirProof.v
Servers.v
ServerProof.v
Shell.v
Mkfs.v
MkfsProof.v
Log.v
ShellLoop.v
StartServers.v
Startup.v
StartupExample.v
Trap.v
TrapTheorems.v
DiskTheorems.v
AppTheorems.v
ProcServer.v
ProcProof.v
ProcKernel.v
ProcTheorems.v
ProcExample.v
Syscall.v
UserApps.v
UserProof.v
UserTheorems.v
UserExample.v
LogTheorems.v
Ult.v
Crash.v
Mkrom.v
RomTheorems.v
