(* ===== verification/Prelude.v ===== *)
(** * egos-2000: a verification development

    egos-2000 is an operating system for teaching.  The earth layer (src/earth)
    drives the hardware: memory management, paging, timer, terminal, SD card.
    The grass layer (src/grass) is the kernel: processes, scheduler, messages,
    system calls.  The applications (src/apps) are four servers, which start
    each other from disk (process server, file server, directory server and
    shell), and the user commands.  src/library has what they share: the file
    system, the ELF loader, the calls of the servers.  src/tools builds the disk
    image and the boot ROM.  The layers call each other through [struct earth] and [struct grass]
    (library/egos.h); the applications exchange messages through the kernel.

    ** How the code is modelled

    Every C function is a function in a state monad (this file): it returns a
    value, or stops in [FATAL], or does something that C leaves undefined, such
    as an access outside an array ([Undef]), or runs out of fuel.  Theorems on
    the result of a function say that it is [Ok], so that fuel and undefined
    behaviour are excluded by what is proved.  Machine integers are in [Z] and
    wrapped where the C code wraps ([u32], [s32]); memory is a map from
    addresses to bytes (Memory.v); buffers are lists of bytes (Bytes.v).
    Hardware, and other layers where a client does not depend on them, are type
    classes with their laws; the implementations are instances that prove the
    laws:

    - [InodeStore] (library/file/inode.h), by RamDisk.v and FsDisk.v, for the
      file system of Treedisk.v;
    - [Disk] (Earth.v), by the SD card (SdCard.v) and an array (Devices.v);
    - [Paging] (Paging.v), by earth/dev_page.c, for the memory management unit;
    - [Bus], [ClintLaws] and the laws of UART0 (Bus.v), by a board (Devices.v);
      the laws of the card (SdCard.v), by SdDevice.v;
    - [EarthOps] and [EarthLaws] (Kernel.v, KernelSpec.v), by EarthState.v, for
      the kernel: private address spaces, a timer, a terminal;
    - [ProcOps] (ProcServer.v), by ProcKernel.v, for the process server;
    - [FileCalls] and [FileServers] (UserApps.v, UserTheorems.v), by the
      servers on a disk (UserExample.v), for the user applications.

    ** The parts

    File system.  Treedisk.v is library/file/file.c; TreediskSpec.v says what it
    implements, a list of files that are lists of blocks, with the invariant of
    the trees and the free list.  TreediskTrees.v, TreediskProof.v,
    TreediskUpdate.v, TreediskWrite.v, TreediskTop.v and TreediskCreate.v hold
    the proofs, TreediskTheorems.v the theorems: reads and writes refine the
    abstract file system, what was written is read back, every reachable state
    is well formed, a full disk ends in the panic of the code, and a write at
    the last offset wraps the size.  RamDisk.v, Mkfs.v and MkfsProof.v are
    tools/mkfs.c, FsDisk.v is library/file/disk.c.  Mkrom.v is tools/mkrom.c;
    RomTheorems.v: what mkfs wrote is what the driver reads from the flash.

    Earth layer.  Paging.v is earth/dev_page.c, Mmu.v and PageTable.v are
    earth/cpu_mmu.c (MmuProof.v has the proofs), Timer.v earth/cpu_timer.c,
    Tty.v and Log.v earth/bus_uart.c, bus_gpio.c and dev_tty.c, with the
    conversions of [vprintf] that the sources use, Sd.v earth/sd and
    earth/dev_disk.c, EarthState.v earth/earth.c and earth/cpu_intr.c, Trap.v
    earth/earth.s with the other assembly files.  EarthTheorems.v,
    DiskTheorems.v, LogTheorems.v and TrapTheorems.v: every process has pages of its own, the
    cached paging device is equivalent to the one without a cache, the page
    tables translate what they should, the clock and the terminal are read
    correctly, what is logged reaches the serial line whole, the driver makes
    the card a disk, and a trap saves and restores all registers.

    Kernel.  Kernel.v is grass/process.c and grass/kernel.c, Syscall.v is
    grass/syscall.c; KernelSpec.v has the invariant, KernelIpc.v, KernelTrap.v
    and KernelReach.v the proofs, with the machine as a step relation ([step]:
    instructions of user code, traps, calls of the process server); KernelPres.v
    says which properties every trap keeps.
    KernelTheorems.v: the invariant holds in every reachable state, processes
    are isolated, the scheduler lets every process run within eight yields,
    messages are passed on, and a cycle of senders never ends.  Syscall.v: a
    message goes from the buffer of [sys_send] to the buffer of [sys_recv].

    Loader and boot.  Elf.v is library/elf/elf.c (ElfProof.v), Layout.v has the
    regions of the linker scripts and the preparation of memory in earth/earth.c,
    Boot.v the readers and the starts of grass/grass.c, earth/earth.c and of the
    servers; BootTheorems.v: the programs of the disk image get into memory.
    Startup.v puts them together: from power-on to the process server, in a
    state that satisfies the invariant of the kernel.  StartServers.v goes on
    from there: the three other servers get the pids that all programs use,
    whatever the machine does in between, and the process server prints the
    messages of two of them.

    Applications.  Dir.v and Servers.v are sys_dir.c, sys_file.c and
    library/servers/servers.c (DirProof.v, ServerProof.v), Shell.v, ShellLoop.v
    and ProcServer.v are sys_shell.c and sys_proc.c (ProcProof.v), ProcKernel.v
    puts the process server on the kernel, the loader and the disk; UserApps.v
    has apps/user and library/libc/malloc.c (UserProof.v), Crash.v the two crash
    tests and Ult.v the producers and consumers of ult.c.  AppTheorems.v,
    ShellLoop.v, ProcTheorems.v and UserTheorems.v: the image of mkfs, lookups,
    the way from the keyboard to the words of a command line, the messages
    between shell and server, the way from a command line to a loaded program,
    and the working directory of cd.

    Devices.v, SdDevice.v, KernelExample.v, StartupExample.v, ProcExample.v and
    UserExample.v instantiate all assumptions, and the witnesses show that the
    hypotheses of the theorems hold on a small machine, on a card that mkfs has
    filled.

    ** Fuel

    Loops over arrays have the length of the array, plus one or two rounds for
    the test that ends them.  Counting the levels of a file gets 33 rounds, since
    a shift of 32 bits ends it.  The loops that wait for a device
    take their fuel as an argument; the theorems on them ask for as much as the
    device needs by its laws.  [proc_yield] looks at 8 entries, all of them.

    ** Not modelled

    - messages on the terminal that only inform, in the functions that print
      them: the log functions themselves are in Log.v;
    - [malloc], [rand] and the other functions of the C library that only the
      library knows: [rand] and the buffering of the standard output are
      parameters, string functions and [vprintf] are written out;
    - the Makefile, and the placement of sections by the linker;
    - [disk_init] is a parameter of the start of the system, since the disk is;
      its code is in Sd.v, with [sdinit] run on a model card;
    - the functions on threads and semaphores of ult.c, an exercise with empty
      bodies: Ult.v takes any semaphore with the laws of a counter;
    - processes that run on several cores: the code uses one. *)

From Stdlib Require Import ZArith Lia.
From stdpp Require Import base numbers list strings.

Open Scope Z_scope.

(** ** Outcomes and the state monad *)

(** What running a piece of C code can lead to: a value, the endless loop of
    [FATAL] / the exit of [panic] (library/file/file.c, earth/dev_tty.c), a
    memory access outside every object (undefined in C), or the exhaustion of
    the fuel of a loop that is not structural. *)
Inductive outcome (A : Type) : Type :=
| Ok (a : A)
| Fatal (msg : string)
| Undef (what : string)
| NoFuel.
Arguments Ok {A} a.
Arguments Fatal {A} msg.
Arguments Undef {A} what.
Arguments NoFuel {A}.

Definition M (S A : Type) : Type := S -> outcome (A * S).

Definition ret {S A} (a : A) : M S A := fun s => Ok (a, s).
Definition bind {S A B} (m : M S A) (k : A -> M S B) : M S B := fun s =>
  match m s with
  | Ok (a, s') => k a s'
  | Fatal msg => Fatal msg
  | Undef w => Undef w
  | NoFuel => NoFuel
  end.
Definition fatal {S A} (msg : string) : M S A := fun _ => Fatal msg.
Definition undef {S A} (w : string) : M S A := fun _ => Undef w.
Definition nofuel {S A} : M S A := fun _ => NoFuel.
Definition get {S} : M S S := fun s => Ok (s, s).
Definition gets {S A} (f : S -> A) : M S A := fun s => Ok (f s, s).
Definition put {S} (s : S) : M S unit := fun _ => Ok (tt, s).
Definition modify {S} (f : S -> S) : M S unit := fun s => Ok (tt, f s).

(** The value a run ends with, without the state. *)
Definition result {S A} (o : outcome (A * S)) : option A :=
  match o with Ok (a, _) => Some a | _ => None end.

Declare Scope egos_scope.
Delimit Scope egos_scope with egos.
Notation "x <- m ;; k" := (bind m (fun x => k))
  (at level 20, m at level 99, k at level 200, only parsing) : egos_scope.
Notation "' p <- m ;; k" := (bind m (fun x => match x with p => k end))
  (at level 20, p pattern, m at level 99, k at level 200, only parsing) : egos_scope.
Notation "m ;;; k" := (bind m (fun _ => k))
  (at level 100, k at level 200, right associativity, only parsing) : egos_scope.

(** [for (uint i = lo; i < lo + n; i++) body(i)], the counted loops of the
    sources whose bounds do not change while they run. *)
Fixpoint for_n {S} (n : nat) (lo : Z) (body : Z -> M S unit) : M S unit :=
  match n with
  | O => ret tt
  | Datatypes.S n' => bind (body lo) (fun _ => for_n n' (lo + 1) body)
  end.

(** ** 32-bit machine integers *)

(** [uint] is a [Z] in [0, 2^32); [int] a [Z] in [-2^31, 2^31). *)
Definition u32 (z : Z) : Z := (z mod 2 ^ 32).
Definition s32 (z : Z) : Z :=
  (let u := z mod 2 ^ 32 in if u <? 2 ^ 31 then u else u - 2 ^ 32).
Definition is_u32 (z : Z) : Prop := (0 <= z < 2 ^ 32).

(** ** Automation *)

Create HintDb egos discriminated.

(** Case analysis on the scrutinee of a [match] or [if] of the goal. *)
Ltac case_goal :=
  match goal with
  | |- context [match ?x with _ => _ end] => destruct x eqn:?
  end.

(** Turn the boolean tests of the context into propositions. *)
Ltac bool_prop :=
  repeat match goal with
  | H : (_ =? _) = true |- _ => apply Z.eqb_eq in H
  | H : (_ =? _) = false |- _ => apply Z.eqb_neq in H
  | H : (_ <? _) = true |- _ => apply Z.ltb_lt in H
  | H : (_ <? _) = false |- _ => apply Z.ltb_ge in H
  | H : (_ <=? _) = true |- _ => apply Z.leb_le in H
  | H : (_ <=? _) = false |- _ => apply Z.leb_gt in H
  | H : (_ && _)%bool = true |- _ => apply andb_true_iff in H as [? ?]
  | H : negb _ = true |- _ => apply negb_true_iff in H
  | H : negb _ = false |- _ => apply negb_false_iff in H
  end.

(** [if_lia b]: decide the integer test [b] of the goal by arithmetic. *)
Ltac if_lia :=
  match goal with
  | |- context [if ?a =? ?b then _ else _] =>
      first [ rewrite (proj2 (Z.eqb_eq a b)) by lia
            | rewrite (proj2 (Z.eqb_neq a b)) by lia ]
  | |- context [if ?a <? ?b then _ else _] =>
      first [ rewrite (proj2 (Z.ltb_lt a b)) by lia
            | rewrite (proj2 (Z.ltb_ge a b)) by lia ]
  | |- context [if ?a <=? ?b then _ else _] =>
      first [ rewrite (proj2 (Z.leb_le a b)) by lia
            | rewrite (proj2 (Z.leb_gt a b)) by lia ]
  end.

(** ** Lemmas on outcomes *)

Lemma bind_ok {S A B} (m : M S A) (k : A -> M S B) s a s' :
  m s = Ok (a, s') -> bind m k s = k a s'.
Proof. unfold bind. by intros ->. Qed.

Lemma bind_fatal {S A B} (m : M S A) (k : A -> M S B) s msg :
  m s = Fatal msg -> bind m k s = Fatal msg.
Proof. unfold bind. by intros ->. Qed.

Lemma bind_inv {S A B} (m : M S A) (k : A -> M S B) s b s'' :
  bind m k s = Ok (b, s'') -> exists a s', m s = Ok (a, s') /\ k a s' = Ok (b, s'').
Proof. unfold bind. intros H. destruct (m s) as [[a s']| | |]; naive_solver. Qed.

Lemma bind_ret {S A B} (a : A) (k : A -> M S B) s : bind (ret a) k s = k a s.
Proof. done. Qed.

Lemma bind_assoc {S A B C} (m : M S A) (k : A -> M S B) (h : B -> M S C) s :
  bind (bind m k) h s = bind m (fun a => bind (k a) h) s.
Proof. unfold bind. by destruct (m s) as [[a s']| | |]. Qed.

Lemma bind_ext {S A B} (m : M S A) (k k' : A -> M S B) s :
  (forall a s', k a s' = k' a s') -> bind m k s = bind m k' s.
Proof. unfold bind. intros H. by destruct (m s) as [[a s']| | |]. Qed.

(** A counted loop whose body keeps [I] runs to its end. *)
Lemma for_n_inv {S} (I : Z -> S -> Prop) n lo (body : Z -> M S unit) s :
  (forall i s, lo <= i < lo + Z.of_nat n -> I i s -> exists s', body i s = Ok (tt, s') /\ I (i + 1) s') ->
  I lo s -> exists s', for_n n lo body s = Ok (tt, s') /\ I (lo + Z.of_nat n) s'.
Proof.
  revert lo s. induction n as [|n IH]; intros lo s Hb HI; cbn [for_n].
  - exists s. split; [done|]. by replace (lo + Z.of_nat 0) with lo by lia.
  - destruct (Hb lo s) as (s1 & E1 & H1); [lia|done|]. rewrite (bind_ok _ _ _ _ _ E1).
    destruct (IH (lo + 1) s1) as (s2 & E2 & H2); [intros; apply Hb; [lia|done]|done|].
    exists s2. split; [done|]. by replace (lo + Z.of_nat (Datatypes.S n)) with (lo + 1 + Z.of_nat n) by lia.
Qed.

(** ** Invariants of computations *)

(** When [m] starts where [I] holds and returns, [J] holds. *)
Definition pres {S A} (I : S -> Prop) (m : M S A) (J : S -> Prop) : Prop :=
  forall s a s', I s -> m s = Ok (a, s') -> J s'.

Lemma pres_bind {S A B} (I J K : S -> Prop) (m : M S A) (k : A -> M S B) :
  pres I m J -> (forall a, pres J (k a) K) -> pres I (bind m k) K.
Proof. intros Hm Hk s b s'' HI (a & s' & E1 & E2)%bind_inv. exact (Hk a s' b s'' (Hm s a s' HI E1) E2). Qed.

Lemma pres_modify {S} (I J : S -> Prop) f : (forall s, I s -> J (f s)) -> pres I (modify f) J.
Proof. intros Hf s a s' HI [= <- <-]. by apply Hf. Qed.

Lemma pres_ret {S A} (I : S -> Prop) (a : A) : pres I (ret a) I.
Proof. by intros s b s' HI [= <- <-]. Qed.

Lemma pres_get {S A} (I J : S -> Prop) (k : S -> M S A) :
  (forall s, pres (fun s' => I s' /\ s' = s) (k s) J) -> pres I (bind get k) J.
Proof. intros Hk s a s' HI E. exact (Hk s s a s' (conj HI eq_refl) E). Qed.

Lemma pres_for {S} (I : S -> Prop) n lo (body : Z -> M S unit) :
  (forall i, pres I (body i) I) -> pres I (for_n n lo body) I.
Proof.
  intros Hb. revert lo. induction n as [|n IH]; intros lo; cbn [for_n]; [apply pres_ret|].
  eapply pres_bind; [apply Hb|]. intros []. apply IH.
Qed.

Lemma pres_weak {S A} (I I' J J' : S -> Prop) (m : M S A) :
  (forall s, I' s -> I s) -> (forall s, J s -> J' s) -> pres I m J -> pres I' m J'.
Proof. intros HI HJ Hm s a s' Hs E. exact (HJ _ (Hm _ _ _ (HI _ Hs) E)). Qed.

(** ** Lemmas on 32-bit integers *)

Lemma u32_range z : is_u32 (u32 z).
Proof. apply Z.mod_pos_bound. lia. Qed.

Lemma u32_small z : is_u32 z -> u32 z = z.
Proof. intros. by apply Z.mod_small. Qed.

Lemma s32_range z : - 2 ^ 31 <= s32 z < 2 ^ 31.
Proof.
  unfold s32. pose proof (Z.mod_pos_bound z (2 ^ 32) ltac:(lia)).
  cbv zeta. case_goal; bool_prop; lia.
Qed.

Lemma s32_small z : - 2 ^ 31 <= z < 2 ^ 31 -> s32 z = z.
Proof.
  intros. unfold s32. cbv zeta. destruct (Z_lt_le_dec z 0).
  - replace (z mod 2 ^ 32) with (z + 2 ^ 32).
    + if_lia. lia.
    + rewrite <- (Z.mod_small (z + 2 ^ 32) (2 ^ 32)) by lia.
      by rewrite <- (Z.mul_1_l (2 ^ 32)) at 1; rewrite Z_mod_plus_full.
  - rewrite Z.mod_small by lia. by if_lia.
Qed.

#[export] Hint Resolve u32_range s32_range : egos.

(** ** Lemmas on bits *)

Lemma land_shifted k n x : 0 <= n -> 0 <= x < 2 ^ n -> Z.land (k * 2 ^ n) x = 0.
Proof.
  intros Hn Hx. apply Z.bits_inj'. intros i Hi. rewrite Z.land_spec, Z.bits_0.
  destruct (Z.lt_ge_cases i n) as [Hlt|Hge].
  - by rewrite Z.mul_pow2_bits_low.
  - rewrite <- (Z.mod_small x (2 ^ n)) by done. by rewrite Z.mod_pow2_bits_high, andb_false_r by lia.
Qed.

Lemma lor_shifted k n x : 0 <= n -> 0 <= x < 2 ^ n -> Z.lor (k * 2 ^ n) x = k * 2 ^ n + x.
Proof. intros Hn Hx. rewrite <- Z.add_lor_land, land_shifted by done. lia. Qed.
