(* ===== verification/Bytes.v ===== *)
(** Bytes, little-endian words and C strings: how the C sources see a
    [char[]] as an array of [uint] (the [union treedisk_block] of
    library/file/file.h, the casts of [char*] to [uint*] and [int*]). *)

From Stdlib Require Import ZArith Lia Strings.Byte.
From stdpp Require Import base numbers list strings.
From S2P Require Import Prelude.

(** ** Bytes *)

Definition byte_Z (b : byte) : Z := Z.of_N (Byte.to_N b).
Definition Z_byte (z : Z) : byte :=
  default x00 (Byte.of_N (Z.to_N (z mod 256))).

#[export] Instance byte_eq_dec : EqDecision byte := Byte.byte_eq_dec.

(** ** Little-endian integers *)

Fixpoint le_get (l : list byte) : Z :=
  match l with
  | [] => 0
  | b :: l' => byte_Z b + 256 * le_get l'
  end.

Fixpoint le_put (n : nat) (z : Z) : list byte :=
  match n with
  | O => []
  | S n' => Z_byte z :: le_put n' (z / 256)
  end.

(** ** Reading and writing parts of an array *)

(** [memcpy(dst + n, src, length src)] inside the array [dst]. *)
Definition splice {A} (dst : list A) (n : nat) (src : list A) : list A :=
  take n dst ++ src ++ drop (n + length src) dst.

(** [((uint* )b)[i]] and its assignment. *)
Definition get_u32 (b : list byte) (i : Z) : Z :=
  le_get (take 4 (drop (Z.to_nat (4 * i)) b)).
Definition set_u32 (b : list byte) (i v : Z) : list byte :=
  splice b (Z.to_nat (4 * i)) (le_put 4 v).

(** ** Blocks (library/file/disk.h) *)

Definition BLOCK_SIZE : Z := 512.
Abbreviation block := (list byte).
Definition null_block : block := replicate (Z.to_nat BLOCK_SIZE) x00.
Definition block_ok (b : block) : Prop := length b = Z.to_nat BLOCK_SIZE.

(** ** Lemmas on bytes *)

Lemma byte_Z_range b : 0 <= byte_Z b < 256.
Proof. unfold byte_Z. pose proof (Byte.to_N_bounded b). lia. Qed.

Lemma Z_byte_Z b : Z_byte (byte_Z b) = b.
Proof.
  unfold Z_byte. pose proof (byte_Z_range b). rewrite Z.mod_small by lia.
  unfold byte_Z. by rewrite N2Z.id, Byte.of_to_N.
Qed.

Lemma byte_Z_byte z : byte_Z (Z_byte z) = z mod 256.
Proof.
  unfold Z_byte, byte_Z. pose proof (Z.mod_pos_bound z 256 ltac:(lia)) as Hz.
  pose proof (Byte.to_of_N_option_map (Z.to_N (z mod 256))) as H.
  rewrite (proj2 (N.leb_le _ _)) in H by lia.
  destruct (Byte.of_N _); simplify_eq/=. rewrite H. lia.
Qed.

Lemma byte_Z_inj a b : byte_Z a = byte_Z b -> a = b.
Proof. intros H. by rewrite <- (Z_byte_Z a), H, Z_byte_Z. Qed.

(** ** Lemmas on little-endian integers *)

Lemma length_le_put n z : length (le_put n z) = n.
Proof. revert z. induction n; intros; simpl; auto. Qed.

Lemma le_get_range l : 0 <= le_get l < 256 ^ Z.of_nat (length l).
Proof.
  induction l as [|b l IH]; [simpl; lia|]. cbn [length le_get].
  pose proof (byte_Z_range b).
  rewrite Nat2Z.inj_succ, Z.pow_succ_r by lia. nia.
Qed.

Lemma le_get_put n z : le_get (le_put n z) = z mod 256 ^ Z.of_nat n.
Proof.
  revert z. induction n as [|n IH]; intros z.
  - simpl. by rewrite Z.mod_1_r.
  - cbn [le_put le_get]. rewrite byte_Z_byte, IH, Nat2Z.inj_succ, Z.pow_succ_r by lia.
    rewrite Z.rem_mul_r by lia. lia.
Qed.

Lemma le_put_get l : le_put (length l) (le_get l) = l.
Proof.
  induction l as [|b l IH]; [done|]. cbn [length le_put le_get].
  pose proof (byte_Z_range b). f_equal.
  - apply byte_Z_inj. rewrite byte_Z_byte.
    rewrite Z.add_comm, Z.mul_comm, Z.add_comm, Z_mod_plus_full.
    by apply Z.mod_small.
  - replace ((byte_Z b + 256 * le_get l) / 256) with (le_get l); [done|].
    rewrite Z.mul_comm, Z_div_plus_full by lia. rewrite Z.div_small by lia. lia.
Qed.

(** ** Lemmas on splices *)

Section splice.
Context {A : Type}.
Implicit Types dst src : list A.

Lemma length_splice dst n src :
  (n + length src <= length dst)%nat -> length (splice dst n src) = length dst.
Proof.
  intros. unfold splice. rewrite !length_app, length_take, length_drop. lia.
Qed.

Lemma splice_hit dst n src :
  (n + length src <= length dst)%nat ->
  take (length src) (drop n (splice dst n src)) = src.
Proof.
  intros. unfold splice. rewrite drop_app_ge by (rewrite length_take; lia).
  rewrite length_take, Nat.min_l, Nat.sub_diag, drop_0 by lia.
  by rewrite take_app_length.
Qed.

Lemma splice_miss dst n src m k :
  (n + length src <= length dst)%nat ->
  (m + k <= n \/ n + length src <= m)%nat ->
  take k (drop m (splice dst n src)) = take k (drop m dst).
Proof.
  intros Hl Hm. apply list_eq. intros i. unfold splice.
  destruct (decide (i < k)%nat); cycle 1.
  { rewrite !lookup_ge_None_2; [done| |]; rewrite length_take; lia. }
  rewrite !lookup_take_lt, !lookup_drop by lia. destruct Hm.
  - rewrite lookup_app_l by (rewrite length_take; lia). by rewrite lookup_take_lt by lia.
  - rewrite lookup_app_r by (rewrite length_take; lia).
    rewrite length_take, Nat.min_l by lia.
    rewrite lookup_app_r by lia. rewrite lookup_drop. f_equal. lia.
Qed.

Lemma splice_self dst n src :
  take (length src) (drop n dst) = src -> splice dst n src = dst.
Proof.
  intros H. unfold splice. rewrite <- H at 1.
  rewrite <- drop_drop, take_drop. by rewrite take_drop.
Qed.

Lemma splice_splice dst n src src' :
  length src = length src' -> (n + length src <= length dst)%nat ->
  splice (splice dst n src) n src' = splice dst n src'.
Proof.
  intros Hl Hn. unfold splice. f_equal; [|f_equal].
  - rewrite take_app_le by (rewrite length_take; lia). rewrite take_take. f_equal. lia.
  - rewrite <- Hl, app_assoc, drop_app_ge by (rewrite length_app, length_take; lia).
    rewrite length_app, length_take, drop_drop. f_equal. lia.
Qed.
End splice.

(** ** Lemmas on words *)

Lemma get_u32_range b i : is_u32 (get_u32 b i).
Proof.
  unfold get_u32, is_u32.
  pose proof (le_get_range (take 4 (drop (Z.to_nat (4 * i)) b))) as H.
  rewrite length_take in H.
  assert (256 ^ Z.of_nat (4 `min` length (drop (Z.to_nat (4 * i)) b)) <= 256 ^ 4).
  { apply Z.pow_le_mono_r; lia. }
  lia.
Qed.
#[export] Hint Resolve get_u32_range : egos.

Section words.
Variable b : list byte.
Implicit Types i j v : Z.

Lemma length_set_u32 i v :
  0 <= i -> 4 * i + 4 <= Z.of_nat (length b) -> length (set_u32 b i v) = length b.
Proof.
  intros. unfold set_u32. apply length_splice. rewrite length_le_put. lia.
Qed.

Lemma get_set_u32 i v :
  0 <= i -> 4 * i + 4 <= Z.of_nat (length b) -> is_u32 v ->
  get_u32 (set_u32 b i v) i = v.
Proof.
  intros. unfold get_u32, set_u32.
  rewrite <- (length_le_put 4 v) at 1. rewrite splice_hit by (rewrite length_le_put; lia).
  rewrite le_get_put. by apply Z.mod_small.
Qed.

Lemma get_set_u32_ne i j v :
  0 <= i -> 0 <= j -> i <> j -> 4 * i + 4 <= Z.of_nat (length b) ->
  get_u32 (set_u32 b i v) j = get_u32 b j.
Proof.
  intros. unfold get_u32, set_u32.
  rewrite splice_miss; [done|..]; rewrite length_le_put; lia.
Qed.

Lemma set_set_u32 i v w :
  0 <= i -> 4 * i + 4 <= Z.of_nat (length b) ->
  set_u32 (set_u32 b i v) i w = set_u32 b i w.
Proof.
  intros. unfold set_u32. apply splice_splice; rewrite ?length_le_put; [done|lia].
Qed.

Lemma set_get_u32 i :
  0 <= i -> 4 * i + 4 <= Z.of_nat (length b) -> set_u32 b i (get_u32 b i) = b.
Proof.
  intros. unfold set_u32. apply splice_self. rewrite length_le_put.
  unfold get_u32. rewrite <- (le_put_get (take 4 _)) at 1.
  f_equal. rewrite length_take, length_drop. lia.
Qed.
End words.

Lemma le_get_zeros n : le_get (replicate n x00) = 0.
Proof. induction n as [|n IH]; [done|]. cbn [replicate le_get]. by rewrite IH. Qed.

Lemma get_u32_null i : get_u32 null_block i = 0.
Proof.
  unfold get_u32, null_block. rewrite drop_replicate, take_replicate. apply le_get_zeros.
Qed.

Lemma null_block_ok : block_ok null_block.
Proof. apply length_replicate. Qed.
#[export] Hint Resolve null_block_ok : egos.

Lemma set_u32_block_ok b i v :
  block_ok b -> 0 <= i < 128 -> block_ok (set_u32 b i v).
Proof.
  unfold block_ok, BLOCK_SIZE. intros. rewrite length_set_u32; lia.
Qed.
#[export] Hint Resolve set_u32_block_ok : egos.

Lemma get_set_u32_block b i j v :
  block_ok b -> 0 <= i < 128 -> 0 <= j -> is_u32 v ->
  get_u32 (set_u32 b i v) j = if i =? j then v else get_u32 b j.
Proof.
  unfold block_ok, BLOCK_SIZE. intros. destruct (Z.eqb_spec i j) as [->|].
  - apply get_set_u32; lia || done.
  - apply get_set_u32_ne; lia.
Qed.
