(* ===== verification/InodeStore.v ===== *)
(** The inode store interface of library/file/inode.h: the four methods of
    [struct inode_store] as a class over the state of the store, and the
    behaviour a client relies on (the comment of inode.h) as a second class.
    Treedisk.v is written against the first and proved against the second. *)

From Stdlib Require Import ZArith Lia Strings.Byte.
From stdpp Require Import base numbers list strings gmap.
From S2P Require Import Prelude Bytes.

Definition NINODES : Z := 128.

(** [read] fills the caller's buffer: it takes the old contents of the buffer
    and gives back the return value and the new contents. *)
Class InodeStore (S : Type) := {
  getsize : Z -> M S Z;
  setsize : Z -> Z -> M S Z;
  read : Z -> Z -> block -> M S (Z * block);
  write : Z -> Z -> block -> M S Z
}.

(** The blocks of one inode [ino] of a store of [store_size] blocks: an offset
    inside reads back what was last written there, every other offset is left
    alone by a write, and both return 0. *)
Class InodeStoreLaws (S : Type) `{InodeStore S} (ino : Z) := {
  store_size : Z;
  store_blocks : S -> gmap Z block;
  store_size_range : 0 <= store_size < 2 ^ 31;
  store_dom s off : is_Some (store_blocks s !! off) <-> 0 <= off < store_size;
  store_block_ok s off b : store_blocks s !! off = Some b -> block_ok b;
  getsize_spec s :
    exists s', getsize ino s = Ok (store_size, s') /\ store_blocks s' = store_blocks s;
  read_spec s off b buf :
    store_blocks s !! off = Some b ->
    exists s', read ino off buf s = Ok ((0, b), s') /\ store_blocks s' = store_blocks s;
  write_spec s off b :
    block_ok b -> 0 <= off < store_size ->
    exists s', write ino off b s = Ok (0, s') /\
               store_blocks s' = <[off := b]> (store_blocks s)
}.
Arguments store_size S {_} ino {_}.
Arguments store_blocks {S _} ino {_} s.
