(* ===== verification/Treedisk.v ===== *)
(** The treedisk file system, library/file/file.c over library/file/file.h:
    every function of the file as a function in the state of the inode store
    below it. *)

From Stdlib Require Import ZArith Lia Strings.Byte.
From stdpp Require Import base numbers list strings gmap.
From S2P Require Import Prelude Bytes InodeStore.

Local Open Scope egos_scope.

(** ** Layout (file.h) *)

Definition REFS_PER_BLOCK : Z := BLOCK_SIZE / 4.
Definition INODES_PER_BLOCK : Z := BLOCK_SIZE / 8.

(** [struct treedisk_superblock], [struct treedisk_inode] at index [k] of an
    inode block, and the [refs] of a free list or an indirect block, as the
    words they occupy in the [union treedisk_block]. *)
Definition n_inodeblocks (b : block) : Z := get_u32 b 0.
Definition free_list (b : block) : Z := get_u32 b 1.
Definition set_free_list (b : block) (v : Z) : block := set_u32 b 1 v.
Definition inode_root (b : block) (k : Z) : Z := get_u32 b (2 * k).
Definition inode_nblocks (b : block) (k : Z) : Z := get_u32 b (2 * k + 1).
Definition set_inode_root (b : block) (k v : Z) : block := set_u32 b (2 * k) v.
Definition set_inode_nblocks (b : block) (k v : Z) : block := set_u32 b (2 * k + 1) v.
Definition refs (b : block) (i : Z) : Z := get_u32 b i.
Definition set_refs (b : block) (i v : Z) : block := set_u32 b i v.

(** [struct treedisk_snapshot]; the pointer [inode] into [inodeblock] is the
    index of the inode in that block. *)
Record treedisk_snapshot := {
  superblock : block;
  inodeblock : block;
  inode_blockno : Z;
  inode : Z
}.

(** [struct treedisk_state]; the store [below] is the class instance, and
    [ninodes] is zeroed by [treedisk_init] and never read. *)
Record treedisk_state := { below_ino : Z; ninodes : Z }.

(** [log_shift_r]: a shift by 32 or more gives 0. *)
Definition log_shift_r (x nbits : Z) : Z :=
  if 32 <=? nbits then 0 else Z.shiftr x nbits.

(** The scan [for (i = REFS_PER_BLOCK; --i > 0;)] of [treedisk_alloc_block]:
    [i] is the value before the decrement. *)
Fixpoint scan_refs (fl : block) (i : nat) : Z :=
  match i with
  | O => 0
  | S i' =>
      if Z.of_nat i' =? 0 then 0
      else if refs fl (Z.of_nat i') =? 0 then scan_refs fl i'
      else Z.of_nat i'
  end.

(** [do log_rpb++; while (((REFS_PER_BLOCK - 1) >> log_rpb) != 0)], run by
    the first call of [treedisk_init] only. *)
Fixpoint log_rpb_loop (fuel : nat) (log_rpb : Z) : outcome Z :=
  match fuel with
  | O => NoFuel
  | S fuel' =>
      let log_rpb := log_rpb + 1 in
      if Z.shiftr (REFS_PER_BLOCK - 1) log_rpb =? 0 then Ok log_rpb
      else log_rpb_loop fuel' log_rpb
  end.

(** [treedisk_init]: the state structure and the new value of [log_rpb]. *)
Definition treedisk_init (below_ino log_rpb : Z) : outcome (treedisk_state * Z) :=
  match (if log_rpb =? 0 then log_rpb_loop 32 0 else Ok log_rpb) with
  | Ok l => Ok ({| below_ino := below_ino; ninodes := 0 |}, l)
  | Fatal m => Fatal m
  | Undef w => Undef w
  | NoFuel => NoFuel
  end.

Section ops.
Context {S : Type} `{InodeStore S}.
(** The static [log_rpb], and the bytes an uninitialised block on the stack
    happens to hold. *)
Variable log_rpb : Z.
Variable junk : block.
Variable ts : treedisk_state.

(** [treedisk_get_snapshot]; [None] is the return of -1. *)
Definition treedisk_get_snapshot (inode_no : Z) : M S (option treedisk_snapshot) :=
  '(r, sb) <- read (below_ino ts) 0 junk ;;
  if r <? 0 then ret None
  else if u32 (n_inodeblocks sb * INODES_PER_BLOCK) <=? inode_no then ret None
  else
    let inode_blockno := u32 (1 + inode_no / INODES_PER_BLOCK) in
    '(r, ib) <- read (below_ino ts) inode_blockno junk ;;
    if r <? 0 then ret None
    else ret (Some {| superblock := sb; inodeblock := ib;
                      inode_blockno := inode_blockno;
                      inode := inode_no mod INODES_PER_BLOCK |}).

(** [treedisk_alloc_block]: the block number and the updated snapshot. *)
Definition treedisk_alloc_block (sn : treedisk_snapshot) : M S (Z * treedisk_snapshot) :=
  let b := free_list (superblock sn) in
  if b =? 0 then fatal "treedisk_alloc_block: inode store is full"
  else
    '(_, fl) <- read (below_ino ts) b junk ;;
    let i := scan_refs fl (Z.to_nat REFS_PER_BLOCK) in
    if i =? 0 then
      let sb := set_free_list (superblock sn) (refs fl 0) in
      r <- write (below_ino ts) 0 sb ;;
      if r <? 0 then fatal "treedisk_alloc_block: superblock"
      else ret (b, {| superblock := sb; inodeblock := inodeblock sn;
                      inode_blockno := inode_blockno sn; inode := inode sn |})
    else
      let free_blockno := refs fl i in
      r <- write (below_ino ts) b (set_refs fl i 0) ;;
      if r <? 0 then fatal "treedisk_alloc_block: freelistblock"
      else ret (free_blockno, sn).

Definition treedisk_getsize (ino : Z) : M S Z :=
  snapshot <- treedisk_get_snapshot ino ;;
  match snapshot with
  | None => ret (-1)
  | Some sn => ret (s32 (inode_nblocks (inodeblock sn) (inode sn)))
  end.

Definition treedisk_setsize (ino nblocks : Z) : M S Z := ret (-1).

(** [while (log_shift_r(x, nlevels * log_rpb) != 0) nlevels++].  A shift of 32
    or more ends it, so 33 tests are enough as soon as [log_rpb] is not 0. *)
Fixpoint count_levels (fuel : nat) (x nlevels : Z) : M S Z :=
  match fuel with
  | O => nofuel
  | Datatypes.S fuel' =>
      if log_shift_r x (u32 (nlevels * log_rpb)) =? 0 then ret nlevels
      else count_levels fuel' x (nlevels + 1)
  end.
Definition levels_fuel : nat := 33.

(** The index of [offset] in an indirect block with [nlevels] levels below. *)
Definition ref_index (offset nlevels : Z) : Z :=
  log_shift_r offset (u32 (nlevels * log_rpb)) mod REFS_PER_BLOCK.

(** The walk from the root of [treedisk_read]. *)
Fixpoint read_walk (nlevels : nat) (b offset : Z) (blk : block) : M S (Z * block) :=
  if b =? 0 then ret (0, null_block)
  else
    '(result, blk) <- read (below_ino ts) b blk ;;
    if result <? 0 then ret (result, blk)
    else match nlevels with
    | O => ret (0, blk)
    | Datatypes.S nlevels =>
        let index := ref_index offset (Z.of_nat nlevels) in
        read_walk nlevels (refs blk index) offset blk
    end.

Definition treedisk_read (ino offset : Z) (blk : block) : M S (Z * block) :=
  snapshot <- treedisk_get_snapshot ino ;;
  match snapshot with
  | None => ret (-1, blk)
  | Some sn =>
      let nblocks := inode_nblocks (inodeblock sn) (inode sn) in
      if nblocks <=? offset then ret (-1, blk)
      else
        nlevels <- (if 0 <? nblocks
                    then count_levels levels_fuel (nblocks - 1) 0 else ret 0) ;;
        read_walk (Z.to_nat nlevels)
          (inode_root (inodeblock sn) (inode sn)) offset blk
  end.

(** The loop of [treedisk_write] that inserts indirect blocks above the root,
    once for each level to add. *)
Fixpoint grow_levels (n : nat) (sn : treedisk_snapshot) : M S treedisk_snapshot :=
  match n with
  | O => ret sn
  | Datatypes.S n' =>
      '(indir, sn) <- treedisk_alloc_block sn ;;
      let tib := set_refs null_block 0 (inode_root (inodeblock sn) (inode sn)) in
      let sn := {| superblock := superblock sn;
                   inodeblock := set_inode_root (inodeblock sn) (inode sn) indir;
                   inode_blockno := inode_blockno sn; inode := inode sn |} in
      r <- write (below_ino ts) indir tib ;;
      if r <? 0 then fatal "treedisk_write: indirect block"
      else grow_levels n' sn
  end.

(** The walk of [treedisk_write]: [parent_no] always points into
    [parent_block], at the word [parent_idx]. *)
Fixpoint write_walk (nlevels : nat) (sn : treedisk_snapshot)
    (parent_block : block) (parent_idx parent_off offset : Z) : M S Z :=
  let b := get_u32 parent_block parent_idx in
  if b =? 0 then
    '(b, sn) <- treedisk_alloc_block sn ;;
    r <- write (below_ino ts) parent_off (set_u32 parent_block parent_idx b) ;;
    if r <? 0 then fatal "treedisk_write: parent"
    else match nlevels with
    | O => ret b
    | Datatypes.S nlevels =>
        write_walk nlevels sn null_block (ref_index offset (Z.of_nat nlevels)) b offset
    end
  else match nlevels with
  | O => ret b
  | Datatypes.S nlevels =>
      '(r, tib) <- read (below_ino ts) b junk ;;
      if r <? 0 then fatal "treedisk_write"
      else write_walk nlevels sn tib (ref_index offset (Z.of_nat nlevels)) b offset
  end.

Definition treedisk_write (ino offset : Z) (blk : block) : M S Z :=
  snapshot <- treedisk_get_snapshot ino ;;
  match snapshot with
  | None => ret (-1)
  | Some sn =>
      let nblocks := inode_nblocks (inodeblock sn) (inode sn) in
      nlevels <- (if 0 <? nblocks
                  then count_levels levels_fuel (nblocks - 1) 0 else ret 0) ;;
      let extend := nblocks <=? offset in
      let sn :=
        if extend then
          {| superblock := superblock sn;
             inodeblock := set_inode_nblocks (inodeblock sn) (inode sn) (u32 (offset + 1));
             inode_blockno := inode_blockno sn; inode := inode sn |}
        else sn in
      nlevels_after <- (if extend then count_levels levels_fuel offset 0 else ret nlevels) ;;
      '(sn, nlevels, grown) <-
        (if inode_nblocks (inodeblock sn) (inode sn) =? 0 then ret (sn, nlevels_after, false)
         else if nlevels <? nlevels_after then
           sn <- grow_levels (Z.to_nat (nlevels_after - nlevels)) sn ;;
           ret (sn, nlevels_after, true)
         else ret (sn, nlevels, false)) ;;
      (if (extend || grown)%bool then
         r <- write (below_ino ts) (inode_blockno sn) (inodeblock sn) ;;
         if r <? 0 then fatal "treedisk_write: inode block" else ret tt
       else ret tt) ;;;
      b <- write_walk (Z.to_nat nlevels) sn (inodeblock sn) (2 * inode sn)
             (inode_blockno sn) offset ;;
      r <- write (below_ino ts) b blk ;;
      if r <? 0 then fatal "treedisk_write: data block" else ret 0
  end.

(** ** Creating a file system *)

(** The inner loops of [setup_freelist]: fill the slots from [i] on with the
    block numbers from [next_free] on, and with 0 from [nblocks] on. *)
Fixpoint fill_refs (n : nat) (i next_free nblocks : Z) (data : block) : block * Z :=
  match n with
  | O => (data, next_free)
  | Datatypes.S n' =>
      if next_free <? nblocks
      then fill_refs n' (i + 1) (u32 (next_free + 1)) nblocks (set_refs data i next_free)
      else fill_refs n' (i + 1) next_free nblocks (set_refs data i 0)
  end.

Fixpoint setup_freelist_loop (fuel : nat) (next_free nblocks freelist_block : Z)
    (data : block) : M S Z :=
  if next_free <? nblocks then
    match fuel with
    | O => nofuel
    | Datatypes.S fuel' =>
        let data := set_refs data 0 freelist_block in
        let freelist_block := next_free in
        let '(data, next_free) :=
          fill_refs (Z.to_nat (REFS_PER_BLOCK - 1)) 1 (u32 (next_free + 1)) nblocks data in
        r <- write (below_ino ts) freelist_block data ;;
        if r <? 0 then fatal "treedisk_setup_freelist"
        else setup_freelist_loop fuel' next_free nblocks freelist_block data
    end
  else ret freelist_block.

(** The array [freelist_data] on the stack is uninitialised. *)
Definition setup_freelist (next_free nblocks : Z) : M S Z :=
  setup_freelist_loop (Z.to_nat (nblocks - next_free)) next_free nblocks 0 junk.

(** [for (uint i = 1; i <= n_inodeblocks; i++) write(i, &null_block)]: the
    first failing write makes [treedisk_create] return -1. *)
Fixpoint clear_inodeblocks (n : nat) (i : Z) : M S Z :=
  match n with
  | O => ret 0
  | Datatypes.S n' =>
      r <- write (below_ino ts) i null_block ;;
      if r <? 0 then ret (-1) else clear_inodeblocks n' (i + 1)
  end.

Definition treedisk_create (ninodes : Z) : M S Z :=
  let n_inodeblocks' := u32 (ninodes + INODES_PER_BLOCK - 1) / INODES_PER_BLOCK in
  nblocks <- getsize (below_ino ts) ;;
  let nblocks := u32 nblocks in
  if nblocks <? u32 (n_inodeblocks' + 2) then ret (-1)
  else
    '(r, sb) <- read (below_ino ts) 0 junk ;;
    if r <? 0 then ret (-1)
    else if n_inodeblocks sb =? 0 then
      let sb := set_u32 null_block 0 n_inodeblocks' in
      fl <- setup_freelist (u32 (n_inodeblocks' + 1)) nblocks ;;
      r <- write (below_ino ts) 0 (set_free_list sb fl) ;;
      if r <? 0 then ret (-1)
      else clear_inodeblocks (Z.to_nat n_inodeblocks') 1
    else ret 0.
End ops.

(** A treedisk is itself an inode store over the state of the store below. *)
Definition treedisk_store {S} `{InodeStore S} (log_rpb : Z) (junk : block)
    (ts : treedisk_state) : InodeStore S := {|
  getsize := treedisk_getsize junk ts;
  setsize := treedisk_setsize;
  read := treedisk_read log_rpb junk ts;
  write := treedisk_write log_rpb junk ts
|}.
