(* ===== verification/TreediskSpec.v ===== *)
(** What a treedisk file system promises, and how a disk represents it: the
    abstract file system (a list of files, each a list of blocks), the trees
    and the free list of file.h as functions of the raw blocks, and the
    well-formedness invariant.  No code is modelled here. *)

From Stdlib Require Import ZArith Lia Strings.Byte.
From stdpp Require Import base numbers list strings gmap.
From S2P Require Import Prelude Bytes InodeStore Treedisk.

(** ** The abstract file system *)

(** A file is the list of its blocks; a file system the list of its files,
    indexed by inode number. *)
Abbreviation file := (list block).

(** Writing past the end extends the file, with null blocks in between. *)
Definition file_write (f : file) (off : nat) (b : block) : file :=
  <[off := b]> (f ++ replicate (off + 1 - length f) null_block).

(** ** Trees and free lists on a disk *)

(** The block with number [b]; a number outside the disk reads as null. *)
Definition blk (D : gmap Z block) (b : Z) : block := default null_block (D !! b).

(** The levels of indirect blocks above data blocks whose largest offset is
    [x]: the number of digits of [x] in base 128 ([x] has 32 bits, hence at
    most 5). *)
Fixpoint depth_aux (fuel : nat) (x : Z) : nat :=
  match fuel with
  | O => O
  | S fuel' => if x =? 0 then O else S (depth_aux fuel' (x / 128))
  end.
Definition depth (x : Z) : nat := depth_aux 5 x.

(** The slot of offset [off] in an indirect block with [n] levels below. *)
Definition idx (n : nat) (off : Z) : Z := (off / 128 ^ Z.of_nat n) mod 128.

(** The data block at [off] of the tree with [n] levels rooted at [b]. *)
Fixpoint tree_lookup (D : gmap Z block) (n : nat) (b off : Z) : block :=
  if b =? 0 then null_block
  else match n with
  | O => blk D b
  | S n' => tree_lookup D n' (refs (blk D b) (idx n' off)) off
  end.

(** The number of that data block, and 0 at a hole. *)
Fixpoint tree_leaf (D : gmap Z block) (n : nat) (b off : Z) : Z :=
  if b =? 0 then 0
  else match n with
  | O => b
  | S n' => tree_leaf D n' (refs (blk D b) (idx n' off)) off
  end.

(** The blocks of the path to [off] that do not exist yet. *)
Fixpoint tree_missing (D : gmap Z block) (n : nat) (b off : Z) : nat :=
  if b =? 0 then S n
  else match n with
  | O => O
  | S n' => tree_missing D n' (refs (blk D b) (idx n' off)) off
  end.

(** All the blocks of the tree, indirect blocks included. *)
Fixpoint tree_blocks (D : gmap Z block) (n : nat) (b : Z) : list Z :=
  if b =? 0 then []
  else b :: match n with
  | O => []
  | S n' => seqZ 0 128 ≫= fun i => tree_blocks D n' (refs (blk D b) i)
  end.

(** The free references of one free list block, and the whole free list: its
    blocks and what they refer to. *)
Definition fl_refs (b : block) : list Z :=
  seqZ 1 127 ≫= fun i => if refs b i =? 0 then [] else [refs b i].
Inductive fl_rep (D : gmap Z block) : Z -> list Z -> Prop :=
| fl_nil : fl_rep D 0 []
| fl_cons b l :
    b <> 0 -> fl_rep D (refs (blk D b) 0) l ->
    fl_rep D b (b :: fl_refs (blk D b) ++ l).

(** ** Inodes on a disk *)

Definition nib (D : gmap Z block) : Z := n_inodeblocks (blk D 0).
Definition ninode (D : gmap Z block) : Z := 64 * nib D.
Definition i_blockno (ino : Z) : Z := 1 + ino / 64.
Definition i_root (D : gmap Z block) (ino : Z) : Z :=
  inode_root (blk D (i_blockno ino)) (ino mod 64).
Definition i_nblocks (D : gmap Z block) (ino : Z) : Z :=
  inode_nblocks (blk D (i_blockno ino)) (ino mod 64).
Definition levels (nblocks : Z) : nat := depth (Z.max 0 (nblocks - 1)).
Definition i_blocks (D : gmap Z block) (ino : Z) : list Z :=
  tree_blocks D (levels (i_nblocks D ino)) (i_root D ino).
Definition i_lookup (D : gmap Z block) (ino off : Z) : block :=
  tree_lookup D (levels (i_nblocks D ino)) (i_root D ino) off.

(** ** Abstraction function and invariant *)

Definition file_of (D : gmap Z block) (ino : Z) : file :=
  i_lookup D ino <$> seqZ 0 (i_nblocks D ino).
Definition fs_of (D : gmap Z block) : list file := file_of D <$> seqZ 0 (ninode D).

Definition fs_blocks (D : gmap Z block) : list Z := seqZ 0 (ninode D) ≫= i_blocks D.

(** The superblock, the inode blocks, the blocks of all the trees and the free
    blocks [F] are pairwise distinct blocks of the disk; what a tree holds
    past the end of its file is holes or null blocks. *)
Record fs_inv (sz : Z) (D : gmap Z block) (F : list Z) : Prop := {
  inv_dom b : is_Some (D !! b) <-> 0 <= b < sz;
  inv_block_ok b x : D !! b = Some x -> block_ok x;
  inv_nib : 0 <= nib D < sz;
  inv_ninode : ninode D < 2 ^ 32;
  inv_free : fl_rep D (free_list (blk D 0)) F;
  inv_nodup : NoDup (seqZ 0 (1 + nib D) ++ fs_blocks D ++ F);
  inv_range : Forall (fun b => 0 <= b < sz) (fs_blocks D ++ F);
  inv_tail ino off :
    0 <= ino < ninode D ->
    i_nblocks D ino <= off < 128 ^ Z.of_nat (levels (i_nblocks D ino)) ->
    i_lookup D ino off = null_block
}.

(** The blocks a write at [off] of file [ino] takes from the free list: the
    indirect blocks above the root, then what the path lacks. *)
Definition write_need (D : gmap Z block) (ino off : Z) : nat :=
  let n := levels (i_nblocks D ino) in
  let n' := levels (Z.max (i_nblocks D ino) (off + 1)) in
  (n' - n) + match (n' - n)%nat with
             | O => tree_missing D n (i_root D ino) off
             | S _ => n'   (* the new root exists, its slot for [off] does not *)
             end.
