(* ===== verification/TreediskTrees.v ===== *)
(** Facts about the trees and free lists of TreediskSpec.v, independent of
    any code: digits of offsets, framing, updates of one slot of a node and of
    one leaf. *)

From Stdlib Require Import ZArith Lia Strings.Byte.
From stdpp Require Import base numbers list strings gmap.
From S2P Require Import Prelude Bytes InodeStore Treedisk TreediskSpec.

(** ** Blocks *)

Lemma blk_Some D b x : D !! b = Some x -> blk D b = x.
Proof. unfold blk. by intros ->. Qed.

Lemma blk_insert D b x : blk (<[b := x]> D) b = x.
Proof. unfold blk. by rewrite lookup_insert_eq. Qed.

Lemma blk_frame D D' b : D' !! b = D !! b -> blk D' b = blk D b.
Proof. unfold blk. by intros ->. Qed.

(** ** Digits *)

Lemma pow128_pos n : 0 < 128 ^ Z.of_nat n.
Proof. apply Z.pow_pos_nonneg; lia. Qed.

Lemma pow128_S n : 128 ^ Z.of_nat (S n) = 128 ^ Z.of_nat n * 128.
Proof. rewrite Nat2Z.inj_succ, Z.pow_succ_r by lia. lia. Qed.

Lemma idx_range n off : 0 <= idx n off < 128.
Proof. apply Z.mod_pos_bound. lia. Qed.

(** The low [S n] digits are the low [n] digits and digit [n]. *)
Lemma mod128_S n off :
  off mod 128 ^ Z.of_nat (S n) = off mod 128 ^ Z.of_nat n + 128 ^ Z.of_nat n * idx n off.
Proof. pose proof (pow128_pos n). rewrite pow128_S, Z.rem_mul_r; [done|lia..]. Qed.

Lemma depth_aux_spec fuel x :
  0 <= x < 128 ^ Z.of_nat fuel ->
  x < 128 ^ Z.of_nat (depth_aux fuel x) /\
  (depth_aux fuel x <= fuel)%nat /\
  forall n, (n < depth_aux fuel x)%nat -> 128 ^ Z.of_nat n <= x.
Proof.
  revert x. induction fuel as [|fuel IH]; intros x Hx; simpl depth_aux.
  { split_and!; [lia|lia|]. intros n Hn. lia. }
  destruct (Z.eqb_spec x 0) as [->|Hne].
  { split_and!; [lia|lia|]. intros n Hn. lia. }
  rewrite pow128_S in Hx.
  destruct (IH (x / 128)) as (H1 & H2 & H3).
  { split; [apply Z.div_pos; lia|]. apply Z.div_lt_upper_bound; lia. }
  rewrite pow128_S. split_and!.
  - pose proof (Z.div_mod x 128 ltac:(lia)). pose proof (Z.mod_pos_bound x 128 ltac:(lia)). lia.
  - lia.
  - intros [|n] Hn; [simpl; lia|]. specialize (H3 n ltac:(lia)).
    rewrite pow128_S. pose proof (Z.mul_div_le x 128 ltac:(lia)). lia.
Qed.

Lemma depth_spec x :
  is_u32 x ->
  x < 128 ^ Z.of_nat (depth x) /\ (depth x <= 5)%nat /\
  forall n, (n < depth x)%nat -> 128 ^ Z.of_nat n <= x.
Proof. intros [??]. apply depth_aux_spec. change (Z.of_nat 5) with 5. lia. Qed.

Lemma depth_mono x y : is_u32 x -> is_u32 y -> x <= y -> (depth x <= depth y)%nat.
Proof.
  intros Hx Hy Hxy. destruct (depth_spec x Hx) as (_ & _ & H).
  destruct (depth_spec y Hy) as (H' & _ & _).
  destruct (decide (depth x <= depth y)%nat) as [|Hn]; [done|].
  specialize (H (depth y) ltac:(lia)). lia.
Qed.

(** ** The loops of the code compute [depth] and [idx] *)

Lemma ref_index_idx off n :
  is_u32 off -> (n <= 10)%nat -> ref_index 7 off (Z.of_nat n) = idx n off.
Proof.
  intros [Hl Hu] Hn. unfold ref_index, idx, log_shift_r, REFS_PER_BLOCK, BLOCK_SIZE.
  rewrite u32_small by (unfold is_u32; lia).
  change (512 / 4) with 128. f_equal.
  replace (128 ^ Z.of_nat n) with (2 ^ (Z.of_nat n * 7)).
  2:{ change 128 with (2 ^ 7). rewrite <- Z.pow_mul_r by lia. f_equal. lia. }
  destruct (Z.leb_spec 32 (Z.of_nat n * 7)).
  - symmetry. apply Z.div_small. split; [lia|].
    apply Z.lt_le_trans with (2 ^ 32); [lia|]. apply Z.pow_le_mono_r; lia.
  - by rewrite Z.shiftr_div_pow2 by lia.
Qed.

Lemma shift_zero x n :
  is_u32 x -> (n <= 10)%nat ->
  log_shift_r x (u32 (Z.of_nat n * 7)) = 0 <-> x < 128 ^ Z.of_nat n.
Proof.
  intros [Hl Hu] Hn. unfold log_shift_r. rewrite u32_small by (unfold is_u32; lia).
  replace (128 ^ Z.of_nat n) with (2 ^ (Z.of_nat n * 7)).
  2:{ change 128 with (2 ^ 7). rewrite <- Z.pow_mul_r by lia. f_equal. lia. }
  destruct (Z.leb_spec 32 (Z.of_nat n * 7)).
  - split; [intros _|done]. apply Z.lt_le_trans with (2 ^ 32); [lia|].
    apply Z.pow_le_mono_r; lia.
  - rewrite Z.shiftr_div_pow2 by lia. rewrite Z.div_small_iff by lia. lia.
Qed.

Lemma count_levels_loop {S} (s : S) x fuel n :
  is_u32 x -> (n <= depth x)%nat -> (depth x < n + fuel)%nat ->
  count_levels 7 fuel x (Z.of_nat n) s = Ok (Z.of_nat (depth x), s).
Proof.
  intros Hx. destruct (depth_spec x Hx) as (H1 & H2 & H3).
  revert n. induction fuel as [|fuel IH]; intros n Hn Hf; [lia|].
  cbn [count_levels]. pose proof (shift_zero x n Hx ltac:(lia)) as Hz.
  destruct (Z.eqb_spec (log_shift_r x (u32 (Z.of_nat n * 7))) 0) as [E|E].
  - apply Hz in E. destruct (decide (n < depth x)%nat) as [Hlt|].
    + specialize (H3 n Hlt). lia.
    + unfold ret. repeat f_equal. lia.
  - replace (Z.of_nat n + 1) with (Z.of_nat (Datatypes.S n)) by lia. apply IH; [|lia].
    destruct (decide (n = depth x)) as [->|]; [tauto|lia].
Qed.

Lemma count_levels_depth {S} (s : S) x :
  is_u32 x -> count_levels 7 levels_fuel x 0 s = Ok (Z.of_nat (depth x), s).
Proof.
  intros Hx. destruct (depth_spec x Hx) as (_ & H2 & _).
  apply (count_levels_loop s x levels_fuel 0); unfold levels_fuel; [done|lia..].
Qed.

(** ** Framing: a tree only depends on its own blocks *)

Lemma tree_blocks_zero D n : tree_blocks D n 0 = [].
Proof. by destruct n. Qed.
Lemma tree_lookup_zero D n off : tree_lookup D n 0 off = null_block.
Proof. by destruct n. Qed.
Lemma tree_leaf_zero D n off : tree_leaf D n 0 off = 0.
Proof. by destruct n. Qed.
Lemma tree_missing_zero D n off : tree_missing D n 0 off = S n.
Proof. by destruct n. Qed.

Lemma tree_blocks_root D n b : b <> 0 -> b ∈ tree_blocks D n b.
Proof. intros. destruct n; simpl; if_lia; apply list_elem_of_here. Qed.

Lemma tree_blocks_S D n b :
  b <> 0 -> tree_blocks D (S n) b =
  b :: (seqZ 0 128 ≫= fun i => tree_blocks D n (refs (blk D b) i)).
Proof. intros. cbn [tree_blocks]. by if_lia. Qed.

Lemma tree_lookup_S D n b off :
  b <> 0 -> tree_lookup D (S n) b off = tree_lookup D n (refs (blk D b) (idx n off)) off.
Proof. intros. simpl. by if_lia. Qed.

Lemma tree_child_blocks D n b i x :
  b <> 0 -> 0 <= i < 128 ->
  x ∈ tree_blocks D n (refs (blk D b) i) -> x ∈ tree_blocks D (S n) b.
Proof.
  intros Hb Hi Hx. rewrite tree_blocks_S by done.
  apply list_elem_of_further, list_elem_of_bind. exists i. split; [done|].
  apply elem_of_seqZ. lia.
Qed.

Lemma bind_ext_elem {A B} (f g : A -> list B) l :
  (forall x, x ∈ l -> f x = g x) -> (l ≫= f) = (l ≫= g).
Proof.
  induction l as [|a l IH]; intros H; [done|]. rewrite !bind_cons, H, IH; [done| |].
  - intros x Hx. apply H. by right.
  - by left.
Qed.

Lemma tree_blocks_frame D D' n b :
  (forall x, x ∈ tree_blocks D n b -> D' !! x = D !! x) ->
  tree_blocks D' n b = tree_blocks D n b.
Proof.
  revert b. induction n as [|n IH]; intros b H; [done|].
  destruct (decide (b = 0)) as [->|Hb]; [by rewrite !tree_blocks_zero|].
  rewrite !tree_blocks_S by done.
  rewrite (blk_frame D D' b) by (apply H; by apply tree_blocks_root).
  f_equal. apply bind_ext_elem. intros i Hi%elem_of_seqZ. apply IH.
  intros x Hx. apply H. eapply tree_child_blocks; [done| |done]. lia.
Qed.

Lemma tree_lookup_frame D D' n b off :
  (forall x, x ∈ tree_blocks D n b -> D' !! x = D !! x) ->
  tree_lookup D' n b off = tree_lookup D n b off.
Proof.
  revert b. induction n as [|n IH]; intros b H;
    (destruct (decide (b = 0)) as [->|Hb]; [by rewrite !tree_lookup_zero|]).
  - simpl. if_lia. rewrite (blk_frame D D' b); [done|]. apply H. by apply tree_blocks_root.
  - rewrite !tree_lookup_S by done.
    rewrite (blk_frame D D' b) by (apply H; by apply tree_blocks_root).
    apply IH. intros x Hx. apply H.
    eapply tree_child_blocks; [done|apply idx_range|done].
Qed.

(** ** Lists indexed by a range *)

Lemma seqZ_split lo n k :
  lo <= k < lo + n -> seqZ lo n = seqZ lo (k - lo) ++ k :: seqZ (k + 1) (lo + n - k - 1).
Proof.
  intros. replace n with ((k - lo) + (lo + n - k)) at 1 by lia.
  rewrite seqZ_app by lia. f_equal. replace (lo + (k - lo)) with k by lia.
  rewrite (seqZ_cons k) by lia. repeat f_equal; lia.
Qed.

Section bind.
Context {A : Type}.
Implicit Types f g : Z -> list A.

(** A list per index, one of which changes. *)
Lemma bind_change f g lo n k L :
  lo <= k < lo + n ->
  (forall i, lo <= i < lo + n -> i <> k -> g i = f i) ->
  g k ≡ₚ L ++ f k ->
  (seqZ lo n ≫= g) ≡ₚ L ++ (seqZ lo n ≫= f).
Proof.
  intros Hk Hne Heq. rewrite (seqZ_split lo n k) by done.
  rewrite !bind_app, !bind_cons.
  rewrite (bind_ext_elem g f (seqZ lo (k - lo))).
  2:{ intros i Hi%elem_of_seqZ. apply Hne; lia. }
  rewrite (bind_ext_elem g f (seqZ (k + 1) _)).
  2:{ intros i Hi%elem_of_seqZ. apply Hne; lia. }
  rewrite Heq, !app_assoc. do 2 apply Permutation_app_tail. apply Permutation_app_comm.
Qed.

Lemma NoDup_bind_part f lo n k :
  lo <= k < lo + n -> NoDup (seqZ lo n ≫= f) -> NoDup (f k).
Proof.
  intros Hk. rewrite (seqZ_split lo n k), bind_app, bind_cons by done.
  rewrite !list.NoDup_app. by intros (_ & _ & ? & _).
Qed.

Lemma NoDup_bind_disjoint f lo n i j x :
  lo <= i < lo + n -> lo <= j < lo + n -> i <> j ->
  NoDup (seqZ lo n ≫= f) -> x ∈ f i -> x ∉ f j.
Proof.
  intros Hi Hj Hij. rewrite (seqZ_split lo n i), bind_app, bind_cons by done.
  rewrite !list.NoDup_app. intros (_ & Hd & _ & Hd' & _) Hx Hx'.
  destruct (decide (j < i)).
  - apply (Hd x).
    + apply list_elem_of_bind. exists j. split; [done|]. apply elem_of_seqZ. lia.
    + apply elem_of_app. by left.
  - apply (Hd' x Hx). apply list_elem_of_bind. exists j. split; [done|].
    apply elem_of_seqZ. lia.
Qed.
End bind.

(** ** Changing one slot of a node *)

Section node.
Variables (D D' : gmap Z block) (n : nat) (x k c' : Z) (tib : block) (L : list Z).
Hypothesis x_nonzero : x <> 0.
Hypothesis k_range : 0 <= k < 128.
Hypothesis tib_ok : block_ok tib.
Hypothesis c'_u32 : is_u32 c'.
Hypothesis x_new : D' !! x = Some (set_u32 tib k c').
Hypothesis others : forall i y,
  0 <= i < 128 -> i <> k -> y ∈ tree_blocks D n (refs tib i) -> D' !! y = D !! y.

Lemma node_ref i : 0 <= i -> refs (blk D' x) i = if k =? i then c' else refs tib i.
Proof.
  intros. rewrite (blk_Some _ _ _ x_new). unfold refs. by apply get_set_u32_block.
Qed.

Lemma node_blocks :
  tree_blocks D' n c' ≡ₚ L ++ tree_blocks D n (refs tib k) ->
  tree_blocks D' (S n) x ≡ₚ
  x :: L ++ (seqZ 0 128 ≫= fun i => tree_blocks D n (refs tib i)).
Proof.
  intros Hk. rewrite tree_blocks_S by done. constructor.
  apply (bind_change _ _ 0 128 k); [lia| |].
  - intros i Hi Hne. rewrite node_ref by lia. if_lia.
    apply tree_blocks_frame. intros y Hy. by apply (others i).
  - rewrite node_ref by lia. by if_lia.
Qed.

Lemma node_lookup off off' :
  k = idx n off ->
  (off' mod 128 ^ Z.of_nat n <> off mod 128 ^ Z.of_nat n ->
   tree_lookup D' n c' off' = tree_lookup D n (refs tib k) off') ->
  off' mod 128 ^ Z.of_nat (S n) <> off mod 128 ^ Z.of_nat (S n) ->
  tree_lookup D' (S n) x off' = tree_lookup D n (refs tib (idx n off')) off'.
Proof.
  intros Hk Hlow Hne. rewrite tree_lookup_S by done. pose proof (idx_range n off').
  rewrite node_ref by lia. destruct (Z.eqb_spec k (idx n off')) as [E|E].
  - rewrite <- E. apply Hlow. intros Heq. apply Hne. rewrite !mod128_S. congruence.
  - apply tree_lookup_frame. intros y. apply others; congruence || lia.
Qed.

Lemma node_leaf off :
  k = idx n off -> tree_leaf D' (S n) x off = tree_leaf D' n c' off.
Proof.
  intros Hk. cbn [tree_leaf]. if_lia. rewrite <- Hk, node_ref by lia. by if_lia.
Qed.
End node.

(** ** Changing one leaf *)

Lemma tree_leaf_blocks D n b off :
  tree_leaf D n b off <> 0 -> tree_leaf D n b off ∈ tree_blocks D n b.
Proof.
  revert b. induction n as [|n IH]; intros b H;
    (destruct (decide (b = 0)) as [->|Hb]; [by rewrite tree_leaf_zero in H|]).
  - simpl. if_lia. apply list_elem_of_here.
  - cbn [tree_leaf] in *. rewrite (proj2 (Z.eqb_neq b 0)) in * by done.
    eapply tree_child_blocks; [done|apply idx_range|]. by apply IH.
Qed.

Lemma leaf_update D n b off l x :
  NoDup (tree_blocks D n b) -> tree_leaf D n b off = l -> l <> 0 ->
  tree_blocks (<[l := x]> D) n b = tree_blocks D n b /\
  forall off', tree_lookup (<[l := x]> D) n b off' =
    if off' mod 128 ^ Z.of_nat n =? off mod 128 ^ Z.of_nat n then x
    else tree_lookup D n b off'.
Proof.
  revert b. induction n as [|n IH]; intros b Hnd Hl Hl0.
  all: assert (b <> 0) as Hb by (intros ->; by rewrite tree_leaf_zero in Hl).
  { simpl in Hl. rewrite (proj2 (Z.eqb_neq b 0)) in Hl by done. subst l.
    split; [done|]. intros off'. change (128 ^ Z.of_nat 0) with 1. rewrite !Z.mod_1_r.
    simpl. if_lia. apply blk_insert. }
  rewrite tree_blocks_S in Hnd by done. apply list.NoDup_cons in Hnd as [Hb' Hnd].
  assert (tree_leaf D n (refs (blk D b) (idx n off)) off = l) as Hl'.
  { rewrite <- Hl. cbn [tree_leaf]. by if_lia. }
  pose proof (idx_range n off) as Hi.
  assert (l ∈ tree_blocks D n (refs (blk D b) (idx n off))) as Hin.
  { rewrite <- Hl'. apply tree_leaf_blocks. congruence. }
  assert (b <> l) as Hbl.
  { intros ->. apply Hb', list_elem_of_bind. exists (idx n off). split; [done|].
    apply elem_of_seqZ. lia. }
  destruct (IH (refs (blk D b) (idx n off))) as [IH1 IH2]; [|done|done|].
  { apply (NoDup_bind_part (fun i => tree_blocks D n (refs (blk D b) i)) 0 128); [lia|done]. }
  assert (blk (<[l := x]> D) b = blk D b) as Hblk.
  { apply blk_frame. by rewrite lookup_insert_ne. }
  assert (forall i y, 0 <= i < 128 -> i <> idx n off ->
    y ∈ tree_blocks D n (refs (blk D b) i) -> <[l := x]> D !! y = D !! y) as Hother.
  { intros i y Hi' Hne Hy. apply lookup_insert_ne. intros ->.
    eapply (NoDup_bind_disjoint (fun i => tree_blocks D n (refs (blk D b) i)) 0 128);
      [| | |done|apply Hin|apply Hy]; lia. }
  split.
  - rewrite !tree_blocks_S, Hblk by done. f_equal. apply bind_ext_elem.
    intros i Hi'%elem_of_seqZ. destruct (decide (i = idx n off)) as [->|]; [done|].
    apply tree_blocks_frame. intros y Hy. apply (Hother i); [lia|done..].
  - intros off'. rewrite !tree_lookup_S, Hblk, !mod128_S by done.
    pose proof (idx_range n off') as Hi'.
    pose proof (Z.mod_pos_bound off _ (pow128_pos n)).
    pose proof (Z.mod_pos_bound off' _ (pow128_pos n)).
    destruct (decide (idx n off' = idx n off)) as [E|E].
    + rewrite E, IH2.
      destruct (Z.eqb_spec (off' mod 128 ^ Z.of_nat n) (off mod 128 ^ Z.of_nat n)); by if_lia.
    + rewrite (proj2 (Z.eqb_neq _ _)) by nia.
      apply tree_lookup_frame. intros y. by apply (Hother (idx n off')).
Qed.

(** ** Free lists *)

Lemma fl_rep_frame D D' b F :
  fl_rep D b F -> (forall x, x ∈ F -> D' !! x = D !! x) -> fl_rep D' b F.
Proof.
  induction 1 as [|b l Hb _ IH]; intros Hf; [constructor|].
  assert (blk D' b = blk D b) as Hblk by (apply blk_frame, Hf, list_elem_of_here).
  rewrite <- Hblk. constructor; [done|]. rewrite Hblk. apply IH.
  intros x Hx. apply Hf. apply list_elem_of_further, elem_of_app. by right.
Qed.

Lemma scan_refs_spec fl n :
  (scan_refs fl n = 0 /\ forall j, 1 <= j < Z.of_nat n -> refs fl j = 0) \/
  (1 <= scan_refs fl n < Z.of_nat n /\ refs fl (scan_refs fl n) <> 0).
Proof.
  induction n as [|n IH]; [left; split; [done|lia]|]. cbn [scan_refs].
  destruct (Z.eqb_spec (Z.of_nat n) 0); [left; split; [done|lia]|].
  destruct (Z.eqb_spec (refs fl (Z.of_nat n)) 0) as [E|E]; [|right; split; [lia|done]].
  destruct IH as [[-> IH]|[IH1 IH2]]; [left|right; split; [lia|done]].
  split; [done|]. intros j Hj.
  destruct (decide (j = Z.of_nat n)) as [->|]; [done|]. apply IH. lia.
Qed.

Lemma fl_refs_empty fl : (forall j, 1 <= j < 128 -> refs fl j = 0) -> fl_refs fl = [].
Proof.
  intros H. unfold fl_refs. rewrite (bind_ext_elem _ (fun _ => [])).
  - generalize (seqZ 1 127). intros l. by induction l.
  - intros i Hi%elem_of_seqZ. by rewrite H by lia.
Qed.

Lemma fl_refs_take fl i :
  block_ok fl -> 1 <= i < 128 -> refs fl i <> 0 ->
  fl_refs fl ≡ₚ refs fl i :: fl_refs (set_refs fl i 0).
Proof.
  intros Hok Hi Hr. apply (bind_change _ _ 1 127 i [refs fl i]); [lia| |].
  - intros j Hj Hne. unfold refs at 3 4, set_refs.
    rewrite get_set_u32_block by (lia || done). by rewrite (proj2 (Z.eqb_neq i j)) by done.
  - rewrite (proj2 (Z.eqb_neq _ _)) by done. unfold refs at 2, set_refs.
    rewrite get_set_u32_block by (lia || done). by rewrite Z.eqb_refl.
Qed.

(** The head of a free list that has no reference left. *)
Lemma fl_rep_pop D b F :
  fl_rep D b F -> b <> 0 -> fl_refs (blk D b) = [] ->
  exists F', F = b :: F' /\ fl_rep D (refs (blk D b) 0) F'.
Proof. intros [|b' l Hb Hl] Hne He; [done|]. rewrite He. eauto. Qed.

(** The head of a free list that gives away the reference in slot [i]. *)
Lemma fl_rep_take D b F i :
  fl_rep D b F -> b <> 0 -> block_ok (blk D b) -> 1 <= i < 128 -> refs (blk D b) i <> 0 ->
  NoDup F ->
  exists F', F ≡ₚ refs (blk D b) i :: F' /\ b ∈ F' /\
    fl_rep (<[b := set_refs (blk D b) i 0]> D) b F'.
Proof.
  intros [|b' l Hb Hl] Hne Hok Hi Hr Hnd; [done|].
  exists (b' :: fl_refs (set_refs (blk D b') i 0) ++ l). split_and!.
  - rewrite (fl_refs_take _ i) by done. apply Permutation_swap.
  - apply list_elem_of_here.
  - assert (fl_refs (set_refs (blk D b') i 0) =
            fl_refs (blk (<[b' := set_refs (blk D b') i 0]> D) b')) as ->
      by by rewrite blk_insert.
    constructor; [done|]. rewrite blk_insert. unfold refs at 1, set_refs.
    rewrite get_set_u32_block by (lia || done). rewrite (proj2 (Z.eqb_neq i 0)) by lia.
    apply (fl_rep_frame D); [done|]. intros x Hx. apply lookup_insert_ne. intros ->.
    apply list.NoDup_cons in Hnd as [Hnd _]. apply Hnd, elem_of_app. by right.
Qed.

(** The slots of a null block lead nowhere. *)
Lemma null_node_blocks D n :
  (seqZ 0 128 ≫= fun i => tree_blocks D n (refs null_block i)) = [].
Proof.
  rewrite (bind_ext_elem _ (fun _ => [])).
  - generalize (seqZ 0 128). intros l. by induction l.
  - intros i _. unfold refs. by rewrite get_u32_null, tree_blocks_zero.
Qed.

(** ** Distinctness of two blocks, a list and another *)

Lemma NoDup_two (a b : Z) (T F : list Z) :
  NoDup (a :: b :: T ++ F) <->
  (a <> b /\ (a ∉ T) /\ (a ∉ F) /\ (b ∉ T) /\ (b ∉ F)) /\
  NoDup T /\ NoDup F /\ forall x, x ∈ T -> x ∉ F.
Proof. rewrite !list.NoDup_cons, list.NoDup_app, elem_of_cons, !elem_of_app. tauto. Qed.
