(* ===== verification/TreediskProof.v ===== *)
(** The functions of Treedisk.v meet the abstract file system of
    TreediskSpec.v, over any inode store that satisfies the laws of
    InodeStore.v. *)

From Stdlib Require Import ZArith Lia Strings.Byte.
From stdpp Require Import base numbers list strings gmap.
From S2P Require Import Prelude Bytes InodeStore Treedisk TreediskSpec TreediskTrees.

Section proof.
Context {S : Type} {IS : InodeStore S}.
Variable ts : treedisk_state.
Context {LAWS : InodeStoreLaws S (below_ino ts)}.
Variable junk : block.

Abbreviation sz := (store_size S (below_ino ts)).
Abbreviation dsk := (store_blocks (below_ino ts)).

Lemma blk_in s b : 0 <= b < sz -> dsk s !! b = Some (blk (dsk s) b).
Proof. intros [x Hx]%(store_dom s). by rewrite Hx, (blk_Some _ _ _ Hx). Qed.

Lemma blk_ok s b : block_ok (blk (dsk s) b).
Proof.
  unfold blk. destruct (dsk s !! b) eqn:E; [by eapply store_block_ok|apply null_block_ok].
Qed.
Local Hint Resolve blk_ok : core.

Lemma read_blk s b buf :
  0 <= b < sz ->
  exists s', read (below_ino ts) b buf s = Ok ((0, blk (dsk s) b), s') /\ dsk s' = dsk s.
Proof. intros Hb. apply read_spec. by apply blk_in. Qed.

(** Run one access of the store below: [read_at b s'] and [write_at b s']
    step over the first one of the goal and name the state after it. *)
Ltac read_at b s' HD :=
  match goal with
  | |- context [bind (read _ b ?buf) _ ?s] =>
      let H := fresh in
      destruct (read_blk s b buf) as (s' & H & HD); [|erewrite (bind_ok _ _ _ _ _ H); clear H]
  end.
Ltac write_at b s' HD :=
  match goal with
  | |- context [bind (write _ b ?x) _ ?s] =>
      let H := fresh in
      destruct (write_spec s b x) as (s' & H & HD);
      [| |erewrite (bind_ok _ _ _ _ _ H); clear H]
  end.

(** ** [treedisk_get_snapshot] *)

Lemma get_snapshot_spec s ino F :
  fs_inv sz (dsk s) F -> 0 <= ino < ninode (dsk s) ->
  exists s', treedisk_get_snapshot junk ts ino s =
    Ok (Some {| superblock := blk (dsk s) 0;
                inodeblock := blk (dsk s) (i_blockno ino);
                inode_blockno := i_blockno ino;
                inode := ino mod 64 |}, s') /\ dsk s' = dsk s.
Proof.
  intros I Hino. unfold treedisk_get_snapshot.
  pose proof (inv_nib _ _ _ I). pose proof (inv_ninode _ _ _ I).
  read_at 0 s1 E1; [lia|]. cbn beta iota. if_lia.
  change INODES_PER_BLOCK with 64. fold (nib (dsk s)).
  unfold ninode in *. rewrite u32_small by (unfold is_u32; lia). if_lia.
  assert (0 <= ino / 64 < nib (dsk s)).
  { split; [apply Z.div_pos; lia|apply Z.div_lt_upper_bound; lia]. }
  unfold i_blockno. rewrite u32_small by (unfold is_u32; lia).
  read_at (1 + ino / 64) s2 E2.
  { destruct (decide (1 + ino / 64 < sz)); [lia|]. pose proof (inv_nib _ _ _ I). lia. }
  cbn beta iota. if_lia. rewrite E1. exists s2. split; [done|]. congruence.
Qed.

Lemma get_snapshot_bad s ino F :
  fs_inv sz (dsk s) F -> ninode (dsk s) <= ino ->
  exists s', treedisk_get_snapshot junk ts ino s = Ok (None, s') /\ dsk s' = dsk s.
Proof.
  intros I Hino. unfold treedisk_get_snapshot.
  pose proof (inv_nib _ _ _ I). pose proof (inv_ninode _ _ _ I).
  read_at 0 s1 E1; [lia|]. cbn beta iota. if_lia.
  change INODES_PER_BLOCK with 64. fold (nib (dsk s)).
  unfold ninode in *. rewrite u32_small by (unfold is_u32; lia). if_lia.
  eauto.
Qed.

(** ** [treedisk_alloc_block] *)

(** What [treedisk_alloc_block] and everything after it rely on: the
    superblock of the snapshot is the one on disk, and heads the free list. *)
Record alloc_ok (s : S) (sn : treedisk_snapshot) (F : list Z) : Prop := {
  ao_super : dsk s !! 0 = Some (superblock sn);
  ao_free : fl_rep (dsk s) (free_list (superblock sn)) F;
  ao_nodup : NoDup (0 :: F);
  ao_range : Forall (fun b => 0 <= b < sz) F
}.

Lemma alloc_ok_super_ok s sn F : alloc_ok s sn F -> block_ok (superblock sn).
Proof. intros [H _ _ _]. by eapply store_block_ok. Qed.

Lemma alloc_full s sn :
  alloc_ok s sn [] ->
  treedisk_alloc_block junk ts sn s = Fatal "treedisk_alloc_block: inode store is full".
Proof.
  intros A. unfold treedisk_alloc_block. pose proof (ao_free _ _ _ A) as Hf.
  inversion Hf. by rewrite Z.eqb_refl.
Qed.

Lemma alloc_spec s sn F :
  alloc_ok s sn F -> F <> [] ->
  exists b sn' s' F',
    treedisk_alloc_block junk ts sn s = Ok ((b, sn'), s') /\
    F ≡ₚ b :: F' /\ alloc_ok s' sn' F' /\
    (forall x, x ∉ 0 :: F' -> dsk s' !! x = dsk s !! x) /\
    n_inodeblocks (superblock sn') = n_inodeblocks (superblock sn) /\
    inodeblock sn' = inodeblock sn /\ inode_blockno sn' = inode_blockno sn /\
    inode sn' = inode sn.
Proof.
  intros A HF. pose proof (alloc_ok_super_ok _ _ _ A) as Hsb. destruct A as [Hs Hf Hnd Hr].
  unfold treedisk_alloc_block. set (h := free_list (superblock sn)) in *.
  assert (h <> 0 /\ h ∈ F) as [Hh HhF].
  { destruct Hf; [done|]. split; [done|apply list_elem_of_here]. }
  assert (0 <= h < sz) as Hhr by (rewrite Forall_forall in Hr; by apply Hr).
  assert (0 <= 0 < sz) as H0 by lia.
  rewrite (proj2 (Z.eqb_neq h 0)) by done. read_at h s1 E1; [done|]. cbn beta iota.
  apply list.NoDup_cons in Hnd as [HF0 Hnd].
  change (Z.to_nat REFS_PER_BLOCK) with 128%nat.
  destruct (scan_refs_spec (blk (dsk s) h) 128) as [[Ei Hz]|[Hi Hne]].
  - rewrite Ei, Z.eqb_refl.
    destruct (fl_rep_pop _ _ _ Hf Hh) as (F' & -> & Hf'); [by apply fl_refs_empty|].
    pose proof Hnd as [HhF' Hnd']%list.NoDup_cons.
    write_at 0 s2 E2; [unfold set_free_list; auto with egos lia|done|]. cbn beta iota. if_lia.
    rewrite E1 in E2.
    eexists h, _, s2, F'. split; [reflexivity|]. split; [done|]. split.
    + split; simpl.
      * rewrite E2. by rewrite lookup_insert_eq.
      * rewrite E2. unfold free_list, set_free_list.
        rewrite get_set_u32_block by (auto with egos lia). simpl.
        apply (fl_rep_frame (dsk s)); [done|]. intros x Hx. apply lookup_insert_ne.
        intros <-. apply HF0. by right.
      * constructor; [|done]. intros H0F. apply HF0. by right.
      * by apply Forall_cons in Hr as [_ ?].
    + split_and!; try done.
      * intros x Hx. rewrite E2. apply lookup_insert_ne. intros <-. apply Hx. by left.
      * simpl. unfold n_inodeblocks, set_free_list.
        by rewrite get_set_u32_block by (auto with egos lia).
  - change (Z.of_nat 128) with 128 in Hi. set (i := scan_refs _ _) in *.
    rewrite (proj2 (Z.eqb_neq i 0)) by lia.
    destruct (fl_rep_take _ _ _ i Hf Hh) as (F' & HP & HhF' & Hf'); [done..|].
    write_at h s2 E2; [unfold set_refs; auto with egos lia|done|]. cbn beta iota. if_lia.
    rewrite E1 in E2.
    eexists _, sn, s2, F'. split; [reflexivity|]. split; [done|]. split.
    + rewrite HP in HF0, Hr, Hnd. split.
      * rewrite E2. rewrite lookup_insert_ne by congruence. done.
      * by rewrite E2.
      * constructor; [|by apply list.NoDup_cons in Hnd as [_ ?]].
        intros ?. apply HF0. by right.
      * by apply Forall_cons in Hr as [_ ?].
    + split_and!; try done. intros x Hx. rewrite E2. apply lookup_insert_ne.
      intros <-. apply Hx. by right.
Qed.

(** Writes elsewhere do not disturb the free list. *)
Lemma alloc_ok_frame s s' sn F :
  alloc_ok s sn F -> (forall x, x ∈ 0 :: F -> dsk s' !! x = dsk s !! x) ->
  alloc_ok s' sn F.
Proof.
  intros [Hs Hf Hn Hr] Hfr. split; [|eapply fl_rep_frame; [done|]|done..].
  - rewrite Hfr; [done|]. by left.
  - intros x Hx. apply Hfr. by right.
Qed.

(** Only the superblock of the snapshot matters. *)
Lemma alloc_ok_snap s sn sn' F :
  alloc_ok s sn F -> superblock sn' = superblock sn -> alloc_ok s sn' F.
Proof. intros [? ? ? ?] E. by split; rewrite ?E. Qed.

(** ** The walk of [treedisk_write] *)

Definition in_disk (b : Z) : Prop := 0 <= b < sz.

(** What the walk leaves behind, for a subtree of [n] levels that hangs from
    word [pi] of the block [pb], number [po]. *)
Record walked (n : nat) (s s' : S) (pb : block) (pi po off b c' : Z)
    (L F F' : list Z) (sn sn' : treedisk_snapshot) : Prop := {
  wk_free : F ≡ₚ L ++ F';
  wk_need : length L = tree_missing (dsk s) n (get_u32 pb pi) off;
  wk_alloc : alloc_ok s' sn' F';
  wk_nib : n_inodeblocks (superblock sn') = n_inodeblocks (superblock sn);
  wk_root : is_u32 c' /\ c' <> 0;
  wk_parent : dsk s' !! po = Some (set_u32 pb pi c');
  wk_blocks : tree_blocks (dsk s') n c' ≡ₚ L ++ tree_blocks (dsk s) n (get_u32 pb pi);
  wk_frame x :
    x ∉ 0 :: po :: tree_blocks (dsk s) n (get_u32 pb pi) ++ F -> dsk s' !! x = dsk s !! x;
  wk_leaf : tree_leaf (dsk s') n c' off = b /\ b <> 0;
  wk_lookup off' :
    off' mod 128 ^ Z.of_nat n <> off mod 128 ^ Z.of_nat n ->
    tree_lookup (dsk s') n c' off' = tree_lookup (dsk s) n (get_u32 pb pi) off'
}.

(** The state in which the walk may start. *)
Record walkable (n : nat) (s : S) (pb : block) (pi po off : Z) (F : list Z)
    (sn : treedisk_snapshot) : Prop := {
  wa_alloc : alloc_ok s sn F;
  wa_block : block_ok pb;
  wa_idx : 0 <= pi < 128;
  wa_po : in_disk po;
  wa_nodup : NoDup (0 :: po :: tree_blocks (dsk s) n (get_u32 pb pi) ++ F);
  wa_range : Forall in_disk (tree_blocks (dsk s) n (get_u32 pb pi));
  wa_parent : get_u32 pb pi <> 0 -> dsk s !! po = Some pb;
  wa_off : is_u32 off;
  wa_levels : (n <= 10)%nat
}.

(** One step down through an existing indirect block. *)
Lemma walkable_down m s s1 pb pi po off F sn :
  walkable (Datatypes.S m) s pb pi po off F sn -> get_u32 pb pi <> 0 -> dsk s1 = dsk s ->
  walkable m s1 (blk (dsk s) (get_u32 pb pi)) (idx m off) (get_u32 pb pi) off F sn.
Proof.
  intros W Hc E. destruct W as [A Hb Hi Hpo Hnd Hr Hp Ho Hn]. set (c := get_u32 pb pi) in *.
  apply NoDup_two in Hnd as ((_ & H0T & H0F & _ & _) & HndT & HndF & Hd).
  pose proof (idx_range m off) as Hidx.
  assert (forall x, x ∈ tree_blocks (dsk s) m (refs (blk (dsk s) c) (idx m off)) ->
                    x ∈ tree_blocks (dsk s) (Datatypes.S m) c) as Hsub.
  { intros x. by apply tree_child_blocks. }
  rewrite Forall_forall in Hr.
  split; try done; try lia; rewrite ?E.
  - eapply alloc_ok_frame; [done|]. intros. by rewrite E.
  - apply Hr. by apply tree_blocks_root.
  - rewrite tree_blocks_S in HndT by done. apply list.NoDup_cons in HndT as [HcT HndT].
    apply NoDup_two. split_and!; try done; auto.
    + intros Hx. apply HcT, list_elem_of_bind. exists (idx m off). split; [done|].
      apply elem_of_seqZ. lia.
    + apply Hd. by apply tree_blocks_root.
    + eapply (NoDup_bind_part (fun i => tree_blocks (dsk s) m (refs (blk (dsk s) c) i)));
        [|done]. lia.
  - apply Forall_forall. auto.
  - intros _. apply blk_in. apply Hr. by apply tree_blocks_root.
Qed.

Lemma walked_down m s s1 s' pb pi po off b c' L F F' sn sn' :
  walkable (Datatypes.S m) s pb pi po off F sn -> get_u32 pb pi <> 0 -> dsk s1 = dsk s ->
  walked m s1 s' (blk (dsk s) (get_u32 pb pi)) (idx m off) (get_u32 pb pi) off b c' L F F' sn sn' ->
  walked (Datatypes.S m) s s' pb pi po off b (get_u32 pb pi) L F F' sn sn'.
Proof.
  intros W Hc E K. destruct W as [A Hb Hi Hpo Hnd Hr Hp Ho Hn]. set (c := get_u32 pb pi) in *.
  destruct K as [K1 K2 K3 K4 [K5 K5'] K6 K7 K8 [K9 K9'] K10].
  rewrite E in *. fold (refs (blk (dsk s) c) (idx m off)) in *.
  apply NoDup_two in Hnd as ((H0p & H0T & H0F & HpT & HpF) & HndT & HndF & Hd).
  pose proof (idx_range m off) as Hidx.
  assert (forall i y, 0 <= i < 128 -> i <> idx m off ->
    y ∈ tree_blocks (dsk s) m (refs (blk (dsk s) c) i) -> dsk s' !! y = dsk s !! y) as Hoth.
  { intros i y Hi' Hne Hy. apply K8.
    assert (y ∈ tree_blocks (dsk s) (Datatypes.S m) c) as HyT by by eapply tree_child_blocks.
    rewrite tree_blocks_S in HndT by done. apply list.NoDup_cons in HndT as [HcT HndT].
    rewrite !not_elem_of_cons, not_elem_of_app. split_and!.
    - by intros ->.
    - intros ->. apply HcT, list_elem_of_bind. exists i. split; [done|].
      apply elem_of_seqZ. lia.
    - apply (NoDup_bind_disjoint (fun i => tree_blocks (dsk s) m (refs (blk (dsk s) c) i))
               0 128 i); [lia..|done|done].
    - by apply Hd. }
  split; try done.
  - rewrite K2. cbn [tree_missing]. by if_lia.
  - split; [apply get_u32_range|done].
  - unfold c. rewrite set_get_u32 by (unfold block_ok, BLOCK_SIZE in Hb; lia).
    transitivity (dsk s !! po); [|by apply Hp].
    apply K8. rewrite !not_elem_of_cons, not_elem_of_app. split_and!; [done| | |done].
    + intros ->. apply HpT. by apply tree_blocks_root.
    + intros Hx. apply HpT. by eapply tree_child_blocks.
  - rewrite (node_blocks (dsk s) (dsk s') m c (idx m off) c' (blk (dsk s) c) L); try done.
    rewrite tree_blocks_S by done. apply Permutation_middle.
  - intros x Hx. apply K8. rewrite !not_elem_of_cons, not_elem_of_app in *.
    destruct Hx as (? & ? & HxT & ?). split_and!; [done| | |done].
    + intros ->. apply HxT. by apply tree_blocks_root.
    + intros Hx. apply HxT. by eapply tree_child_blocks.
  - split; [|done]. rewrite <- K9.
    by apply (node_leaf (dsk s') m c (idx m off) c' (blk (dsk s) c)).
  - intros off' Hoff'. rewrite (tree_lookup_S (dsk s)) by done.
    by apply (node_lookup (dsk s) (dsk s') m c (idx m off) c' (blk (dsk s) c)) with off; auto.
Qed.

(** A block taken from the free list and hung from its parent. *)
Record fresh (s s2 : S) (pb : block) (pi po b : Z) (F F' : list Z)
    (sn sn' : treedisk_snapshot) : Prop := {
  fr_free : F ≡ₚ b :: F';
  fr_alloc : alloc_ok s2 sn' F';
  fr_nib : n_inodeblocks (superblock sn') = n_inodeblocks (superblock sn);
  fr_parent : dsk s2 !! po = Some (set_u32 pb pi b);
  fr_frame x : x ∉ 0 :: po :: F' -> dsk s2 !! x = dsk s !! x;
  fr_block : in_disk b /\ is_u32 b /\ b <> 0 /\ b <> po /\ (b ∉ F') /\ (po ∉ 0 :: F')
}.

Lemma fresh_step n s pb pi po off F sn :
  walkable n s pb pi po off F sn -> get_u32 pb pi = 0 -> F <> [] ->
  exists b sn' s1 s2 F',
    treedisk_alloc_block junk ts sn s = Ok ((b, sn'), s1) /\
    write (below_ino ts) po (set_u32 pb pi b) s1 = Ok (0, s2) /\
    fresh s s2 pb pi po b F F' sn sn'.
Proof.
  intros [A Hb Hi Hpo Hnd Hr Hp Ho Hn] Hc HF.
  rewrite Hc, tree_blocks_zero in Hnd. apply NoDup_two in Hnd as ((H0p & _ & _ & _ & HpF) & _).
  pose proof (ao_range _ _ _ A) as HrF. pose proof (ao_nodup _ _ _ A) as HndF.
  destruct (alloc_spec s sn F A HF) as (b & sn' & s1 & F' & E1 & HP & A' & Hfr & Hnib & _).
  destruct (write_spec s1 po (set_u32 pb pi b)) as (s2 & E2 & ED2); [auto with egos|done|].
  exists b, sn', s1, s2, F'. split_and!; [done..|].
  rewrite HP in HrF, HndF, HpF. apply Forall_cons in HrF as [Hbr _].
  rewrite not_elem_of_cons in HpF. destruct HpF as [Hpb HpF'].
  apply list.NoDup_cons in HndF as [H0 HndF]. apply list.NoDup_cons in HndF as [HbF' _].
  rewrite not_elem_of_cons in H0. destruct H0 as [H0b H0F'].
  pose proof store_size_range (S := S) (ino := below_ino ts).
  assert (po ∉ 0 :: F') as Hpo' by (rewrite not_elem_of_cons; auto).
  split; try done.
  - eapply alloc_ok_frame; [done|]. intros x Hx. rewrite ED2. apply lookup_insert_ne.
    by intros ->.
  - rewrite ED2. by rewrite lookup_insert_eq.
  - intros x Hx. rewrite ED2. rewrite !not_elem_of_cons in Hx.
    rewrite lookup_insert_ne by (intros ->; tauto). apply Hfr. rewrite not_elem_of_cons. tauto.
  - split_and!; auto. unfold is_u32. lia.
Qed.

(** The data block itself was missing. *)
Lemma walked_fresh_leaf s s2 pb pi po off b F F' sn sn' :
  get_u32 pb pi = 0 -> fresh s s2 pb pi po b F F' sn sn' ->
  walked 0 s s2 pb pi po off b b [b] F F' sn sn'.
Proof.
  intros Hc [HF A Hn Hp Hfr (Hd & Hu & H0 & _)].
  split; rewrite ?Hc, ?tree_blocks_zero; try done.
  - simpl. by if_lia.
  - intros x Hx. apply Hfr. rewrite HF in Hx. simpl in Hx.
    rewrite !not_elem_of_cons in Hx. rewrite !not_elem_of_cons. tauto.
  - split; [|done]. simpl. by if_lia.
  - intros off' Hne. by rewrite !Z.mod_1_r in Hne.
Qed.

Lemma walkable_fresh m s s2 pb pi po b off F F' sn sn' :
  walkable (Datatypes.S m) s pb pi po off F sn -> fresh s s2 pb pi po b F F' sn sn' ->
  walkable m s2 null_block (idx m off) b off F' sn'.
Proof.
  intros W [HF A Hn Hp Hfr (Hd & Hu & H0 & Hbp & HbF & HpF)].
  destruct W as [_ _ _ _ _ _ _ Ho Hl].
  split; rewrite ?get_u32_null, ?tree_blocks_zero; try done; auto with egos.
  - apply idx_range.
  - simpl. pose proof (ao_nodup _ _ _ A) as HndF. apply list.NoDup_cons in HndF as [H0F HndF].
    rewrite !list.NoDup_cons, not_elem_of_cons. auto.
  - lia.
Qed.

(** An indirect block was missing. *)
Lemma walked_fresh_node m s s2 s3 pb pi po off b b2 c' L F F' F'' sn sn' sn'' :
  get_u32 pb pi = 0 -> fresh s s2 pb pi po b F F' sn sn' ->
  walked m s2 s3 null_block (idx m off) b off b2 c' L F' F'' sn' sn'' ->
  walked (Datatypes.S m) s s3 pb pi po off b2 b (b :: L) F F'' sn sn''.
Proof.
  intros Hc [HF A Hn Hp Hfr (Hd & Hu & H0 & Hbp & HbF & HpF)]
    [K1 K2 K3 K4 [K5 K5'] K6 K7 K8 [K9 K9'] K10].
  rewrite get_u32_null in *. rewrite tree_blocks_zero in *. simpl in K8.
  rewrite not_elem_of_cons in HpF. destruct HpF as [Hp0 HpF].
  pose proof (idx_range m off) as Hidx.
  assert (forall i y, y ∈ tree_blocks (dsk s) m (refs null_block i) ->
    dsk s3 !! y = dsk s !! y) as Hoth.
  { intros i y. unfold refs. rewrite get_u32_null, tree_blocks_zero.
    by intros ?%not_elem_of_nil. }
  split; rewrite ?Hc, ?tree_blocks_zero; try done.
  - by rewrite HF, K1.
  - simpl. rewrite K2, tree_missing_zero. done.
  - congruence.
  - rewrite K8; [done|]. rewrite !not_elem_of_cons. auto.
  - rewrite (node_blocks (dsk s) (dsk s3) m b (idx m off) c' null_block L);
      [|done|done|apply null_block_ok|done|done|eauto|].
    + rewrite null_node_blocks. by rewrite !app_nil_r.
    + unfold refs. by rewrite get_u32_null, tree_blocks_zero.
  - intros x Hx. simpl in Hx. rewrite HF in Hx. rewrite !not_elem_of_cons in Hx.
    rewrite K8, Hfr; [done|..]; rewrite !not_elem_of_cons; tauto.
  - split; [|done]. rewrite <- K9.
    apply (node_leaf (dsk s3) m b (idx m off) c' null_block); auto with egos.
  - intros off' Hne. rewrite tree_lookup_zero.
    rewrite (node_lookup (dsk s) (dsk s3) m b (idx m off) c' null_block) with (off := off);
      [|done|done|apply null_block_ok|done|done|eauto|done| |done].
    + unfold refs. by rewrite get_u32_null, tree_lookup_zero.
    + intros Hne'. unfold refs. rewrite get_u32_null, tree_lookup_zero, K10 by done.
      by rewrite tree_lookup_zero.
Qed.

Lemma write_walk_spec n s pb pi po off F snap :
  walkable n s pb pi po off F snap ->
  (tree_missing (dsk s) n (get_u32 pb pi) off <= length F)%nat ->
  exists b s' snap' c' L F',
    write_walk 7 junk ts n snap pb pi po off s = Ok (b, s') /\
    walked n s s' pb pi po off b c' L F F' snap snap'.
Proof.
  revert s pb pi po F snap. induction n as [|n IH]; intros s pb pi po F snap W Hm.
  all: cbn [write_walk]; destruct (Z.eqb_spec (get_u32 pb pi) 0) as [E|E].
  1,3: rewrite E, tree_missing_zero in Hm;
    destruct (fresh_step _ s pb pi po off F snap W E) as (b & snap' & s1 & s2 & F' & E1 & E2 & HF);
    [by intros ->; simpl in Hm; lia|];
    rewrite (bind_ok _ _ _ _ _ E1); cbn beta iota;
    rewrite (bind_ok _ _ _ _ _ E2); if_lia.
  - exists b, s2, snap', b, [b], F'. split; [done|]. by apply walked_fresh_leaf.
  - rewrite ref_index_idx by (destruct W; done || lia).
    destruct (IH s2 null_block (idx n off) b F' snap') as (b2 & s3 & sn3 & c' & L & F'' & E3 & K).
    { by eapply walkable_fresh. }
    { rewrite get_u32_null, tree_missing_zero. pose proof (fr_free _ _ _ _ _ _ _ _ _ _ HF) as HP.
      apply Permutation_length in HP. simpl in HP. lia. }
    exists b2, s3, sn3, b, (b :: L), F''. split; [done|]. by eapply walked_fresh_node.
  - exists (get_u32 pb pi), s, snap, (get_u32 pb pi), [], F. split; [done|].
    destruct W as [A Hb Hi Hpo Hnd Hr Hp Ho Hl].
    split; simpl; try done; try by if_lia.
    + split; [apply get_u32_range|done].
    + rewrite set_get_u32 by (unfold block_ok, BLOCK_SIZE in Hb; lia). auto.
  - rewrite ref_index_idx by (destruct W; done || lia).
    destruct (read_blk s (get_u32 pb pi) junk) as (s1 & E1 & ED).
    { destruct W as [_ _ _ _ _ Hr _ _ _]. rewrite Forall_forall in Hr.
      apply Hr. by apply tree_blocks_root. }
    rewrite (bind_ok _ _ _ _ _ E1). cbn beta iota. if_lia.
    destruct (IH s1 (blk (dsk s) (get_u32 pb pi)) (idx n off) (get_u32 pb pi) F snap)
      as (b2 & s3 & sn3 & c' & L & F'' & E3 & K).
    { by eapply walkable_down. }
    { rewrite ED. cbn [tree_missing] in Hm. by rewrite (proj2 (Z.eqb_neq _ _)) in Hm by done. }
    exists b2, s3, sn3, (get_u32 pb pi), L, F''. split; [done|]. by eapply walked_down.
Qed.

(** The free list runs out on the way. *)
Lemma write_walk_full n s pb pi po off F snap :
  walkable n s pb pi po off F snap ->
  (length F < tree_missing (dsk s) n (get_u32 pb pi) off)%nat ->
  write_walk 7 junk ts n snap pb pi po off s =
    Fatal "treedisk_alloc_block: inode store is full".
Proof.
  revert s pb pi po F snap. induction n as [|n IH]; intros s pb pi po F snap W Hm.
  all: cbn [write_walk]; destruct (Z.eqb_spec (get_u32 pb pi) 0) as [E|E].
  1,3: rewrite E, tree_missing_zero in Hm; destruct (decide (F = [])) as [->|HF];
    [apply bind_fatal, alloc_full; by destruct W|].
  - destruct F; [done|simpl in Hm; lia].
  - destruct (fresh_step _ s pb pi po off F snap W E HF)
      as (b & snap' & s1 & s2 & F' & E1 & E2 & HFr).
    rewrite (bind_ok _ _ _ _ _ E1); cbn beta iota.
    rewrite (bind_ok _ _ _ _ _ E2); if_lia.
    rewrite ref_index_idx by (destruct W; done || lia).
    apply IH with F'; [by eapply walkable_fresh|].
    rewrite get_u32_null, tree_missing_zero.
    pose proof (fr_free _ _ _ _ _ _ _ _ _ _ HFr) as HP.
    apply Permutation_length in HP. simpl in HP. lia.
  - simpl in Hm. rewrite (proj2 (Z.eqb_neq _ _)) in Hm by done. lia.
  - rewrite ref_index_idx by (destruct W; done || lia).
    destruct (read_blk s (get_u32 pb pi) junk) as (s1 & E1 & ED).
    { destruct W as [_ _ _ _ _ Hr _ _ _]. rewrite Forall_forall in Hr.
      apply Hr. by apply tree_blocks_root. }
    rewrite (bind_ok _ _ _ _ _ E1). cbn beta iota. if_lia.
    apply IH with F; [by eapply walkable_down|].
    rewrite ED. cbn [tree_missing] in Hm. by rewrite (proj2 (Z.eqb_neq _ _)) in Hm by done.
Qed.
End proof.
