(* ===== verification/TreediskUpdate.v ===== *)
(** The pure part of the correctness of a write: a disk on which one file has
    been updated represents the updated abstract file system. *)

From Stdlib Require Import ZArith Lia Strings.Byte.
From stdpp Require Import base numbers list strings gmap.
From S2P Require Import Prelude Bytes InodeStore Treedisk TreediskSpec TreediskTrees.

(** ** Ranges as lists *)

Lemma fmap_seqZ_lookup {A} (f : Z -> A) n i :
  (f <$> seqZ 0 n) !! i = if Z.of_nat i <? n then Some (f (Z.of_nat i)) else None.
Proof.
  rewrite list_lookup_fmap. destruct (Z.ltb_spec (Z.of_nat i) n).
  - rewrite lookup_seqZ_lt by lia. simpl. by rewrite Z.add_0_l.
  - by rewrite lookup_seqZ_ge by lia.
Qed.

Lemma length_file_of D ino : length (file_of D ino) = Z.to_nat (i_nblocks D ino).
Proof. unfold file_of. by rewrite length_fmap, length_seqZ. Qed.

Lemma file_of_lookup D ino off :
  0 <= off -> file_of D ino !! Z.to_nat off =
  if off <? i_nblocks D ino then Some (i_lookup D ino off) else None.
Proof. intros. unfold file_of. rewrite fmap_seqZ_lookup, Z2Nat.id by lia. done. Qed.

Lemma fs_of_lookup D ino :
  0 <= ino < ninode D -> fs_of D !! Z.to_nat ino = Some (file_of D ino).
Proof.
  intros. unfold fs_of. rewrite fmap_seqZ_lookup, Z2Nat.id by lia.
  by rewrite (proj2 (Z.ltb_lt _ _)) by lia.
Qed.

Lemma fs_of_none D ino : ninode D <= ino -> 0 <= ino -> fs_of D !! Z.to_nat ino = None.
Proof.
  intros. unfold fs_of. rewrite fmap_seqZ_lookup, Z2Nat.id by lia.
  by rewrite (proj2 (Z.ltb_ge _ _)) by lia.
Qed.

Lemma i_nblocks_u32 D ino : is_u32 (i_nblocks D ino).
Proof. apply get_u32_range. Qed.

Lemma levels_bound nb : is_u32 nb -> nb <= 128 ^ Z.of_nat (levels nb) /\ (levels nb <= 5)%nat.
Proof.
  intros Hnb. unfold levels, is_u32 in *.
  destruct (depth_spec (Z.max 0 (nb - 1))) as (H1 & H2 & _); [unfold is_u32; lia|].
  split; [lia|done].
Qed.

(** ** A disk where the file [ino] was written at [off] *)

Record updated (D D' : gmap Z block) (ino off : Z) (b : block) (L F F' : list Z) : Prop := {
  up_nib : nib D' = nib D;
  up_free : fl_rep D' (free_list (blk D' 0)) F';
  up_taken : F ≡ₚ L ++ F';
  up_nblocks : i_nblocks D' ino = Z.max (i_nblocks D ino) (off + 1);
  up_blocks : i_blocks D' ino ≡ₚ L ++ i_blocks D ino;
  up_lookup off' :
    0 <= off' < 128 ^ Z.of_nat (levels (Z.max (i_nblocks D ino) (off + 1))) ->
    i_lookup D' ino off' =
      if off' =? off then b
      else if off' <? 128 ^ Z.of_nat (levels (i_nblocks D ino)) then i_lookup D ino off'
      else null_block;
  up_inode j :
    0 <= j < ninode D -> j <> ino ->
    i_root D' j = i_root D j /\ i_nblocks D' j = i_nblocks D j;
  up_frame j x :
    0 <= j < ninode D -> j <> ino -> x ∈ i_blocks D j -> D' !! x = D !! x
}.

Section updated.
Variables (sz : Z) (D D' : gmap Z block) (ino off : Z) (b : block) (L F F' : list Z).
Hypothesis I : fs_inv sz D F.
Hypothesis U : updated D D' ino off b L F F'.
Hypothesis ino_range : 0 <= ino < ninode D.
Hypothesis off_range : 0 <= off /\ off + 1 < 2 ^ 32.

Lemma up_other j :
  0 <= j < ninode D -> j <> ino ->
  i_blocks D' j = i_blocks D j /\ file_of D' j = file_of D j /\
  forall off', i_lookup D' j off' = i_lookup D j off'.
Proof.
  intros Hj Hne. destruct (up_inode _ _ _ _ _ _ _ _ U j Hj Hne) as [Hr Hn].
  assert (forall off', i_lookup D' j off' = i_lookup D j off') as Hl.
  { intros off'. unfold i_lookup. rewrite Hr, Hn. apply tree_lookup_frame.
    intros x. by apply (up_frame _ _ _ _ _ _ _ _ U). }
  split_and!; [| |done].
  - unfold i_blocks. rewrite Hr, Hn. apply tree_blocks_frame.
    intros x. by apply (up_frame _ _ _ _ _ _ _ _ U).
  - unfold file_of. rewrite Hn. apply list_fmap_ext. intros i x _. apply Hl.
Qed.

Lemma up_fs_blocks : fs_blocks D' ≡ₚ L ++ fs_blocks D.
Proof.
  unfold fs_blocks, ninode. rewrite (up_nib _ _ _ _ _ _ _ _ U). fold (ninode D).
  apply (bind_change _ _ 0 (ninode D) ino); [lia| |apply (up_blocks _ _ _ _ _ _ _ _ U)].
  intros j Hj Hne. apply up_other; [lia|done].
Qed.

Lemma up_tail_ino off' :
  i_nblocks D ino <= off' -> 0 <= off' ->
  off' < 128 ^ Z.of_nat (levels (i_nblocks D ino)) -> i_lookup D ino off' = null_block.
Proof. intros. apply (inv_tail _ _ _ I); [done|lia]. Qed.

Lemma updated_file : file_of D' ino = file_write (file_of D ino) (Z.to_nat off) b.
Proof.
  pose proof (i_nblocks_u32 D ino) as [Hn0 Hn1].
  assert (is_u32 (Z.max (i_nblocks D ino) (off + 1))) as Hmax by (unfold is_u32; lia).
  destruct (levels_bound _ Hmax) as [HB _].
  apply list_eq. intros i. unfold file_write.
  unfold file_of at 1. rewrite fmap_seqZ_lookup, (up_nblocks _ _ _ _ _ _ _ _ U).
  rewrite list_lookup_insert, length_app, length_replicate, length_file_of.
  destruct (Z.ltb_spec (Z.of_nat i) (Z.max (i_nblocks D ino) (off + 1))) as [Hi|Hi]; cycle 1.
  { rewrite decide_False by lia. symmetry. apply lookup_ge_None_2.
    rewrite length_app, length_replicate, length_file_of. lia. }
  rewrite (up_lookup _ _ _ _ _ _ _ _ U) by lia.
  destruct (Z.eqb_spec (Z.of_nat i) off) as [Ho|Ho].
  { by rewrite decide_True by lia. }
  rewrite decide_False by lia.
  destruct (decide (Z.of_nat i < i_nblocks D ino)) as [Hlt|Hge].
  - destruct (levels_bound (i_nblocks D ino)) as [HB' _]; [done|]. if_lia.
    rewrite lookup_app_l by (rewrite length_file_of; lia).
    unfold file_of. rewrite fmap_seqZ_lookup. by rewrite (proj2 (Z.ltb_lt _ _)) by lia.
  - rewrite lookup_app_r, length_file_of by (rewrite length_file_of; lia).
    rewrite lookup_replicate_2 by lia. f_equal.
    destruct (Z.ltb_spec (Z.of_nat i) (128 ^ Z.of_nat (levels (i_nblocks D ino)))); [|done].
    apply up_tail_ino; lia.
Qed.

Lemma updated_fs :
  fs_of D' = <[Z.to_nat ino := file_write (file_of D ino) (Z.to_nat off) b]> (fs_of D).
Proof.
  apply list_eq. intros i. unfold fs_of at 1.
  rewrite fmap_seqZ_lookup. unfold ninode at 1. rewrite (up_nib _ _ _ _ _ _ _ _ U).
  fold (ninode D). rewrite list_lookup_insert. unfold fs_of.
  rewrite length_fmap, length_seqZ, fmap_seqZ_lookup.
  destruct (Z.ltb_spec (Z.of_nat i) (ninode D)); cycle 1.
  { by rewrite decide_False by lia. }
  destruct (decide (Z.of_nat i = ino)) as [E|Hne].
  - rewrite E, decide_True by lia. f_equal. apply updated_file.
  - rewrite decide_False by lia. f_equal. apply up_other; lia.
Qed.

Lemma updated_inv :
  (forall x, is_Some (D' !! x) <-> 0 <= x < sz) ->
  (forall x y, D' !! x = Some y -> block_ok y) ->
  fs_inv sz D' F'.
Proof.
  intros Hdom Hok.
  assert (ninode D' = ninode D) as Hni.
  { unfold ninode. by rewrite (up_nib _ _ _ _ _ _ _ _ U). }
  pose proof (i_nblocks_u32 D ino) as [Hn0 Hn1].
  destruct (levels_bound (i_nblocks D ino)) as [HB _]; [done|].
  split; try done.
  - rewrite (up_nib _ _ _ _ _ _ _ _ U). apply (inv_nib _ _ _ I).
  - rewrite Hni. apply (inv_ninode _ _ _ I).
  - apply (up_free _ _ _ _ _ _ _ _ U).
  - rewrite (up_nib _ _ _ _ _ _ _ _ U), up_fs_blocks.
    pose proof (inv_nodup _ _ _ I) as Hnd. rewrite (up_taken _ _ _ _ _ _ _ _ U) in Hnd.
    assert (fs_blocks D ++ L ++ F' ≡ₚ (L ++ fs_blocks D) ++ F') as HP.
    { rewrite app_assoc. apply Permutation_app_tail, Permutation_app_comm. }
    by rewrite HP in Hnd.
  - rewrite up_fs_blocks. pose proof (inv_range _ _ _ I) as Hr.
    rewrite (up_taken _ _ _ _ _ _ _ _ U) in Hr. rewrite !Forall_app in *. tauto.
  - intros j off' Hj Hoff'. rewrite Hni in Hj.
    destruct (decide (j = ino)) as [E|Hne].
    + rewrite E in *. clear j E. rewrite (up_nblocks _ _ _ _ _ _ _ _ U) in Hoff'.
      rewrite (up_lookup _ _ _ _ _ _ _ _ U) by lia. if_lia.
      case_goal; bool_prop; [|done]. apply up_tail_ino; lia.
    + destruct (up_other j Hj Hne) as (_ & _ & ->).
      destruct (up_inode _ _ _ _ _ _ _ _ U j Hj Hne) as [_ Hn]. rewrite Hn in Hoff'.
      by apply (inv_tail _ _ _ I).
Qed.
End updated.
