(* ===== verification/TreediskWrite.v ===== *)
(** [treedisk_write] and [treedisk_read] against the abstract file system. *)

From Stdlib Require Import ZArith Lia Strings.Byte.
From stdpp Require Import base numbers list strings gmap.
From S2P Require Import Prelude Bytes InodeStore Treedisk TreediskSpec TreediskTrees.
From S2P Require Import TreediskProof TreediskUpdate.

Section write.
Context {S : Type} {IS : InodeStore S}.
Variable ts : treedisk_state.
Context {LAWS : InodeStoreLaws S (below_ino ts)}.
Variable junk : block.

Abbreviation sz := (store_size S (below_ino ts)).
Abbreviation dsk := (store_blocks (below_ino ts)).

(** ** [grow_levels] *)

Definition sn_root (sn : treedisk_snapshot) : Z := inode_root (inodeblock sn) (inode sn).

(** The snapshots that differ in the superblock and in the root of the inode. *)
Definition same_inode (sn sn' : treedisk_snapshot) : Prop :=
  inodeblock sn' = set_inode_root (inodeblock sn) (inode sn) (sn_root sn') /\
  inode_blockno sn' = inode_blockno sn /\ inode sn' = inode sn /\
  n_inodeblocks (superblock sn') = n_inodeblocks (superblock sn).

(** A tree of [n] levels at the root of [sn] has grown by [k] levels. *)
Record grown (k n : nat) (s s' : S) (L F F' : list Z) (sn sn' : treedisk_snapshot) : Prop := {
  gr_free : F ≡ₚ L ++ F';
  gr_length : length L = k;
  gr_alloc : alloc_ok ts s' sn' F';
  gr_same : same_inode sn sn';
  gr_zero : k = O -> sn' = sn /\ s' = s;
  gr_root : k <> O -> sn_root sn' <> 0 /\
            forall i, 1 <= i < 128 -> refs (blk (dsk s') (sn_root sn')) i = 0;
  gr_blocks : tree_blocks (dsk s') (n + k) (sn_root sn') ≡ₚ
              L ++ tree_blocks (dsk s) n (sn_root sn);
  gr_frame x : x ∉ 0 :: F -> dsk s' !! x = dsk s !! x;
  gr_lookup off :
    0 <= off < 128 ^ Z.of_nat (n + k) ->
    tree_lookup (dsk s') (n + k) (sn_root sn') off =
      if off <? 128 ^ Z.of_nat n then tree_lookup (dsk s) n (sn_root sn) off else null_block
}.

Definition slot_ok (sn : treedisk_snapshot) : Prop :=
  block_ok (inodeblock sn) /\ 0 <= inode sn < 64.

Lemma sn_root_set sn r : 
  slot_ok sn -> is_u32 r ->
  inode_root (set_inode_root (inodeblock sn) (inode sn) r) (inode sn) = r.
Proof.
  intros [Hb Hi] Hr. unfold inode_root, set_inode_root.
  rewrite get_set_u32_block by (done || lia). by rewrite Z.eqb_refl.
Qed.

(** A node whose only child is a tree: its blocks and its contents. *)
Lemma new_root_blocks (d d' : gmap Z block) n b r :
  b <> 0 -> is_u32 r -> d' !! b = Some (set_u32 null_block 0 r) ->
  (forall x, x ∈ tree_blocks d n r -> d' !! x = d !! x) ->
  tree_blocks d' (n + 1) b ≡ₚ b :: tree_blocks d n r.
Proof.
  intros Hb Hr Hbn Htree.
  assert (forall i y, y ∈ tree_blocks d n (refs null_block i) -> d' !! y = d !! y) as Hoth.
  { intros i y. unfold refs. rewrite get_u32_null, tree_blocks_zero. by intros ?%not_elem_of_nil. }
  rewrite Nat.add_1_r, (node_blocks d d' n b 0 r null_block (tree_blocks d n r));
    [|done|lia|apply null_block_ok|done|done|eauto|].
  - by rewrite null_node_blocks, app_nil_r.
  - unfold refs. rewrite get_u32_null, tree_blocks_zero, app_nil_r. by rewrite (tree_blocks_frame d).
Qed.

Lemma new_root_lookup (d d' : gmap Z block) n b r off :
  b <> 0 -> is_u32 r -> d' !! b = Some (set_u32 null_block 0 r) ->
  (forall x, x ∈ tree_blocks d n r -> d' !! x = d !! x) -> 0 <= off < 128 ^ Z.of_nat (n + 1) ->
  tree_lookup d' (n + 1) b off = if off <? 128 ^ Z.of_nat n then tree_lookup d n r off else null_block.
Proof.
  intros Hb Hr Hbn Htree Hoff. rewrite Nat.add_1_r in *. rewrite tree_lookup_S by done.
  rewrite (node_ref d' b 0 r null_block) by (auto with egos lia; apply idx_range).
  pose proof (pow128_pos n). rewrite pow128_S in Hoff.
  unfold idx. rewrite Z.mod_small.
  2:{ split; [apply Z.div_pos; lia|]. apply Z.div_lt_upper_bound; lia. }
  destruct (Z.ltb_spec off (128 ^ Z.of_nat n)).
  - rewrite Z.div_small by lia. by rewrite (tree_lookup_frame d).
  - assert (1 <= off / 128 ^ Z.of_nat n) by (apply Z.div_le_lower_bound; lia).
    if_lia. unfold refs. by rewrite get_u32_null, tree_lookup_zero.
Qed.

(** One new level above the root. *)
Lemma grow_one n s sn F :
  alloc_ok ts s sn F -> slot_ok sn ->
  NoDup (tree_blocks (dsk s) n (sn_root sn) ++ 0 :: F) -> F <> [] ->
  exists indir sn1 s1 s2 F',
    treedisk_alloc_block junk ts sn s = Ok ((indir, sn1), s1) /\
    write (below_ino ts) indir (set_refs null_block 0 (inode_root (inodeblock sn1) (inode sn1))) s1
      = Ok (0, s2) /\
    grown 1 n s s2 [indir] F F' sn
      {| superblock := superblock sn1;
         inodeblock := set_inode_root (inodeblock sn1) (inode sn1) indir;
         inode_blockno := inode_blockno sn1; inode := inode sn1 |}.
Proof.
  intros A Hsl Hnd HF.
  pose proof (ao_range _ _ _ _ A) as Hr. pose proof (ao_nodup _ _ _ _ A) as HndF.
  destruct (alloc_spec ts junk s sn F A HF)
    as (b & sn1 & s1 & F' & E1 & HP & A1 & Hfr & Hnib & Hib & Hbn & Hin).
  rewrite HP in Hr, HndF, Hnd. apply Forall_cons in Hr as [Hb _].
  apply list.NoDup_cons in HndF as [H0 HndF]. apply list.NoDup_cons in HndF as [HbF _].
  rewrite not_elem_of_cons in H0. destruct H0 as [H0b H0F].
  apply list.NoDup_app in Hnd as (_ & Hd & _).
  pose proof store_size_range (S := S) (ino := below_ino ts) as Hsz.
  assert (is_u32 b) as Hbu by (unfold is_u32; lia). assert (b <> 0) as Hb0 by done.
  assert (is_u32 (sn_root sn)) as Hru by apply get_u32_range.
  set (tib := set_refs null_block 0 (sn_root sn)).
  destruct (write_spec s1 b tib) as (s2 & E2 & ED2).
  { apply set_u32_block_ok; [apply null_block_ok|lia]. }
  { done. }
  assert (forall x, x ∉ 0 :: b :: F' -> dsk s2 !! x = dsk s !! x) as Hfr2.
  { intros x Hx. rewrite !not_elem_of_cons in Hx. destruct Hx as (? & ? & ?).
    rewrite ED2, lookup_insert_ne by done. apply Hfr. rewrite not_elem_of_cons. done. }
  assert (dsk s2 !! b = Some (set_u32 null_block 0 (sn_root sn))) as Hbn2.
  { rewrite ED2. by rewrite lookup_insert_eq. }
  assert (forall x, x ∈ tree_blocks (dsk s) n (sn_root sn) -> dsk s2 !! x = dsk s !! x) as Htree.
  { intros x Hx. apply Hfr2. by apply Hd. }
  exists b, sn1, s1, s2, F'. split; [done|]. rewrite Hib, Hin. split; [done|].
  set (sn2 := {| superblock := _ |}).
  assert (sn_root sn2 = b) as Hroot by by apply (sn_root_set sn).
  split; rewrite ?Hroot; try done.
  - apply alloc_ok_snap with sn1; [|done]. eapply alloc_ok_frame; [exact A1|]. intros x Hx. rewrite ED2. apply lookup_insert_ne.
    intros <-. apply elem_of_cons in Hx as [|]; [congruence|done].
  - unfold same_inode. rewrite Hroot. done.
  - intros _. split; [done|]. intros i Hi.
    rewrite (node_ref (dsk s2) b 0 (sn_root sn) null_block) by (auto with egos lia).
    if_lia. apply get_u32_null.
  - by apply new_root_blocks.
  - intros x Hx. apply Hfr2. by rewrite HP in Hx.
  - intros off Hoff. by apply new_root_lookup.
Qed.

Lemma grown_nodup k n s s' L F F' sn sn' :
  grown k n s s' L F F' sn sn' ->
  NoDup (tree_blocks (dsk s) n (sn_root sn) ++ 0 :: F) ->
  NoDup (tree_blocks (dsk s') (n + k) (sn_root sn') ++ 0 :: F').
Proof.
  intros G. rewrite (gr_blocks _ _ _ _ _ _ _ _ _ G), (gr_free _ _ _ _ _ _ _ _ _ G).
  assert ((L ++ tree_blocks (dsk s) n (sn_root sn)) ++ 0 :: F' ≡ₚ
          tree_blocks (dsk s) n (sn_root sn) ++ 0 :: L ++ F') as ->; [|done].
  rewrite <- app_assoc, Permutation_app_comm, <- app_assoc. apply Permutation_app_head.
  simpl. constructor. apply Permutation_app_comm.
Qed.

Lemma grown_slot k n s s' L F F' sn sn' :
  grown k n s s' L F F' sn sn' -> slot_ok sn -> slot_ok sn'.
Proof.
  intros G [Hb Hi]. destruct (gr_same _ _ _ _ _ _ _ _ _ G) as (Hib & _ & Hin & _).
  split; [|by rewrite Hin]. rewrite Hib. apply set_u32_block_ok; [done|lia].
Qed.

Lemma grown_trans k n s s2 s3 indir L F F1 F' sn sn2 sn3 :
  slot_ok sn -> grown 1 n s s2 [indir] F F1 sn sn2 ->
  grown k (Datatypes.S n) s2 s3 L F1 F' sn2 sn3 ->
  grown (Datatypes.S k) n s s3 (L ++ [indir]) F F' sn sn3.
Proof.
  intros [Hb Hi] [H1 _ H3 H4 _ H5 H6 H7 H8] [G1 G2 G3 G4 G0 G5 G6 G7 G8].
  destruct H4 as (Hib & Hbn & Hin & Hnib). destruct G4 as (Gib & Gbn & Gin & Gnib).
  rewrite Nat.add_1_r in H6, H8.
  split; rewrite <- ?Nat.add_succ_comm; try done.
  - rewrite H1, G1. rewrite <- app_assoc. simpl. apply Permutation_middle.
  - rewrite length_app, G2. simpl. lia.
  - split_and!; try congruence. rewrite Gib, Hib, Hin. unfold set_inode_root.
    apply set_set_u32; unfold block_ok, BLOCK_SIZE in Hb; lia.
  - intros _. destruct k as [|k]; [|auto].
    destruct (G0 eq_refl) as [-> ->]. by apply H5.
  - rewrite G6, H6. simpl. by rewrite <- app_assoc.
  - intros x Hx. rewrite H1 in Hx. simpl in Hx. rewrite !not_elem_of_cons in Hx.
    rewrite G7, H7; [done|..]; rewrite ?H1; simpl; rewrite !not_elem_of_cons; tauto.
  - intros off Hoff. rewrite G8 by done. pose proof (pow128_pos n).
    destruct (Z.ltb_spec off (128 ^ Z.of_nat (Datatypes.S n))) as [Hlt|Hge].
    + by rewrite H8 by lia.
    + rewrite pow128_S in Hge. if_lia. done.
Qed.

Lemma grow_spec k n s sn F :
  alloc_ok ts s sn F -> slot_ok sn ->
  NoDup (tree_blocks (dsk s) n (sn_root sn) ++ 0 :: F) -> (k <= length F)%nat ->
  exists sn' s' L F',
    grow_levels junk ts k sn s = Ok (sn', s') /\ grown k n s s' L F F' sn sn'.
Proof.
  revert n s sn F. induction k as [|k IH]; intros n s sn F A Hsl Hnd Hk.
  - exists sn, s, [], F. split; [done|]. rewrite <- (Nat.add_0_r n).
    split; rewrite ?Nat.add_0_r; try done.
    + split_and!; try done. unfold set_inode_root, sn_root, inode_root.
      destruct Hsl as [Hb Hi]. symmetry. unfold block_ok, BLOCK_SIZE in Hb.
      apply set_get_u32; lia.
    + intros off Hoff. by if_lia.
  - destruct (grow_one n s sn F A Hsl Hnd) as (b & sn1 & s1 & s2 & F1 & E1 & E2 & G1).
    { by intros ->; simpl in Hk; lia. }
    set (sn2 := {| superblock := superblock sn1 |}) in G1.
    pose proof (grown_nodup _ _ _ _ _ _ _ _ _ G1 Hnd) as Hnd2. rewrite Nat.add_1_r in Hnd2.
    destruct (IH (Datatypes.S n) s2 sn2 F1) as (sn3 & s3 & L & F' & E3 & G2).
    { apply G1. } { by eapply grown_slot. } { done. }
    { pose proof (Permutation_length (gr_free _ _ _ _ _ _ _ _ _ G1)) as HL.
      simpl in HL. lia. }
    exists sn3, s3, (L ++ [b]), F'. split.
    + cbn [grow_levels]. rewrite (bind_ok _ _ _ _ _ E1). cbn beta iota.
      rewrite (bind_ok _ _ _ _ _ E2). if_lia. done.
    + by eapply grown_trans.
Qed.

Lemma grow_full k n s sn F :
  alloc_ok ts s sn F -> slot_ok sn ->
  NoDup (tree_blocks (dsk s) n (sn_root sn) ++ 0 :: F) -> (length F < k)%nat ->
  grow_levels junk ts k sn s = Fatal "treedisk_alloc_block: inode store is full".
Proof.
  revert n s sn F. induction k as [|k IH]; intros n s sn F A Hsl Hnd Hk; [lia|].
  cbn [grow_levels]. destruct (decide (F = [])) as [->|HF].
  { apply bind_fatal. by apply (alloc_full ts). }
  destruct (grow_one n s sn F A Hsl Hnd HF) as (b & sn1 & s1 & s2 & F1 & E1 & E2 & G1).
  rewrite (bind_ok _ _ _ _ _ E1). cbn beta iota. rewrite (bind_ok _ _ _ _ _ E2). if_lia.
  pose proof (grown_nodup _ _ _ _ _ _ _ _ _ G1 Hnd) as Hnd2. rewrite Nat.add_1_r in Hnd2.
  apply IH with (Datatypes.S n) F1; [apply G1|by eapply grown_slot|done|].
  pose proof (Permutation_length (gr_free _ _ _ _ _ _ _ _ _ G1)) as HL. simpl in HL. lia.
Qed.
End write.
