(* ===== verification/TreediskTop.v ===== *)
(** The operations of a treedisk refine the abstract file system. *)

From Stdlib Require Import ZArith Lia Strings.Byte.
From stdpp Require Import base numbers list strings gmap.
From S2P Require Import Prelude Bytes InodeStore Treedisk TreediskSpec TreediskTrees.
From S2P Require Import TreediskProof TreediskUpdate TreediskWrite.

Local Open Scope egos_scope.

(** ** Consequences of the invariant *)

Section inv.
Variables (sz : Z) (D : gmap Z block) (F : list Z).
Hypothesis I : fs_inv sz D F.

Lemma i_blockno_range ino : 0 <= ino < ninode D -> 1 <= i_blockno ino <= nib D.
Proof.
  unfold ninode, i_blockno. intros.
  assert (0 <= ino / 64 < nib D); [|lia].
  split; [apply Z.div_pos; lia|apply Z.div_lt_upper_bound; lia].
Qed.

Lemma inv_meta x : 0 <= x <= nib D -> (x ∉ fs_blocks D) /\ (x ∉ F).
Proof.
  intros Hx. pose proof (inv_nodup _ _ _ I) as Hnd.
  apply list.NoDup_app in Hnd as (_ & Hd & _). 
  rewrite <- not_elem_of_app. apply Hd, elem_of_seqZ. lia.
Qed.

Lemma inv_i_blocks ino x : 0 <= ino < ninode D -> x ∈ i_blocks D ino -> x ∈ fs_blocks D.
Proof.
  intros. apply list_elem_of_bind. exists ino. split; [done|]. apply elem_of_seqZ. lia.
Qed.

Lemma inv_parts ino :
  0 <= ino < ninode D ->
  NoDup (0 :: i_blockno ino :: i_blocks D ino ++ F) /\
  Forall (fun b => 0 <= b < sz) (i_blocks D ino) /\ Forall (fun b => 0 <= b < sz) F.
Proof.
  intros Hino. pose proof (i_blockno_range ino Hino) as Hb.
  destruct (inv_meta 0) as [H0 H0F]; [lia|].
  destruct (inv_meta (i_blockno ino)) as [H1 H1F]; [lia|].
  pose proof (inv_nodup _ _ _ I) as Hnd.
  apply list.NoDup_app in Hnd as (_ & _ & Hnd).
  apply list.NoDup_app in Hnd as (Hnd & Hd & HndF).
  pose proof (inv_range _ _ _ I) as Hr. apply Forall_app in Hr as [Hr HrF].
  split_and!; [|apply Forall_forall|done].
  - apply NoDup_two. split_and!; try done; try lia;
      try (intros ?%inv_i_blocks; done).
    + by apply (NoDup_bind_part (i_blocks D) 0 (ninode D)).
    + intros x ?%inv_i_blocks; auto.
  - intros x Hx%inv_i_blocks; [|done]. rewrite Forall_forall in Hr. auto.
Qed.

(** What belongs to another inode is not touched by a write to [ino]. *)
Lemma inv_other ino j x :
  0 <= ino < ninode D -> 0 <= j < ninode D -> j <> ino -> x ∈ i_blocks D j ->
  x ∉ 0 :: i_blockno ino :: i_blocks D ino ++ F.
Proof.
  intros Hino Hj Hne Hx. pose proof (inv_i_blocks _ _ Hj Hx) as Hfs.
  pose proof (i_blockno_range ino Hino) as Hb.
  destruct (inv_meta 0) as [H0 _]; [lia|].
  destruct (inv_meta (i_blockno ino)) as [H1 _]; [lia|].
  pose proof (inv_nodup _ _ _ I) as Hnd.
  apply list.NoDup_app in Hnd as (_ & _ & Hnd).
  apply list.NoDup_app in Hnd as (Hnd & Hd & HndF).
  rewrite !not_elem_of_cons, not_elem_of_app. split_and!; [by intros ->..| |by apply Hd].
  by apply (NoDup_bind_disjoint (i_blocks D) 0 (ninode D) j).
Qed.

Lemma inv_other_blockno ino j :
  0 <= ino < ninode D -> 0 <= j < ninode D -> i_blockno j <> i_blockno ino ->
  i_blockno j ∉ 0 :: i_blockno ino :: i_blocks D ino ++ F.
Proof.
  intros Hino Hj Hne. pose proof (i_blockno_range j Hj) as Hb.
  destruct (inv_meta (i_blockno j)) as [H1 H1F]; [lia|].
  rewrite !not_elem_of_cons, not_elem_of_app. split_and!; [lia|done| |done].
  intros ?%inv_i_blocks; done.
Qed.
End inv.

Lemma slot_neq ino j : ino <> j -> i_blockno j = i_blockno ino -> j mod 64 <> ino mod 64.
Proof.
  unfold i_blockno. intros Hne Hb Hm. apply Hne.
  rewrite (Z.div_mod ino 64), (Z.div_mod j 64) by lia. lia.
Qed.

Section top.
Context {S : Type} {IS : InodeStore S}.
Variable ts : treedisk_state.
Context {LAWS : InodeStoreLaws S (below_ino ts)}.
Variable junk : block.

Abbreviation sz := (store_size S (below_ino ts)).
Abbreviation dsk := (store_blocks (below_ino ts)).

(** ** [treedisk_write] in three parts *)

(** The snapshot once the length of the file is set. *)
Definition extended (D : gmap Z block) (ino off : Z) : treedisk_snapshot :=
  {| superblock := blk D 0;
     inodeblock :=
       if i_nblocks D ino <=? off
       then set_inode_nblocks (blk D (i_blockno ino)) (ino mod 64) (u32 (off + 1))
       else blk D (i_blockno ino);
     inode_blockno := i_blockno ino;
     inode := ino mod 64 |}.

(** What follows the insertion of levels. *)
Definition write_rest (dirty : bool) (n : nat) (off : Z) (b : block)
    (sn : treedisk_snapshot) : M S Z :=
  (if dirty then
     r <- write (below_ino ts) (inode_blockno sn) (inodeblock sn) ;;
     if r <? 0 then fatal "treedisk_write: inode block" else ret tt
   else ret tt) ;;;
  l <- write_walk 7 junk ts n sn (inodeblock sn) (2 * inode sn) (inode_blockno sn) off ;;
  r <- write (below_ino ts) l b ;;
  if r <? 0 then fatal "treedisk_write: data block" else ret 0.

Definition n_after (D : gmap Z block) (ino off : Z) : nat :=
  levels (Z.max (i_nblocks D ino) (off + 1)).
Definition n_grow (D : gmap Z block) (ino off : Z) : nat :=
  n_after D ino off - levels (i_nblocks D ino).

Lemma levels_count nb (s : S) :
  is_u32 nb ->
  (if 0 <? nb then count_levels 7 levels_fuel (nb - 1) 0 else ret 0) s =
  Ok (Z.of_nat (levels nb), s).
Proof.
  intros [??]. unfold levels. destruct (Z.ltb_spec 0 nb).
  - rewrite Z.max_r by lia. apply count_levels_depth. unfold is_u32. lia.
  - by replace nb with 0 by lia.
Qed.

Lemma n_after_ge D ino off :
  0 <= off -> off + 1 < 2 ^ 32 -> (levels (i_nblocks D ino) <= n_after D ino off)%nat.
Proof.
  intros. pose proof (i_nblocks_u32 D ino) as [??].
  apply depth_mono; unfold is_u32; lia.
Qed.

Lemma extended_nblocks D ino off :
  block_ok (blk D (i_blockno ino)) -> 0 <= off -> off + 1 < 2 ^ 32 ->
  inode_nblocks (inodeblock (extended D ino off)) (ino mod 64) =
  Z.max (i_nblocks D ino) (off + 1).
Proof.
  intros. unfold extended. cbn [inodeblock].
  pose proof (Z.mod_pos_bound ino 64 ltac:(lia)).
  destruct (Z.leb_spec (i_nblocks D ino) off).
  - unfold inode_nblocks, set_inode_nblocks.
    rewrite get_set_u32_block by (auto with egos lia; lia || done).
    rewrite Z.eqb_refl, u32_small by (unfold is_u32; lia). lia.
  - fold (i_nblocks D ino). lia.
Qed.

Lemma treedisk_write_parts s ino off b F :
  fs_inv sz (dsk s) F -> 0 <= ino < ninode (dsk s) -> 0 <= off -> off + 1 < 2 ^ 32 ->
  exists s1, dsk s1 = dsk s /\
    treedisk_write 7 junk ts ino off b s =
    bind (grow_levels junk ts (n_grow (dsk s) ino off) (extended (dsk s) ino off))
      (write_rest (i_nblocks (dsk s) ino <=? off) (n_after (dsk s) ino off) off b) s1.
Proof.
  intros I Hino Ho1 Ho2. destruct (get_snapshot_spec ts junk s ino F I Hino) as (s1 & E1 & ED1).
  exists s1. split; [done|]. unfold treedisk_write.
  rewrite (bind_ok _ _ _ _ _ E1). cbn beta iota zeta. cbn [inodeblock inode superblock].
  fold (i_nblocks (dsk s) ino).
  rewrite (bind_ok _ _ _ _ _ (levels_count _ s1 (i_nblocks_u32 (dsk s) ino))).
  replace (if i_nblocks (dsk s) ino <=? off then Build_treedisk_snapshot _ _ _ _ else _)
    with (extended (dsk s) ino off) by (unfold extended; by destruct (_ <=? _)).
  assert ((if i_nblocks (dsk s) ino <=? off then count_levels 7 levels_fuel off 0
           else ret (Z.of_nat (levels (i_nblocks (dsk s) ino)))) s1 =
          Ok (Z.of_nat (n_after (dsk s) ino off), s1)) as E2.
  { unfold n_after. destruct (Z.leb_spec (i_nblocks (dsk s) ino) off).
    - rewrite count_levels_depth by (unfold is_u32; lia).
      unfold levels. repeat f_equal. lia.
    - by rewrite Z.max_l by lia. }
  rewrite (bind_ok _ _ _ _ _ E2).
  cbn [inode extended]. fold (extended (dsk s) ino off).
  rewrite extended_nblocks by (done || apply (blk_ok ts)).
  rewrite (proj2 (Z.eqb_neq _ 0)) by lia.
  pose proof (n_after_ge (dsk s) ino off Ho1 Ho2) as Hge.
  destruct (Z.ltb_spec (Z.of_nat (levels (i_nblocks (dsk s) ino)))
              (Z.of_nat (n_after (dsk s) ino off))) as [Hlt|Hnlt].
  - replace (Z.to_nat _) with (n_grow (dsk s) ino off) by (unfold n_grow; lia).
    rewrite bind_assoc. apply bind_ext. intros sn' s2. rewrite bind_ret, Nat2Z.id.
    unfold write_rest. replace (_ || true)%bool with (i_nblocks (dsk s) ino <=? off); [done|].
    rewrite orb_true_r. apply Z.leb_le. unfold n_after in Hlt.
    destruct (Z.le_gt_cases (i_nblocks (dsk s) ino) off); [done|].
    rewrite Z.max_l in Hlt by lia. lia.
  - replace (n_grow (dsk s) ino off) with O by (unfold n_grow; lia).
    cbn [grow_levels]. rewrite !bind_ret. rewrite orb_false_r, Nat2Z.id.
    unfold write_rest. by replace (levels _) with (n_after (dsk s) ino off) by lia.
Qed.

(** ** From the invariant to the start of the walk *)

Section one_write.
Variables (s s1 : S) (ino off : Z) (b : block) (F : list Z).
Hypothesis I : fs_inv sz (dsk s) F.
Hypothesis ED1 : dsk s1 = dsk s.
Hypothesis ino_range : 0 <= ino < ninode (dsk s).
Hypothesis off_range : 0 <= off /\ off + 1 < 2 ^ 32.
Hypothesis b_ok : block_ok b.

Abbreviation D := (dsk s).
Abbreviation sn1 := (extended D ino off).
Abbreviation n0 := (levels (i_nblocks D ino)).
Abbreviation n1 := (n_after D ino off).

Lemma slot_range : 0 <= ino mod 64 < 64.
Proof. apply Z.mod_pos_bound. lia. Qed.

Lemma extended_slot : slot_ok sn1.
Proof.
  split; [|apply slot_range]. unfold extended. cbn [inodeblock].
  pose proof slot_range. case_goal; [|apply (blk_ok ts)].
  apply set_u32_block_ok; [apply (blk_ok ts)|lia].
Qed.

Lemma extended_word i :
  0 <= i -> i <> 2 * (ino mod 64) + 1 ->
  get_u32 (inodeblock sn1) i = get_u32 (blk D (i_blockno ino)) i.
Proof.
  intros Hi Hne. unfold extended. cbn [inodeblock]. pose proof slot_range.
  case_goal; [|done]. unfold set_inode_nblocks.
  rewrite get_set_u32_block by (apply (blk_ok ts) || apply u32_range || lia). by if_lia.
Qed.

Lemma extended_root : sn_root sn1 = i_root D ino.
Proof. unfold sn_root, inode_root. apply extended_word; simpl; pose proof slot_range; lia. Qed.

Lemma extended_alloc : alloc_ok ts s1 sn1 F.
Proof.
  destruct (inv_parts _ _ _ I ino ino_range) as (Hnd & _ & HrF).
  pose proof (inv_nib _ _ _ I).
  split; rewrite ?ED1; simpl.
  - apply (blk_in ts). lia.
  - apply (inv_free _ _ _ I).
  - apply NoDup_two in Hnd as ((_ & _ & H0F & _) & _ & HndF & _).
    by rewrite list.NoDup_cons.
  - done.
Qed.

Lemma extended_nodup : NoDup (tree_blocks (dsk s1) n0 (sn_root sn1) ++ 0 :: F).
Proof.
  destruct (inv_parts _ _ _ I ino ino_range) as (Hnd & _ & _).
  rewrite ED1, extended_root. fold (i_blocks D ino).
  apply NoDup_two in Hnd as ((_ & H0T & H0F & _) & HndT & HndF & Hd).
  apply list.NoDup_app. split_and!; [done| |by apply list.NoDup_cons].
  intros x Hx. rewrite not_elem_of_cons. split; [by intros ->|auto].
Qed.

(** After the insertion of levels and the write of the inode block. *)
Record prepared (s2 : S) (L F1 : list Z) (sn2 : treedisk_snapshot) : Prop := {
  pr_walk : walkable ts n1 s2 (inodeblock sn2) (2 * (ino mod 64)) (i_blockno ino) off F1 sn2;
  pr_free : F ≡ₚ L ++ F1;
  pr_length : length L = n_grow D ino off;
  pr_nib : n_inodeblocks (superblock sn2) = nib D;
  pr_word i :
    0 <= i -> i <> 2 * (ino mod 64) -> get_u32 (inodeblock sn2) i = get_u32 (inodeblock sn1) i;
  pr_blocks : tree_blocks (dsk s2) n1 (sn_root sn2) ≡ₚ L ++ i_blocks D ino;
  pr_frame x : x ∉ 0 :: i_blockno ino :: i_blocks D ino ++ F -> dsk s2 !! x = D !! x;
  pr_lookup off' :
    0 <= off' < 128 ^ Z.of_nat n1 ->
    tree_lookup (dsk s2) n1 (sn_root sn2) off' =
      if off' <? 128 ^ Z.of_nat n0 then i_lookup D ino off' else null_block;
  pr_missing :
    (n_grow D ino off + tree_missing (dsk s2) n1 (sn_root sn2) off)%nat = write_need D ino off;
  pr_ids : inode sn2 = ino mod 64 /\ inode_blockno sn2 = i_blockno ino
}.

Lemma tree_missing_frame D1 D2 n c o :
  (forall x, x ∈ tree_blocks D1 n c -> D2 !! x = D1 !! x) ->
  tree_missing D2 n c o = tree_missing D1 n c o.
Proof.
  revert c. induction n as [|n IH]; intros c Hf; [done|]. cbn [tree_missing].
  destruct (Z.eqb_spec c 0) as [|Hc]; [done|].
  rewrite (blk_frame D1 D2 c) by (apply Hf; by apply tree_blocks_root).
  apply IH. intros x Hx. apply Hf. eapply tree_child_blocks; [done|apply idx_range|done].
Qed.

Lemma n_after_spec : off < 128 ^ Z.of_nat n1 /\ (n1 <= 5)%nat.
Proof.
  destruct (levels_bound (Z.max (i_nblocks D ino) (off + 1))).
  - pose proof (i_nblocks_u32 D ino) as [??]. unfold is_u32. lia.
  - unfold n_after. lia.
Qed.

(** With new levels, [off] is past everything the new root leads to. *)
Lemma n_grow_top : n_grow D ino off <> O -> 128 ^ Z.of_nat (n1 - 1) <= off.
Proof.
  intros Hg. unfold n_grow in Hg. pose proof (i_nblocks_u32 D ino) as [Hn0 Hn1].
  destruct (Z.le_gt_cases (i_nblocks D ino) off) as [Hle|Hgt].
  - unfold n_after, levels in *. rewrite (Z.max_r (i_nblocks D ino)) in * by lia.
    destruct (depth_spec (Z.max 0 (off + 1 - 1))) as (_ & _ & Hlow); [unfold is_u32; lia|].
    specialize (Hlow (depth (Z.max 0 (off + 1 - 1)) - 1)%nat ltac:(lia)). lia.
  - unfold n_after in Hg. rewrite Z.max_l in Hg by lia. lia.
Qed.

Lemma idx_top m : 128 ^ Z.of_nat m <= off < 128 ^ Z.of_nat (Datatypes.S m) -> 1 <= idx m off < 128.
Proof.
  intros [Hl Hu]. rewrite pow128_S in Hu. pose proof (pow128_pos m). unfold idx.
  rewrite Z.mod_small.
  - split; [apply Z.div_le_lower_bound; lia|apply Z.div_lt_upper_bound; lia].
  - split; [apply Z.div_pos; lia|apply Z.div_lt_upper_bound; lia].
Qed.

Section prepare.
Variables (s2 s3 : S) (L F1 : list Z) (sn2 : treedisk_snapshot).
Hypothesis G : grown ts (n_grow D ino off) n0 s1 s2 L F F1 sn1 sn2.
Hypothesis ED3 : dsk s3 = <[i_blockno ino := inodeblock sn2]> (dsk s2).

Lemma n_total : (n0 + n_grow D ino off)%nat = n1.
Proof. pose proof (n_after_ge D ino off ltac:(lia) ltac:(lia)). unfold n_grow. lia. Qed.

Lemma grown_blocks : tree_blocks (dsk s2) n1 (sn_root sn2) ≡ₚ L ++ i_blocks D ino.
Proof.
  pose proof (gr_blocks _ _ _ _ _ _ _ _ _ _ G) as HB. rewrite n_total, ED1, extended_root in HB.
  done.
Qed.

Lemma grown_parts : NoDup (0 :: i_blockno ino :: (L ++ i_blocks D ino) ++ F1).
Proof.
  destruct (inv_parts _ _ _ I ino ino_range) as (Hnd & _ & _).
  rewrite (gr_free _ _ _ _ _ _ _ _ _ _ G) in Hnd.
  assert ((L ++ i_blocks D ino) ++ F1 ≡ₚ i_blocks D ino ++ L ++ F1) as ->; [|done].
  rewrite app_assoc. apply Permutation_app_tail, Permutation_app_comm.
Qed.

Lemma grown_inode_other x : x ∈ L ++ i_blocks D ino -> dsk s3 !! x = dsk s2 !! x.
Proof.
  intros Hx. rewrite ED3. apply lookup_insert_ne. intros <-.
  pose proof grown_parts as ((_ & _ & _ & H & _) & _)%NoDup_two. done.
Qed.

Lemma prepared_tree_frame x : x ∈ tree_blocks (dsk s2) n1 (sn_root sn2) -> dsk s3 !! x = dsk s2 !! x.
Proof. rewrite grown_blocks. apply grown_inode_other. Qed.

Lemma prepared_root : get_u32 (inodeblock sn2) (2 * (ino mod 64)) = sn_root sn2.
Proof.
  destruct (gr_same _ _ _ _ _ _ _ _ _ _ G) as (_ & _ & Hin & _).
  unfold sn_root, inode_root. by rewrite Hin.
Qed.

Lemma prepared_walkable :
  walkable ts n1 s3 (inodeblock sn2) (2 * (ino mod 64)) (i_blockno ino) off F1 sn2.
Proof.
  destruct (inv_parts _ _ _ I ino ino_range) as (_ & HrT & HrF).
  pose proof (i_blockno_range _ ino ino_range) as Hbn. pose proof (inv_nib _ _ _ I) as Hnib.
  pose proof grown_parts as Hnd. pose proof slot_range.
  assert (slot_ok sn2) as [Hok Hs] by (eapply grown_slot; [done|apply extended_slot]).
  rewrite (gr_free _ _ _ _ _ _ _ _ _ _ G) in HrF. apply Forall_app in HrF as [HrL HrF1].
  split; rewrite ?prepared_root, ?(tree_blocks_frame _ _ _ _ prepared_tree_frame).
  - eapply alloc_ok_frame; [apply G|]. intros x Hx. rewrite ED3. apply lookup_insert_ne.
    intros <-. apply NoDup_two in Hnd as ((H0 & _ & _ & _ & HF) & _).
    apply elem_of_cons in Hx as [|]; [congruence|done].
  - done.
  - lia.
  - unfold in_disk. lia.
  - by rewrite grown_blocks.
  - rewrite grown_blocks. by apply Forall_app.
  - intros _. rewrite ED3. by rewrite lookup_insert_eq.
  - unfold is_u32. lia.
  - pose proof n_after_spec. lia.
Qed.

Lemma prepared_missing :
  (n_grow D ino off + tree_missing (dsk s3) n1 (sn_root sn2) off)%nat = write_need D ino off.
Proof.
  rewrite (tree_missing_frame _ _ _ _ _ prepared_tree_frame).
  unfold write_need. cbv zeta. fold n1. fold (n_grow D ino off). f_equal.
  pose proof n_total as Ht.
  destruct (n_grow D ino off) as [|g] eqn:Eg.
  - destruct (gr_zero _ _ _ _ _ _ _ _ _ _ G eq_refl) as [-> ->].
    rewrite ED1, extended_root. by replace n1 with n0 by lia.
  - destruct (gr_root _ _ _ _ _ _ _ _ _ _ G ltac:(done)) as [Hr Hz].
    pose proof (n_grow_top ltac:(congruence)) as Hlow. pose proof n_after_spec as [Hup _].
    destruct n1 as [|m] eqn:Em; [lia|]. cbn [tree_missing].
    rewrite (proj2 (Z.eqb_neq _ 0)) by done.
    replace (Datatypes.S m - 1)%nat with m in Hlow by lia.
    rewrite Hz by (apply idx_top; lia). by rewrite tree_missing_zero.
Qed.

Lemma prepare : prepared s3 L F1 sn2.
Proof.
  destruct (gr_same _ _ _ _ _ _ _ _ _ _ G) as (Hib & Hbn & Hin & Hnib).
  pose proof slot_range as Hs. pose proof extended_slot as [Hok _].
  split.
  - apply prepared_walkable.
  - apply (gr_free _ _ _ _ _ _ _ _ _ _ G).
  - apply (gr_length _ _ _ _ _ _ _ _ _ _ G).
  - rewrite Hnib. done.
  - intros i Hi Hne. rewrite Hib. unfold set_inode_root. cbn [inode extended].
    rewrite get_set_u32_block by (done || apply get_u32_range || lia). by if_lia.
  - rewrite (tree_blocks_frame _ _ _ _ prepared_tree_frame). apply grown_blocks.
  - intros x Hx. rewrite !not_elem_of_cons, not_elem_of_app in Hx.
    rewrite ED3, lookup_insert_ne by (intros <-; tauto).
    rewrite (gr_frame _ _ _ _ _ _ _ _ _ _ G), ED1; [done|]. rewrite not_elem_of_cons. tauto.
  - intros off' Hoff'. rewrite (tree_lookup_frame _ _ _ _ _ prepared_tree_frame).
    pose proof (gr_lookup _ _ _ _ _ _ _ _ _ _ G off') as Hl.
    rewrite n_total, ED1, extended_root in Hl. by apply Hl.
  - apply prepared_missing.
  - by rewrite Hin, Hbn.
Qed.
End prepare.

Section finish.
Variables (s3 s4 s5 : S) (L L2 F1 F2 : list Z) (sn2 sn4 : treedisk_snapshot) (l c' : Z).
Hypothesis P : prepared s3 L F1 sn2.
Hypothesis W : walked ts n1 s3 s4 (inodeblock sn2) (2 * (ino mod 64)) (i_blockno ino) off
                 l c' L2 F1 F2 sn2 sn4.
Hypothesis ED5 : dsk s5 = <[l := b]> (dsk s4).

Lemma walked_root : get_u32 (inodeblock sn2) (2 * (ino mod 64)) = sn_root sn2.
Proof. unfold sn_root, inode_root. by rewrite (proj1 (pr_ids _ _ _ _ P)). Qed.

Lemma finish_taken : F ≡ₚ (L2 ++ L) ++ F2.
Proof.
  rewrite (pr_free _ _ _ _ P), (wk_free _ _ _ _ _ _ _ _ _ _ _ _ _ _ _ W).
  rewrite !app_assoc. apply Permutation_app_tail, Permutation_app_comm.
Qed.

Lemma finish_blocks : tree_blocks (dsk s4) n1 c' ≡ₚ (L2 ++ L) ++ i_blocks D ino.
Proof.
  rewrite (wk_blocks _ _ _ _ _ _ _ _ _ _ _ _ _ _ _ W), walked_root.
  rewrite (pr_blocks _ _ _ _ P). by rewrite app_assoc.
Qed.

Lemma finish_nodup : NoDup (0 :: i_blockno ino :: ((L2 ++ L) ++ i_blocks D ino) ++ F2).
Proof.
  destruct (inv_parts _ _ _ I ino ino_range) as (Hnd & _ & _).
  rewrite finish_taken in Hnd.
  assert (((L2 ++ L) ++ i_blocks D ino) ++ F2 ≡ₚ i_blocks D ino ++ (L2 ++ L) ++ F2) as ->;
    [|done].
  rewrite (app_assoc (i_blocks D ino)). apply Permutation_app_tail, Permutation_app_comm.
Qed.

Lemma leaf_in : l ∈ (L2 ++ L) ++ i_blocks D ino.
Proof.
  rewrite <- finish_blocks. destruct (wk_leaf _ _ _ _ _ _ _ _ _ _ _ _ _ _ _ W) as [Hl Hne].
  rewrite <- Hl. apply tree_leaf_blocks. by rewrite Hl.
Qed.

Lemma finish_frame x :
  x ∉ 0 :: i_blockno ino :: i_blocks D ino ++ F -> dsk s5 !! x = D !! x.
Proof.
  intros Hx. rewrite !not_elem_of_cons, not_elem_of_app in Hx.
  destruct Hx as (H0 & Hb & HT & HF). pose proof leaf_in as Hl.
  rewrite finish_taken, not_elem_of_app in HF. destruct HF as [HL HF2].
  rewrite ED5, lookup_insert_ne.
  2:{ intros <-. apply elem_of_app in Hl as [|]; done. }
  rewrite not_elem_of_app in HL. destruct HL as [HL2 HL].
  rewrite (wk_frame _ _ _ _ _ _ _ _ _ _ _ _ _ _ _ W).
  - apply (pr_frame _ _ _ _ P). rewrite !not_elem_of_cons, not_elem_of_app.
    rewrite finish_taken, !not_elem_of_app. tauto.
  - rewrite walked_root, (pr_blocks _ _ _ _ P), (wk_free _ _ _ _ _ _ _ _ _ _ _ _ _ _ _ W).
    rewrite !not_elem_of_cons, !not_elem_of_app. tauto.
Qed.

Lemma finish_super : dsk s5 !! 0 = Some (superblock sn4).
Proof.
  pose proof leaf_in as Hl. pose proof finish_nodup as Hnd.
  apply NoDup_two in Hnd as ((_ & H0 & _) & _).
  rewrite ED5, lookup_insert_ne by (intros ->; done).
  apply (ao_super _ _ _ _ (wk_alloc _ _ _ _ _ _ _ _ _ _ _ _ _ _ _ W)).
Qed.

Lemma finish_inode : dsk s5 !! i_blockno ino = Some (set_u32 (inodeblock sn2) (2 * (ino mod 64)) c').
Proof.
  pose proof leaf_in as Hl. pose proof finish_nodup as Hnd.
  apply NoDup_two in Hnd as ((_ & _ & _ & H1 & _) & _).
  rewrite ED5, lookup_insert_ne by (intros ->; done).
  apply (wk_parent _ _ _ _ _ _ _ _ _ _ _ _ _ _ _ W).
Qed.

(** The words of the inode block: the root of [ino] is [c'], its length is the
    new one, the rest is as before. *)
Lemma finish_word i :
  0 <= i -> get_u32 (blk (dsk s5) (i_blockno ino)) i =
  if i =? 2 * (ino mod 64) then c'
  else if i =? 2 * (ino mod 64) + 1 then Z.max (i_nblocks D ino) (off + 1)
  else get_u32 (blk D (i_blockno ino)) i.
Proof.
  intros Hi. rewrite (blk_Some _ _ _ finish_inode).
  pose proof slot_range as Hs.
  destruct (wk_root _ _ _ _ _ _ _ _ _ _ _ _ _ _ _ W) as [Hc _].
  assert (block_ok (inodeblock sn2)) as Hok by apply (wa_block _ _ _ _ _ _ _ _ _ (pr_walk _ _ _ _ P)).
  rewrite get_set_u32_block by (done || lia). rewrite (Z.eqb_sym i).
  destruct (Z.eqb_spec (2 * (ino mod 64)) i) as [|Hne]; [done|].
  rewrite (pr_word _ _ _ _ P) by (done || lia).
  destruct (Z.eqb_spec i (2 * (ino mod 64) + 1)) as [->|Hne'].
  - apply extended_nblocks; [apply (blk_ok ts)|lia..].
  - by apply extended_word.
Qed.

Lemma finish_root : i_root (dsk s5) ino = c'.
Proof.
  unfold i_root, inode_root. pose proof slot_range. rewrite finish_word by lia. by if_lia.
Qed.

Lemma finish_nblocks : i_nblocks (dsk s5) ino = Z.max (i_nblocks D ino) (off + 1).
Proof.
  unfold i_nblocks at 1, inode_nblocks. pose proof slot_range.
  rewrite finish_word by lia. by repeat if_lia.
Qed.

Lemma finish_leaf :
  tree_blocks (dsk s5) n1 c' = tree_blocks (dsk s4) n1 c' /\
  forall off', 0 <= off' < 128 ^ Z.of_nat n1 ->
    tree_lookup (dsk s5) n1 c' off' =
    if off' =? off then b else tree_lookup (dsk s4) n1 c' off'.
Proof.
  rewrite ED5. destruct (wk_leaf _ _ _ _ _ _ _ _ _ _ _ _ _ _ _ W) as [Hl Hl0].
  destruct (leaf_update (dsk s4) n1 c' off l b) as [H1 H2]; [|done|done|].
  - rewrite finish_blocks. pose proof finish_nodup as Hnd. by apply NoDup_two in Hnd as (_ & ? & _).
  - split; [done|]. intros off' Hoff'. rewrite H2. pose proof n_after_spec.
    by rewrite !Z.mod_small by lia.
Qed.

Lemma finish_updated : updated D (dsk s5) ino off b (L2 ++ L) F F2.
Proof.
  destruct finish_leaf as [HB HL]. pose proof n_after_spec as [Hup _].
  split.
  - unfold nib at 1. rewrite (blk_Some _ _ _ finish_super).
    rewrite (wk_nib _ _ _ _ _ _ _ _ _ _ _ _ _ _ _ W). apply (pr_nib _ _ _ _ P).
  - rewrite (blk_Some _ _ _ finish_super). pose proof leaf_in as Hl.
    pose proof finish_nodup as Hnd. apply NoDup_two in Hnd as (_ & _ & _ & Hd).
    eapply fl_rep_frame;
      [apply (ao_free _ _ _ _ (wk_alloc _ _ _ _ _ _ _ _ _ _ _ _ _ _ _ W))|].
    intros x Hx. rewrite ED5. apply lookup_insert_ne. intros <-. by apply (Hd l).
  - apply finish_taken.
  - apply finish_nblocks.
  - unfold i_blocks at 1. rewrite finish_root, finish_nblocks. fold n1.
    rewrite HB. apply finish_blocks.
  - intros off' Hoff'. unfold i_lookup at 1. rewrite finish_root, finish_nblocks. fold n1.
    rewrite HL by done. destruct (Z.eqb_spec off' off) as [|Hne]; [done|].
    rewrite (wk_lookup _ _ _ _ _ _ _ _ _ _ _ _ _ _ _ W), walked_root.
    + by apply (pr_lookup _ _ _ _ P).
    + unfold n_after in *. rewrite !Z.mod_small by lia. done.
  - intros j Hj Hne. pose proof slot_range. pose proof (Z.mod_pos_bound j 64 ltac:(lia)).
    unfold i_root, i_nblocks, inode_root, inode_nblocks.
    destruct (decide (i_blockno j = i_blockno ino)) as [E|E].
    + pose proof (slot_neq ino j ltac:(done) E). rewrite E, !finish_word by lia.
      by repeat if_lia.
    + rewrite (blk_frame D (dsk s5)); [done|]. apply finish_frame. by apply (inv_other_blockno sz).
  - intros j x Hj Hne Hx. apply finish_frame. by apply (inv_other _ _ _ I ino j).
Qed.
End finish.

(** The inode block is written back, or was not changed. *)
Lemma write_back (s2 : S) L F1 sn2 :
  grown ts (n_grow D ino off) n0 s1 s2 L F F1 sn1 sn2 ->
  exists s3,
    (if i_nblocks D ino <=? off then
       r <- write (below_ino ts) (inode_blockno sn2) (inodeblock sn2) ;;
       if r <? 0 then fatal "treedisk_write: inode block" else ret tt
     else ret tt) s2 = Ok (tt, s3) /\
    dsk s3 = <[i_blockno ino := inodeblock sn2]> (dsk s2).
Proof.
  intros G. destruct (gr_same _ _ _ _ _ _ _ _ _ _ G) as (Hib & Hbn & Hin & _).
  pose proof (i_blockno_range _ ino ino_range). pose proof (inv_nib _ _ _ I).
  destruct (Z.leb_spec (i_nblocks D ino) off) as [Hle|Hgt].
  - destruct (write_spec s2 (i_blockno ino) (inodeblock sn2)) as (s3 & E3 & ED3).
    { apply (grown_slot _ _ _ _ _ _ _ _ _ _ G extended_slot). }
    { lia. }
    exists s3. split; [|done]. rewrite Hbn. cbn [inode_blockno extended].
    rewrite (bind_ok _ _ _ _ _ E3). by if_lia.
  - exists s2. split; [done|]. symmetry. apply insert_id.
    assert (n_grow D ino off = O) as Hg.
    { unfold n_grow, n_after. rewrite Z.max_l by lia. lia. }
    destruct (gr_zero _ _ _ _ _ _ _ _ _ _ G Hg) as [-> ->].
    unfold extended. cbn [inodeblock]. rewrite (proj2 (Z.leb_gt _ _)) by lia.
    rewrite ED1. apply (blk_in ts). lia.
Qed.

Lemma write_grow_ok :
  (n_grow D ino off <= length F)%nat ->
  exists sn2 s2 s3 L F1,
    grow_levels junk ts (n_grow D ino off) sn1 s1 = Ok (sn2, s2) /\
    (if i_nblocks D ino <=? off then
       r <- write (below_ino ts) (inode_blockno sn2) (inodeblock sn2) ;;
       if r <? 0 then fatal "treedisk_write: inode block" else ret tt
     else ret tt) s2 = Ok (tt, s3) /\
    prepared s3 L F1 sn2.
Proof.
  intros Hk.
  destruct (grow_spec ts junk _ n0 s1 sn1 F extended_alloc extended_slot extended_nodup Hk)
    as (sn2 & s2 & L & F1 & E2 & G).
  destruct (write_back s2 L F1 sn2 G) as (s3 & E3 & ED3).
  exists sn2, s2, s3, L, F1. split_and!; [done..|]. by eapply prepare.
Qed.
End one_write.

(** ** The operations *)

Lemma walk_need s ino off s3 L F F1 sn2 :
  prepared s ino off F s3 L F1 sn2 ->
  tree_missing (dsk s3) (n_after (dsk s) ino off) (get_u32 (inodeblock sn2) (2 * (ino mod 64))) off =
  (write_need (dsk s) ino off - n_grow (dsk s) ino off)%nat /\
  length F = (n_grow (dsk s) ino off + length F1)%nat.
Proof.
  intros P. rewrite (walked_root _ _ _ _ _ _ _ _ P).
  pose proof (pr_missing _ _ _ _ _ _ _ _ P). split; [lia|].
  rewrite (Permutation_length (pr_free _ _ _ _ _ _ _ _ P)), length_app.
  by rewrite (pr_length _ _ _ _ _ _ _ _ P).
Qed.

Lemma write_ok s ino off b F :
  fs_inv sz (dsk s) F -> 0 <= ino < ninode (dsk s) -> 0 <= off /\ off + 1 < 2 ^ 32 ->
  block_ok b -> (write_need (dsk s) ino off <= length F)%nat ->
  exists s' L F',
    treedisk_write 7 junk ts ino off b s = Ok (0, s') /\
    updated (dsk s) (dsk s') ino off b L F F' /\ length L = write_need (dsk s) ino off.
Proof.
  intros I Hino Hoff Hb Hneed.
  destruct (treedisk_write_parts s ino off b F I Hino) as (s1 & ED1 & ->); [lia..|].
  destruct (write_grow_ok s s1 ino off F I ED1 Hino Hoff) as (sn2 & s2 & s3 & L & F1 & E2 & E3 & P).
  { unfold write_need, n_grow, n_after in *. lia. }
  rewrite (bind_ok _ _ _ _ _ E2). unfold write_rest. rewrite (bind_ok _ _ _ _ _ E3).
  destruct (pr_ids _ _ _ _ _ _ _ _ P) as [-> ->].
  destruct (walk_need _ _ _ _ _ _ _ _ P) as [Hm HL].
  destruct (write_walk_spec ts junk _ s3 _ _ _ off F1 sn2 (pr_walk _ _ _ _ _ _ _ _ P))
    as (l & s4 & sn4 & c' & L2 & F2 & E4 & W); [rewrite Hm; lia|].
  rewrite (bind_ok _ _ _ _ _ E4).
  assert (0 <= l < sz) as Hl.
  { pose proof (leaf_in s ino off F s3 s4 L L2 F1 F2 sn2 sn4 l c' P W) as Hin.
    pose proof (finish_taken s ino off F s3 s4 L L2 F1 F2 sn2 sn4 l c' P W) as HF.
    destruct (inv_parts _ _ _ I ino Hino) as (_ & HrT & HrF).
    rewrite HF in HrF. apply Forall_app in HrF as [HrL _].
    rewrite Forall_forall in HrT, HrL. apply elem_of_app in Hin as [Hin|Hin]; auto. }
  destruct (write_spec s4 l b Hb Hl) as (s5 & E5 & ED5).
  rewrite (bind_ok _ _ _ _ _ E5). if_lia.
  exists s5, (L2 ++ L), F2. split; [done|]. split.
  - by apply (finish_updated s ino off b F I Hino Hoff s3 s4 s5 L L2 F1 F2 sn2 sn4 l c').
  - pose proof (wk_need _ _ _ _ _ _ _ _ _ _ _ _ _ _ _ W) as HL2. rewrite Hm in HL2.
    rewrite length_app, HL2, (pr_length _ _ _ _ _ _ _ _ P).
    pose proof (pr_missing _ _ _ _ _ _ _ _ P). lia.
Qed.

Lemma write_full s ino off b F :
  fs_inv sz (dsk s) F -> 0 <= ino < ninode (dsk s) -> 0 <= off /\ off + 1 < 2 ^ 32 ->
  (length F < write_need (dsk s) ino off)%nat ->
  treedisk_write 7 junk ts ino off b s = Fatal "treedisk_alloc_block: inode store is full".
Proof.
  intros I Hino Hoff Hneed.
  destruct (treedisk_write_parts s ino off b F I Hino) as (s1 & ED1 & ->); [lia..|].
  destruct (decide (n_grow (dsk s) ino off <= length F)%nat) as [Hg|Hg].
  - destruct (write_grow_ok s s1 ino off F I ED1 Hino Hoff Hg)
      as (sn2 & s2 & s3 & L & F1 & E2 & E3 & P).
    rewrite (bind_ok _ _ _ _ _ E2). unfold write_rest. rewrite (bind_ok _ _ _ _ _ E3).
    destruct (pr_ids _ _ _ _ _ _ _ _ P) as [-> ->].
    destruct (walk_need _ _ _ _ _ _ _ _ P) as [Hm HL].
    apply bind_fatal. apply (write_walk_full ts junk) with F1; [apply P|]. rewrite Hm. lia.
  - apply bind_fatal. eapply (grow_full ts junk) with (n := levels (i_nblocks (dsk s) ino)) (F := F).
    + by apply extended_alloc.
    + apply extended_slot.
    + by apply extended_nodup.
    + lia.
Qed.

(** The walk of [treedisk_read] looks a tree up. *)
Lemma read_walk_spec n s c off buf :
  is_u32 off -> (n <= 10)%nat -> Forall (fun x => 0 <= x < sz) (tree_blocks (dsk s) n c) ->
  exists s', read_walk 7 ts n c off buf s = Ok ((0, tree_lookup (dsk s) n c off), s') /\
             dsk s' = dsk s.
Proof.
  intros Ho. revert s c buf. induction n as [|n IH]; intros s c buf Hn Hr.
  all: cbn [read_walk]; destruct (Z.eqb_spec c 0) as [->|Hc];
    [exists s; by rewrite tree_lookup_zero|].
  all: destruct (read_blk ts s c buf) as (s1 & E1 & ED1);
    [rewrite Forall_forall in Hr; apply Hr; by apply tree_blocks_root|].
  all: rewrite (bind_ok _ _ _ _ _ E1); cbn beta iota; if_lia.
  - exists s1. split; [|done]. simpl. by if_lia.
  - rewrite ref_index_idx, tree_lookup_S by (done || lia).
    destruct (IH s1 (refs (blk (dsk s) c) (idx n off)) (blk (dsk s) c)) as (s2 & E2 & ED2).
    + lia.
    + rewrite ED1. rewrite Forall_forall in *. intros x Hx. apply Hr.
      eapply tree_child_blocks; [done|apply idx_range|done].
    + exists s2. rewrite E2, ED1. split; [done|congruence].
Qed.

Lemma read_ok s ino off buf F :
  fs_inv sz (dsk s) F -> 0 <= ino < ninode (dsk s) -> 0 <= off ->
  exists s', dsk s' = dsk s /\
    treedisk_read 7 junk ts ino off buf s =
    Ok (if off <? i_nblocks (dsk s) ino then (0, i_lookup (dsk s) ino off) else (-1, buf), s').
Proof.
  intros I Hino Hoff. destruct (get_snapshot_spec ts junk s ino F I Hino) as (s1 & E1 & ED1).
  unfold treedisk_read. rewrite (bind_ok _ _ _ _ _ E1). cbn beta iota zeta.
  cbn [inodeblock inode]. fold (i_nblocks (dsk s) ino). fold (i_root (dsk s) ino).
  pose proof (i_nblocks_u32 (dsk s) ino) as Hnb.
  rewrite (Z.ltb_antisym _ off). destruct (Z.leb_spec (i_nblocks (dsk s) ino) off); cbn [negb].
  { by exists s1. }
  rewrite (bind_ok _ _ _ _ _ (levels_count _ s1 Hnb)), Nat2Z.id.
  destruct (inv_parts _ _ _ I ino Hino) as (_ & Hr & _).
  destruct (read_walk_spec (levels (i_nblocks (dsk s) ino)) s1 (i_root (dsk s) ino) off buf)
    as (s2 & E2 & ED2).
  - unfold is_u32 in *. lia.
  - destruct (levels_bound _ Hnb). lia.
  - by rewrite ED1.
  - exists s2. rewrite E2, ED1. split; [congruence|done].
Qed.

Lemma read_bad_inode s ino off buf F :
  fs_inv sz (dsk s) F -> ninode (dsk s) <= ino ->
  exists s', dsk s' = dsk s /\ treedisk_read 7 junk ts ino off buf s = Ok ((-1, buf), s').
Proof.
  intros I Hino. destruct (get_snapshot_bad ts junk s ino F I Hino) as (s1 & E1 & ED1).
  exists s1. split; [done|]. unfold treedisk_read. by rewrite (bind_ok _ _ _ _ _ E1).
Qed.

Lemma write_bad_inode s ino off b F :
  fs_inv sz (dsk s) F -> ninode (dsk s) <= ino ->
  exists s', dsk s' = dsk s /\ treedisk_write 7 junk ts ino off b s = Ok (-1, s').
Proof.
  intros I Hino. destruct (get_snapshot_bad ts junk s ino F I Hino) as (s1 & E1 & ED1).
  exists s1. split; [done|]. unfold treedisk_write. by rewrite (bind_ok _ _ _ _ _ E1).
Qed.
End top.
