(* ===== verification/TreediskCreate.v ===== *)
(** [setup_freelist] and [treedisk_create] build a well-formed, empty file
    system. *)

From Stdlib Require Import ZArith Lia Strings.Byte.
From stdpp Require Import base numbers list strings gmap.
From S2P Require Import Prelude Bytes InodeStore Treedisk TreediskSpec TreediskTrees.
From S2P Require Import TreediskProof TreediskUpdate.

Local Open Scope egos_scope.

(** ** The contents of a free list block *)

Lemma fill_refs_spec n i nf nb data :
  block_ok data -> 0 <= i -> i + Z.of_nat n <= 128 -> 0 <= nf <= nb -> nb < 2 ^ 32 ->
  exists data', fill_refs n i nf nb data = (data', Z.min (nf + Z.of_nat n) nb) /\
    block_ok data' /\
    forall j, 0 <= j -> refs data' j =
      if (i <=? j) && (j <? i + Z.of_nat n)
      then (if nf + (j - i) <? nb then nf + (j - i) else 0) else refs data j.
Proof.
  revert i nf data. induction n as [|n IH]; intros i nf data Hok Hi Hin Hnf Hnb.
  { exists data. cbn [fill_refs]. split_and!; [f_equal; lia|done|]. intros j Hj.
    destruct (Z.leb_spec i j), (Z.ltb_spec j (i + Z.of_nat 0)); done || lia. }
  cbn [fill_refs]. set (v := if nf <? nb then nf else 0).
  assert (fill_refs n (i + 1) (if nf <? nb then nf + 1 else nf) nb (set_refs data i v) =
    (if nf <? nb then fill_refs n (i + 1) (u32 (nf + 1)) nb (set_refs data i nf)
     else fill_refs n (i + 1) nf nb (set_refs data i 0))) as <-.
  { unfold v. destruct (Z.ltb_spec nf nb); [|done]. by rewrite u32_small by (unfold is_u32; lia). }
  assert (is_u32 v) as Hv by (unfold v, is_u32; case_goal; bool_prop; lia).
  destruct (IH (i + 1) (if nf <? nb then nf + 1 else nf) (set_refs data i v))
    as (data' & E & Hok' & Hr); [apply set_u32_block_ok; [done|lia]|lia|lia| |lia|].
  { destruct (Z.ltb_spec nf nb); lia. }
  exists data'. split_and!; [|done|].
  { rewrite E. f_equal. destruct (Z.ltb_spec nf nb); lia. }
  intros j Hj. rewrite Hr by done. unfold set_refs, refs.
  rewrite get_set_u32_block by (done || lia). unfold v.
  destruct (Z.leb_spec i j), (Z.leb_spec (i + 1) j), (Z.ltb_spec j (i + 1 + Z.of_nat n)),
    (Z.ltb_spec j (i + Z.of_nat (S n))); cbn [andb]; try lia;
    destruct (Z.eqb_spec i j), (Z.ltb_spec nf nb); try lia; try done.
  all: repeat match goal with |- context [?a <? ?b] => destruct (Z.ltb_spec a b) end;
    try lia; done.
Qed.

Lemma bind_singleton {A B} (f : A -> B) (l : list A) : (l ≫= fun x => [f x]) = f <$> l.
Proof. induction l as [|a l IH]; [done|]. by rewrite bind_cons, fmap_cons, IH. Qed.

Lemma bind_nil {A B} (l : list A) : (l ≫= fun _ => @nil B) = [].
Proof. by induction l. Qed.

(** The references of a block filled from slot 1 on with [nf], [nf + 1], ... *)
Lemma fl_refs_filled data nf nb :
  1 <= nf <= nb ->
  (forall j, 1 <= j < 128 -> refs data j = if nf + (j - 1) <? nb then nf + (j - 1) else 0) ->
  fl_refs data = seqZ nf (Z.min 127 (nb - nf)).
Proof.
  intros Hnf Hr. unfold fl_refs. set (k := Z.min 127 (nb - nf)).
  replace 127 with (k + (127 - k)) at 1 by lia. rewrite seqZ_app by lia. rewrite bind_app.
  rewrite (bind_ext_elem _ (fun i => [i + (nf - 1)]) (seqZ 1 k)).
  2:{ intros i Hi%elem_of_seqZ. rewrite Hr by lia. if_lia. if_lia. f_equal. lia. }
  rewrite (bind_ext_elem _ (fun _ => []) (seqZ (1 + k) _)).
  2:{ intros i Hi%elem_of_seqZ. rewrite Hr by lia. by if_lia. }
  rewrite bind_nil, app_nil_r, bind_singleton.
  apply list_eq. intros i. rewrite list_lookup_fmap.
  destruct (decide (Z.of_nat i < k)).
  - rewrite !lookup_seqZ_lt by lia. simpl. f_equal. lia.
  - by rewrite !lookup_seqZ_ge by lia.
Qed.

Section create.
Context {S : Type} {IS : InodeStore S}.
Variable ts : treedisk_state.
Context {LAWS : InodeStoreLaws S (below_ino ts)}.
Variable junk : block.
Hypothesis junk_ok : block_ok junk.

Abbreviation sz := (store_size S (below_ino ts)).
Abbreviation dsk := (store_blocks (below_ino ts)).

(** ** [setup_freelist] *)

Lemma setup_loop_spec fuel s nf h data lo Fl :
  block_ok data -> 1 <= lo <= nf -> nf <= sz -> (Z.to_nat (sz - nf) <= fuel)%nat ->
  fl_rep (dsk s) h Fl -> Fl ≡ₚ seqZ lo (nf - lo) -> is_u32 h ->
  exists s' h' Fl',
    setup_freelist_loop ts fuel nf sz h data s = Ok (h', s') /\
    fl_rep (dsk s') h' Fl' /\ Fl' ≡ₚ seqZ lo (sz - lo) /\ is_u32 h' /\
    forall x, ~ (lo <= x < sz) -> dsk s' !! x = dsk s !! x.
Proof.
  pose proof store_size_range (S := S) (ino := below_ino ts) as Hsz.
  revert s nf h data Fl. induction fuel as [|fuel IH];
    intros s nf h data Fl Hok Hlo Hnf Hf Hrep HP Hh; cbn [setup_freelist_loop].
  all: destruct (Z.ltb_spec nf sz) as [Hlt|Hge].
  - lia.
  - exists s, h, Fl. replace nf with sz in HP by lia. done.
  - destruct (fill_refs_spec (Z.to_nat (REFS_PER_BLOCK - 1)) 1 (nf + 1) sz (set_refs data 0 h))
      as (data' & E & Hok' & Hr).
    { apply set_u32_block_ok; [done|lia]. } { lia. } { done. } { lia. } { lia. }
    rewrite u32_small by (unfold is_u32; lia). rewrite E. cbn beta iota.
    change (Z.of_nat (Z.to_nat (REFS_PER_BLOCK - 1))) with 127 in *.
    destruct (write_spec s nf data' Hok') as (s1 & E1 & ED1); [lia|].
    rewrite (bind_ok _ _ _ _ _ E1). if_lia.
    assert (blk (dsk s1) nf = data') as Hblk by (rewrite ED1; apply blk_insert).
    assert (forall x, x <> nf -> dsk s1 !! x = dsk s !! x) as Hfr.
    { intros x Hx. rewrite ED1. by apply lookup_insert_ne. }
    assert (refs data' 0 = h) as H0.
    { rewrite Hr by lia. cbn. unfold refs, set_refs. rewrite get_set_u32_block by (done || lia). done. }
    assert (fl_refs data' = seqZ (nf + 1) (Z.min 127 (sz - (nf + 1)))) as Hrefs.
    { apply fl_refs_filled; [lia|]. intros j Hj. rewrite Hr by lia.
      by rewrite (proj2 (Z.leb_le 1 j)), (proj2 (Z.ltb_lt j (1 + 127))) by lia. }
    set (nf' := Z.min (nf + 1 + 127) sz).
    destruct (IH s1 nf' nf data' (nf :: fl_refs data' ++ Fl)) as (s2 & h2 & F2 & E2 & H2);
      [done|lia|lia|lia| | | |].
    + rewrite <- Hblk. constructor; [lia|]. rewrite Hblk, H0.
      apply (fl_rep_frame (dsk s)); [done|]. intros x Hx. apply Hfr. intros ->.
      rewrite HP in Hx. apply elem_of_seqZ in Hx. lia.
    + rewrite Hrefs, HP. rewrite (app_comm_cons _ _ nf), Permutation_app_comm.
      replace (nf' - lo) with ((nf - lo) + (nf' - nf)) by lia. rewrite seqZ_app by lia.
      apply Permutation_app_head. replace (lo + (nf - lo)) with nf by lia.
      rewrite (seqZ_cons nf) by lia. replace (Z.succ nf) with (nf + 1) by lia.
      by replace (Z.pred (nf' - nf)) with (Z.min 127 (sz - (nf + 1))) by lia.
    + unfold is_u32. lia.
    + destruct H2 as (H2a & H2b & H2c & H2d). exists s2, h2, F2. split_and!; try done.
      intros x Hx. rewrite H2d by lia. apply Hfr. lia.
  - exists s, h, Fl. replace nf with sz in HP by lia. done.
Qed.

Lemma setup_freelist_ok s lo :
  1 <= lo <= sz ->
  exists s' h F,
    setup_freelist junk ts lo sz s = Ok (h, s') /\
    fl_rep (dsk s') h F /\ F ≡ₚ seqZ lo (sz - lo) /\ is_u32 h /\
    forall x, ~ (lo <= x < sz) -> dsk s' !! x = dsk s !! x.
Proof.
  intros Hlo. apply (setup_loop_spec _ s lo 0 junk lo []); try done; try lia.
  - constructor.
  - by rewrite Z.sub_diag.
Qed.

(** ** [treedisk_create] *)

Lemma clear_spec n i s :
  0 <= i -> i + Z.of_nat n <= sz ->
  exists s', clear_inodeblocks ts n i s = Ok (0, s') /\
    forall x, dsk s' !! x = if (i <=? x) && (x <? i + Z.of_nat n) then Some null_block else dsk s !! x.
Proof.
  revert i s. induction n as [|n IH]; intros i s Hi Hn; cbn [clear_inodeblocks].
  - exists s. split; [done|]. intros x.
    destruct (Z.leb_spec i x), (Z.ltb_spec x (i + Z.of_nat 0)); simpl; done || lia.
  - destruct (write_spec s i null_block) as (s1 & E1 & ED1); [apply null_block_ok|lia|].
    rewrite (bind_ok _ _ _ _ _ E1). if_lia.
    destruct (IH (i + 1) s1) as (s2 & E2 & H2); [lia..|].
    exists s2. split; [done|]. intros x. rewrite H2, ED1, lookup_insert.
    destruct (Z.leb_spec i x), (Z.leb_spec (i + 1) x), (Z.ltb_spec x (i + 1 + Z.of_nat n)),
      (Z.ltb_spec x (i + Z.of_nat (Datatypes.S n))); simpl; try lia;
      try case_decide; try lia; done.
Qed.

(** A disk with a superblock, null inode blocks and a free list of the rest. *)
Lemma fresh_disk_inv D h F nb :
  (forall x, is_Some (D !! x) <-> 0 <= x < sz) ->
  (forall x y, D !! x = Some y -> block_ok y) ->
  0 <= nb < sz -> 64 * nb < 2 ^ 32 -> is_u32 h ->
  D !! 0 = Some (set_free_list (set_u32 null_block 0 nb) h) ->
  (forall x, 1 <= x <= nb -> D !! x = Some null_block) ->
  fl_rep D h F -> F ≡ₚ seqZ (nb + 1) (sz - (nb + 1)) ->
  fs_inv sz D F /\ fs_of D = replicate (Z.to_nat (64 * nb)) [] /\ nib D = nb.
Proof.
  intros Hdom Hok Hnb H64 Hh H0 Hnull Hfl HP.
  assert (is_u32 nb) as Hnbu by (unfold is_u32; lia).
  assert (block_ok (set_u32 null_block 0 nb)) as Hsb
    by (apply set_u32_block_ok; [apply null_block_ok|lia]).
  assert (nib D = nb) as Hnib.
  { unfold nib, n_inodeblocks. rewrite (blk_Some _ _ _ H0). unfold set_free_list.
    rewrite get_set_u32_block by (done || lia). simpl.
    rewrite get_set_u32_block by (apply null_block_ok || done || lia). done. }
  assert (forall ino, 0 <= ino < ninode D -> i_root D ino = 0 /\ i_nblocks D ino = 0) as Hin.
  { intros ino Hino. unfold i_root, i_nblocks, inode_root, inode_nblocks.
    rewrite (blk_Some D (i_blockno ino) null_block).
    - by rewrite !get_u32_null.
    - apply Hnull. unfold ninode, i_blockno in *. rewrite Hnib in Hino.
      assert (0 <= ino / 64 < nb); [|lia].
      split; [apply Z.div_pos; lia|apply Z.div_lt_upper_bound; lia]. }
  assert (fs_blocks D = []) as Hfs.
  { unfold fs_blocks. rewrite (bind_ext_elem _ (fun _ => [])); [apply bind_nil|].
    intros ino Hino%elem_of_seqZ. destruct (Hin ino ltac:(lia)) as [Hr _].
    unfold i_blocks. by rewrite Hr, tree_blocks_zero. }
  split_and!; [|apply list_eq; intros i|done].
  - split; try done; rewrite ?Hnib, ?Hfs; simpl; try done.
    + unfold ninode. by rewrite Hnib.
    + rewrite (blk_Some _ _ _ H0). unfold free_list, set_free_list.
      rewrite get_set_u32_block by (done || lia). done.
    + rewrite HP. replace (nb + 1) with (0 + (1 + nb)) by lia. rewrite <- seqZ_app by lia.
      apply NoDup_seqZ.
    + rewrite HP. apply Forall_forall. intros x Hx%elem_of_seqZ. lia.
    + intros ino off Hino _. destruct (Hin ino Hino) as [Hr _].
      unfold i_lookup. by rewrite Hr, tree_lookup_zero.
  - unfold fs_of. rewrite fmap_seqZ_lookup. unfold ninode at 1. rewrite Hnib.
    destruct (Z.ltb_spec (Z.of_nat i) (64 * nb)).
    + rewrite lookup_replicate_2 by lia. f_equal. unfold file_of.
      destruct (Hin (Z.of_nat i)) as [_ ->]; [unfold ninode; lia|done].
    + symmetry. apply lookup_replicate_None. lia.
Qed.

Lemma create_ok s ninodes :
  0 <= ninodes -> ninodes + 64 < 2 ^ 32 -> (ninodes + 63) / 64 + 2 <= sz ->
  nib (dsk s) = 0 ->
  exists s' F,
    treedisk_create junk ts ninodes s = Ok (0, s') /\
    fs_inv sz (dsk s') F /\
    fs_of (dsk s') = replicate (Z.to_nat (64 * ((ninodes + 63) / 64))) [] /\
    F ≡ₚ seqZ ((ninodes + 63) / 64 + 1) (sz - ((ninodes + 63) / 64 + 1)).
Proof.
  intros Hn1 Hn2 Hbig Hfresh. pose proof store_size_range (S := S) (ino := below_ino ts) as Hsz.
  set (nb := (ninodes + 63) / 64) in *.
  assert (0 <= nb) as Hnb by (apply Z.div_pos; lia).
  assert (64 * nb <= ninodes + 63) as H64 by (apply Z.mul_div_le; lia).
  unfold treedisk_create. change INODES_PER_BLOCK with 64.
  replace (ninodes + 64 - 1) with (ninodes + 63) by lia.
  rewrite (u32_small (ninodes + 63)) by (unfold is_u32; lia). fold nb. cbv zeta.
  destruct (getsize_spec s) as (s1 & E1 & ED1). rewrite (bind_ok _ _ _ _ _ E1).
  rewrite !u32_small by (unfold is_u32; lia). if_lia.
  destruct (read_blk ts s1 0 junk) as (s2 & E2 & ED2); [lia|].
  rewrite (bind_ok _ _ _ _ _ E2). cbn beta iota. if_lia. rewrite ED1.
  fold (nib (dsk s)). rewrite Hfresh. simpl (0 =? 0).
  destruct (setup_freelist_ok s2 (nb + 1)) as (s3 & h & F & E3 & Hfl & HP & Hh & Hfr3); [lia|].
  rewrite (bind_ok _ _ _ _ _ E3).
  destruct (write_spec s3 0 (set_free_list (set_u32 null_block 0 nb) h)) as (s4 & E4 & ED4).
  { unfold set_free_list. repeat apply set_u32_block_ok; [apply null_block_ok|lia..]. }
  { lia. }
  rewrite (bind_ok _ _ _ _ _ E4). if_lia.
  destruct (clear_spec (Z.to_nat nb) 1 s4) as (s5 & E5 & H5); [lia..|].
  rewrite Z2Nat.id in H5 by lia.
  destruct (fresh_disk_inv (dsk s5) h F nb) as (HI & Hfs & _).
  - intros x. apply store_dom.
  - intros x y. apply store_block_ok.
  - lia.
  - lia.
  - done.
  - rewrite H5. simpl. rewrite ED4. by rewrite lookup_insert_eq.
  - intros x Hx. rewrite H5. by rewrite (proj2 (Z.leb_le 1 x)), (proj2 (Z.ltb_lt x _)) by lia.
  - apply (fl_rep_frame (dsk s3)); [done|]. intros x Hx. rewrite HP in Hx.
    apply elem_of_seqZ in Hx. rewrite H5, (proj2 (Z.ltb_ge x _)), andb_false_r by lia.
    rewrite ED4. apply lookup_insert_ne. lia.
  - done.
  - by exists s5, F.
Qed.
End create.
