(* ===== verification/Memory.v ===== *)
(** Byte-addressed memory: the [char] arrays and the raw addresses that the C
    sources copy from and to ([memcpy], [memset]).  A byte that was never
    written is 0, as in the bss segment. *)

From Stdlib Require Import ZArith Lia Strings.Byte.
From stdpp Require Import base numbers list strings gmap.
From S2P Require Import Prelude Bytes.

Abbreviation mem := (gmap Z byte).

Definition load_byte (m : mem) (a : Z) : byte := default x00 (m !! a).
Fixpoint load_n (m : mem) (a : Z) (n : nat) : list byte :=
  match n with
  | O => []
  | S n' => load_byte m a :: load_n m (a + 1) n'
  end.
Definition load (m : mem) (a n : Z) : list byte := load_n m a (Z.to_nat n).
Fixpoint store (m : mem) (a : Z) (l : list byte) : mem :=
  match l with
  | [] => m
  | b :: l' => store (<[a := b]> m) (a + 1) l'
  end.
Definition memset (m : mem) (a : Z) (c : byte) (n : Z) : mem :=
  store m a (replicate (Z.to_nat n) c).
Definition load_u32 (m : mem) (a : Z) : Z := le_get (load m a 4).
Definition store_u32 (m : mem) (a v : Z) : mem := store m a (le_put 4 v).

Lemma length_load m a n : length (load m a n) = Z.to_nat n.
Proof.
  unfold load. generalize (Z.to_nat n). intros k. revert a.
  induction k as [|k IH]; intros a; simpl; auto.
Qed.

Lemma load_lookup m a n i :
  load m a n !! i = if Z.of_nat i <? n then Some (load_byte m (a + Z.of_nat i)) else None.
Proof.
  destruct (Z.ltb_spec (Z.of_nat i) n) as [Hlt|Hge].
  - unfold load. assert (i < Z.to_nat n)%nat as Hi by lia. clear Hlt.
    revert a i Hi. generalize (Z.to_nat n). intros k.
    induction k as [|k IH]; intros a [|i] Hi; simpl; try lia; [by rewrite Z.add_0_r|].
    rewrite IH by lia. do 2 f_equal. lia.
  - apply lookup_ge_None_2. rewrite length_load. lia.
Qed.

Lemma store_lookup m a l x :
  load_byte (store m a l) x =
  if (a <=? x) && (x <? a + Z.of_nat (length l))
  then default x00 (l !! Z.to_nat (x - a)) else load_byte m x.
Proof.
  revert m a. induction l as [|b l IH]; intros m a; cbn [store length].
  - destruct (Z.leb_spec a x), (Z.ltb_spec x (a + Z.of_nat 0)); done || lia.
  - rewrite IH. unfold load_byte at 1. rewrite lookup_insert.
    destruct (decide (a = x)) as [->|Hne].
    + rewrite (proj2 (Z.leb_gt (x + 1) x)) by lia. rewrite Z.leb_refl.
      rewrite (proj2 (Z.ltb_lt x (x + Z.of_nat (S (length l))))) by lia. by rewrite Z.sub_diag.
    + fold (load_byte m x).
      destruct (Z.leb_spec (a + 1) x), (Z.leb_spec a x), (Z.ltb_spec x (a + 1 + Z.of_nat (length l))),
        (Z.ltb_spec x (a + Z.of_nat (S (length l)))); simpl; try lia; try done.
      by replace (Z.to_nat (x - a)) with (S (Z.to_nat (x - (a + 1)))) by lia.
Qed.

Lemma load_store_eq m a l : load (store m a l) a (Z.of_nat (length l)) = l.
Proof.
  apply list_eq. intros i. rewrite load_lookup. destruct (Z.ltb_spec (Z.of_nat i) (Z.of_nat (length l))).
  - rewrite store_lookup, (proj2 (Z.leb_le a _)), (proj2 (Z.ltb_lt _ _)) by lia. simpl.
    replace (Z.to_nat (a + Z.of_nat i - a)) with i by lia.
    destruct (lookup_lt_is_Some_2 l i) as [b ->]; [lia|done].
  - symmetry. apply lookup_ge_None_2. lia.
Qed.

Lemma load_store_len m a l n : length l = Z.to_nat n -> 0 <= n -> load (store m a l) a n = l.
Proof. intros Hl Hn. rewrite <- (load_store_eq m a l) at 2. f_equal. lia. Qed.

Lemma load_store_ne m a l a' n :
  (a' + n <= a \/ a + Z.of_nat (length l) <= a') -> load (store m a l) a' n = load m a' n.
Proof.
  intros H. apply list_eq. intros i. rewrite !load_lookup.
  destruct (Z.ltb_spec (Z.of_nat i) n); [|done]. f_equal. rewrite store_lookup.
  destruct (Z.leb_spec a (a' + Z.of_nat i)), (Z.ltb_spec (a' + Z.of_nat i) (a + Z.of_nat (length l)));
    simpl; done || lia.
Qed.

Lemma load_sub m a n b k :
  a <= b -> 0 <= k -> b + k <= a + n -> load m b k = take (Z.to_nat k) (drop (Z.to_nat (b - a)) (load m a n)).
Proof.
  intros Hb Hk Hn. apply list_eq. intros i. rewrite load_lookup. destruct (Z.ltb_spec (Z.of_nat i) k).
  - rewrite lookup_take_lt, lookup_drop, load_lookup, (proj2 (Z.ltb_lt _ _)) by lia. do 2 f_equal. lia.
  - rewrite lookup_take_ge by lia. done.
Qed.

Lemma load_ext m m' a n :
  (forall x, a <= x < a + n -> load_byte m' x = load_byte m x) -> load m' a n = load m a n.
Proof.
  intros H. apply list_eq. intros i. rewrite !load_lookup.
  destruct (Z.ltb_spec (Z.of_nat i) n); [|done]. f_equal. apply H. lia.
Qed.

(** ** Words in memory *)

Lemma load_u32_range m a : is_u32 (load_u32 m a).
Proof.
  unfold load_u32, is_u32. pose proof (le_get_range (load m a 4)) as Hr.
  rewrite length_load in Hr. exact Hr.
Qed.

Lemma load_store_u32 m a v : load_u32 (store_u32 m a v) a = u32 v.
Proof.
  unfold load_u32, store_u32. rewrite load_store_len by done. by rewrite le_get_put.
Qed.

Lemma load_store_u32_ne m a a' v :
  a' + 4 <= a \/ a + 4 <= a' -> load_u32 (store_u32 m a v) a' = load_u32 m a'.
Proof.
  intros Hd. unfold load_u32, store_u32. rewrite load_store_ne; [done|].
  rewrite length_le_put. lia.
Qed.

Lemma load_u32_store_ne m a l a' :
  a' + 4 <= a \/ a + Z.of_nat (length l) <= a' -> load_u32 (store m a l) a' = load_u32 m a'.
Proof. intros Hd. unfold load_u32. by rewrite load_store_ne. Qed.

Lemma load_u32_zeros m a n a' :
  a <= a' -> a' + 4 <= a + Z.of_nat n -> load_u32 (store m a (replicate n x00)) a' = 0.
Proof.
  intros H1 H2. unfold load_u32. rewrite <- (le_get_zeros 4). f_equal.
  apply list_eq. intros i. rewrite load_lookup. destruct (Z.ltb_spec (Z.of_nat i) 4).
  - rewrite store_lookup, length_replicate.
    rewrite (proj2 (Z.leb_le a _)), (proj2 (Z.ltb_lt _ _)) by lia. cbn [andb].
    rewrite (lookup_replicate_2 n), (lookup_replicate_2 4) by lia. reflexivity.
  - symmetry. apply lookup_ge_None_2. rewrite length_replicate. lia.
Qed.
