(* ===== verification/Earth.v ===== *)
(** The configuration of the earth layer: the memory map and the platforms of
    library/egos.h, the disk layout of library/file/disk.h, and the disk of
    [struct earth] ([disk_read], [disk_write]) as a class with its laws.  The
    paging device, the file system and the loaders are written against the
    class; Sd.v, SdCard.v and Devices.v implement it. *)

From Stdlib Require Import ZArith Lia Strings.Byte.
From stdpp Require Import base numbers list strings gmap.
From S2P Require Import Prelude Bytes.

(** ** Configuration (library/egos.h) *)

Inductive translation_t := PAGE_TABLE | SOFT_TLB.
Inductive platform_t := ARTY | QEMU_SIFIVE | QEMU_LATEST.
#[export] Instance translation_eq_dec : EqDecision translation_t.
Proof. solve_decision. Defined.
#[export] Instance platform_eq_dec : EqDecision platform_t.
Proof. solve_decision. Defined.

Definition PAGE_SIZE : Z := 4096.
Definition zero_page : list byte := replicate (Z.to_nat PAGE_SIZE) x00.
#[global] Arguments zero_page : simpl never.
Definition FRAME_CACHE_END : Z := 0x80020000.
Definition FRAME_CACHE_START : Z := 0x80004000.
Definition GRASS_STACK_TOP : Z := 0x80003f80.
Definition APPS_STACK_TOP : Z := 0x80002000.
Definition SYSCALL_ARG : Z := 0x80000400.
Definition APPS_ARG : Z := 0x80000000.
Definition APPS_SIZE : Z := 0x00003000.
Definition APPS_ENTRY : Z := 0x08005000.
Definition GRASS_SIZE : Z := 0x00002800.
Definition GRASS_ENTRY : Z := 0x08002800.

Definition MSIP (p : platform_t) : Z :=
  match p with ARTY => 0x2000000 | _ => 0x2000004 end.
Definition SPI_BASE (p : platform_t) : Z :=
  match p with ARTY => 0x10024000 | _ => 0x10050000 end.
Definition UART0_BASE (p : platform_t) : Z :=
  match p with QEMU_LATEST => 0x10010000 | _ => 0x10013000 end.

(** ** Disk layout (library/file/disk.h) *)

Definition PAGING_DEV_SIZE : Z := 1024 * 1024.
Definition GRASS_NEXEC : Z := 8.
Definition GRASS_EXEC_SIZE : Z := 1024 * 1024.
Definition FS_DISK_SIZE : Z := 1024 * 1024 * 2.
Definition GRASS_EXEC_SEGMENT : Z := GRASS_EXEC_SIZE / GRASS_NEXEC / BLOCK_SIZE.
Definition GRASS_EXEC_START : Z := PAGING_DEV_SIZE / BLOCK_SIZE.
Definition SYS_PROC_EXEC_START : Z := GRASS_EXEC_START + GRASS_EXEC_SEGMENT.
Definition SYS_FILE_EXEC_START : Z := GRASS_EXEC_START + GRASS_EXEC_SEGMENT * 2.
Definition SYS_DIR_EXEC_START : Z := GRASS_EXEC_START + GRASS_EXEC_SEGMENT * 3.
Definition SYS_SHELL_EXEC_START : Z := GRASS_EXEC_START + GRASS_EXEC_SEGMENT * 4.
Definition GRASS_FS_START : Z := (PAGING_DEV_SIZE + GRASS_EXEC_SIZE) / BLOCK_SIZE.

(** ** The disk *)

(** [disk_read] gives the return value and the [nblocks * BLOCK_SIZE] bytes it
    puts at [dst]; [disk_write] takes the bytes at [src]. *)
Class Disk (D : Type) := {
  disk_read : Z -> Z -> M D (Z * list byte);
  disk_write : Z -> Z -> list byte -> M D Z
}.

(** The bytes of the blocks [b, b + n) of a disk. *)
Definition blocks_at (B : gmap Z block) (b n : Z) : list byte :=
  seqZ b n ≫= fun i => default null_block (B !! i).

(** Block [i] of a disk after the write of [src] at the blocks [b, b + n). *)
Definition write_blocks (B : gmap Z block) (b n : Z) (src : list byte) (i : Z) : option block :=
  if (b <=? i) && (i <? b + n)
  then Some (take (Z.to_nat BLOCK_SIZE) (drop (Z.to_nat ((i - b) * BLOCK_SIZE)) src))
  else B !! i.

(** A disk of [disk_size] blocks of which every block can be read and written. *)
Class DiskLaws (D : Type) `{Disk D} := {
  disk_size : Z;
  disk_blocks : D -> gmap Z block;
  disk_dom d i : is_Some (disk_blocks d !! i) <-> 0 <= i < disk_size;
  disk_block_ok d i b : disk_blocks d !! i = Some b -> block_ok b;
  disk_read_spec d b n :
    0 <= b -> 0 <= n -> b + n <= disk_size ->
    exists d', disk_read b n d = Ok ((0, blocks_at (disk_blocks d) b n), d') /\
               disk_blocks d' = disk_blocks d;
  disk_write_spec d b n src :
    0 <= b -> 0 <= n -> b + n <= disk_size -> Z.of_nat (length src) = n * BLOCK_SIZE ->
    exists d', disk_write b n src d = Ok (0, d') /\
               forall i, disk_blocks d' !! i = write_blocks (disk_blocks d) b n src i
}.
Arguments disk_size D {_ _}.

(** ** Lemmas *)

Section laws.
Context `{DiskLaws D}.

Lemma disk_blk_ok d i : block_ok (default null_block (disk_blocks d !! i)).
Proof.
  destruct (disk_blocks d !! i) as [b|] eqn:E; [by eapply disk_block_ok|apply null_block_ok].
Qed.
End laws.

Lemma length_blocks_at B b n :
  (forall i, block_ok (default null_block (B !! i))) -> 0 <= n ->
  Z.of_nat (length (blocks_at B b n)) = n * BLOCK_SIZE.
Proof.
  intros HB Hn. unfold blocks_at. revert b. pattern n. apply natlike_ind; [done| |done].
  intros m Hm IH b. rewrite seqZ_cons by lia. rewrite bind_cons, length_app.
  replace (Z.pred (Z.succ m)) with m by lia. rewrite Nat2Z.inj_add, IH, (HB b).
  unfold BLOCK_SIZE. lia.
Qed.

(** Two disks that agree on a range of blocks hold the same bytes there. *)
Lemma blocks_at_ext B B' b n :
  (forall i, b <= i < b + n -> B' !! i = B !! i) -> blocks_at B' b n = blocks_at B b n.
Proof.
  intros HB. unfold blocks_at. apply Forall_bind_ext. apply Forall_forall.
  intros i Hi. apply elem_of_seqZ in Hi. by rewrite HB by lia.
Qed.

(** What was written is what is read. *)
Lemma blocks_at_written B b n src :
  0 <= n -> Z.of_nat (length src) = n * BLOCK_SIZE ->
  (forall i, b <= i < b + n ->
     B !! i = Some (take (Z.to_nat BLOCK_SIZE) (drop (Z.to_nat ((i - b) * BLOCK_SIZE)) src))) ->
  blocks_at B b n = src.
Proof.
  intros Hn. revert b src. pattern n. apply natlike_ind; [| |done].
  - intros b src Hl _. destruct src; [done|simpl in Hl; lia].
  - intros m Hm IH b src Hl HB. unfold blocks_at.
    rewrite seqZ_cons by lia. rewrite bind_cons. replace (Z.pred (Z.succ m)) with m by lia.
    rewrite <- (take_drop (Z.to_nat BLOCK_SIZE) src) at 1. f_equal.
    + rewrite HB by lia. simpl. by replace (Z.to_nat ((b - b) * BLOCK_SIZE)) with O by lia.
    + apply IH.
      * rewrite length_drop. unfold BLOCK_SIZE in *. lia.
      * intros i Hi. rewrite HB, drop_drop by lia. do 3 f_equal. unfold BLOCK_SIZE. lia.
Qed.

Lemma blocks_at_write B B' b n src :
  0 <= n -> Z.of_nat (length src) = n * BLOCK_SIZE ->
  (forall i, B' !! i = write_blocks B b n src i) -> blocks_at B' b n = src.
Proof.
  intros Hn Hl HB. apply blocks_at_written; [done..|]. intros i Hi. rewrite HB.
  unfold write_blocks. by rewrite (proj2 (Z.leb_le b i)), (proj2 (Z.ltb_lt i _)) by lia.
Qed.

Lemma blocks_at_write_ne B B' b n src b' n' :
  b' + n' <= b \/ b + n <= b' ->
  (forall i, B' !! i = write_blocks B b n src i) -> blocks_at B' b' n' = blocks_at B b' n'.
Proof.
  intros Hd HB. apply blocks_at_ext. intros i Hi. rewrite HB. unfold write_blocks.
  destruct (Z.leb_spec b i), (Z.ltb_spec i (b + n)); simpl; done || lia.
Qed.
