(* ===== verification/RamDisk.v ===== *)
(** The RAM disk on which tools/mkfs.c builds the file system image: the array
    [fs] as memory, its four methods, and the proof that it is an inode store
    in the sense of InodeStore.v. *)

From Stdlib Require Import ZArith Lia Strings.Byte.
From stdpp Require Import base numbers list strings gmap.
From S2P Require Import Prelude Bytes InodeStore Memory Earth.

(** [getsize], [setsize], [ramread] and [ramwrite]: the byte index
    [offset * BLOCK_SIZE] is a [uint]; past the end of [fs] is undefined. *)
Definition ram_getsize (ino : Z) : M mem Z := ret (FS_DISK_SIZE / BLOCK_SIZE).
Definition ram_setsize (ino newsize : Z) : M mem Z := fatal "assert(0)".
Definition ramread (ino offset : Z) (buf : block) : M mem (Z * block) := fun fs =>
  let i := u32 (offset * BLOCK_SIZE) in
  if i + BLOCK_SIZE <=? FS_DISK_SIZE then Ok ((0, load fs i BLOCK_SIZE), fs)
  else Undef "ramread".
Definition ramwrite (ino offset : Z) (b : block) : M mem Z := fun fs =>
  let i := u32 (offset * BLOCK_SIZE) in
  if i + BLOCK_SIZE <=? FS_DISK_SIZE then Ok (0, store fs i (take (Z.to_nat BLOCK_SIZE) b))
  else Undef "ramwrite".

(** [ramdisk_init]. *)
#[export] Instance ramdisk : InodeStore mem := {|
  getsize := ram_getsize;
  setsize := ram_setsize;
  read := ramread;
  write := ramwrite
|}.

(** The blocks of an array of [n] blocks. *)
Definition array_blocks (n : Z) (m : mem) : gmap Z block :=
  list_to_map ((fun i => (i, load m (i * BLOCK_SIZE) BLOCK_SIZE)) <$> seqZ 0 n).

Lemma array_blocks_lookup n m i :
  array_blocks n m !! i =
  if (0 <=? i) && (i <? n) then Some (load m (i * BLOCK_SIZE) BLOCK_SIZE) else None.
Proof.
  unfold array_blocks. destruct ((0 <=? i) && (i <? n))%bool eqn:E.
  - bool_prop. apply elem_of_list_to_map_1.
    + rewrite <- list_fmap_compose.
      rewrite (list_fmap_ext _ id (seqZ 0 n)) by done. rewrite list_fmap_id. apply NoDup_seqZ.
    + apply list_elem_of_fmap. exists i. split; [done|]. apply elem_of_seqZ. lia.
  - apply not_elem_of_list_to_map_1. intros Hin.
    apply list_elem_of_fmap in Hin as ([j b] & -> & Hj).
    apply list_elem_of_fmap in Hj as (k & [= -> ->] & Hk). apply elem_of_seqZ in Hk.
    simpl in E. rewrite (proj2 (Z.leb_le 0 k)), (proj2 (Z.ltb_lt k n)) in E by lia. done.
Qed.

Lemma array_blocks_store n m off b :
  block_ok b -> 0 <= off < n ->
  array_blocks n (store m (off * BLOCK_SIZE) b) = <[off := b]> (array_blocks n m).
Proof.
  intros Hb Hoff. apply map_eq. intros i. rewrite lookup_insert, !array_blocks_lookup.
  assert (Z.of_nat (length b) = BLOCK_SIZE) as Hlen by (rewrite Hb; done).
  destruct (decide (off = i)) as [->|Hne].
  - rewrite (proj2 (Z.leb_le 0 i)), (proj2 (Z.ltb_lt i n)) by lia. simpl. f_equal.
    rewrite <- Hlen. apply load_store_eq.
  - case_goal; [|done]. f_equal. apply load_store_ne. unfold BLOCK_SIZE in *. lia.
Qed.

(** The RAM disk keeps the promises of an inode store, for every inode. *)
#[export] Program Instance ramdisk_laws ino : InodeStoreLaws mem ino := {|
  store_size := 4096;
  store_blocks := array_blocks 4096
|}.
Next Obligation. lia. Qed.
Next Obligation.
  intros ino s off. rewrite array_blocks_lookup.
  destruct (Z.leb_spec 0 off), (Z.ltb_spec off 4096); simpl; split; intros H';
    try (by destruct H'); try lia; done.
Qed.
Next Obligation.
  intros ino s off b H. rewrite array_blocks_lookup in H.
  destruct (_ && _)%bool; simplify_eq. apply length_load.
Qed.
Next Obligation. intros ino s. by exists s. Qed.
Next Obligation.
  intros ino s off b buf H. rewrite array_blocks_lookup in H.
  destruct (_ && _)%bool eqn:E; simplify_eq. bool_prop. exists s. split; [|done].
  simpl. unfold ramread. cbv zeta. rewrite u32_small by (unfold is_u32, BLOCK_SIZE; lia).
  unfold FS_DISK_SIZE, BLOCK_SIZE. by if_lia.
Qed.
Next Obligation.
  intros ino s off b Hb Hoff. exists (store s (off * BLOCK_SIZE) b).
  split; [|by apply array_blocks_store].
  simpl. unfold ramwrite. cbv zeta. rewrite u32_small by (unfold is_u32, BLOCK_SIZE; lia).
  unfold block_ok in Hb. rewrite take_ge by lia.
  unfold FS_DISK_SIZE, BLOCK_SIZE. by if_lia.
Qed.
