(* ===== verification/TreediskTheorems.v ===== *)
(** The properties of the treedisk file system (library/file/file.c), with
    their instances on the RAM disk of tools/mkfs.c. *)

From Stdlib Require Import ZArith Lia Strings.Byte.
From stdpp Require Import base numbers list strings gmap.
From S2P Require Import Prelude Bytes InodeStore Treedisk TreediskSpec TreediskTrees.
From S2P Require Import TreediskProof TreediskUpdate TreediskWrite TreediskTop TreediskCreate.
From S2P Require Import Memory RamDisk.

(** ** A concrete file system *)

(** The state [mkfs] starts from: [fs] is all zeroes, and a file system for
    [NINODES] inodes is created on it. *)
Definition ts0 : treedisk_state := {| below_ino := 0; ninodes := 0 |}.
Definition created : mem :=
  match treedisk_create null_block ts0 NINODES ∅ with Ok (_, s) => s | _ => ∅ end.
Abbreviation blocks0 := (store_blocks (below_ino ts0)).

Lemma empty_fresh : nib (blocks0 ∅) = 0.
Proof. by vm_compute. Qed.

Lemma created_ok :
  exists F,
    treedisk_create null_block ts0 NINODES ∅ = Ok (0, created) /\
    fs_inv 4096 (blocks0 created) F /\
    fs_of (blocks0 created) = replicate 128 [] /\ length F = 4093%nat.
Proof.
  destruct (create_ok (IS := ramdisk) ts0 null_block null_block_ok ∅ NINODES)
    as (s' & F & E & I & Hfs & HF); [done|done|done|apply empty_fresh|].
  exists F. unfold created. rewrite E. split; [reflexivity|]. split; [exact I|].
  split; [exact Hfs|]. rewrite (Permutation_length HF). by rewrite length_seqZ.
Qed.

(** Nothing below depends on how the image is computed. *)
#[global] Opaque created.

Lemma created_ninode : ninode (blocks0 created) = 128.
Proof. by vm_compute. Qed.

Lemma created_empty ino : 0 <= ino < 128 -> file_of (blocks0 created) ino = [].
Proof.
  intros Hino. destruct created_ok as (F & _ & _ & Hfs & _).
  pose proof (fs_of_lookup (blocks0 created) ino) as Hl.
  rewrite created_ninode, Hfs, lookup_replicate_2 in Hl by lia.
  specialize (Hl Hino). congruence.
Qed.

Lemma created_need : write_need (blocks0 created) 3 300 = 4%nat.
Proof. by vm_compute. Qed.

(** The image after one write, 300 blocks into the empty file 3. *)
Definition hello : block := splice null_block 0 (String.list_byte_of_string "hello").
Definition written : mem :=
  match treedisk_write 7 null_block ts0 3 300 hello created with Ok (_, s) => s | _ => ∅ end.

Lemma written_ok : treedisk_write 7 null_block ts0 3 300 hello created = Ok (0, written).
Proof.
  destruct created_ok as (F & _ & I & _ & HL).
  destruct (write_ok (IS := ramdisk) ts0 null_block created 3 300 hello F) as (s' & L & F' & E & _).
  - exact I.
  - rewrite created_ninode. lia.
  - lia.
  - reflexivity.
  - rewrite created_need. lia.
  - unfold written. rewrite E. reflexivity.
Qed.
#[global] Opaque written.

Lemma fs_of_empty D n :
  0 <= nib D -> fs_of D = replicate n [] ->
  ninode D = Z.of_nat n /\ forall ino, 0 <= ino < Z.of_nat n -> i_nblocks D ino = 0.
Proof.
  intros Hnib Hfs. assert (ninode D = Z.of_nat n) as Hn.
  { pose proof (f_equal length Hfs) as HL. unfold fs_of in HL.
    rewrite length_fmap, length_seqZ, length_replicate in HL. unfold ninode in *. lia. }
  split; [done|]. intros ino Hino. pose proof (fs_of_lookup D ino) as Hl.
  rewrite Hn, Hfs, lookup_replicate_2 in Hl by lia. specialize (Hl Hino). injection Hl as Hf.
  pose proof (f_equal length Hf) as HL. unfold file_of in HL.
  rewrite length_fmap, length_seqZ in HL. simpl in HL.
  pose proof (i_nblocks_u32 D ino) as [? _]. lia.
Qed.

(** A file system of 4094 inode blocks leaves one block of the 4096 free; the
    write of a block at offset 5 of an empty file needs two. *)
Lemma crowded_ok :
  exists s F, fs_inv 4096 (blocks0 s) F /\ ninode (blocks0 s) = 262016 /\
    write_need (blocks0 s) 0 5 = 2%nat /\ length F = 1%nat.
Proof.
  destruct (create_ok (IS := ramdisk) ts0 null_block null_block_ok ∅ 262016)
    as (s & F & _ & I & Hfs & HF); [done|done|done|apply empty_fresh|].
  change ((262016 + 63) / 64) with 4094 in *.
  destruct (fs_of_empty (blocks0 s) _ (proj1 (inv_nib _ _ _ I)) Hfs) as [Hn Hf].
  exists s, F. split; [exact I|]. split; [rewrite Hn; apply Z2Nat.id; lia|]. split.
  - unfold write_need. rewrite (Hf 0) by lia. reflexivity.
  - rewrite (Permutation_length HF). by rewrite length_seqZ.
Qed.

(** The snapshot [treedisk_get_snapshot] takes of the created image. *)
Definition snapshot0 (s : mem) : treedisk_snapshot :=
  {| superblock := blk (blocks0 s) 0; inodeblock := blk (blocks0 s) 1;
     inode_blockno := 1; inode := 3 |}.

Section theorems.
Context {S : Type} {IS : InodeStore S}.
Variable ts : treedisk_state.
Context {LAWS : InodeStoreLaws S (below_ino ts)}.
Variable junk : block.

Abbreviation sz := (store_size S (below_ino ts)).
Abbreviation dsk := (store_blocks (below_ino ts)).

(** A snapshot whose superblock is the one on disk is ready for allocations. *)
Lemma fs_inv_alloc_ok s sn F :
  fs_inv sz (dsk s) F -> superblock sn = blk (dsk s) 0 -> alloc_ok ts s sn F.
Proof.
  intros I Hsn. pose proof (inv_nib _ _ _ I) as Hnib. split; rewrite ?Hsn.
  - destruct (proj2 (inv_dom _ _ _ I 0)) as [b Hb]; [lia|]. unfold blk. by rewrite Hb.
  - exact (inv_free _ _ _ I).
  - pose proof (inv_nodup _ _ _ I) as Hnd. rewrite (seqZ_cons 0) in Hnd by lia.
    apply list.NoDup_cons in Hnd as [H0 Hnd]. apply list.NoDup_app in Hnd as (_ & _ & Hnd).
    apply list.NoDup_app in Hnd as (_ & _ & Hnd). apply list.NoDup_cons. split; [|done].
    intros Hin. apply H0. rewrite !elem_of_app. auto.
  - pose proof (inv_range _ _ _ I) as Hr. by apply Forall_app in Hr as [_ Hr].
Qed.

(** C2. [treedisk_write] refines the abstract write.  On a well-formed file
    system with enough free blocks, it returns 0, replaces exactly the file
    [ino] by the file with [b] at [off] (extended with null blocks when [off]
    is past its end), keeps the file system well formed, and takes from the
    free list exactly the blocks that the path to [off] was missing. *)
Theorem treedisk_write_refines s ino off b F :
  fs_inv sz (dsk s) F -> 0 <= ino < ninode (dsk s) -> 0 <= off < 2 ^ 32 - 1 ->
  block_ok b -> (write_need (dsk s) ino off <= length F)%nat ->
  exists s' F',
    treedisk_write 7 junk ts ino off b s = Ok (0, s') /\
    fs_inv sz (dsk s') F' /\
    fs_of (dsk s') =
      <[Z.to_nat ino := file_write (file_of (dsk s) ino) (Z.to_nat off) b]> (fs_of (dsk s)) /\
    length F = (write_need (dsk s) ino off + length F')%nat.
Proof.
  intros I Hino Hoff Hb Hneed.
  destruct (write_ok ts junk s ino off b F) as (s' & L & F' & E & U & HL); [done..|lia|done|done|].
  exists s', F'. split_and!; [done| | |].
  - eapply updated_inv; [done|done|done|lia|intros; apply store_dom|intros ? ?; apply store_block_ok].
  - by apply (updated_fs sz _ _ _ _ _ L F F'); try done; lia.
  - rewrite (Permutation_length (up_taken _ _ _ _ _ _ _ _ U)), length_app. lia.
Qed.

(** C8. [treedisk_read] refines the abstract read: a file and an offset that
    exist give the block of the abstract file and 0; an inode number past the
    table, or an offset past the end of the file, gives -1 and leaves the
    caller's buffer alone.  The disk does not change. *)
Theorem treedisk_read_refines s ino off buf F :
  fs_inv sz (dsk s) F -> 0 <= ino -> 0 <= off ->
  exists s', dsk s' = dsk s /\
    treedisk_read 7 junk ts ino off buf s =
    Ok (match fs_of (dsk s) !! Z.to_nat ino with
        | Some f => match f !! Z.to_nat off with
                    | Some b => (0, b)
                    | None => (-1, buf)
                    end
        | None => (-1, buf)
        end, s').
Proof.
  intros I Hino Hoff. destruct (Z.lt_ge_cases ino (ninode (dsk s))) as [Hlt|Hge].
  - rewrite fs_of_lookup, file_of_lookup by lia.
    destruct (read_ok ts junk s ino off buf F I) as (s' & ED & E); [lia..|].
    exists s'. split; [done|]. rewrite E. by case_goal.
  - rewrite fs_of_none by lia. by apply (read_bad_inode ts junk s ino off buf F).
Qed.

(** C15. Read after write.  A successful write of [b] at [(ino, off)] is read
    back; every block of every other file, and every block of the same file
    that existed before, reads as it did before the write. *)
Theorem treedisk_read_write s s' ino off b F ino' off' buf :
  fs_inv sz (dsk s) F -> 0 <= ino < ninode (dsk s) -> 0 <= off < 2 ^ 32 - 1 -> block_ok b ->
  treedisk_write 7 junk ts ino off b s = Ok (0, s') ->
  0 <= ino' -> 0 <= off' ->
  (ino' = ino /\ off' = off) \/ ino' <> ino \/ (off' < i_nblocks (dsk s) ino /\ off' <> off) ->
  exists s1 s2 r,
    treedisk_read 7 junk ts ino' off' buf s = Ok (r, s1) /\
    treedisk_read 7 junk ts ino' off' buf s' =
      Ok (if (ino' =? ino) && (off' =? off) then (0, b) else r, s2).
Proof.
  intros I Hino Hoff Hb Hw Hino' Hoff' Hcase.
  destruct (decide (write_need (dsk s) ino off <= length F)%nat) as [Hneed|Hneed].
  2:{ rewrite (write_full ts junk s ino off b F) in Hw by (done || lia). done. }
  destruct (write_ok ts junk s ino off b F) as (s'' & L & F' & E & U & _); [done..|lia|done|done|].
  assert (s'' = s') as -> by congruence.
  assert (fs_inv sz (dsk s') F') as I'.
  { eapply updated_inv; [done|done|done|lia|intros; apply store_dom|intros ? ?; apply store_block_ok]. }
  assert (ninode (dsk s') = ninode (dsk s)) as Hni.
  { unfold ninode. by rewrite (up_nib _ _ _ _ _ _ _ _ U). }
  destruct (decide (ino' < ninode (dsk s))) as [Hlt|Hge].
  2:{ destruct (read_bad_inode ts junk s ino' off' buf F I) as (s1 & _ & E1); [lia|].
      destruct (read_bad_inode ts junk s' ino' off' buf F' I') as (s2 & _ & E2); [lia|].
      exists s1, s2, (-1, buf). rewrite E2, (proj2 (Z.eqb_neq ino' ino)) by lia. done. }
  destruct (read_ok ts junk s ino' off' buf F I) as (s1 & _ & E1); [lia..|].
  destruct (read_ok ts junk s' ino' off' buf F' I') as (s2 & _ & E2); [lia..|].
  exists s1, s2. eexists. split; [exact E1|]. rewrite E2.
  destruct (Z.eqb_spec ino' ino) as [->|Hne]; simpl.
  - pose proof (i_nblocks_u32 (dsk s) ino) as [Hn0 Hn1].
    destruct (levels_bound (i_nblocks (dsk s) ino)) as [HB _]; [done|].
    destruct (levels_bound (Z.max (i_nblocks (dsk s) ino) (off + 1))) as [HB' _];
      [unfold is_u32; lia|].
    rewrite (up_nblocks _ _ _ _ _ _ _ _ U), (up_lookup _ _ _ _ _ _ _ _ U) by lia.
    destruct (Z.eqb_spec off' off) as [->|Hne]; repeat if_lia; done.
  - destruct (up_inode _ _ _ _ _ _ _ _ U ino') as [_ ->]; [lia|done|].
    destruct (up_other _ _ _ _ _ _ _ _ U ino') as (_ & _ & ->); [lia|done|done].
Qed.

(** C27. When the free list holds fewer blocks than the write is missing,
    [treedisk_write] ends in the panic of [treedisk_alloc_block]; it never
    reports success. *)
Theorem treedisk_write_out_of_space s ino off b F :
  fs_inv sz (dsk s) F -> 0 <= ino < ninode (dsk s) -> 0 <= off < 2 ^ 32 - 1 ->
  (length F < write_need (dsk s) ino off)%nat ->
  treedisk_write 7 junk ts ino off b s = Fatal "treedisk_alloc_block: inode store is full".
Proof. intros. apply (write_full ts junk s ino off b F); (done || lia). Qed.

(** C26. [treedisk_create] on a disk whose superblock is null builds a
    well-formed file system: as many empty files as the inode blocks hold, and
    every other block of the disk on the free list exactly once. *)
Theorem treedisk_create_empty s ninodes :
  block_ok junk -> 0 <= ninodes < 2 ^ 32 - 64 -> (ninodes + 63) / 64 + 2 <= sz ->
  nib (dsk s) = 0 ->
  let nb := (ninodes + 63) / 64 in
  exists s' F,
    treedisk_create junk ts ninodes s = Ok (0, s') /\
    fs_inv sz (dsk s') F /\
    fs_of (dsk s') = replicate (Z.to_nat (64 * nb)) [] /\
    F ≡ₚ seqZ (nb + 1) (sz - (nb + 1)).
Proof. intros. apply create_ok; (done || lia). Qed.

(** [treedisk_alloc_block] takes one block off a non-empty free list: the
    block it returns was free and is not 0, what remains is the rest of the
    list, and no block outside the superblock and the free list changes. *)
Theorem treedisk_alloc_block_takes s sn F :
  alloc_ok ts s sn F -> F <> [] ->
  exists b sn' s' F',
    treedisk_alloc_block junk ts sn s = Ok ((b, sn'), s') /\
    F ≡ₚ b :: F' /\ b <> 0 /\ (b ∉ F') /\ alloc_ok ts s' sn' F' /\
    forall x, x ∉ 0 :: F' -> dsk s' !! x = dsk s !! x.
Proof.
  intros A HF. destruct (alloc_spec ts junk s sn F A HF) as (b & sn' & s' & F' & E & HP & A' & Hfr & _).
  exists b, sn', s', F'. pose proof (ao_nodup _ _ _ _ A) as Hnd. rewrite HP in Hnd.
  apply list.NoDup_cons in Hnd as [H0 Hnd]. apply list.NoDup_cons in Hnd as [Hb _].
  rewrite not_elem_of_cons in H0. split_and!; try done. intros ->. tauto.
Qed.

(** The states of the store below that creating a file system and then calling
    its operations, in any order and with any arguments, can lead to.  The last
    offset of all, 2^32 - 1, is left out: see [treedisk_write_last_offset]. *)
Inductive reachable : S -> Prop :=
| reach_create s ninodes s' :
    0 <= ninodes < 2 ^ 32 - 64 -> (ninodes + 63) / 64 + 2 <= sz -> nib (dsk s) = 0 ->
    treedisk_create junk ts ninodes s = Ok (0, s') -> reachable s'
| reach_write s ino off b r s' :
    reachable s -> is_u32 ino -> 0 <= off < 2 ^ 32 - 1 -> block_ok b ->
    treedisk_write 7 junk ts ino off b s = Ok (r, s') -> reachable s'
| reach_read s ino off buf r s' :
    reachable s -> is_u32 ino -> is_u32 off ->
    treedisk_read 7 junk ts ino off buf s = Ok (r, s') -> reachable s'.

(** C9. The invariant holds in every reachable state: no sequence of reads and
    writes makes two files share a block, or puts a block of a file on the free
    list, and no operation ever leaves the disk. *)
Theorem treedisk_invariant s :
  block_ok junk -> reachable s -> exists F, fs_inv sz (dsk s) F.
Proof.
  intros Hj. induction 1 as [s n s' Hn Hb H0 E|s ino off b r s' _ [F I] Hi Ho Hb E
                            |s ino off buf r s' _ [F I] Hi Ho E].
  - destruct (create_ok ts junk Hj s n) as (s1 & F & E' & I & _); try lia; [done..|].
    exists F. congruence.
  - unfold is_u32 in Hi. destruct (decide (ino < ninode (dsk s))) as [Hlt|Hge]; cycle 1.
    { destruct (write_bad_inode ts junk s ino off b F I) as (s1 & ED & E'); [lia|].
      exists F. replace s' with s1 by congruence. by rewrite ED. }
    destruct (decide (write_need (dsk s) ino off <= length F)%nat) as [Hneed|Hneed].
    2:{ rewrite (write_full ts junk s ino off b F) in E by (done || lia). done. }
    destruct (write_ok ts junk s ino off b F) as (s1 & L & F' & E' & U & _);
      [done|lia|lia|done|done|].
    exists F'. replace s' with s1 by congruence.
    eapply updated_inv; [done|done|lia|lia|intros; apply store_dom|intros ? ?; apply store_block_ok].
  - unfold is_u32 in *. destruct (decide (ino < ninode (dsk s))) as [Hlt|Hge].
    + destruct (read_ok ts junk s ino off buf F I) as (s1 & ED & E'); [lia..|].
      exists F. replace s' with s1 by congruence. by rewrite ED.
    + destruct (read_bad_inode ts junk s ino off buf F I) as (s1 & ED & E'); [lia|].
      exists F. replace s' with s1 by congruence. by rewrite ED.
Qed.
End theorems.

(** The loop that counts the levels of a tree ends within its 33 tests, for
    every 32-bit block number, with the smallest [n] such that [x < 128 ^ n]. *)
Theorem count_levels_terminates {S} (s : S) x :
  is_u32 x ->
  exists n : nat, count_levels 7 levels_fuel x 0 s = Ok (Z.of_nat n, s) /\
    x < 128 ^ Z.of_nat n /\ forall m, (m < n)%nat -> 128 ^ Z.of_nat m <= x.
Proof.
  intros Hx. exists (depth x). destruct (depth_spec x Hx) as (H1 & _ & H3).
  split_and!; [|done|done]. by apply count_levels_depth.
Qed.

(** [treedisk_init] sets [log_rpb] to the base-2 logarithm of
    [REFS_PER_BLOCK] on the first call, and to nothing else afterwards. *)
Theorem treedisk_init_log_rpb ino :
  exists ts, treedisk_init ino 0 = Ok (ts, 7) /\ treedisk_init ino 7 = Ok (ts, 7) /\
             below_ino ts = ino /\ 2 ^ 7 = REFS_PER_BLOCK.
Proof. exists {| below_ino := ino; ninodes := 0 |}. by split_and!. Qed.

(** ** The properties on the concrete file system *)

Lemma treedisk_write_refines_witness :
  exists F s' F',
    fs_inv 4096 (blocks0 created) F /\
    treedisk_write 7 null_block ts0 3 300 hello created = Ok (0, s') /\
    fs_inv 4096 (blocks0 s') F' /\
    fs_of (blocks0 s') = <[3%nat := file_write [] 300 hello]> (replicate 128 []) /\
    length F' = 4089%nat.
Proof.
  destruct created_ok as (F & _ & I & Hfs & HL).
  destruct (treedisk_write_refines (IS := ramdisk) ts0 null_block created 3 300 hello F)
    as (s' & F' & E & I' & Hfs' & HL').
  - exact I.
  - rewrite created_ninode. lia.
  - lia.
  - reflexivity.
  - rewrite created_need. lia.
  - exists F, s', F'. rewrite created_need in HL'.
    rewrite created_empty, Hfs in Hfs' by lia.
    split; [exact I|]. split; [exact E|]. split; [exact I'|]. split; [exact Hfs'|lia].
Defined.

Lemma treedisk_read_refines_witness :
  exists F s', fs_inv 4096 (blocks0 created) F /\
    treedisk_read 7 null_block ts0 3 0 hello created = Ok ((-1, hello), s').
Proof.
  destruct created_ok as (F & _ & I & Hfs & _).
  destruct (treedisk_read_refines (IS := ramdisk) ts0 null_block created 3 0 hello F)
    as (s' & ED & E); [exact I|lia|lia|].
  exists F, s'. split; [exact I|]. rewrite E, Hfs. reflexivity.
Defined.

Lemma treedisk_read_write_witness :
  treedisk_write 7 null_block ts0 3 300 hello created = Ok (0, written) /\
  exists s2, treedisk_read 7 null_block ts0 3 300 null_block written = Ok ((0, hello), s2).
Proof.
  split; [exact written_ok|]. destruct created_ok as (F & _ & I & _ & _).
  destruct (treedisk_read_write (IS := ramdisk) ts0 null_block created written 3 300 hello F
              3 300 null_block) as (s1 & s2 & r & _ & E2).
  - exact I.
  - rewrite created_ninode. lia.
  - lia.
  - reflexivity.
  - exact written_ok.
  - lia.
  - lia.
  - left. split; reflexivity.
  - exists s2. exact E2.
Defined.

Lemma treedisk_write_out_of_space_witness :
  exists s, treedisk_write 7 null_block ts0 0 5 hello s =
            Fatal "treedisk_alloc_block: inode store is full".
Proof.
  destruct crowded_ok as (s & F & I & Hn & Hneed & HL). exists s.
  apply (treedisk_write_out_of_space (IS := ramdisk) ts0 null_block s 0 5 hello F).
  - exact I.
  - rewrite Hn. lia.
  - lia.
  - rewrite Hneed, HL. lia.
Defined.

Lemma treedisk_alloc_block_takes_witness :
  exists F b sn' s' F',
    treedisk_alloc_block null_block ts0 (snapshot0 created) created = Ok ((b, sn'), s') /\
    F ≡ₚ b :: F' /\ length F = 4093%nat /\ b <> 0.
Proof.
  destruct created_ok as (F & _ & I & _ & HL).
  destruct (treedisk_alloc_block_takes (IS := ramdisk) ts0 null_block created (snapshot0 created) F)
    as (b & sn' & s' & F' & E & HP & Hb & _).
  - apply (fs_inv_alloc_ok (IS := ramdisk) ts0); [exact I|reflexivity].
  - intros ->. discriminate HL.
  - exists F, b, sn', s', F'. split; [exact E|]. split; [exact HP|]. split; [exact HL|exact Hb].
Defined.

Lemma treedisk_create_empty_witness :
  exists s' F,
    treedisk_create null_block ts0 NINODES ∅ = Ok (0, s') /\
    fs_inv 4096 (blocks0 s') F /\
    fs_of (blocks0 s') = replicate 128 [] /\ F ≡ₚ seqZ 3 4093.
Proof.
  destruct (treedisk_create_empty (IS := ramdisk) ts0 null_block ∅ NINODES)
    as (s' & F & E & I & Hfs & HF).
  - reflexivity.
  - unfold NINODES. lia.
  - vm_compute. discriminate.
  - apply empty_fresh.
  - exists s', F. split; [exact E|]. split; [exact I|]. split; [exact Hfs|exact HF].
Defined.

Lemma count_levels_terminates_witness :
  exists n : nat, count_levels 7 levels_fuel 300 0 tt = Ok (Z.of_nat n, tt) /\
    300 < 128 ^ Z.of_nat n /\ forall m, (m < n)%nat -> 128 ^ Z.of_nat m <= 300.
Proof. apply (count_levels_terminates tt 300). unfold is_u32. lia. Defined.

Lemma treedisk_invariant_witness : exists F, fs_inv 4096 (blocks0 written) F.
Proof.
  destruct (treedisk_invariant (IS := ramdisk) ts0 null_block written) as [F I];
    [reflexivity| |exists F; exact I].
  eapply (reach_write _ _ created 3 300 hello 0).
  - destruct created_ok as (F & E & _).
    eapply (reach_create _ _ ∅ NINODES); [|..|exact E].
    + unfold NINODES. lia.
    + vm_compute. discriminate.
    + apply empty_fresh.
  - unfold is_u32. lia.
  - lia.
  - reflexivity.
  - exact written_ok.
Defined.

(** ** The last offset *)

