(* ===== verification/Paging.v ===== *)
(** The paging device, earth/dev_page.c: the interface cpu_mmu.c uses as a
    class with its laws (256 frames of 4KB), and the implementation of the
    source, for QEMU (all the frames in memory) and for the Arty board (28
    cached frames, the others on disk), which keeps these laws. *)

From Stdlib Require Import ZArith Lia Strings.Byte.
From stdpp Require Import base numbers list strings gmap.
From S2P Require Import Prelude Bytes Memory Earth.

Local Open Scope egos_scope.

(** ** The interface *)

Definition NFRAMES : Z := 256.

(** [paging_read] gives the address of the frame; memory is shared with the
    rest of the machine. *)
Class Paging (P : Type) := {
  pmem : P -> mem;
  set_pmem : mem -> P -> P;
  paging_init : M P unit;
  paging_invalidate_cache : Z -> M P unit;
  paging_write : Z -> Z -> M P unit;
  paging_read : Z -> bool -> M P Z
}.

(** Memory below the frame cache is the same. *)
Definition low_eq (m m' : mem) : Prop :=
  forall a, a < FRAME_CACHE_START -> load_byte m' a = load_byte m a.

(** A page of the address space of applications. *)
Definition user_page (p : Z) : Prop := 0 <= p /\ (p + 1) * PAGE_SIZE <= FRAME_CACHE_START.

(** What the device promises: [frame s f] is the contents of frame [f], and
    [frame_at s f] the address where it can be changed, if it has one.  A device
    that evicts frames writes only when its cache is full ([pg_full]).  Every
    operation gives what the last one on the same frame left, and memory below
    the frame cache does not change. *)
Class PagingLaws (P : Type) `{Paging P} := {
  pg_ok : P -> Prop;
  pg_full : P -> Prop;
  pg_evicts : bool;
  frame : P -> Z -> list byte;
  frame_at : P -> Z -> option Z;
  pmem_set m s : pmem (set_pmem m s) = m;
  frame_len s f : pg_ok s -> length (frame s f) = Z.to_nat PAGE_SIZE;
  frame_low m s f :
    pg_ok s -> 0 <= f < NFRAMES ->
    (forall a, FRAME_CACHE_START <= a -> load_byte m a = load_byte (pmem s) a) ->
    pg_ok (set_pmem m s) /\ (pg_full s -> pg_full (set_pmem m s)) /\
    frame (set_pmem m s) f = frame s f /\ frame_at (set_pmem m s) f = frame_at s f;
  frame_at_load s f a :
    pg_ok s -> 0 <= f < NFRAMES -> frame_at s f = Some a ->
    FRAME_CACHE_START <= a /\ frame s f = load (pmem s) a PAGE_SIZE;
  frame_at_store s f a off l :
    pg_ok s -> 0 <= f < NFRAMES -> frame_at s f = Some a ->
    0 <= off -> off + Z.of_nat (length l) <= PAGE_SIZE ->
    let s' := set_pmem (store (pmem s) (a + off) l) s in
    pg_ok s' /\ (pg_full s -> pg_full s') /\ frame_at s' f = Some a /\
    forall g, 0 <= g < NFRAMES -> g <> f -> frame s' g = frame s g;
  paging_write_spec s f p :
    pg_ok s -> pg_full s -> 0 <= f < NFRAMES -> user_page p ->
    exists s', paging_write f p s = Ok (tt, s') /\ pg_ok s' /\ pg_full s' /\
      low_eq (pmem s) (pmem s') /\
      frame s' f = load (pmem s) (p * PAGE_SIZE) PAGE_SIZE /\
      forall g, 0 <= g < NFRAMES -> g <> f -> frame s' g = frame s g;
  paging_read_spec s f alloc_only :
    pg_ok s -> 0 <= f < NFRAMES ->
    exists a s', paging_read f alloc_only s = Ok (a, s') /\ pg_ok s' /\
      (pg_full s -> pg_full s') /\ low_eq (pmem s) (pmem s') /\ frame_at s' f = Some a /\
      (alloc_only = false -> frame s' f = frame s f) /\
      forall g, 0 <= g < NFRAMES -> g <> f -> frame s' g = frame s g;
  paging_invalidate_spec s f :
    pg_ok s -> 0 <= f < NFRAMES ->
    exists s', paging_invalidate_cache f s = Ok (tt, s') /\ pg_ok s' /\ pmem s' = pmem s /\
      (pg_evicts = false -> pg_full s') /\
      forall g, 0 <= g < NFRAMES -> g <> f -> frame s' g = frame s g /\ frame_at s' g = frame_at s g
}.

(** ** The implementation *)

Definition ARTY_CACHED_NFRAMES : Z := 28.

(** The expression [n * NBLOCKS_PER_PAGE], as the macro expands. *)
Definition page_block (n : Z) : Z := u32 (n * PAGE_SIZE) / BLOCK_SIZE.
Definition NBLOCKS_PER_PAGE : Z := PAGE_SIZE / BLOCK_SIZE.

(** The address of cache slot or frame [i]. *)
Definition page_addr (i : Z) : Z := FRAME_CACHE_START + PAGE_SIZE * i.

(** The state of dev_page.c, with what it uses: memory, the platform, the disk
    and the state of the C library's [rand]. *)
Record paging_state (D R : Type) := {
  pg_mem : mem;
  cache_slots : list Z;
  platform : platform_t;
  pg_disk : D;
  pg_rand : R
}.
Arguments pg_mem {D R}.
Arguments cache_slots {D R}.
Arguments platform {D R}.
Arguments pg_disk {D R}.
Arguments pg_rand {D R}.

(** The index of the first slot that holds frame [f], counted from [i].  The
    comparison of an [int] with a [uint] is unsigned. *)
Fixpoint find_slot (f : Z) (i : Z) (l : list Z) : option Z :=
  match l with
  | [] => None
  | x :: l' => if u32 x =? f then Some i else find_slot f (i + 1) l'
  end.

(** The loop of [paging_read]: the slot of the frame, or the first free slot
    seen, or -1. *)
Fixpoint scan_slots (f i free_idx : Z) (l : list Z) : Z + Z :=
  match l with
  | [] => inr free_idx
  | x :: l' =>
      let free_idx := if (x =? -1) && (free_idx =? -1) then i else free_idx in
      if u32 x =? f then inl i else scan_slots f (i + 1) free_idx l'
  end.

Section paging.
Context {D R : Type} `{Disk D}.
(** [rand()] of the C library. *)
Variable rand : R -> Z * R.

Abbreviation st := (paging_state D R).

Definition set_mem (m : mem) (s : st) : st :=
  {| pg_mem := m; cache_slots := cache_slots s; platform := platform s;
     pg_disk := pg_disk s; pg_rand := pg_rand s |}.
Definition set_slots (l : list Z) (s : st) : st :=
  {| pg_mem := pg_mem s; cache_slots := l; platform := platform s;
     pg_disk := pg_disk s; pg_rand := pg_rand s |}.
Definition set_slot (i f : Z) (s : st) : st :=
  set_slots (<[Z.to_nat i := s32 f]> (cache_slots s)) s.

(** A call of the disk. *)
Definition on_disk {A} (m : M D A) : M st A := fun s =>
  match m (pg_disk s) with
  | Ok (a, d) => Ok (a, {| pg_mem := pg_mem s; cache_slots := cache_slots s;
                           platform := platform s; pg_disk := d; pg_rand := pg_rand s |})
  | Fatal msg => Fatal msg
  | Undef w => Undef w
  | NoFuel => NoFuel
  end.

Definition call_rand : M st Z := fun s =>
  let '(r, rs) := rand (pg_rand s) in
  Ok (r, {| pg_mem := pg_mem s; cache_slots := cache_slots s;
            platform := platform s; pg_disk := pg_disk s; pg_rand := rs |}).

Definition cache_eviction : M st Z :=
  r <- call_rand ;;
  let idx := Z.rem r ARTY_CACHED_NFRAMES in
  s <- get ;;
  let frame_id := u32 (default (-1) (cache_slots s !! Z.to_nat idx)) in
  on_disk (disk_write (page_block frame_id) NBLOCKS_PER_PAGE
             (load (pg_mem s) (page_addr idx) PAGE_SIZE)) ;;;
  ret idx.

(** [memset(cache_slots, 0xFF, ...)]. *)
Definition dev_paging_init : M st unit :=
  modify (set_slots (replicate (Z.to_nat ARTY_CACHED_NFRAMES) (-1))).

Definition dev_paging_invalidate_cache (frame_id : Z) : M st unit :=
  modify (fun s => set_slots ((fun x => if u32 x =? frame_id then -1 else x) <$> cache_slots s) s).

(** [memcpy(dst, src, PAGE_SIZE)]. *)
Definition copy_page (dst src : Z) : M st unit :=
  modify (fun s => set_mem (store (pg_mem s) dst (load (pg_mem s) src PAGE_SIZE)) s).

Definition dev_paging_write (frame_id page_no : Z) : M st unit :=
  let src := u32 (Z.shiftl page_no 12) in
  s <- get ;;
  match platform s with
  | ARTY =>
      match find_slot frame_id 0 (cache_slots s) with
      | Some i => copy_page (page_addr i) src
      | None =>
          free_idx <- cache_eviction ;;
          modify (set_slot free_idx frame_id) ;;;
          copy_page (page_addr free_idx) src
      end
  | _ => copy_page (page_addr frame_id) src
  end.

Definition dev_paging_read (frame_id : Z) (alloc_only : bool) : M st Z :=
  s <- get ;;
  match platform s with
  | ARTY =>
      match scan_slots frame_id 0 (-1) (cache_slots s) with
      | inl i => ret (page_addr i)
      | inr free_idx =>
          free_idx <- (if free_idx =? -1 then cache_eviction else ret free_idx) ;;
          modify (set_slot free_idx frame_id) ;;;
          (if alloc_only then ret tt
           else
             '(_, page) <- on_disk (disk_read (page_block frame_id) NBLOCKS_PER_PAGE) ;;
             modify (fun s => set_mem (store (pg_mem s) (page_addr free_idx) page) s)) ;;;
          ret (page_addr free_idx)
      end
  | _ => ret (page_addr frame_id)
  end.

#[export] Instance dev_paging : Paging st := {|
  pmem := pg_mem;
  set_pmem := set_mem;
  paging_init := dev_paging_init;
  paging_invalidate_cache := dev_paging_invalidate_cache;
  paging_write := dev_paging_write;
  paging_read := dev_paging_read
|}.
End paging.

(** ** Lemmas on cache slots *)

(** 28 slots, each free or holding one of the frames, no frame twice. *)
Record slots_ok (l : list Z) : Prop := {
  so_len : length l = Z.to_nat ARTY_CACHED_NFRAMES;
  so_range i x : l !! i = Some x -> -1 <= x < NFRAMES;
  so_uniq i j x : l !! i = Some x -> l !! j = Some x -> x <> -1 -> i = j
}.

Lemma slot_eqb x f : -1 <= x < NFRAMES -> 0 <= f < NFRAMES -> (u32 x =? f) = (x =? f).
Proof.
  unfold NFRAMES. intros Hx Hf. destruct (decide (x = -1)) as [->|].
  - rewrite (proj2 (Z.eqb_neq (-1) f)) by lia. apply Z.eqb_neq. vm_compute u32. lia.
  - by rewrite u32_small by (unfold is_u32; lia).
Qed.

Lemma find_slot_some f l i j :
  find_slot f i l = Some j ->
  i <= j /\ exists x, l !! Z.to_nat (j - i) = Some x /\ u32 x = f.
Proof.
  revert i. induction l as [|x l IH]; intros i; simpl; [done|].
  destruct (Z.eqb_spec (u32 x) f) as [E|E].
  - intros [= ->]. split; [lia|]. exists x. by rewrite Z.sub_diag.
  - intros (Hle & y & Hl & Hy)%IH. split; [lia|]. exists y. split; [|done].
    by replace (Z.to_nat (j - i)) with (S (Z.to_nat (j - (i + 1)))) by lia.
Qed.

Lemma find_slot_none f l i x k :
  find_slot f i l = None -> l !! k = Some x -> u32 x <> f.
Proof.
  revert i k. induction l as [|y l IH]; intros i k; simpl; [done|].
  destruct (Z.eqb_spec (u32 y) f) as [E|E]; [done|]. intros Hn.
  destruct k as [|k]; simpl; [congruence|]. by eapply IH.
Qed.

(** In a cache without duplicates, [find_slot] finds exactly the slot. *)
Lemma find_slot_iff f l j :
  slots_ok l -> 0 <= f < NFRAMES ->
  find_slot f 0 l = Some j <-> 0 <= j /\ l !! Z.to_nat j = Some f.
Proof.
  intros [Hlen Hr Hu] Hf. split.
  - intros (Hj & x & Hx & Ex)%find_slot_some. split; [done|]. rewrite Z.sub_0_r in Hx.
    rewrite Hx. f_equal. specialize (Hr _ _ Hx). apply Z.eqb_eq.
    rewrite <- (slot_eqb x f) by done. by apply Z.eqb_eq.
  - intros [Hj Hl]. destruct (find_slot f 0 l) as [k|] eqn:E.
    + apply find_slot_some in E as (Hk & x & Hx & Ex). rewrite Z.sub_0_r in Hx.
      assert (x = f) as ->.
      { apply Z.eqb_eq. rewrite <- (slot_eqb x f) by eauto. by apply Z.eqb_eq. }
      f_equal. assert (Z.to_nat k = Z.to_nat j) by (eapply Hu; [done..|lia]). lia.
    + exfalso. eapply (find_slot_none f l 0 f); [done..|].
      unfold NFRAMES in Hf. apply u32_small. unfold is_u32. lia.
Qed.

Lemma find_slot_absent f l k :
  slots_ok l -> 0 <= f < NFRAMES -> find_slot f 0 l = None -> l !! k <> Some f.
Proof.
  intros Hok Hf Hn Hk. assert (find_slot f 0 l = Some (Z.of_nat k)) as Hs.
  { apply find_slot_iff; [done..|]. split; [lia|]. by rewrite Nat2Z.id. }
  congruence.
Qed.

Lemma slots_ok_insert l i f :
  slots_ok l -> 0 <= f < NFRAMES -> find_slot f 0 l = None -> slots_ok (<[i := f]> l).
Proof.
  intros Hok Hf Hn. pose proof (fun k => find_slot_absent f l k Hok Hf Hn) as Habs.
  destruct Hok as [Hlen Hr Hu]. split.
  - by rewrite length_insert.
  - intros j x [(-> & -> & _)|[_ Hj]]%list_lookup_insert_Some; [lia|eauto].
  - intros j k x Hj Hk Hx. apply list_lookup_insert_Some in Hj as [(<- & <- & _)|[Hne Hj]];
      apply list_lookup_insert_Some in Hk as [(<- & Ek & _)|[Hne' Hk]]; simplify_eq; try done.
    + by destruct (Habs k).
    + by destruct (Habs j).
    + eauto.
Qed.

(** Frame [f] takes slot [i]: what was there is no longer cached, and every
    other frame stays where it was. *)
Lemma find_slot_insert l i f g :
  slots_ok l -> 0 <= i < ARTY_CACHED_NFRAMES -> 0 <= f < NFRAMES -> 0 <= g < NFRAMES ->
  find_slot f 0 l = None ->
  find_slot g 0 (<[Z.to_nat i := f]> l) =
  if g =? f then Some i
  else if bool_decide (l !! Z.to_nat i = Some g) then None else find_slot g 0 l.
Proof.
  intros Hok Hi Hf Hg Hn. pose proof (slots_ok_insert l (Z.to_nat i) f Hok Hf Hn) as Hok'.
  pose proof (so_len _ Hok) as Hlen. unfold ARTY_CACHED_NFRAMES in *.
  destruct (Z.eqb_spec g f) as [->|Hne].
  - apply find_slot_iff; [done..|]. split; [lia|]. apply list_lookup_insert_eq. lia.
  - case_bool_decide as Hev.
    + destruct (find_slot g 0 _) as [k|] eqn:E; [|done].
      apply find_slot_iff in E as [Hk E]; [|done..].
      apply list_lookup_insert_Some in E as [(_ & -> & _)|[Hik E]]; [done|].
      exfalso. apply Hik. apply (so_uniq _ Hok _ _ _ Hev E). lia.
    + apply option_eq. intros k. rewrite !find_slot_iff by done.
      destruct (decide (Z.to_nat k = Z.to_nat i)) as [E|E].
      * rewrite E, list_lookup_insert_eq by lia.
        split; [by intros [_ [= ->]]|by intros [_ ?]].
      * by rewrite list_lookup_insert_ne by done.
Qed.

Lemma scan_slots_find f i fr l j : find_slot f i l = Some j -> scan_slots f i fr l = inl j.
Proof.
  revert i fr. induction l as [|x l IH]; intros i fr; simpl; [done|].
  case_goal; [congruence|apply IH].
Qed.

(** A free slot, or -1 when there is none. *)
Lemma scan_slots_free f i fr l :
  find_slot f i l = None -> 0 <= i -> (fr = -1 \/ 0 <= fr < i) ->
  exists r, scan_slots f i fr l = inr r /\
    ((r = -1 /\ fr = -1 /\ forall k, l !! k <> Some (-1)) \/
     (0 <= r /\ (r = fr \/ (i <= r /\ l !! Z.to_nat (r - i) = Some (-1))))).
Proof.
  revert i fr. induction l as [|x l IH]; intros i fr Hn Hi Hfr; simpl.
  - exists fr. split; [done|]. destruct Hfr as [->|Hfr]; [left; naive_solver|right; lia].
  - simpl in Hn. case_goal; [done|]. destruct (Z.eqb_spec x (-1)) as [->|Hx]; simpl.
    + destruct (IH (i + 1) (if fr =? -1 then i else fr)) as (r & E & Hr); [done|lia| |].
      { case_goal; bool_prop; lia. }
      exists r. split; [done|]. right. destruct Hr as [(-> & Hr & _)|(Hr0 & [Hr|[Hle Hl]])].
      * revert Hr. case_goal; bool_prop; lia.
      * split; [done|]. revert Hr. case_goal; bool_prop; intros ->; [right|by left].
        split; [lia|]. by rewrite Z.sub_diag.
      * split; [done|]. right. split; [lia|].
        by replace (Z.to_nat (r - i)) with (S (Z.to_nat (r - (i + 1)))) by lia.
    + destruct (IH (i + 1) fr) as (r & E & Hr); [done|lia|lia|].
      exists r. split; [done|]. destruct Hr as [(-> & -> & Hr)|(Hr0 & [->|[Hle Hl]])].
      * left. split_and!; [done..|]. intros [|k]; simpl; [congruence|apply Hr].
      * right. auto.
      * right. split; [done|]. right. split; [lia|].
        by replace (Z.to_nat (r - i)) with (S (Z.to_nat (r - (i + 1)))) by lia.
Qed.

(** ** The device keeps its promises *)

Section laws.
Context {D R : Type} `{DiskLaws D}.
Variable rand : R -> Z * R.
(** [rand] gives a non-negative [int]; the disk has room for the 256 frames. *)
Hypothesis rand_nonneg : forall r, 0 <= fst (rand r).
Hypothesis disk_room : NFRAMES * NBLOCKS_PER_PAGE <= disk_size D.

Abbreviation st := (paging_state D R).

Definition arty_frame (s : st) (f : Z) : list byte :=
  match find_slot f 0 (cache_slots s) with
  | Some i => load (pg_mem s) (page_addr i) PAGE_SIZE
  | None => blocks_at (disk_blocks (pg_disk s)) (f * NBLOCKS_PER_PAGE) NBLOCKS_PER_PAGE
  end.
Definition dev_frame (s : st) (f : Z) : list byte :=
  match platform s with
  | ARTY => arty_frame s f
  | _ => load (pg_mem s) (page_addr f) PAGE_SIZE
  end.
Definition dev_frame_at (s : st) (f : Z) : option Z :=
  match platform s with
  | ARTY => page_addr <$> find_slot f 0 (cache_slots s)
  | _ => Some (page_addr f)
  end.
Definition dev_ok (s : st) : Prop := platform s = ARTY -> slots_ok (cache_slots s).
Definition dev_full (s : st) : Prop := platform s = ARTY -> forall k, cache_slots s !! k <> Some (-1).

Lemma page_block_small f : 0 <= f < NFRAMES -> page_block f = f * NBLOCKS_PER_PAGE.
Proof.
  unfold NFRAMES, page_block, NBLOCKS_PER_PAGE, PAGE_SIZE, BLOCK_SIZE. intros Hf.
  rewrite u32_small by (unfold is_u32; lia). change (4096 / 512) with 8.
  replace (f * 4096) with (f * 8 * 512) by lia. apply Z.div_mul. lia.
Qed.

Local Ltac room :=
  unfold NFRAMES, NBLOCKS_PER_PAGE, PAGE_SIZE, BLOCK_SIZE in *; change (4096 / 512) with 8 in *; lia.

(** The cache with frame [f] moved into slot [i], whose former frame, if any,
    is already on disk. *)
Record taken (s s' : st) (f i : Z) : Prop := {
  tk_platform : platform s' = platform s;
  tk_idx : 0 <= i < ARTY_CACHED_NFRAMES;
  tk_mem : pg_mem s' = pg_mem s;
  tk_ok : slots_ok (cache_slots s');
  tk_at : find_slot f 0 (cache_slots s') = Some i;
  tk_full : dev_full s -> dev_full s';
  tk_disk : blocks_at (disk_blocks (pg_disk s')) (f * NBLOCKS_PER_PAGE) NBLOCKS_PER_PAGE =
            blocks_at (disk_blocks (pg_disk s)) (f * NBLOCKS_PER_PAGE) NBLOCKS_PER_PAGE;
  tk_slot g j : 0 <= g < NFRAMES -> g <> f -> find_slot g 0 (cache_slots s') = Some j -> j <> i;
  tk_frame g : 0 <= g < NFRAMES -> g <> f -> arty_frame s' g = arty_frame s g
}.

Lemma s32_frame f : 0 <= f < NFRAMES -> s32 f = f.
Proof. unfold NFRAMES. intros. apply s32_small. lia. Qed.

(** Taking a slot, free or evicted. *)
Lemma take_slot s s1 f i :
  platform s = ARTY -> slots_ok (cache_slots s) -> 0 <= f < NFRAMES ->
  find_slot f 0 (cache_slots s) = None -> 0 <= i < ARTY_CACHED_NFRAMES ->
  pg_mem s1 = pg_mem s -> cache_slots s1 = cache_slots s -> platform s1 = platform s ->
  (forall g, 0 <= g < NFRAMES ->
     blocks_at (disk_blocks (pg_disk s1)) (g * NBLOCKS_PER_PAGE) NBLOCKS_PER_PAGE =
     if bool_decide (cache_slots s !! Z.to_nat i = Some g)
     then load (pg_mem s) (page_addr i) PAGE_SIZE
     else blocks_at (disk_blocks (pg_disk s)) (g * NBLOCKS_PER_PAGE) NBLOCKS_PER_PAGE) ->
  taken s (set_slot i f s1) f i.
Proof.
  intros HP Hok Hf Hn Hi Em Es Ep HB.
  pose proof (find_slot_insert (cache_slots s) i f) as Hins.
  unfold set_slot, set_slots. rewrite Es, s32_frame by done.
  split; simpl; try done.
  - by apply slots_ok_insert.
  - rewrite Hins by done. by rewrite Z.eqb_refl.
  - unfold dev_full. simpl. intros Hfull Hp k. rewrite Ep in Hp. specialize (Hfull Hp).
    intros [(_ & Hx & _)|[_ Hx]]%list_lookup_insert_Some; [lia|by destruct (Hfull k)].
  - rewrite HB by done. rewrite bool_decide_eq_false_2; [done|]. by apply find_slot_absent.
  - intros g j Hg Hne. rewrite Hins, (proj2 (Z.eqb_neq g f)) by done.
    case_bool_decide as Hev; [done|]. intros Hj. apply find_slot_iff in Hj as [_ Hj]; [|done..].
    by intros ->.
  - intros g Hg Hne. unfold arty_frame. simpl. rewrite Hins, (proj2 (Z.eqb_neq g f)), Em by done.
    case_bool_decide as Hev.
    + rewrite HB, bool_decide_eq_true_2 by done.
      assert (find_slot g 0 (cache_slots s) = Some i) as ->; [|done].
      apply find_slot_iff; [done..|]. split; [lia|done].
    + case_goal; [done|]. by rewrite HB, bool_decide_eq_false_2 by done.
Qed.

(** Evicting a slot in use writes its frame to disk. *)
Lemma eviction_spec s :
  platform s = ARTY -> slots_ok (cache_slots s) -> dev_full s ->
  exists i s1, cache_eviction rand s = Ok (i, s1) /\ 0 <= i < ARTY_CACHED_NFRAMES /\
    pg_mem s1 = pg_mem s /\ cache_slots s1 = cache_slots s /\ platform s1 = platform s /\
    (forall b, NFRAMES * NBLOCKS_PER_PAGE <= b ->
     disk_blocks (pg_disk s1) !! b = disk_blocks (pg_disk s) !! b) /\
    forall g, 0 <= g < NFRAMES ->
     blocks_at (disk_blocks (pg_disk s1)) (g * NBLOCKS_PER_PAGE) NBLOCKS_PER_PAGE =
     if bool_decide (cache_slots s !! Z.to_nat i = Some g)
     then load (pg_mem s) (page_addr i) PAGE_SIZE
     else blocks_at (disk_blocks (pg_disk s)) (g * NBLOCKS_PER_PAGE) NBLOCKS_PER_PAGE.
Proof.
  intros HP Hok Hfull. unfold cache_eviction, call_rand, bind.
  destruct (rand (pg_rand s)) as [r rs] eqn:Er. set (i := Z.rem r ARTY_CACHED_NFRAMES).
  assert (0 <= i < ARTY_CACHED_NFRAMES) as Hi.
  { apply Z.rem_bound_pos; [|done]. pose proof (rand_nonneg (pg_rand s)). by rewrite Er in *. }
  destruct (lookup_lt_is_Some_2 (cache_slots s) (Z.to_nat i)) as [e He].
  { rewrite (so_len _ Hok). unfold ARTY_CACHED_NFRAMES in *. lia. }
  assert (0 <= e < NFRAMES) as Her.
  { pose proof (so_range _ Hok _ _ He). assert (e <> -1); [|lia]. intros ->. by destruct (Hfull HP (Z.to_nat i)). }
  simpl. unfold on_disk. simpl. rewrite He. simpl.
  rewrite u32_small, page_block_small by (done || (unfold NFRAMES in *; unfold is_u32; lia)).
  destruct (disk_write_spec (pg_disk s) (e * NBLOCKS_PER_PAGE) NBLOCKS_PER_PAGE
              (load (pg_mem s) (page_addr i) PAGE_SIZE)) as (d & Ed & HB).
  - room.
  - done.
  - room.
  - by rewrite length_load.
  - rewrite Ed. eexists i, _. split; [reflexivity|]. simpl.
    split; [exact Hi|]. do 3 (split; [done|]). split.
    { intros b Hb. rewrite HB. unfold write_blocks. rewrite (proj2 (Z.ltb_ge b _)) by room. by rewrite andb_false_r. }
    intros g Hg. case_bool_decide as Hev.
    + assert (g = e) as -> by congruence. by eapply blocks_at_write; [|rewrite length_load|].
    + eapply blocks_at_write_ne; [|done]. assert (g <> e) by congruence.
      room.
Qed.

Lemma page_addr_ne i j :
  i <> j -> page_addr i + PAGE_SIZE <= page_addr j \/ page_addr j + PAGE_SIZE <= page_addr i.
Proof. unfold page_addr, PAGE_SIZE. lia. Qed.

Lemma low_eq_store m i off l :
  0 <= i -> 0 <= off -> low_eq m (store m (page_addr i + off) l).
Proof.
  intros Hi Hoff a Ha. rewrite store_lookup, (proj2 (Z.leb_gt _ a)); [done|].
  unfold page_addr, PAGE_SIZE. lia.
Qed.

(** Storing into the slot of frame [f] leaves the other frames alone. *)
Lemma store_slot s f i off l :
  0 <= f < NFRAMES -> dev_ok s -> dev_frame_at s f = Some (page_addr i) -> 0 <= i ->
  0 <= off -> off + Z.of_nat (length l) <= PAGE_SIZE ->
  forall g, 0 <= g < NFRAMES -> g <> f ->
  dev_frame (set_mem (store (pg_mem s) (page_addr i + off) l) s) g = dev_frame s g.
Proof.
  intros Hf Hok Hat Hi Hoff Hl g Hg Hne.
  assert (forall j, j <> i -> load (store (pg_mem s) (page_addr i + off) l) (page_addr j) PAGE_SIZE
                          = load (pg_mem s) (page_addr j) PAGE_SIZE) as Hother.
  { intros j Hj. apply load_store_ne. destruct (page_addr_ne i j); lia. }
  unfold dev_frame, dev_frame_at, arty_frame, dev_ok in *. simpl. destruct (platform s).
  - destruct (find_slot g 0 (cache_slots s)) as [j|] eqn:Ej; [|done]. apply Hother. intros ->.
    destruct (find_slot f 0 (cache_slots s)) as [k|] eqn:Ek; [|done].
    assert (k = i) as -> by (simpl in Hat; unfold page_addr, PAGE_SIZE in Hat; simplify_eq; lia).
    apply find_slot_iff in Ej as [_ Ej]; [|auto..]. apply find_slot_iff in Ek as [_ Ek]; [|auto..].
    congruence.
  - apply Hother. unfold page_addr, PAGE_SIZE in Hat. simplify_eq. lia.
  - apply Hother. unfold page_addr, PAGE_SIZE in Hat. simplify_eq. lia.
Qed.

Lemma dev_frame_at_addr s f a :
  0 <= f < NFRAMES -> dev_frame_at s f = Some a -> exists i, 0 <= i /\ a = page_addr i.
Proof.
  intros Hf. unfold dev_frame_at. destruct (platform s); [|intros [= <-]; exists f; lia..].
  destruct (find_slot f 0 (cache_slots s)) as [i|] eqn:E; [|done]. intros [= <-]. exists i.
  apply find_slot_some in E as [? _]. lia.
Qed.

(** Filling the whole slot of frame [f] with [l]. *)
Lemma fill_spec s f i l :
  0 <= f < NFRAMES -> dev_ok s -> dev_frame_at s f = Some (page_addr i) -> 0 <= i ->
  length l = Z.to_nat PAGE_SIZE ->
  let s' := set_mem (store (pg_mem s) (page_addr i) l) s in
  dev_ok s' /\ (dev_full s -> dev_full s') /\ low_eq (pg_mem s) (pg_mem s') /\
  dev_frame_at s' f = Some (page_addr i) /\ dev_frame s' f = l /\
  forall g, 0 <= g < NFRAMES -> g <> f -> dev_frame s' g = dev_frame s g.
Proof.
  intros Hf Hok Hat Hi Hl s'. split_and!; [done|done| |done| |].
  - unfold s'. simpl. rewrite <- (Z.add_0_r (page_addr i)). by apply low_eq_store.
  - assert (load (pg_mem s') (page_addr i) PAGE_SIZE = l) as Hload by by apply load_store_len.
    unfold dev_frame, dev_frame_at, arty_frame in *. simpl. destruct (platform s).
    + destruct (find_slot f 0 (cache_slots s)) as [k|]; [|done].
      simpl in Hat. simplify_eq. by rewrite Hat.
    + by simplify_eq; rewrite Hat.
    + by simplify_eq; rewrite Hat.
  - intros g Hg Hne. unfold s'. rewrite <- (Z.add_0_r (page_addr i)).
    apply (store_slot s f); try done. by rewrite Hl.
Qed.

Lemma taken_ok s s' f i :
  platform s = ARTY -> taken s s' f i -> 0 <= f < NFRAMES ->
  dev_ok s' /\ dev_frame_at s' f = Some (page_addr i) /\
  forall g, 0 <= g < NFRAMES -> g <> f -> dev_frame s' g = dev_frame s g.
Proof.
  intros HP T Hf. assert (platform s' = ARTY) as HP' by by rewrite (tk_platform _ _ _ _ T).
  unfold dev_ok, dev_frame_at, dev_frame. rewrite HP', HP, (tk_at _ _ _ _ T). split_and!.
  - intros _. apply (tk_ok _ _ _ _ T).
  - done.
  - apply (tk_frame _ _ _ _ T).
Qed.

Lemma write_spec s f p :
  dev_ok s -> dev_full s -> 0 <= f < NFRAMES -> user_page p ->
  exists s', dev_paging_write rand f p s = Ok (tt, s') /\ platform s' = platform s /\
    dev_ok s' /\ dev_full s' /\
    low_eq (pg_mem s) (pg_mem s') /\
    dev_frame s' f = load (pg_mem s) (p * PAGE_SIZE) PAGE_SIZE /\
    forall g, 0 <= g < NFRAMES -> g <> f -> dev_frame s' g = dev_frame s g.
Proof.
  intros Hok Hfull Hf [Hp0 Hp1]. unfold dev_paging_write.
  assert (u32 (Z.shiftl p 12) = p * PAGE_SIZE) as ->.
  { rewrite Z.shiftl_mul_pow2 by done. change (2 ^ 12) with PAGE_SIZE. apply u32_small.
    unfold is_u32, PAGE_SIZE, FRAME_CACHE_START in *. lia. }
  assert (forall s1 i, dev_ok s1 -> dev_full s1 -> dev_frame_at s1 f = Some (page_addr i) -> 0 <= i ->
    pg_mem s1 = pg_mem s -> platform s1 = platform s ->
    (forall g, 0 <= g < NFRAMES -> g <> f -> dev_frame s1 g = dev_frame s g) ->
    exists s', copy_page (page_addr i) (p * PAGE_SIZE) s1 = Ok (tt, s') /\
      platform s' = platform s /\ dev_ok s' /\
      dev_full s' /\ low_eq (pg_mem s) (pg_mem s') /\
      dev_frame s' f = load (pg_mem s) (p * PAGE_SIZE) PAGE_SIZE /\
      forall g, 0 <= g < NFRAMES -> g <> f -> dev_frame s' g = dev_frame s g) as Hcopy.
  { intros s1 i Hok1 Hfull1 Hat1 Hi Em Ep HG.
    destruct (fill_spec s1 f i (load (pg_mem s1) (p * PAGE_SIZE) PAGE_SIZE)) as (H1 & H2 & H3 & _ & H5 & H6);
      [done..|by rewrite length_load|]. rewrite Em in *.
    eexists. split; [unfold copy_page, modify; by rewrite Em|]. split_and!; auto.
    intros g Hg Hne. rewrite <- HG by done. auto. }
  unfold bind at 1. simpl. destruct (platform s) eqn:HP.
  - destruct (find_slot f 0 (cache_slots s)) as [i|] eqn:Ef.
    + apply Hcopy; auto.
      * unfold dev_frame_at. by rewrite HP, Ef.
      * by apply find_slot_some in Ef as [? _].
    + destruct (eviction_spec s HP (Hok HP) Hfull) as (i & s1 & Ee & Hi & Em & Es & Ep & _ & HB).
      rewrite (bind_ok _ _ _ _ _ Ee). unfold bind. simpl.
      pose proof (take_slot s s1 f i HP (Hok HP) Hf Ef Hi Em Es Ep HB) as T.
      destruct (taken_ok _ _ _ _ HP T Hf) as (Hok1 & Hat1 & HG1).
      apply Hcopy; [done|by apply (tk_full _ _ _ _ T)|done|lia|apply (tk_mem _ _ _ _ T)|by rewrite (tk_platform _ _ _ _ T)|done].
  - apply Hcopy; auto; [|lia]. unfold dev_frame_at. by rewrite HP.
  - apply Hcopy; auto; [|lia]. unfold dev_frame_at. by rewrite HP.
Qed.

Lemma read_spec s f alloc_only :
  dev_ok s -> 0 <= f < NFRAMES ->
  exists a s', dev_paging_read rand f alloc_only s = Ok (a, s') /\
    platform s' = platform s /\ dev_ok s' /\
    (dev_full s -> dev_full s') /\ low_eq (pg_mem s) (pg_mem s') /\
    dev_frame_at s' f = Some a /\ (alloc_only = false -> dev_frame s' f = dev_frame s f) /\
    forall g, 0 <= g < NFRAMES -> g <> f -> dev_frame s' g = dev_frame s g.
Proof.
  intros Hok Hf. unfold dev_paging_read. unfold bind at 1. simpl.
  assert (forall i, dev_frame_at s f = Some (page_addr i) ->
    exists a s', ret (page_addr i) s = Ok (a, s') /\ platform s' = platform s /\ dev_ok s' /\
      (dev_full s -> dev_full s') /\ low_eq (pg_mem s) (pg_mem s') /\
      dev_frame_at s' f = Some a /\ (alloc_only = false -> dev_frame s' f = dev_frame s f) /\
      forall g, 0 <= g < NFRAMES -> g <> f -> dev_frame s' g = dev_frame s g) as Hhit.
  { intros i Hi. exists (page_addr i), s. by split_and!. }
  destruct (platform s) eqn:HP; [|apply Hhit; unfold dev_frame_at; by rewrite HP..].
  destruct (find_slot f 0 (cache_slots s)) as [i|] eqn:Ef.
  { rewrite (scan_slots_find _ _ _ _ _ Ef). apply Hhit. unfold dev_frame_at. by rewrite HP, Ef. }
  destruct (scan_slots_free f 0 (-1) (cache_slots s) Ef) as (r & -> & Hr); [lia|by left|].
  assert (exists i s1, (if r =? -1 then cache_eviction rand else ret r) s = Ok (i, s1) /\
            taken s (set_slot i f s1) f i) as (i & s1 & E1 & T).
  { destruct Hr as [(-> & _ & Hfree)|(Hr0 & [->|[_ Hr]])]; [|lia|].
    - destruct (eviction_spec s HP (Hok HP)) as (i & s1 & E & Hi & Em & Es & Ep & _ & HB);
        [intros _; exact Hfree|]. exists i, s1. split; [exact E|]. by apply take_slot; auto.
    - rewrite (proj2 (Z.eqb_neq r (-1))) by lia. exists r, s. split; [done|].
      rewrite Z.sub_0_r in Hr. pose proof (lookup_lt_Some _ _ _ Hr) as Hlt.
      rewrite (so_len _ (Hok HP)) in Hlt. unfold ARTY_CACHED_NFRAMES in Hlt.
      apply take_slot; auto; [unfold ARTY_CACHED_NFRAMES; lia|].
      intros g Hg. rewrite bool_decide_eq_false_2; [done|]. rewrite Hr. intros [= ?]. lia. }
  destruct (taken_ok _ _ _ _ HP T Hf) as (Hok1 & Hat1 & HG1).
  rewrite (bind_ok _ _ _ _ _ E1). set (s2 := set_slot i f s1) in *. unfold bind. simpl. fold s2.
  clearbody s2. pose proof (tk_idx _ _ _ _ T) as Hi.
  destruct alloc_only; simpl.
  - exists (page_addr i), s2. split_and!; auto; [by rewrite (tk_platform _ _ _ _ T)|apply (tk_full _ _ _ _ T)|].
    by rewrite (tk_mem _ _ _ _ T).
  - unfold on_disk. rewrite page_block_small by done.
    destruct (disk_read_spec (pg_disk s2) (f * NBLOCKS_PER_PAGE) NBLOCKS_PER_PAGE)
      as (d & -> & Ed); [room..|].
    set (s3 := {| pg_mem := pg_mem s2; cache_slots := cache_slots s2; platform := platform s2;
                  pg_disk := d; pg_rand := pg_rand s2 |}).
    assert (forall g, dev_frame s3 g = dev_frame s2 g) as H3.
    { intros g. unfold dev_frame, arty_frame. simpl. by rewrite Ed. }
    destruct (fill_spec s3 f i (blocks_at (disk_blocks (pg_disk s2)) (f * NBLOCKS_PER_PAGE)
                NBLOCKS_PER_PAGE)) as (F1 & F2 & F3 & F4 & F5 & F6); [done|done|done|lia| |].
    { apply Nat2Z.inj. rewrite length_blocks_at; [done|apply disk_blk_ok|done]. }
    eexists _, _. split; [reflexivity|]. split_and!; auto.
    + simpl. by rewrite (tk_platform _ _ _ _ T).
    + intros Hfull. apply F2. by apply (tk_full _ _ _ _ T).
    + rewrite <- (tk_mem _ _ _ _ T). exact F3.
    + intros _. rewrite F5, (tk_disk _ _ _ _ T). unfold dev_frame, arty_frame. by rewrite HP, Ef.
    + intros g Hg Hne. rewrite F6, H3 by done. by apply HG1.
Qed.

(** Dropping frame [f] from the cache. *)
Lemma find_slot_drop f g l :
  slots_ok l -> 0 <= f < NFRAMES -> 0 <= g < NFRAMES -> g <> f ->
  slots_ok ((fun x => if u32 x =? f then -1 else x) <$> l) /\
  find_slot g 0 ((fun x => if u32 x =? f then -1 else x) <$> l) = find_slot g 0 l.
Proof.
  intros Hok Hf Hg Hne. set (l' := _ <$> l).
  assert (forall k x, l' !! k = Some x <->
    exists y, l !! k = Some y /\ x = if y =? f then -1 else y) as Hl.
  { intros k x. unfold l'. rewrite list_lookup_fmap_Some. split; intros (y & H1 & H2).
    - exists y. by rewrite <- (slot_eqb y f) by (done || by eapply so_range).
    - exists y. by rewrite (slot_eqb y f) by (done || by eapply so_range). }
  assert (slots_ok l') as Hok'.
  { split.
    - unfold l'. rewrite length_fmap. apply Hok.
    - intros k x (y & Hy & ->)%Hl. pose proof (so_range _ Hok _ _ Hy). case_goal; lia.
    - intros j k x (y & Hy & Ey)%Hl (z & Hz & Ez)%Hl Hx.
      destruct (y =? f), (z =? f); try lia. subst z x. by apply (so_uniq _ Hok j k y). }
  split; [done|]. apply option_eq. intros k. rewrite !find_slot_iff by done. rewrite Hl.
  split; [intros [? (y & Hy & ->)]|intros [? Hy]]; split; try done.
  - revert Hg Hne. case_goal; [lia|done].
  - exists g. by rewrite (proj2 (Z.eqb_neq g f)).
Qed.

(** The device of a given platform. *)
Variable p0 : platform_t.

#[export] Program Instance dev_paging_laws :
  @PagingLaws (paging_state D R) (dev_paging rand) := {|
  pg_ok s := platform s = p0 /\ dev_ok s;
  pg_full := dev_full;
  pg_evicts := bool_decide (p0 = ARTY);
  frame := dev_frame;
  frame_at := dev_frame_at
|}.
Next Obligation. done. Qed.
Next Obligation.
  intros s f [_ Hok]. unfold dev_frame, arty_frame. destruct (platform s); [|apply length_load..].
  case_goal; [apply length_load|]. apply Nat2Z.inj.
  rewrite length_blocks_at; [done|apply disk_blk_ok|done].
Qed.
Next Obligation.
  intros m s f [Hp Hok] Hf Hm. split_and!; try done. simpl. unfold dev_frame, arty_frame. simpl.
  assert (forall i, 0 <= i -> load m (page_addr i) PAGE_SIZE = load (pg_mem s) (page_addr i) PAGE_SIZE) as HL.
  { intros i Hi. apply load_ext. intros a Ha. apply Hm. unfold page_addr, PAGE_SIZE in Ha. lia. }
  destruct (platform s); [|apply HL; lia..].
  destruct (find_slot f 0 (cache_slots s)) as [i|] eqn:E; [|done].
  apply HL. by apply find_slot_some in E as [? _].
Qed.
Next Obligation.
  intros s f a [_ Hok] Hf Hat. destruct (dev_frame_at_addr s f a Hf Hat) as (i & Hi & ->).
  split; [unfold page_addr, PAGE_SIZE; lia|]. unfold dev_frame_at, dev_frame, arty_frame in *. simpl.
  destruct (platform s).
  - destruct (find_slot f 0 (cache_slots s)) as [j|]; [|done]. simpl in Hat. simplify_eq. by rewrite Hat.
  - by simplify_eq; rewrite Hat.
  - by simplify_eq; rewrite Hat.
Qed.
Next Obligation.
  intros s f a off l [Hp Hok] Hf Hat Hoff Hl. simpl. split_and!; try done.
  destruct (dev_frame_at_addr s f a Hf Hat) as (i & Hi & ->).
  by apply (store_slot s f).
Qed.
Next Obligation.
  intros s f p [Hp Hok] Hfull Hf Hup. destruct (write_spec s f p Hok Hfull Hf Hup)
    as (s' & E & Ep & Hok' & Hrest). exists s'. split; [exact E|]. split; [|exact Hrest].
  split; [congruence|done].
Qed.
Next Obligation.
  intros s f b [Hp Hok] Hf. destruct (read_spec s f b Hok Hf) as (a & s' & E & Ep & Hok' & Hrest).
  exists a, s'. split; [exact E|]. split; [|exact Hrest]. split; [congruence|done].
Qed.
Next Obligation.
  intros s f [Hp Hok] Hf. eexists. split; [reflexivity|]. simpl. split; [split; [done|]|split_and!; [done| |]].
  - intros HP. by destruct (find_slot_drop f (if f =? 0 then 1 else 0) (cache_slots s) (Hok HP));
      [|case_goal; bool_prop; room..|].
  - intros Hev HP. simpl in HP. apply bool_decide_eq_false in Hev. congruence.
  - intros g Hg Hne. unfold dev_frame, dev_frame_at, arty_frame. simpl.
    destruct (platform s) eqn:HP; [|done..].
    by destruct (find_slot_drop f g (cache_slots s) (Hok HP)) as [_ ->].
Qed.
End laws.
