(* ===== verification/Mmu.v ===== *)
(** The memory management unit, earth/cpu_mmu.c: allocation of frames, the
    software TLB and the Sv32 identity mapping, over the interface of the
    paging device (Paging.v). *)

From Stdlib Require Import ZArith Lia Strings.Byte.
From stdpp Require Import base numbers list strings gmap.
From S2P Require Import Prelude Bytes Memory Earth Paging.

Local Open Scope egos_scope.

(** ** State *)

Record frame_mapping := { use : Z; fm_pid : Z; page_no : Z }.
#[export] Instance frame_mapping_eq_dec : EqDecision frame_mapping.
Proof. solve_decision. Defined.
Definition unused_frame : frame_mapping := {| use := 0; fm_pid := 0; page_no := 0 |}.

(** The static variables of cpu_mmu.c, and the paging device.  [root] and
    [leaf] are addresses. *)
Record mmu_state (P : Type) := {
  table : list frame_mapping;
  curr_vm_pid : Z;
  frame_id : Z;
  root : Z;
  leaf : Z;
  pid_to_pagetable_base : list Z;
  dev : P
}.
Arguments table {P}.
Arguments curr_vm_pid {P}.
Arguments frame_id {P}.
Arguments root {P}.
Arguments leaf {P}.
Arguments pid_to_pagetable_base {P}.
Arguments dev {P}.

Definition OS_RWX : Z := 0xF.
Definition USER_RWX : Z := 0x1F.

(** The index of the first frame that is not in use. *)
Fixpoint find_frame (i : Z) (l : list frame_mapping) : option Z :=
  match l with
  | [] => None
  | x :: l' => if use x =? 0 then Some i else find_frame (i + 1) l'
  end.

Section mmu.
Context {P : Type} `{Paging P}.
Abbreviation st := (mmu_state P).

Definition set_table (t : list frame_mapping) (s : st) : st :=
  {| table := t; curr_vm_pid := curr_vm_pid s; frame_id := frame_id s; root := root s;
     leaf := leaf s; pid_to_pagetable_base := pid_to_pagetable_base s; dev := dev s |}.
Definition set_curr_vm_pid (p : Z) (s : st) : st :=
  {| table := table s; curr_vm_pid := p; frame_id := frame_id s; root := root s;
     leaf := leaf s; pid_to_pagetable_base := pid_to_pagetable_base s; dev := dev s |}.
Definition set_pt (f r l : Z) (s : st) : st :=
  {| table := table s; curr_vm_pid := curr_vm_pid s; frame_id := f; root := r;
     leaf := l; pid_to_pagetable_base := pid_to_pagetable_base s; dev := dev s |}.
Definition set_base (b : list Z) (s : st) : st :=
  {| table := table s; curr_vm_pid := curr_vm_pid s; frame_id := frame_id s; root := root s;
     leaf := leaf s; pid_to_pagetable_base := b; dev := dev s |}.
Definition set_dev (d : P) (s : st) : st :=
  {| table := table s; curr_vm_pid := curr_vm_pid s; frame_id := frame_id s; root := root s;
     leaf := leaf s; pid_to_pagetable_base := pid_to_pagetable_base s; dev := d |}.

(** A call of the paging device, and an access to memory. *)
Definition on_dev {A} (m : M P A) : M st A := fun s =>
  match m (dev s) with
  | Ok (a, d) => Ok (a, set_dev d s)
  | Fatal msg => Fatal msg
  | Undef w => Undef w
  | NoFuel => NoFuel
  end.
Definition mmem (s : st) : mem := pmem (dev s).
Definition set_mmem (m : mem) (s : st) : st := set_dev (set_pmem m (dev s)) s.
Definition put_mem (a : Z) (l : list byte) : M st unit :=
  modify (fun s => set_mmem (store (mmem s) a l) s).

(** [table[i]]; the index is within the table in every use. *)
Definition entry (s : st) (i : Z) : frame_mapping :=
  default unused_frame (table s !! Z.to_nat i).
Definition set_entry (i : Z) (e : frame_mapping) (s : st) : st :=
  set_table (<[Z.to_nat i := e]> (table s)) s.

(** ** Allocation and release of frames *)

(** [mmu_alloc]: the frame and the address at which it is cached. *)
Definition mmu_alloc : M st (Z * Z) :=
  s <- get ;;
  match find_frame 0 (table s) with
  | None => fatal "mmu_alloc: no more available frames"
  | Some i =>
      cached_addr <- on_dev (paging_read i true) ;;
      modify (fun s => set_entry i {| use := 1; fm_pid := fm_pid (entry s i);
                                      page_no := page_no (entry s i) |} s) ;;;
      ret (i, cached_addr)
  end.

Definition mmu_free (pid : Z) : M st unit :=
  for_n (Z.to_nat NFRAMES) 0 (fun i =>
    s <- get ;;
    if negb (use (entry s i) =? 0) && (fm_pid (entry s i) =? pid) then
      on_dev (paging_invalidate_cache i) ;;;
      modify (set_entry i unused_frame)
    else ret tt).

(** ** Software TLB *)

Definition soft_tlb_map (pid page_no frame_id : Z) : M st unit :=
  if frame_id <? NFRAMES then
    modify (fun s => set_entry frame_id
              {| use := use (entry s frame_id); fm_pid := pid; page_no := page_no |} s)
  else undef "soft_tlb_map: table".

Definition soft_tlb_switch (pid : Z) : M st unit :=
  s <- get ;;
  if pid =? curr_vm_pid s then ret tt
  else
    for_n (Z.to_nat NFRAMES) 0 (fun i =>
      s <- get ;;
      if negb (use (entry s i) =? 0) && (fm_pid (entry s i) =? curr_vm_pid s)
      then on_dev (paging_write i (page_no (entry s i)))
      else ret tt) ;;;
    for_n (Z.to_nat NFRAMES) 0 (fun i =>
      s <- get ;;
      if negb (use (entry s i) =? 0) && (fm_pid (entry s i) =? pid) then
        a <- on_dev (paging_read i false) ;;
        s <- get ;;
        put_mem (u32 (Z.shiftl (page_no (entry s i)) 12)) (load (mmem s) a PAGE_SIZE)
      else ret tt) ;;;
    modify (set_curr_vm_pid pid).

(** ** Page tables *)

(** [p[i]] for a [uint *p]. *)
Definition word (s : st) (p i : Z) : Z := load_u32 (mmem s) (p + 4 * i).
Definition set_word (p i v : Z) : M st unit := put_mem (p + 4 * i) (le_put 4 v).

(** The assignments [table[frame_id].pid = pid]. *)
Definition own_frame (pid : Z) : M st unit :=
  modify (fun s => set_entry (frame_id s)
    {| use := use (entry s (frame_id s)); fm_pid := pid;
       page_no := page_no (entry s (frame_id s)) |} s).

(** The first half of [setup_identity_region]: [leaf] becomes the leaf table of
    the region, which is allocated and cleared if there is none. *)
Definition leaf_table (pid vpn1 : Z) : M st unit :=
  s <- get ;;
  if negb (Z.land (word s (root s) vpn1) 0x1 =? 0) then
    modify (fun s => set_pt (frame_id s) (root s)
      (Z.land (u32 (Z.shiftl (word s (root s) vpn1) 2)) 0xFFFFF000) s)
  else
    '(f, a) <- mmu_alloc ;;
    modify (fun s => set_pt f (root s) a s) ;;;
    own_frame pid ;;;
    s <- get ;;
    put_mem (leaf s) zero_page ;;;
    set_word (root s) vpn1 (Z.lor (Z.shiftr (leaf s) 2) 0x1).

Definition setup_identity_region (pid addr npages flag : Z) : M st unit :=
  let vpn1 := Z.shiftr addr 22 in
  leaf_table pid vpn1 ;;;
  let vpn0 := Z.land (Z.shiftr addr 12) 0x3FF in
  s <- get ;;
  for_n (Z.to_nat npages) 0 (fun i =>
    set_word (leaf s) (u32 (vpn0 + i)) (Z.lor (Z.shiftr (u32 (addr + i * PAGE_SIZE)) 2) flag)).

Definition pagetable_identity_mapping (p : platform_t) (pid : Z) : M st unit :=
  '(f, a) <- mmu_alloc ;;
  modify (fun s => set_pt f a (leaf s) s) ;;;
  own_frame pid ;;;
  s <- get ;;
  put_mem (root s) zero_page ;;;
  modify (fun s => set_base (<[Z.to_nat pid := root s]> (pid_to_pagetable_base s)) s) ;;;
  setup_identity_region pid 0x02000000 16 OS_RWX ;;;
  setup_identity_region pid (UART0_BASE p) 1 OS_RWX ;;;
  setup_identity_region pid (SPI_BASE p) 1 OS_RWX ;;;
  setup_identity_region pid 0x20400000 1024 OS_RWX ;;;
  setup_identity_region pid 0x20800000 1024 OS_RWX ;;;
  setup_identity_region pid 0x80000000 1024 OS_RWX ;;;
  for_n 8 0 (fun i => setup_identity_region pid (u32 (0x08000000 + i * 0x400000)) 1024 OS_RWX).

Definition page_table_map (pid page_no frame_id : Z) : M st unit :=
  if 32 <=? pid then fatal "page_table_map: pid too large"
  else soft_tlb_map pid page_no frame_id.

Definition page_table_switch (pid : Z) : M st unit := soft_tlb_switch pid.
End mmu.
