(* ===== verification/MmuProof.v ===== *)
(** What the memory management unit promises, and that earth/cpu_mmu.c keeps
    it: every process has pages of its own, which only it changes, whichever
    process is mapped at the moment.  The Sv32 tables are in PageTable.v. *)

From Stdlib Require Import ZArith Lia Strings.Byte.
From stdpp Require Import base numbers list strings gmap.
From S2P Require Import Prelude Bytes Memory Earth Paging Mmu.

Section spec.
Context {P : Type} `{PagingLaws P}.
Abbreviation st := (mmu_state P).

(** Entry [e] of the table maps page [p] of process [q]. *)
Definition maps (e : frame_mapping) (q p : Z) : Prop :=
  use e <> 0 /\ fm_pid e = q /\ page_no e = p.
#[export] Instance maps_dec e q p : Decision (maps e q p).
Proof. unfold maps. apply _. Defined.

(** The frame of page [p] of process [q]. *)
Definition frame_of (t : list frame_mapping) (q p : Z) : option Z :=
  (fun x => Z.of_nat (fst x)) <$> list_find (fun e => maps e q p) t.

(** The contents of page [p] in the address space of process [q]: in memory
    when [q] is mapped, in its frame otherwise. *)
Definition view (s : st) (q p : Z) : option (list byte) :=
  i ← frame_of (table s) q p;
  Some (if q =? curr_vm_pid s then load (mmem s) (p * PAGE_SIZE) PAGE_SIZE
        else frame (dev s) i).

(** Pid 0 owns the frames that are not mapped yet and the page tables. *)
Record mmu_ok (s : st) : Prop := {
  mo_len : length (table s) = Z.to_nat NFRAMES;
  mo_dev : pg_ok (dev s);
  mo_curr : curr_vm_pid s <> 0;
  mo_unused i : use (entry s i) = 0 -> entry s i = unused_frame;
  mo_page i q p : q <> 0 -> maps (entry s i) q p -> user_page p;
  mo_uniq i j q p :
    0 <= i -> 0 <= j -> q <> 0 -> maps (entry s i) q p -> maps (entry s j) q p -> i = j
}.

Lemma entry_in (s : st) i e : table s !! Z.to_nat i = Some e -> entry s i = e.
Proof. unfold entry. by intros ->. Qed.

Lemma maps_range (s : st) i q p :
  length (table s) = Z.to_nat NFRAMES -> maps (entry s i) q p -> i < NFRAMES.
Proof.
  intros Hlen [Hu _]. unfold entry in Hu. destruct (table s !! Z.to_nat i) eqn:E; [|done].
  apply lookup_lt_Some in E. unfold NFRAMES in *. lia.
Qed.

Lemma frame_of_some (s : st) q p i :
  frame_of (table s) q p = Some i -> 0 <= i /\ maps (entry s i) q p.
Proof.
  unfold frame_of. intros ([k e] & (Hk & Hm & _)%list_find_Some & ->)%fmap_Some.
  simpl. split; [lia|]. rewrite (entry_in s _ e); [done|]. by rewrite Nat2Z.id.
Qed.

Lemma frame_of_iff s q p i :
  mmu_ok s -> q <> 0 -> 0 <= i ->
  frame_of (table s) q p = Some i <-> maps (entry s i) q p.
Proof.
  intros Hok Hq Hi. split; [by intros [_ ?]%frame_of_some|]. intros Hm.
  pose proof (maps_range s i q p (mo_len _ Hok) Hm) as Hlt.
  destruct (frame_of (table s) q p) as [j|] eqn:E.
  - apply frame_of_some in E as [Hj Hj']. f_equal. by apply (mo_uniq _ Hok j i q p).
  - exfalso. unfold frame_of in E. apply fmap_None in E. rewrite list_find_None in E.
    rewrite Forall_forall in E. apply (E (entry s i)); [|done].
    destruct (lookup_lt_is_Some_2 (table s) (Z.to_nat i)) as [e He].
    { rewrite (mo_len _ Hok). unfold NFRAMES in *. lia. }
    rewrite (entry_in _ _ _ He). by eapply list_elem_of_lookup_2.
Qed.

(** The same table and statics; only the device and memory may differ. *)
Definition same_static (s s' : st) : Prop :=
  table s' = table s /\ curr_vm_pid s' = curr_vm_pid s.

Lemma same_static_entry s s' i : same_static s s' -> entry s' i = entry s i.
Proof. intros [E _]. unfold entry. by rewrite E. Qed.

Lemma owner_maps e q :
  (negb (use e =? 0) && (fm_pid e =? q))%bool = bool_decide (maps e q (page_no e)).
Proof.
  unfold maps. destruct (Z.eqb_spec (use e) 0), (Z.eqb_spec (fm_pid e) q); simpl;
    symmetry; [apply bool_decide_eq_false|apply bool_decide_eq_false
              |apply bool_decide_eq_true|apply bool_decide_eq_false]; tauto.
Qed.

(** [f] is a frame of process [q]. *)
Abbreviation frame_owner s f q := (maps (entry s f) q (page_no (entry s f))).

(** The first loop of [soft_tlb_switch]: the frames of the mapped process get
    the contents of its pages. *)
Definition saved (s s' : st) (k : Z) : Prop :=
  same_static s s' /\ pg_ok (dev s') /\ pg_full (dev s') /\ low_eq (mmem s) (mmem s') /\
  forall f, 0 <= f < NFRAMES ->
    frame (dev s') f =
    if bool_decide (f < k /\ frame_owner s f (curr_vm_pid s))
    then load (mmem s) (page_no (entry s f) * PAGE_SIZE) PAGE_SIZE else frame (dev s) f.

Lemma low_eq_page (m m' : mem) p :
  low_eq m m' -> user_page p -> load m' (p * PAGE_SIZE) PAGE_SIZE = load m (p * PAGE_SIZE) PAGE_SIZE.
Proof.
  intros Hm [Hp0 Hp1]. apply load_ext. intros a Ha. apply Hm.
  unfold PAGE_SIZE, FRAME_CACHE_START in *. lia.
Qed.

Lemma low_eq_trans (m1 m2 m3 : mem) : low_eq m1 m2 -> low_eq m2 m3 -> low_eq m1 m3.
Proof. intros H12 H23 a Ha. by rewrite H23, H12. Qed.

Lemma save_step s s1 k :
  mmu_ok s -> 0 <= k < NFRAMES -> saved s s1 k ->
  exists s2, (s <- get ;;
      if negb (use (entry s k) =? 0) && (fm_pid (entry s k) =? curr_vm_pid s)
      then on_dev (paging_write k (page_no (entry s k))) else ret tt)%egos s1 = Ok (tt, s2) /\
    saved s s2 (k + 1).
Proof.
  intros Hok Hk (Hst & Hpg & Hfull & Hlow & HF). unfold bind. simpl.
  rewrite (same_static_entry _ _ k Hst), (proj2 Hst), owner_maps.
  assert (forall f, f <> k -> (f < k + 1 /\ frame_owner s f (curr_vm_pid s)) <->
                         (f < k /\ frame_owner s f (curr_vm_pid s))) as Hne by (intros; split; intros []; split; (done || lia)).
  case_bool_decide as Hm.
  - pose proof (mo_page _ Hok _ _ _ (mo_curr _ Hok) Hm) as Hup.
    unfold on_dev. destruct (paging_write_spec (dev s1) k (page_no (entry s k)))
      as (d & -> & Hpg' & Hfull' & Hlow' & Hk' & Hg'); [done..|].
    eexists. split; [reflexivity|]. split_and!; try done.
    + by eapply low_eq_trans.
    + intros f Hf. destruct (decide (f = k)) as [->|Hfk].
      * simpl. rewrite Hk', bool_decide_eq_true_2 by (split; [lia|done]). by apply low_eq_page.
      * simpl. rewrite Hg', HF by done. by rewrite (bool_decide_ext _ _ (Hne f Hfk)).
  - exists s1. split; [done|]. split_and!; try done. intros f Hf. rewrite HF by done.
    destruct (decide (f = k)) as [->|Hfk]; [|by rewrite (bool_decide_ext _ _ (Hne f Hfk))].
    rewrite !bool_decide_eq_false_2; [done|tauto|lia].
Qed.

Definition in_page (a p : Z) : Prop := p * PAGE_SIZE <= a < (p + 1) * PAGE_SIZE.

(** The second loop of [soft_tlb_switch]: the pages of process [q] get the
    contents of its frames, and no other memory below the cache changes. *)
Definition restored (q : Z) (s s' : st) (k : Z) : Prop :=
  same_static s s' /\ pg_ok (dev s') /\ pg_full (dev s') /\
  (forall f, 0 <= f < NFRAMES -> frame (dev s') f = frame (dev s) f) /\
  (forall f, 0 <= f < k -> frame_owner s f q ->
     load (mmem s') (page_no (entry s f) * PAGE_SIZE) PAGE_SIZE = frame (dev s) f) /\
  (forall a, a < FRAME_CACHE_START ->
     (forall f, 0 <= f < k -> frame_owner s f q -> ~ in_page a (page_no (entry s f))) ->
     load_byte (mmem s') a = load_byte (mmem s) a).

Lemma user_page_addr p : user_page p -> u32 (Z.shiftl p 12) = p * PAGE_SIZE.
Proof.
  intros [H1 H2]. rewrite Z.shiftl_mul_pow2 by done. change (2 ^ 12) with PAGE_SIZE.
  apply u32_small. unfold is_u32, PAGE_SIZE, FRAME_CACHE_START in *. lia.
Qed.

(** Writing a user page leaves the device alone. *)
Lemma put_user_page (s : st) p l :
  pg_ok (dev s) -> user_page p -> length l = Z.to_nat PAGE_SIZE ->
  let s' := set_mmem (store (mmem s) (p * PAGE_SIZE) l) s in
  pg_ok (dev s') /\ (pg_full (dev s) -> pg_full (dev s')) /\
  (forall f, 0 <= f < NFRAMES -> frame (dev s') f = frame (dev s) f) /\
  load (mmem s') (p * PAGE_SIZE) PAGE_SIZE = l /\
  forall a, ~ in_page a p -> load_byte (mmem s') a = load_byte (mmem s) a.
Proof.
  intros Hpg [Hp0 Hp1] Hl s'. unfold mmem, s', set_mmem. simpl. rewrite pmem_set.
  assert (forall f, 0 <= f < NFRAMES ->
    let d := set_pmem (store (mmem s) (p * PAGE_SIZE) l) (dev s) in
    pg_ok d /\ (pg_full (dev s) -> pg_full d) /\ frame d f = frame (dev s) f /\
    frame_at d f = frame_at (dev s) f) as HL.
  { intros f Hf. apply frame_low; [done..|]. intros a Ha. rewrite store_lookup.
    unfold PAGE_SIZE, FRAME_CACHE_START in *.
    rewrite (proj2 (Z.ltb_ge a _)), andb_false_r by lia. done. }
  destruct (HL 0 ltac:(done)) as (H1 & H2 & _). split_and!; [done|done| | |].
  - intros f Hf. by destruct (HL f Hf) as (_ & _ & H3 & _).
  - by apply load_store_len.
  - intros a Ha. rewrite store_lookup. unfold in_page, PAGE_SIZE in *.
    destruct (Z.leb_spec (p * 4096) a), (Z.ltb_spec a (p * 4096 + Z.of_nat (length l))); simpl; try done.
    lia.
Qed.

Lemma restore_step s s1 q k :
  mmu_ok s -> q <> 0 -> 0 <= k < NFRAMES -> restored q s s1 k ->
  exists s2, (s <- get ;;
      if negb (use (entry s k) =? 0) && (fm_pid (entry s k) =? q) then
        a <- on_dev (paging_read k false) ;;
        s <- get ;;
        put_mem (u32 (Z.shiftl (page_no (entry s k)) 12)) (load (mmem s) a PAGE_SIZE)
      else ret tt)%egos s1 = Ok (tt, s2) /\
    restored q s s2 (k + 1).
Proof.
  intros Hok Hq Hk (Hst & Hpg & Hfull & HF & HL & HA). unfold bind. simpl.
  rewrite (same_static_entry _ _ k Hst), owner_maps. case_bool_decide as Hm.
  - pose proof (mo_page _ Hok _ _ _ Hq Hm) as Hup.
    unfold on_dev. destruct (paging_read_spec (dev s1) k false Hpg Hk)
      as (a & d & -> & Hpg' & Hfull' & Hlow' & Hat & Hk' & Hg'). specialize (Hk' eq_refl).
    destruct (frame_at_load d k a Hpg' Hk Hat) as [_ Ea].
    change (entry (set_dev d s1) k) with (entry s1 k).
    rewrite (same_static_entry _ _ k Hst), user_page_addr by done.
    unfold put_mem, modify. change (mmem (set_dev d s1)) with (pmem d).
    rewrite <- Ea, Hk'.
    destruct (put_user_page (set_dev d s1) (page_no (entry s k)) (frame (dev s1) k))
      as (U1 & U2 & U3 & U4 & U5); [done|done|by apply frame_len|].
    eexists. split; [reflexivity|]. split_and!; try done.
    + apply U2. by apply Hfull'.
    + intros f Hf. rewrite U3 by done. simpl. rewrite <- HF by done.
      destruct (decide (f = k)) as [->|]; auto.
    + intros f Hf Hown. destruct (decide (f = k)) as [->|Hne].
      * etransitivity; [exact U4|]. by apply HF.
      * rewrite <- (HL f) by (done || lia). pose proof (mo_page _ Hok _ _ _ Hq Hown) as [Hf0 Hf1].
        apply load_ext. intros x Hx. rewrite U5; [apply Hlow'; unfold PAGE_SIZE, FRAME_CACHE_START in *; lia|].
        intros Hin. apply Hne. apply (mo_uniq _ Hok f k q (page_no (entry s f))); [lia|lia|done|done|].
        replace (page_no (entry s f)) with (page_no (entry s k)); [done|].
        unfold in_page, PAGE_SIZE in *. lia.
    + intros x Hx Hnot. rewrite U5 by (apply Hnot; [lia|done]). etransitivity; [by apply Hlow'|].
      apply HA; [done|]. intros f Hf. apply Hnot. lia.
  - exists s1. split; [done|]. split_and!; try done.
    + intros f Hf Hown. apply HL; [|done]. assert (f <> k) by (intros ->; done). lia.
    + intros x Hx Hnot. apply HA; [done|]. intros f Hf. apply Hnot. lia.
Qed.

Lemma view_some s q p i :
  mmu_ok s -> q <> 0 -> 0 <= i -> maps (entry s i) q p ->
  view s q p = Some (if q =? curr_vm_pid s then load (mmem s) (p * PAGE_SIZE) PAGE_SIZE
                     else frame (dev s) i).
Proof. intros Hok Hq Hi Hm. unfold view. by rewrite (proj2 (frame_of_iff s q p i Hok Hq Hi) Hm). Qed.

Lemma mmu_ok_static s s' :
  mmu_ok s -> same_static s s' -> pg_ok (dev s') -> mmu_ok s'.
Proof.
  intros [H1 H2 H3 H4 H5 H6] Hst Hpg.
  split.
  - by rewrite (proj1 Hst).
  - done.
  - by rewrite (proj2 Hst).
  - intros i. rewrite (same_static_entry s s') by done. auto.
  - intros i q p. rewrite (same_static_entry s s') by done. eauto.
  - intros i j q p. rewrite !(same_static_entry s s') by done. eauto.
Qed.

(** [soft_tlb_switch] maps process [q]: the contents of every page of every
    process are the same, and memory below the frame cache changes only in the
    pages of [q]. *)
Lemma switch_ok s q :
  mmu_ok s -> pg_full (dev s) -> q <> 0 ->
  exists s', soft_tlb_switch q s = Ok (tt, s') /\ mmu_ok s' /\ pg_full (dev s') /\
    table s' = table s /\ curr_vm_pid s' = q /\
    (forall q' p, q' <> 0 -> view s' q' p = view s q' p) /\
    (forall a, a < FRAME_CACHE_START ->
       (forall f p, 0 <= f -> maps (entry s f) q p -> ~ in_page a p) ->
       load_byte (mmem s') a = load_byte (mmem s) a).
Proof.
  intros Hok Hfull Hq. unfold soft_tlb_switch. unfold bind at 1. simpl.
  destruct (Z.eqb_spec q (curr_vm_pid s)) as [->|Hne].
  { exists s. by split_and!. }
  destruct (for_n_inv (fun k s1 => saved s s1 k) (Z.to_nat NFRAMES) 0 (fun i =>
      s <- get ;;
      if negb (use (entry s i) =? 0) && (fm_pid (entry s i) =? curr_vm_pid s)
      then on_dev (paging_write i (page_no (entry s i))) else ret tt)%egos s)
    as (s1 & E1 & Hst1 & Hpg1 & Hfull1 & Hlow1 & HF1).
  { intros i s1 Hi HI. by apply save_step. }
  { split_and!; try done; [apply Hok|]. intros f Hf. rewrite bool_decide_eq_false_2; [done|lia]. }
  rewrite (bind_ok _ _ _ _ _ E1). pose proof (mmu_ok_static _ _ Hok Hst1 Hpg1) as Hok1.
  destruct (for_n_inv (fun k s2 => restored q s1 s2 k) (Z.to_nat NFRAMES) 0 (fun i =>
      s <- get ;;
      if negb (use (entry s i) =? 0) && (fm_pid (entry s i) =? q) then
        a <- on_dev (paging_read i false) ;;
        s <- get ;;
        put_mem (u32 (Z.shiftl (page_no (entry s i)) 12)) (load (mmem s) a PAGE_SIZE)
      else ret tt)%egos s1) as (s2 & E2 & Hst2 & Hpg2 & Hfull2 & HF2 & HL2 & HA2).
  { intros i s2 Hi HI. by apply restore_step. }
  { split_and!; try done. intros f Hf. lia. }
  rewrite (bind_ok _ _ _ _ _ E2). pose proof (mmu_ok_static _ _ Hok1 Hst2 Hpg2) as [O1 O2 O3 O4 O5 O6].
  eexists. split; [reflexivity|]. split; [by split|]. split; [done|].
  split; [simpl; by rewrite (proj1 Hst2), (proj1 Hst1)|]. split; [done|].
  change (0 + Z.of_nat (Z.to_nat NFRAMES)) with NFRAMES in *. split.
  - intros q' p Hq'. unfold view. simpl. rewrite (proj1 Hst2), (proj1 Hst1).
    destruct (frame_of (table s) q' p) as [i|] eqn:Ei; [|done]. simpl. f_equal.
    apply frame_of_some in Ei as [Hi Hm]. pose proof (maps_range _ _ _ _ (mo_len _ Hok) Hm) as Hi'.
    pose proof (mo_page _ Hok _ _ _ Hq' Hm) as Hup. pose proof Hm as (_ & Hpid & <-).
    destruct (Z.eqb_spec q' q) as [->|Hne'].
    + rewrite (proj2 (Z.eqb_neq q _)) by done. rewrite <- (same_static_entry s s1) by done.
      change (mmem (set_curr_vm_pid q s2)) with (mmem s2).
      rewrite HL2 by (rewrite ?(same_static_entry s s1); done || lia).
      rewrite HF1, bool_decide_eq_false_2; [done| |lia]. intros [_ (_ & E & _)]. congruence.
    + rewrite HF2, HF1 by lia.
      destruct (Z.eqb_spec q' (curr_vm_pid s)) as [->|Hne2].
      * by rewrite bool_decide_eq_true_2.
      * rewrite bool_decide_eq_false_2; [done|]. intros [_ (_ & E & _)]. congruence.
  - intros a Ha Hnot. change (mmem (set_curr_vm_pid q s2)) with (mmem s2).
    rewrite HA2; [by apply Hlow1|done|]. intros f Hf Hown.
    rewrite (same_static_entry s s1) in Hown |- * by done. apply Hnot with f; [lia|done].
Qed.

(** ** Allocation, mapping and release *)

Lemma entry_set (s : st) i j e :
  length (table s) = Z.to_nat NFRAMES -> 0 <= i < NFRAMES -> 0 <= j ->
  entry (set_entry i e s) j = if j =? i then e else entry s j.
Proof.
  intros Hlen Hi Hj. unfold entry, set_entry. simpl. destruct (Z.eqb_spec j i) as [->|Hne].
  - rewrite list_lookup_insert_eq; [done|]. rewrite Hlen. unfold NFRAMES in *. lia.
  - rewrite list_lookup_insert_ne by lia. done.
Qed.

Lemma frame_of_ext s s' q p :
  mmu_ok s -> mmu_ok s' -> q <> 0 ->
  (forall i, 0 <= i -> maps (entry s' i) q p <-> maps (entry s i) q p) ->
  frame_of (table s') q p = frame_of (table s) q p.
Proof.
  intros Hok Hok' Hq Hm. apply option_eq. intros i. destruct (decide (0 <= i)) as [Hi|Hi].
  - by rewrite !frame_of_iff, Hm by done.
  - split; intros [? _]%frame_of_some; lia.
Qed.

Lemma entry_neg (s : st) i : i < 0 -> entry s i = entry s 0.
Proof. intros. unfold entry. by replace (Z.to_nat i) with (Z.to_nat 0) by lia. Qed.

(** The table with entry [f] replaced: what [mmu_ok] still needs. *)
Lemma mmu_ok_set s s' f e :
  mmu_ok s -> 0 <= f < NFRAMES -> table s' = <[Z.to_nat f := e]> (table s) ->
  pg_ok (dev s') -> curr_vm_pid s' <> 0 ->
  (use e = 0 -> e = unused_frame) ->
  (forall q p, q <> 0 -> maps e q p -> user_page p /\ frame_of (table s) q p = None) ->
  mmu_ok s'.
Proof.
  intros Hok Hf Et Hpg Hc Hu He.
  assert (forall i, 0 <= i -> entry s' i = if i =? f then e else entry s i) as HE.
  { intros i Hi. rewrite <- (entry_set s) by (done || apply Hok). unfold entry. by rewrite Et. }
  assert (forall i, exists j, 0 <= j /\ entry s' i = entry s' j) as Hpos.
  { intros i. destruct (decide (0 <= i)); [by exists i|]. exists 0. split; [lia|]. apply entry_neg. lia. }
  split; [|done|done| | |].
  - rewrite Et, length_insert. apply Hok.
  - intros i. destruct (Hpos i) as (j & Hj & ->). rewrite HE by done. case_goal; [done|]. apply Hok.
  - intros i q p Hq. destruct (Hpos i) as (j & Hj & ->). rewrite HE by done. case_goal.
    + intros Hm. by apply He in Hm as [? _].
    + by apply (mo_page _ Hok).
  - intros i j q p Hi Hj Hq. rewrite !HE by done.
    destruct (Z.eqb_spec i f) as [->|Hif], (Z.eqb_spec j f) as [->|Hjf]; [done| | |].
    + intros Hm Hj'. apply He in Hm as [_ Hn]; [|done]. by rewrite (proj2 (frame_of_iff s q p j Hok Hq Hj)) in Hn.
    + intros Hi' Hm. apply He in Hm as [_ Hn]; [|done]. by rewrite (proj2 (frame_of_iff s q p i Hok Hq Hi)) in Hn.
    + by apply (mo_uniq _ Hok).
Qed.

Lemma find_frame_some l i k :
  find_frame i l = Some k -> i <= k /\ exists e, l !! Z.to_nat (k - i) = Some e /\ use e = 0.
Proof.
  revert i. induction l as [|e l IH]; intros i; simpl; [done|].
  destruct (Z.eqb_spec (use e) 0) as [E|E].
  - intros [= ->]. split; [lia|]. exists e. by rewrite Z.sub_diag.
  - intros (Hle & x & Hl & Hx)%IH. split; [lia|]. exists x. split; [|done].
    by replace (Z.to_nat (k - i)) with (S (Z.to_nat (k - (i + 1)))) by lia.
Qed.

Lemma find_frame_none l i : find_frame i l = None <-> Forall (fun e => use e <> 0) l.
Proof.
  revert i. induction l as [|e l IH]; intros i; simpl; [by split|].
  rewrite Forall_cons, <- (IH (i + 1)). destruct (Z.eqb_spec (use e) 0); split; tauto || done.
Qed.

Lemma alloc_frame_ok s :
  mmu_ok s -> Exists (fun e => use e = 0) (table s) ->
  exists f a s', mmu_alloc s = Ok ((f, a), s') /\ 0 <= f < NFRAMES /\
    entry s f = unused_frame /\
    entry s' f = {| use := 1; fm_pid := 0; page_no := 0 |} /\
    (forall i, 0 <= i -> i <> f -> entry s' i = entry s i) /\
    mmu_ok s' /\ (pg_full (dev s) -> pg_full (dev s')) /\ curr_vm_pid s' = curr_vm_pid s /\
    low_eq (mmem s) (mmem s') /\ frame_at (dev s') f = Some a /\
    (forall q p, q <> 0 -> view s' q p = view s q p).
Proof.
  intros Hok Hex. unfold mmu_alloc. unfold bind at 1. simpl.
  destruct (find_frame 0 (table s)) as [f|] eqn:Ef.
  2:{ apply find_frame_none in Ef. apply Exists_exists in Hex as (e & He & Hu).
      rewrite Forall_forall in Ef. by destruct (Ef e). }
  apply find_frame_some in Ef as (Hf0 & e & He & Hu). rewrite Z.sub_0_r in He.
  assert (f < NFRAMES) as Hf1.
  { apply lookup_lt_Some in He. rewrite (mo_len _ Hok) in He. unfold NFRAMES in *. lia. }
  pose proof (entry_in _ _ _ He) as Ee.
  assert (entry s f = unused_frame) as Eu by (apply (mo_unused _ Hok); congruence).
  destruct (paging_read_spec (dev s) f true (mo_dev _ Hok)) as (a & d & E & Hpg & Hfl & Hlow & Hat & _ & Hg); [lia|].
  unfold on_dev, bind. rewrite E. simpl. change (entry (set_dev d s) f) with (entry s f).
  rewrite Eu. simpl. eexists f, a, _. split; [reflexivity|].
  assert (mmu_ok (set_entry f {| use := 1; fm_pid := 0; page_no := 0 |} (set_dev d s))) as Hok'.
  { eapply (mmu_ok_set s _ f); [done|lia|reflexivity|done|apply Hok|done|].
    intros q p Hq (_ & E' & _). simpl in E'. congruence. }
  assert (forall i, 0 <= i -> entry (set_entry f {| use := 1; fm_pid := 0; page_no := 0 |} (set_dev d s)) i
    = if i =? f then {| use := 1; fm_pid := 0; page_no := 0 |} else entry s i) as HE.
  { intros i Hi. by rewrite entry_set by (apply Hok || lia). }
  split_and!; try done.
  - rewrite HE by lia. by rewrite Z.eqb_refl.
  - intros i Hi Hne. rewrite HE by lia. by rewrite (proj2 (Z.eqb_neq i f)).
  - intros q p Hq. unfold view. rewrite (frame_of_ext s _ q p Hok Hok' Hq).
    + destruct (frame_of (table s) q p) as [i|] eqn:Ei; [|done]. simpl.
      apply frame_of_some in Ei as [Hi Hm]. pose proof (maps_range _ _ _ _ (mo_len _ Hok) Hm).
      f_equal. case_goal.
      * apply low_eq_page; [done|]. by apply (mo_page _ Hok i q).
      * apply Hg; [lia|]. intros ->. rewrite Eu in Hm. by destruct Hm.
    + intros i Hi. rewrite HE by done. destruct (Z.eqb_spec i f) as [->|]; [|done].
      rewrite Eu. unfold maps. simpl. split; intros (? & ? & ?); congruence.
Qed.

Lemma alloc_frame_full s :
  Forall (fun e => use e <> 0) (table s) ->
  mmu_alloc s = Fatal "mmu_alloc: no more available frames".
Proof. intros Hf. unfold mmu_alloc, bind. simpl. by rewrite (proj2 (find_frame_none _ 0) Hf). Qed.

Lemma map_frame_ok s f q p :
  mmu_ok s -> 0 <= f < NFRAMES -> use (entry s f) <> 0 -> fm_pid (entry s f) = 0 ->
  q <> 0 -> user_page p -> frame_of (table s) q p = None ->
  exists s', soft_tlb_map q p f s = Ok (tt, s') /\ mmu_ok s' /\ dev s' = dev s /\
    curr_vm_pid s' = curr_vm_pid s /\ maps (entry s' f) q p /\
    (forall i, 0 <= i -> i <> f -> entry s' i = entry s i) /\
    view s' q p = Some (if q =? curr_vm_pid s then load (mmem s) (p * PAGE_SIZE) PAGE_SIZE
                        else frame (dev s) f) /\
    (forall q' p', q' <> 0 -> (q', p') <> (q, p) -> view s' q' p' = view s q' p').
Proof.
  intros Hok Hf Hu Hpid Hq Hp Hn. unfold soft_tlb_map. rewrite (proj2 (Z.ltb_lt f _)) by lia.
  set (e := {| use := use (entry s f); fm_pid := q; page_no := p |}).
  eexists. split; [reflexivity|]. fold e.
  assert (mmu_ok (set_entry f e s)) as Hok'.
  { eapply (mmu_ok_set s _ f); [done|lia|reflexivity|apply Hok|apply Hok|done|].
    intros q' p' Hq' (_ & <- & <-). done. }
  assert (forall i, 0 <= i -> entry (set_entry f e s) i = if i =? f then e else entry s i) as HE.
  { intros i Hi. by rewrite entry_set by (apply Hok || lia). }
  assert (maps (entry (set_entry f e s) f) q p) as Hm.
  { rewrite HE, Z.eqb_refl by lia. done. }
  split_and!; try done.
  - intros i Hi Hne. rewrite HE by lia. by rewrite (proj2 (Z.eqb_neq i f)).
  - by rewrite (view_some _ q p f Hok' Hq) by (done || lia).
  - intros q' p' Hq' Hne. unfold view. rewrite (frame_of_ext s _ q' p' Hok Hok' Hq'); [done|].
    intros i Hi. rewrite HE by done. destruct (Z.eqb_spec i f) as [->|]; [|done].
    unfold maps. simpl. split; intros (? & ? & ?); congruence.
Qed.

(** The loop of [mmu_free]: the entries of [q] below [k] are cleared. *)
Definition freed (q : Z) (s s' : st) (k : Z) : Prop :=
  mmu_ok s' /\ (pg_evicts = false -> pg_full (dev s) -> pg_full (dev s')) /\
  curr_vm_pid s' = curr_vm_pid s /\ mmem s' = mmem s /\
  (forall i, 0 <= i -> entry s' i =
     if bool_decide (i < k /\ frame_owner s i q) then unused_frame else entry s i) /\
  (forall f, 0 <= f < NFRAMES -> ~ (f < k /\ frame_owner s f q) ->
     frame (dev s') f = frame (dev s) f /\ frame_at (dev s') f = frame_at (dev s) f).

Lemma free_step s s1 q k :
  mmu_ok s -> q <> 0 -> 0 <= k < NFRAMES -> freed q s s1 k ->
  exists s2, (s <- get ;;
      if negb (use (entry s k) =? 0) && (fm_pid (entry s k) =? q) then
        on_dev (paging_invalidate_cache k) ;;;
        modify (set_entry k unused_frame)
      else ret tt)%egos s1 = Ok (tt, s2) /\ freed q s s2 (k + 1).
Proof.
  intros Hok Hq Hk (Hok1 & Hfl & Hc & Hm1 & HE & HF). unfold bind. simpl.
  assert (entry s1 k = entry s k) as Ek by (rewrite HE, bool_decide_eq_false_2; done || lia).
  rewrite Ek, owner_maps.
  assert (forall f, f <> k -> (f < k + 1 /\ frame_owner s f q) <-> (f < k /\ frame_owner s f q)) as Hne
    by (intros; split; intros []; split; (done || lia)).
  case_bool_decide as Hm.
  - unfold on_dev. destruct (paging_invalidate_spec (dev s1) k (mo_dev _ Hok1) Hk) as (d & -> & Hpg & Hmem & Hev & Hg).
    simpl. eexists. split; [reflexivity|]. split_and!.
    + eapply (mmu_ok_set s1 _ k); [done|done|reflexivity|done|apply Hok1|done|].
      intros q' p' Hq' [Hu _]. by simpl in Hu.
    + intros Hno _. by apply Hev.
    + done.
    + unfold mmem in *. simpl. by rewrite Hmem.
    + intros i Hi. rewrite entry_set by (apply Hok1 || done). change (entry (set_dev d s1) i) with (entry s1 i).
      destruct (Z.eqb_spec i k) as [->|Hik].
      * by rewrite bool_decide_eq_true_2 by (split; [lia|done]).
      * rewrite HE by done. by rewrite (bool_decide_ext _ _ (Hne i Hik)).
    + intros f Hf Hnot. destruct (decide (f = k)) as [->|Hfk]; [exfalso; apply Hnot; split; [lia|done]|].
      simpl. destruct (Hg f Hf Hfk) as [-> ->]. apply HF; [done|]. by rewrite <- Hne.
  - exists s1. split; [done|]. split_and!; try done.
    + intros i Hi. rewrite HE by done. destruct (decide (i = k)) as [->|Hik].
      * rewrite !bool_decide_eq_false_2; [done|tauto|lia].
      * by rewrite (bool_decide_ext _ _ (Hne i Hik)).
    + intros f Hf Hnot. apply HF; [done|]. intros [? ?]. apply Hnot. split; [lia|done].
Qed.

Lemma free_ok s q :
  mmu_ok s -> q <> 0 ->
  exists s', mmu_free q s = Ok (tt, s') /\ mmu_ok s' /\
    (pg_evicts = false -> pg_full (dev s) -> pg_full (dev s')) /\ curr_vm_pid s' = curr_vm_pid s /\
    mmem s' = mmem s /\
    (forall i, 0 <= i -> entry s' i = if bool_decide (frame_owner s i q) then unused_frame else entry s i) /\
    (forall p, view s' q p = None) /\
    (forall q' p, q' <> 0 -> q' <> q -> view s' q' p = view s q' p).
Proof.
  intros Hok Hq. unfold mmu_free.
  destruct (for_n_inv (fun k s1 => freed q s s1 k) (Z.to_nat NFRAMES) 0 (fun i =>
      s <- get ;;
      if negb (use (entry s i) =? 0) && (fm_pid (entry s i) =? q) then
        on_dev (paging_invalidate_cache i) ;;;
        modify (set_entry i unused_frame)
      else ret tt)%egos s) as (s' & E & Hok' & Hfl & Hc & Hm & HE & HF).
  { intros i s1 Hi HI. by apply free_step. }
  { split_and!; try done. intros i Hi. rewrite bool_decide_eq_false_2; [done|lia]. }
  change (0 + Z.of_nat (Z.to_nat NFRAMES)) with NFRAMES in *.
  assert (forall i, 0 <= i ->
    entry s' i = if bool_decide (frame_owner s i q) then unused_frame else entry s i) as HE'.
  { intros i Hi. rewrite HE by done. rewrite (bool_decide_ext _ (frame_owner s i q)); [done|].
    split; [by intros [_ ?]|]. intros Ho. split; [|done]. by eapply maps_range; [apply Hok|]. }
  exists s'. split; [done|]. split_and!; try done.
  - intros p. unfold view. destruct (frame_of (table s') q p) as [i|] eqn:Ei; [|done].
    apply frame_of_some in Ei as [Hi Hmi]. rewrite HE' in Hmi by done.
    case_bool_decide as Ho; [by destruct Hmi|]. exfalso. apply Ho.
    destruct Hmi as (? & ? & ?). by split.
  - intros q' p Hq' Hne. unfold view. rewrite (frame_of_ext s s' q' p Hok Hok' Hq').
    + destruct (frame_of (table s) q' p) as [i|] eqn:Ei; [|done]. simpl. f_equal.
      apply frame_of_some in Ei as [Hi Hmi]. pose proof (maps_range _ _ _ _ (mo_len _ Hok) Hmi).
      rewrite Hc, Hm. case_goal; [done|]. apply HF; [lia|]. intros [_ (_ & E' & _)].
      destruct Hmi as (_ & E'' & _). congruence.
    + intros i Hi. rewrite HE' by done. case_bool_decide as Ho; [|done].
      destruct Ho as (_ & E' & _). unfold maps. simpl. split; intros (? & ? & ?); congruence.
Qed.
End spec.
