(* ===== verification/PageTable.v ===== *)
(** The Sv32 page tables that earth/cpu_mmu.c builds: the address translation
    of the RISC-V privileged specification (section 4.3.2), and that the tables
    translate every address of the mapped regions to itself. *)

From Stdlib Require Import ZArith Lia Strings.Byte.
From stdpp Require Import base numbers list strings gmap.
From S2P Require Import Prelude Bytes Memory Earth Paging Mmu MmuProof.

(** ** Sv32 translation *)

(** The flags of a page table entry. *)
Definition pte_v (pte : Z) : bool := Z.testbit pte 0.
Definition pte_r (pte : Z) : bool := Z.testbit pte 1.
Definition pte_w (pte : Z) : bool := Z.testbit pte 2.
Definition pte_x (pte : Z) : bool := Z.testbit pte 3.

(** The walk from the root table at [r]: the physical address and the flags of
    the leaf entry, or [None] for a page fault.  Permissions and the accessed
    and dirty bits are left to the caller. *)
Definition sv32_walk (m : mem) (r va : Z) : option (Z * Z) :=
  let pte1 := load_u32 m (r + 4 * Z.shiftr va 22) in
  if negb (pte_v pte1) || (negb (pte_r pte1) && pte_w pte1) then None
  else if pte_r pte1 || pte_x pte1 then
    (* a 4MB superpage, which has to be aligned *)
    if Z.shiftr pte1 10 mod 1024 =? 0
    then Some (Z.shiftr pte1 20 * 2 ^ 22 + va mod 2 ^ 22, pte1 mod 1024) else None
  else
    let pte0 := load_u32 m (Z.shiftr pte1 10 * PAGE_SIZE + 4 * (Z.shiftr va 12 mod 1024)) in
    if negb (pte_v pte0) || (negb (pte_r pte0) && pte_w pte0) then None
    else if pte_r pte0 || pte_x pte0
    then Some (Z.shiftr pte0 10 * PAGE_SIZE + va mod PAGE_SIZE, pte0 mod 1024)
    else None.

(** ** Bit lemmas *)

(** The entry for the page [k] with the flags [fl]. *)
Lemma pte_make k fl :
  0 <= k -> 0 <= fl < 1024 -> Z.lor (Z.shiftr (k * PAGE_SIZE) 2) fl = k * 1024 + fl.
Proof.
  intros Hk Hfl. rewrite Z.shiftr_div_pow2 by lia. unfold PAGE_SIZE.
  replace (k * 4096) with (k * 1024 * 2 ^ 2) by lia. rewrite Z.div_mul by lia.
  by apply (lor_shifted k 10).
Qed.

Lemma pte_page k fl : 0 <= fl < 1024 -> Z.shiftr (k * 1024 + fl) 10 = k.
Proof.
  intros Hfl. rewrite Z.shiftr_div_pow2 by lia. change (2 ^ 10) with 1024.
  rewrite Z.div_add_l by lia. rewrite Z.div_small; lia.
Qed.

Lemma pte_bit k fl i : 0 <= fl < 1024 -> 0 <= i < 10 -> Z.testbit (k * 1024 + fl) i = Z.testbit fl i.
Proof.
  intros Hfl Hi. rewrite <- (Z.mod_pow2_bits_low _ 10), <- (Z.mod_pow2_bits_low fl 10) by lia.
  f_equal. change (2 ^ 10) with 1024. by rewrite Z.add_comm, Z_mod_plus_full.
Qed.

(** [(pte << 2) & 0xFFFFF000], the address of the table an entry points to. *)
Lemma leaf_addr k : 0 <= k < 2 ^ 20 ->
  Z.land (u32 (Z.shiftl (k * 1024 + 1) 2)) 0xFFFFF000 = k * PAGE_SIZE.
Proof.
  intros Hk. rewrite Z.shiftl_mul_pow2, u32_small by (unfold is_u32; lia).
  replace ((k * 1024 + 1) * 2 ^ 2) with (k * 2 ^ 12 + 4) by lia.
  rewrite <- (lor_shifted k 12 4) by lia. rewrite Z.land_lor_distr_l.
  change (Z.land 4 0xFFFFF000) with 0. rewrite Z.lor_0_r.
  change 0xFFFFF000 with (Z.shiftl (Z.ones 20) 12). rewrite <- Z.shiftl_mul_pow2 by lia.
  rewrite <- Z.shiftl_land, Z.land_ones, Z.mod_small by lia. by rewrite Z.shiftl_mul_pow2.
Qed.

(** ** The tables that [setup_identity_region] builds *)

(** What a leaf entry translates [va] to. *)
Definition leaf_decode (pte va : Z) : option (Z * Z) :=
  if negb (pte_v pte) || (negb (pte_r pte) && pte_w pte) then None
  else if pte_r pte || pte_x pte
  then Some (Z.shiftr pte 10 * PAGE_SIZE + va mod PAGE_SIZE, pte mod 1024)
  else None.

(** The regions that [pagetable_identity_mapping] maps: address and pages. *)
Definition identity_regions (p : platform_t) : list (Z * Z) :=
  [(0x02000000, 16); (UART0_BASE p, 1); (SPI_BASE p, 1); (0x20400000, 1024);
   (0x20800000, 1024); (0x80000000, 1024)] ++
  ((fun i => (0x08000000 + Z.of_nat i * 0x400000, 1024)) <$> seq 0 8).
Definition in_region (va : Z) (r : Z * Z) : bool :=
  (fst r / PAGE_SIZE <=? va / PAGE_SIZE) && (va / PAGE_SIZE <? fst r / PAGE_SIZE + snd r).

(** The physical page of frame [f]. *)
Definition frame_page (f : Z) : Z := FRAME_CACHE_START / PAGE_SIZE + f.

Lemma length_zero_page : Z.of_nat (length zero_page) = PAGE_SIZE.
Proof. unfold zero_page. by rewrite length_replicate. Qed.

Lemma load_zero_page m a i :
  0 <= i < 1024 -> load_u32 (store m a zero_page) (a + 4 * i) = 0.
Proof. intros Hi. unfold zero_page. rewrite load_u32_zeros; [done|lia|]. unfold PAGE_SIZE. lia. Qed.

Section tables.
Context {D R : Type} `{Disk D}.
Variable rand : R -> Z * R.
Abbreviation st := (mmu_state (paging_state D R)).
#[local] Opaque zero_page.
#[local] Instance pg : Paging (paging_state D R) := dev_paging rand.

(** The root table is frame [fr]; [L] gives the frame of the leaf table of each
    4MB region that has one. *)
Record pt_ok (s : st) (fr : Z) (L : gmap Z Z) : Prop := {
  pt_len : length (table s) = Z.to_nat NFRAMES;
  pt_plat : platform (dev s) <> ARTY;
  pt_root : root s = page_addr fr /\ 0 <= fr < NFRAMES /\ use (entry s fr) <> 0;
  pt_leaf v f : L !! v = Some f ->
    0 <= v < 1024 /\ 0 <= f < NFRAMES /\ use (entry s f) <> 0 /\ f <> fr;
  pt_inj v w f : L !! v = Some f -> L !! w = Some f -> v = w;
  pt_entry v : 0 <= v < 1024 ->
    word s (root s) v = match L !! v with Some f => frame_page f * 1024 + 1 | None => 0 end
}.

Lemma page_addr_page f : page_addr f = frame_page f * PAGE_SIZE.
Proof. unfold page_addr, frame_page, FRAME_CACHE_START, PAGE_SIZE. change (0x80004000 / 4096) with 0x80004. lia. Qed.

(** The translation through tables in this form. *)
Lemma walk_pt s fr L va :
  pt_ok s fr L -> 0 <= va < 2 ^ 32 ->
  sv32_walk (mmem s) (root s) va =
  match L !! Z.shiftr va 22 with
  | Some f => leaf_decode (word s (page_addr f) (Z.shiftr va 12 mod 1024)) va
  | None => None
  end.
Proof.
  intros Hpt Hva. unfold sv32_walk. assert (0 <= Z.shiftr va 22 < 1024) as Hv.
  { rewrite Z.shiftr_div_pow2 by lia. split; [apply Z.div_pos; lia|apply Z.div_lt_upper_bound; lia]. }
  pose proof (pt_entry _ _ _ Hpt _ Hv) as He. unfold word in He. rewrite He.
  destruct (L !! Z.shiftr va 22) as [f|] eqn:Ef; [|done].
  unfold pte_v at 1, pte_r at 1 2, pte_w at 1, pte_x at 1. rewrite !pte_bit by lia. simpl.
  rewrite pte_page by lia. unfold leaf_decode, word. by rewrite <- page_addr_page.
Qed.

(** An allocation on a platform that keeps all the frames in memory. *)
Lemma alloc_pinned (s : st) f :
  platform (dev s) <> ARTY -> find_frame 0 (table s) = Some f ->
  mmu_alloc s = Ok ((f, page_addr f),
    set_entry f {| use := 1; fm_pid := fm_pid (entry s f); page_no := page_no (entry s f) |} s).
Proof.
  intros Hp Hf. unfold mmu_alloc, bind. simpl. rewrite Hf. unfold on_dev. simpl.
  unfold dev_paging_read, bind. simpl. by destruct s as [t c fi rt lf b d], d as [? ? []].
Qed.

(** Frames from [n] on are free. *)
Definition free_from (s : st) (n : Z) : Prop :=
  forall i, n <= i < NFRAMES -> use (entry s i) = 0.

Lemma find_frame_min l i k e :
  l !! k = Some e -> use e = 0 -> exists f, find_frame i l = Some f /\ f <= i + Z.of_nat k.
Proof.
  revert i k. induction l as [|x l IH]; intros i k Hk He; [done|]. simpl.
  destruct (Z.eqb_spec (use x) 0); [exists i; split; [done|lia]|].
  destruct k as [|k]; simpl in Hk; [congruence|].
  destruct (IH (i + 1) k Hk He) as (f & ? & ?). exists f. split; [done|lia].
Qed.

Lemma find_frame_first (s : st) n :
  length (table s) = Z.to_nat NFRAMES -> 0 <= n < NFRAMES -> free_from s n ->
  exists f, find_frame 0 (table s) = Some f /\ 0 <= f <= n /\ use (entry s f) = 0.
Proof.
  intros Hlen Hn Hfree. destruct (lookup_lt_is_Some_2 (table s) (Z.to_nat n)) as [e He].
  { rewrite Hlen. unfold NFRAMES in *. lia. }
  destruct (find_frame_min (table s) 0 (Z.to_nat n) e He) as (f & E & Hf).
  { rewrite <- (entry_in s n e He). apply Hfree. lia. }
  exists f. split; [done|]. apply find_frame_some in E as (Hf0 & x & Hx & Hu).
  rewrite Z.sub_0_r in Hx. rewrite (entry_in _ _ _ Hx). split; [lia|done].
Qed.

(** ** Filling a leaf table *)

(** [s'] differs from [s] only in memory, within [lo, hi). *)
Definition mem_only (s s' : st) (lo hi : Z) : Prop :=
  table s' = table s /\ root s' = root s /\ leaf s' = leaf s /\
  platform (dev s') = platform (dev s) /\
  forall a, a < lo \/ hi <= a -> load_byte (mmem s') a = load_byte (mmem s) a.

Lemma put_mem_spec (s : st) a l :
  exists s', put_mem a l s = Ok (tt, s') /\ mmem s' = store (mmem s) a l /\
    mem_only s s' a (a + Z.of_nat (length l)).
Proof.
  eexists. split; [reflexivity|]. split; [done|]. split_and!; try done.
  intros x Hx. change (mmem _) with (store (mmem s) a l) at 1. rewrite store_lookup.
  destruct (Z.leb_spec a x), (Z.ltb_spec x (a + Z.of_nat (length l))); simpl; (done || lia).
Qed.

Lemma word_ext (s s' : st) lo hi p i :
  mem_only s s' lo hi -> p + 4 * i + 4 <= lo \/ hi <= p + 4 * i -> word s' p i = word s p i.
Proof.
  intros (_ & _ & _ & _ & Hm) Hd. unfold word, load_u32. f_equal. apply load_ext.
  intros x Hx. apply Hm. lia.
Qed.

Definition region_pte (addr flag i : Z) : Z := (addr / PAGE_SIZE + i) * 1024 + flag.

Lemma fill_leaf (s : st) lf vpn0 addr npages flag :
  0 <= vpn0 -> vpn0 + Z.of_nat npages <= 1024 -> addr mod PAGE_SIZE = 0 -> 0 <= addr ->
  addr + Z.of_nat npages * PAGE_SIZE <= 2 ^ 32 -> 0 <= flag < 1024 ->
  exists s', for_n npages 0 (fun i =>
      set_word lf (u32 (vpn0 + i)) (Z.lor (Z.shiftr (u32 (addr + i * PAGE_SIZE)) 2) flag)) s
      = Ok (tt, s') /\
    mem_only s s' (lf + 4 * vpn0) (lf + 4 * (vpn0 + Z.of_nat npages)) /\
    forall i, 0 <= i < Z.of_nat npages -> word s' lf (vpn0 + i) = region_pte addr flag i.
Proof.
  intros Hv0 Hv1 Ha0 Ha1 Ha2 Hfl.
  assert (0 <= addr / PAGE_SIZE) as Hdiv by by apply Z.div_pos.
  destruct (for_n_inv (fun k s' =>
      mem_only s s' (lf + 4 * vpn0) (lf + 4 * (vpn0 + k)) /\
      forall i, 0 <= i < k -> word s' lf (vpn0 + i) = region_pte addr flag i) npages 0
    (fun i => set_word lf (u32 (vpn0 + i)) (Z.lor (Z.shiftr (u32 (addr + i * PAGE_SIZE)) 2) flag)) s)
    as (s' & E & HM & HW).
  - intros i s1 Hi [HM HW]. rewrite (u32_small (vpn0 + i)) by (unfold is_u32; lia).
    rewrite (u32_small (addr + _)) by (unfold is_u32, PAGE_SIZE in *; lia).
    assert (addr + i * PAGE_SIZE = (addr / PAGE_SIZE + i) * PAGE_SIZE) as ->.
    { rewrite (Z.div_mod addr PAGE_SIZE) at 1 by done. rewrite Ha0. lia. }
    rewrite pte_make by (done || lia).
    unfold set_word. destruct (put_mem_spec s1 (lf + 4 * (vpn0 + i)) (le_put 4 (region_pte addr flag i)))
      as (s2 & E2 & Em & HM2). rewrite length_le_put in HM2. exists s2. split; [exact E2|]. split.
    + destruct HM as (A1 & A2 & A3 & A4 & A5), HM2 as (B1 & B2 & B3 & B4 & B5).
      split_and!; try congruence. intros a Ha. rewrite B5, A5 by lia. done.
    + intros j Hj. destruct (decide (j = i)) as [->|Hne].
      * unfold word. rewrite Em. fold (store_u32 (mmem s1) (lf + 4 * (vpn0 + i)) (region_pte addr flag i)).
        rewrite load_store_u32. apply u32_small. unfold is_u32, region_pte, PAGE_SIZE in *.
        assert (addr / 4096 + i < 2 ^ 20); [|lia].
        assert (addr / 4096 < 2 ^ 20 - i); [|lia]. apply Z.div_lt_upper_bound; lia.
      * rewrite (word_ext _ _ _ _ _ _ HM2) by lia. apply HW. lia.
  - split; [|lia]. split_and!; try done.
  - exists s'. split; [done|]. split; [done|]. intros i Hi. apply HW. lia.
Qed.

(** Frames in use stay in use; [f] becomes one of them. *)
Lemma own_alloc (s s1 : st) f e :
  length (table s) = Z.to_nat NFRAMES -> 0 <= f < NFRAMES -> use e <> 0 ->
  table s1 = <[Z.to_nat f := e]> (table s) ->
  length (table s1) = Z.to_nat NFRAMES /\ use (entry s1 f) <> 0 /\
  (forall g, 0 <= g -> use (entry s g) <> 0 -> use (entry s1 g) <> 0) /\
  (forall n, f <= n -> free_from s n -> free_from s1 (n + 1)).
Proof.
  intros Hlen Hf He Et.
  assert (forall i, 0 <= i -> entry s1 i = if i =? f then e else entry s i) as HE.
  { intros i Hi. rewrite <- (entry_set s) by done. unfold entry. by rewrite Et. }
  split_and!.
  - by rewrite Et, length_insert.
  - by rewrite HE, Z.eqb_refl by lia.
  - intros g Hg Hu. rewrite HE by done. by case_goal.
  - intros n Hn Hfree i Hi. rewrite HE, (proj2 (Z.eqb_neq i f)) by lia. apply Hfree. lia.
Qed.

(** The states of [leaf_table] and [pagetable_identity_mapping] after an
    allocation: frame [f] is in use and owned by [pid]. *)
Lemma alloc_own (s : st) pid n (k : Z -> st -> st) :
  (forall f s, table (k f s) = table s /\ frame_id (k f s) = f) ->
  length (table s) = Z.to_nat NFRAMES -> platform (dev s) <> ARTY -> 0 <= n < NFRAMES -> free_from s n ->
  exists f e, 0 <= f <= n /\ use (entry s f) = 0 /\ use e <> 0 /\
    mmu_alloc s = Ok ((f, page_addr f), set_entry f e s) /\
    exists e', use e' <> 0 /\
    own_frame pid (k f (set_entry f e s)) = Ok (tt, set_entry f e' (k f (set_entry f e s))).
Proof.
  intros Hk Hlen Hp Hn Hfree. destruct (find_frame_first s n Hlen Hn Hfree) as (f & Ef & Hf & Hu).
  eexists f, _. split; [done|]. split; [done|]. split; [|split; [by apply alloc_pinned|]]; [done|].
  destruct (Hk f (set_entry f {| use := 1; fm_pid := fm_pid (entry s f); page_no := page_no (entry s f) |} s))
    as [Ht Hid].
  eexists. split; [|unfold own_frame, modify; rewrite Hid; reflexivity]. simpl.
  unfold entry at 1. rewrite Ht. change (table (set_entry f ?e s)) with (<[Z.to_nat f := e]> (table s)).
  simpl. rewrite list_lookup_insert_eq; [done|]. rewrite Hlen. unfold NFRAMES in *. lia.
Qed.

(** Words of different frames do not overlap. *)
Lemma frame_words f g i j :
  f <> g -> 0 <= i < 1024 -> 0 <= j < 1024 ->
  page_addr f + 4 * i + 4 <= page_addr g + 4 * j \/ page_addr g + 4 * j + 4 <= page_addr f + 4 * i.
Proof. unfold page_addr, PAGE_SIZE. lia. Qed.

Lemma frame_word_page f g i :
  f <> g -> 0 <= i < 1024 ->
  page_addr f + 4 * i + 4 <= page_addr g \/ page_addr g + PAGE_SIZE <= page_addr f + 4 * i.
Proof. unfold page_addr, PAGE_SIZE. lia. Qed.

Lemma root_pte f : 0 <= f < NFRAMES ->
  u32 (Z.lor (Z.shiftr (page_addr f) 2) 1) = frame_page f * 1024 + 1.
Proof.
  intros Hf. assert (0 <= frame_page f < 2 ^ 20) as Hp.
  { unfold frame_page, FRAME_CACHE_START, PAGE_SIZE, NFRAMES in *. change (0x80004000 / 4096) with 0x80004. lia. }
  rewrite page_addr_page, pte_make by lia. apply u32_small. unfold is_u32. lia.
Qed.

(** A new, empty leaf table changes no translation. *)
Lemma new_leaf (s s5 : st) fr L v f :
  pt_ok s fr L -> L !! v = None -> 0 <= v < 1024 -> 0 <= f < NFRAMES ->
  use (entry s f) = 0 -> use (entry s5 f) <> 0 ->
  length (table s5) = Z.to_nat NFRAMES -> platform (dev s5) <> ARTY -> root s5 = root s ->
  (forall g, 0 <= g -> use (entry s g) <> 0 -> use (entry s5 g) <> 0) ->
  mmem s5 = store_u32 (store (mmem s) (page_addr f) zero_page)
              (page_addr fr + 4 * v) (Z.lor (Z.shiftr (page_addr f) 2) 1) ->
  pt_ok s5 fr (<[v := f]> L) /\
  forall va, 0 <= va < 2 ^ 32 -> sv32_walk (mmem s5) (root s5) va = sv32_walk (mmem s) (root s) va.
Proof.
  intros Hpt Hv Hv1 Hf Hu Hu5 Hlen Hplat Hroot Huse Hm.
  destruct (pt_root _ _ _ Hpt) as (Er & Hfr & Hufr).
  assert (f <> fr) as Hne by congruence.
  assert (forall g i, g <> f -> 0 <= i < 1024 -> (g = fr -> i <> v) ->
            word s5 (page_addr g) i = word s (page_addr g) i) as Hw.
  { intros g i Hg Hi Hgv. unfold word. rewrite Hm, load_store_u32_ne.
    - apply load_u32_store_ne. rewrite length_zero_page. by apply frame_word_page.
    - destruct (decide (g = fr)) as [->|]; [specialize (Hgv eq_refl); lia|by apply frame_words]. }
  assert (pt_ok s5 fr (<[v := f]> L)) as Hpt5.
  { split; [exact Hlen|exact Hplat| | | |].
    - rewrite Hroot. split_and!; [done|lia..|]. apply Huse; [lia|done].
    - clear Hm Hw. intros w g [[<- <-]|[Hwv Hg]]%lookup_insert_Some; [by split_and!; try lia|].
      apply (pt_leaf _ _ _ Hpt) in Hg as (? & ? & ? & ?). split_and!; try (done || lia).
      apply Huse; [lia|done].
    - clear Hm Hw. intros w1 w2 g [[<- <-]|[Hwv Hg]]%lookup_insert_Some [[<- E]|[Hwv' Hg']]%lookup_insert_Some; try done.
      + apply (pt_leaf _ _ _ Hpt) in Hg' as (_ & _ & ? & _). congruence.
      + subst g. apply (pt_leaf _ _ _ Hpt) in Hg as (_ & _ & ? & _). congruence.
      + by apply (pt_inj _ _ _ Hpt w1 w2 g).
    - intros w Hw1. rewrite Hroot, Er. destruct (decide (w = v)) as [->|Hwv].
      + rewrite lookup_insert_eq. unfold word. rewrite Hm, load_store_u32. by apply root_pte.
      + rewrite lookup_insert_ne by done. rewrite Hw by done. rewrite <- Er. by apply (pt_entry _ _ _ Hpt). }
  split; [done|]. intros va Hva. rewrite (walk_pt s5 fr (<[v := f]> L)), (walk_pt s fr L) by done.
  assert (0 <= Z.shiftr va 12 mod 1024 < 1024) as Hi by (apply Z.mod_pos_bound; lia).
  destruct (decide (Z.shiftr va 22 = v)) as [->|Hwv].
  - rewrite lookup_insert_eq, Hv. unfold word. rewrite Hm, load_store_u32_ne by by apply frame_words.
    by rewrite load_zero_page.
  - clear Hm. rewrite lookup_insert_ne by done. destruct (L !! Z.shiftr va 22) as [g|] eqn:Eg; [|done].
    apply (pt_leaf _ _ _ Hpt) in Eg as (_ & _ & ? & ?). rewrite Hw; [done|congruence|done|done].
Qed.

Lemma leaf_table_spec (s : st) fr L pid v n :
  pt_ok s fr L -> 0 <= v < 1024 -> 0 <= n < NFRAMES -> free_from s n ->
  exists s1 f, leaf_table pid v s = Ok (tt, s1) /\ leaf s1 = page_addr f /\ root s1 = root s /\
    pt_ok s1 fr (<[v := f]> L) /\ free_from s1 (n + 1) /\
    forall va, 0 <= va < 2 ^ 32 -> sv32_walk (mmem s1) (root s1) va = sv32_walk (mmem s) (root s) va.
Proof.
  intros Hpt Hv Hn Hfree. unfold leaf_table. unfold bind at 1. simpl.
  rewrite (pt_entry _ _ _ Hpt v Hv). destruct (L !! v) as [f|] eqn:Ev.
  - pose proof (pt_leaf _ _ _ Hpt _ _ Ev) as (_ & Hf & Hu & Hne).
    assert ((Z.land (frame_page f * 1024 + 1) 1 =? 0) = false) as ->.
    { change 1 with (Z.ones 1) at 2. rewrite Z.land_ones by lia. apply Z.eqb_neq.
      replace (frame_page f * 1024) with (frame_page f * 512 * 2 ^ 1) by lia.
      rewrite Z.add_comm, Z_mod_plus_full. done. }
    eexists _, f. split; [reflexivity|]. simpl. change (word _ _ _) with (word s (root s) v).
    rewrite (pt_entry _ _ _ Hpt v Hv), Ev, leaf_addr, <- page_addr_page.
    + split_and!; try done.
      * rewrite insert_id by done. destruct Hpt as [P1 P2 P3 P4 P5 P6]. by split.
      * intros i Hi. apply Hfree. lia.
    + unfold frame_page, FRAME_CACHE_START, PAGE_SIZE, NFRAMES in *. change (0x80004000 / 4096) with 0x80004. lia.
  - simpl. destruct (alloc_own s pid n (fun f s => set_pt f (root s) (page_addr f) s))
      as (f & e & Hf & Hu & He & Ea & e' & He' & Eo); [done|apply Hpt|apply Hpt|done|done|].
    rewrite (bind_ok _ _ _ _ _ Ea). cbn beta iota. unfold bind at 1. cbn [modify].
    rewrite (bind_ok _ _ _ _ _ Eo). destruct (pt_root _ _ _ Hpt) as (Er & Hfr & Hufr).
    eexists _, f. split; [reflexivity|]. split; [done|]. split; [done|].
    match goal with |- pt_ok ?s5 _ _ /\ _ => set (s5' := s5) end.
    destruct (own_alloc s s5' f e') as (O1 & O2 & O3 & O4); [apply Hpt|lia|done| |].
    { unfold s5'. simpl. by rewrite list_insert_insert_eq. }
    destruct (new_leaf s s5' fr L v f) as [N1 N2];
      [exact Hpt|exact Ev|exact Hv|lia|exact Hu|exact O2|exact O1|apply Hpt|reflexivity|exact O3| |].
    { unfold s5'. simpl. rewrite Er. reflexivity. }
    split; [exact N1|]. split; [|exact N2]. apply O4; [lia|exact Hfree].
Qed.

(** Memory written inside one leaf table keeps the form of the tables. *)
Lemma pt_ok_mem (s s' : st) fr L v f lo hi :
  pt_ok s fr L -> L !! v = Some f -> mem_only s s' lo hi ->
  page_addr f <= lo -> hi <= page_addr f + PAGE_SIZE -> pt_ok s' fr L.
Proof.
  intros Hpt Ef HM Hlo Hhi. pose proof HM as (Et & Er & _ & Ep & _).
  assert (forall i, entry s' i = entry s i) as HE by (intros i; unfold entry; by rewrite Et).
  split.
  - rewrite Et. apply Hpt.
  - rewrite Ep. apply Hpt.
  - rewrite Er, HE. apply Hpt.
  - intros w g. rewrite HE. apply Hpt.
  - apply Hpt.
  - intros w Hw. rewrite <- (pt_entry _ _ _ Hpt w Hw), Er.
    destruct (pt_root _ _ _ Hpt) as (-> & _). apply (word_ext s s' lo hi); [done|].
    apply (pt_leaf _ _ _ Hpt) in Ef as (_ & _ & _ & Hne).
    destruct (frame_word_page fr f w); lia.
Qed.

Lemma region_decode addr flag i va :
  0 <= flag < 1024 -> Z.testbit flag 0 = true -> Z.testbit flag 1 = true ->
  va / PAGE_SIZE = addr / PAGE_SIZE + i ->
  leaf_decode (region_pte addr flag i) va = Some (va, flag).
Proof.
  intros Hfl H0 H1 Hva. unfold leaf_decode, region_pte, pte_v, pte_r, pte_w, pte_x.
  rewrite !pte_bit, H0, H1 by lia. simpl. rewrite pte_page by done. do 2 f_equal.
  - rewrite <- Hva. rewrite (Z.div_mod va PAGE_SIZE) at 3 by done. lia.
  - rewrite Z.add_comm, Z_mod_plus_full. by apply Z.mod_small.
Qed.

(** The pages of a region, and of its leaf table. *)
Lemma region_vpn addr va i :
  0 <= addr < 2 ^ 32 -> 0 <= va < 2 ^ 32 -> 0 <= i ->
  Z.shiftr addr 12 mod 1024 + i < 1024 ->
  Z.shiftr va 22 = Z.shiftr addr 22 /\ Z.shiftr va 12 mod 1024 = Z.shiftr addr 12 mod 1024 + i <->
  va / PAGE_SIZE = addr / PAGE_SIZE + i.
Proof.
  intros Ha Hva Hi Hlt. rewrite !Z.shiftr_div_pow2 in * by lia. change (2 ^ 12) with PAGE_SIZE in *.
  change (2 ^ 22) with (PAGE_SIZE * 1024). rewrite <- !Z.div_div by done.
  pose proof (Z.div_mod (va / PAGE_SIZE) 1024 ltac:(lia)).
  pose proof (Z.div_mod (addr / PAGE_SIZE) 1024 ltac:(lia)).
  pose proof (Z.mod_pos_bound (va / PAGE_SIZE) 1024 ltac:(lia)).
  pose proof (Z.mod_pos_bound (addr / PAGE_SIZE) 1024 ltac:(lia)). split; [lia|]. intros E. lia.
Qed.

Lemma setup_region_spec (s : st) fr L pid addr npages flag n :
  pt_ok s fr L -> 0 <= n < NFRAMES -> free_from s n ->
  0 <= addr < 2 ^ 32 -> addr mod PAGE_SIZE = 0 -> 0 <= npages ->
  Z.shiftr addr 12 mod 1024 + npages <= 1024 ->
  0 <= flag < 1024 -> Z.testbit flag 0 = true -> Z.testbit flag 1 = true ->
  exists s' L', setup_identity_region pid addr npages flag s = Ok (tt, s') /\
    pt_ok s' fr L' /\ root s' = root s /\ free_from s' (n + 1) /\
    forall va, 0 <= va < 2 ^ 32 ->
      sv32_walk (mmem s') (root s') va =
      if bool_decide (addr / PAGE_SIZE <= va / PAGE_SIZE < addr / PAGE_SIZE + npages)
      then Some (va, flag) else sv32_walk (mmem s) (root s) va.
Proof.
  intros Hpt Hn Hfree Ha Ha0 Hnp Hv0 Hfl Hf0 Hf1. unfold setup_identity_region.
  assert (0 <= Z.shiftr addr 22 < 1024) as Hv.
  { rewrite Z.shiftr_div_pow2 by lia. split; [apply Z.div_pos; lia|apply Z.div_lt_upper_bound; lia]. }
  destruct (leaf_table_spec s fr L pid _ n Hpt Hv Hn Hfree) as (s1 & f & E1 & Elf & Er1 & Hpt1 & Hfree1 & HW1).
  rewrite (bind_ok _ _ _ _ _ E1). cbv zeta. unfold bind. cbn [get].
  change 0x3FF with (Z.ones 10). rewrite Z.land_ones by lia. change (2 ^ 10) with 1024.
  set (vpn0 := Z.shiftr addr 12 mod 1024) in *.
  assert (0 <= vpn0) by (apply Z.mod_pos_bound; lia).
  destruct (fill_leaf s1 (leaf s1) vpn0 addr (Z.to_nat npages) flag) as (s2 & E2 & HM & HWd); [lia|lia|done|lia| |done|].
  { rewrite Z2Nat.id by done. unfold vpn0 in Hv0. rewrite Z.shiftr_div_pow2 in Hv0 by lia.
    change (2 ^ 12) with PAGE_SIZE in Hv0. pose proof (Z.div_mod addr PAGE_SIZE ltac:(done)).
    pose proof (Z.div_mod (addr / PAGE_SIZE) 1024 ltac:(lia)).
    assert (addr / PAGE_SIZE / 1024 < 1024); [|unfold PAGE_SIZE in *; lia].
    rewrite Z.div_div by done. apply Z.div_lt_upper_bound; [done|]. unfold PAGE_SIZE. lia. }
  rewrite Elf, Z2Nat.id in * by done.
  assert (pt_ok s2 fr (<[Z.shiftr addr 22 := f]> L)) as Hpt2.
  { eapply (pt_ok_mem s1); [done|by apply lookup_insert_eq|done|lia|]. unfold PAGE_SIZE. lia. }
  exists s2, (<[Z.shiftr addr 22 := f]> L). split; [done|]. split; [done|].
  pose proof HM as (Et & Er & _ & _ & Hm). split; [congruence|]. split.
  { intros i Hi. unfold entry. rewrite Et. by apply Hfree1. }
  intros va Hva. rewrite <- HW1, (walk_pt s2 _ _ va Hpt2 Hva), (walk_pt s1 _ _ va Hpt1 Hva) by done.
  assert (0 <= Z.shiftr va 12 mod 1024 < 1024) as Hi by (apply Z.mod_pos_bound; lia).
  case_bool_decide as Hin.
  - set (i := va / PAGE_SIZE - addr / PAGE_SIZE).
    destruct (proj2 (region_vpn addr va i Ha Hva ltac:(lia) ltac:(unfold i; fold vpn0; lia))) as [-> ->]; [lia|].
    rewrite lookup_insert_eq. fold vpn0. rewrite HWd by lia. apply region_decode; (done || lia).
  - destruct (_ !! _) as [g|] eqn:Eg; [|done]. f_equal. apply (word_ext _ _ _ _ _ _ HM).
    destruct (decide (Z.shiftr va 22 = Z.shiftr addr 22)) as [Ev|Hne].
    + rewrite Ev, lookup_insert_eq in Eg. injection Eg as <-.
      destruct (decide (vpn0 <= Z.shiftr va 12 mod 1024 < vpn0 + npages)) as [Hr|]; [|lia].
      exfalso. apply Hin. set (i := Z.shiftr va 12 mod 1024 - vpn0).
      rewrite (proj1 (region_vpn addr va i Ha Hva ltac:(lia) ltac:(fold vpn0; lia))); [lia|].
      split; [done|]. fold vpn0. lia.
    + rewrite lookup_insert_ne in Eg by done.
      assert (g <> f) as Hgf.
      { intros ->. apply Hne. eapply (pt_inj _ _ _ Hpt1); [by rewrite lookup_insert_ne|by apply lookup_insert_eq]. }
      destruct (frame_word_page g f (Z.shiftr va 12 mod 1024) Hgf Hi); unfold PAGE_SIZE in *; lia.
Qed.

(** ** The identity mapping *)

(** Mapping a list of regions, one after the other. *)
Fixpoint setup_regions (pid : Z) (rs : list (Z * Z)) : M st unit :=
  match rs with
  | [] => ret tt
  | r :: rs => bind (setup_identity_region pid (fst r) (snd r) OS_RWX) (fun _ => setup_regions pid rs)
  end.

(** A region is page aligned and does not cross a 4MB boundary. *)
Definition region_ok (r : Z * Z) : bool :=
  (0 <=? fst r) && (fst r <? 2 ^ 32) && (fst r mod PAGE_SIZE =? 0) && (0 <=? snd r) &&
  (Z.shiftr (fst r) 12 mod 1024 + snd r <=? 1024).

Lemma setup_regions_spec pid rs (s : st) fr L n :
  pt_ok s fr L -> 0 <= n -> n + Z.of_nat (length rs) <= NFRAMES -> free_from s n ->
  forallb region_ok rs = true ->
  exists s' L', setup_regions pid rs s = Ok (tt, s') /\ pt_ok s' fr L' /\ root s' = root s /\
    forall va, 0 <= va < 2 ^ 32 ->
      sv32_walk (mmem s') (root s') va =
      if existsb (in_region va) rs then Some (va, OS_RWX) else sv32_walk (mmem s) (root s) va.
Proof.
  revert s L n. induction rs as [|[a np] rs IH]; intros s L n Hpt Hn Hlen Hfree Hrs.
  { exists s, L. by split_and!. }
  cbn [forallb length] in *. unfold region_ok in Hrs at 1. cbn [fst snd] in *. bool_prop.
  destruct (setup_region_spec s fr L pid a np OS_RWX n) as (s1 & L1 & E1 & Hpt1 & Er1 & Hfree1 & HW1);
    try (done || lia).
  destruct (IH s1 L1 (n + 1)) as (s2 & L2 & E2 & Hpt2 & Er2 & HW2); try (done || lia).
  exists s2, L2. cbn [setup_regions fst snd]. rewrite (bind_ok _ _ _ _ _ E1).
  split_and!; try (done || congruence). intros va Hva. rewrite HW2, HW1 by done. cbn [existsb].
  assert (in_region va (a, np) =
    bool_decide (a / PAGE_SIZE <= va / PAGE_SIZE < a / PAGE_SIZE + np)) as ->.
  { unfold in_region. cbn [fst snd].
    destruct (Z.leb_spec (a / PAGE_SIZE) (va / PAGE_SIZE)), (Z.ltb_spec (va / PAGE_SIZE) (a / PAGE_SIZE + np));
      simpl; symmetry; (apply bool_decide_eq_true_2; lia) || (apply bool_decide_eq_false_2; lia). }
  case_bool_decide; simpl; [by destruct (existsb (in_region va) rs)|done].
Qed.

Lemma identity_mapping_regions (p : platform_t) pid :
  exists k, pagetable_identity_mapping p pid = k (setup_regions pid (identity_regions p)) /\
    forall m, k m = ('(f, a) <- mmu_alloc ;;
      modify (fun s => set_pt f a (leaf s) s) ;;;
      own_frame pid ;;;
      s <- get ;;
      put_mem (root s) zero_page ;;;
      modify (fun s => set_base (<[Z.to_nat pid := root s]> (pid_to_pagetable_base s)) s) ;;; m)%egos.
Proof. eexists. split; [|intros m; reflexivity]. by destruct p. Qed.

(** From the initial table, [pagetable_identity_mapping] builds tables that
    translate the addresses of its regions to themselves, and no others. *)
Lemma identity_mapping_spec (s : st) pid :
  let p := platform (dev s) in
  p <> ARTY -> length (table s) = Z.to_nat NFRAMES -> free_from s 0 ->
  exists s', pagetable_identity_mapping p pid s = Ok (tt, s') /\
    (exists f, 0 <= f < NFRAMES /\ root s' = page_addr f) /\
    forall va, 0 <= va < 2 ^ 32 ->
      sv32_walk (mmem s') (root s') va =
      if existsb (in_region va) (identity_regions p) then Some (va, OS_RWX) else None.
Proof.
  intros p Hp Hlen Hfree.
  destruct (identity_mapping_regions p pid) as (k & -> & Hk). rewrite Hk. clear k Hk.
  destruct (alloc_own s pid 0 (fun f s => set_pt f (page_addr f) (leaf s) s))
    as (f & e & Hf & Hu & He & Ea & e' & He' & Eo); [done|done|done|done|done|].
  rewrite (bind_ok _ _ _ _ _ Ea). cbn beta iota. unfold bind at 1. cbn [modify].
  rewrite (bind_ok _ _ _ _ _ Eo).
  set (s1 := set_entry f e' (set_pt f (page_addr f) (leaf (set_entry f e s)) (set_entry f e s))).
  unfold bind at 1. cbn [get]. destruct (put_mem_spec s1 (page_addr f) zero_page) as (s2 & E2 & Em2 & HM2).
  change (root s1) with (page_addr f). rewrite (bind_ok _ _ _ _ _ E2). unfold bind at 1. cbn [modify].
  match goal with |- context [setup_regions _ _ ?s3] => set (s3' := s3) end.
  destruct HM2 as (Et & Er & _ & Ep & _).
  destruct (own_alloc s s3' f e') as (O1 & O2 & _ & O4); [done|unfold NFRAMES; lia|done| |].
  { change (table s3') with (table s2). rewrite Et. unfold s1. simpl. by rewrite list_insert_insert_eq. }
  assert (pt_ok s3' f ∅) as Hpt.
  { split; [exact O1| | |done|done|].
    - change (platform (dev s3')) with (platform (dev s2)). rewrite Ep. exact Hp.
    - split; [exact Er|]. split; [unfold NFRAMES; lia|exact O2].
    - intros v Hv. rewrite lookup_empty. unfold word. change (mmem s3') with (mmem s2).
      change (root s3') with (root s2). rewrite Er, Em2. by apply load_zero_page. }
  destruct (setup_regions_spec pid (identity_regions p) s3' f ∅ (0 + 1)) as (s' & L & E & Hpt' & Hr & HW).
  - exact Hpt.
  - lia.
  - by destruct p.
  - apply O4; [lia|done].
  - by destruct p.
  - exists s'. split; [exact E|]. split; [exists f; split; apply (pt_root _ _ _ Hpt')|].
    intros va Hva. rewrite HW by done.
    by rewrite (walk_pt s3' f ∅ va Hpt Hva), lookup_empty.
Qed.
End tables.
