(* ===== verification/Kernel.v ===== *)
(** The grass kernel, grass/process.c and grass/kernel.c: process control,
    the scheduler, message passing and the trap handler, over the part of
    [struct earth] they use (a class). *)

From Stdlib Require Import ZArith Lia Strings.Byte.
From stdpp Require Import base numbers list strings gmap.
From S2P Require Import Prelude Bytes Memory Earth.

Local Open Scope egos_scope.

(** ** The earth layer as the kernel sees it *)

(** Memory and [mepc] are registers of the machine; the rest are functions of
    [struct earth] (library/egos.h). *)
Class EarthOps (E : Type) := {
  emem : E -> mem;
  set_emem : mem -> E -> E;
  mepc_csr : E -> Z;
  set_mepc_csr : Z -> E -> E;
  earth_platform : E -> platform_t;
  earth_mmu_switch : Z -> M E unit;
  earth_mmu_free : Z -> M E unit;
  earth_timer_reset : M E Z;
  earth_tty_recv_intr : M E Z
}.

(** ** Processes (grass/process.h) *)

Inductive proc_status :=
| PROC_UNUSED
| PROC_LOADING
| PROC_READY
| PROC_RUNNING
| PROC_RUNNABLE
| PROC_WAIT_TO_SEND
| PROC_WAIT_TO_RECV.
#[export] Instance proc_status_eq_dec : EqDecision proc_status.
Proof. solve_decision. Defined.

Definition SAVED_REGISTER_NUM : Z := 29.
Definition SAVED_REGISTER_SIZE : Z := SAVED_REGISTER_NUM * 4.
Definition SAVED_REGISTER_ADDR : Z := GRASS_STACK_TOP - SAVED_REGISTER_SIZE.

(** [saved_register] as the 116 bytes that [memcpy] moves. *)
Record process := {
  pid : Z;
  status : proc_status;
  mepc : Z;
  saved_register : list byte;
  receiver_pid : Z
}.

Definition MAX_NPROCESS : Z := 8.

(** The processes of library/servers/servers.h. *)
Definition GPID_UNUSED : Z := 0.
Definition GPID_PROCESS : Z := 1.
Definition GPID_FILE : Z := 2.
Definition GPID_DIR : Z := 3.
Definition GPID_SHELL : Z := 4.
Definition GPID_USER_START : Z := 5.

(** [struct syscall] at [SYSCALL_ARG] (grass/syscall.h). *)
Definition SYSCALL_MSG_LEN : Z := 1024.
Definition SYS_UNUSED : Z := 0.
Definition SYS_RECV : Z := 1.
Definition SYS_SEND : Z := 2.
Definition sc_type : Z := SYSCALL_ARG.
Definition sc_msg : Z := SYSCALL_ARG + 4.
Definition sc_sender : Z := SYSCALL_ARG + 4.
Definition sc_receiver : Z := SYSCALL_ARG + 8.
Definition sc_content : Z := SYSCALL_ARG + 12.
Definition sc_retval : Z := SYSCALL_ARG + 12 + SYSCALL_MSG_LEN.
(** [sizeof(struct sys_msg)] and [sizeof(struct syscall)]. *)
Definition SYS_MSG_SIZE : Z := 8 + SYSCALL_MSG_LEN.
Definition SYSCALL_SIZE : Z := 4 + SYS_MSG_SIZE + 4.

Definition INTR_ID_SOFT : Z := 3.
Definition INTR_ID_TIMER : Z := 7.

(** ** State *)

Record kernel (E : Type) := {
  proc_set : list process;
  proc_curr_idx : Z;
  proc_nprocs : Z;
  earth : E
}.
Arguments proc_set {E}.
Arguments proc_curr_idx {E}.
Arguments proc_nprocs {E}.
Arguments earth {E}.

Definition set_pid (v : Z) (p : process) : process :=
  {| pid := v; status := status p; mepc := mepc p; saved_register := saved_register p;
     receiver_pid := receiver_pid p |}.
Definition set_status (v : proc_status) (p : process) : process :=
  {| pid := pid p; status := v; mepc := mepc p; saved_register := saved_register p;
     receiver_pid := receiver_pid p |}.
Definition set_mepc (v : Z) (p : process) : process :=
  {| pid := pid p; status := status p; mepc := v; saved_register := saved_register p;
     receiver_pid := receiver_pid p |}.
Definition set_saved_register (v : list byte) (p : process) : process :=
  {| pid := pid p; status := status p; mepc := mepc p; saved_register := v;
     receiver_pid := receiver_pid p |}.
Definition set_receiver_pid (v : Z) (p : process) : process :=
  {| pid := pid p; status := status p; mepc := mepc p; saved_register := saved_register p;
     receiver_pid := v |}.

(** An entry of the zeroed [proc_set]. *)
Definition proc0 : process :=
  {| pid := 0; status := PROC_UNUSED; mepc := 0;
     saved_register := replicate (Z.to_nat SAVED_REGISTER_SIZE) x00; receiver_pid := 0 |}.

(** The index of the first unused entry, counted from [i]. *)
Fixpoint find_unused (i : Z) (l : list process) : option Z :=
  match l with
  | [] => None
  | p :: l' => if decide (status p = PROC_UNUSED) then Some i else find_unused (i + 1) l'
  end.

Definition can_run (s : proc_status) : bool :=
  match s with PROC_READY | PROC_RUNNING | PROC_RUNNABLE => true | _ => false end.

(** The search of [proc_yield], for [i], ..., [MAX_NPROCESS]; -1 if none. *)
Fixpoint next_runnable (l : list process) (cur i : Z) (n : nat) : Z :=
  match n with
  | O => -1
  | S n' =>
      let idx := (cur + i) mod MAX_NPROCESS in
      if can_run (status (default proc0 (l !! Z.to_nat idx))) then idx
      else next_runnable l cur (i + 1) n'
  end.

(** The index of the first entry with pid [q], counted from [i]. *)
Fixpoint find_pid (q i : Z) (l : list process) : option Z :=
  match l with
  | [] => None
  | p :: l' => if pid p =? q then Some i else find_pid q (i + 1) l'
  end.

(** The loop of [proc_recv]: the pid of the last process waiting to send to
    [q], or [sender]. *)
Fixpoint find_sender (q sender : Z) (l : list process) : Z :=
  match l with
  | [] => sender
  | p :: l' =>
      find_sender q (if bool_decide (status p = PROC_WAIT_TO_SEND) && (receiver_pid p =? q)
                     then pid p else sender) l'
  end.

Section kernel.
Context {E : Type} `{EarthOps E}.
Abbreviation st := (kernel E).

Definition set_procs (l : list process) (s : st) : st :=
  {| proc_set := l; proc_curr_idx := proc_curr_idx s; proc_nprocs := proc_nprocs s;
     earth := earth s |}.
Definition set_idx (i : Z) (s : st) : st :=
  {| proc_set := proc_set s; proc_curr_idx := i; proc_nprocs := proc_nprocs s;
     earth := earth s |}.
Definition set_nprocs (n : Z) (s : st) : st :=
  {| proc_set := proc_set s; proc_curr_idx := proc_curr_idx s; proc_nprocs := n;
     earth := earth s |}.
Definition set_earth (e : E) (s : st) : st :=
  {| proc_set := proc_set s; proc_curr_idx := proc_curr_idx s; proc_nprocs := proc_nprocs s;
     earth := e |}.

(** A call through [earth->], and accesses to memory. *)
Definition on_earth {A} (m : M E A) : M st A := fun s =>
  match m (earth s) with
  | Ok (a, e) => Ok (a, set_earth e s)
  | Fatal msg => Fatal msg
  | Undef w => Undef w
  | NoFuel => NoFuel
  end.
Definition rd (a n : Z) : M st (list byte) := gets (fun s => load (emem (earth s)) a n).
Definition wr (a : Z) (l : list byte) : M st unit :=
  modify (fun s => set_earth (set_emem (store (emem (earth s)) a l) (earth s)) s).
Definition rd_int (a : Z) : M st Z := gets (fun s => s32 (load_u32 (emem (earth s)) a)).
Definition wr_int (a v : Z) : M st unit := wr a (le_put 4 (u32 v)).

(** [proc_set[i]] and its update; every index is in range. *)
Definition proc (s : st) (i : Z) : process := default proc0 (proc_set s !! Z.to_nat i).
Definition upd_proc (i : Z) (f : process -> process) (s : st) : st :=
  set_procs (<[Z.to_nat i := f (proc s i)]> (proc_set s)) s.
Definition upd (i : Z) (f : process -> process) : M st unit := modify (upd_proc i f).
Definition curr (s : st) : process := proc s (proc_curr_idx s).
Definition curr_pid (s : st) : Z := pid (curr s).
Definition curr_status (s : st) : proc_status := status (curr s).

(** ** grass/process.c *)

Definition proc_set_status (q : Z) (v : proc_status) : M st unit :=
  modify (fun s => set_procs
    ((fun p => if pid p =? q then set_status v p else p) <$> proc_set s) s).
Definition proc_set_ready (q : Z) : M st unit := proc_set_status q PROC_READY.
Definition proc_set_running (q : Z) : M st unit := proc_set_status q PROC_RUNNING.
Definition proc_set_runnable (q : Z) : M st unit := proc_set_status q PROC_RUNNABLE.

Definition proc_alloc : M st Z :=
  s <- get ;;
  match find_unused 0 (proc_set s) with
  | Some i =>
      let n := u32 (proc_nprocs s + 1) in
      modify (set_nprocs n) ;;;
      upd i (fun p => set_status PROC_LOADING (set_pid (s32 n) p)) ;;;
      ret (s32 n)
  | None => fatal "proc_alloc: reach the limit of 8 processes"
  end.

Definition proc_free (q : Z) : M st unit :=
  if negb (q =? -1) then
    on_earth (earth_mmu_free q) ;;;
    proc_set_status q PROC_UNUSED
  else
    for_n (Z.to_nat MAX_NPROCESS) 0 (fun i =>
      s <- get ;;
      if (GPID_USER_START <=? pid (proc s i)) && bool_decide (status (proc s i) <> PROC_UNUSED) then
        on_earth (earth_mmu_free (pid (proc s i))) ;;;
        upd i (set_status PROC_UNUSED)
      else ret tt).

(** ** grass/kernel.c *)

Definition proc_yield : M st unit :=
  s <- get ;;
  let next_idx := next_runnable (proc_set s) (proc_curr_idx s) 1 (Z.to_nat MAX_NPROCESS) in
  (if next_idx =? -1 then fatal "proc_yield: no runnable process" else ret tt) ;;;
  (if decide (curr_status s = PROC_RUNNING) then proc_set_runnable (curr_pid s) else ret tt) ;;;
  modify (set_idx next_idx) ;;;
  s <- get ;;
  on_earth (earth_mmu_switch (curr_pid s)) ;;;
  on_earth earth_timer_reset ;;;
  s <- get ;;
  (if decide (curr_status s = PROC_READY) then
     upd (proc_curr_idx s) (fun p =>
       set_mepc APPS_ENTRY
         (set_saved_register
            (set_u32 (set_u32 (saved_register p) 8 APPS_ARG) 9 (APPS_ARG + 4)) p))
   else ret tt) ;;;
  s <- get ;;
  proc_set_running (curr_pid s).

(** The copy of a message from one process to another, through [tmp] on the
    stack of the kernel, as in [proc_send] and [proc_recv]. *)
Definition copy_msg (from to : Z) : M st unit :=
  on_earth (earth_mmu_switch from) ;;;
  tmp <- rd sc_msg SYS_MSG_SIZE ;;
  on_earth (earth_mmu_switch to) ;;;
  wr sc_msg tmp.

Definition proc_send : M st unit :=
  s <- get ;;
  wr_int sc_sender (curr_pid s) ;;;
  receiver <- rd_int sc_receiver ;;
  s <- get ;;
  match find_pid receiver 0 (proc_set s) with
  | Some i =>
      (if decide (status (proc s i) <> PROC_WAIT_TO_RECV) then
         upd (proc_curr_idx s) (fun p =>
           set_receiver_pid receiver (set_status PROC_WAIT_TO_SEND p))
       else
         copy_msg (curr_pid s) receiver ;;;
         proc_set_runnable receiver) ;;;
      proc_yield
  | None => wr_int sc_retval (-1)
  end.

Definition proc_recv : M st unit :=
  s <- get ;;
  let sender := find_sender (curr_pid s) (-1) (proc_set s) in
  (if sender =? -1 then upd (proc_curr_idx s) (set_status PROC_WAIT_TO_RECV)
   else
     copy_msg sender (curr_pid s) ;;;
     proc_set_runnable sender) ;;;
  proc_yield.

Definition proc_syscall : M st unit :=
  type <- rd_int sc_type ;;
  wr_int sc_retval 0 ;;;
  wr_int sc_type SYS_UNUSED ;;;
  s <- get ;;
  wr_int (MSIP (earth_platform (earth s))) 0 ;;;
  if type =? SYS_RECV then proc_recv
  else if type =? SYS_SEND then proc_send
  else fatal "proc_syscall: got unknown syscall type".

Definition excp_entry (id : Z) : M st unit := fatal "excp_entry: kernel got exception".

Definition intr_entry (id : Z) : M st unit :=
  s <- get ;;
  if (id =? INTR_ID_TIMER) && (curr_pid s <? GPID_SHELL) then
    on_earth earth_timer_reset ;;; ret tt
  else
    ctrl_c <- on_earth earth_tty_recv_intr ;;
    if negb (ctrl_c =? 0) && (GPID_USER_START <=? curr_pid s) then
      modify (fun s => set_earth (set_mepc_csr 0x800500C (earth s)) s)
    else
      (if id =? INTR_ID_SOFT then proc_syscall else ret tt) ;;;
      (if id =? INTR_ID_TIMER then proc_yield else ret tt).

Definition kernel_entry (is_interrupt id : Z) : M st unit :=
  s <- get ;;
  upd (proc_curr_idx s) (set_mepc (mepc_csr (earth s))) ;;;
  regs <- rd SAVED_REGISTER_ADDR SAVED_REGISTER_SIZE ;;
  upd (proc_curr_idx s) (set_saved_register regs) ;;;
  (if negb (is_interrupt =? 0) then intr_entry id else excp_entry id) ;;;
  s <- get ;;
  modify (fun s => set_earth (set_mepc_csr (mepc (curr s)) (earth s)) s) ;;;
  wr SAVED_REGISTER_ADDR (saved_register (curr s)).
End kernel.
