(* ===== verification/KernelSpec.v ===== *)
(** What the kernel relies on, and what it keeps: the laws of the earth layer
    (private address spaces), the invariant of the process table, and the
    lemmas on the operations of Kernel.v that its theorems share. *)

From Stdlib Require Import ZArith Lia Strings.Byte.
From stdpp Require Import base numbers list strings gmap.
From S2P Require Import Prelude Bytes Memory Earth Kernel.

(** ** The laws of the earth layer *)

(** [mapped e q a]: address [a] is in a page of process [q]; [eview e q a]: the
    byte there, whether or not [q] is the process now in memory, [e_vm e]. *)
Class EarthLaws (E : Type) `{EarthOps E} := {
  e_ok : E -> Prop;
  e_vm : E -> Z;
  mapped : E -> Z -> Z -> Prop;
  eview : E -> Z -> Z -> byte;
  emem_set m e : emem (set_emem m e) = m;
  emem_set_mepc v e : emem (set_mepc_csr v e) = emem e;
  mepc_set_mem m e : mepc_csr (set_emem m e) = mepc_csr e;
  mepc_set v e : mepc_csr (set_mepc_csr v e) = v;
  platform_set_mem m e : earth_platform (set_emem m e) = earth_platform e;
  platform_set_mepc v e : earth_platform (set_mepc_csr v e) = earth_platform e;
  set_mepc_space v e :
    e_ok e -> e_ok (set_mepc_csr v e) /\ e_vm (set_mepc_csr v e) = e_vm e /\
    (forall q a, mapped (set_mepc_csr v e) q a <-> mapped e q a) /\
    (forall q a, eview (set_mepc_csr v e) q a = eview e q a);
  mapped_low e q a : e_ok e -> q <> 0 -> mapped e q a -> a < FRAME_CACHE_START;
  view_curr e a :
    e_ok e -> mapped e (e_vm e) a -> eview e (e_vm e) a = load_byte (emem e) a;
  store_space e a l :
    e_ok e -> a + Z.of_nat (length l) <= FRAME_CACHE_START ->
    let e' := set_emem (store (emem e) a l) e in
    e_ok e' /\ e_vm e' = e_vm e /\ (forall q x, mapped e' q x <-> mapped e q x) /\
    (forall q x, q <> 0 -> q <> e_vm e -> mapped e q x -> eview e' q x = eview e q x);
  mmu_switch_spec e q :
    e_ok e -> q <> 0 ->
    exists e', earth_mmu_switch q e = Ok (tt, e') /\ e_ok e' /\ e_vm e' = q /\
      mepc_csr e' = mepc_csr e /\ earth_platform e' = earth_platform e /\
      (forall q' a, q' <> 0 -> mapped e' q' a <-> mapped e q' a) /\
      (forall q' a, q' <> 0 -> mapped e q' a -> eview e' q' a = eview e q' a) /\
      (forall a, a < FRAME_CACHE_START -> ~ mapped e q a ->
         load_byte (emem e') a = load_byte (emem e) a);
  mmu_free_spec e q :
    e_ok e -> q <> 0 ->
    exists e', earth_mmu_free q e = Ok (tt, e') /\ e_ok e' /\ e_vm e' = e_vm e /\
      mepc_csr e' = mepc_csr e /\ emem e' = emem e /\ earth_platform e' = earth_platform e /\
      (forall a, ~ mapped e' q a) /\
      (forall q' a, q' <> 0 -> q' <> q -> mapped e' q' a <-> mapped e q' a) /\
      (forall q' a, q' <> 0 -> q' <> q -> mapped e q' a -> eview e' q' a = eview e q' a);
  timer_reset_spec e :
    e_ok e -> exists r e', earth_timer_reset e = Ok (r, e') /\ e_ok e' /\ e_vm e' = e_vm e /\
      mepc_csr e' = mepc_csr e /\ emem e' = emem e /\ earth_platform e' = earth_platform e /\
      (forall q a, mapped e' q a <-> mapped e q a) /\ (forall q a, eview e' q a = eview e q a);
  tty_recv_intr_spec e :
    e_ok e -> exists r e', earth_tty_recv_intr e = Ok (r, e') /\ e_ok e' /\ e_vm e' = e_vm e /\
      mepc_csr e' = mepc_csr e /\ emem e' = emem e /\ earth_platform e' = earth_platform e /\
      (forall q a, mapped e' q a <-> mapped e q a) /\ (forall q a, eview e' q a = eview e q a)
}.

Section laws.
Context {E : Type} `{EarthLaws E}.

(** The bytes [a, a + n) of process [q]. *)
Definition eload (e : E) (q a n : Z) : list byte :=
  (fun i => eview e q (a + i)) <$> seqZ 0 n.
Definition mapped_range (e : E) (q a n : Z) : Prop := forall x, a <= x < a + n -> mapped e q x.

(** Nothing but the process in memory differs. *)
Record same_spaces (e e' : E) : Prop := {
  ss_ok : e_ok e';
  ss_platform : earth_platform e' = earth_platform e;
  ss_mapped q a : q <> 0 -> mapped e' q a <-> mapped e q a;
  ss_view q a : q <> 0 -> mapped e q a -> eview e' q a = eview e q a
}.

Lemma same_spaces_refl e : e_ok e -> same_spaces e e.
Proof. by split. Qed.

Lemma same_spaces_trans e1 e2 e3 : same_spaces e1 e2 -> same_spaces e2 e3 -> same_spaces e1 e3.
Proof.
  intros [A1 A2 A3 A4] [B1 B2 B3 B4]. split; [done|congruence| |].
  - intros q a Hq. by rewrite B3, A3.
  - intros q a Hq Hm. rewrite B4, A4; [done..|]. by apply A3.
Qed.

Lemma eload_same e e' q a n :
  same_spaces e e' -> q <> 0 -> mapped_range e q a n -> eload e' q a n = eload e q a n.
Proof.
  intros Hs Hq Hm. unfold eload. apply list_fmap_ext. intros i x Hx.
  apply list_elem_of_lookup_2, elem_of_seqZ in Hx. apply (ss_view _ _ Hs); [done|]. apply Hm. lia.
Qed.

Lemma eload_curr e a n :
  e_ok e -> mapped_range e (e_vm e) a n -> eload e (e_vm e) a n = load (emem e) a n.
Proof.
  intros He Hm. unfold eload. apply list_eq. intros i. rewrite list_lookup_fmap, load_lookup.
  destruct (Z.ltb_spec (Z.of_nat i) n).
  - rewrite lookup_seqZ_lt by lia. simpl. f_equal. rewrite view_curr; [do 2 f_equal; lia|done|].
    apply Hm. lia.
  - by rewrite lookup_seqZ_ge by lia.
Qed.
End laws.

(** ** The process table *)

(** Memory that belongs to the kernel: the saved registers of the trap, and the
    software interrupt register. *)
Definition regs_area (a : Z) : Prop := SAVED_REGISTER_ADDR <= a < GRASS_STACK_TOP.
Definition kernel_area (a : Z) : Prop := regs_area a \/ 0x2000000 <= a < 0x2000008.

(** A process whose program is loaded. *)
Definition loaded (s : proc_status) : Prop := s <> PROC_UNUSED /\ s <> PROC_LOADING.

Section spec.
Context {E : Type} `{EarthLaws E}.
Abbreviation st := (kernel E).

Record k_ok (s : st) : Prop := {
  ko_len : length (proc_set s) = Z.to_nat MAX_NPROCESS;
  ko_idx : 0 <= proc_curr_idx s < MAX_NPROCESS;
  ko_pid i : 0 <= i < MAX_NPROCESS -> 0 <= pid (proc s i) <= proc_nprocs s;
  ko_live i : 0 <= i < MAX_NPROCESS -> status (proc s i) <> PROC_UNUSED -> pid (proc s i) <> 0;
  ko_uniq i j : 0 <= i < MAX_NPROCESS -> 0 <= j < MAX_NPROCESS ->
    pid (proc s i) = pid (proc s j) -> pid (proc s i) <> 0 -> i = j;
  ko_regs i : 0 <= i < MAX_NPROCESS ->
    length (saved_register (proc s i)) = Z.to_nat SAVED_REGISTER_SIZE;
  ko_running i : 0 <= i < MAX_NPROCESS -> status (proc s i) = PROC_RUNNING -> i = proc_curr_idx s;
  ko_earth : e_ok (earth s);
  ko_mapped i : 0 <= i < MAX_NPROCESS -> loaded (status (proc s i)) ->
    mapped_range (earth s) (pid (proc s i)) SYSCALL_ARG SYSCALL_SIZE;
  ko_kernel q a : q <> 0 -> mapped (earth s) q a -> ~ kernel_area a
}.

(** The state in which a process runs: it is the current one, and in memory. *)
Record k_run (s : st) : Prop := {
  kr_ok : k_ok s;
  kr_status : curr_status s = PROC_RUNNING;
  kr_vm : e_vm (earth s) = curr_pid s
}.

Lemma proc_upd (s : st) i j f :
  length (proc_set s) = Z.to_nat MAX_NPROCESS -> 0 <= i < MAX_NPROCESS -> 0 <= j ->
  proc (upd_proc i f s) j = if j =? i then f (proc s i) else proc s j.
Proof.
  intros Hlen Hi Hj. unfold proc, upd_proc. simpl. destruct (Z.eqb_spec j i) as [->|Hne].
  - rewrite list_lookup_insert_eq; [done|]. rewrite Hlen. unfold MAX_NPROCESS in *. lia.
  - by rewrite list_lookup_insert_ne by lia.
Qed.

(** [proc_set_status] changes exactly the entries with that pid. *)
Lemma proc_set_status_spec (s : st) q v :
  length (proc_set s) = Z.to_nat MAX_NPROCESS ->
  exists s', proc_set_status q v s = Ok (tt, s') /\ earth s' = earth s /\
    proc_curr_idx s' = proc_curr_idx s /\ proc_nprocs s' = proc_nprocs s /\
    length (proc_set s') = Z.to_nat MAX_NPROCESS /\
    forall i, 0 <= i < MAX_NPROCESS ->
      proc s' i = if pid (proc s i) =? q then set_status v (proc s i) else proc s i.
Proof.
  intros Hlen. eexists. split; [reflexivity|]. simpl. split_and!; try done.
  - by rewrite length_fmap.
  - intros i Hi. unfold proc. simpl. rewrite list_lookup_fmap.
    destruct (lookup_lt_is_Some_2 (proc_set s) (Z.to_nat i)) as [p ->]; [|done].
    rewrite Hlen. unfold MAX_NPROCESS in *. lia.
Qed.

Lemma next_runnable_spec l cur i n :
  0 <= cur + i ->
  (next_runnable l cur i n = -1 /\
   forall k, i <= k < i + Z.of_nat n ->
     can_run (status (default proc0 (l !! Z.to_nat ((cur + k) mod MAX_NPROCESS)))) = false) \/
  (exists k, i <= k < i + Z.of_nat n /\ next_runnable l cur i n = (cur + k) mod MAX_NPROCESS /\
     can_run (status (default proc0 (l !! Z.to_nat ((cur + k) mod MAX_NPROCESS)))) = true /\
     forall k', i <= k' < k ->
     can_run (status (default proc0 (l !! Z.to_nat ((cur + k') mod MAX_NPROCESS)))) = false).
Proof.
  revert i. induction n as [|n IH]; intros i Hi; cbn [next_runnable].
  { left. split; [done|]. lia. }
  destruct (can_run _) eqn:Ec.
  - right. exists i. split_and!; try done; lia.
  - destruct (IH (i + 1)) as [[En Hk]|(k & Hk & En & Hr & Hk')]; [lia| |].
    + left. split; [done|]. intros k Hk'. destruct (decide (k = i)) as [->|]; [done|]. apply Hk. lia.
    + right. exists k. split_and!; try (done || lia). intros k' Hk''.
      destruct (decide (k' = i)) as [->|]; [done|]. apply Hk'. lia.
Qed.

(** [mepc] and the saved registers are the same. *)
Definition same_kernel (e e' : E) : Prop :=
  mepc_csr e' = mepc_csr e /\ forall a, regs_area a -> load_byte (emem e') a = load_byte (emem e) a.

Lemma same_kernel_trans e1 e2 e3 : same_kernel e1 e2 -> same_kernel e2 e3 -> same_kernel e1 e3.
Proof. intros [A1 A2] [B1 B2]. split; [congruence|]. intros a Ha. by rewrite B2, A2. Qed.

Lemma regs_area_low a : regs_area a -> a < FRAME_CACHE_START.
Proof. unfold regs_area, GRASS_STACK_TOP, FRAME_CACHE_START. lia. Qed.

Lemma switch_same e q :
  e_ok e -> q <> 0 -> (forall q a, q <> 0 -> mapped e q a -> ~ kernel_area a) ->
  exists e', earth_mmu_switch q e = Ok (tt, e') /\ same_spaces e e' /\ same_kernel e e' /\
    e_vm e' = q.
Proof.
  intros He Hq Hk. destruct (mmu_switch_spec e q He Hq) as (e' & Es & H1 & H2 & H3 & H4 & H5 & H6 & H7).
  exists e'. split; [done|]. split; [by split|]. split; [|done]. split; [done|].
  intros a Ha. apply H7; [by apply regs_area_low|]. intros Hm. apply (Hk q a Hq Hm). by left.
Qed.

Lemma timer_same e :
  e_ok e -> exists r e', earth_timer_reset e = Ok (r, e') /\ same_spaces e e' /\
    same_kernel e e' /\ e_vm e' = e_vm e /\ emem e' = emem e.
Proof.
  intros He. destruct (timer_reset_spec e He) as (r & e' & Es & H1 & H2 & H3 & H4 & H5 & H6 & H7).
  exists r, e'. split; [done|]. split; [split; auto|]. split; [|done]. split; [done|].
  intros a Ha. by rewrite H4.
Qed.

Lemma on_earth_ok {A} (m : M E A) (s : st) a e :
  m (earth s) = Ok (a, e) -> on_earth m s = Ok (a, set_earth e s).
Proof. unfold on_earth. by intros ->. Qed.

(** ** The scheduler *)

(** A process that is run for the first time starts at [APPS_ENTRY], with the
    addresses of [argc] and [argv] in [a0] and [a1]. *)
Definition first_run (p : process) : process :=
  set_mepc APPS_ENTRY
    (set_saved_register (set_u32 (set_u32 (saved_register p) 8 APPS_ARG) 9 (APPS_ARG + 4)) p).

(** Entry [i] of the table after process [j] got the processor. *)
Definition yielded (s : st) (j i : Z) : process :=
  let p := proc s i in
  let p := if bool_decide (i = proc_curr_idx s /\ status p = PROC_RUNNING)
           then set_status PROC_RUNNABLE p else p in
  if i =? j then set_status PROC_RUNNING (if decide (status p = PROC_READY) then first_run p else p)
  else p.

(** The current process, if it was running, becomes runnable. *)
Lemma requeue_spec (s : st) :
  k_ok s ->
  exists s1, (if decide (curr_status s = PROC_RUNNING) then proc_set_runnable (curr_pid s)
      else ret tt) s = Ok (tt, s1) /\ earth s1 = earth s /\ proc_nprocs s1 = proc_nprocs s /\
    length (proc_set s1) = Z.to_nat MAX_NPROCESS /\
    forall i, 0 <= i < MAX_NPROCESS -> proc s1 i =
      if bool_decide (i = proc_curr_idx s /\ status (proc s i) = PROC_RUNNING)
      then set_status PROC_RUNNABLE (proc s i) else proc s i.
Proof.
  intros Hok. destruct (decide (curr_status s = PROC_RUNNING)) as [Hr|Hr].
  - destruct (proc_set_status_spec s (curr_pid s) PROC_RUNNABLE (ko_len _ Hok))
      as (s1 & E1 & Ee & Ei & En & Hl & Hp). exists s1. split_and!; try done. intros i Hi.
    rewrite Hp by done. destruct (decide (i = proc_curr_idx s)) as [->|Hne].
    + rewrite Z.eqb_refl, bool_decide_eq_true_2; done.
    + rewrite (proj2 (Z.eqb_neq _ _)), bool_decide_eq_false_2; [done|tauto|].
      intros Epid. apply Hne. apply (ko_uniq _ Hok); [done|apply Hok|done|]. rewrite Epid.
      apply (ko_live _ Hok); [apply Hok|]. unfold curr_status, curr in Hr. congruence.
  - exists s. split_and!; try done; [apply Hok|]. intros i Hi.
    rewrite bool_decide_eq_false_2; [done|]. intros [-> ?]. done.
Qed.

(** A process that is run for the first time gets its first context. *)
Lemma start_spec (s : st) j :
  length (proc_set s) = Z.to_nat MAX_NPROCESS -> 0 <= j < MAX_NPROCESS ->
  exists s4, (if decide (status (proc s j) = PROC_READY) then upd j first_run else ret tt) s = Ok (tt, s4) /\
    earth s4 = earth s /\ proc_nprocs s4 = proc_nprocs s /\ proc_curr_idx s4 = proc_curr_idx s /\
    length (proc_set s4) = Z.to_nat MAX_NPROCESS /\
    forall i, 0 <= i < MAX_NPROCESS -> proc s4 i =
      if i =? j then (if decide (status (proc s j) = PROC_READY) then first_run (proc s j) else proc s j)
      else proc s i.
Proof.
  intros Hlen Hj. destruct (decide (status (proc s j) = PROC_READY)).
  - eexists. split; [reflexivity|]. split_and!; try done; [simpl; by rewrite length_insert|].
    intros i Hi. rewrite proc_upd by (done || lia). done.
  - exists s. split_and!; try done. intros i Hi. by destruct (Z.eqb_spec i j) as [->|].
Qed.

(** The table after [proc_yield], entry by entry. *)
Lemma yield_run (s : st) j :
  k_ok s -> 0 <= j < MAX_NPROCESS -> status (proc s j) <> PROC_UNUSED ->
  next_runnable (proc_set s) (proc_curr_idx s) 1 (Z.to_nat MAX_NPROCESS) = j ->
  exists s', proc_yield s = Ok (tt, s') /\ proc_curr_idx s' = j /\ proc_nprocs s' = proc_nprocs s /\
    length (proc_set s') = Z.to_nat MAX_NPROCESS /\
    same_spaces (earth s) (earth s') /\ same_kernel (earth s) (earth s') /\
    e_vm (earth s') = pid (proc s j) /\
    forall i, 0 <= i < MAX_NPROCESS -> proc s' i = yielded s j i.
Proof.
  intros Hok Hj Hlive Hnext. unfold proc_yield. unfold bind at 1. cbn [get]. rewrite Hnext.
  rewrite (proj2 (Z.eqb_neq j (-1))) by lia. rewrite bind_ret.
  destruct (requeue_spec s Hok) as (s1 & E1 & Ee1 & En1 & Hl1 & Hp1).
  rewrite (bind_ok _ _ _ _ _ E1). unfold bind at 1. cbn [modify]. unfold bind at 1. cbn [get].
  (* the address space and the timer *)
  assert (pid (proc s1 j) = pid (proc s j)) as Epj by (rewrite Hp1 by done; by case_bool_decide).
  assert (pid (proc s j) <> 0) as Hpj by by apply (ko_live _ Hok).
  change (curr_pid (set_idx j s1)) with (pid (proc s1 j)). rewrite Epj.
  destruct (switch_same (earth s1) (pid (proc s j))) as (e2 & E2 & Hs2 & Hk2 & Hv2);
    [rewrite Ee1; apply Hok|done|rewrite Ee1; apply Hok|].
  rewrite (bind_ok _ _ _ _ _ (on_earth_ok _ (set_idx j s1) _ _ E2)).
  destruct (timer_same e2 (ss_ok _ _ Hs2)) as (r & e3 & E3 & Hs3 & Hk3 & Hv3 & _).
  rewrite (bind_ok _ _ _ _ _ (on_earth_ok _ (set_earth e2 (set_idx j s1)) _ _ E3)).
  unfold bind at 1. cbn [get]. set (s3 := set_earth e3 _).
  change (curr_status s3) with (status (proc s3 j)). change (proc_curr_idx s3) with j.
  destruct (start_spec s3 j Hl1 Hj) as (s4 & E4 & Ee4 & En4 & Ei4 & Hl4 & Hp4).
  rewrite (bind_ok _ _ _ _ _ E4). unfold bind at 1. cbn [get].
  change (proc s3) with (proc s1) in *. set (p1 := proc s1 j) in *.
  assert (forall (d : {status p1 = PROC_READY} + {status p1 <> PROC_READY}),
    pid (if d then first_run p1 else p1) = pid p1) as Hd by by intros [].
  assert (curr_pid s4 = pid (proc s j)) as ->.
  { unfold curr_pid, curr. rewrite Ei4. change (proc_curr_idx s3) with j.
    by rewrite Hp4, Z.eqb_refl, Hd by done. }
  destruct (proc_set_status_spec s4 (pid (proc s j)) PROC_RUNNING Hl4) as (s5 & E5 & Ee5 & Ei5 & En5 & Hl5 & Hp5).
  exists s5. split; [exact E5|]. split; [by rewrite Ei5, Ei4|]. split; [by rewrite En5, En4|].
  split; [done|]. rewrite Ee5, Ee4. change (earth s3) with e3. rewrite Ee1 in *.
  split; [by eapply same_spaces_trans|]. split; [by eapply same_kernel_trans|]. split; [congruence|].
  intros i Hi. rewrite Hp5, Hp4 by done. unfold yielded. cbv zeta. rewrite <- Hp1 by done.
  destruct (Z.eqb_spec i j) as [->|Hne].
  - fold p1. by rewrite Hd, Epj, Z.eqb_refl.
  - rewrite (proj2 (Z.eqb_neq _ _)); [done|]. rewrite Hp1 by done.
    intros Epid. apply Hne. apply (ko_uniq _ Hok); [done..| |].
    + rewrite <- Epid. by case_bool_decide.
    + revert Epid. case_bool_decide; simpl; congruence.
Qed.

(** Changes that keep the invariant: no entry gets another pid, and no entry
    becomes used or loaded. *)
Lemma k_ok_change (s s' : st) :
  k_ok s -> length (proc_set s') = Z.to_nat MAX_NPROCESS ->
  0 <= proc_curr_idx s' < MAX_NPROCESS -> proc_nprocs s' = proc_nprocs s ->
  e_ok (earth s') ->
  (forall q x, q <> 0 -> mapped (earth s') q x <-> mapped (earth s) q x) ->
  (forall i, 0 <= i < MAX_NPROCESS ->
     pid (proc s' i) = pid (proc s i) /\
     length (saved_register (proc s' i)) = Z.to_nat SAVED_REGISTER_SIZE /\
     (status (proc s' i) <> PROC_UNUSED -> status (proc s i) <> PROC_UNUSED) /\
     (loaded (status (proc s' i)) -> loaded (status (proc s i))) /\
     (status (proc s' i) = PROC_RUNNING -> i = proc_curr_idx s')) ->
  k_ok s'.
Proof.
  intros Hok Hl Hidx Hn He Hmap Hp. split; try done.
  - intros i Hi. destruct (Hp i Hi) as (-> & _). rewrite Hn. by apply Hok.
  - intros i Hi. destruct (Hp i Hi) as (-> & _ & Hu & _). intros Hs. by apply Hok, Hu.
  - intros i j Hi Hj. destruct (Hp i Hi) as (-> & _), (Hp j Hj) as (-> & _). by apply Hok.
  - intros i Hi. apply (Hp i Hi).
  - intros i Hi. apply (Hp i Hi).
  - intros i Hi Hld x Hx. destruct (Hp i Hi) as (-> & _ & _ & Hl' & _). apply Hmap.
    + apply (ko_live _ Hok); [done|]. apply Hl', Hld.
    + apply (ko_mapped _ Hok i); auto.
  - intros q a Hq. rewrite Hmap by done. by apply (ko_kernel _ Hok).
Qed.

Lemma first_run_regs p :
  length (saved_register p) = Z.to_nat SAVED_REGISTER_SIZE ->
  length (saved_register (first_run p)) = Z.to_nat SAVED_REGISTER_SIZE.
Proof.
  intros Hl. unfold SAVED_REGISTER_SIZE, SAVED_REGISTER_NUM in *. simpl.
  rewrite !length_set_u32; rewrite ?length_set_u32, ?Hl; lia.
Qed.

Lemma can_run_loaded v : can_run v = true -> loaded v.
Proof. by destruct v. Qed.

(** [proc_yield], from a state that keeps the invariant: the [k]-th entry after
    the current one, the first that can run, gets the processor; or there is
    none and the kernel stops. *)
Lemma yield_spec (s : st) :
  k_ok s ->
  (proc_yield s = Fatal "proc_yield: no runnable process" /\
   forall i, 0 <= i < MAX_NPROCESS -> can_run (status (proc s i)) = false) \/
  (exists k s', 1 <= k <= MAX_NPROCESS /\ let j := (proc_curr_idx s + k) mod MAX_NPROCESS in
     can_run (status (proc s j)) = true /\
     (forall k', 1 <= k' < k ->
        can_run (status (proc s ((proc_curr_idx s + k') mod MAX_NPROCESS))) = false) /\
     proc_yield s = Ok (tt, s') /\ k_run s' /\ proc_curr_idx s' = j /\
     proc_nprocs s' = proc_nprocs s /\
     same_spaces (earth s) (earth s') /\ same_kernel (earth s) (earth s') /\
     forall i, 0 <= i < MAX_NPROCESS -> proc s' i = yielded s j i).
Proof.
  intros Hok. pose proof (ko_idx _ Hok) as Hidx.
  destruct (next_runnable_spec (proc_set s) (proc_curr_idx s) 1 (Z.to_nat MAX_NPROCESS))
    as [[En Hk]|(k & Hk & En & Hr & Hk')]; [lia|left|right].
  - split.
    + unfold proc_yield, bind. cbn [get]. by rewrite En.
    + intros i Hi. specialize (Hk (if proc_curr_idx s <? i then i - proc_curr_idx s
                                   else i - proc_curr_idx s + MAX_NPROCESS)).
      unfold MAX_NPROCESS in *. revert Hk. case_goal; bool_prop; intros Hk.
      * replace (proc_curr_idx s + (i - proc_curr_idx s)) with i in Hk by lia.
        rewrite Z.mod_small in Hk by lia. apply Hk. lia.
      * replace (proc_curr_idx s + (i - proc_curr_idx s + 8)) with (i + 1 * 8) in Hk by lia.
        rewrite Z_mod_plus_full, Z.mod_small in Hk by lia. apply Hk. lia.
  - set (j := (proc_curr_idx s + k) mod MAX_NPROCESS) in *.
    assert (0 <= j < MAX_NPROCESS) as Hj by by apply Z.mod_pos_bound.
    change (can_run (status (proc s j)) = true) in Hr.
    pose proof (can_run_loaded _ Hr) as [Hu Hl].
    destruct (yield_run s j Hok Hj Hu En) as (s' & Ey & Ei & Enp & Hlen & Hsp & Hke & Hvm & Hp).
    exists k, s'. split; [unfold MAX_NPROCESS in *; lia|]. split; [done|]. split; [done|].
    split; [done|]. split; [|done].
    assert (k_ok s') as Hok'.
    { apply (k_ok_change s); try done; [by rewrite Ei|apply Hsp|apply Hsp|]. intros i Hi. rewrite Hp by done.
      pose proof (ko_regs _ Hok i Hi) as Hregs. unfold yielded. cbv zeta. rewrite Ei.
      destruct (bool_decide (i = proc_curr_idx s /\ status (proc s i) = PROC_RUNNING)) eqn:Eb.
      + apply bool_decide_eq_true in Eb as [-> Est]. rewrite Est. rewrite decide_False by done.
        destruct (Z.eqb_spec (proc_curr_idx s) j) as [->|]; simpl; split_and!;
          done || (by intros []) || by apply (ko_regs _ Hok).
      + assert (status (proc s i) = PROC_RUNNING -> i = j) as Hrun.
        { intros Hst. pose proof (ko_running _ Hok i Hi Hst). apply bool_decide_eq_false in Eb. tauto. }
        destruct (Z.eqb_spec i j) as [->|]; [|by split_and!].
        destruct (decide (status (proc s j) = PROC_READY)); simpl;
          split_and!; try done. by apply first_run_regs. }
    split; [done| |].
    + unfold curr_status, curr. rewrite Ei, Hp by done. unfold yielded. by rewrite Z.eqb_refl.
    + unfold curr_pid, curr. rewrite Ei, Hp, Hvm by done. unfold yielded. rewrite Z.eqb_refl.
      cbv zeta. by destruct (bool_decide _), (decide _).
Qed.

(** ** Writing to the process in memory *)

(** The write of [l] at [a] in the address space of the process in memory. *)
Record wrote (e e' : E) (a : Z) (l : list byte) : Prop := {
  w_ok : e_ok e';
  w_platform : earth_platform e' = earth_platform e;
  w_vm : e_vm e' = e_vm e;
  w_mepc : mepc_csr e' = mepc_csr e;
  w_mem : emem e' = store (emem e) a l;
  w_mapped q x : mapped e' q x <-> mapped e q x;
  w_other q x : q <> 0 -> q <> e_vm e -> mapped e q x -> eview e' q x = eview e q x;
  w_out x : x < a \/ a + Z.of_nat (length l) <= x ->
    mapped e (e_vm e) x -> eview e' (e_vm e) x = eview e (e_vm e) x
}.

Lemma wr_spec (s : st) a l :
  e_ok (earth s) -> a + Z.of_nat (length l) <= FRAME_CACHE_START ->
  exists e', wr a l s = Ok (tt, set_earth e' s) /\ wrote (earth s) e' a l.
Proof.
  intros He Ha. eexists. split; [reflexivity|].
  destruct (store_space (earth s) a l He Ha) as (H1 & H2 & H3 & H4).
  split; rewrite ?emem_set, ?mepc_set_mem, ?platform_set_mem; try done.
  intros x Hx Hm. rewrite <- H2. rewrite view_curr, emem_set; [|done|rewrite H2; by apply H3].
  rewrite H2, view_curr by done. rewrite store_lookup.
  destruct (Z.leb_spec a x), (Z.ltb_spec x (a + Z.of_nat (length l))); simpl; (done || lia).
Qed.

Lemma wrote_load e e' a l n :
  wrote e e' a l -> n = Z.of_nat (length l) -> mapped_range e (e_vm e) a n ->
  eload e' (e_vm e) a n = l.
Proof.
  intros W -> Hm. rewrite <- (w_vm _ _ _ _ W). rewrite eload_curr.
  - rewrite (w_mem _ _ _ _ W). apply load_store_eq.
  - apply W.
  - intros x Hx. rewrite (w_vm _ _ _ _ W). apply (w_mapped _ _ _ _ W). by apply Hm.
Qed.

Lemma wrote_load_out e e' a l b n :
  wrote e e' a l -> mapped_range e (e_vm e) b n -> b + n <= a \/ a + Z.of_nat (length l) <= b ->
  eload e' (e_vm e) b n = eload e (e_vm e) b n.
Proof.
  intros W Hm Hd. unfold eload. apply list_fmap_ext. intros i x Hx.
  apply list_elem_of_lookup_2, elem_of_seqZ in Hx. apply (w_out _ _ _ _ W); [lia|]. apply Hm. lia.
Qed.

Lemma wrote_load_other e e' a l q b n :
  wrote e e' a l -> q <> 0 -> q <> e_vm e -> mapped_range e q b n ->
  eload e' q b n = eload e q b n.
Proof.
  intros W Hq Hne Hm. unfold eload. apply list_fmap_ext. intros i x Hx.
  apply list_elem_of_lookup_2, elem_of_seqZ in Hx. apply (w_other _ _ _ _ W); [done..|]. apply Hm. lia.
Qed.

Lemma wrote_kernel e e' a l :
  wrote e e' a l -> (forall x, regs_area x -> x < a \/ a + Z.of_nat (length l) <= x) ->
  same_kernel e e'.
Proof.
  intros W Hk. split; [apply W|]. intros x Hx. rewrite (w_mem _ _ _ _ W), store_lookup.
  specialize (Hk x Hx). destruct (Z.leb_spec a x), (Z.ltb_spec x (a + Z.of_nat (length l))); simpl;
    (done || lia).
Qed.

(** The invariant does not depend on the contents of memory. *)
Lemma k_ok_wrote (s : st) e' a l : k_ok s -> wrote (earth s) e' a l -> k_ok (set_earth e' s).
Proof.
  intros Hok W. destruct Hok. split; try done.
  - apply W.
  - intros i Hi Hld x Hx. apply (w_mapped _ _ _ _ W). by apply (ko_mapped0 i).
  - intros q a' Hq Hm. apply (w_mapped _ _ _ _ W) in Hm. by apply (ko_kernel0 q).
Qed.

End spec.

(** Arithmetic on the layout of the system call area and of the kernel area. *)
Ltac sc_lia :=
  unfold kernel_area, regs_area, SAVED_REGISTER_ADDR, SAVED_REGISTER_SIZE, SAVED_REGISTER_NUM, GRASS_STACK_TOP,
    sc_type, sc_msg, sc_sender, sc_receiver, sc_content, sc_retval, SYSCALL_ARG, SYSCALL_SIZE,
    SYS_MSG_SIZE, SYSCALL_MSG_LEN, FRAME_CACHE_START in *; lia.
