(* ===== verification/KernelIpc.v ===== *)
(** Message passing of grass/kernel.c: what [proc_send] and [proc_recv] do
    before they yield the processor. *)

From Stdlib Require Import ZArith Lia Strings.Byte.
From stdpp Require Import base numbers list strings gmap.
From S2P Require Import Prelude Bytes Memory Earth Kernel KernelSpec.

(** ** Lemmas on the searches of the process table *)

Lemma find_pid_some q i l k :
  find_pid q i l = Some k ->
  i <= k /\ exists p, l !! Z.to_nat (k - i) = Some p /\ pid p = q.
Proof.
  revert i. induction l as [|p l IH]; intros i; simpl; [done|].
  destruct (Z.eqb_spec (pid p) q) as [Eq|Ne].
  - intros [= ->]. split; [lia|]. exists p. by rewrite Z.sub_diag.
  - intros (Hle & x & Hl & Hx)%IH. split; [lia|]. exists x. split; [|done].
    by replace (Z.to_nat (k - i)) with (S (Z.to_nat (k - (i + 1)))) by lia.
Qed.

Lemma find_pid_none q i l : find_pid q i l = None <-> Forall (fun p => pid p <> q) l.
Proof.
  revert i. induction l as [|p l IH]; intros i; simpl; [by split|].
  rewrite Forall_cons, <- (IH (i + 1)). destruct (Z.eqb_spec (pid p) q); split; tauto || done.
Qed.

(** The sender found, if any, is waiting to send to [q]. *)
Lemma find_sender_spec q d l :
  (find_sender q d l = d /\ Forall (fun p => ~ (status p = PROC_WAIT_TO_SEND /\ receiver_pid p = q)) l) \/
  (exists k p, l !! k = Some p /\ status p = PROC_WAIT_TO_SEND /\ receiver_pid p = q /\
     find_sender q d l = pid p).
Proof.
  revert d. induction l as [|p l IH]; intros d; simpl; [by left|].
  destruct (bool_decide (status p = PROC_WAIT_TO_SEND) && (receiver_pid p =? q)) eqn:Ep.
  - apply andb_true_iff in Ep as [Es%bool_decide_eq_true Er%Z.eqb_eq].
    destruct (IH (pid p)) as [[-> _]|(k & p' & Hk & H1 & H2 & ->)]; right.
    + by exists O, p.
    + by exists (S k), p'.
  - destruct (IH d) as [[-> Hl]|(k & p' & Hk & H1 & H2 & ->)]; [left|right; by exists (S k), p'].
    split; [done|]. constructor; [|done]. intros [Es Er].
    by rewrite bool_decide_eq_true_2, Er, Z.eqb_refl in Ep.
Qed.

Section ipc.
Context {E : Type} `{EarthLaws E}.
Abbreviation st := (kernel E).

(** The message in the system call area of process [q], and its receiver. *)
Definition message (e : E) (q : Z) : list byte := eload e q sc_msg SYS_MSG_SIZE.
Definition msg_receiver (e : E) (q : Z) : Z := s32 (le_get (eload e q sc_receiver 4)).

(** A message with the sender filled in. *)
Definition stamped (q : Z) (msg : list byte) : list byte := splice msg 0 (le_put 4 (u32 q)).

Lemma k_ok_pid (s : st) i :
  k_ok s -> 0 <= i < MAX_NPROCESS -> status (proc s i) <> PROC_UNUSED ->
  0 < pid (proc s i) <= proc_nprocs s.
Proof.
  intros Hok Hi Hs. pose proof (ko_pid _ Hok i Hi). pose proof (ko_live _ Hok i Hi Hs). lia.
Qed.

Lemma curr_mapped (s : st) :
  k_run s -> curr_pid s <> 0 /\ mapped_range (earth s) (curr_pid s) SYSCALL_ARG SYSCALL_SIZE.
Proof.
  intros [Hok Hst Hvm]. pose proof (ko_idx _ Hok) as Hi.
  change (status (proc s (proc_curr_idx s)) = PROC_RUNNING) in Hst. split.
  - apply (ko_live _ Hok); [done|congruence].
  - apply (ko_mapped _ Hok); [done|]. by rewrite Hst.
Qed.

Lemma mapped_sub e q a n b m :
  mapped_range (E := E) e q a n -> a <= b -> b + m <= a + n -> mapped_range e q b m.
Proof. intros Hm Hb Hn x Hx. apply Hm. lia. Qed.

Lemma message_len e q : length (message e q) = Z.to_nat SYS_MSG_SIZE.
Proof. unfold message, eload. by rewrite length_fmap, length_seqZ. Qed.

Lemma eload_app (e : E) q a n m :
  0 <= n -> 0 <= m -> eload e q a (n + m) = eload e q a n ++ eload e q (a + n) m.
Proof.
  intros Hn Hm. unfold eload. rewrite seqZ_app by done. rewrite fmap_app. f_equal.
  rewrite Z.add_0_l, <- (Z.add_0_r n) at 1. rewrite <- fmap_add_seqZ, <- list_fmap_compose.
  apply list_fmap_ext. intros i x _. simpl. f_equal. lia.
Qed.

(** [sc->msg.sender = curr_pid]: the message of the current process, with the
    sender filled in. *)
Lemma stamp_spec (s : st) :
  k_run s ->
  exists e', wr_int sc_sender (curr_pid s) s = Ok (tt, set_earth e' s) /\
    wrote (earth s) e' sc_sender (le_put 4 (u32 (curr_pid s))) /\
    message e' (curr_pid s) = stamped (curr_pid s) (message (earth s) (curr_pid s)) /\
    msg_receiver e' (curr_pid s) = msg_receiver (earth s) (curr_pid s).
Proof.
  intros R. destruct (curr_mapped s R) as [Hq Hm]. destruct R as [Hok Hst Hvm].
  destruct (wr_spec s sc_sender (le_put 4 (u32 (curr_pid s)))) as (e' & Ew & W);
    [apply Hok|rewrite length_le_put; sc_lia|].
  exists e'. split; [exact Ew|]. split; [done|]. rewrite <- Hvm in *. split.
  - change sc_sender with sc_msg in W. unfold message. change SYS_MSG_SIZE with (4 + (4 + SYSCALL_MSG_LEN)).
    rewrite !(eload_app _ _ _ 4 (4 + SYSCALL_MSG_LEN)) by sc_lia. unfold stamped.
    rewrite (wrote_load _ _ _ _ 4 W), (wrote_load_out _ _ _ _ (sc_msg + 4) _ W).
    + unfold splice. simpl take. rewrite app_nil_l, length_le_put. simpl (0 + 4)%nat.
      rewrite drop_app_length'; [done|]. unfold eload. by rewrite length_fmap, length_seqZ.
    + eapply mapped_sub; [done|sc_lia..].
    + rewrite length_le_put. sc_lia.
    + by rewrite length_le_put.
    + eapply mapped_sub; [done|sc_lia..].
  - unfold msg_receiver. rewrite (wrote_load_out _ _ _ _ sc_receiver _ W); [done| |].
    + eapply mapped_sub; [done|sc_lia..].
    + rewrite length_le_put. sc_lia.
Qed.

(** [e'] is [e] with the message of [q1] copied to [q2]. *)
Record delivered (e e' : E) (q1 q2 : Z) : Prop := {
  d_ok : e_ok e';
  d_platform : earth_platform e' = earth_platform e;
  d_vm : e_vm e' = q2;
  d_kernel : same_kernel e e';
  d_mapped q x : q <> 0 -> mapped e' q x <-> mapped e q x;
  d_msg : message e' q2 = message e q1;
  d_other q x : q <> 0 -> mapped e q x ->
    q <> q2 \/ x < sc_msg \/ sc_msg + SYS_MSG_SIZE <= x -> eview e' q x = eview e q x
}.

Lemma mapped_same e e' q a n :
  same_spaces (E := E) e e' -> q <> 0 -> mapped_range e q a n -> mapped_range e' q a n.
Proof. intros Hs Hq Hm x Hx. apply (ss_mapped _ _ Hs); [done|]. by apply Hm. Qed.

Lemma copy_msg_spec (s : st) q1 q2 :
  k_ok s -> q1 <> 0 -> q2 <> 0 ->
  mapped_range (earth s) q1 SYSCALL_ARG SYSCALL_SIZE ->
  mapped_range (earth s) q2 SYSCALL_ARG SYSCALL_SIZE ->
  exists e', copy_msg q1 q2 s = Ok (tt, set_earth e' s) /\ delivered (earth s) e' q1 q2.
Proof.
  intros Hok Hq1 Hq2 Hm1 Hm2. unfold copy_msg.
  assert (forall e, same_spaces (earth s) e -> forall q a, q <> 0 -> mapped e q a -> ~ kernel_area a) as Hk.
  { intros e Hs q a Hq Hm. apply (ko_kernel _ Hok q); [done|]. by apply (ss_mapped _ _ Hs). }
  destruct (switch_same (earth s) q1) as (e1 & E1 & Hs1 & Hk1 & Hv1);
    [apply Hok|done|apply Hk, same_spaces_refl, Hok|].
  rewrite (bind_ok _ _ _ _ _ (on_earth_ok _ s _ _ E1)). unfold bind at 1. cbn [rd gets].
  destruct (switch_same e1 q2) as (e2 & E2 & Hs2 & Hk2 & Hv2); [apply Hs1|done|by apply Hk|].
  rewrite (bind_ok _ _ _ _ _ (on_earth_ok _ (set_earth e1 s) _ _ E2)).
  change (earth (set_earth e1 s)) with e1.
  pose proof (same_spaces_trans _ _ _ Hs1 Hs2) as Hs12.
  destruct (wr_spec (set_earth e2 (set_earth e1 s)) sc_msg (load (emem e1) sc_msg SYS_MSG_SIZE))
    as (e3 & E3 & W); [apply Hs2|rewrite length_load; sc_lia|].
  exists e3. split; [exact E3|]. change (earth (set_earth e2 _)) with e2 in W.
  assert (mapped_range e2 q2 sc_msg SYS_MSG_SIZE) as Hmsg2.
  { eapply mapped_sub; [by eapply mapped_same; [exact Hs12| |]|sc_lia..]. }
  assert (load (emem e1) sc_msg SYS_MSG_SIZE = message (earth s) q1) as Hload.
  { rewrite <- eload_curr; [|apply Hs1|].
    - rewrite Hv1. unfold message. apply (eload_same (earth s)); [done..|].
      eapply mapped_sub; [exact Hm1|sc_lia..].
    - rewrite Hv1. eapply mapped_sub; [by eapply mapped_same; [exact Hs1| |]|sc_lia..]. }
  rewrite Hload in W. split.
  - apply W.
  - rewrite (w_platform _ _ _ _ W). apply Hs12.
  - by rewrite (w_vm _ _ _ _ W).
  - eapply same_kernel_trans; [exact Hk1|]. eapply same_kernel_trans; [exact Hk2|].
    apply (wrote_kernel _ _ _ _ W). intros x Hx. rewrite message_len. sc_lia.
  - intros q x Hq. rewrite (w_mapped _ _ _ _ W). by apply Hs12.
  - unfold message at 1. rewrite <- Hv2. apply (wrote_load _ _ _ _ _ W).
    + by rewrite message_len.
    + by rewrite Hv2.
  - intros q x Hq Hm Hx. rewrite <- (ss_view _ _ Hs12 q x) by done.
    pose proof (proj2 (ss_mapped _ _ Hs12 q x Hq) Hm) as Hm'.
    destruct (decide (q = e_vm e2)) as [->|Hne]; [|by apply (w_other _ _ _ _ W)].
    apply (w_out _ _ _ _ W); [|done]. rewrite message_len. sc_lia.
Qed.

(** Entry [i] of the table changed by [f], which only affects its status and
    receiver. *)
Lemma k_ok_status (s s' : st) i f :
  k_ok s -> 0 <= i < MAX_NPROCESS -> length (proc_set s') = Z.to_nat MAX_NPROCESS ->
  proc_curr_idx s' = proc_curr_idx s -> proc_nprocs s' = proc_nprocs s -> e_ok (earth s') ->
  (forall q x, q <> 0 -> mapped (earth s') q x <-> mapped (earth s) q x) ->
  (forall j, 0 <= j < MAX_NPROCESS -> proc s' j = if j =? i then f (proc s i) else proc s j) ->
  pid (f (proc s i)) = pid (proc s i) ->
  saved_register (f (proc s i)) = saved_register (proc s i) ->
  loaded (status (proc s i)) -> status (f (proc s i)) <> PROC_RUNNING -> k_ok s'.
Proof.
  intros Hok Hi Hl Eidx En He Hm Hp Hpid Hregs [Hu Hld] Hnr.
  apply (k_ok_change s); try done; [by rewrite Eidx; apply Hok|]. intros j Hj.
  rewrite Hp, Eidx by done. destruct (Z.eqb_spec j i) as [->|Hne].
  - rewrite Hpid, Hregs. split_and!; try done. by apply (ko_regs _ Hok).
  - split_and!; try done; [by apply (ko_regs _ Hok)|by apply (ko_running _ Hok)].
Qed.

(** The receiver that [proc_send] looks up. *)
Lemma send_unfold (s : st) :
  k_run s -> let r := msg_receiver (earth s) (curr_pid s) in
  exists e1, wrote (earth s) e1 sc_sender (le_put 4 (u32 (curr_pid s))) /\
    message e1 (curr_pid s) = stamped (curr_pid s) (message (earth s) (curr_pid s)) /\
    k_run (set_earth e1 s) /\
    proc_send s = match find_pid r 0 (proc_set s) with
      | Some i =>
          bind (if decide (status (proc s i) <> PROC_WAIT_TO_RECV) then
             upd (proc_curr_idx s) (fun p => set_receiver_pid r (set_status PROC_WAIT_TO_SEND p))
           else bind (copy_msg (curr_pid s) r) (fun _ => proc_set_runnable r))
          (fun _ => proc_yield) (set_earth e1 s)
      | None => wr_int sc_retval (-1) (set_earth e1 s)
      end.
Proof.
  intros R r. destruct (stamp_spec s R) as (e1 & E1 & W & Hmsg & Hr).
  destruct (curr_mapped s R) as [Hq Hm].
  assert (k_run (set_earth e1 s)) as R1.
  { destruct R as [Hok Hst Hvm]. split; [by eapply k_ok_wrote|done|].
    simpl. by rewrite (w_vm _ _ _ _ W). }
  exists e1. split; [done|]. split; [done|]. split; [done|].
  unfold proc_send. unfold bind at 1. cbn [get]. rewrite (bind_ok _ _ _ _ _ E1).
  unfold bind at 1. cbn [rd_int gets]. change (earth (set_earth e1 s)) with e1.
  assert (s32 (load_u32 (emem e1) sc_receiver) = r) as ->.
  { unfold r. rewrite <- Hr. unfold msg_receiver, load_u32.
    pose proof (kr_vm _ R1 : e_vm e1 = curr_pid s) as Hv. rewrite <- Hv.
    rewrite eload_curr; [done|apply W|]. rewrite Hv.
    intros x Hx. apply (w_mapped _ _ _ _ W). apply Hm. sc_lia. }
  unfold bind at 1. cbn [get]. change (proc_set (set_earth e1 s)) with (proc_set s).
  by destruct (find_pid r 0 (proc_set s)).
Qed.

Lemma find_pid_proc (s : st) r i :
  find_pid r 0 (proc_set s) = Some i -> 0 <= i < Z.of_nat (length (proc_set s)) /\ pid (proc s i) = r.
Proof.
  intros (Hi & p & Hp & Hr)%find_pid_some. rewrite Z.sub_0_r in Hp.
  pose proof (lookup_lt_Some _ _ _ Hp). unfold proc. rewrite Hp. split; [lia|done].
Qed.

(** [proc_send] to a process that waits to receive: the message arrives. *)
Lemma send_deliver (s : st) i :
  k_run s -> let cp := curr_pid s in let r := msg_receiver (earth s) cp in
  find_pid r 0 (proc_set s) = Some i -> status (proc s i) = PROC_WAIT_TO_RECV ->
  exists s2, proc_send s = proc_yield s2 /\ k_ok s2 /\ 0 <= i < MAX_NPROCESS /\
    pid (proc s i) = r /\ r <> 0 /\ r <> cp /\ proc_curr_idx s2 = proc_curr_idx s /\
    proc_nprocs s2 = proc_nprocs s /\
    (forall j, 0 <= j < MAX_NPROCESS -> proc s2 j =
       if j =? i then set_status PROC_RUNNABLE (proc s i) else proc s j) /\
    message (earth s2) r = stamped cp (message (earth s) cp) /\
    same_kernel (earth s) (earth s2) /\
    (forall q x, q <> 0 -> mapped (earth s2) q x <-> mapped (earth s) q x) /\
    (forall q x, q <> 0 -> mapped (earth s) q x ->
       q <> cp /\ q <> r \/ x < SYSCALL_ARG \/ SYSCALL_ARG + SYSCALL_SIZE <= x ->
       eview (earth s2) q x = eview (earth s) q x).
Proof.
  intros R cp r Hf Hst. destruct (send_unfold s R) as (e1 & W & Hmsg & R1 & ->).
  fold cp in Hmsg, W. fold cp r.
  rewrite Hf, decide_False by (rewrite Hst; tauto).
  destruct (find_pid_proc s r i Hf) as [Hi Hpid]. pose proof (kr_ok _ R) as Hok.
  rewrite (ko_len _ Hok) in Hi. change (Z.of_nat (Z.to_nat MAX_NPROCESS)) with MAX_NPROCESS in Hi.
  assert (loaded (status (proc s i))) as Hld by by rewrite Hst.
  assert (r <> 0) as Hr0. { rewrite <- Hpid. apply (ko_live _ Hok); [done|apply Hld]. }
  destruct (curr_mapped _ R1) as [Hq Hm].
  destruct (copy_msg_spec (set_earth e1 s) cp r) as (e2 & E2 & D); [apply R1|done|done|exact Hm| |].
  { rewrite <- Hpid. by apply (ko_mapped _ (kr_ok _ R1) i). }
  change (earth (set_earth e1 s)) with e1 in D.
  set (s2' := set_earth e2 (set_earth e1 s)).
  destruct (proc_set_status_spec s2' r PROC_RUNNABLE (ko_len _ Hok)) as (s2 & Es & Ee & Ei & En & Hl & Hp).
  exists s2. rewrite bind_assoc, (bind_ok _ _ _ _ _ E2). fold s2'. unfold proc_set_runnable.
  rewrite (bind_ok _ _ _ _ _ Es). split; [done|].
  assert (forall j, 0 <= j < MAX_NPROCESS -> proc s2 j =
       if j =? i then set_status PROC_RUNNABLE (proc s i) else proc s j) as Hp'.
  { intros j Hj. rewrite Hp by done. change (proc s2' j) with (proc s j).
    destruct (Z.eqb_spec j i) as [->|Hne]; [by rewrite Hpid, Z.eqb_refl|].
    rewrite (proj2 (Z.eqb_neq _ _)); [done|]. intros Ep. apply Hne. apply (ko_uniq _ Hok); congruence. }
  assert (forall q x, q <> 0 -> mapped (earth s2) q x <-> mapped (earth s) q x) as Hmap.
  { intros q x Hq'. rewrite Ee. change (earth s2') with e2.
    by rewrite (d_mapped _ _ _ _ D), (w_mapped _ _ _ _ W). }
  split. { apply (k_ok_status s s2 i (set_status PROC_RUNNABLE)); try done. rewrite Ee. apply D. }
  do 3 (split; [done|]). split.
  { intros Ecp. assert (i = proc_curr_idx s) as ->.
    { apply (ko_uniq _ Hok); [done|apply Hok| |]; rewrite Hpid; done. }
    pose proof (kr_status _ R) as Hrun. unfold curr_status, curr in Hrun. congruence. }
  do 3 (split; [done|]). rewrite Ee. change (earth s2') with e2.
  split; [by rewrite (d_msg _ _ _ _ D)|]. split.
  { eapply same_kernel_trans; [|apply D]. apply (wrote_kernel _ _ _ _ W).
    intros x Hx. rewrite length_le_put. sc_lia. }
  split; [by rewrite Ee in Hmap|]. intros q x Hq' Hmx Hx.
  rewrite (d_other _ _ _ _ D); [|done|by apply (w_mapped _ _ _ _ W)|destruct Hx as [[_ ?]|?]; [by left|right; sc_lia]].
  destruct (decide (q = e_vm (earth s))) as [->|]; [|by apply (w_other _ _ _ _ W)].
  apply (w_out _ _ _ _ W); [|done]. rewrite length_le_put.
  destruct Hx as [[[] _]|Hx]; [exact (kr_vm _ R)|sc_lia].
Qed.

(** The rest of memory is left alone by a write in the system call area. *)
Lemma wrote_sc_other e e' a l q x :
  wrote (E := E) e e' a l -> SYSCALL_ARG <= a -> a + Z.of_nat (length l) <= SYSCALL_ARG + SYSCALL_SIZE ->
  q <> 0 -> mapped e q x -> q <> e_vm e \/ x < SYSCALL_ARG \/ SYSCALL_ARG + SYSCALL_SIZE <= x ->
  eview e' q x = eview e q x.
Proof.
  intros W Ha Hl Hq Hm Hx. destruct (decide (q = e_vm e)) as [->|Hne].
  - apply (w_out _ _ _ _ W); [|done]. destruct Hx as [?|Hx]; [done|lia].
  - by apply (w_other _ _ _ _ W).
Qed.

(** [proc_send] to a process that does not wait to receive: the sender waits,
    with its message. *)
Lemma send_block (s : st) i :
  k_run s -> let cp := curr_pid s in let r := msg_receiver (earth s) cp in
  find_pid r 0 (proc_set s) = Some i -> status (proc s i) <> PROC_WAIT_TO_RECV ->
  exists s2, proc_send s = proc_yield s2 /\ k_ok s2 /\ proc_curr_idx s2 = proc_curr_idx s /\
    proc_nprocs s2 = proc_nprocs s /\
    (forall j, 0 <= j < MAX_NPROCESS -> proc s2 j =
       if j =? proc_curr_idx s then set_receiver_pid r (set_status PROC_WAIT_TO_SEND (curr s))
       else proc s j) /\
    message (earth s2) cp = stamped cp (message (earth s) cp) /\
    same_kernel (earth s) (earth s2) /\
    (forall q x, q <> 0 -> mapped (earth s2) q x <-> mapped (earth s) q x) /\
    (forall q x, q <> 0 -> mapped (earth s) q x ->
       q <> cp \/ x < sc_sender \/ sc_sender + 4 <= x ->
       eview (earth s2) q x = eview (earth s) q x).
Proof.
  intros R cp r Hf Hst. destruct (send_unfold s R) as (e1 & W & Hmsg & R1 & ->).
  fold cp in Hmsg, W. fold cp r. rewrite Hf, decide_True by done. pose proof (kr_ok _ R) as Hok.
  set (f := fun p => set_receiver_pid r (set_status PROC_WAIT_TO_SEND p)).
  unfold bind. cbn [upd modify]. exists (upd_proc (proc_curr_idx s) f (set_earth e1 s)).
  split; [done|].
  assert (forall j, 0 <= j < MAX_NPROCESS -> proc (upd_proc (proc_curr_idx s) f (set_earth e1 s)) j =
     if j =? proc_curr_idx s then f (curr s) else proc s j) as Hp.
  { intros j Hj. rewrite proc_upd; [done|apply Hok|apply Hok|lia]. }
  pose proof (kr_status _ R) as Hrun. unfold curr_status, curr in Hrun.
  split.
  { apply (k_ok_status s _ (proc_curr_idx s) f); try done; [apply Hok| |apply W| |by rewrite Hrun].
    - simpl. rewrite length_insert. apply Hok.
    - intros q x Hq. apply (w_mapped _ _ _ _ W). }
  do 4 (split; [done|]). split.
  { apply (wrote_kernel _ _ _ _ W). intros x Hx. rewrite length_le_put. sc_lia. }
  split; [intros q x Hq; apply (w_mapped _ _ _ _ W)|]. intros q x Hq Hm Hx.
  destruct (decide (q = e_vm (earth s))) as [->|Hne]; [|by apply (w_other _ _ _ _ W)].
  apply (w_out _ _ _ _ W); [|done]. rewrite length_le_put. destruct Hx as [[]|Hx]; [by rewrite (kr_vm _ R)|lia].
Qed.

(** [proc_send] to a pid that no entry has: the call fails. *)
Lemma send_none (s : st) :
  k_run s -> let cp := curr_pid s in let r := msg_receiver (earth s) cp in
  find_pid r 0 (proc_set s) = None ->
  exists e', proc_send s = Ok (tt, set_earth e' s) /\ k_run (set_earth e' s) /\
    eload e' cp sc_retval 4 = le_put 4 (u32 (-1)) /\ same_kernel (earth s) e' /\
    (forall q x, q <> 0 -> mapped e' q x <-> mapped (earth s) q x) /\
    (forall q x, q <> 0 -> mapped (earth s) q x ->
       q <> cp \/ x < SYSCALL_ARG \/ SYSCALL_ARG + SYSCALL_SIZE <= x -> eview e' q x = eview (earth s) q x).
Proof.
  intros R cp r Hf. destruct (send_unfold s R) as (e1 & W & Hmsg & R1 & ->).
  fold cp in Hmsg, W. fold cp r. rewrite Hf.
  destruct (curr_mapped _ R1) as [Hq Hm]. pose proof (kr_vm _ R1 : e_vm e1 = cp) as Hv1.
  destruct (wr_spec (set_earth e1 s) sc_retval (le_put 4 (u32 (-1)))) as (e2 & E2 & W2);
    [apply R1|rewrite length_le_put; sc_lia|].
  change (earth (set_earth e1 s)) with e1 in W2. exists e2. split; [exact E2|]. split.
  { destruct R1 as [Hok1 Hst1 _]. split; [|exact Hst1|].
    - apply (k_ok_wrote (set_earth e1 s) e2 _ _ Hok1 W2).
    - change (e_vm e2 = cp). by rewrite (w_vm _ _ _ _ W2). }
  split.
  { rewrite <- Hv1. apply (wrote_load _ _ _ _ _ W2); [by rewrite length_le_put|].
    rewrite Hv1. eapply mapped_sub; [exact Hm|sc_lia..]. }
  split.
  { eapply same_kernel_trans; [apply (wrote_kernel _ _ _ _ W)|apply (wrote_kernel _ _ _ _ W2)];
      intros x Hx; rewrite length_le_put; sc_lia. }
  split.
  { intros q x Hq'. by rewrite (w_mapped _ _ _ _ W2), (w_mapped _ _ _ _ W). }
  intros q x Hq' Hmx Hx. etransitivity; [apply (wrote_sc_other _ _ _ _ q x W2)|apply (wrote_sc_other _ _ _ _ q x W)];
    rewrite ?length_le_put; try done; try sc_lia.
  all: by rewrite ?(w_mapped _ _ _ _ W), ?Hv1, ?(kr_vm _ R).
Qed.

(** [proc_recv] when a process waits to send: its message arrives. *)
Lemma recv_deliver (s : st) k :
  k_run s -> let cp := curr_pid s in let q1 := pid (proc s k) in
  0 <= k < MAX_NPROCESS -> status (proc s k) = PROC_WAIT_TO_SEND ->
  find_sender cp (-1) (proc_set s) = q1 ->
  exists s2, proc_recv s = proc_yield s2 /\ k_ok s2 /\ proc_curr_idx s2 = proc_curr_idx s /\
    proc_nprocs s2 = proc_nprocs s /\
    (forall j, 0 <= j < MAX_NPROCESS -> proc s2 j =
       if j =? k then set_status PROC_RUNNABLE (proc s k) else proc s j) /\
    message (earth s2) cp = message (earth s) q1 /\ same_kernel (earth s) (earth s2) /\
    (forall q x, q <> 0 -> mapped (earth s2) q x <-> mapped (earth s) q x) /\
    (forall q x, q <> 0 -> mapped (earth s) q x ->
       q <> cp \/ x < SYSCALL_ARG \/ SYSCALL_ARG + SYSCALL_SIZE <= x ->
       eview (earth s2) q x = eview (earth s) q x).
Proof.
  intros R cp q1 Hk Hst Hf. unfold proc_recv. unfold bind at 1. cbn [get]. fold cp. cbv zeta. rewrite Hf.
  pose proof (kr_ok _ R) as Hok. assert (loaded (status (proc s k))) as Hld by by rewrite Hst.
  pose proof (k_ok_pid s k Hok Hk (proj1 Hld)) as Hq1. fold q1 in Hq1.
  rewrite (proj2 (Z.eqb_neq q1 (-1))) by lia.
  destruct (curr_mapped s R) as [Hq Hm].
  destruct (copy_msg_spec s q1 cp Hok) as (e2 & E2 & D); [lia|done|by apply (ko_mapped _ Hok)|exact Hm|].
  destruct (proc_set_status_spec (set_earth e2 s) q1 PROC_RUNNABLE (ko_len _ Hok))
    as (s2 & Es & Ee & Ei & En & Hl & Hp).
  exists s2. rewrite bind_assoc, (bind_ok _ _ _ _ _ E2). unfold proc_set_runnable.
  rewrite (bind_ok _ _ _ _ _ Es). split; [done|].
  assert (forall j, 0 <= j < MAX_NPROCESS -> proc s2 j =
       if j =? k then set_status PROC_RUNNABLE (proc s k) else proc s j) as Hp'.
  { intros j Hj. rewrite Hp by done. change (proc (set_earth e2 s) j) with (proc s j).
    destruct (Z.eqb_spec j k) as [->|Hne]; [by rewrite Z.eqb_refl|].
    rewrite (proj2 (Z.eqb_neq _ _)); [done|]. intros Ep. apply Hne. apply (ko_uniq _ Hok); [done..|lia]. }
  change (earth (set_earth e2 s)) with e2 in Ee. rewrite Ee. split.
  { apply (k_ok_status s s2 k (set_status PROC_RUNNABLE)); try done; rewrite Ee; apply D. }
  do 3 (split; [done|]). do 3 (split; [apply D|]).
  intros q x Hq' Hmx Hx. apply (d_other _ _ _ _ D); [done..|]. destruct Hx as [?|Hx]; [by left|]. right. sc_lia.
Qed.

(** [proc_recv] when no process waits to send: the receiver waits. *)
Lemma recv_block (s : st) :
  k_run s -> find_sender (curr_pid s) (-1) (proc_set s) = -1 ->
  let s2 := upd_proc (proc_curr_idx s) (set_status PROC_WAIT_TO_RECV) s in
  proc_recv s = proc_yield s2 /\ k_ok s2 /\
  forall j, 0 <= j < MAX_NPROCESS -> proc s2 j =
    if j =? proc_curr_idx s then set_status PROC_WAIT_TO_RECV (curr s) else proc s j.
Proof.
  intros R Hf s2. pose proof (kr_ok _ R) as Hok. pose proof (kr_status _ R) as Hrun.
  unfold curr_status, curr in Hrun.
  assert (forall j, 0 <= j < MAX_NPROCESS -> proc s2 j =
    if j =? proc_curr_idx s then set_status PROC_WAIT_TO_RECV (curr s) else proc s j) as Hp.
  { intros j Hj. unfold s2. rewrite proc_upd; [done|apply Hok|apply Hok|lia]. }
  split; [unfold proc_recv, bind; cbn [get]; by rewrite Hf|]. split; [|done].
  apply (k_ok_status s s2 (proc_curr_idx s) (set_status PROC_WAIT_TO_RECV)); try done; [apply Hok| |apply Hok|by rewrite Hrun].
  simpl. rewrite length_insert. apply Hok.
Qed.
End ipc.
