(* ===== verification/KernelTrap.v ===== *)
(** The traps of grass/kernel.c: what the handlers keep, whichever branch they
    take — the invariant, the contexts of the processes that do not run, and
    the memory of every process outside its system call area. *)

From Stdlib Require Import ZArith Lia Strings.Byte.
From stdpp Require Import base numbers list strings gmap.
From S2P Require Import Prelude Bytes Memory Earth Kernel KernelSpec KernelIpc.

Section trap.
Context {E : Type} `{EarthLaws E}.
Abbreviation st := (kernel E).

(** What a system call may do to the earth layer: addresses keep their owners,
    and memory changes only in the system call areas. *)
Record sc_change (e e' : E) : Prop := {
  sg_ok : e_ok e';
  sg_mapped q x : q <> 0 -> mapped e' q x <-> mapped e q x;
  sg_view q x : q <> 0 -> mapped e q x ->
    x < SYSCALL_ARG \/ SYSCALL_ARG + SYSCALL_SIZE <= x -> eview e' q x = eview e q x;
  sg_regs a : regs_area a -> load_byte (emem e') a = load_byte (emem e) a
}.

Lemma sc_change_refl e : e_ok e -> sc_change e e.
Proof. by split. Qed.

Lemma sc_change_trans e1 e2 e3 : sc_change e1 e2 -> sc_change e2 e3 -> sc_change e1 e3.
Proof.
  intros [A1 A2 A3 A4] [B1 B2 B3 B4]. split; [done| | |].
  - intros q x Hq. by rewrite B2, A2.
  - intros q x Hq Hm Hx. rewrite B3, A3; [done..| |done]. by apply A2.
  - intros a Ha. by rewrite B4, A4.
Qed.

Lemma same_sc_change e e' : same_spaces e e' -> same_kernel e e' -> sc_change e e'.
Proof. intros [A1 A2 A3 A4] [_ Hk]. split; auto. Qed.

(** A process is left with its registers, or it starts for the first time. *)
Definition ctx_kept (p p' : process) : Prop :=
  (mepc p' = mepc p /\ saved_register p' = saved_register p) \/
  (status p = PROC_READY /\ mepc p' = APPS_ENTRY /\
   saved_register p' = saved_register (first_run p)).

(** A process that waits to send to another than the current process goes on
    waiting. *)
Definition senders_wait (s s' : st) : Prop := forall i,
  0 <= i < MAX_NPROCESS -> status (proc s i) = PROC_WAIT_TO_SEND -> receiver_pid (proc s i) <> curr_pid s ->
  status (proc s' i) = PROC_WAIT_TO_SEND /\ receiver_pid (proc s' i) = receiver_pid (proc s i).

(** A process that can run and is not the current one goes on being able to run,
    with all of its memory, the message in its system call area included. *)
Definition runnable_kept (s s' : st) : Prop := forall i,
  0 <= i < MAX_NPROCESS -> i <> proc_curr_idx s -> can_run (status (proc s i)) = true ->
  can_run (status (proc s' i)) = true /\
  forall x, mapped (earth s) (pid (proc s i)) x ->
    eview (earth s') (pid (proc s i)) x = eview (earth s) (pid (proc s i)) x.

(** Only process [q0] has changed memory. *)
Definition others_kept (q0 : Z) (e e' : E) : Prop := forall q x,
  q <> 0 -> q <> q0 -> mapped e q x -> eview e' q x = eview e q x.

(** What every handler keeps. *)
Record handled (s s' : st) : Prop := {
  h_run : k_run s';
  h_nprocs : proc_nprocs s' = proc_nprocs s;
  h_pid i : 0 <= i < MAX_NPROCESS -> pid (proc s' i) = pid (proc s i);
  h_ctx i : 0 <= i < MAX_NPROCESS -> ctx_kept (proc s i) (proc s' i);
  h_senders : senders_wait s s';
  h_runnable : runnable_kept s s';
  h_earth : sc_change (earth s) (earth s')
}.

(** The state from which a handler yields. *)
Record prepared (s s' : st) : Prop := {
  p_ok : k_ok s';
  p_nprocs : proc_nprocs s' = proc_nprocs s;
  p_pid i : 0 <= i < MAX_NPROCESS -> pid (proc s' i) = pid (proc s i);
  p_ctx i : 0 <= i < MAX_NPROCESS ->
    mepc (proc s' i) = mepc (proc s i) /\ saved_register (proc s' i) = saved_register (proc s i) /\
    (status (proc s' i) = PROC_READY -> status (proc s i) = PROC_READY);
  p_senders : senders_wait s s';
  p_runnable : runnable_kept s s';
  p_earth : sc_change (earth s) (earth s')
}.

Lemma prepared_refl s : k_ok s -> prepared s s.
Proof. intros Hok. split; try done. apply sc_change_refl, Hok. Qed.

(** Another entry than the current one, in use, has another pid. *)
Lemma other_pid (s : st) i j :
  k_ok s -> 0 <= i < MAX_NPROCESS -> 0 <= j < MAX_NPROCESS -> i <> j -> can_run (status (proc s i)) = true ->
  pid (proc s i) <> 0 /\ pid (proc s i) <> pid (proc s j).
Proof.
  intros Hok Hi Hj Hne Hc. assert (pid (proc s i) <> 0) as Hq.
  { apply (ko_live _ Hok); [done|]. intros Hu. by rewrite Hu in Hc. }
  split; [done|]. intros Epid. by apply Hne, (ko_uniq _ Hok).
Qed.

Lemma runnable_same (s s' : st) :
  k_ok s -> (forall i, 0 <= i < MAX_NPROCESS -> status (proc s' i) = status (proc s i)) ->
  others_kept (curr_pid s) (earth s) (earth s') -> runnable_kept s s'.
Proof.
  intros Hok Hst Hv i Hi Hne Hc. destruct (other_pid s i (proc_curr_idx s) Hok Hi (ko_idx _ Hok) Hne Hc) as [Hq Hqc].
  split; [by rewrite Hst|]. intros x Hm. by apply Hv.
Qed.

(** Entry [j] of the table changed in its status and receiver. *)
Lemma prepared_status (s s' : st) j f :
  k_ok s -> 0 <= j < MAX_NPROCESS -> (can_run (status (proc s j)) = true -> j = proc_curr_idx s) ->
  (forall q x, q <> 0 -> q <> curr_pid s -> q <> pid (proc s j) -> mapped (earth s) q x ->
     eview (earth s') q x = eview (earth s) q x) ->
  k_ok s' -> proc_nprocs s' = proc_nprocs s -> sc_change (earth s) (earth s') ->
  (forall i, 0 <= i < MAX_NPROCESS -> proc s' i = if i =? j then f (proc s j) else proc s i) ->
  pid (f (proc s j)) = pid (proc s j) -> mepc (f (proc s j)) = mepc (proc s j) ->
  saved_register (f (proc s j)) = saved_register (proc s j) ->
  status (f (proc s j)) <> PROC_READY ->
  (status (proc s j) = PROC_WAIT_TO_SEND -> receiver_pid (proc s j) = curr_pid s) -> prepared s s'.
Proof.
  intros Hok0 Hj Hcj Hv Hok Hn He Hp H1 H2 H3 H4 H5. split; try done.
  - intros i Hi. rewrite Hp by done. by destruct (Z.eqb_spec i j) as [->|].
  - intros i Hi. rewrite Hp by done. by destruct (Z.eqb_spec i j) as [->|].
  - intros i Hi Hst Hr. rewrite Hp by done. destruct (Z.eqb_spec i j) as [->|]; [|done]. by rewrite H5 in Hr.
  - intros i Hi Hne Hc. assert (i <> j) as Hij by (intros ->; auto).
    rewrite Hp, (proj2 (Z.eqb_neq _ _)) by done. split; [done|]. intros x Hm.
    destruct (other_pid s i j Hok0 Hi Hj Hij Hc) as [Hq Hqj].
    apply Hv; try done. by apply (other_pid s i (proc_curr_idx s) Hok0 Hi (ko_idx _ Hok0) Hne Hc).
Qed.

Lemma yielded_ctx (s : st) j i :
  pid (yielded s j i) = pid (proc s i) /\ ctx_kept (proc s i) (yielded s j i).
Proof.
  unfold yielded, ctx_kept. cbv zeta.
  destruct (bool_decide (i = proc_curr_idx s /\ status (proc s i) = PROC_RUNNING)) eqn:Eb.
  - apply bool_decide_eq_true in Eb as [_ Es]. rewrite decide_False by done.
    destruct (i =? j); split; auto.
  - destruct (i =? j); [|split; auto].
    destruct (decide (status (proc s i) = PROC_READY)); simpl; split; auto.
Qed.

Lemma yielded_sender (s : st) j i :
  can_run (status (proc s j)) = true -> status (proc s i) = PROC_WAIT_TO_SEND -> yielded s j i = proc s i.
Proof.
  intros Hj Hi. unfold yielded. cbv zeta. rewrite bool_decide_eq_false_2 by (rewrite Hi; by intros [_ ?]).
  destruct (Z.eqb_spec i j) as [->|]; [|done]. by rewrite Hi in Hj.
Qed.

(** The status of a process that another one yields to, or not. *)
Lemma yielded_status (s : st) j i :
  status (yielded s j i) =
  if i =? j then PROC_RUNNING
  else if bool_decide (i = proc_curr_idx s /\ status (proc s i) = PROC_RUNNING) then PROC_RUNNABLE
  else status (proc s i).
Proof. unfold yielded. cbv zeta. destruct (i =? j); [done|]. by case_bool_decide. Qed.

Lemma yielded_can_run (s : st) j i :
  can_run (status (proc s i)) = true -> can_run (status (yielded s j i)) = true.
Proof. intros Hc. rewrite yielded_status. destruct (i =? j); [done|]. by case_bool_decide. Qed.

Lemma yield_handled (s s2 s' : st) :
  prepared s s2 -> proc_yield s2 = Ok (tt, s') -> handled s s'.
Proof.
  intros P Ey. destruct (yield_spec s2 (p_ok _ _ P))
    as [[Ef _]|(k & s1 & Hk & Hr & Hk' & Es & R & Ei & En & Hsp & Hke & Hp)]; [congruence|].
  assert (s1 = s') as -> by congruence. split.
  - done.
  - rewrite <- (p_nprocs _ _ P). exact En.
  - intros i Hi. rewrite Hp by done. rewrite (proj1 (yielded_ctx s2 _ i)). by apply (p_pid _ _ P).
  - intros i Hi. rewrite Hp by done. destruct (p_ctx _ _ P i Hi) as (Hm & Hs & Hst).
    destruct (yielded_ctx s2 ((proc_curr_idx s2 + k) mod MAX_NPROCESS) i) as [_ [[H1 H2]|(H1 & H2 & H3)]].
    + left. by rewrite H1, H2.
    + right. split; [by apply Hst|]. split; [done|]. rewrite H3. unfold first_run. simpl. by rewrite Hs.
  - intros i Hi Hst Hrp. destruct (p_senders _ _ P i Hi Hst Hrp) as [Hst2 Hrp2].
    by rewrite Hp, yielded_sender by done.
  - intros i Hi Hne Hc. destruct (p_runnable _ _ P i Hi Hne Hc) as [Hc2 Hv].
    rewrite Hp by done. split; [by apply yielded_can_run|]. intros x Hm.
    rewrite (ss_view _ _ Hsp), Hv; [done..| |].
    + rewrite <- (p_pid _ _ P i Hi). apply (ko_live _ (p_ok _ _ P)); [done|]. intros Hu. by rewrite Hu in Hc2.
    + apply (sg_mapped _ _ (p_earth _ _ P)); [|done].
      rewrite <- (p_pid _ _ P i Hi). apply (ko_live _ (p_ok _ _ P)); [done|]. intros Hu. by rewrite Hu in Hc2.
  - eapply sc_change_trans; [apply P|]. by apply same_sc_change.
Qed.

Lemma send_handled (s s' : st) : k_run s -> proc_send s = Ok (tt, s') -> handled s s'.
Proof.
  intros R Es. pose proof (kr_ok _ R) as Hok. pose proof (kr_status _ R : status (proc s _) = _) as Hcur.
  destruct (find_pid (msg_receiver (earth s) (curr_pid s)) 0 (proc_set s)) as [i|] eqn:Ef.
  - destruct (decide (status (proc s i) = PROC_WAIT_TO_RECV)) as [Hst|Hst].
    + destruct (send_deliver s i R Ef Hst)
        as (s2 & E2 & Hok2 & Hi & Hpid & _ & _ & Ei & En & Hp & _ & Hke & Hm & Hv).
      rewrite E2 in Es. eapply yield_handled; [|exact Es].
      apply (prepared_status s s2 i (set_status PROC_RUNNABLE)); try done; rewrite ?Hst; try done.
      * intros q x Hq Hqc Hqr Hmx. apply Hv; [done..|]. left. by rewrite <- Hpid.
      * split; [apply Hok2|done| |apply Hke]. intros q x Hq Hmx Hx. apply Hv; auto.
    + destruct (send_block s i R Ef Hst) as (s2 & E2 & Hok2 & Ei & En & Hp & _ & Hke & Hm & Hv).
      rewrite E2 in Es. eapply yield_handled; [|exact Es].
      apply (prepared_status s s2 (proc_curr_idx s) (fun p => set_receiver_pid
        (msg_receiver (earth s) (curr_pid s)) (set_status PROC_WAIT_TO_SEND p))); try done;
        [apply Hok|intros q x Hq Hqc _ Hmx; apply Hv; auto| |by rewrite Hcur].
      split; [apply Hok2|done| |apply Hke]. intros q x Hq Hmx Hx. apply Hv; [done..|]. sc_lia.
  - destruct (send_none s R Ef) as (e' & E2 & R2 & _ & Hke & Hm & Hv).
    assert (s' = set_earth e' s) as -> by congruence. split; try done; [by left| |].
    + apply runnable_same; try done. intros q x Hq Hne Hmx. apply Hv; auto.
    + split; [apply R2|done| |apply Hke]. intros q x Hq Hmx Hx. apply Hv; auto.
Qed.

(** What [proc_recv] finds: nobody, or a process of the table. *)
Lemma find_sender_proc (s : st) q :
  k_ok s ->
  find_sender q (-1) (proc_set s) = -1 \/
  exists k, 0 <= k < MAX_NPROCESS /\ status (proc s k) = PROC_WAIT_TO_SEND /\
    receiver_pid (proc s k) = q /\ find_sender q (-1) (proc_set s) = pid (proc s k).
Proof.
  intros Hok. destruct (find_sender_spec q (-1) (proc_set s)) as [[-> _]|(k & p & Hk & H1 & H2 & ->)];
    [by left|right]. exists (Z.of_nat k). unfold proc. rewrite Nat2Z.id, Hk.
  apply lookup_lt_Some in Hk. rewrite (ko_len _ Hok) in Hk. unfold MAX_NPROCESS in *.
  split_and!; try done; lia.
Qed.

Lemma recv_handled (s s' : st) : k_run s -> proc_recv s = Ok (tt, s') -> handled s s'.
Proof.
  intros R Es. pose proof (kr_ok _ R) as Hok.
  destruct (find_sender_proc s (curr_pid s) Hok) as [Ef|(k & Hk & Hst & Hrp & Ef)].
  - destruct (recv_block s R Ef) as (E2 & Hok2 & Hp). rewrite E2 in Es.
    eapply yield_handled; [|exact Es]. pose proof (kr_status _ R) as Hcur. unfold curr_status, curr in Hcur.
    apply (prepared_status s _ (proc_curr_idx s) (set_status PROC_WAIT_TO_RECV)); try done;
      [apply Hok| |by rewrite Hcur].
    apply sc_change_refl, Hok.
  - destruct (recv_deliver s k R Hk Hst Ef) as (s2 & E2 & Hok2 & Ei & En & Hp & _ & Hke & Hm & Hv).
    rewrite E2 in Es. eapply yield_handled; [|exact Es].
    apply (prepared_status s s2 k (set_status PROC_RUNNABLE)); try done;
      [by rewrite Hst|intros q x Hq Hqc _ Hmx; apply Hv; auto|].
    split; [apply Hok2|done| |apply Hke]. intros q x Hq Hmx Hx. apply Hv; auto.
Qed.

(** A word of the system call area, or a register of the interrupt controller. *)
Definition sc_word (a : Z) : Prop :=
  SYSCALL_ARG <= a /\ a + 4 <= SYSCALL_ARG + SYSCALL_SIZE \/ 0x2000000 <= a <= 0x2000004.

Lemma wr_int_run (s : st) a v :
  k_run s -> sc_word a ->
  exists e', wr_int a v s = Ok (tt, set_earth e' s) /\ k_run (set_earth e' s) /\
    sc_change (earth s) e' /\ mepc_csr e' = mepc_csr (earth s) /\
    others_kept (curr_pid s) (earth s) e'.
Proof.
  intros R Ha. pose proof (kr_ok _ R) as Hok.
  destruct (wr_spec s a (le_put 4 (u32 v))) as (e' & Ew & W);
    [apply Hok|rewrite length_le_put; unfold sc_word in Ha; sc_lia|].
  exists e'. split; [exact Ew|]. split; [|split; [|split; [apply W|]]].
  - destruct R as [_ Hst Hvm]. split; [by eapply k_ok_wrote|exact Hst|].
    change (e_vm e' = curr_pid s). by rewrite (w_vm _ _ _ _ W).
  - split; [apply W|intros q x _; apply (w_mapped _ _ _ _ W)| |].
    + intros q x Hq Hm Hx. destruct (decide (q = e_vm (earth s))) as [->|Hne];
        [|by apply (w_other _ _ _ _ W)].
      apply (w_out _ _ _ _ W); [|done]. rewrite length_le_put.
      destruct Ha as [Ha|Ha]; [lia|]. pose proof (ko_kernel _ Hok _ _ Hq Hm). sc_lia.
    + apply (wrote_kernel _ _ _ _ W). intros x Hx. rewrite length_le_put. unfold sc_word in Ha. sc_lia.
  - intros q x Hq Hne Hm. apply (w_other _ _ _ _ W); [done| |done]. by rewrite (kr_vm _ R).
Qed.

Lemma others_kept_trans q e1 e2 e3 :
  sc_change e1 e2 -> others_kept q e1 e2 -> others_kept q e2 e3 -> others_kept q e1 e3.
Proof. intros G A B q' x Hq Hne Hm. rewrite B, A; try done. by apply (sg_mapped _ _ G). Qed.

Lemma handled_earth (s : st) e1 s' :
  k_ok s -> sc_change (earth s) e1 -> others_kept (curr_pid s) (earth s) e1 ->
  handled (set_earth e1 s) s' -> handled s s'.
Proof.
  intros Hok Hg Ho [H1 H2 H3 H4 H5 H6]. split; try done; [|by eapply sc_change_trans].
  intros i Hi Hne Hc. destruct (H6 i Hi Hne Hc) as [Hc' Hv]. split; [done|]. intros x Hm.
  destruct (other_pid s i (proc_curr_idx s) Hok Hi (ko_idx _ Hok) Hne Hc) as [Hq Hqc].
  etransitivity; [apply Hv; by apply (sg_mapped _ _ Hg)|by apply Ho].
Qed.

Lemma syscall_handled (s s' : st) : k_run s -> proc_syscall s = Ok (tt, s') -> handled s s'.
Proof.
  intros R. unfold proc_syscall. unfold bind at 1. cbn [rd_int gets].
  destruct (wr_int_run s sc_retval 0 R) as (e1 & E1 & R1 & G1 & _ & O1); [left; sc_lia|].
  rewrite (bind_ok _ _ _ _ _ E1).
  destruct (wr_int_run _ sc_type SYS_UNUSED R1) as (e2 & E2 & R2 & G2 & _ & O2); [left; sc_lia|].
  rewrite (bind_ok _ _ _ _ _ E2). unfold bind at 1. cbn [get].
  destruct (wr_int_run _ (MSIP (earth_platform (earth (set_earth e2 (set_earth e1 s))))) 0 R2)
    as (e3 & E3 & R3 & G3 & _ & O3); [right; unfold MSIP; case_goal; lia|].
  rewrite (bind_ok _ _ _ _ _ E3). intros Es. apply (handled_earth s e3); [apply R|..].
  - eapply sc_change_trans; [exact G1|]. eapply sc_change_trans; [exact G2|exact G3].
  - eapply others_kept_trans; [exact G1|exact O1|]. eapply others_kept_trans; [exact G2|exact O2|exact O3].
  - revert Es. repeat case_goal; intros Es; [by apply recv_handled|by apply send_handled|done].
Qed.

(** The kernel keeps its invariant when the earth layer maps the same pages. *)
Lemma k_run_earth (s : st) e :
  k_run s -> e_ok e -> e_vm e = e_vm (earth s) ->
  (forall q x, q <> 0 -> mapped e q x <-> mapped (earth s) q x) -> k_run (set_earth e s).
Proof.
  intros R He Hv Hm. pose proof (kr_ok _ R) as Hok. split.
  - apply (k_ok_change s); try done; [apply Hok..|]. intros i Hi.
    split_and!; try done; [by apply Hok|by apply (ko_running _ Hok)].
  - exact (kr_status _ R).
  - change (e_vm e = curr_pid s). rewrite Hv. exact (kr_vm _ R).
Qed.

Lemma intr_handled (s s' : st) id :
  k_run s -> intr_entry id s = Ok (tt, s') -> handled s s'.
Proof.
  intros R. pose proof (kr_ok _ R) as Hok. unfold intr_entry. unfold bind at 1. cbn [get].
  assert (forall e, e_ok e -> e_vm e = e_vm (earth s) -> sc_change (earth s) e -> k_run (set_earth e s)) as Hrun.
  { intros e He Hv Hg. apply k_run_earth; try done. apply Hg. }
  destruct ((id =? INTR_ID_TIMER) && (curr_pid s <? GPID_SHELL)).
  - destruct (timer_same (earth s)) as (r & e & Et & Hsp & Hke & Hv & _); [apply Hok|].
    rewrite (bind_ok _ _ _ _ _ (on_earth_ok _ s _ _ Et)). cbn [ret]. intros [= <-].
    pose proof (same_sc_change _ _ Hsp Hke) as G.
    split; [by apply Hrun; [apply Hsp|..]|done|done|by left|done| |done].
    apply runnable_same; [done..|]. intros q x Hq _ Hm. by apply (ss_view _ _ Hsp).
  - destruct (tty_recv_intr_spec (earth s)) as (r & e & Et & Q1 & Q2 & Q3 & Q4 & Q5 & Q6 & Q7); [apply Hok|].
    assert (sc_change (earth s) e) as G.
    { split; [done|by intros q x _|by intros q x _ _ _|intros a _; by rewrite Q4]. }
    assert (k_run (set_earth e s)) as R1 by by apply Hrun.
    rewrite (bind_ok _ _ _ _ _ (on_earth_ok _ s _ _ Et)).
    destruct (negb (r =? 0) && (GPID_USER_START <=? curr_pid s)).
    + cbn [modify]. intros [= <-]. set (e' := set_mepc_csr 0x800500C e).
      destruct (set_mepc_space 0x800500C e Q1) as (S1 & S2 & S3 & S4). fold e' in S1, S2, S3, S4.
      assert (sc_change e e') as G'.
      { split; [done|by intros q x _|by intros q x _ _ _|intros a _; unfold e'; by rewrite emem_set_mepc]. }
      pose proof (sc_change_trans _ _ _ G G') as G2.
      split; [apply Hrun; [done|congruence|done]|done|done|by left|done| |done].
      apply runnable_same; [done..|]. intros q x _ _ _. etransitivity; [apply S4|apply Q7].
    + intros Es. apply (handled_earth s e s' Hok G); [by intros q x _ _ _|]. revert Es. unfold bind at 1.
      destruct (Z.eqb_spec id INTR_ID_SOFT) as [->|].
      * destruct (proc_syscall (set_earth e s)) as [[[] s1]| | |] eqn:Ey; [|done..].
        simpl. intros [= <-]. by apply syscall_handled.
      * cbn [ret]. case_goal.
        -- intros Ey. eapply yield_handled; [|exact Ey]. apply prepared_refl, R1.
        -- intros [= <-]. split; [done|done|done|by left|done|done|]. apply sc_change_refl, R1.
Qed.

(** ** Saving and restoring the context *)

(** The entry of a process with the context the trap found. *)
Definition with_context (e : E) (p : process) : process :=
  set_saved_register (load (emem e) SAVED_REGISTER_ADDR SAVED_REGISTER_SIZE)
    (set_mepc (mepc_csr e) p).

(** [s] with the context of the current process saved. *)
Definition context_saved (s : st) : st :=
  upd_proc (proc_curr_idx s) (with_context (earth s)) s.

Lemma context_saved_proc (s : st) i :
  k_ok s -> 0 <= i < MAX_NPROCESS ->
  proc (context_saved s) i =
  if i =? proc_curr_idx s then with_context (earth s) (proc s i) else proc s i.
Proof.
  intros Hok Hi. unfold context_saved. rewrite proc_upd; [|apply Hok|apply Hok|lia].
  by destruct (Z.eqb_spec i (proc_curr_idx s)) as [->|].
Qed.

Lemma context_saved_run (s : st) : k_run s -> k_run (context_saved s).
Proof.
  intros R. pose proof (kr_ok _ R) as Hok. pose proof (ko_idx _ Hok) as Hi.
  pose proof (context_saved_proc s (proc_curr_idx s) Hok Hi) as Hc. rewrite Z.eqb_refl in Hc.
  split.
  - apply (k_ok_change s); try done; [|apply Hok|].
    + simpl. rewrite length_insert. apply Hok.
    + intros i Hi'. rewrite context_saved_proc by done.
      destruct (Z.eqb_spec i (proc_curr_idx s)) as [->|]; split; try done; (split; [|split_and!]); try done.
      * by apply (ko_regs _ Hok).
      * by apply (ko_running _ Hok).
  - unfold curr_status, curr. change (proc_curr_idx (context_saved s)) with (proc_curr_idx s).
    rewrite Hc. exact (kr_status _ R).
  - unfold curr_pid, curr. change (proc_curr_idx (context_saved s)) with (proc_curr_idx s).
    rewrite Hc. exact (kr_vm _ R).
Qed.

(** [mepc] and the registers on the stack of the kernel are set. *)
Definition with_regs (v : Z) (regs : list byte) (e : E) : E :=
  let e := set_mepc_csr v e in set_emem (store (emem e) SAVED_REGISTER_ADDR regs) e.

(** [kernel_entry] saves the context, handles the trap and restores. *)
Lemma kernel_entry_unfold (s : st) is_interrupt id :
  k_ok s ->
  kernel_entry is_interrupt id s =
  bind (if negb (is_interrupt =? 0) then intr_entry id else excp_entry id)
    (fun _ s2 =>
       Ok (tt, set_earth (with_regs (mepc (curr s2)) (saved_register (curr s2)) (earth s2)) s2))
    (context_saved s).
Proof.
  intros Hok. unfold kernel_entry. unfold bind at 1. cbn [get]. unfold bind at 1. cbn [upd modify].
  unfold bind at 1. cbn [rd gets]. unfold bind at 1. cbn [upd modify].
  assert (upd_proc (proc_curr_idx s) (set_saved_register (load (emem (earth s)) SAVED_REGISTER_ADDR SAVED_REGISTER_SIZE))
      (upd_proc (proc_curr_idx s) (set_mepc (mepc_csr (earth s))) s) = context_saved s) as Hs.
  { unfold context_saved, upd_proc, set_procs. simpl. f_equal.
    rewrite list_insert_insert_eq. f_equal. unfold proc at 1. simpl.
    rewrite list_lookup_insert_eq; [done|]. rewrite (ko_len _ Hok).
    pose proof (ko_idx _ Hok). unfold MAX_NPROCESS in *. lia. }
  change (earth (upd_proc _ _ _)) with (earth s). rewrite Hs. by apply bind_ext.
Qed.

Record entered (s s' : st) : Prop := {
  n_run : k_run s';
  n_nprocs : proc_nprocs s' = proc_nprocs s;
  n_mepc : mepc_csr (earth s') = mepc (curr s');
  n_regs : load (emem (earth s')) SAVED_REGISTER_ADDR SAVED_REGISTER_SIZE = saved_register (curr s');
  n_pid i : 0 <= i < MAX_NPROCESS -> pid (proc s' i) = pid (proc s i);
  n_ctx i : 0 <= i < MAX_NPROCESS -> ctx_kept (proc (context_saved s) i) (proc s' i);
  n_senders : senders_wait s s';
  n_runnable : runnable_kept s s';
  n_mapped q x : q <> 0 -> mapped (earth s') q x <-> mapped (earth s) q x;
  n_view q x : q <> 0 -> mapped (earth s) q x ->
    x < SYSCALL_ARG \/ SYSCALL_ARG + SYSCALL_SIZE <= x -> eview (earth s') q x = eview (earth s) q x
}.

(** Setting them changes no process. *)
Lemma with_regs_spec (s : st) v regs :
  k_run s -> length regs = Z.to_nat SAVED_REGISTER_SIZE ->
  let e' := with_regs v regs (earth s) in
  k_run (set_earth e' s) /\ mepc_csr e' = v /\
  load (emem e') SAVED_REGISTER_ADDR SAVED_REGISTER_SIZE = regs /\
  (forall q x, mapped e' q x <-> mapped (earth s) q x) /\
  (forall q x, q <> 0 -> mapped (earth s) q x -> eview e' q x = eview (earth s) q x).
Proof.
  intros R Hl e'. pose proof (kr_ok _ R) as Hok.
  destruct (set_mepc_space v (earth s)) as (S1 & S2 & S3 & S4); [apply Hok|].
  pose proof (mepc_set v (earth s)) as S5. subst e'. unfold with_regs. cbv zeta.
  generalize dependent (set_mepc_csr v (earth s)). intros e1 S1 S2 S3 S4 S5.
  destruct (wr_spec (set_earth e1 s) SAVED_REGISTER_ADDR regs) as (e' & Ew & W);
    [done|rewrite Hl; sc_lia|].
  change (earth (set_earth e1 s)) with e1 in W. unfold wr, modify in Ew. simpl in Ew.
  injection Ew as <-. generalize dependent (set_emem (store (emem e1) SAVED_REGISTER_ADDR regs) e1).
  intros e' W.
  assert (forall q x, mapped e' q x <-> mapped (earth s) q x) as Hm.
  { intros q x. by rewrite (w_mapped _ _ _ _ W), S3. }
  split.
  { destruct R as [_ Hst Hvm]. split; [|exact Hst|].
    - apply (k_ok_change s); try done; [apply Hok|apply Hok|apply W|]. intros i Hi.
      split_and!; try done; [by apply Hok|by apply (ko_running _ Hok)].
    - change (e_vm e' = curr_pid s). by rewrite (w_vm _ _ _ _ W), S2. }
  split; [by rewrite (w_mepc _ _ _ _ W)|]. split.
  { rewrite (w_mem _ _ _ _ W). by apply load_store_len. }
  split; [done|]. intros q x Hq Hmx. rewrite <- S4.
  destruct (decide (q = e_vm e1)) as [->|Hne]; [|by apply (w_other _ _ _ _ W); [..|apply S3]].
  apply (w_out _ _ _ _ W); [|by apply S3]. rewrite Hl.
  pose proof (ko_kernel _ Hok _ _ Hq Hmx). sc_lia.
Qed.

Lemma kernel_entry_spec (s s' : st) is_interrupt id :
  k_run s -> kernel_entry is_interrupt id s = Ok (tt, s') -> entered s s'.
Proof.
  intros R. rewrite kernel_entry_unfold by apply R. intros (u & s2 & Ei & Er)%bind_inv.
  assert (handled (context_saved s) s2) as Hh.
  { destruct (negb (is_interrupt =? 0)); [|done]. destruct u. eapply intr_handled; [|exact Ei].
    by apply context_saved_run. }
  pose proof (h_run _ _ Hh) as R2. pose proof (ko_regs _ (kr_ok _ R2) _ (ko_idx _ (kr_ok _ R2))) as Hl.
  destruct (with_regs_spec s2 (mepc (curr s2)) _ R2 Hl) as (R' & Hmepc & Hregs & Hmap & Hview).
  injection Er as <-. pose proof (h_earth _ _ Hh) as G. split; try done.
  - apply (h_nprocs _ _ Hh).
  - intros i Hi. etransitivity; [by apply (h_pid _ _ Hh)|]. rewrite context_saved_proc by (apply R || done).
    by case_goal.
  - apply (h_ctx _ _ Hh).
  - intros i Hi Hst Hrp. pose proof (kr_status _ R) as Hcur. unfold curr_status, curr in Hcur.
    pose proof (context_saved_proc s i (kr_ok _ R) Hi) as Hc.
    rewrite (proj2 (Z.eqb_neq i (proc_curr_idx s))) in Hc by (intros ->; congruence).
    rewrite <- Hc in Hst, Hrp |- *. apply (h_senders _ _ Hh i Hi Hst).
    unfold curr_pid, curr. change (proc_curr_idx (context_saved s)) with (proc_curr_idx s).
    rewrite (context_saved_proc s (proc_curr_idx s)), Z.eqb_refl by apply R. exact Hrp.
  - intros i Hi Hne Hc. pose proof (context_saved_proc s i (kr_ok _ R) Hi) as Hcs.
    rewrite (proj2 (Z.eqb_neq i (proc_curr_idx s))) in Hcs by done.
    destruct (other_pid s i _ (kr_ok _ R) Hi (ko_idx _ (kr_ok _ R)) Hne Hc) as [Hq _].
    rewrite <- Hcs in Hc, Hq |- *. destruct (h_runnable _ _ Hh i Hi Hne Hc) as [Hc' Hv]. split; [done|].
    intros x Hm. etransitivity; [apply Hview; [done|by apply (sg_mapped _ _ G)]|by apply Hv].
  - intros q x Hq. etransitivity; [apply Hmap|]. by apply (sg_mapped _ _ G).
  - intros q x Hq Hm Hx. etransitivity; [apply Hview; [done|]|by apply (sg_view _ _ G)].
    by apply (sg_mapped _ _ G).
Qed.
End trap.
