(* ===== verification/KernelReach.v ===== *)
(** Process control (grass/process.c), the start of the grass layer
    (grass/grass.c) and the machine that runs under it, as a step relation:
    user code, traps, and the calls of the process server.  Every reachable
    state keeps the invariant of KernelSpec.v, and no step of one process
    changes the memory of another outside its system call area. *)

From Stdlib Require Import ZArith Lia Strings.Byte.
From stdpp Require Import base numbers list strings gmap relations.
From S2P Require Import Prelude Bytes Memory Earth Kernel KernelSpec KernelIpc KernelTrap.

Local Open Scope egos_scope.

Section reach.
Context {E : Type} `{EarthLaws E}.
Abbreviation st := (kernel E).

(** The end of [main] of grass/grass.c, once the program of [GPID_PROCESS] is
    loaded; it then jumps to [APPS_ENTRY]. *)
Definition grass_start : M st unit :=
  q <- proc_alloc ;;
  proc_set_running q ;;;
  on_earth (earth_mmu_switch GPID_PROCESS).

(** The zeroed static variables of the grass layer. *)
Definition grass0 (e : E) : st :=
  {| proc_set := replicate (Z.to_nat MAX_NPROCESS) proc0; proc_curr_idx := 0; proc_nprocs := 0;
     earth := e |}.

(** The loader fills the address space of process [q] and leaves the others. *)
Record loads (q : Z) (e e' : E) : Prop := {
  ld_ok : e_ok e';
  ld_vm : e_vm e' = e_vm e;
  ld_mapped q' a : q' <> 0 -> q' <> q -> mapped e' q' a <-> mapped e q' a;
  ld_view q' a : q' <> 0 -> q' <> q -> mapped e q' a -> eview e' q' a = eview e q' a;
  ld_kernel a : mapped e' q a -> ~ kernel_area a
}.

(** One step of the machine: an instruction of the current process that writes
    to its own pages; a trap; a call of the process server. *)
Inductive step : st -> st -> Prop :=
| step_user s a l :
    l <> [] ->
    mapped_range (earth s) (curr_pid s) a (Z.of_nat (length l)) ->
    step s (set_earth (set_emem (store (emem (earth s)) a l) (earth s)) s)
| step_trap s s' v regs is_interrupt id :
    (* the trap of earth/earth.s saves the registers first *)
    length regs = Z.to_nat SAVED_REGISTER_SIZE ->
    kernel_entry is_interrupt id (set_earth (with_regs v regs (earth s)) s) = Ok (tt, s') ->
    step s s'
| step_alloc s s' q :
    proc_nprocs s + 1 < 2 ^ 31 -> proc_alloc s = Ok (q, s') -> step s s'
| step_load s i e' :
    0 <= i < MAX_NPROCESS -> status (proc s i) = PROC_LOADING ->
    loads (pid (proc s i)) (earth s) e' -> step s (set_earth e' s)
| step_ready s s' i :
    0 <= i < MAX_NPROCESS -> status (proc s i) = PROC_LOADING ->
    mapped_range (earth s) (pid (proc s i)) SYSCALL_ARG SYSCALL_SIZE ->
    proc_set_ready (pid (proc s i)) s = Ok (tt, s') -> step s s'
| step_free s s' q :
    0 < q -> q <> curr_pid s -> proc_free q s = Ok (tt, s') -> step s s'
| step_killall s s' :
    curr_pid s < GPID_USER_START -> proc_free (-1) s = Ok (tt, s') -> step s s'.

(** The steps of the machine while the process server does not run: instructions
    of the current process, and traps. *)
Inductive machine_step : st -> st -> Prop :=
| machine_user s a l :
    l <> [] ->
    mapped_range (earth s) (curr_pid s) a (Z.of_nat (length l)) ->
    machine_step s (set_earth (set_emem (store (emem (earth s)) a l) (earth s)) s)
| machine_trap s s' v regs is_interrupt id :
    length regs = Z.to_nat SAVED_REGISTER_SIZE ->
    kernel_entry is_interrupt id (set_earth (with_regs v regs (earth s)) s) = Ok (tt, s') ->
    machine_step s s'.

(** ** Allocation *)

Lemma find_unused_some l i k :
  find_unused i l = Some k ->
  i <= k < i + Z.of_nat (length l) /\
  status (default proc0 (l !! Z.to_nat (k - i))) = PROC_UNUSED.
Proof.
  revert i. induction l as [|p l IH]; intros i; simpl; [done|]. case_decide as Hs.
  - intros [= <-]. replace (i - i) with 0 by lia. simpl. split; [lia|done].
  - intros [Hk Hst]%IH. split; [lia|].
    replace (Z.to_nat (k - i)) with (S (Z.to_nat (k - (i + 1)))) by lia. done.
Qed.

Lemma find_unused_min l i k j :
  find_unused i l = Some k -> status (default proc0 (l !! j)) = PROC_UNUSED -> k <= i + Z.of_nat j.
Proof.
  revert i j. induction l as [|p l IH]; intros i j; simpl; [done|]. case_decide as Hs.
  - intros [= <-] _. lia.
  - intros Hk Hj. destruct j as [|j]; [done|]. specialize (IH (i + 1) j Hk Hj). lia.
Qed.

Lemma find_unused_none l i :
  find_unused i l = None -> Forall (fun p => status p <> PROC_UNUSED) l.
Proof.
  revert i. induction l as [|p l IH]; intros i; simpl; [done|]. case_decide; [done|].
  intros ?%IH. by constructor.
Qed.

(** The table is full exactly when no entry is unused. *)
Lemma find_unused_full (s : st) :
  k_ok s -> find_unused 0 (proc_set s) = None ->
  forall i, 0 <= i < MAX_NPROCESS -> status (proc s i) <> PROC_UNUSED.
Proof.
  intros Hok Hn i Hi. apply find_unused_none in Hn. unfold proc.
  destruct (lookup_lt_is_Some_2 (proc_set s) (Z.to_nat i)) as [p Ep].
  { rewrite (ko_len _ Hok). unfold MAX_NPROCESS in *. lia. }
  rewrite Ep. exact (proj1 (Forall_lookup _ _) Hn _ _ Ep).
Qed.

Definition new_proc (n : Z) (p : process) : process := set_status PROC_LOADING (set_pid n p).

Lemma proc_set_nprocs (s : st) n i : proc (set_nprocs n s) i = proc s i.
Proof. done. Qed.

(** Allocation takes an unused entry, and a pid that no entry has. *)
Lemma proc_alloc_spec (s : st) i :
  k_ok s -> proc_nprocs s + 1 < 2 ^ 31 -> find_unused 0 (proc_set s) = Some i ->
  let q := proc_nprocs s + 1 in
  0 <= i < MAX_NPROCESS /\ status (proc s i) = PROC_UNUSED /\
  exists s', proc_alloc s = Ok (q, s') /\ k_ok s' /\ earth s' = earth s /\
    proc_curr_idx s' = proc_curr_idx s /\ proc_nprocs s' = q /\
    forall j, 0 <= j < MAX_NPROCESS -> proc s' j = if j =? i then new_proc q (proc s i) else proc s j.
Proof.
  intros Hok Hn Hf q. destruct (find_unused_some _ _ _ Hf) as [Hi Hst].
  rewrite Z.sub_0_r in Hst. change (status (proc s i) = PROC_UNUSED) in Hst.
  rewrite (ko_len _ Hok) in Hi. assert (0 <= i < MAX_NPROCESS) as Hi' by (unfold MAX_NPROCESS in *; lia).
  clear Hi. rename Hi' into Hi. split; [done|]. split; [done|].
  assert (0 <= proc_nprocs s) as Hp by (pose proof (ko_pid _ Hok i Hi); lia).
  unfold proc_alloc. unfold bind at 1. cbn [get]. rewrite Hf. cbv zeta.
  rewrite (u32_small (proc_nprocs s + 1)) by (unfold is_u32; lia).
  rewrite (s32_small (proc_nprocs s + 1)) by lia. fold q.
  eexists. split; [reflexivity|].
  assert (forall j, 0 <= j < MAX_NPROCESS ->
    proc (upd_proc i (new_proc q) (set_nprocs q s)) j = if j =? i then new_proc q (proc s i) else proc s j) as Hpr.
  { intros j Hj. rewrite proc_upd; [done|apply Hok|done|lia]. }
  split; [|done]. change (fun p => set_status PROC_LOADING (set_pid q p)) with (new_proc q).
  split; try done; try apply Hok.
  - change (length (<[Z.to_nat i:=new_proc q (proc s i)]> (proc_set s)) = Z.to_nat MAX_NPROCESS).
    rewrite length_insert. apply Hok.
  - intros j Hj. rewrite Hpr by done. change (proc_nprocs _) with q. pose proof (ko_pid _ Hok j Hj).
    destruct (j =? i); simpl; lia.
  - intros j Hj. rewrite Hpr by done. destruct (j =? i); simpl; [lia|by apply Hok].
  - intros j k Hj Hk. rewrite !Hpr by done. pose proof (ko_pid _ Hok j Hj). pose proof (ko_pid _ Hok k Hk).
    destruct (Z.eqb_spec j i), (Z.eqb_spec k i); simpl; try lia. by apply Hok.
  - intros j Hj. rewrite Hpr by done. destruct (Z.eqb_spec j i) as [->|]; by apply (ko_regs _ Hok).
  - intros j Hj. rewrite Hpr by done. destruct (j =? i); [done|]. by apply (ko_running _ Hok).
  - intros j Hj. rewrite Hpr by done. destruct (j =? i); [by intros []|]. by apply (ko_mapped _ Hok).
Qed.

(** What a step of the process server keeps of the running process. *)
Lemma k_run_proc (s s' : st) :
  k_run s -> k_ok s' -> proc_curr_idx s' = proc_curr_idx s -> e_vm (earth s') = e_vm (earth s) ->
  pid (proc s' (proc_curr_idx s)) = curr_pid s ->
  status (proc s' (proc_curr_idx s)) = curr_status s -> k_run s'.
Proof.
  intros R Hok Hi Hv Hp Hs. split; [done| |]; unfold curr_status, curr_pid, curr; rewrite Hi.
  - rewrite Hs. exact (kr_status _ R).
  - rewrite Hp, Hv. exact (kr_vm _ R).
Qed.

Lemma alloc_run (s s' : st) q :
  k_run s -> proc_nprocs s + 1 < 2 ^ 31 -> proc_alloc s = Ok (q, s') -> k_run s'.
Proof.
  intros R Hn Ea. pose proof (kr_ok _ R) as Hok. destruct (find_unused 0 (proc_set s)) as [i|] eqn:Hf.
  - destruct (proc_alloc_spec s i Hok Hn Hf) as (Hi & Hst & s1 & E1 & Hok1 & Hee & Hci & _ & Hp).
    assert (s1 = s') as <- by congruence. pose proof (kr_status _ R) as Hrun.
    apply (k_run_proc s); try done; [by rewrite Hee| |];
      rewrite Hp by apply Hok; destruct (Z.eqb_spec (proc_curr_idx s) i) as [<-|]; try done;
      unfold curr_status, curr in Hrun; congruence.
  - unfold proc_alloc, bind in Ea. cbn [get] in Ea. by rewrite Hf in Ea.
Qed.

(** ** Release *)

(** The entries of pid [q] are unused, and its pages are gone. *)
Record released (q : Z) (s s' : st) : Prop := {
  rl_ok : k_ok s';
  rl_idx : proc_curr_idx s' = proc_curr_idx s;
  rl_vm : e_vm (earth s') = e_vm (earth s);
  rl_proc i : 0 <= i < MAX_NPROCESS ->
    proc s' i = if pid (proc s i) =? q then set_status PROC_UNUSED (proc s i) else proc s i;
  rl_gone a : ~ mapped (earth s') q a;
  rl_mapped q' a : q' <> 0 -> q' <> q -> mapped (earth s') q' a <-> mapped (earth s) q' a;
  rl_view q' a : q' <> 0 -> q' <> q -> mapped (earth s) q' a -> eview (earth s') q' a = eview (earth s) q' a
}.

(** [s'] is [s] after [mmu_free q] and the change of the entries of [q]. *)
Lemma released_intro (s s' : st) q e' :
  k_ok s -> q <> 0 -> earth_mmu_free q (earth s) = Ok (tt, e') -> earth s' = e' ->
  length (proc_set s') = Z.to_nat MAX_NPROCESS -> proc_curr_idx s' = proc_curr_idx s ->
  proc_nprocs s' = proc_nprocs s ->
  (forall i, 0 <= i < MAX_NPROCESS ->
     proc s' i = if pid (proc s i) =? q then set_status PROC_UNUSED (proc s i) else proc s i) ->
  released q s s'.
Proof.
  intros Hok Hq Ef Ee Hl Hi Hn Hp.
  destruct (mmu_free_spec (earth s) q (ko_earth _ Hok) Hq)
    as (e1 & E1 & M1 & M2 & M3 & M4 & M5 & M6 & M7 & M8).
  assert (e1 = e') as -> by congruence. subst e'.
  split; try done. split; try done; rewrite ?Hi; try apply Hok.
  - intros i Hi'. rewrite Hp by done. rewrite Hn. destruct (_ =? q); by apply Hok.
  - intros i Hi'. rewrite Hp by done. destruct (_ =? q); [done|]. by apply Hok.
  - intros i j Hi' Hj. rewrite !Hp by done. pose proof (ko_uniq _ Hok i j Hi' Hj).
    by destruct (_ =? q), (_ =? q).
  - intros i Hi'. rewrite Hp by done. destruct (_ =? q); by apply (ko_regs _ Hok).
  - intros i Hi'. rewrite Hp by done. destruct (_ =? q); [done|]. by apply (ko_running _ Hok).
  - intros i Hi'. rewrite Hp by done. destruct (Z.eqb_spec (pid (proc s i)) q); [by intros []|].
    intros Hld x Hx. apply M7; [|done|by apply (ko_mapped _ Hok i)].
    apply (ko_live _ Hok); [done|]. apply Hld.
  - intros q' a Hq' Hm. destruct (decide (q' = q)) as [->|]; [by destruct (M6 a)|].
    apply M7 in Hm; [|done..]. by apply (ko_kernel _ Hok q').
Qed.

Lemma released_run (s s' : st) q :
  k_run s -> q <> curr_pid s -> released q s s' -> k_run s'.
Proof.
  intros R Hq Rl. pose proof (ko_idx _ (kr_ok _ R)).
  apply (k_run_proc s _ R (rl_ok _ _ _ Rl) (rl_idx _ _ _ Rl) (rl_vm _ _ _ Rl));
    rewrite (rl_proc _ _ _ Rl) by done; rewrite (proj2 (Z.eqb_neq _ _)); done || by apply not_eq_sym.
Qed.

Lemma free_spec (s : st) q :
  k_ok s -> q <> 0 -> q <> -1 -> exists s', proc_free q s = Ok (tt, s') /\ released q s s'.
Proof.
  intros Hok Hq Hq1. destruct (mmu_free_spec (earth s) q (ko_earth _ Hok) Hq) as (e' & Ef & _).
  unfold proc_free. rewrite (proj2 (Z.eqb_neq q (-1)) Hq1). cbn [negb].
  rewrite (bind_ok _ _ _ _ _ (on_earth_ok _ s _ _ Ef)).
  destruct (proc_set_status_spec (set_earth e' s) q PROC_UNUSED (ko_len _ Hok))
    as (s' & Es & Ee & Ei & En & Hl & Hp).
  exists s'. split; [exact Es|]. by apply (released_intro s s' q e').
Qed.

(** The processes that [proc_free(-1)] releases, and the entries before [k]. *)
Definition user_proc (p : process) : bool :=
  (GPID_USER_START <=? pid p) && bool_decide (status p <> PROC_UNUSED).

Record killed (s s' : st) (k : Z) : Prop := {
  kl_ok : k_ok s';
  kl_idx : proc_curr_idx s' = proc_curr_idx s;
  kl_vm : e_vm (earth s') = e_vm (earth s);
  kl_proc i : 0 <= i < MAX_NPROCESS ->
    proc s' i = if (i <? k) && user_proc (proc s i) then set_status PROC_UNUSED (proc s i) else proc s i;
  kl_view q a : q <> 0 -> q < GPID_USER_START ->
    (mapped (earth s') q a <-> mapped (earth s) q a) /\
    (mapped (earth s) q a -> eview (earth s') q a = eview (earth s) q a);
  kl_left q a : q <> 0 -> mapped (earth s') q a ->
    mapped (earth s) q a /\ eview (earth s') q a = eview (earth s) q a
}.

Lemma upd_by_pid (s : st) i f j :
  k_ok s -> 0 <= i < MAX_NPROCESS -> 0 <= j < MAX_NPROCESS -> pid (proc s i) <> 0 ->
  proc (upd_proc i f s) j = if pid (proc s j) =? pid (proc s i) then f (proc s j) else proc s j.
Proof.
  intros Hok Hi Hj Hp. rewrite proc_upd; [|apply Hok|done|lia].
  destruct (Z.eqb_spec j i) as [->|Hne]; [by rewrite Z.eqb_refl|].
  rewrite (proj2 (Z.eqb_neq _ _)); [done|]. intros Epid. apply Hne. apply (ko_uniq _ Hok); congruence.
Qed.

Lemma kill_step (s s1 : st) k :
  killed s s1 k -> 0 <= k < MAX_NPROCESS ->
  exists s2, (s <- get ;;
      if (GPID_USER_START <=? pid (proc s k)) && bool_decide (status (proc s k) <> PROC_UNUSED) then
        on_earth (earth_mmu_free (pid (proc s k))) ;;;
        upd k (set_status PROC_UNUSED)
      else ret tt) s1 = Ok (tt, s2) /\ killed s s2 (k + 1).
Proof.
  intros K Hk. unfold bind at 1. cbn [get]. change (_ && _) with (user_proc (proc s1 k)).
  assert (proc s1 k = proc s k) as Epk.
  { rewrite (kl_proc _ _ _ K) by done. by rewrite (proj2 (Z.ltb_ge _ _)) by lia. }
  rewrite Epk. destruct (user_proc (proc s k)) eqn:Eu.
  - unfold user_proc, GPID_USER_START in Eu. bool_prop.
    assert (pid (proc s k) <> 0) as Hq by lia.
    destruct (mmu_free_spec (earth s1) (pid (proc s k)) (ko_earth _ (kl_ok _ _ _ K)) Hq) as (e' & Ef & _).
    rewrite (bind_ok _ _ _ _ _ (on_earth_ok _ s1 _ _ Ef)). eexists. split; [reflexivity|].
    assert (forall j, 0 <= j < MAX_NPROCESS -> proc (upd_proc k (set_status PROC_UNUSED) (set_earth e' s1)) j =
      if pid (proc s1 j) =? pid (proc s k) then set_status PROC_UNUSED (proc s1 j) else proc s1 j) as Hp.
    { intros j Hj. rewrite <- Epk. apply (upd_by_pid s1 k); try done; [apply K|by rewrite Epk]. }
    assert (released (pid (proc s k)) s1 (upd_proc k (set_status PROC_UNUSED) (set_earth e' s1))) as Rl.
    { apply (released_intro _ _ _ e'); try done; [apply K|]. simpl. rewrite length_insert.
      apply (ko_len _ (kl_ok _ _ _ K)). }
    split.
    + exact (rl_ok _ _ _ Rl).
    + rewrite (rl_idx _ _ _ Rl). exact (kl_idx _ _ _ K).
    + rewrite (rl_vm _ _ _ Rl). exact (kl_vm _ _ _ K).
    + intros j Hj. rewrite proc_upd; [|apply (ko_len _ (kl_ok _ _ _ K))|done|lia].
      destruct (Z.eqb_spec j k) as [->|Hne].
      * rewrite (proj2 (Z.ltb_lt _ _)) by lia. change (proc (set_earth e' s1) k) with (proc s1 k).
        rewrite Epk. unfold user_proc, GPID_USER_START.
        rewrite (proj2 (Z.leb_le _ _)), bool_decide_eq_true_2; [done| |done].
        by eapply bool_decide_eq_true.
      * change (proc (set_earth e' s1) j) with (proc s1 j). rewrite (kl_proc _ _ _ K) by done.
        by replace (j <? k + 1) with (j <? k) by lia.
    + intros q a Hq0 Hq1. destruct (kl_view _ _ _ K q a Hq0 Hq1) as [V1 V2]. unfold GPID_USER_START in *.
      rewrite (rl_mapped _ _ _ Rl) by lia. split; [done|]. intros Hm.
      rewrite (rl_view _ _ _ Rl); [by apply V2|lia..|by apply V1].
    + intros q a Hq0 Hm. destruct (decide (q = pid (proc s k))) as [->|Hne]; [by destruct (rl_gone _ _ _ Rl a)|].
      apply (rl_mapped _ _ _ Rl) in Hm; [|done..]. rewrite (rl_view _ _ _ Rl) by done. by apply (kl_left _ _ _ K).
  - exists s1. split; [done|]. destruct K. split; try done. intros i Hi. rewrite kl_proc0 by done.
    destruct (decide (i = k)) as [->|]; [rewrite Eu; by rewrite !andb_false_r|].
    by replace (i <? k + 1) with (i <? k) by lia.
Qed.

Lemma killall_spec (s : st) :
  k_ok s -> exists s', proc_free (-1) s = Ok (tt, s') /\ killed s s' MAX_NPROCESS.
Proof.
  intros Hok. unfold proc_free. cbn [negb Z.eqb].
  change (killed s) with (fun s' k => killed s s' k).
  destruct (for_n_inv (fun k s' => killed s s' k) (Z.to_nat MAX_NPROCESS) 0 _ s
    (fun i s1 Hi K => kill_step s s1 i K Hi)) as (s' & Es & K).
  - split; try done. intros i Hi. by rewrite (proj2 (Z.ltb_ge _ _)) by lia.
  - by exists s'.
Qed.

Lemma killed_run (s s' : st) k :
  k_run s -> curr_pid s < GPID_USER_START -> killed s s' k -> k_run s'.
Proof.
  intros R Hc K. pose proof (ko_idx _ (kr_ok _ R)) as Hi.
  assert (user_proc (proc s (proc_curr_idx s)) = false) as Hu.
  { unfold user_proc. by rewrite (proj2 (Z.leb_gt _ _)). }
  apply (k_run_proc s _ R (kl_ok _ _ _ K) (kl_idx _ _ _ K) (kl_vm _ _ _ K));
    rewrite (kl_proc _ _ _ K) by done; by rewrite Hu, andb_false_r.
Qed.

(** ** Reachable states *)

Lemma ready_run (s s' : st) i :
  k_run s -> 0 <= i < MAX_NPROCESS -> status (proc s i) = PROC_LOADING ->
  mapped_range (earth s) (pid (proc s i)) SYSCALL_ARG SYSCALL_SIZE ->
  proc_set_ready (pid (proc s i)) s = Ok (tt, s') -> k_run s' /\ earth s' = earth s.
Proof.
  intros R Hi Hst Hm Es. pose proof (kr_ok _ R) as Hok.
  destruct (proc_set_status_spec s (pid (proc s i)) PROC_READY (ko_len _ Hok))
    as (s1 & E1 & Ee & Ei & En & Hl & Hp).
  assert (s1 = s') as -> by (unfold proc_set_ready in Es; congruence). split; [|done].
  assert (pid (proc s i) <> 0) as Hq by (apply (ko_live _ Hok); [done|congruence]).
  assert (forall j, 0 <= j < MAX_NPROCESS ->
    proc s' j = if j =? i then set_status PROC_READY (proc s i) else proc s j) as Hp'.
  { intros j Hj. rewrite Hp by done. destruct (Z.eqb_spec j i) as [->|Hne]; [by rewrite Z.eqb_refl|].
    rewrite (proj2 (Z.eqb_neq _ _)); [done|]. intros Epid. apply Hne, (ko_uniq _ Hok); congruence. }
  apply (k_run_proc s _ R); try done.
  - split; rewrite ?Ei, ?En, ?Ee; try apply Hok; try done.
    + intros j Hj. rewrite Hp' by done. destruct (Z.eqb_spec j i) as [->|]; by apply (ko_pid _ Hok).
    + intros j Hj. rewrite Hp' by done. destruct (j =? i); [done|]. by apply Hok.
    + intros j k Hj Hk. rewrite !Hp' by done. pose proof (ko_uniq _ Hok j k Hj Hk).
      destruct (Z.eqb_spec j i), (Z.eqb_spec k i); subst; done.
    + intros j Hj. rewrite Hp' by done. destruct (Z.eqb_spec j i) as [->|]; by apply (ko_regs _ Hok).
    + intros j Hj. rewrite Hp' by done. destruct (j =? i); [done|]. by apply (ko_running _ Hok).
    + intros j Hj. rewrite Hp' by done. destruct (Z.eqb_spec j i) as [->|]; [done|].
      by apply (ko_mapped _ Hok).
  - by rewrite Ee.
  - rewrite Hp' by apply Hok. by destruct (Z.eqb_spec (proc_curr_idx s) i) as [<-|].
  - rewrite Hp' by apply Hok. pose proof (kr_status _ R) as Hr. unfold curr_status, curr in *.
    destruct (Z.eqb_spec (proc_curr_idx s) i) as [<-|]; congruence.
Qed.

Lemma load_run (s : st) i e' :
  k_run s -> 0 <= i < MAX_NPROCESS -> status (proc s i) = PROC_LOADING ->
  loads (pid (proc s i)) (earth s) e' -> k_run (set_earth e' s).
Proof.
  intros R Hi Hst L. pose proof (kr_ok _ R) as Hok.
  apply (k_run_proc s _ R); try done; [|apply L]. split; try apply Hok; [apply L| |].
  - intros j Hj Hld x Hx. apply (ld_mapped _ _ _ L); [| |by apply (ko_mapped _ Hok j)].
    + apply (ko_live _ Hok); [done|apply Hld].
    + intros Epid. change (proc (set_earth e' s) j) with (proc s j) in *.
      destruct Hld as [Hu Hl]. apply Hl. rewrite (ko_uniq _ Hok j i); try done. by apply (ko_live _ Hok).
  - intros q a Hq Hm. destruct (decide (q = pid (proc s i))) as [->|Hne]; [by apply L|].
    apply (ld_mapped _ _ _ L) in Hm; [|done..]. by apply (ko_kernel _ Hok q).
Qed.

Lemma curr_pid_pos (s : st) : k_run s -> curr_pid s <> 0.
Proof.
  intros R. pose proof (kr_ok _ R) as Hok. apply (ko_live _ Hok); [apply Hok|].
  pose proof (kr_status _ R) as Hr. unfold curr_status, curr in Hr. congruence.
Qed.

(** The write of an instruction to the pages of its process. *)
Lemma user_run (s : st) a l :
  k_run s -> l <> [] -> mapped_range (earth s) (curr_pid s) a (Z.of_nat (length l)) ->
  let e' := set_emem (store (emem (earth s)) a l) (earth s) in
  k_run (set_earth e' s) /\ wrote (earth s) e' a l.
Proof.
  intros R Hl Hm e'. pose proof (kr_ok _ R) as Hok.
  assert (0 < Z.of_nat (length l)) as Hlen by (destruct l; [done|simpl; lia]).
  assert (mapped (earth s) (curr_pid s) (a + Z.of_nat (length l) - 1)) as Hlow by (apply Hm; lia).
  apply (mapped_low (earth s)) in Hlow; [|apply Hok|by apply curr_pid_pos].
  destruct (wr_spec s a l (ko_earth _ Hok)) as (e1 & Ew & W); [lia|].
  unfold wr, modify in Ew. injection Ew as Ew. fold e' in Ew. subst e1. split; [|done].
  apply (k_run_proc s _ R); try done; [by eapply k_ok_wrote|apply W].
Qed.

Lemma step_k_run (s s' : st) : step s s' -> k_run s -> k_run s'.
Proof.
  intros [] R.
  - by apply user_run.
  - eapply kernel_entry_spec; [|done]. by apply with_regs_spec.
  - by eapply alloc_run.
  - by eapply load_run.
  - by eapply ready_run.
  - destruct (free_spec s0 q) as (s1 & E1 & Rl); [apply R|lia..|].
    eapply released_run; [done..|]. by assert (s'0 = s1) as -> by congruence.
  - destruct (killall_spec s0) as (s1 & E1 & K); [apply R|].
    eapply killed_run; [done..|]. assert (s'0 = s1) as -> by congruence. exact K.
Qed.

(** The start of the grass layer: [GPID_PROCESS] runs. *)
Lemma grass_start_run (e : E) :
  e_ok e -> mapped_range e GPID_PROCESS SYSCALL_ARG SYSCALL_SIZE ->
  (forall q a, q <> 0 -> mapped e q a -> ~ kernel_area a) ->
  exists s, grass_start (grass0 e) = Ok (tt, s) /\ k_run s /\ curr_pid s = GPID_PROCESS /\
    same_spaces e (earth s).
Proof.
  intros He Hm Hk. unfold grass_start.
  set (l := {| pid := 1; status := PROC_RUNNING; mepc := 0;
      saved_register := replicate (Z.to_nat SAVED_REGISTER_SIZE) x00; receiver_pid := 0 |}
      :: replicate 7 proc0).
  set (s1 := {| proc_set := l; proc_curr_idx := 0; proc_nprocs := 1; earth := e |} : st).
  destruct (switch_same e GPID_PROCESS He) as (e' & Es & Hsp & Hsk & Hv); [done..|].
  exists (set_earth e' s1). split.
  { transitivity (on_earth (earth_mmu_switch GPID_PROCESS) s1); [reflexivity|]. by apply on_earth_ok. }
  assert (forall i, 0 <= i < MAX_NPROCESS ->
    (i = 0 /\ proc (set_earth e' s1) i = default proc0 (l !! 0%nat)) \/
    (i <> 0 /\ proc (set_earth e' s1) i = proc0)) as Hp.
  { intros i Hi. destruct (decide (i = 0)) as [->|Hi0]; [by left|right]. split; [done|].
    unfold proc. simpl. destruct (Z.to_nat i) as [|n] eqn:En; [lia|]. simpl.
    unfold MAX_NPROCESS in Hi. assert (n < 7)%nat as Hn by lia. clear -Hn.
    do 7 (destruct n as [|n]; [done|]). lia. }
  split; [|by split; [|exact Hsp]]. split; [|done|exact Hv].
  split; try done.
  - intros i Hi. by destruct (Hp i Hi) as [[-> ->]|[? ->]].
  - intros i Hi. by destruct (Hp i Hi) as [[-> ->]|[? ->]].
  - intros i j Hi Hj. destruct (Hp i Hi) as [[-> ->]|[? ->]], (Hp j Hj) as [[-> ->]|[? ->]]; done.
  - intros i Hi. by destruct (Hp i Hi) as [[-> ->]|[? ->]].
  - intros i Hi. by destruct (Hp i Hi) as [[-> ->]|[? ->]].
  - apply Hsp.
  - intros i Hi. destruct (Hp i Hi) as [[-> ->]|[? ->]]; [|by intros []].
    intros _ x Hx. apply (ss_mapped _ _ Hsp); [done|]. by apply Hm.
  - intros q a Hq Hmq. apply (ss_mapped _ _ Hsp) in Hmq; [|done]. by apply (Hk q).
Qed.

(** A step leaves the memory of a process that is loaded and does not run,
    except the system call area of a process that waits, unless the step
    releases it. *)
Lemma step_isolated (s s' : st) i x :
  k_run s -> step s s' -> 0 <= i < MAX_NPROCESS -> i <> proc_curr_idx s ->
  loaded (status (proc s i)) -> mapped (earth s) (pid (proc s i)) x ->
  can_run (status (proc s i)) = true \/ x < SYSCALL_ARG \/ SYSCALL_ARG + SYSCALL_SIZE <= x ->
  mapped (earth s') (pid (proc s i)) x ->
  eview (earth s') (pid (proc s i)) x = eview (earth s) (pid (proc s i)) x.
Proof.
  intros R Hs Hi Hne Hld Hm Hx Hm'. pose proof (kr_ok _ R) as Hok.
  assert (pid (proc s i) <> 0) as Hq by (apply (ko_live _ Hok); [done|apply Hld]).
  assert (pid (proc s i) <> curr_pid s) as Hqc.
  { intros Epid. apply Hne. apply (ko_uniq _ Hok); [done|apply Hok|done..]. }
  destruct Hs.
  - destruct (user_run s a l) as [_ W]; [done..|]. apply (w_other _ _ _ _ W); [done| |done].
    by rewrite (kr_vm _ R).
  - destruct (with_regs_spec s v regs R) as (R1 & _ & _ & M1 & V1); [done|].
    pose proof (kernel_entry_spec _ _ _ _ R1 H2) as N.
    rewrite <- V1 by done. destruct Hx as [Hc|Hx].
    + apply (n_runnable _ _ N i Hi Hne Hc). by apply M1.
    + apply (n_view _ _ N); [done|by apply M1|done].
  - destruct (find_unused 0 (proc_set s)) as [k|] eqn:Hf.
    + destruct (proc_alloc_spec s k Hok H1 Hf) as (_ & _ & s1 & E1 & _ & Hee & _).
      assert (s' = s1) as -> by congruence. by rewrite Hee.
    + unfold proc_alloc, bind in H2. cbn [get] in H2. by rewrite Hf in H2.
  - apply (ld_view _ _ _ H3); [done| |done]. intros Epid. destruct Hld as [Hu Hl]. apply Hl.
    rewrite (ko_uniq _ Hok i i0); done.
  - destruct (ready_run s s' i0) as [_ ->]; done.
  - destruct (free_spec s q) as (s1 & E1 & Rl); [done|lia..|]. assert (s' = s1) as -> by congruence.
    apply (rl_view _ _ _ Rl); [done| |done]. intros <-. by destruct (rl_gone _ _ _ Rl x).
  - destruct (killall_spec s) as (s1 & E1 & K); [done|]. assert (s' = s1) as -> by congruence.
    by apply (kl_left _ _ _ K).
Qed.

(** A step while process [i] waits: another process is current, and [i] is
    not killed and keeps its pages. *)
Definition while_waiting (i : Z) (s s' : st) : Prop :=
  step s s' /\ proc_curr_idx s <> i /\ loaded (status (proc s i)) /\
  pid (proc s' i) = pid (proc s i) /\ status (proc s' i) <> PROC_UNUSED /\
  forall x, mapped (earth s) (pid (proc s i)) x -> mapped (earth s') (pid (proc s i)) x.

(** A process that can run can run until it does. *)
Lemma waiting_can_run (s s' : st) i :
  k_run s -> 0 <= i < MAX_NPROCESS -> while_waiting i s s' ->
  can_run (status (proc s i)) = true -> can_run (status (proc s' i)) = true.
Proof.
  intros R Hi (Hs & Hne & _ & _ & Hu & _) Hc. pose proof (kr_ok _ R) as Hok.
  destruct Hs.
  - done.
  - destruct (with_regs_spec s v regs R) as (R1 & _); [done|].
    apply (n_runnable _ _ (kernel_entry_spec _ _ _ _ R1 H2) i Hi (not_eq_sym Hne) Hc).
  - destruct (find_unused 0 (proc_set s)) as [k|] eqn:Hf.
    + destruct (proc_alloc_spec s k Hok H1 Hf) as (_ & Hk & s1 & E1 & _ & _ & _ & _ & Hpr).
      assert (s' = s1) as -> by congruence. rewrite Hpr by done.
      destruct (Z.eqb_spec i k) as [->|]; [by rewrite Hk in Hc|done].
    + unfold proc_alloc, bind in H2. cbn [get] in H2. by rewrite Hf in H2.
  - done.
  - destruct (proc_set_status_spec s (pid (proc s i0)) PROC_READY (ko_len _ Hok))
      as (s1 & E1 & _ & _ & _ & _ & Hpr).
    assert (s' = s1) as -> by (unfold proc_set_ready in *; congruence). rewrite Hpr by done. by case_goal.
  - destruct (free_spec s q) as (s1 & E1 & Rl); [done|lia..|]. assert (s' = s1) as -> by congruence.
    rewrite (rl_proc _ _ _ Rl) in Hu |- * by done. by case_goal.
  - destruct (killall_spec s) as (s1 & E1 & K); [done|]. assert (s' = s1) as -> by congruence.
    rewrite (kl_proc _ _ _ K) in Hu |- * by done. by case_goal.
Qed.

(** ** Processes that wait for each other *)

(** Entry [i] waits to send to entry [j]. *)
Definition waits_for (s : st) (i j : Z) : Prop :=
  status (proc s i) = PROC_WAIT_TO_SEND /\ receiver_pid (proc s i) = pid (proc s j).

Lemma machine_waits (s s' : st) i j :
  k_run s -> machine_step s s' -> 0 <= i < MAX_NPROCESS -> 0 <= j < MAX_NPROCESS ->
  waits_for s i j -> status (proc s j) = PROC_WAIT_TO_SEND ->
  k_run s' /\ waits_for s' i j.
Proof.
  intros R Hs Hi Hj [Hw Hr] Hwj.
  assert (pid (proc s j) <> curr_pid s) as Hne.
  { intros Epid. pose proof (kr_ok _ R) as Hok. pose proof (kr_status _ R) as Hc.
    rewrite (ko_uniq _ Hok j (proc_curr_idx s)) in Hwj; [|done|apply Hok|exact Epid|].
    - unfold curr_status, curr in Hc. by rewrite Hc in Hwj.
    - apply (ko_live _ Hok j Hj). by rewrite Hwj. }
  destruct Hs as [s a l Hl Hm|s s' v regs is_interrupt id Hl E'].
  - destruct (user_run s a l) as [R' _]; [done..|]. by split.
  - destruct (with_regs_spec s v regs R Hl) as (R1 & _). pose proof (kernel_entry_spec _ _ _ _ R1 E') as N.
    split; [apply N|]. unfold waits_for. rewrite (n_pid _ _ N j Hj).
    destruct (n_senders _ _ N i Hi Hw) as [H1' H2']; [change (receiver_pid (proc s i) <> curr_pid s); by rewrite Hr|]. split; [done|]. by rewrite H2'.
Qed.

Lemma machine_wait_cycle (s s' : st) i j :
  rtc machine_step s s' -> k_run s -> 0 <= i < MAX_NPROCESS -> 0 <= j < MAX_NPROCESS ->
  waits_for s i j -> waits_for s j i -> waits_for s' i j /\ waits_for s' j i.
Proof.
  intros Hs. induction Hs as [s|s s1 s2 Hs _ IH]; intros R Hi Hj Hij Hji; [done|].
  destruct (machine_waits s s1 i j) as [R1 Hij1]; [done..|apply Hji|].
  destruct (machine_waits s s1 j i) as [_ Hji1]; [done..|apply Hij|]. by apply IH.
Qed.
End reach.
