(* ===== verification/KernelPres.v ===== *)
(** What a trap preserves: a property of every process entry that the kernel's
    updates keep, and a property of the earth layer that its functions keep, hold
    after [kernel_entry] when they hold before. *)

From Stdlib Require Import ZArith Lia Strings.Byte.
From stdpp Require Import base numbers list strings relations.
From S2P Require Import Prelude Bytes Memory Earth Kernel KernelSpec KernelTrap KernelReach.

Local Open Scope egos_scope.

Section kernel_pres.
Context {E : Type} `{EarthLaws E}.
Abbreviation st := (kernel E).
Variables (Q : process -> Prop) (J : E -> Prop).
Hypothesis Q_proc0 : Q proc0.
Hypothesis Q_mepc : forall v p, Q p -> Q (set_mepc v p).
Hypothesis Q_regs : forall l p, Q p -> Q (set_saved_register l p).
Hypothesis Q_receiver : forall q p, Q p -> Q (set_receiver_pid q p).
Hypothesis Q_status : forall v p, v <> PROC_UNUSED -> Q p -> Q (set_status v p).
Hypothesis J_mem : forall m e, J e -> J (set_emem m e).
Hypothesis J_mepc : forall v e, J e -> J (set_mepc_csr v e).
Hypothesis J_switch : forall q, pres J (earth_mmu_switch q) J.
Hypothesis J_timer : pres J earth_timer_reset J.
Hypothesis J_tty : pres J earth_tty_recv_intr J.

Definition holds (s : st) : Prop := Forall Q (proc_set s) /\ J (earth s).

(** A computation that keeps them. *)
Definition keeping {A} (m : M st A) : Prop := pres holds m holds.

Lemma holds_proc s i : holds s -> Q (proc s i).
Proof using Q_proc0.
  intros [HQ _]. unfold proc. destruct (proc_set s !! Z.to_nat i) as [p|] eqn:Ep; [|done].
  rewrite Forall_forall in HQ. apply HQ. by apply list_elem_of_lookup_2 in Ep.
Qed.

Lemma keep_bind {A B} (m : M st A) (k : A -> M st B) :
  keeping m -> (forall a, keeping (k a)) -> keeping (bind m k).
Proof. apply pres_bind. Qed.
Lemma keep_get {A} (k : st -> M st A) : (forall s, keeping (k s)) -> keeping (bind get k).
Proof. intros Hk s a s' Hs E'. exact (Hk s s a s' Hs E'). Qed.
Lemma keep_ret {A} (a : A) : keeping (ret a).
Proof. apply pres_ret. Qed.
Lemma keep_fatal {A} msg : keeping (@fatal st A msg).
Proof. done. Qed.

Lemma keep_upd i f : (forall p, Q p -> Q (f p)) -> keeping (upd i f).
Proof using Q_proc0.
  intros Hf. apply pres_modify. intros s Hs. split; [|apply Hs].
  cbn. apply Forall_insert; [apply Hs|]. apply Hf, (holds_proc s i Hs).
Qed.

Lemma keep_status q v : v <> PROC_UNUSED -> keeping (proc_set_status q v).
Proof using Q_status.
  intros Hv. apply pres_modify. intros s [HQ HJ]. split; [|done]. cbn. apply Forall_fmap.
  eapply Forall_impl; [exact HQ|]. intros p Hp. cbn. case_goal; [by apply Q_status|done].
Qed.

Lemma keep_earth {A} (m : M E A) : pres J m J -> keeping (on_earth m).
Proof.
  intros Hm s a s' [HQ HJ] E'. unfold on_earth in E'. destruct (m (earth s)) as [[x e]| | |] eqn:Em; [|done..].
  injection E' as <- <-. split; [done|]. exact (Hm _ _ _ HJ Em).
Qed.

Lemma keep_rd a n : keeping (rd a n).
Proof. intros s x s' Hs [= <- <-]. done. Qed.
Lemma keep_rd_int a : keeping (rd_int a).
Proof. intros s x s' Hs [= <- <-]. done. Qed.
Lemma keep_wr a l : keeping (wr a l).
Proof using J_mem. apply pres_modify. intros s [HQ HJ]. split; [done|]. by apply J_mem. Qed.
Lemma keep_idx i : keeping (modify (set_idx i)).
Proof. by apply pres_modify. Qed.
Lemma keep_set_mepc f : keeping (modify (fun s => set_earth (set_mepc_csr (f s) (earth s)) s)).
Proof using J_mepc. apply pres_modify. intros s [HQ HJ]. split; [done|]. by apply J_mepc. Qed.

(** The steps of a handler, one by one. *)
Ltac keep := repeat lazymatch goal with
  | |- keeping (bind get _) => apply keep_get; intros ?
  | |- keeping (bind _ _) => apply keep_bind; [|intros ?]
  | |- keeping (ret _) => apply keep_ret
  | |- keeping (fatal _) => apply keep_fatal
  | |- keeping (rd _ _) => apply keep_rd
  | |- keeping (rd_int _) => apply keep_rd_int
  | |- keeping (wr _ _) => apply keep_wr
  | |- keeping (modify (set_idx _)) => apply keep_idx
  | |- keeping (proc_set_status _ _) => by apply keep_status
  | |- keeping (on_earth _) => by apply keep_earth
  | |- keeping (if _ then _ else _) => case_goal
  end.

Lemma keep_yield : keeping proc_yield.
Proof using Type*.
  unfold proc_yield, proc_set_runnable, proc_set_running. keep.
  apply keep_upd. intros p Hp. by apply Q_mepc, Q_regs.
Qed.

Lemma keep_copy from to : keeping (copy_msg from to).
Proof using Type*. unfold copy_msg. keep. Qed.

Lemma keep_send : keeping proc_send.
Proof using Type*.
  unfold proc_send, wr_int, proc_set_runnable. keep. destruct (find_pid _ _ _); keep; try apply keep_copy; try apply keep_yield.
  apply keep_upd. intros p Hp. by apply Q_receiver, Q_status.
Qed.

Lemma keep_recv : keeping proc_recv.
Proof using Type*.
  unfold proc_recv, proc_set_runnable. keep; try apply keep_copy; try apply keep_yield.
  apply keep_upd. intros p Hp. by apply Q_status.
Qed.

Lemma keep_syscall : keeping proc_syscall.
Proof using Type*. unfold proc_syscall, wr_int. keep; [apply keep_recv|apply keep_send]. Qed.

(** Every trap keeps them. *)
Lemma keep_kernel_entry is_interrupt id : keeping (kernel_entry is_interrupt id).
Proof using Type*.
  unfold kernel_entry, intr_entry, excp_entry. keep; try apply keep_set_mepc; try apply keep_syscall; try apply keep_yield;
    apply keep_upd; intros p; [apply Q_mepc|apply Q_regs].
Qed.

(** So does every step of the machine. *)
Lemma machine_keeps (s s' : st) : machine_step s s' -> holds s -> holds s'.
Proof using Type*.
  intros [s1 a l _ _|s1 s2 v regs ii id _ E'] [HQ HJ].
  - split; [done|]. by apply J_mem.
  - eapply keep_kernel_entry; [|exact E']. split; [done|]. cbn. unfold with_regs. by apply J_mem, J_mepc.
Qed.
End kernel_pres.
