(* ===== verification/Bus.v ===== *)
(** Memory-mapped device registers: the macros [REGW] and [REGB] of
    library/egos.h, as a class that the timer, the tty and the SD card drivers
    share, with what the manuals say of the CLINT and of UART0. *)

From Stdlib Require Import ZArith Lia.
From stdpp Require Import base numbers list.
From S2P Require Import Prelude Earth.

(** [REGW(base, offset)] as an expression and as the target of an assignment,
    and [REGB] likewise. *)
Class Bus (B : Type) := {
  REGW : Z -> Z -> M B Z;
  REGW_set : Z -> Z -> Z -> M B unit;
  REGB : Z -> Z -> M B Z;
  REGB_set : Z -> Z -> Z -> M B unit
}.

(** An access that returns, with a value and a state that [Q] relates to the
    state before. *)
Definition access {B A} (m : M B A) (Q : B -> A -> B -> Prop) : Prop :=
  forall b, exists a b', m b = Ok (a, b') /\ Q b a b'.

(** The core-local interruptor (FE310 manual, chapter 9): a 64-bit clock that
    never runs backwards, read as two words, and a 64-bit comparator for each
    hart.  The clock stays below 2^63 ticks, and between two accesses of the
    driver less than 2^28 ticks pass. *)
Class ClintLaws (B : Type) `{Bus B} := {
  mtime : B -> Z;
  mtimecmp : B -> Z -> Z;
  mtime_range b : 0 <= mtime b < 2 ^ 63;
  mtime_high : access (REGW 0x200BFF8 4) (fun b v b' =>
    v = mtime b / 2 ^ 32 /\ mtime b <= mtime b' < mtime b + 2 ^ 28 /\
    forall h, mtimecmp b' h = mtimecmp b h);
  mtime_low : access (REGW 0x200BFF8 0) (fun b v b' =>
    v = mtime b mod 2 ^ 32 /\ mtime b <= mtime b' < mtime b + 2 ^ 28 /\
    forall h, mtimecmp b' h = mtimecmp b h);
  mtimecmp_high h v : 0 <= v < 2 ^ 32 -> access (REGW_set 0x2004000 (h * 8 + 4) v) (fun b _ b' =>
    mtimecmp b' h = v * 2 ^ 32 + mtimecmp b h mod 2 ^ 32 /\ mtime b <= mtime b' /\
    forall h', h' <> h -> mtimecmp b' h' = mtimecmp b h');
  mtimecmp_low h v : 0 <= v < 2 ^ 32 -> access (REGW_set 0x2004000 (h * 8 + 0) v) (fun b _ b' =>
    mtimecmp b' h = mtimecmp b h / 2 ^ 32 * 2 ^ 32 + v /\ mtime b <= mtime b' /\
    forall h', h' <> h -> mtimecmp b' h' = mtimecmp b h')
}.

(** UART0 of the FE310 (manual, chapter 18) at [base].  [pending b] is what the
    coming reads of RXDATA will find: nothing, or a byte; then nothing ever.
    [busy b] is the number of reads of TXDATA that will find the queue full, at
    most [busy_max]; [sent b] what was sent. *)
Class UartLaws (B : Type) (base : Z) `{Bus B} := {
  pending : B -> list (option Z);
  busy : B -> nat;
  sent : B -> list Z;
  busy_max : nat;
  busy_bound b : (busy b <= busy_max)%nat;
  pending_byte b : Forall (fun o => forall c, o = Some c -> 0 <= c < 256) (pending b);
  uart_rxdata : access (REGW base 4) (fun b v b' =>
    v = match pending b with Some c :: _ => c | _ => 2 ^ 31 end /\ pending b' = tail (pending b) /\
    busy b' = busy b /\ sent b' = sent b);
  uart_txdata : access (REGW base 0) (fun b v b' =>
    v = match busy b with O => 0 | S _ => 2 ^ 31 end /\ busy b' = pred (busy b) /\
    pending b' = pending b /\ sent b' = sent b);
  uart_txdata_set c : access (REGW_set base 0 c) (fun b _ b' =>
    sent b' = sent b ++ [c mod 2 ^ 8] /\ pending b' = pending b)
}.
