(* ===== verification/Timer.v ===== *)
(** The timer, earth/cpu_timer.c: reading the 64-bit clock in two words,
    setting the comparator, and the quantum of the scheduler. *)

From Stdlib Require Import ZArith Lia.
From stdpp Require Import base numbers list.
From S2P Require Import Prelude Earth Bus.

Local Open Scope egos_scope.

Section timer.
Context {B : Type} `{Bus B}.

(** [fuel] bounds the rounds of the loop. *)
Fixpoint mtime_get (fuel : nat) : M B Z :=
  match fuel with
  | O => nofuel
  | S n =>
      high <- REGW 0x200BFF8 4 ;;
      low <- REGW 0x200BFF8 0 ;;
      high' <- REGW 0x200BFF8 4 ;;
      if negb (high' =? high) then mtime_get n
      else ret (Z.lor (Z.shiftl high 32) low)
  end.

(** [mhartid] is the number of the hart. *)
Definition mtimecmp_set (mhartid time : Z) : M B Z :=
  REGW_set 0x2004000 (mhartid * 8 + 4) 0xFFFFFFFF ;;;
  REGW_set 0x2004000 (mhartid * 8 + 0) (u32 time) ;;;
  REGW_set 0x2004000 (mhartid * 8 + 4) (u32 (Z.shiftr time 32)) ;;;
  ret 0.

(** The sum is of [ulonglong]. *)
Definition timer_reset (fuel : nat) (mhartid QUANTUM : Z) : M B Z :=
  t <- mtime_get fuel ;;
  mtimecmp_set mhartid ((t + QUANTUM) mod 2 ^ 64).

(** [timer_init]: the value of [QUANTUM]. *)
Definition timer_init (mhartid : Z) (platform : platform_t) : M B Z :=
  let QUANTUM := if decide (platform = ARTY) then 5000 else 500000 in
  mtimecmp_set mhartid 0x0FFFFFFFFFFFFFFF ;;;
  ret QUANTUM.
End timer.

Section proof.
Context {B : Type} `{ClintLaws B}.

(** A round of the loop: the clock was read without a carry into the high word,
    or the clock has just passed a multiple of 2^32. *)
Lemma mtime_round n b :
  (exists b', mtime_get (S n) b = mtime_get n b' /\ mtime b <= mtime b' /\
     mtime b' mod 2 ^ 32 < 3 * 2 ^ 28 /\ (forall h, mtimecmp b' h = mtimecmp b h) /\
     2 ^ 32 - 3 * 2 ^ 28 < mtime b mod 2 ^ 32) \/
  (exists t b', mtime_get (S n) b = Ok (t, b') /\ mtime b <= t <= mtime b' /\
     forall h, mtimecmp b' h = mtimecmp b h).
Proof.
  cbn [mtime_get].
  destruct (mtime_high b) as (hi & b1 & E1 & -> & T1 & C1). rewrite (bind_ok _ _ _ _ _ E1).
  destruct (mtime_low b1) as (lo & b2 & E2 & -> & T2 & C2). rewrite (bind_ok _ _ _ _ _ E2).
  destruct (mtime_high b2) as (hi' & b3 & E3 & -> & T3 & C3). rewrite (bind_ok _ _ _ _ _ E3).
  pose proof (mtime_range b) as R0. pose proof (mtime_range b1) as R1.
  assert (forall h, mtimecmp b3 h = mtimecmp b h) as C by (intros h; by rewrite C3, C2, C1).
  pose proof (Z.div_mod (mtime b) (2 ^ 32) ltac:(lia)) as D0.
  pose proof (Z.div_mod (mtime b1) (2 ^ 32) ltac:(lia)) as D1.
  pose proof (Z.div_mod (mtime b2) (2 ^ 32) ltac:(lia)) as D2.
  pose proof (Z.div_mod (mtime b3) (2 ^ 32) ltac:(lia)) as D3.
  pose proof (Z.mod_pos_bound (mtime b) (2 ^ 32) ltac:(lia)) as M0.
  pose proof (Z.mod_pos_bound (mtime b1) (2 ^ 32) ltac:(lia)) as M1.
  pose proof (Z.mod_pos_bound (mtime b2) (2 ^ 32) ltac:(lia)) as M2.
  pose proof (Z.mod_pos_bound (mtime b3) (2 ^ 32) ltac:(lia)) as M3.
  destruct (Z.eqb_spec (mtime b2 / 2 ^ 32) (mtime b / 2 ^ 32)) as [He|Hne]; cbn [negb]; [right|left].
  - eexists _, b3. split; [reflexivity|]. split; [|done].
    rewrite Z.shiftl_mul_pow2, lor_shifted by lia.
    assert (mtime b1 / 2 ^ 32 = mtime b / 2 ^ 32) by lia. lia.
  - exists b3. split; [done|]. split; [lia|].
    assert (mtime b2 / 2 ^ 32 = mtime b / 2 ^ 32 + 1) by lia.
    assert (mtime b3 / 2 ^ 32 = mtime b / 2 ^ 32 + 1) by lia.
    split_and!; [lia|done|lia].
Qed.

(** Two rounds are enough, and the value is a time at which the clock was. *)
Lemma mtime_get_ok n b :
  exists t b', mtime_get (S (S n)) b = Ok (t, b') /\ mtime b <= t <= mtime b' /\
    forall h, mtimecmp b' h = mtimecmp b h.
Proof.
  destruct (mtime_round (S n) b) as [(b1 & -> & T1 & L1 & C1 & _)|?]; [|done].
  destruct (mtime_round n b1) as [(b2 & _ & _ & _ & _ & L2)|(t & b2 & -> & T2 & C2)]; [lia|].
  exists t, b2. split; [done|]. split; [lia|]. intros h. by rewrite C2.
Qed.

Lemma mtimecmp_set_ok h t b :
  0 <= t < 2 ^ 64 ->
  exists b', mtimecmp_set h t b = Ok (0, b') /\ mtimecmp b' h = t /\ mtime b <= mtime b' /\
    forall h', h' <> h -> mtimecmp b' h' = mtimecmp b h'.
Proof.
  intros Ht. unfold mtimecmp_set.
  destruct (mtimecmp_high h 0xFFFFFFFF ltac:(lia) b) as (u1 & b1 & E1 & _ & T1 & O1).
  rewrite (bind_ok _ _ _ _ _ E1).
  destruct (mtimecmp_low h (u32 t) (u32_range _) b1) as (u2 & b2 & E2 & C2 & T2 & O2).
  rewrite (bind_ok _ _ _ _ _ E2).
  destruct (mtimecmp_high h (u32 (Z.shiftr t 32)) (u32_range _) b2) as (u3 & b3 & E3 & C3 & T3 & O3).
  rewrite (bind_ok _ _ _ _ _ E3).
  exists b3. split; [done|]. split; [|split; [lia|]].
  - rewrite C3, C2, (Z.add_comm (_ / _ * _)), Z_mod_plus_full. rewrite Z.shiftr_div_pow2 by lia. unfold u32.
    rewrite Z.mod_mod, (Z.mod_small (t / 2 ^ 32)) by (lia || (split; [apply Z.div_pos|apply Z.div_lt_upper_bound]; lia)).
    pose proof (Z.div_mod t (2 ^ 32)). lia.
  - intros h' Hh. by rewrite O3, O2, O1.
Qed.

Lemma timer_reset_ok n h q b :
  0 <= q < 2 ^ 32 ->
  exists t b', timer_reset (S (S n)) h q b = Ok (0, b') /\ mtime b <= t <= mtime b' /\
    mtimecmp b' h = t + q /\ forall h', h' <> h -> mtimecmp b' h' = mtimecmp b h'.
Proof.
  intros Hq. unfold timer_reset. destruct (mtime_get_ok n b) as (t & b1 & E1 & T1 & C1).
  rewrite (bind_ok _ _ _ _ _ E1). pose proof (mtime_range b). pose proof (mtime_range b1).
  rewrite Z.mod_small by lia.
  destruct (mtimecmp_set_ok h (t + q) b1) as (b2 & E2 & C2 & T2 & O2); [lia|].
  exists t, b2. split; [done|]. split; [lia|]. split; [done|]. intros h' Hh. by rewrite O2, C1.
Qed.
End proof.
