(* ===== verification/Tty.v ===== *)
(** The serial line and the terminal: earth/bus_uart.c, earth/bus_gpio.c,
    earth/dev_tty.c and the [_write] of library/libc/print.c.  What is printed
    goes to the UART when the C library flushes its buffer; the model prints at
    once, as [fflush] follows every [printf] that matters. *)

From Stdlib Require Import ZArith Lia.
From stdpp Require Import base numbers list.
From S2P Require Import Prelude Earth Bus.

Local Open Scope egos_scope.

Definition UART0_TXDATA : Z := 0.
Definition UART0_RXDATA : Z := 4.
Definition UART0_TXCTRL : Z := 8.
Definition UART0_RXCTRL : Z := 12.
Definition UART0_DIV : Z := 24.
Definition GPIO0_BASE : Z := 0x10012000.
Definition GPIO0_IOF_ENABLE : Z := 56.
(** -D CPU_CLOCK_RATE of the Makefile. *)
Definition CPU_CLOCK_RATE : Z := 65000000.

(** ** earth/bus_uart.c *)

Section uart.
Context {B : Type} `{Bus B} (platform : platform_t).

(** [REGW(base, offset) |= bits]. *)
Definition REGW_or (base offset bits : Z) : M B unit :=
  v <- REGW base offset ;; REGW_set base offset (Z.lor v bits).

Definition uart_init (baud_rate : Z) : M B unit :=
  REGW_set (UART0_BASE platform) UART0_DIV (CPU_CLOCK_RATE / baud_rate - 1) ;;;
  REGW_or (UART0_BASE platform) UART0_TXCTRL 1 ;;;
  REGW_or (UART0_BASE platform) UART0_RXCTRL 1 ;;;
  REGW_or GPIO0_BASE GPIO0_IOF_ENABLE (Z.lor (Z.shiftl 1 16) (Z.shiftl 1 17)).

(** The value returned is also the value of [*c]. *)
Definition uart_getc : M B Z :=
  ch <- REGW (UART0_BASE platform) UART0_RXDATA ;;
  ret (if negb (Z.land ch (Z.shiftl 1 31) =? 0) then -1 else Z.land ch 0xFF).

(** [fuel] bounds the reads that find the transmit queue full. *)
Fixpoint uart_putc (fuel : nat) (c : Z) : M B unit :=
  match fuel with
  | O => nofuel
  | S n =>
      v <- REGW (UART0_BASE platform) UART0_TXDATA ;;
      if negb (Z.land v (Z.shiftl 1 31) =? 0) then uart_putc n c
      else REGW_set (UART0_BASE platform) UART0_TXDATA c
  end.
End uart.

(** ** earth/dev_tty.c *)

Record tty_state (B : Type) := { tty_c : Z; is_reading : Z; tty_bus : B }.
Arguments tty_c {B}.
Arguments is_reading {B}.
Arguments tty_bus {B}.

Section tty.
Context {B : Type} `{Bus B} (platform : platform_t) (fuel : nat).
Abbreviation st := (tty_state B).

Definition set_c (c : Z) (s : st) : st :=
  {| tty_c := c; is_reading := is_reading s; tty_bus := tty_bus s |}.
Definition set_is_reading (v : Z) (s : st) : st :=
  {| tty_c := tty_c s; is_reading := v; tty_bus := tty_bus s |}.
Definition on_bus {A} (m : M B A) : M st A := fun s =>
  match m (tty_bus s) with
  | Ok (a, b) => Ok (a, {| tty_c := tty_c s; is_reading := is_reading s; tty_bus := b |})
  | Fatal msg => Fatal msg
  | Undef w => Undef w
  | NoFuel => NoFuel
  end.

(** [uart_getc(&c)] for the static variable [c]. *)
Definition getc_c : M st Z :=
  v <- on_bus (uart_getc platform) ;;
  modify (set_c v) ;;;
  ret v.

Definition tty_recv_intr : M st Z :=
  s <- get ;;
  if negb (is_reading s =? 0) then ret 0
  else v <- getc_c ;; ret (if v =? 3 then 1 else 0).

Fixpoint tty_write (buf : list Z) : M st unit :=
  match buf with
  | [] => ret tt
  | x :: l => on_bus (uart_putc platform fuel x) ;;; tty_write l
  end.

(** [for (c = -1; c == -1; uart_getc(&c))], once [c] is -1. *)
Fixpoint wait_c (n : nat) : M st unit :=
  match n with
  | O => nofuel
  | S n' =>
      s <- get ;;
      if tty_c s =? -1 then getc_c ;;; wait_c n' else ret tt
  end.

(** One round of the loop of [tty_read]: the value of [i] for the next round, or
    the value that the function returns. *)
Definition tty_read_char (buf : list Z) (i : Z) : M st (list Z * (Z + Z)) :=
  modify (set_c (-1)) ;;;
  wait_c fuel ;;;
  s <- get ;;
  let buf := <[Z.to_nat i := Z.land (tty_c s) 0xFF]> buf in
  if (tty_c s =? 0x03) || (tty_c s =? 0x0d) then
    let buf := if tty_c s =? 0x03 then <[0%nat := 0]> buf else buf in
    modify (set_is_reading 0) ;;;
    tty_write [13; 10] ;;;
    ret (<[Z.to_nat i := 0]> buf, inr (if tty_c s =? 0x03 then 0 else i))
  else
    (if tty_c s =? 0x7f then
       modify (set_c 0) ;;;
       if negb (i =? 0) then tty_write [8; 32; 8] else ret tt
     else ret tt) ;;;
    let i := if tty_c s =? 0x7f then (if negb (i =? 0) then u32 (i - 2) else u32 (i - 1)) else i in
    s <- get ;;
    (if negb (tty_c s =? 0) then tty_write [tty_c s] else ret tt) ;;;
    ret (buf, inl (u32 (i + 1))).

(** The loop, for at most [n] characters. *)
Fixpoint tty_read_loop (n : nat) (buf : list Z) (len i : Z) : M st (list Z * Z) :=
  if i <? u32 (len - 1) then
    match n with
    | O => nofuel
    | S n' =>
        r <- tty_read_char buf i ;;
        match r with
        | (buf, inl i) => tty_read_loop n' buf len i
        | (buf, inr v) => ret (buf, v)
        end
    end
  else
    modify (set_is_reading 0) ;;;
    ret (<[Z.to_nat (u32 (len - 1)) := 0]> buf, s32 (len - 1)).

(** [buf] is what the array holds before and after. *)
Definition tty_read (n : nat) (buf : list Z) (len : Z) : M st (list Z * Z) :=
  modify (set_is_reading 1) ;;;
  tty_read_loop n buf len 0.

(** The questions of [mmu_init] and [disk_init]: lines of one character are read
    until it is 0 or 1; [n] bounds the lines. *)
Fixpoint choose (n : nat) (buf : list Z) : M st (list Z) :=
  if (default 0 (buf !! 0%nat) =? 48) || (default 0 (buf !! 0%nat) =? 49) then ret buf
  else
    match n with
    | O => nofuel
    | S n' => '(buf, _) <- tty_read fuel buf 2 ;; choose n' buf
    end.

(** [tty_init] on the board waits until nothing is left to read. *)
Fixpoint tty_drain (n : nat) : M st unit :=
  match n with
  | O => nofuel
  | S n' => v <- on_bus (uart_getc platform) ;; if v =? -1 then ret tt else tty_drain n'
  end.
Definition tty_init : M st unit :=
  if decide (platform = ARTY) then on_bus (uart_init platform 115200) ;;; tty_drain fuel else ret tt.

(** ** library/libc/print.c *)

Definition STDOUT_FILENO : Z := 1.
(** [None]: [tty_write] has no return statement, so its value, which [_write]
    returns, is unspecified. *)
Definition _write (file : Z) (ptr : list Z) : M st (option Z) :=
  if negb (file =? STDOUT_FILENO) then ret (Some (-1)) else tty_write ptr ;;; ret None.
End tty.

(** ** What a line is *)

(** The line that the characters typed give: Enter ends it, Ctrl+C empties it,
    Backspace takes the last character away; it also ends when [cap] characters
    are there; and the characters left.  [None]: the line has no end yet. *)
Fixpoint edit (cap : nat) (acc cs : list Z) : option (list Z * list Z) :=
  if bool_decide (length acc = cap) then Some (acc, cs)
  else
    match cs with
    | [] => None
    | c :: cs' =>
        if c =? 0x03 then Some ([], cs')
        else if c =? 0x0d then Some (acc, cs')
        else if c =? 0x7f then edit cap (take (pred (length acc)) acc) cs'
        else edit cap (acc ++ [c]) cs'
    end.

(** The bytes among what the reads of RXDATA find. *)
Definition typed (l : list (option Z)) : list Z := omap id l.

Section proof.
Context {B : Type} (platform : platform_t) `{UartLaws B (UART0_BASE platform)}.
Abbreviation st := (tty_state B).

Lemma land_bit31 v : 0 <= v < 2 ^ 31 -> Z.land v (Z.shiftl 1 31) = 0.
Proof. intros Hv. rewrite Z.land_comm. apply (land_shifted 1 31); lia. Qed.

Lemma on_bus_ok {A} (m : M B A) (s : st) a b :
  m (tty_bus s) = Ok (a, b) ->
  on_bus m s = Ok (a, {| tty_c := tty_c s; is_reading := is_reading s; tty_bus := b |}).
Proof. unfold on_bus. by intros ->. Qed.

(** [uart_getc] takes the next byte, if there is one. *)
Lemma uart_getc_spec b :
  exists b', uart_getc platform b = Ok (match pending b with Some c :: _ => c | _ => -1 end, b') /\
    pending b' = tail (pending b) /\ sent b' = sent b.
Proof.
  unfold uart_getc. destruct (uart_rxdata b) as (v & b' & E1 & -> & P & _ & S).
  rewrite (bind_ok _ _ _ _ _ E1). exists b'. split; [|done]. unfold ret. do 2 f_equal.
  pose proof (pending_byte b) as Hb. destruct (pending b) as [|[c|] l]; [done| |done].
  apply Forall_inv in Hb. specialize (Hb c eq_refl). rewrite land_bit31 by lia. cbn [Z.eqb negb].
  change 0xFF with (Z.ones 8). rewrite Z.land_ones by lia. by rewrite Z.mod_small.
Qed.

Lemma uart_putc_spec fuel c b :
  (busy b < fuel)%nat ->
  exists b', uart_putc platform fuel c b = Ok (tt, b') /\ sent b' = sent b ++ [c mod 2 ^ 8] /\
    pending b' = pending b.
Proof.
  revert b. induction fuel as [|n IH]; intros b Hb; [lia|]. cbn [uart_putc].
  destruct (uart_txdata b) as (v & b1 & E1 & -> & B1 & P1 & S1). rewrite (bind_ok _ _ _ _ _ E1).
  destruct (busy b) as [|k] eqn:Ek.
  - rewrite land_bit31 by lia. cbn [Z.eqb negb].
    destruct (uart_txdata_set c b1) as ([] & b2 & E2 & S2 & P2). exists b2. split; [done|].
    by rewrite S2, S1, P2, P1.
  - change (negb (Z.land (2 ^ 31) (Z.shiftl 1 31) =? 0)) with true. cbv iota.
    destruct (IH b1) as (b2 & E2 & S2 & P2); [rewrite B1; simpl; lia|].
    exists b2. by rewrite E2, S2, S1, P2, P1.
Qed.

Lemma tty_write_spec fuel buf (s : st) :
  (busy_max < fuel)%nat ->
  exists b, tty_write platform fuel buf s =
      Ok (tt, {| tty_c := tty_c s; is_reading := is_reading s; tty_bus := b |}) /\
    sent b = sent (tty_bus s) ++ ((fun c => c mod 2 ^ 8) <$> buf) /\ pending b = pending (tty_bus s).
Proof.
  intros Hf. revert s. induction buf as [|x l IH]; intros s; cbn [tty_write].
  - exists (tty_bus s). split; [by destruct s|]. by rewrite app_nil_r.
  - destruct (uart_putc_spec fuel x (tty_bus s)) as (b1 & E1 & S1 & P1).
    { eapply Nat.le_lt_trans; [apply busy_bound|done]. }
    rewrite (bind_ok _ _ _ _ _ (on_bus_ok _ s _ _ E1)).
    destruct (IH {| tty_c := tty_c s; is_reading := is_reading s; tty_bus := b1 |}) as (b2 & E2 & S2 & P2).
    exists b2. split; [exact E2|]. simpl in *. rewrite S2, S1, P2, P1. by rewrite <- app_assoc.
Qed.

Lemma getc_c_spec (s : st) :
  exists b, let c := match pending (tty_bus s) with Some c :: _ => c | _ => -1 end in
    getc_c platform s = Ok (c, {| tty_c := c; is_reading := is_reading s; tty_bus := b |}) /\
    pending b = tail (pending (tty_bus s)).
Proof.
  destruct (uart_getc_spec (tty_bus s)) as (b & E1 & P1 & _). exists b. split; [|done].
  unfold getc_c. by rewrite (bind_ok _ _ _ _ _ (on_bus_ok _ s _ _ E1)).
Qed.

(** Waiting for a character takes the reads that find nothing, and the next. *)
Lemma wait_c_spec n (s : st) c cs :
  tty_c s = -1 -> typed (pending (tty_bus s)) = c :: cs ->
  (length (pending (tty_bus s)) < n)%nat ->
  exists b, wait_c platform n s = Ok (tt, {| tty_c := c; is_reading := is_reading s; tty_bus := b |}) /\
    typed (pending b) = cs /\ (length (pending b) < length (pending (tty_bus s)))%nat.
Proof.
  revert s. induction n as [|n IH]; intros s Hc Ht Hn; [lia|]. cbn [wait_c]. unfold bind at 1. cbn [get].
  rewrite Hc. cbn [Z.eqb Pos.eqb]. destruct (getc_c_spec s) as (b & E1 & P1). cbv zeta in E1.
  rewrite (bind_ok _ _ _ _ _ E1). pose proof (pending_byte (tty_bus s)) as Hb.
  destruct (pending (tty_bus s)) as [|[c'|] l] eqn:Ep; [done| |]; simpl in *.
  - injection Ht as -> Ht. apply Forall_inv in Hb. specialize (Hb c eq_refl).
    destruct n as [|n]; [lia|]. exists b. cbn [wait_c]. unfold bind at 1. cbn [get]. simpl.
    rewrite (proj2 (Z.eqb_neq c (-1))) by lia. split; [done|]. rewrite P1. split; [done|lia].
  - destruct (IH {| tty_c := -1; is_reading := is_reading s; tty_bus := b |}) as (b' & E2 & T2 & L2); simpl.
    + done.
    + by rewrite P1.
    + rewrite P1. lia.
    + exists b'. split; [exact E2|]. split; [done|]. simpl in L2. rewrite P1 in L2. lia.
Qed.

(** The array holds the line typed so far. *)
Record line_at (buf : list Z) (len : Z) (acc : list Z) : Prop := {
  la_len : Z.of_nat (length buf) = len;
  la_room : Z.of_nat (length acc) < len;
  la_line : take (length acc) buf = acc
}.

Lemma typed_byte (b : B) c : c ∈ typed (pending b) -> 0 <= c < 256.
Proof.
  pose proof (pending_byte b) as Hb. unfold typed. induction (pending b) as [|o l IH]; simpl; [inversion 1|].
  apply Forall_cons in Hb as [H1 H2]. destruct o as [x|]; simpl; [|auto].
  intros [->|?]%elem_of_cons; auto.
Qed.

(** The buffer after the end of the line, after Backspace and after another
    character. *)
Lemma line_end buf len acc c k :
  line_at buf len acc -> Z.of_nat (length acc) < len - 1 ->
  let line := if c =? 0x03 then [] else acc in
  let buf1 := <[length acc := k]> buf in
  let buf' := <[length acc := 0]> (if c =? 0x03 then <[0%nat := 0]> buf1 else buf1) in
  line_at buf' len line /\ buf' !! length line = Some 0.
Proof.
  intros [L1 L2 L3] Hroom. cbv zeta. assert (length acc < length buf)%nat as Hn by lia.
  destruct (c =? 3); (split; [split|]).
  - by rewrite !length_insert.
  - simpl. lia.
  - done.
  - destruct (decide (length acc = 0%nat)) as [Hn0|Hn0].
    { rewrite Hn0. apply list_lookup_insert_eq. rewrite !length_insert. lia. }
    cbn [length]. rewrite list_lookup_insert_ne by done.
    apply list_lookup_insert_eq. rewrite length_insert. lia.
  - by rewrite !length_insert.
  - lia.
  - by rewrite list_insert_insert_eq, take_insert_ge by lia.
  - apply list_lookup_insert_eq. rewrite length_insert. lia.
Qed.

Lemma line_back buf len acc k :
  line_at buf len acc -> line_at (<[length acc := k]> buf) len (take (pred (length acc)) acc).
Proof.
  intros [L1 L2 L3]. split; [by rewrite length_insert| |]; rewrite length_take; [lia|].
  rewrite take_insert_ge by lia. transitivity (take (pred (length acc)) (take (length acc) buf)); [|by rewrite L3].
  rewrite take_take. f_equal.
Qed.

Lemma line_more buf len acc c :
  line_at buf len acc -> Z.of_nat (length acc) < len - 1 -> line_at (<[length acc := c]> buf) len (acc ++ [c]).
Proof.
  intros [L1 L2 L3] Hroom. split; [by rewrite length_insert| |]; rewrite length_app; cbn [length]; [lia|].
  rewrite Nat.add_1_r. rewrite (take_S_r _ _ c) by (apply list_lookup_insert_eq; lia).
  by rewrite take_insert_ge, L3 by lia.
Qed.

(** An echo that depends on the character. *)
Lemma echo_spec fuel (echo : bool) l (s : st) :
  (busy_max < fuel)%nat ->
  exists b, (if echo then tty_write platform fuel l else ret tt) s =
    Ok (tt, {| tty_c := tty_c s; is_reading := is_reading s; tty_bus := b |}) /\ pending b = pending (tty_bus s).
Proof.
  intros Hf. destruct echo; [|exists (tty_bus s); by destruct s].
  destruct (tty_write_spec fuel l s Hf) as (b & E & _ & P). by exists b.
Qed.

(** One character: the line ends, or is one character longer or shorter. *)
Lemma tty_read_char_spec fuel buf len acc (s : st) c cs :
  line_at buf len acc -> Z.of_nat (length acc) < len - 1 -> len < 2 ^ 31 ->
  typed (pending (tty_bus s)) = c :: cs ->
  (length (pending (tty_bus s)) < fuel)%nat -> (busy_max < fuel)%nat ->
  exists buf' r (s' : st),
    tty_read_char platform fuel buf (Z.of_nat (length acc)) s = Ok ((buf', r), s') /\
    (length (pending (tty_bus s')) < length (pending (tty_bus s)))%nat /\ typed (pending (tty_bus s')) = cs /\
    if (c =? 0x03) || (c =? 0x0d) then
      let line := if c =? 0x03 then [] else acc in
      r = inr (Z.of_nat (length line)) /\
      line_at buf' len line /\ buf' !! length line = Some 0 /\ is_reading s' = 0
    else
      let acc' := if c =? 0x7f then take (pred (length acc)) acc else acc ++ [c] in
      r = inl (Z.of_nat (length acc')) /\ line_at buf' len acc'.
Proof.
  intros La Hroom Hlen Ht Hp Hf.
  assert (0 <= c < 256) as Hc by (apply (typed_byte (tty_bus s)); rewrite Ht; left).
  unfold tty_read_char. unfold bind at 1. cbn [modify].
  destruct (wait_c_spec fuel (set_c (-1) s) c cs) as (b1 & E1 & T1 & P1); [done..|].
  rewrite (bind_ok _ _ _ _ _ E1). unfold bind at 1. cbn [get tty_c]. simpl in P1.
  rewrite Nat2Z.id. change 0xFF with (Z.ones 8). rewrite Z.land_ones, Z.mod_small by lia.
  destruct ((c =? 0x03) || (c =? 0x0d)) eqn:Eend; cbv iota.
  - unfold bind at 1. cbn [modify].
    destruct (tty_write_spec fuel [13; 10] (set_is_reading 0 {| tty_c := c; is_reading := is_reading s; tty_bus := b1 |}) Hf)
      as (b2 & E2 & _ & P2). simpl is_reading in E2. simpl tty_bus in P2.
    rewrite (bind_ok _ _ _ _ _ E2). cbv zeta.
    replace (if c =? 3 then 0 else Z.of_nat (length acc)) with (Z.of_nat (length (if c =? 3 then [] else acc)))
      by by destruct (c =? 3).
    eexists _, _, {| tty_c := c; is_reading := 0; tty_bus := b2 |}. split; [reflexivity|].
    cbn [tty_bus is_reading]. rewrite P2. destruct (line_end buf len acc c c La Hroom). done.
  - destruct (Z.eqb_spec c 0x7f) as [->|Hdel]; cbv iota.
    + rewrite bind_assoc. unfold bind at 1. cbn [modify].
      destruct (echo_spec fuel (negb (Z.of_nat (length acc) =? 0)) [8; 32; 8]
        {| tty_c := 0; is_reading := is_reading s; tty_bus := b1 |} Hf) as (b2 & E2 & P2).
      rewrite (bind_ok _ _ _ _ _ E2). unfold bind at 1. cbn [get tty_c Z.eqb negb]. unfold bind at 1. cbn [ret].
      eexists _, _, {| tty_c := 0; is_reading := is_reading s; tty_bus := b2 |}. split; [reflexivity|].
      cbn [tty_bus] in P2 |- *. rewrite P2. split; [exact P1|]. split; [exact T1|]. split; [|by apply line_back].
      f_equal. rewrite length_take. destruct (Z.eqb_spec (Z.of_nat (length acc)) 0) as [Hn0|Hn0]; cbn [negb];
        unfold u32; rewrite Zplus_mod_idemp_l.
      * replace (Z.of_nat (length acc) - 1 + 1) with 0 by lia. change (0 mod 2 ^ 32) with 0. lia.
      * rewrite Z.mod_small by lia. lia.
    + unfold bind at 1. cbn [ret]. unfold bind at 1. cbn [get tty_c].
      destruct (echo_spec fuel (negb (c =? 0)) [c] {| tty_c := c; is_reading := is_reading s; tty_bus := b1 |} Hf)
        as (b2 & E2 & P2). rewrite (bind_ok _ _ _ _ _ E2).
      eexists _, _, {| tty_c := c; is_reading := is_reading s; tty_bus := b2 |}. split; [reflexivity|].
      cbn [tty_bus] in P2 |- *. rewrite P2. split; [exact P1|]. split; [exact T1|]. split; [|by apply line_more].
      f_equal. rewrite length_app, u32_small by (unfold is_u32; lia). simpl. lia.
Qed.

(** The end of [tty_read] when the array is full. *)
Lemma line_full buf len acc (s : st) :
  line_at buf len acc -> Z.of_nat (length acc) = len - 1 -> len < 2 ^ 31 ->
  exists buf' (s' : st),
    (modify (set_is_reading 0) ;;; ret (<[Z.to_nat (len - 1) := 0]> buf, s32 (len - 1))) s =
      Ok ((buf', Z.of_nat (length acc)), s') /\
    line_at buf' len acc /\ buf' !! length acc = Some 0 /\ is_reading s' = 0 /\ tty_bus s' = tty_bus s.
Proof.
  intros [L1 L2 L3] <- Hlen. rewrite s32_small, Nat2Z.id by lia. eexists _, _. split; [reflexivity|].
  split; [|split; [apply list_lookup_insert_eq; lia|done]].
  split; rewrite ?length_insert; [done..|]. by rewrite take_insert_ge by lia.
Qed.

Lemma tty_read_loop_spec fuel n buf len acc (s : st) line rest :
  line_at buf len acc -> Z.of_nat (length acc) <= len - 1 -> len < 2 ^ 31 ->
  edit (Z.to_nat (len - 1)) acc (typed (pending (tty_bus s))) = Some (line, rest) ->
  (length (pending (tty_bus s)) < fuel)%nat -> (busy_max < fuel)%nat ->
  (length (pending (tty_bus s)) <= n)%nat ->
  exists buf' (s' : st),
    tty_read_loop platform fuel n buf len (Z.of_nat (length acc)) s = Ok ((buf', Z.of_nat (length line)), s') /\
    line_at buf' len line /\ buf' !! length line = Some 0 /\ is_reading s' = 0 /\
    typed (pending (tty_bus s')) = rest /\ (length (pending (tty_bus s')) <= length (pending (tty_bus s)))%nat.
Proof.
  revert buf acc s. induction n as [|n IH]; intros buf acc s La Hroom Hlen He Hp Hf Hn;
    pose proof (la_len _ _ _ La) as Hbl; cbn [tty_read_loop]; rewrite (u32_small (len - 1)) by (unfold is_u32; lia).
  - destruct (pending (tty_bus s)) as [|] eqn:Ep; [|simpl in Hn; lia]. simpl in He.
    case_bool_decide as Hfull; [|done]. injection He as <- <-.
    rewrite (proj2 (Z.ltb_ge _ _)) by lia. destruct (line_full buf len acc s) as (buf' & s' & E & ? & ? & ? & Eb); [done|lia|done|].
    exists buf', s'. by rewrite Eb, Ep.
  - destruct (Z.ltb_spec (Z.of_nat (length acc)) (len - 1)) as [Hlt|Hge].
    + destruct (typed (pending (tty_bus s))) as [|c cs] eqn:Et.
      { simpl in He. case_bool_decide; [lia|done]. }
      destruct (tty_read_char_spec fuel buf len acc s c cs La Hlt Hlen Et Hp Hf) as (buf1 & r & s1 & E1 & P1 & T1 & Hr).
      rewrite (bind_ok _ _ _ _ _ E1).
      cbn [edit] in He. rewrite bool_decide_eq_false_2 in He by lia.
      destruct (c =? 3) eqn:E3; [|destruct (c =? 13) eqn:E13]; cbn [orb] in Hr.
      * injection He as <- <-. destruct Hr as (-> & ? & ? & ?). exists buf1, s1. split_and!; [done..|lia].
      * injection He as <- <-. destruct Hr as (-> & ? & ? & ?). exists buf1, s1. split_and!; [done..|lia].
      * cbv zeta in Hr. destruct Hr as (-> & La1).
        destruct (IH buf1 _ s1 La1) as (buf' & s' & H1 & H2 & H3 & H4 & H5 & H6); [|done| |lia..|].
        { pose proof (la_room _ _ _ La1). lia. } { rewrite T1. by destruct (c =? 127). }
        exists buf', s'. split_and!; [done..|lia].
    + assert (acc = line /\ typed (pending (tty_bus s)) = rest) as [<- <-].
      { destruct (typed (pending (tty_bus s))); simpl in He; rewrite bool_decide_eq_true_2 in He by lia; by injection He. }
      destruct (line_full buf len acc s) as (buf' & s' & E & ? & ? & ? & Eb); [done|lia|done|].
      exists buf', s'. by rewrite Eb.
Qed.

(** A whole line. *)
Lemma tty_read_ok fuel n buf len (s : st) line rest :
  Z.of_nat (length buf) = len -> 1 <= len < 2 ^ 31 ->
  edit (Z.to_nat (len - 1)) [] (typed (pending (tty_bus s))) = Some (line, rest) ->
  (length (pending (tty_bus s)) < fuel)%nat -> (busy_max < fuel)%nat ->
  (length (pending (tty_bus s)) <= n)%nat ->
  exists buf' (s' : st),
    tty_read platform fuel n buf len s = Ok ((buf', Z.of_nat (length line)), s') /\
    length buf' = length buf /\ take (length line) buf' = line /\ buf' !! length line = Some 0 /\
    is_reading s' = 0 /\ typed (pending (tty_bus s')) = rest /\
    (length (pending (tty_bus s')) <= length (pending (tty_bus s)))%nat.
Proof.
  intros Hb Hlen He Hp Hf Hn.
  destruct (tty_read_loop_spec fuel n buf len [] (set_is_reading 1 s) line rest)
    as (buf' & s' & E1 & [L1 L2 L3] & H2 & H3); [by split; [|simpl; lia|]|simpl; lia|lia|done..|].
  exists buf', s'. split; [exact E1|]. split_and!; [lia|done|done|apply H3..].
Qed.

(** ** One character *)

(** The first 0 or 1 among the characters typed: the answer to the questions of
    [mmu_init] and [disk_init]. *)
Fixpoint first_choice (cs : list Z) : option Z :=
  match cs with
  | [] => None
  | c :: cs' => if (c =? 48) || (c =? 49) then Some c else first_choice cs'
  end.

Lemma line_first buf len c : line_at buf len [c] -> default 0 (buf !! 0%nat) = c.
Proof. intros [_ _ Hl]. destruct buf as [|x l]; [done|]. simpl in Hl. by injection Hl. Qed.

(** A line of one character is the answer, or something else that was typed
    before it. *)
Lemma tty_read_choice fuel n buf (s : st) c :
  length buf = 2%nat -> first_choice (typed (pending (tty_bus s))) = Some c ->
  (length (pending (tty_bus s)) < fuel)%nat -> (busy_max < fuel)%nat ->
  (length (pending (tty_bus s)) <= n)%nat ->
  exists buf' v (s' : st), tty_read_loop platform fuel n buf 2 0 s = Ok ((buf', v), s') /\
    length buf' = 2%nat /\ (length (pending (tty_bus s')) < length (pending (tty_bus s)))%nat /\
    let x := default 0 (buf' !! 0%nat) in
    x = c \/ (x =? 48) || (x =? 49) = false /\ first_choice (typed (pending (tty_bus s'))) = Some c.
Proof.
  revert buf s. induction n as [|n IH]; intros buf s Hb Hc Hp Hf Hn.
  { destruct (pending (tty_bus s)); [done|simpl in Hn; lia]. }
  cbn [tty_read_loop]. change (u32 (2 - 1)) with 1. change (0 <? 1) with true. cbv iota.
  destruct (typed (pending (tty_bus s))) as [|c0 cs] eqn:Et; [done|].
  destruct (tty_read_char_spec fuel buf 2 [] s c0 cs) as (buf1 & r & s1 & E1 & P1 & T1 & Hr);
    [by split; [lia|..]|done|done|done|done|done|].
  change (Z.of_nat (length (@nil Z))) with 0 in E1. rewrite (bind_ok _ _ _ _ _ E1). cbn [first_choice] in Hc.
  destruct ((c0 =? 3) || (c0 =? 13)) eqn:Eend.
  - destruct Hr as (-> & La & Hl & _). exists buf1, (Z.of_nat (length (if c0 =? 3 then [] else @nil Z))), s1.
    split; [done|]. pose proof (la_len _ _ _ La). split; [lia|]. split; [done|]. right.
    assert (buf1 !! 0%nat = Some 0) as -> by by destruct (c0 =? 3).
    split; [done|]. rewrite T1. destruct ((c0 =? 48) || (c0 =? 49)) eqn:E48; [|done].
    apply orb_true_iff in Eend as [?%Z.eqb_eq|?%Z.eqb_eq], E48 as [?%Z.eqb_eq|?%Z.eqb_eq]; lia.
  - cbv zeta in Hr. destruct Hr as (-> & La). pose proof (la_len _ _ _ La) as Hbl.
    destruct (Z.eqb_spec c0 127) as [->|Hdel].
    + cbn [pred length take] in *. change (Z.of_nat 0) with 0.
      destruct (IH buf1 s1) as (buf2 & v & s2 & E2 & L2 & P2 & H2); [lia|by rewrite T1|lia..|].
      exists buf2, v, s2. split; [exact E2|]. split; [done|]. split; [lia|done].
    + cbn [app length]. change (Z.of_nat 1) with 1.
      assert (tty_read_loop platform fuel n buf1 2 1 s1 =
        Ok ((<[1%nat := 0]> buf1, 1), set_is_reading 0 s1)) as -> by by destruct n.
      eexists _, _, _. split; [reflexivity|]. rewrite length_insert. split; [lia|]. split; [done|].
      rewrite list_lookup_insert_ne by done. rewrite (line_first _ _ _ La). cbv zeta.
      destruct ((c0 =? 48) || (c0 =? 49)); [left; congruence|right]. split; [done|].
      cbn [tty_bus set_is_reading]. by rewrite T1.
Qed.

Lemma first_choice_cases cs c : first_choice cs = Some c -> c = 48 \/ c = 49.
Proof.
  induction cs as [|x l IH]; [done|]. simpl. destruct ((x =? 48) || (x =? 49)) eqn:Ex; [|done].
  intros [= <-]. apply orb_true_iff in Ex as [?%Z.eqb_eq|?%Z.eqb_eq]; auto.
Qed.

(** The answer is the first 0 or 1 typed. *)
Lemma choose_spec fuel n buf (s : st) c :
  length buf = 2%nat -> default 0 (buf !! 0%nat) = 0 ->
  first_choice (typed (pending (tty_bus s))) = Some c ->
  (length (pending (tty_bus s)) < fuel)%nat -> (busy_max < fuel)%nat ->
  (length (pending (tty_bus s)) <= n)%nat ->
  exists buf' s', choose platform fuel n buf s = Ok (buf', s') /\ default 0 (buf' !! 0%nat) = c.
Proof.
  intros Hb Hz.
  assert ((default 0 (buf !! 0%nat) =? 48) || (default 0 (buf !! 0%nat) =? 49) = false) as Hno by by rewrite Hz.
  clear Hz. revert buf s Hb Hno. induction n as [|n IH]; intros buf s Hb Hno Hc Hf Hbm Hn.
  { destruct (pending (tty_bus s)); [done|simpl in Hn; lia]. }
  cbn [choose]. rewrite Hno.
  destruct (tty_read_choice fuel fuel buf (set_is_reading 1 s) c)
    as (buf1 & v & s1 & E1 & L1 & P1 & H1); [done|exact Hc|exact Hf|exact Hbm|exact (Nat.lt_le_incl _ _ Hf)|].
  assert (tty_read platform fuel fuel buf 2 s = Ok ((buf1, v), s1)) as E2 by exact E1.
  rewrite (bind_ok _ _ _ _ _ E2). cbv zeta in H1. cbn [tty_bus set_is_reading] in P1.
  destruct H1 as [H1|[Hno1 H1]]; [|by apply IH; [..|lia|lia|lia]].
  exists buf1, s1. split; [|done].
  assert ((default 0 (buf1 !! 0%nat) =? 48) || (default 0 (buf1 !! 0%nat) =? 49) = true) as Hyes
    by (rewrite H1; destruct (first_choice_cases _ _ Hc) as [-> | ->]; done).
  destruct n; cbn [choose]; by rewrite Hyes.
Qed.
End proof.
