(* ===== verification/EarthState.v ===== *)
(** The earth layer as one state: the memory management unit, the terminal and
    the timer behind [struct earth] (library/egos.h), as [earth_init]
    (earth/earth.c), [mmu_init] (earth/cpu_mmu.c) and [intr_init]
    (earth/cpu_intr.c) set them up.  It keeps the laws that the kernel relies
    on when the paging device never evicts a frame, as on QEMU. *)

From Stdlib Require Import ZArith Lia Strings.Byte.
From stdpp Require Import base numbers list strings gmap.
From S2P Require Import Prelude Bytes Memory Earth Paging Mmu MmuProof Bus Timer Tty Kernel KernelSpec.

Local Open Scope egos_scope.

(** The functions of earth/earth.s that [mtvec] can hold. *)
Inductive trap_vector := trap_from_M_mode | trap_from_S_mode.

Record csrs := {
  csr_mepc : Z;
  csr_satp : Z;
  csr_mtvec : option trap_vector;
  csr_mie : Z;
  csr_mstatus : Z;
  csr_pmpaddr0 : Z;
  csr_pmpcfg0 : Z
}.

(** [translation] also says which functions [mmu_map] and [mmu_switch] are. *)
Record earth_state (P B : Type) := {
  mmu : mmu_state P;
  tty : tty_state B;
  csr : csrs;
  platform_of : platform_t;
  translation : translation_t;
  QUANTUM : Z;
  mhartid : Z
}.
Arguments mmu {P B}.
Arguments tty {P B}.
Arguments csr {P B}.
Arguments platform_of {P B}.
Arguments translation {P B}.
Arguments QUANTUM {P B}.
Arguments mhartid {P B}.

Definition set_csr_mepc (v : Z) (c : csrs) : csrs :=
  {| csr_mepc := v; csr_satp := csr_satp c; csr_mtvec := csr_mtvec c; csr_mie := csr_mie c;
     csr_mstatus := csr_mstatus c; csr_pmpaddr0 := csr_pmpaddr0 c; csr_pmpcfg0 := csr_pmpcfg0 c |}.
Definition set_csr_satp (v : Z) (c : csrs) : csrs :=
  {| csr_mepc := csr_mepc c; csr_satp := v; csr_mtvec := csr_mtvec c; csr_mie := csr_mie c;
     csr_mstatus := csr_mstatus c; csr_pmpaddr0 := csr_pmpaddr0 c; csr_pmpcfg0 := csr_pmpcfg0 c |}.
Definition set_csr_trap (t : trap_vector) (mie mstatus : Z) (c : csrs) : csrs :=
  {| csr_mepc := csr_mepc c; csr_satp := csr_satp c; csr_mtvec := Some t; csr_mie := mie;
     csr_mstatus := mstatus; csr_pmpaddr0 := csr_pmpaddr0 c; csr_pmpcfg0 := csr_pmpcfg0 c |}.
Definition set_csr_pmp (addr cfg : Z) (c : csrs) : csrs :=
  {| csr_mepc := csr_mepc c; csr_satp := csr_satp c; csr_mtvec := csr_mtvec c; csr_mie := csr_mie c;
     csr_mstatus := csr_mstatus c; csr_pmpaddr0 := addr; csr_pmpcfg0 := cfg |}.

Section earth.
Context {P B : Type} `{Paging P} `{Bus B}.
Abbreviation st := (earth_state P B).

Definition set_mmu (m : mmu_state P) (e : st) : st :=
  {| mmu := m; tty := tty e; csr := csr e; platform_of := platform_of e;
     translation := translation e; QUANTUM := QUANTUM e; mhartid := mhartid e |}.
Definition set_tty (t : tty_state B) (e : st) : st :=
  {| mmu := mmu e; tty := t; csr := csr e; platform_of := platform_of e;
     translation := translation e; QUANTUM := QUANTUM e; mhartid := mhartid e |}.
Definition set_csr (c : csrs) (e : st) : st :=
  {| mmu := mmu e; tty := tty e; csr := c; platform_of := platform_of e;
     translation := translation e; QUANTUM := QUANTUM e; mhartid := mhartid e |}.
Definition set_platform (p : platform_t) (e : st) : st :=
  {| mmu := mmu e; tty := tty e; csr := csr e; platform_of := p;
     translation := translation e; QUANTUM := QUANTUM e; mhartid := mhartid e |}.
Definition set_translation (t : translation_t) (e : st) : st :=
  {| mmu := mmu e; tty := tty e; csr := csr e; platform_of := platform_of e;
     translation := t; QUANTUM := QUANTUM e; mhartid := mhartid e |}.
Definition set_QUANTUM (v : Z) (e : st) : st :=
  {| mmu := mmu e; tty := tty e; csr := csr e; platform_of := platform_of e;
     translation := translation e; QUANTUM := v; mhartid := mhartid e |}.

Definition set_bus (b : B) (t : tty_state B) : tty_state B :=
  {| tty_c := tty_c t; is_reading := is_reading t; tty_bus := b |}.

Definition lift {S A} (g : st -> S) (f : S -> st -> st) (m : M S A) : M st A := fun e =>
  match m (g e) with
  | Ok (a, x) => Ok (a, f x e)
  | Fatal msg => Fatal msg
  | Undef w => Undef w
  | NoFuel => NoFuel
  end.
Definition on_mmu {A} : M (mmu_state P) A -> M st A := lift mmu set_mmu.
Definition on_tty {A} : M (tty_state B) A -> M st A := lift tty set_tty.
Definition on_regs {A} : M B A -> M st A :=
  lift (fun e => tty_bus (tty e)) (fun b e => set_tty (set_bus b (tty e)) e).

(** ** The functions of [struct earth] *)

Definition mmu_switch (pid : Z) : M st unit :=
  e <- get ;;
  on_mmu (match translation e with
          | SOFT_TLB => soft_tlb_switch pid
          | PAGE_TABLE => page_table_switch pid
          end).

Definition mmu_map (pid page_no frame_id : Z) : M st unit :=
  e <- get ;;
  on_mmu (match translation e with
          | SOFT_TLB => soft_tlb_map pid page_no frame_id
          | PAGE_TABLE => page_table_map pid page_no frame_id
          end).

#[export] Instance earth_ops : EarthOps st := {|
  emem e := mmem (mmu e);
  set_emem m e := set_mmu (set_mmem m (mmu e)) e;
  mepc_csr e := csr_mepc (csr e);
  set_mepc_csr v e := set_csr (set_csr_mepc v (csr e)) e;
  earth_platform := platform_of;
  earth_mmu_switch := mmu_switch;
  earth_mmu_free pid := on_mmu (mmu_free pid);
  (* two rounds are enough to read the clock, see Timer.v *)
  earth_timer_reset := e <- get ;; on_regs (timer_reset 2 (mhartid e) (QUANTUM e));
  earth_tty_recv_intr := e <- get ;; on_tty (tty_recv_intr (platform_of e))
|}.

(** ** Initialisation *)

Definition mmu_init (fuel : nat) : M st unit :=
  on_mmu (on_dev paging_init) ;;;
  modify (fun e => set_csr (set_csr_pmp 0x40000000 0xF (csr e)) e) ;;;
  modify (set_translation SOFT_TLB) ;;;
  e <- get ;;
  if decide (platform_of e = ARTY) then ret tt
  else
    buf <- on_tty (choose (platform_of e) fuel fuel [0; 0]) ;;
    if default 0 (buf !! 0%nat) =? 48 then
      modify (set_translation PAGE_TABLE) ;;;
      on_mmu (pagetable_identity_mapping (platform_of e) 0) ;;;
      modify (fun e => set_csr (set_csr_satp
        (Z.lor (Z.shiftr (root (mmu e)) 12) (Z.shiftl 1 31)) (csr e)) e)
    else ret tt.

Definition intr_init : M st unit :=
  modify (fun e => set_csr (set_csr_trap
    (if decide (translation e = PAGE_TABLE) then trap_from_S_mode else trap_from_M_mode)
    (Z.lor (csr_mie (csr e)) 0x88) (Z.lor (csr_mstatus (csr e)) 0x88) (csr e)) e).

(** The platform, from the word that the boot ROM leaves at 0x8000002c. *)
Definition detect_platform (BIOS_MAGIC : Z) : platform_t :=
  let p := ARTY in
  let p := if BIOS_MAGIC =? 52 then QEMU_SIFIVE else p in
  if BIOS_MAGIC =? 90 then QEMU_LATEST else p.

(** [disk_init] is the code of earth/dev_disk.c, see Sd.v. *)
Definition earth_init (fuel : nat) (disk_init : M st unit) : M st unit :=
  e <- get ;;
  modify (set_platform (detect_platform (load_u32 (emem e) 0x8000002c))) ;;;
  e <- get ;;
  on_tty (tty_init (platform_of e) fuel) ;;;
  disk_init ;;;
  mmu_init fuel ;;;
  e <- get ;;
  q <- on_regs (timer_init (mhartid e) (platform_of e)) ;;
  modify (set_QUANTUM q) ;;;
  intr_init.

(** The end of [main] of earth/earth.c, when the grass layer is loaded: the
    values of [mstatus] and [mepc] before [mret]. *)
Definition enter_grass : M st unit :=
  modify (fun e =>
    let GRASS_MODE := if decide (translation e = SOFT_TLB) then 3 else 1 in
    let m := csr_mstatus (csr e) in
    set_csr {| csr_mepc := GRASS_ENTRY; csr_satp := csr_satp (csr e);
               csr_mtvec := csr_mtvec (csr e); csr_mie := csr_mie (csr e);
               csr_mstatus := Z.lor (Z.lor (Z.ldiff m (Z.shiftl 3 11)) (Z.shiftl GRASS_MODE 11))
                                    (Z.shiftl 1 18);
               csr_pmpaddr0 := csr_pmpaddr0 (csr e); csr_pmpcfg0 := csr_pmpcfg0 (csr e) |} e).
End earth.

(** ** The laws *)

Section laws.
Context {P B : Type} `{PagingLaws P} `{ClintLaws B}.
(** UART0 of every platform. *)
Context (uart_laws : forall p : platform_t, UartLaws B (UART0_BASE p)).
Context (no_evict : pg_evicts = false).
Abbreviation st := (earth_state P B).

(** Address [a] is in a page of [q], and the byte there. *)
Definition est_mapped (e : st) (q a : Z) : Prop := is_Some (view (mmu e) q (a / PAGE_SIZE)).
Definition est_view (e : st) (q a : Z) : byte :=
  default x00 (view (mmu e) q (a / PAGE_SIZE) ≫= lookup (Z.to_nat (a mod PAGE_SIZE))).

Record est_ok (e : st) : Prop := {
  eo_mmu : mmu_ok (mmu e);
  eo_full : pg_full (dev (mmu e));
  eo_quantum : 0 <= QUANTUM e < 2 ^ 32
}.

Lemma page_of a : a = a / PAGE_SIZE * PAGE_SIZE + a mod PAGE_SIZE /\ 0 <= a mod PAGE_SIZE < PAGE_SIZE.
Proof. pose proof (Z.div_mod a PAGE_SIZE ltac:(done)). pose proof (Z.mod_pos_bound a PAGE_SIZE eq_refl). lia. Qed.

Lemma est_mapped_maps e q a :
  est_mapped e q a -> exists f, 0 <= f /\ maps (entry (mmu e) f) q (a / PAGE_SIZE).
Proof.
  unfold est_mapped, view. destruct (frame_of (table (mmu e)) q (a / PAGE_SIZE)) as [f|] eqn:Ef.
  - intros _. exists f. by apply frame_of_some.
  - by intros [? ?].
Qed.

Lemma est_low e q a : est_ok e -> q <> 0 -> est_mapped e q a -> a < FRAME_CACHE_START.
Proof.
  intros He Hq (f & _ & Hm)%est_mapped_maps. destruct (mo_page _ (eo_mmu _ He) _ _ _ Hq Hm) as [_ Hp].
  pose proof (page_of a). unfold PAGE_SIZE, FRAME_CACHE_START in *. lia.
Qed.

Lemma est_view_curr e a :
  est_mapped e (curr_vm_pid (mmu e)) a ->
  est_view e (curr_vm_pid (mmu e)) a = load_byte (mmem (mmu e)) a.
Proof.
  unfold est_mapped, est_view, view. destruct (frame_of _ _ _) as [f|]; [|by intros [? ?]]. intros _.
  simpl. rewrite Z.eqb_refl. rewrite load_lookup. destruct (page_of a) as [Ha Hm].
  rewrite Z2Nat.id by lia. rewrite (proj2 (Z.ltb_lt _ _)) by lia. simpl. by rewrite <- Ha.
Qed.

(** The same views: the same addresses, with the same bytes. *)
Lemma est_same e e' q :
  (forall p, view (mmu e') q p = view (mmu e) q p) ->
  forall a, (est_mapped e' q a <-> est_mapped e q a) /\ est_view e' q a = est_view e q a.
Proof. intros Hv a. unfold est_mapped, est_view. by rewrite Hv. Qed.

Lemma lift_ok {S A} (g : st -> S) f (m : M S A) e a x :
  m (g e) = Ok (a, x) -> lift g f m e = Ok (a, f x e).
Proof. unfold lift. by intros ->. Qed.

(** A store below the frame cache reaches only the mapped process. *)
Lemma est_store e a l :
  est_ok e -> a + Z.of_nat (length l) <= FRAME_CACHE_START ->
  let e' := set_emem (store (emem e) a l) e in
  est_ok e' /\ curr_vm_pid (mmu e') = curr_vm_pid (mmu e) /\
  (forall q x, est_mapped e' q x <-> est_mapped e q x) /\
  (forall q x, q <> 0 -> q <> curr_vm_pid (mmu e) -> est_mapped e q x ->
     est_view e' q x = est_view e q x).
Proof.
  intros [O1 O2 O3] Ha e'.
  assert (forall x, FRAME_CACHE_START <= x -> load_byte (store (emem e) a l) x = load_byte (pmem (dev (mmu e))) x) as Hm.
  { intros x Hx. rewrite store_lookup. destruct (Z.leb_spec a x), (Z.ltb_spec x (a + Z.of_nat (length l))); done || lia. }
  pose proof (fun f Hf => frame_low _ (dev (mmu e)) f (mo_dev _ O1) Hf Hm) as HF.
  destruct (HF 0) as (Hpg & Hfl & _); [done|].
  assert (mmu_ok (mmu e')) as O1' by by apply (mmu_ok_static (mmu e)).
  split; [by split; [|apply Hfl|]|]. split; [done|]. split.
  - intros q x. unfold est_mapped, view. change (table (mmu e')) with (table (mmu e)).
    by destruct (frame_of _ _ _).
  - intros q x Hq Hne Hmx. unfold est_view, view. change (table (mmu e')) with (table (mmu e)).
    change (curr_vm_pid (mmu e')) with (curr_vm_pid (mmu e)). rewrite (proj2 (Z.eqb_neq _ _) Hne).
    destruct (frame_of _ _ _) as [f|] eqn:Ef; [|done]. simpl.
    apply frame_of_some in Ef as [Hf Hmf]. pose proof (maps_range _ _ _ _ (mo_len _ O1) Hmf).
    destruct (HF f ltac:(lia)) as (_ & _ & Hfr & _). exact (f_equal (fun l => default x00 (l !! _)) Hfr).
Qed.

(** A device access leaves the memory management unit. *)
Lemma est_tty e t : est_ok e -> est_ok (set_tty t e).
Proof. by intros [? ? ?]. Qed.

#[export, program] Instance earth_laws : EarthLaws st := {|
  e_ok := est_ok;
  e_vm e := curr_vm_pid (mmu e);
  mapped := est_mapped;
  eview := est_view
|}.
Next Obligation. intros m e. apply pmem_set. Qed.
Next Obligation. done. Qed.
Next Obligation. done. Qed.
Next Obligation. done. Qed.
Next Obligation. done. Qed.
Next Obligation. done. Qed.
Next Obligation. intros v e [? ? ?]. by split_and!. Qed.
Next Obligation. intros e q a. apply est_low. Qed.
Next Obligation. intros e a He. apply est_view_curr. Qed.
Next Obligation. intros e a l He Ha. by apply est_store. Qed.
Next Obligation.
  intros e q [O1 O2 O3] Hq.
  destruct (switch_ok (mmu e) q O1 O2 Hq) as (m' & Es & M1 & M2 & M3 & M4 & M5 & M6).
  exists (set_mmu m' e). split.
  { simpl. unfold mmu_switch, bind. cbn [get]. apply lift_ok. by destruct (translation e). }
  split; [by split|]. split; [done|]. split; [done|]. split; [done|].
  pose proof (fun q' Hq' => est_same e (set_mmu m' e) q' (fun p => M5 q' p Hq')) as Hs.
  split; [intros q' a Hq'; by apply Hs|]. split; [intros q' a Hq' _; by apply Hs|].
  intros a Ha Hnm. apply M6; [done|]. intros f p Hf Hm Hin. apply Hnm. unfold est_mapped.
  assert (a / PAGE_SIZE = p) as ->.
  { unfold in_page, PAGE_SIZE in *. pose proof (page_of a). unfold PAGE_SIZE in *. lia. }
  rewrite (view_some (mmu e) q p f) by done. done.
Qed.
Next Obligation.
  intros e q [O1 O2 O3] Hq. destruct (free_ok (mmu e) q O1 Hq) as (m' & Es & M1 & M2 & M3 & M4 & M5 & M6 & M7).
  exists (set_mmu m' e). split; [simpl; by apply lift_ok|]. split; [split; [done|by apply M2|done]|].
  split; [done|]. split; [done|]. split; [done|]. split; [done|].
  pose proof (fun q' Hq' Hne => est_same e (set_mmu m' e) q' (fun p => M7 q' p Hq' Hne)) as Hs.
  split; [|split; intros q' a Hq' Hne; [by apply Hs|intros _; by apply Hs]].
  intros a. unfold est_mapped. simpl. rewrite M6. by intros [? ?].
Qed.
Next Obligation.
  intros e He. destruct (timer_reset_ok 0 (mhartid e) (QUANTUM e) (tty_bus (tty e)) (eo_quantum _ He))
    as (t & b & E1 & _). exists 0, (set_tty (set_bus b (tty e)) e). split.
  { simpl. unfold bind. cbn [get]. exact (lift_ok _ _ _ _ _ _ E1). }
  split; [by apply est_tty|]. by split_and!.
Qed.
Next Obligation.
  intros e He. assert (exists r t, tty_recv_intr (platform_of e) (tty e) = Ok (r, t)) as (r & t & E1).
  { unfold tty_recv_intr, bind. cbn [get]. destruct (negb (is_reading (tty e) =? 0)); [by eexists _, _|].
    destruct (getc_c_spec (platform_of e) (tty e)) as (b & -> & _). by eexists _, _. }
  exists r, (set_tty t e). split.
  { simpl. unfold bind. cbn [get]. by apply lift_ok. }
  split; [by apply est_tty|]. by split_and!.
Qed.
End laws.
