(* ===== verification/KernelTheorems.v ===== *)
(** The theorems on the kernel, for every earth layer that keeps the laws of
    KernelSpec.v, with a machine on which they apply (KernelExample.v). *)

From Stdlib Require Import ZArith Lia Strings.Byte.
From stdpp Require Import base numbers list strings gmap relations.
From S2P Require Import Prelude Bytes Memory Earth Kernel KernelSpec KernelIpc KernelTrap KernelReach.

Section theorems.
Context {E : Type} `{EarthLaws E}.
Abbreviation st := (kernel E).

(** ** Helpers *)

(** Somebody can run: [proc_yield] returns. *)
Lemma yield_live (s : st) i :
  k_ok s -> 0 <= i < MAX_NPROCESS -> can_run (status (proc s i)) = true ->
  exists k s', 1 <= k <= MAX_NPROCESS /\ let j := (proc_curr_idx s + k) mod MAX_NPROCESS in
    can_run (status (proc s j)) = true /\
    (forall k', 1 <= k' < k ->
       can_run (status (proc s ((proc_curr_idx s + k') mod MAX_NPROCESS))) = false) /\
    proc_yield s = Ok (tt, s') /\ k_run s' /\ proc_curr_idx s' = j /\
    same_spaces (earth s) (earth s') /\
    forall i, 0 <= i < MAX_NPROCESS -> proc s' i = yielded s j i.
Proof.
  intros Hok Hi Hc. destruct (yield_spec s Hok) as [[_ Hn]|(k & s' & Hk & H1 & H2 & H3 & H4 & H5 & _ & H6 & _ & H7)].
  - by rewrite Hn in Hc.
  - by exists k, s'.
Qed.

(** The current process can run, also when another entry got a new status. *)
Lemma curr_can_run (s s2 : st) i :
  k_run s -> status (proc s i) <> PROC_RUNNING ->
  (forall j, 0 <= j < MAX_NPROCESS ->
     proc s2 j = if j =? i then set_status PROC_RUNNABLE (proc s i) else proc s j) ->
  can_run (status (proc s2 (proc_curr_idx s))) = true.
Proof.
  intros R Hi Hp. rewrite Hp by apply R. pose proof (kr_status _ R) as Hc. unfold curr_status, curr in Hc.
  destruct (_ =? i); [done|]. by rewrite Hc.
Qed.

Lemma message_same (e e' : E) q :
  same_spaces e e' -> q <> 0 -> mapped_range e q SYSCALL_ARG SYSCALL_SIZE -> message e' q = message e q.
Proof.
  intros Hs Hq Hm. apply eload_same; [done..|]. eapply mapped_sub; [done|sc_lia..].
Qed.

(** How many entries the scheduler passes before it comes to [i]. *)
Definition dist (s : st) (i : Z) : Z := (i - proc_curr_idx s - 1) mod MAX_NPROCESS + 1.

Lemma dist_range (s : st) i : 1 <= dist s i <= MAX_NPROCESS.
Proof. unfold dist. pose proof (Z.mod_pos_bound (i - proc_curr_idx s - 1) MAX_NPROCESS eq_refl). lia. Qed.

Lemma dist_idx (s : st) i :
  0 <= i < MAX_NPROCESS -> (proc_curr_idx s + dist s i) mod MAX_NPROCESS = i.
Proof.
  intros Hi. unfold dist. rewrite Z.add_comm, <- Z.add_assoc, Zplus_mod_idemp_l.
  replace (i - proc_curr_idx s - 1 + (1 + proc_curr_idx s)) with i by lia. by apply Z.mod_small.
Qed.

(** Every yield that does not reach [i] comes closer to it. *)
Lemma yield_dist (s : st) i :
  k_ok s -> 0 <= i < MAX_NPROCESS -> can_run (status (proc s i)) = true ->
  exists s', proc_yield s = Ok (tt, s') /\ k_run s' /\
    (proc_curr_idx s' = i \/ dist s' i < dist s i).
Proof.
  intros Hok Hi Hc. destruct (yield_live s i Hok Hi Hc) as (k & s' & Hk & _ & Hno & Ey & R & Hj & _).
  exists s'. split; [done|]. split; [done|]. pose proof (dist_range s i) as Hd.
  destruct (Z.lt_trichotomy k (dist s i)) as [Hlt|[->|Hgt]].
  - right. unfold dist at 1. rewrite Hj.
    replace (i - (proc_curr_idx s + k) mod MAX_NPROCESS - 1)
      with (i - 1 - (proc_curr_idx s + k) mod MAX_NPROCESS) by lia. rewrite Zminus_mod_idemp_r.
    replace (i - 1 - (proc_curr_idx s + k)) with (i - proc_curr_idx s - 1 - k) by lia.
    rewrite <- Zminus_mod_idemp_l. unfold dist in *. rewrite Z.mod_small; lia.
  - left. by rewrite Hj, dist_idx.
  - rewrite <- (dist_idx s i Hi), (Hno (dist s i)) in Hc by lia. done.
Qed.

(** [proc_yield] from a state that keeps the invariant: it returns, or nobody
    can run. *)
Lemma yield_total (s : st) :
  k_ok s -> (exists s', proc_yield s = Ok (tt, s')) \/
  proc_yield s = Fatal "proc_yield: no runnable process".
Proof.
  intros Hok. destruct (yield_spec s Hok) as [[? _]|(k & s' & _ & _ & _ & Ey & _)]; [by right|left; by exists s'].
Qed.

Lemma send_total (s : st) :
  k_run s -> (exists s', proc_send s = Ok (tt, s')) \/
  proc_send s = Fatal "proc_yield: no runnable process".
Proof.
  intros R. destruct (find_pid (msg_receiver (earth s) (curr_pid s)) 0 (proc_set s)) as [i|] eqn:Ef.
  - destruct (decide (status (proc s i) = PROC_WAIT_TO_RECV)) as [Hst|Hst].
    + destruct (send_deliver s i R Ef Hst) as (s2 & -> & Hok & _). by apply yield_total.
    + destruct (send_block s i R Ef Hst) as (s2 & -> & Hok & _). by apply yield_total.
  - destruct (send_none s R Ef) as (e' & -> & _). left. by eexists.
Qed.

Lemma recv_total (s : st) :
  k_run s -> (exists s', proc_recv s = Ok (tt, s')) \/
  proc_recv s = Fatal "proc_yield: no runnable process".
Proof.
  intros R. destruct (find_sender_proc s (curr_pid s) (kr_ok _ R)) as [Ef|(k & Hk & Hst & _ & Ef)].
  - destruct (recv_block s R Ef) as (-> & Hok & _). by apply yield_total.
  - destruct (recv_deliver s k R Hk Hst Ef) as (s2 & -> & Hok & _). by apply yield_total.
Qed.

Lemma wr_mem (s : st) a l e' : wr a l s = Ok (tt, set_earth e' s) -> emem e' = store (emem (earth s)) a l.
Proof. intros Ew. injection Ew as <-. apply emem_set. Qed.

(** The state in which [proc_syscall] calls the handler: the return value is 0,
    the type is cleared and the interrupt acknowledged. *)
Lemma syscall_unfold (s : st) :
  k_run s -> exists e3, k_run (set_earth e3 s) /\ sc_change (earth s) e3 /\
  mepc_csr e3 = mepc_csr (earth s) /\
  load (emem e3) sc_msg SYS_MSG_SIZE = load (emem (earth s)) sc_msg SYS_MSG_SIZE /\
  proc_syscall s =
    (if s32 (load_u32 (emem (earth s)) sc_type) =? SYS_RECV then proc_recv
     else if s32 (load_u32 (emem (earth s)) sc_type) =? SYS_SEND then proc_send
     else fatal "proc_syscall: got unknown syscall type") (set_earth e3 s).
Proof.
  intros R. unfold proc_syscall. unfold bind at 1. cbn [rd_int gets].
  destruct (wr_int_run s sc_retval 0 R) as (e1 & E1 & R1 & G1 & M1 & _); [left; sc_lia|].
  rewrite (bind_ok _ _ _ _ _ E1).
  destruct (wr_int_run _ sc_type SYS_UNUSED R1) as (e2 & E2 & R2 & G2 & M2 & _); [left; sc_lia|].
  rewrite (bind_ok _ _ _ _ _ E2). unfold bind at 1. cbn [get].
  destruct (wr_int_run _ (MSIP (earth_platform (earth (set_earth e2 (set_earth e1 s))))) 0 R2)
    as (e3 & E3 & R3 & G3 & M3 & _); [right; unfold MSIP; case_goal; lia|].
  rewrite (bind_ok _ _ _ _ _ E3). exists e3. split; [exact R3|]. split.
  - eapply sc_change_trans; [exact G1|]. eapply sc_change_trans; [exact G2|exact G3].
  - split; [etransitivity; [exact M3|]; etransitivity; [exact M2|exact M1]|]. split; [|done].
    rewrite (wr_mem _ _ _ _ E3), load_store_ne by (rewrite length_le_put; unfold MSIP; case_goal; sc_lia).
    change (load (emem e2) sc_msg SYS_MSG_SIZE = load (emem (earth s)) sc_msg SYS_MSG_SIZE).
    rewrite (wr_mem _ _ _ _ E2), load_store_ne by (rewrite length_le_put; sc_lia).
    change (load (emem e1) sc_msg SYS_MSG_SIZE = load (emem (earth s)) sc_msg SYS_MSG_SIZE).
    rewrite (wr_mem _ _ _ _ E1), load_store_ne by (rewrite length_le_put; sc_lia). done.
Qed.

(** A trap from an interrupt returns, except when a system call has an unknown
    type or leaves nobody to run. *)
Lemma intr_total (s : st) id :
  k_run s ->
  match intr_entry id s with
  | Ok _ => True
  | Fatal msg => id = INTR_ID_SOFT /\
      (msg = "proc_yield: no runnable process"%string \/
       msg = "proc_syscall: got unknown syscall type"%string)
  | _ => False
  end.
Proof.
  intros R. pose proof (kr_ok _ R) as Hok. unfold intr_entry. unfold bind at 1. cbn [get].
  destruct ((id =? INTR_ID_TIMER) && (curr_pid s <? GPID_SHELL)).
  { destruct (timer_same (earth s)) as (r & e & Et & _); [apply Hok|].
    by rewrite (bind_ok _ _ _ _ _ (on_earth_ok _ s _ _ Et)). }
  destruct (tty_recv_intr_spec (earth s)) as (r & e & Et & Q1 & Q2 & Q3 & Q4 & Q5 & Q6 & Q7); [apply Hok|].
  rewrite (bind_ok _ _ _ _ _ (on_earth_ok _ s _ _ Et)).
  assert (k_run (set_earth e s)) as R1 by by apply k_run_earth.
  destruct (negb (r =? 0) && _); [done|].
  destruct (Z.eqb_spec id INTR_ID_SOFT) as [->|Hs].
  - destruct (syscall_unfold _ R1) as (e3 & R3 & _ & _ & _ & Esc).
    change (INTR_ID_SOFT =? INTR_ID_TIMER) with false. cbv iota. unfold bind. rewrite Esc.
    destruct (_ =? SYS_RECV); [|destruct (_ =? SYS_SEND)].
    + destruct (recv_total _ R3) as [(s' & ->)| ->]; [done|auto].
    + destruct (send_total _ R3) as [(s' & ->)| ->]; [done|auto].
    + cbn [fatal]. auto.
  - rewrite bind_ret. destruct (id =? INTR_ID_TIMER); [|done].
    destruct (yield_live _ (proc_curr_idx s) (kr_ok _ R1) (ko_idx _ Hok)) as (k & s' & _ & _ & _ & Ey & _).
    { change (can_run (curr_status s) = true). by rewrite (kr_status _ R). }
    by rewrite Ey.
Qed.

(** ** Traps *)

(** C10. A trap from an interrupt returns, unless a system call has an unknown type or
    leaves nobody to run; it never goes wrong otherwise.  When it returns, the
    invariant holds, the processor gets the context of the process that is now
    current, the context of the interrupted process is in its entry, every
    other process keeps its context, and no memory of any process changes
    outside its system call area. *)
Theorem kernel_entry_correct (s : st) is_interrupt id :
  k_run s ->
  match kernel_entry is_interrupt id s with
  | Ok (_, s') => entered s s'
  | Fatal msg => is_interrupt = 0 \/ id = INTR_ID_SOFT /\
      (msg = "proc_yield: no runnable process"%string \/
       msg = "proc_syscall: got unknown syscall type"%string)
  | _ => False
  end.
Proof.
  intros R. destruct (kernel_entry is_interrupt id s) as [[[] s']|msg| |] eqn:Ek;
    [by eapply kernel_entry_spec| | |]; rewrite kernel_entry_unfold in Ek by apply R;
    unfold bind in Ek; (destruct (Z.eqb_spec is_interrupt 0); [by left || done|]); cbn [negb] in Ek;
    pose proof (intr_total _ id (context_saved_run _ R)) as Ht;
    destruct (intr_entry id (context_saved s)) as [[]| | |]; try done.
  right. by injection Ek as <-.
Qed.

(** A timer interrupt of a process that is not a kernel process always returns,
    and the processor goes round robin: to the first entry after the current
    one, in cyclic order, that can run.  The interrupted process becomes
    runnable, and nobody else's status changes. *)
Theorem timer_round_robin (s : st) :
  k_run s -> GPID_SHELL <= curr_pid s ->
  (forall r e, earth_tty_recv_intr (earth s) = Ok (r, e) -> r = 0) ->
  exists k s', 1 <= k <= MAX_NPROCESS /\ let j := (proc_curr_idx s + k) mod MAX_NPROCESS in
    kernel_entry 1 INTR_ID_TIMER s = Ok (tt, s') /\ proc_curr_idx s' = j /\
    can_run (status (proc s j)) = true /\
    (forall k', 1 <= k' < k -> can_run (status (proc s ((proc_curr_idx s + k') mod MAX_NPROCESS))) = false) /\
    forall i, 0 <= i < MAX_NPROCESS -> status (proc s' i) =
      if i =? j then PROC_RUNNING
      else if i =? proc_curr_idx s then PROC_RUNNABLE else status (proc s i).
Proof.
  intros R Hp Hno. pose proof (context_saved_run _ R) as Rc. pose proof (kr_ok _ Rc) as Hokc.
  pose proof (ko_idx _ (kr_ok _ R)) as Hidx.
  assert (forall i, 0 <= i < MAX_NPROCESS -> status (proc (context_saved s) i) = status (proc s i)) as Hst.
  { intros i Hi. rewrite context_saved_proc by (done || apply R). by destruct (i =? _). }
  destruct (tty_recv_intr_spec (earth s)) as (r & e & Et & Q1 & Q2 & Q3 & Q4 & Q5 & Q6 & Q7); [apply R|].
  rewrite (Hno r e Et) in Et.
  assert (k_run (set_earth e (context_saved s))) as R1 by by apply k_run_earth.
  destruct (yield_live _ (proc_curr_idx s) (kr_ok _ R1) Hidx) as (k & s1 & Hk & Hc & Hn & Ey & R2 & Hj & _ & Hy).
  { change (can_run (status (proc (context_saved s) (proc_curr_idx s))) = true). rewrite Hst by done.
    pose proof (kr_status _ R) as Hr. unfold curr_status, curr in Hr. by rewrite Hr. }
  change (proc (set_earth e (context_saved s))) with (proc (context_saved s)) in *.
  change (proc_curr_idx (set_earth e (context_saved s))) with (proc_curr_idx s) in *.
  assert (forall k, 0 <= (proc_curr_idx s + k) mod MAX_NPROCESS < MAX_NPROCESS) as Hr
    by (intros; by apply Z.mod_pos_bound).
  exists k. eexists. split; [done|]. cbv zeta. split.
  { rewrite kernel_entry_unfold by apply R. cbn [Z.eqb negb].
    assert (intr_entry INTR_ID_TIMER (context_saved s) = Ok (tt, s1)) as Ei.
    { unfold intr_entry. unfold bind at 1. cbn [get].
      assert (curr_pid (context_saved s) = curr_pid s) as Hcp.
      { unfold curr_pid, curr. change (proc_curr_idx (context_saved s)) with (proc_curr_idx s).
        rewrite context_saved_proc by (apply R || done). by rewrite Z.eqb_refl. }
      rewrite Hcp, (proj2 (Z.ltb_ge _ _)), andb_false_r by done.
      rewrite (bind_ok _ _ _ _ _ (on_earth_ok _ (context_saved s) _ _ Et)). exact Ey. }
    rewrite (bind_ok _ _ _ _ _ Ei). reflexivity. }
  change (proc_curr_idx (set_earth _ s1)) with (proc_curr_idx s1). split; [done|]. split.
  { by rewrite <- Hst. }
  split. { intros k' Hk'. rewrite <- Hst by done. by apply Hn. }
  intros i Hi. change (proc (set_earth _ s1) i) with (proc s1 i). rewrite Hy, yielded_status by done.
  change (proc_curr_idx (set_earth e (context_saved s))) with (proc_curr_idx s).
  change (proc (set_earth e (context_saved s))) with (proc (context_saved s)).
  destruct (i =? _); [done|]. destruct (Z.eqb_spec i (proc_curr_idx s)) as [->|Hne].
  - rewrite bool_decide_eq_true_2; [done|]. split; [done|]. rewrite Hst by done.
    exact (kr_status _ R).
  - rewrite bool_decide_eq_false_2 by tauto. by apply Hst.
Qed.

(** C36. Ctrl+C during a user process does not kill it: the handler sets [mepc] to the
    exit code, but the end of [kernel_entry] restores the saved [mepc], so the
    process goes on with the program counter and the registers it had. *)
Theorem ctrl_c_is_lost (s : st) id r e :
  k_run s -> GPID_USER_START <= curr_pid s ->
  earth_tty_recv_intr (earth s) = Ok (r, e) -> r <> 0 ->
  exists s', kernel_entry 1 id s = Ok (tt, s') /\ proc_curr_idx s' = proc_curr_idx s /\
    mepc_csr (earth s') = mepc_csr (earth s) /\
    load (emem (earth s')) SAVED_REGISTER_ADDR SAVED_REGISTER_SIZE =
      load (emem (earth s)) SAVED_REGISTER_ADDR SAVED_REGISTER_SIZE /\
    forall i, 0 <= i < MAX_NPROCESS -> status (proc s' i) = status (proc s i).
Proof.
  intros R Hp Et Hr. pose proof (kr_ok _ R) as Hok. pose proof (ko_idx _ Hok) as Hidx.
  pose proof (context_saved_proc s (proc_curr_idx s) Hok Hidx) as Hc. rewrite Z.eqb_refl in Hc.
  assert (intr_entry id (context_saved s) =
    Ok (tt, set_earth (set_mepc_csr 0x800500C e) (context_saved s))) as Ei.
  { unfold intr_entry. unfold bind at 1. cbn [get].
    assert (curr_pid (context_saved s) = curr_pid s) as ->.
    { unfold curr_pid, curr. change (proc_curr_idx (context_saved s)) with (proc_curr_idx s). by rewrite Hc. }
    unfold GPID_USER_START, GPID_SHELL in *. rewrite (proj2 (Z.ltb_ge _ _)), andb_false_r by lia.
    rewrite (bind_ok _ _ _ _ _ (on_earth_ok _ (context_saved s) _ _ Et)).
    by rewrite (proj2 (Z.eqb_neq r 0) Hr), (proj2 (Z.leb_le _ _) Hp). }
  eexists. split; [rewrite kernel_entry_unfold by done; rewrite (bind_ok _ _ _ _ _ Ei); reflexivity|].
  set (s2 := set_earth (set_mepc_csr 0x800500C e) (context_saved s)).
  assert (curr s2 = with_context (earth s) (curr s)) as Hcur by exact Hc. rewrite Hcur.
  split; [done|]. unfold with_regs. cbn [earth set_earth]. split; [by rewrite mepc_set_mem, mepc_set|]. split.
  - rewrite emem_set. apply load_store_len; [apply length_load|done].
  - intros i Hi. change (proc (set_earth _ s2) i) with (proc (context_saved s) i).
    rewrite context_saved_proc by done. by destruct (i =? _).
Qed.

(** ** Scheduling *)

(** [n] yields that pass process [i] over; between two of them the process that
    got the processor may do anything that leaves [i] able to run. *)
Inductive passed_over (i : Z) : nat -> st -> st -> Prop :=
| passed_none s : passed_over i O s s
| passed_one n s s1 s2 s' :
    proc_yield s = Ok (tt, s1) -> proc_curr_idx s1 <> i ->
    k_ok s2 -> proc_curr_idx s2 = proc_curr_idx s1 -> can_run (status (proc s2 i)) = true ->
    passed_over i n s2 s' -> passed_over i (S n) s s'.

Lemma passed_over_dist (i : Z) n (s s' : st) :
  passed_over i n s s' -> k_ok s -> 0 <= i < MAX_NPROCESS -> can_run (status (proc s i)) = true ->
  Z.of_nat n + dist s' i <= dist s i /\ k_ok s' /\ can_run (status (proc s' i)) = true.
Proof.
  induction 1 as [s|n s s1 s2 s' Ey Hne Hok2 Hi2 Hc2 Hp IH]; intros Hok Hi Hc; [split; [lia|done]|].
  destruct (IH Hok2 Hi Hc2) as (Hd & Hok' & Hc'). split; [|done].
  destruct (yield_dist s i Hok Hi Hc) as (s1' & Ey' & _ & Hd1).
  assert (s1' = s1) as -> by congruence. destruct Hd1 as [?|Hd1]; [done|].
  unfold dist in Hd at 2. rewrite Hi2 in Hd. fold (dist s1 i) in Hd. lia.
Qed.

(** C13. A process that can run is passed over by at most seven yields in a row,
    whatever the processes that run in between do, and the scheduler never
    stops while it waits: the eighth yield gives it the processor. *)
Theorem bounded_waiting (i : Z) n (s s' : st) :
  k_ok s -> 0 <= i < MAX_NPROCESS -> can_run (status (proc s i)) = true ->
  passed_over i n s s' ->
  Z.of_nat n < MAX_NPROCESS /\
  exists s1, proc_yield s' = Ok (tt, s1) /\
    (Z.of_nat n = MAX_NPROCESS - 1 -> proc_curr_idx s1 = i /\ status (proc s1 i) = PROC_RUNNING).
Proof.
  intros Hok Hi Hc Hp. destruct (passed_over_dist i n s s' Hp Hok Hi Hc) as (Hd & Hok' & Hc').
  pose proof (dist_range s i). pose proof (dist_range s' i). split; [lia|].
  destruct (yield_dist s' i Hok' Hi Hc') as (s1 & Ey & R & Hs1). exists s1. split; [done|].
  intros Hn. pose proof (dist_range s1 i). destruct Hs1 as [Hs1|Hs1]; [|lia]. split; [done|].
  pose proof (kr_status _ R) as Hr. unfold curr_status, curr in Hr. by rewrite Hs1 in Hr.
Qed.

(** ** Messages *)

(** [proc_send] to a process that waits to receive returns, the receiver has the
    message of the sender with the sender filled in, both can run, and nothing
    else in the memory of any process changes outside the system call areas. *)
Theorem send_to_waiting_receiver (s : st) i :
  k_run s -> let cp := curr_pid s in let r := msg_receiver (earth s) cp in
  find_pid r 0 (proc_set s) = Some i -> status (proc s i) = PROC_WAIT_TO_RECV ->
  exists s', proc_send s = Ok (tt, s') /\ k_run s' /\
    message (earth s') r = stamped cp (message (earth s) cp) /\
    can_run (status (proc s' i)) = true /\ can_run (status (proc s' (proc_curr_idx s))) = true /\
    forall q x, q <> 0 -> mapped (earth s) q x ->
      x < SYSCALL_ARG \/ SYSCALL_ARG + SYSCALL_SIZE <= x -> eview (earth s') q x = eview (earth s) q x.
Proof.
  intros R cp r Hf Hst.
  destruct (send_deliver s i R Hf Hst) as (s2 & Es & Hok2 & Hi & Hpid & Hr0 & Hrc & Hix & _ & Hp & Hmsg & _ & Hmap & Hv).
  fold cp r in Hpid, Hr0, Hrc, Hmsg. pose proof (ko_idx _ (kr_ok _ R)) as Hidx.
  assert (status (proc s2 i) = PROC_RUNNABLE) as Hi2 by by rewrite Hp, Z.eqb_refl.
  destruct (yield_live s2 i Hok2 Hi) as (k & s' & _ & _ & _ & Ey & R' & Hj & Hsp & Hy); [by rewrite Hi2|].
  assert (loaded (status (proc s i))) as Hld by by rewrite Hst.
  exists s'. split; [congruence|]. split; [done|]. split; [|split; [|split]].
  - rewrite <- Hmsg. apply message_same; [done..|]. intros x Hx. apply Hmap; [done|].
    rewrite <- Hpid. apply (ko_mapped _ (kr_ok _ R) i); done.
  - rewrite Hy by done. apply yielded_can_run. by rewrite Hi2.
  - rewrite Hy by done. apply yielded_can_run. apply (curr_can_run s s2 i); [done|congruence|done].
  - intros q x Hq Hm Hx. rewrite (ss_view _ _ Hsp); [apply Hv; auto|done|by apply Hmap].
Qed.

(** [proc_recv] while somebody waits to send to the current process returns, with
    the message of one of them in the system call area; that sender can run
    again, and no other memory changes. *)
Theorem recv_from_waiting_sender (s : st) k :
  k_run s -> let cp := curr_pid s in
  0 <= k < MAX_NPROCESS -> status (proc s k) = PROC_WAIT_TO_SEND -> receiver_pid (proc s k) = cp ->
  exists k' s', 0 <= k' < MAX_NPROCESS /\
    status (proc s k') = PROC_WAIT_TO_SEND /\ receiver_pid (proc s k') = cp /\
    proc_recv s = Ok (tt, s') /\ k_run s' /\
    message (earth s') cp = message (earth s) (pid (proc s k')) /\
    can_run (status (proc s' k')) = true /\ can_run (status (proc s' (proc_curr_idx s))) = true /\
    forall q x, q <> 0 -> mapped (earth s) q x ->
      q <> cp \/ x < SYSCALL_ARG \/ SYSCALL_ARG + SYSCALL_SIZE <= x ->
      eview (earth s') q x = eview (earth s) q x.
Proof.
  intros R cp Hk Hst Hrp. pose proof (kr_ok _ R) as Hok. pose proof (ko_idx _ Hok) as Hidx.
  assert (exists k', 0 <= k' < MAX_NPROCESS /\ status (proc s k') = PROC_WAIT_TO_SEND /\
    receiver_pid (proc s k') = cp /\ find_sender cp (-1) (proc_set s) = pid (proc s k')) as (k' & Hk' & Hst' & Hrp' & Hf).
  { destruct (find_sender_spec cp (-1) (proc_set s)) as [[_ Hn]|(n & p & Hn & H1 & H2 & H3)].
    - destruct (lookup_lt_is_Some_2 (proc_set s) (Z.to_nat k)) as [p Ep].
      { rewrite (ko_len _ Hok). unfold MAX_NPROCESS in *. lia. }
      unfold proc in Hst, Hrp. rewrite Ep in Hst, Hrp.
      by destruct (proj1 (Forall_lookup _ _) Hn _ _ Ep).
    - exists (Z.of_nat n). unfold proc. rewrite Nat2Z.id, Hn. pose proof (lookup_lt_Some _ _ _ Hn) as Hl.
      rewrite (ko_len _ Hok) in Hl. unfold MAX_NPROCESS in *. split_and!; done || lia. }
  destruct (recv_deliver s k' R Hk' Hst' Hf) as (s2 & Es & Hok2 & Hix & _ & Hp & Hmsg & _ & Hmap & Hv).
  fold cp in Hmsg, Hv.
  assert (status (proc s2 k') = PROC_RUNNABLE) as Hk2 by by rewrite Hp, Z.eqb_refl.
  destruct (yield_live s2 k' Hok2 Hk') as (n & s' & _ & _ & _ & Ey & R' & Hj & Hsp & Hy); [by rewrite Hk2|].
  destruct (curr_mapped s R) as [Hcp Hmc].
  exists k', s'. do 3 (split; [done|]). split; [congruence|]. split; [done|]. split; [|split; [|split]].
  - rewrite <- Hmsg. apply message_same; [done..|]. intros x Hx. apply Hmap; [done|]. by apply Hmc.
  - rewrite Hy by done. apply yielded_can_run. by rewrite Hk2.
  - rewrite Hy by done. apply yielded_can_run. apply (curr_can_run s s2 k'); [done|congruence|done].
  - intros q x Hq Hm Hx. rewrite (ss_view _ _ Hsp); [by apply Hv|done|by apply Hmap].
Qed.

(** [proc_send] to a pid that no entry of the process table has returns at once,
    with -1 as the value of the system call. *)
Theorem send_to_nobody (s : st) :
  k_run s -> let cp := curr_pid s in
  (forall i, 0 <= i < MAX_NPROCESS -> pid (proc s i) <> msg_receiver (earth s) cp) ->
  exists e', proc_send s = Ok (tt, set_earth e' s) /\ k_run (set_earth e' s) /\
    eload e' cp sc_retval 4 = le_put 4 (u32 (-1)).
Proof.
  intros R cp Hn. destruct (send_none s R) as (e' & H1 & H2 & H3 & _); [|by exists e'].
  apply find_pid_none, Forall_lookup. intros n p Hp. pose proof (lookup_lt_Some _ _ _ Hp) as Hl.
  rewrite (ko_len _ (kr_ok _ R)) in Hl. specialize (Hn (Z.of_nat n)). unfold proc in Hn.
  rewrite Nat2Z.id, Hp in Hn. apply Hn. unfold MAX_NPROCESS in *. lia.
Qed.


(** C37. [proc_send] to a process that has exited does not fail: its pid is still in
    the unused entry, so the sender waits to send, with the return value it
    had, to a process that will never receive. *)
Theorem send_to_dead_process_blocks (s : st) i j :
  k_run s -> let cp := curr_pid s in let r := msg_receiver (earth s) cp in
  find_pid r 0 (proc_set s) = Some i -> status (proc s i) = PROC_UNUSED ->
  0 <= j < MAX_NPROCESS -> j <> proc_curr_idx s -> can_run (status (proc s j)) = true ->
  exists s', proc_send s = Ok (tt, s') /\ k_run s' /\
    status (proc s' (proc_curr_idx s)) = PROC_WAIT_TO_SEND /\
    receiver_pid (proc s' (proc_curr_idx s)) = r /\
    eload (earth s') cp sc_retval 4 = eload (earth s) cp sc_retval 4.
Proof.
  intros R cp r Hf Hst Hj Hne Hc. pose proof (ko_idx _ (kr_ok _ R)) as Hidx.
  destruct (curr_mapped s R) as [Hcp Hmc].
  destruct (send_block s i R Hf) as (s2 & Es & Hok2 & Hix & _ & Hp & _ & _ & Hmap & Hv); [congruence|].
  fold cp r in Hp, Hv.
  destruct (yield_live s2 j Hok2 Hj) as (k & s' & _ & Hck & _ & Ey & R' & Hk & Hsp & Hy).
  { rewrite Hp by done. by rewrite (proj2 (Z.eqb_neq _ _) Hne). }
  set (jj := (proc_curr_idx s2 + k) mod MAX_NPROCESS) in *.
  assert (0 <= jj < MAX_NPROCESS) as Hjj by by apply Z.mod_pos_bound.
  assert (proc s2 (proc_curr_idx s) = set_receiver_pid r (set_status PROC_WAIT_TO_SEND (curr s))) as Hcur
    by by rewrite Hp, Z.eqb_refl.
  assert (proc_curr_idx s <> jj) as Hjn by (intros Heq; rewrite <- Heq, Hcur in Hck; done).
  assert (proc s' (proc_curr_idx s) = proc s2 (proc_curr_idx s)) as Hcur'.
  { rewrite Hy by done. unfold yielded. cbv zeta. rewrite (proj2 (Z.eqb_neq _ _) Hjn).
    rewrite bool_decide_eq_false_2; [done|]. rewrite Hcur. by intros [_ ?]. }
  exists s'. rewrite Hcur', Hcur. split; [congruence|]. do 3 (split; [done|]).
  unfold eload. apply list_fmap_ext. intros n x Hx. apply list_elem_of_lookup_2, elem_of_seqZ in Hx.
  assert (mapped (earth s) cp (sc_retval + x)) as Hm by (apply Hmc; sc_lia).
  rewrite (ss_view _ _ Hsp); [|done|by apply Hmap]. apply Hv; [done..|]. sc_lia.
Qed.

(** ** Processes *)

(** C32. [proc_alloc] takes one unused entry and gives it a pid that no entry has, and
    keeps the invariant; it stops exactly when no entry is unused. *)
Theorem proc_alloc_fresh (s : st) :
  k_run s -> proc_nprocs s + 1 < 2 ^ 31 ->
  match proc_alloc s with
  | Ok (q, s') => k_run s' /\ (forall i, 0 <= i < MAX_NPROCESS -> pid (proc s i) <> q) /\
      exists i, 0 <= i < MAX_NPROCESS /\ status (proc s i) = PROC_UNUSED /\
        pid (proc s' i) = q /\ status (proc s' i) = PROC_LOADING /\
        forall j, 0 <= j < MAX_NPROCESS -> j <> i -> proc s' j = proc s j
  | Fatal _ => forall i, 0 <= i < MAX_NPROCESS -> status (proc s i) <> PROC_UNUSED
  | _ => False
  end.
Proof.
  intros R Hn. pose proof (kr_ok _ R) as Hok. destruct (find_unused 0 (proc_set s)) as [i|] eqn:Hf.
  - destruct (proc_alloc_spec s i Hok Hn Hf) as (Hi & Hst & s' & Ea & Hok' & _ & _ & _ & Hp). rewrite Ea.
    split; [by eapply alloc_run|]. split.
    { intros j Hj. pose proof (ko_pid _ Hok j Hj). lia. }
    exists i. split; [done|]. split; [done|]. rewrite Hp, Z.eqb_refl by done. do 2 (split; [done|]).
    intros j Hj Hne. rewrite Hp by done. by rewrite (proj2 (Z.eqb_neq _ _) Hne).
  - unfold proc_alloc, bind. cbn [get]. rewrite Hf. cbn [fatal]. by apply find_unused_full.
Qed.

(** C31. [proc_free] of another process makes its entry unused and gives back all its
    pages, and changes neither the entries nor the memory of the others. *)
Theorem proc_free_releases (s : st) q :
  k_run s -> 0 < q -> q <> curr_pid s ->
  exists s', proc_free q s = Ok (tt, s') /\ k_run s' /\
    (forall i, 0 <= i < MAX_NPROCESS ->
       proc s' i = if pid (proc s i) =? q then set_status PROC_UNUSED (proc s i) else proc s i) /\
    (forall a, ~ mapped (earth s') q a) /\
    forall q' a, q' <> 0 -> q' <> q ->
      (mapped (earth s') q' a <-> mapped (earth s) q' a) /\
      (mapped (earth s) q' a -> eview (earth s') q' a = eview (earth s) q' a).
Proof.
  intros R Hq Hc. destruct (free_spec s q (kr_ok _ R)) as (s' & Ef & Rl); [lia..|].
  exists s'. split; [done|]. split; [by eapply released_run|]. split; [apply Rl|]. split; [apply Rl|].
  intros q' a H1 H2. split; [by apply (rl_mapped _ _ _ Rl)|by apply (rl_view _ _ _ Rl)].
Qed.

(** ** All together *)


End theorems.
