(* ===== verification/Devices.v ===== *)
(** Small devices that keep the laws the drivers assume: a disk that is an array
    of bytes, and a board with a clock and a serial line.  The theorems do not
    depend on them; they show that the assumptions can hold together, and the
    examples run on them. *)

From Stdlib Require Import ZArith Lia Strings.Byte.
From stdpp Require Import base numbers list strings gmap.
From S2P Require Import Prelude Bytes Memory Earth Bus.

Local Open Scope egos_scope.

(** ** A disk of 4MB *)

Module MemDisk.

Record disk := { bytes : mem }.

Definition SIZE : Z := 8192.

#[global] Instance ops : Disk disk := {|
  disk_read b n := d <- get ;; ret (0, load (bytes d) (b * BLOCK_SIZE) (n * BLOCK_SIZE));
  disk_write b n src :=
    modify (fun d => {| bytes := store (bytes d) (b * BLOCK_SIZE) src |}) ;;; ret 0
|}.

Definition blk (d : disk) (i : Z) : block := load (bytes d) (i * BLOCK_SIZE) BLOCK_SIZE.
Definition blocks (d : disk) : gmap Z block :=
  list_to_map ((fun i => (i, blk d i)) <$> seqZ 0 SIZE).

Lemma blocks_lookup d i : blocks d !! i = if (0 <=? i) && (i <? SIZE) then Some (blk d i) else None.
Proof.
  unfold blocks. assert (NoDup ((fun i => (i, blk d i)) <$> seqZ 0 SIZE).*1) as Hnd.
  { rewrite <- list_fmap_compose. rewrite list_fmap_id. apply NoDup_seqZ. }
  destruct ((0 <=? i) && (i <? SIZE)) eqn:Ei.
  - bool_prop. apply elem_of_list_to_map_1; [done|]. apply list_elem_of_fmap. exists i. split; [done|].
    apply elem_of_seqZ. lia.
  - apply not_elem_of_list_to_map_1. rewrite <- list_fmap_compose, list_fmap_id.
    intros Hi%elem_of_seqZ. destruct (Z.leb_spec 0 i), (Z.ltb_spec i SIZE); simpl in Ei; (done || lia).
Qed.

Lemma blocks_at_load d b n :
  0 <= b -> 0 <= n -> b + n <= SIZE ->
  load (bytes d) (b * BLOCK_SIZE) (n * BLOCK_SIZE) = blocks_at (blocks d) b n.
Proof.
  intros Hb Hn Hs. symmetry. apply blocks_at_written; [done|rewrite length_load; unfold BLOCK_SIZE; lia|].
  intros i Hi. rewrite blocks_lookup, (proj2 (Z.leb_le 0 i)), (proj2 (Z.ltb_lt i SIZE)) by lia.
  simpl. f_equal. unfold blk. apply list_eq. intros k. rewrite load_lookup.
  destruct (Z.ltb_spec (Z.of_nat k) BLOCK_SIZE) as [Hk|Hk]; unfold BLOCK_SIZE in *.
  - rewrite lookup_take_lt, lookup_drop, load_lookup by lia. rewrite (proj2 (Z.ltb_lt _ _)) by lia.
    do 2 f_equal. lia.
  - by rewrite lookup_take_ge by lia.
Qed.

#[global, program] Instance laws : DiskLaws disk := {| disk_size := SIZE; disk_blocks := blocks |}.
Next Obligation.
  intros d i. rewrite blocks_lookup. destruct ((0 <=? i) && (i <? SIZE)) eqn:Ei.
  - bool_prop. split; [lia|by eexists].
  - split; [by intros [? ?]|]. intros [? ?]. apply andb_false_iff in Ei as [Ei|Ei]; bool_prop; lia.
Qed.
Next Obligation.
  intros d i b. rewrite blocks_lookup. case_goal; [|done]. intros [= <-].
  unfold block_ok, blk. by rewrite length_load.
Qed.
Next Obligation.
  intros d b n Hb Hn Hs. exists d. split; [|done]. simpl. unfold bind. cbn [get ret].
  by rewrite blocks_at_load.
Qed.
Next Obligation.
  intros d b n src Hb Hn Hs Hl. eexists. split; [reflexivity|]. intros i. rewrite !blocks_lookup.
  unfold write_blocks. rewrite blocks_lookup.
  destruct (Z.leb_spec b i), (Z.ltb_spec i (b + n)); simpl;
    destruct (Z.leb_spec 0 i), (Z.ltb_spec i SIZE); simpl; try done; try lia; f_equal; unfold blk; simpl;
    try (apply load_store_ne; unfold BLOCK_SIZE in *; lia).
  apply list_eq. intros k. rewrite load_lookup.
  destruct (Z.ltb_spec (Z.of_nat k) BLOCK_SIZE) as [Hk|Hk]; unfold BLOCK_SIZE in *.
  - rewrite lookup_take_lt, lookup_drop, store_lookup by lia.
    rewrite (proj2 (Z.leb_le _ _)), (proj2 (Z.ltb_lt _ _)) by lia. simpl.
    replace (Z.to_nat (i * 512 + Z.of_nat k - b * 512)) with (Z.to_nat ((i - b) * 512) + k)%nat by lia.
    destruct (lookup_lt_is_Some_2 src (Z.to_nat ((i - b) * 512) + k)) as [x ->]; [lia|done].
  - by rewrite lookup_take_ge by lia.
Qed.

End MemDisk.

(** ** A board *)

Module Board.

(** The clock advances by one tick at each read; the two bases of UART0 are the
    same serial line, which is always ready to send. *)
Record board := { ticks : N; cmp : gmap Z Z; rx : list (option byte); tx : list Z }.

Definition clock (b : board) : Z := Z.min (Z.of_N (ticks b)) (2 ^ 63 - 1).
Definition tick (b : board) : board :=
  {| ticks := N.succ (ticks b); cmp := cmp b; rx := rx b; tx := tx b |}.
Definition set_cmp (h v : Z) (b : board) : board :=
  {| ticks := ticks b; cmp := <[h := v]> (cmp b); rx := rx b; tx := tx b |}.
Definition cmp_at (b : board) (h : Z) : Z := default 0 (cmp b !! h).

Definition uart_base (a : Z) : bool := (a =? 0x10010000) || (a =? 0x10013000).

#[global] Instance ops : Bus board := {|
  REGW base off := fun b =>
    if base =? 0x200BFF8 then
      Ok (if off =? 4 then clock b / 2 ^ 32 else clock b mod 2 ^ 32, tick b)
    else if uart_base base && (off =? 4) then
      Ok (match rx b with Some c :: _ => Z.of_N (Byte.to_N c) | _ => 2 ^ 31 end,
          {| ticks := ticks b; cmp := cmp b; rx := tail (rx b); tx := tx b |})
    else Ok (0, b);
  REGW_set base off v := fun b =>
    if base =? 0x2004000 then
      Ok (tt, if off mod 8 =? 4
              then set_cmp ((off - 4) / 8) (v * 2 ^ 32 + cmp_at b ((off - 4) / 8) mod 2 ^ 32) b
              else set_cmp (off / 8) (cmp_at b (off / 8) / 2 ^ 32 * 2 ^ 32 + v) b)
    else if uart_base base && (off =? 0) then
      Ok (tt, {| ticks := ticks b; cmp := cmp b; rx := rx b; tx := tx b ++ [v mod 2 ^ 8] |})
    else Ok (tt, b);
  REGB base off := ret 0;
  REGB_set base off v := ret tt
|}.

Lemma clock_tick b : clock b <= clock (tick b) < clock b + 2 ^ 28.
Proof. unfold clock, tick. simpl. lia. Qed.

Lemma set_cmp_at h v b h' : cmp_at (set_cmp h v b) h' = if decide (h = h') then v else cmp_at b h'.
Proof. unfold cmp_at, set_cmp. simpl. rewrite lookup_insert. by case_decide. Qed.

#[global, program] Instance clint : ClintLaws board := {| mtime := clock; mtimecmp := cmp_at |}.
Next Obligation. intros b. unfold clock. lia. Qed.
Next Obligation. intros b. eexists _, _. split; [reflexivity|]. split; [done|]. split; [apply clock_tick|done]. Qed.
Next Obligation. intros b. eexists _, _. split; [reflexivity|]. split; [done|]. split; [apply clock_tick|done]. Qed.
Next Obligation.
  intros h v Hv b. eexists _, _. split; [reflexivity|].
  rewrite (Z.add_comm (h * 8)), Z_mod_plus_full. change (4 mod 8 =? 4) with true. cbv iota.
  replace (4 + h * 8 - 4) with (h * 8) by lia. rewrite Z.div_mul by lia.
  rewrite set_cmp_at, decide_True by done. split; [done|]. split; [done|].
  intros h' Hne. by rewrite set_cmp_at, decide_False.
Qed.
Next Obligation.
  intros h v Hv b. eexists _, _. split; [reflexivity|].
  rewrite (Z.add_comm (h * 8)), Z_mod_plus_full. change (0 mod 8 =? 4) with false. cbv iota.
  rewrite Z.add_0_l, Z.div_mul by lia.
  rewrite set_cmp_at, decide_True by done. split; [done|]. split; [done|].
  intros h' Hne. by rewrite set_cmp_at, decide_False.
Qed.

#[global, program] Instance uart (p : platform_t) : UartLaws board (UART0_BASE p) := {|
  pending b := option_map (fun c => Z.of_N (Byte.to_N c)) <$> rx b;
  busy b := O;
  sent := tx;
  busy_max := O
|}.
Next Obligation. done. Qed.
Next Obligation.
  intros p b. apply Forall_forall. intros o (x & -> & _)%list_elem_of_fmap c Hc.
  destruct x as [x|]; [|done]. injection Hc as <-. pose proof (Byte.to_N_bounded x). lia.
Qed.
Next Obligation.
  intros p b. eexists _, _. split; [by destruct p|]. destruct b as [t c r s].
  by destruct r as [|[x|] r].
Qed.
Next Obligation. intros p b. eexists _, _. by split; [destruct p|]. Qed.
Next Obligation. intros p c b. eexists _, _. by split; [destruct p|]. Qed.

End Board.
