(* ===== verification/KernelExample.v ===== *)
(** A machine on which the theorems on the kernel apply: QEMU with the paging
    device of Paging.v, the disk and the board of Devices.v, and three
    processes that have one page each. *)

From Stdlib Require Import ZArith Lia Strings.Byte.
From stdpp Require Import base numbers list strings gmap relations.
From S2P Require Import Prelude Bytes Memory Earth Paging Mmu MmuProof Bus Timer Tty.
From S2P Require Import Kernel KernelSpec KernelIpc KernelTrap KernelReach EarthState Devices KernelTheorems.

(** ** The earth layer *)

Definition rand0 (u : unit) : Z * unit := (0, u).
Lemma rand0_nonneg u : 0 <= fst (rand0 u).
Proof. done. Qed.
Lemma room0 : NFRAMES * NBLOCKS_PER_PAGE <= disk_size MemDisk.disk.
Proof. vm_compute. by intros. Qed.

Abbreviation P0 := (paging_state MemDisk.disk unit).
#[export] Instance paging0 : Paging P0 := dev_paging rand0.
#[export] Instance paging_laws0 : PagingLaws P0 := dev_paging_laws rand0 rand0_nonneg room0 QEMU_LATEST.
Lemma no_evict0 : pg_evicts (P := P0) = false.
Proof. done. Qed.

Abbreviation E0 := (earth_state P0 Board.board).
#[export] Instance earth_laws0 : EarthLaws E0 := earth_laws Board.uart no_evict0.

(** Page 0x80000, with the system call area, of the processes 1, 5 and 6. *)
Definition page1 (q : Z) : frame_mapping := {| use := 1; fm_pid := q; page_no := 0x80000 |}.
Definition table0 : list frame_mapping :=
  page1 1 :: page1 5 :: page1 6 :: replicate 253 unused_frame.

Definition earth0 (m : mem) (vm : Z) (rx : list (option byte)) : E0 :=
  {| mmu := {| table := table0; curr_vm_pid := vm; frame_id := 0; root := 0; leaf := 0;
               pid_to_pagetable_base := replicate 32 0;
               dev := {| pg_mem := m; cache_slots := []; platform := QEMU_LATEST;
                         pg_disk := {| MemDisk.bytes := ∅ |}; pg_rand := tt |} |};
     tty := {| tty_c := 0; is_reading := 0;
               tty_bus := {| Board.ticks := 0; Board.cmp := ∅; Board.rx := rx; Board.tx := [] |} |};
     csr := {| csr_mepc := 0; csr_satp := 0; csr_mtvec := None; csr_mie := 0; csr_mstatus := 0;
               csr_pmpaddr0 := 0; csr_pmpcfg0 := 0 |};
     platform_of := QEMU_LATEST; translation := SOFT_TLB; QUANTUM := 500000; mhartid := 0 |}.

Lemma entry0 m vm rx i :
  (Z.to_nat i = 0%nat /\ entry (mmu (earth0 m vm rx)) i = page1 1) \/
  (Z.to_nat i = 1%nat /\ entry (mmu (earth0 m vm rx)) i = page1 5) \/
  (Z.to_nat i = 2%nat /\ entry (mmu (earth0 m vm rx)) i = page1 6) \/
  entry (mmu (earth0 m vm rx)) i = unused_frame.
Proof.
  unfold entry, table0. cbn [table mmu earth0]. destruct (Z.to_nat i) as [|[|[|n]]]; [auto..|].
  right. right. right. cbn [lookup list_lookup table0].
  destruct (replicate 253 unused_frame !! n) as [x|] eqn:Ex; [|done].
  by apply lookup_replicate in Ex as [-> _].
Qed.

Lemma maps0 m vm rx i q p :
  maps (entry (mmu (earth0 m vm rx)) i) q p ->
  p = 0x80000 /\ (q = 1 /\ Z.to_nat i = 0%nat \/ q = 5 /\ Z.to_nat i = 1%nat \/ q = 6 /\ Z.to_nat i = 2%nat).
Proof.
  destruct (entry0 m vm rx i) as [[Hi ->]|[[Hi ->]|[[Hi ->]| ->]]]; intros (? & <- & <-);
    simpl in *; (split; [done|]); auto || done.
Qed.

Lemma earth0_ok m vm rx : vm <> 0 -> est_ok (earth0 m vm rx).
Proof.
  intros Hv. split; [|done|done]. split.
  - done.
  - by split.
  - done.
  - intros i. destruct (entry0 m vm rx i) as [[_ ->]|[[_ ->]|[[_ ->]| ->]]]; done.
  - intros i q p _ [-> _]%maps0. split; [done|]. vm_compute. by intros.
  - intros i j q p Hi Hj _ [_ H1]%maps0 [_ H2]%maps0. lia.
Qed.

(** The addresses of page 0x80000 are mapped, and no others. *)
Lemma mapped0 m vm rx q x :
  q = 1 \/ q = 5 \/ q = 6 -> 0x80000000 <= x < 0x80001000 -> mapped (earth0 m vm rx) q x.
Proof.
  intros Hq Hx. unfold mapped, earth_laws0, earth_laws, est_mapped, view.
  assert (x / PAGE_SIZE = 0x80000) as ->.
  { symmetry. unfold PAGE_SIZE. apply Z.div_unique with (x - 0x80000000); lia. }
  destruct Hq as [->|[->| ->]]; by eexists.
Qed.

Lemma mapped0_inv m vm rx q x :
  mapped (earth0 m vm rx) q x -> (q = 1 \/ q = 5 \/ q = 6) /\ 0x80000000 <= x < 0x80001000.
Proof.
  intros (f & Hf & [Hx Hq]%maps0)%est_mapped_maps. split; [tauto|].
  pose proof (page_of x) as Hp. rewrite Hx in Hp. unfold PAGE_SIZE in Hp. lia.
Qed.

Lemma kernel0 m vm rx q x : mapped (earth0 m vm rx) q x -> ~ kernel_area x.
Proof. intros [_ Hx]%mapped0_inv. unfold kernel_area, regs_area. sc_lia. Qed.

(** ** The process table *)

Definition proc_at (q : Z) (v : proc_status) (r : Z) : process :=
  {| pid := q; status := v; mepc := 0x08005010;
     saved_register := replicate (Z.to_nat SAVED_REGISTER_SIZE) x00; receiver_pid := r |}.

(** The processes 1, 5 and 6, and an entry that process 7 has left; process 5
    runs. *)
Definition kernel1 (v1 v6 : proc_status) (r6 : Z) (m : mem) (rx : list (option byte)) : kernel E0 :=
  {| proc_set := [proc_at 1 v1 0; proc_at 5 PROC_RUNNING 0; proc_at 6 v6 r6; proc_at 7 PROC_UNUSED 0;
                  proc0; proc0; proc0; proc0];
     proc_curr_idx := 1; proc_nprocs := 7; earth := earth0 m 5 rx |}.

Lemma proc1 v1 v6 r6 m rx i (Q : Z -> process -> Prop) :
  0 <= i < MAX_NPROCESS ->
  Q 0 (proc_at 1 v1 0) -> Q 1 (proc_at 5 PROC_RUNNING 0) -> Q 2 (proc_at 6 v6 r6) ->
  Q 3 (proc_at 7 PROC_UNUSED 0) -> (forall i, 4 <= i -> Q i proc0) ->
  Q i (proc (kernel1 v1 v6 r6 m rx) i).
Proof.
  intros Hi H0 H1 H2 H3 H4. unfold MAX_NPROCESS in Hi.
  assert (i = 0 \/ i = 1 \/ i = 2 \/ i = 3 \/ i = 4 \/ i = 5 \/ i = 6 \/ i = 7) as
    [->|[->|[->|[->|[->|[->|[->| ->]]]]]]] by lia; done || (apply H4; lia).
Qed.

Lemma kernel1_run v1 v6 r6 m rx :
  v1 <> PROC_RUNNING -> v6 <> PROC_RUNNING -> k_run (kernel1 v1 v6 r6 m rx).
Proof.
  intros H1 H6. split; [|done|done]. split.
  - done.
  - done.
  - intros i Hi. by apply (proc1 v1 v6 r6 m rx i (fun _ p => 0 <= pid p <= 7)).
  - intros i Hi. by apply (proc1 v1 v6 r6 m rx i (fun _ p => status p <> PROC_UNUSED -> pid p <> 0)).
  - intros i j Hi Hj.
    apply (proc1 v1 v6 r6 m rx i (fun i p => pid p = pid (proc (kernel1 v1 v6 r6 m rx) j) -> pid p <> 0 -> i = j));
      [done|..|done]; cbn [pid proc_at];
      match goal with |- ?q = _ -> _ -> ?c = _ =>
        by apply (proc1 v1 v6 r6 m rx j (fun j p => q = pid p -> q <> 0 -> c = j)) end.
  - intros i Hi. by apply (proc1 v1 v6 r6 m rx i (fun _ p => length (saved_register p) = Z.to_nat SAVED_REGISTER_SIZE)).
  - intros i Hi. by apply (proc1 v1 v6 r6 m rx i (fun i p => status p = PROC_RUNNING -> i = 1)).
  - by apply earth0_ok.
  - intros i Hi. apply (proc1 v1 v6 r6 m rx i
      (fun _ p => loaded (status p) -> mapped_range (earth0 m 5 rx) (pid p) SYSCALL_ARG SYSCALL_SIZE));
      try done; try (by intros []); try (by intros ? ? []); intros _ x Hx; (apply mapped0; [simpl; auto|sc_lia]).
  - intros q a _. apply kernel0.
Qed.

(** ** The theorems at work *)

(** The system call area of process 5: a message to process [r]. *)
Definition mail (r : Z) : mem :=
  store ∅ SYSCALL_ARG (le_put 4 SYS_SEND ++ le_put 4 0 ++ le_put 4 r ++ [x68; x69]).

Definition state_of {S A} (o : outcome (A * S)) (s : S) : S :=
  match o with Ok (_, s') => s' | _ => s end.
Lemma state_of_ok {S} (o : outcome (unit * S)) s :
  result o = Some tt -> o = Ok (tt, state_of o s).
Proof. by destruct o as [[[] s']| | |]. Qed.

(** Everybody can run. *)
Definition busy1 : kernel E0 := kernel1 PROC_RUNNABLE PROC_RUNNABLE 0 (mail 6) [].
Lemma busy1_run : k_run busy1.
Proof. by apply kernel1_run. Qed.

Lemma kernel_entry_correct_witness :
  match kernel_entry 1 INTR_ID_SOFT busy1 with
  | Ok (_, s') => entered busy1 s'
  | Fatal msg => 1 = 0 \/ INTR_ID_SOFT = INTR_ID_SOFT /\
      (msg = "proc_yield: no runnable process"%string \/
       msg = "proc_syscall: got unknown syscall type"%string)
  | _ => False
  end.
Proof. exact (kernel_entry_correct busy1 1 INTR_ID_SOFT busy1_run). Defined.

Lemma timer_round_robin_witness :
  exists k s', 1 <= k <= MAX_NPROCESS /\
    kernel_entry 1 INTR_ID_TIMER busy1 = Ok (tt, s') /\
    proc_curr_idx s' = (proc_curr_idx busy1 + k) mod MAX_NPROCESS.
Proof.
  destruct (timer_round_robin busy1 busy1_run) as (k & s' & H1 & H2 & H3 & _).
  - vm_compute. by intros.
  - intros r e H. vm_compute in H. by injection H as <- _.
  - exists k, s'. split; [exact H1|]. split; [exact H2|exact H3].
Defined.

(** Ctrl+C was typed. *)
Definition ctrl_c1 : kernel E0 := kernel1 PROC_RUNNABLE PROC_RUNNABLE 0 (mail 6) [Some x03].

Lemma ctrl_c_is_lost_witness :
  exists s', kernel_entry 1 INTR_ID_TIMER ctrl_c1 = Ok (tt, s') /\
    mepc_csr (earth s') = mepc_csr (earth ctrl_c1).
Proof.
  destruct (ctrl_c_is_lost ctrl_c1 INTR_ID_TIMER 1
    (state_of (earth_tty_recv_intr (earth ctrl_c1)) (earth ctrl_c1))) as (s' & H1 & _ & H2 & _).
  - by apply kernel1_run.
  - vm_compute. by intros.
  - vm_compute. reflexivity.
  - done.
  - by exists s'.
Defined.

(** The next process is 6. *)
Lemma busy1_yield :
  exists s', proc_yield busy1 = Ok (tt, s') /\ k_ok s' /\ proc_curr_idx s' = 2 /\
    can_run (status (proc s' 0)) = true.
Proof.
  destruct (yield_live busy1 0 (kr_ok _ busy1_run)) as (k & s' & Hk & _ & Hn & Ey & R & Hi & _ & Hp);
    [done|reflexivity|].
  exists s'. split; [exact Ey|]. split; [apply R|].
  assert (k = 1) as ->.
  { destruct (decide (k = 1)) as [->|Hne]; [done|]. specialize (Hn 1 ltac:(lia)). discriminate Hn. }
  split; [rewrite Hi; reflexivity|]. rewrite Hp by (split; [lia|reflexivity]). reflexivity.
Qed.

Lemma bounded_waiting_witness :
  exists s', passed_over 0 1 busy1 s' /\ exists s1, proc_yield s' = Ok (tt, s1).
Proof.
  destruct busy1_yield as (s' & Ey & Hok & Hi & Hc). exists s'.
  assert (passed_over 0 1 busy1 s') as Hp.
  { apply (passed_one 0 O busy1 s' s' s'); [exact Ey|by rewrite Hi|exact Hok|reflexivity|exact Hc|constructor]. }
  split; [exact Hp|].
  destruct (bounded_waiting 0 1 busy1 s' (kr_ok _ busy1_run)) as (_ & s1 & E1 & _);
    [split; [lia|reflexivity]|reflexivity|exact Hp|].
  exists s1. exact E1.
Defined.

(** Process 6 waits for a message, and process 5 sends one. *)
Definition waiting1 : kernel E0 := kernel1 PROC_RUNNABLE PROC_WAIT_TO_RECV 0 (mail 6) [].

Lemma send_to_waiting_receiver_witness :
  exists s', proc_send waiting1 = Ok (tt, s') /\
    message (earth s') 6 = stamped 5 (message (earth waiting1) 5).
Proof.
  assert (msg_receiver (earth waiting1) (curr_pid waiting1) = 6) as Hr by (vm_compute; reflexivity).
  destruct (send_to_waiting_receiver waiting1 2) as (s' & H1 & _ & H2 & _).
  - by apply kernel1_run.
  - rewrite Hr. reflexivity.
  - done.
  - rewrite Hr in H2. exists s'. split; [exact H1|exact H2].
Defined.

(** Process 6 waits to send to process 5. *)
Definition pending1 : kernel E0 := kernel1 PROC_RUNNABLE PROC_WAIT_TO_SEND 5 (mail 6) [].

Lemma recv_from_waiting_sender_witness :
  exists k s', proc_recv pending1 = Ok (tt, s') /\ receiver_pid (proc pending1 k) = 5 /\
    message (earth s') 5 = message (earth pending1) (pid (proc pending1 k)).
Proof.
  destruct (recv_from_waiting_sender pending1 2) as (k & s' & _ & _ & H1 & H2 & _ & H3 & _).
  - by apply kernel1_run.
  - done.
  - done.
  - done.
  - exists k, s'. split; [exact H2|]. split; [exact H1|exact H3].
Defined.

(** Process 6 waits to send to process 5, which sends to process 6. *)
Definition cycle1 : kernel E0 := kernel1 PROC_RUNNABLE PROC_WAIT_TO_SEND 5 (mail 6) [].


Lemma send_to_nobody_witness :
  exists e', proc_send (kernel1 PROC_RUNNABLE PROC_RUNNABLE 0 (mail 9) []) =
    Ok (tt, set_earth e' (kernel1 PROC_RUNNABLE PROC_RUNNABLE 0 (mail 9) [])) /\
    eload e' 5 sc_retval 4 = le_put 4 (u32 (-1)).
Proof.
  set (s := kernel1 PROC_RUNNABLE PROC_RUNNABLE 0 (mail 9) []).
  assert (msg_receiver (earth s) (curr_pid s) = 9) as Hr by (vm_compute; reflexivity).
  destruct (send_to_nobody s) as (e' & H1 & _ & H2).
  - by apply kernel1_run.
  - rewrite Hr. intros i Hi. by apply (proc1 PROC_RUNNABLE PROC_RUNNABLE 0 (mail 9) [] i (fun _ p => pid p <> 9)).
  - exists e'. split; [exact H1|exact H2].
Defined.

Lemma send_to_dead_process_blocks_witness :
  exists s', proc_send (kernel1 PROC_RUNNABLE PROC_RUNNABLE 0 (mail 7) []) = Ok (tt, s') /\
    status (proc s' 1) = PROC_WAIT_TO_SEND.
Proof.
  set (s := kernel1 PROC_RUNNABLE PROC_RUNNABLE 0 (mail 7) []).
  assert (msg_receiver (earth s) (curr_pid s) = 7) as Hr by (vm_compute; reflexivity).
  destruct (send_to_dead_process_blocks s 3 0) as (s' & H1 & _ & H2 & _).
  - by apply kernel1_run.
  - rewrite Hr. reflexivity.
  - reflexivity.
  - split; [lia|reflexivity].
  - intros Hx. discriminate Hx.
  - reflexivity.
  - exists s'. split; [exact H1|exact H2].
Defined.

Lemma proc_alloc_fresh_witness :
  match proc_alloc busy1 with
  | Ok (q, s') => k_run s'
  | Fatal _ => forall i, 0 <= i < MAX_NPROCESS -> status (proc busy1 i) <> PROC_UNUSED
  | _ => False
  end.
Proof.
  pose proof (proc_alloc_fresh busy1 busy1_run ltac:(vm_compute; reflexivity)) as H.
  destruct (proc_alloc busy1) as [[q s']| | |]; [exact (proj1 H)|exact H..].
Defined.

Lemma proc_free_releases_witness :
  exists s', proc_free 6 busy1 = Ok (tt, s') /\ forall a, ~ mapped (earth s') 6 a.
Proof.
  destruct (proc_free_releases busy1 6 busy1_run) as (s' & H1 & _ & _ & H2 & _).
  - done.
  - done.
  - exists s'. split; [exact H1|exact H2].
Defined.


