(* ===== verification/EarthTheorems.v ===== *)
(** The theorems on the earth layer: the memory management unit and the page
    tables, the paging device, the timer, the terminal and the initialisation. *)

From Stdlib Require Import ZArith Lia Strings.Byte.
From stdpp Require Import base numbers list strings gmap.
From S2P Require Import Prelude Bytes Memory Earth Paging Mmu MmuProof PageTable Bus Timer Tty.
From S2P Require Import Kernel KernelSpec EarthState Devices KernelExample.

Local Open Scope egos_scope.

(** ** Address spaces *)

Section mmu.
Context {P : Type} `{PagingLaws P}.
Abbreviation st := (mmu_state P).


(** C33. With a frame left, [mmu_alloc] and [soft_tlb_map] give process [q] a page
    it did not have, in a frame that nobody used, and change no other page;
    with no frame left, [mmu_alloc] stops. *)
Theorem mmu_alloc_map (s : st) q p :
  mmu_ok s -> q <> 0 -> user_page p -> view s q p = None ->
  (Forall (fun e => use e <> 0) (table s) /\
   mmu_alloc s = Fatal "mmu_alloc: no more available frames") \/
  (exists f a s1 s2, mmu_alloc s = Ok ((f, a), s1) /\ soft_tlb_map q p f s1 = Ok (tt, s2) /\
     use (entry s f) = 0 /\ mmu_ok s2 /\ frame_at (dev s2) f = Some a /\
     view s2 q p = Some (if q =? curr_vm_pid s then load (mmem s2) (p * PAGE_SIZE) PAGE_SIZE
                         else load (mmem s2) a PAGE_SIZE) /\
     forall q' p', q' <> 0 -> (q', p') <> (q, p) -> view s2 q' p' = view s q' p').
Proof.
  intros Hok Hq Hp Hv.
  destruct (decide (Forall (fun e => use e <> 0) (table s))) as [Hf|Hf].
  { left. split; [done|]. by apply alloc_frame_full. }
  apply not_Forall_Exists in Hf; [|apply _]. right.
  destruct (alloc_frame_ok s Hok) as (f & a & s1 & E1 & Hf1 & Hu & He & HE & Hok1 & _ & Hc & _ & Ha & HV).
  { eapply Exists_impl; [exact Hf|]. intros e He. by apply dec_stable in He. }
  destruct (map_frame_ok s1 f q p Hok1 Hf1) as (s2 & E2 & Hok2 & Hd & Hc2 & _ & _ & Hv2 & HV2); try done.
  { by rewrite He. } { by rewrite He. }
  { specialize (HV q p Hq). rewrite Hv in HV. unfold view in HV.
    by destruct (frame_of (table s1) q p). }
  exists f, a, s1, s2. do 2 (split; [done|]). split; [by rewrite Hu|]. split; [done|].
  rewrite Hd. split; [done|]. split.
  - rewrite Hv2, Hc. f_equal. destruct (q =? curr_vm_pid s); [unfold mmem; by rewrite Hd|].
    destruct (frame_at_load (dev s1) f a (mo_dev _ Hok1) Hf1 Ha) as [_ ->]. unfold mmem. by rewrite Hd.
  - intros q' p' Hq' Hne. rewrite HV2 by done. by apply HV.
Qed.

(** [mmu_free] releases every frame of a process and no other, and the pages
    of the other processes keep their contents. *)
Theorem mmu_free_releases (s : st) q :
  mmu_ok s -> q <> 0 ->
  exists s', mmu_free q s = Ok (tt, s') /\ mmu_ok s' /\ mmem s' = mmem s /\
    (forall i, 0 <= i -> entry s' i =
       if bool_decide (use (entry s i) <> 0 /\ fm_pid (entry s i) = q) then unused_frame else entry s i) /\
    (forall p, view s' q p = None) /\
    (forall q' p, q' <> 0 -> q' <> q -> view s' q' p = view s q' p).
Proof.
  intros Hok Hq. destruct (free_ok s q Hok Hq) as (s' & E1 & H1 & _ & _ & H2 & H3 & H4 & H5).
  exists s'. do 3 (split; [done|]). split; [|done]. intros i Hi. rewrite H3 by done.
  erewrite bool_decide_ext; [done|]. unfold maps.
  split; [by intros (? & ? & _)|by intros [? ?]].
Qed.
End mmu.

(** ** The paging device *)

Section paging.
Context {P : Type} `{PagingLaws P}.

(** The operations of cpu_mmu.c on the device; reading gives the frame. *)
Inductive page_op := Save (f p : Z) | Fetch (f : Z).
Definition valid_op (o : page_op) : Prop :=
  match o with
  | Save f p => 0 <= f < NFRAMES /\ user_page p
  | Fetch f => 0 <= f < NFRAMES
  end.
Definition run_op (o : page_op) : M P (option (list byte)) :=
  match o with
  | Save f p => paging_write f p ;;; ret None
  | Fetch f =>
      a <- paging_read f false ;;
      s <- get ;;
      ret (Some (load (pmem s) a PAGE_SIZE))
  end.
Fixpoint run_ops (l : list page_op) : M P (list (option (list byte))) :=
  match l with
  | [] => ret []
  | o :: l' => x <- run_op o ;; xs <- run_ops l' ;; ret (x :: xs)
  end.

(** The frames as an array of pages, for the memory [m] of the processes. *)
Definition ref_op (m : mem) (o : page_op) (A : Z -> list byte) : option (list byte) * (Z -> list byte) :=
  match o with
  | Save f p => (None, fun g => if g =? f then load m (p * PAGE_SIZE) PAGE_SIZE else A g)
  | Fetch f => (Some (A f), A)
  end.
Fixpoint ref_ops (m : mem) (l : list page_op) (A : Z -> list byte) : list (option (list byte)) :=
  match l with
  | [] => []
  | o :: l' => let '(x, A') := ref_op m o A in x :: ref_ops m l' A'
  end.

Lemma run_op_refines (s : P) o m A :
  pg_ok s -> pg_full s -> valid_op o -> low_eq m (pmem s) ->
  (forall f, 0 <= f < NFRAMES -> frame s f = A f) ->
  exists s', run_op o s = Ok (fst (ref_op m o A), s') /\ pg_ok s' /\ pg_full s' /\
    low_eq m (pmem s') /\ (forall f, 0 <= f < NFRAMES -> frame s' f = snd (ref_op m o A) f).
Proof.
  intros Hok Hfull Hv Hm HA. destruct o as [f p|f]; cbn [run_op ref_op fst snd valid_op] in *.
  - destruct Hv as [Hf Hp].
    destruct (paging_write_spec s f p Hok Hfull Hf Hp) as (s' & E1 & H1 & H2 & H3 & H4 & H5).
    exists s'. unfold bind. rewrite E1. do 3 (split; [done|]). split.
    { intros a Ha. rewrite H3 by done. by apply Hm. }
    intros g Hg. destruct (Z.eqb_spec g f) as [->|Hne]; [|rewrite H5 by done; by apply HA].
    rewrite H4. apply load_ext. intros a Ha. apply Hm.
    unfold user_page, PAGE_SIZE, FRAME_CACHE_START in *. lia.
  - destruct (paging_read_spec s f false Hok Hv) as (a & s' & E1 & H1 & H2 & H3 & H4 & H5 & H6).
    exists s'. unfold bind. rewrite E1. cbn [get ret].
    destruct (frame_at_load s' f a H1 Hv H4) as [_ Hl]. split.
    { unfold ret. do 3 f_equal. rewrite <- Hl, H5 by done. by apply HA. }
    split; [done|]. split; [by apply H2|]. split.
    { intros x Hx. rewrite H3 by done. by apply Hm. }
    intros g Hg. destruct (decide (g = f)) as [->|Hne]; [rewrite H5 by done|rewrite H6 by done]; by apply HA.
Qed.

Lemma run_ops_refines l : forall (s : P) m A,
  pg_ok s -> pg_full s -> Forall valid_op l -> low_eq m (pmem s) ->
  (forall f, 0 <= f < NFRAMES -> frame s f = A f) ->
  exists s', run_ops l s = Ok (ref_ops m l A, s').
Proof.
  induction l as [|o l IH]; intros s m A Hok Hfull Hv Hm HA; [by exists s|].
  apply Forall_cons in Hv as [Ho Hl].
  destruct (run_op_refines s o m A Hok Hfull Ho Hm HA) as (s1 & E1 & H1 & H2 & H3 & H4).
  cbn [run_ops ref_ops]. rewrite (bind_ok _ _ _ _ _ E1). destruct (ref_op m o A) as [x A'].
  destruct (IH s1 m A' H1 H2 Hl H3 H4) as (s2 & E2). exists s2. unfold bind. by rewrite E2.
Qed.
End paging.

Section devices.
Context {D R : Type} `{DiskLaws D} (rand : R -> Z * R).
Hypothesis rand_nonneg : forall r, 0 <= fst (rand r).
Hypothesis disk_room : NFRAMES * NBLOCKS_PER_PAGE <= disk_size D.
#[local] Existing Instance dev_paging.

End devices.

(** Nothing is cached; slot 0 holds a byte. *)
Definition empty_cache : P0 :=
  {| pg_mem := store ∅ (page_addr 0) [x58];
     cache_slots := replicate (Z.to_nat ARTY_CACHED_NFRAMES) (-1); platform := ARTY;
     pg_disk := {| MemDisk.bytes := ∅ |}; pg_rand := tt |}.


(** ** The timer and the terminal *)

(** C34. [timer_reset] returns, and sets the comparator of its hart to one quantum
    after a time that the clock showed during the call: a carry between the
    two halves of the clock is never read as a time 2^32 ticks off. *)
Theorem timer_reset_deadline {B : Type} `{ClintLaws B} (h q : Z) (b : B) :
  0 <= q < 2 ^ 32 ->
  exists t b', timer_reset 2 h q b = Ok (0, b') /\ mtime b <= t <= mtime b' /\
    mtimecmp b' h = t + q /\ forall h', h' <> h -> mtimecmp b' h' = mtimecmp b h'.
Proof. apply timer_reset_ok. Qed.

(** C28. [tty_read] returns the line that the characters typed give, with its
    length, as a string that ends within the array; it reads no character beyond
    the end of the line. *)
Theorem tty_read_line {B : Type} (p : platform_t) `{UartLaws B (UART0_BASE p)}
    fuel n buf len (s : tty_state B) line rest :
  Z.of_nat (length buf) = len -> 1 <= len < 2 ^ 31 ->
  edit (Z.to_nat (len - 1)) [] (typed (pending (tty_bus s))) = Some (line, rest) ->
  (length (pending (tty_bus s)) < fuel)%nat -> (busy_max < fuel)%nat ->
  (length (pending (tty_bus s)) <= n)%nat ->
  exists buf' (s' : tty_state B),
    tty_read p fuel n buf len s = Ok ((buf', Z.of_nat (length line)), s') /\
    length buf' = length buf /\ take (length line) buf' = line /\ buf' !! length line = Some 0 /\
    is_reading s' = 0 /\ typed (pending (tty_bus s')) = rest.
Proof.
  intros Hb Hlen He Hp Hf Hn.
  destruct (tty_read_ok p fuel n buf len s line rest) as (buf' & s' & H1 & H2 & H3 & H4 & H5 & H6 & _); [done..|].
  by exists buf', s'.
Qed.

(** ** Initialisation *)

(** The root table that the value of [satp] names. *)
Definition satp_root (v : Z) : Z := v mod 2 ^ 22 * PAGE_SIZE.

Lemma satp_page f :
  0 <= f < NFRAMES -> satp_root (Z.lor (Z.shiftr (page_addr f) 12) (Z.shiftl 1 31)) = page_addr f.
Proof.
  intros Hf. unfold satp_root, page_addr, NFRAMES in *.
  change FRAME_CACHE_START with (0x80004 * PAGE_SIZE). unfold PAGE_SIZE.
  replace (0x80004 * 4096 + 4096 * f) with ((0x80004 + f) * 2 ^ 12) by lia.
  rewrite Z.shiftr_div_pow2, Z.div_mul by lia. rewrite Z.lor_comm, Z.shiftl_mul_pow2 by lia.
  rewrite lor_shifted by lia. change (1 * 2 ^ 31) with (2 ^ 9 * 2 ^ 22).
  rewrite Z.add_comm, Z_mod_plus_full, Z.mod_small by lia. lia.
Qed.

Section init.
Context {D R B : Type} `{Disk D} (rand : R -> Z * R) `{Bus B}
  {U : forall p : platform_t, UartLaws B (UART0_BASE p)}.
#[local] Instance init_paging : Paging (paging_state D R) := dev_paging rand.
Abbreviation st := (earth_state (paging_state D R) B).

(** [mmu_init], and what it leaves in [satp]. *)
Lemma mmu_init_ok fuel (e : st) c :
  let pend := pending (UartLaws := U (platform_of e)) (tty_bus (tty e)) in
  platform (dev (mmu e)) = platform_of e ->
  length (table (mmu e)) = Z.to_nat NFRAMES -> (forall i, 0 <= i < NFRAMES -> use (entry (mmu e) i) = 0) ->
  first_choice (typed pend) = Some c -> (length pend < fuel)%nat ->
  (busy_max (UartLaws := U (platform_of e)) < fuel)%nat ->
  exists e', mmu_init fuel e = Ok (tt, e') /\ csr_pmpcfg0 (csr e') = 0xF /\
    if bool_decide (platform_of e <> ARTY) && (c =? 48) then
      translation e' = PAGE_TABLE /\
      forall va, 0 <= va < 2 ^ 32 ->
        sv32_walk (mmem (mmu e')) (satp_root (csr_satp (csr e'))) va =
        if existsb (in_region va) (identity_regions (platform_of e)) then Some (va, OS_RWX) else None
    else translation e' = SOFT_TLB /\ csr_satp (csr e') = csr_satp (csr e).
Proof.
  intros pend Hplat Hlen Hfree Hc Hf Hb. unfold mmu_init.
  set (m1 := set_dev (set_slots (replicate (Z.to_nat ARTY_CACHED_NFRAMES) (-1)) (dev (mmu e))) (mmu e)).
  assert (on_mmu (on_dev paging_init) e = Ok (tt, set_mmu m1 e)) as E1 by done.
  rewrite (bind_ok _ _ _ _ _ E1). unfold bind at 1. cbn [modify]. unfold bind at 1. cbn [modify].
  unfold bind at 1. cbn [get]. set (e1 := set_translation SOFT_TLB _).
  change (platform_of e1) with (platform_of e).
  destruct (decide (platform_of e = ARTY)) as [Ha|Ha].
  { exists e1. rewrite bool_decide_eq_false_2 by tauto. done. }
  destruct (choose_spec (platform_of e) fuel fuel [0; 0] (tty e1) c) as (buf & t & E0 & H2);
    [done|done|exact Hc|exact Hf|exact Hb|exact (Nat.lt_le_incl _ _ Hf)|].
  assert (on_tty (choose (platform_of e) fuel fuel [0; 0]) e1 = Ok (buf, set_tty t e1)) as E2
    by by apply (lift_ok tty set_tty).
  rewrite (bind_ok _ _ _ _ _ E2), H2. rewrite bool_decide_eq_true_2 by done. cbn [andb].
  destruct (c =? 48); [|by exists (set_tty t e1)].
  unfold bind at 1. cbn [modify]. set (e2 := set_translation PAGE_TABLE (set_tty t e1)).
  destruct (identity_mapping_spec rand (mmu e2) 0) as (m3 & E3 & (f & Hf3 & Hr3) & W3).
  { change (platform (dev (mmu e)) <> ARTY). by rewrite Hplat. } { done. } { exact Hfree. }
  assert (platform (dev (mmu e2)) = platform_of e) as Hp2 by exact Hplat. rewrite Hp2 in E3, W3.
  assert (on_mmu (pagetable_identity_mapping (platform_of e) 0) e2 = Ok (tt, set_mmu m3 e2)) as E4.
  { apply (lift_ok mmu set_mmu). exact E3. }
  rewrite (bind_ok _ _ _ _ _ E4). eexists. split; [reflexivity|]. split; [done|]. split; [done|].
  intros va Hva. cbn [mmu csr set_csr set_mmu csr_satp set_csr_satp]. rewrite Hr3.
  rewrite (satp_page f Hf3), <- Hr3. by apply W3.
Qed.
End init.

(** ** The theorems at work *)

Definition mmu0 : mmu_state P0 := mmu (earth0 ∅ 5 []).
Lemma mmu0_ok : mmu_ok mmu0.
Proof. by apply (eo_mmu _ (earth0_ok ∅ 5 [] ltac:(done))). Qed.


Lemma mmu_alloc_map_witness :
  (Forall (fun e => use e <> 0) (table mmu0) /\
   mmu_alloc mmu0 = Fatal "mmu_alloc: no more available frames") \/
  (exists f a s1 s2, mmu_alloc mmu0 = Ok ((f, a), s1) /\ soft_tlb_map 6 0x80001 f s1 = Ok (tt, s2) /\
     is_Some (view s2 6 0x80001)).
Proof.
  destruct (mmu_alloc_map mmu0 6 0x80001 mmu0_ok) as [H|(f & a & s1 & s2 & H1 & H2 & _ & _ & _ & H3 & _)].
  - lia.
  - split; [lia|]. vm_compute. intros H. discriminate H.
  - vm_compute. reflexivity.
  - left. exact H.
  - right. exists f, a, s1, s2. split; [exact H1|]. split; [exact H2|]. eexists. exact H3.
Defined.

Lemma mmu_free_releases_witness :
  exists s', mmu_free 6 mmu0 = Ok (tt, s') /\ forall p, view s' 6 p = None.
Proof.
  destruct (mmu_free_releases mmu0 6 mmu0_ok) as (s' & H1 & _ & _ & _ & H2 & _).
  - lia.
  - exists s'. split; [exact H1|exact H2].
Defined.

(** The board with the frames 0 to 27 cached, and QEMU; everything is zero. *)
Definition paging_at (p : platform_t) (slots : list Z) : P0 :=
  {| pg_mem := ∅; cache_slots := slots; platform := p; pg_disk := {| MemDisk.bytes := ∅ |};
     pg_rand := tt |}.
Definition full_slots : list Z := seqZ 0 ARTY_CACHED_NFRAMES.

Lemma full_slots_ok : slots_ok full_slots.
Proof.
  split.
  - done.
  - intros i x Hx. unfold full_slots in Hx. apply lookup_seqZ in Hx as [-> Hi].
    unfold ARTY_CACHED_NFRAMES, NFRAMES in *. lia.
  - intros i j x Hi Hj _. unfold full_slots in *. apply lookup_seqZ in Hi as [-> _], Hj as [Hj _]. lia.
Qed.

Lemma load_empty a n : load ∅ a n = replicate (Z.to_nat n) x00.
Proof.
  unfold load. generalize (Z.to_nat n). intros k. revert a.
  induction k as [|k IH]; intros a; simpl; [done|]. by rewrite IH.
Qed.

Lemma zero_frames p slots f :
  0 <= f < NFRAMES -> dev_frame (paging_at p slots) f = replicate (Z.to_nat PAGE_SIZE) x00.
Proof.
  intros Hf. unfold dev_frame, arty_frame, paging_at. cbn [platform cache_slots pg_mem pg_disk].
  destruct p; [|apply load_empty..]. destruct (find_slot f 0 slots); [apply load_empty|].
  rewrite <- (MemDisk.blocks_at_load {| MemDisk.bytes := ∅ |}); [apply load_empty| |done|];
    unfold NFRAMES, NBLOCKS_PER_PAGE, PAGE_SIZE, BLOCK_SIZE, MemDisk.SIZE in *;
    change (4096 / 512) with 8; lia.
Qed.


Lemma timer_reset_deadline_witness :
  let b := {| Board.ticks := 7; Board.cmp := ∅; Board.rx := []; Board.tx := [] |} in
  exists t b', timer_reset 2 0 500000 b = Ok (0, b') /\ 7 <= t /\ mtimecmp b' 0 = t + 500000.
Proof.
  intros b. destruct (timer_reset_deadline 0 500000 b) as (t & b' & H1 & H2 & H3 & _).
  - lia.
  - exists t, b'. split; [exact H1|]. split; [|exact H3]. change (mtime b) with 7 in H2. lia.
Defined.

(** "ls" is typed with a mistake that Backspace takes back, and Enter. *)
Definition typing : tty_state Board.board :=
  {| tty_c := 0; is_reading := 0;
     tty_bus := {| Board.ticks := 0; Board.cmp := ∅;
                   Board.rx := [Some x6c; None; Some x64; Some x7f; Some x73; None; Some x0d]; Board.tx := [] |} |}.

Lemma tty_read_line_witness :
  exists buf' s', tty_read QEMU_LATEST 20 20 (replicate 16 1) 16 typing = Ok ((buf', 2), s') /\
    take 2 buf' = [108; 115] /\ buf' !! 2%nat = Some 0.
Proof.
  destruct (tty_read_line QEMU_LATEST 20 20 (replicate 16 1) 16 typing [108; 115] [])
    as (buf' & s' & H1 & _ & H2 & H3 & _).
  - reflexivity.
  - lia.
  - vm_compute. reflexivity.
  - vm_compute. repeat constructor.
  - vm_compute. repeat constructor.
  - vm_compute. repeat constructor.
  - exists buf', s'. split; [exact H1|]. split; [exact H2|exact H3].
Defined.

(** Page tables are chosen at the second attempt. *)
Definition booting : E0 :=
  let e := earth0 ∅ (-1) [Some x61; None; Some x30] in
  set_mmu (set_table (replicate (Z.to_nat NFRAMES) unused_frame) (mmu e)) e.

