(* ===== verification/FsDisk.v ===== *)
(** The physical disk as an inode store, library/file/disk.c: the blocks of the
    file system partition of any disk that keeps the laws of Earth.v. *)

From Stdlib Require Import ZArith Lia Strings.Byte.
From stdpp Require Import base numbers list strings gmap.
From S2P Require Import Prelude Bytes InodeStore Earth.

Local Open Scope egos_scope.

Section fs_disk.
Context {D : Type} `{Disk D}.

Definition fs_disk_getsize (ino : Z) : M D Z := ret (FS_DISK_SIZE / BLOCK_SIZE).
Definition fs_disk_setsize (ino newsize : Z) : M D Z := fatal "disk: cannot set the size".
Definition fs_disk_read (ino offset : Z) (buf : block) : M D (Z * block) :=
  disk_read (u32 (GRASS_FS_START + offset)) 1.
Definition fs_disk_write (ino offset : Z) (b : block) : M D Z :=
  disk_write (u32 (GRASS_FS_START + offset)) 1 b.

Definition fs_disk_init : InodeStore D := {|
  getsize := fs_disk_getsize;
  setsize := fs_disk_setsize;
  read := fs_disk_read;
  write := fs_disk_write
|}.
End fs_disk.

(** ** The partition *)

Section laws.
Context {D : Type} `{DiskLaws D}.
Context (fs_room : GRASS_FS_START + 4096 <= disk_size D).
#[local] Existing Instance fs_disk_init.

Definition fs_part (d : D) : gmap Z block :=
  list_to_map ((fun i => (i, default null_block (disk_blocks d !! (GRASS_FS_START + i)))) <$> seqZ 0 4096).

Lemma fs_part_lookup d i :
  fs_part d !! i =
  if (0 <=? i) && (i <? 4096) then Some (default null_block (disk_blocks d !! (GRASS_FS_START + i))) else None.
Proof.
  unfold fs_part. set (f := fun i => (i, default null_block (disk_blocks d !! (GRASS_FS_START + i)))).
  assert ((f <$> seqZ 0 4096).*1 = seqZ 0 4096) as Hf.
  { rewrite <- list_fmap_compose. apply list_fmap_id. }
  destruct ((0 <=? i) && (i <? 4096)) eqn:Ei.
  - bool_prop. apply elem_of_list_to_map_1; [rewrite Hf; apply NoDup_seqZ|].
    apply list_elem_of_fmap. exists i. split; [done|]. apply elem_of_seqZ. lia.
  - apply not_elem_of_list_to_map_1. rewrite Hf. intros Hi%elem_of_seqZ. clear Hf f.
    destruct (Z.leb_spec 0 i), (Z.ltb_spec i 4096); simpl in Ei; (done || lia).
Qed.

Lemma fs_part_same d d' : disk_blocks d' = disk_blocks d -> fs_part d' = fs_part d.
Proof. intros E. unfold fs_part. by rewrite E. Qed.
Opaque fs_part.

Lemma fs_block_no off : 0 <= off < 4096 -> u32 (GRASS_FS_START + off) = GRASS_FS_START + off.
Proof. intros Hoff. apply u32_small. unfold is_u32. change GRASS_FS_START with 4096. lia. Qed.

Lemma blocks_at_one (B : gmap Z block) b : blocks_at B b 1 = default null_block (B !! b).
Proof. unfold blocks_at. rewrite seqZ_cons by lia. simpl. apply app_nil_r. Qed.

#[export] Program Instance fs_disk_laws ino : @InodeStoreLaws D fs_disk_init ino := {|
  store_size := 4096;
  store_blocks := fs_part
|}.
Next Obligation. lia. Qed.
Next Obligation.
  intros ino d off. rewrite fs_part_lookup.
  destruct (Z.leb_spec 0 off), (Z.ltb_spec off 4096); simpl; split; intros Hx;
    try (by destruct Hx); try lia; done.
Qed.
Next Obligation.
  intros ino d off b Hx. rewrite fs_part_lookup in Hx. destruct (_ && _); simplify_eq. apply disk_blk_ok.
Qed.
Next Obligation. intros ino d. by exists d. Qed.
Next Obligation.
  intros ino d off b buf Hx. rewrite fs_part_lookup in Hx. destruct (_ && _) eqn:Ei; simplify_eq. bool_prop.
  destruct (disk_read_spec d (GRASS_FS_START + off) 1) as (d' & Er & Hd'); [change GRASS_FS_START with 4096; lia|lia|lia|].
  exists d'. rewrite blocks_at_one in Er. split.
  - simpl. unfold fs_disk_read. rewrite fs_block_no by lia. exact Er.
  - by apply fs_part_same.
Qed.
Next Obligation.
  intros ino d off b Hb Hoff.
  destruct (disk_write_spec d (GRASS_FS_START + off) 1 b) as (d' & Ew & Hd');
    [change GRASS_FS_START with 4096; lia|lia|lia|rewrite Hb; done|].
  exists d'. split.
  - simpl. unfold fs_disk_write. rewrite fs_block_no by lia. exact Ew.
  - apply map_eq. intros i. rewrite lookup_insert, !fs_part_lookup, Hd'. unfold write_blocks.
    destruct (decide (off = i)) as [->|Hne].
    + rewrite (proj2 (Z.leb_le 0 i)), (proj2 (Z.ltb_lt i 4096)) by lia.
      rewrite Z.leb_refl, (proj2 (Z.ltb_lt _ (GRASS_FS_START + i + 1))) by lia. simpl.
      rewrite Z.sub_diag. simpl. f_equal. apply take_ge. by rewrite Hb.
    + destruct ((0 <=? i) && (i <? 4096)); [|done]. f_equal.
      destruct (Z.leb_spec (GRASS_FS_START + off) (GRASS_FS_START + i)),
        (Z.ltb_spec (GRASS_FS_START + i) (GRASS_FS_START + off + 1)); simpl; done || lia.
Qed.

Lemma fs_disk_store ino d : @store_blocks D fs_disk_init ino (fs_disk_laws ino) d = fs_part d.
Proof. reflexivity. Qed.
Lemma fs_disk_size ino : @store_size D fs_disk_init ino (fs_disk_laws ino) = 4096.
Proof. reflexivity. Qed.
End laws.
#[global] Opaque fs_part.
