(* ===== verification/Sd.v ===== *)
(** The SD card driver, earth/sd/sd_utils.c and earth/sd/sd_rw.c, and the disk
    driver earth/dev_disk.c, over the registers of SPI1.  Each wait of the
    driver is a loop with fuel.  [char] is unsigned on RISC-V. *)

From Stdlib Require Import ZArith Lia Strings.Byte.
From stdpp Require Import base numbers list strings gmap.
From S2P Require Import Prelude Bytes Memory Earth Bus Tty.

Local Open Scope egos_scope.

(** ** earth/sd/sd.h *)

Inductive sd_type := SD_TYPE_SD1 | SD_TYPE_SD2 | SD_TYPE_SDHC | SD_TYPE_UNKNOWN.
#[export] Instance sd_type_eq_dec : EqDecision sd_type.
Proof. solve_decision. Defined.

Definition SPI_SCKDIV : Z := 0.
Definition SPI_CSDEF : Z := 20.
Definition SPI_CSMODE : Z := 24.
Definition SPI_TXDATA : Z := 72.
Definition SPI_RXDATA : Z := 76.
Definition SPI_FCTRL : Z := 96.

Section sd.
Context {B : Type} `{Bus B} (platform : platform_t) (fuel : nat).

(** ** earth/sd/sd_utils.c *)

Fixpoint spi_wait_tx (n : nat) : M B unit :=
  match n with
  | O => nofuel
  | S n' =>
      v <- REGW (SPI_BASE platform) SPI_TXDATA ;;
      if negb (Z.land v (Z.shiftl 1 31) =? 0) then spi_wait_tx n' else ret tt
  end.
Fixpoint spi_wait_rx (n : nat) : M B Z :=
  match n with
  | O => nofuel
  | S n' =>
      v <- REGW (SPI_BASE platform) SPI_RXDATA ;;
      if negb (Z.land v (Z.shiftl 1 31) =? 0) then spi_wait_rx n' else ret v
  end.

Definition send_data_byte (c : Z) : M B Z :=
  spi_wait_tx fuel ;;;
  (if decide (platform = ARTY) then REGB_set (SPI_BASE platform) SPI_TXDATA c
   else REGW_set (SPI_BASE platform) SPI_TXDATA c) ;;;
  rxdata <- spi_wait_rx fuel ;;
  ret (Z.land rxdata 0xFF).

Definition recv_data_byte : M B Z := send_data_byte 0xFF.

Fixpoint send_bytes (l : list Z) : M B unit :=
  match l with
  | [] => ret tt
  | c :: l' => send_data_byte c ;;; send_bytes l'
  end.

(** The replies that [sd_exec_cmd] waits for. *)
Fixpoint poll_reply (n : nat) : M B Z :=
  match n with
  | O => fatal "SD card not responding"
  | S n' =>
      reply <- recv_data_byte ;;
      if negb (reply =? 0xFF) then ret reply else poll_reply n'
  end.
Definition sd_exec_cmd (cmd : list Z) : M B Z :=
  send_bytes cmd ;;; poll_reply (Z.to_nat 8000).

(** [while (recv_data_byte() != c)]. *)
Fixpoint wait_byte (c : Z) (n : nat) : M B unit :=
  match n with
  | O => nofuel
  | S n' => r <- recv_data_byte ;; if negb (r =? c) then wait_byte c n' else ret tt
  end.

Definition sd_exec_acmd (cmd : list Z) : M B Z :=
  wait_byte 0xFF fuel ;;;
  sd_exec_cmd [0x77; 0; 0; 0; 0; 0xFF] ;;;
  wait_byte 0xFF fuel ;;;
  sd_exec_cmd cmd.

Definition spi_set_clock (baud_rate : Z) : M B unit :=
  let div := CPU_CLOCK_RATE / (2 * baud_rate) - 1 in
  REGW_set (SPI_BASE platform) SPI_SCKDIV (Z.land div 0xFFF).

(** The bytes received, the first one first. *)
Fixpoint recv_bytes (n : nat) : M B (list Z) :=
  match n with
  | O => ret []
  | S n' => x <- recv_data_byte ;; l <- recv_bytes n' ;; ret (x :: l)
  end.

(** [while (reply != 0x01) reply = recv_data_byte()]. *)
Fixpoint wait_idle (reply : Z) (n : nat) : M B unit :=
  if reply =? 0x01 then ret tt
  else
    match n with
    | O => nofuel
    | S n' => r <- recv_data_byte ;; wait_idle r n'
    end.

(** [while (sd_exec_acmd(cmd))]. *)
Fixpoint wait_acmd (cmd : list Z) (n : nat) : M B unit :=
  match n with
  | O => nofuel
  | S n' => r <- sd_exec_acmd cmd ;; if negb (r =? 0) then wait_acmd cmd n' else ret tt
  end.

(** The type of the card, from the answer to command 8. *)
Definition sd_check_type : M B sd_type :=
  reply <- sd_exec_cmd [0x48; 0x00; 0x00; 0x01; 0xAA; 0x87] ;;
  if negb (Z.land reply 0x04 =? 0) then ret SD_TYPE_SD1
  else
    l <- recv_bytes 4 ;;
    let payload := fold_left (fun a x => a * 256 + x) l 0 in
    if negb (Z.land payload 0xFFF =? 0x1AA) then fatal "Fail to check SD card type"
    else ret SD_TYPE_SD2.

(** The value that [sdinit] gives to [SD_CARD_TYPE]. *)
Definition sdinit : M B sd_type :=
  spi_set_clock 100000 ;;;
  REGW_set (SPI_BASE platform) SPI_CSMODE 1 ;;;
  REGW_set (SPI_BASE platform) SPI_CSDEF 0 ;;;
  REGW_set (SPI_BASE platform) SPI_FCTRL 0 ;;;
  send_bytes (replicate (Z.to_nat 1000) 0xFF) ;;;
  REGW_set (SPI_BASE platform) SPI_CSDEF 1 ;;;
  reply <- sd_exec_cmd [0x40; 0x00; 0x00; 0x00; 0x00; 0x95] ;;
  wait_idle reply fuel ;;;
  wait_byte 0xFF fuel ;;;
  spi_set_clock (CPU_CLOCK_RATE / 4) ;;;
  ty <- sd_check_type ;;
  wait_byte 0xFF fuel ;;;
  wait_acmd [0x69; if decide (ty = SD_TYPE_SD2) then 0x40 else 0x00; 0x00; 0x00; 0x00; 0xFF] fuel ;;;
  wait_byte 0xFF fuel ;;;
  sd_exec_cmd [0x50; 0x00; 0x00; 0x02; 0x00; 0xFF] ;;;
  wait_byte 0xFF fuel ;;;
  if decide (ty = SD_TYPE_SD2) then
    sd_exec_cmd [0x7A; 0x00; 0x00; 0x00; 0x00; 0xFF] ;;;
    payload <- recv_bytes 4 ;;
    wait_byte 0xFF fuel ;;;
    ret (if Z.land (default 0 (payload !! 0%nat)) 0xC0 =? 0xC0 then SD_TYPE_SDHC else ty)
  else ret ty.

(** ** earth/sd/sd_rw.c *)

Definition sd_addr (ty : sd_type) (offset : Z) : Z :=
  if decide (ty = SD_TYPE_SD2) then u32 (offset * BLOCK_SIZE) else offset.

(** A command with the four bytes of its argument, the highest first. *)
Definition sd_cmd (c offset : Z) : list Z :=
  [c; Z.land (Z.shiftr offset 24) 0xFF; Z.land (Z.shiftr offset 16) 0xFF;
   Z.land (Z.shiftr offset 8) 0xFF; Z.land offset 0xFF; 0xFF].

Definition single_read (ty : sd_type) (offset : Z) : M B (list byte) :=
  let offset := sd_addr ty offset in
  wait_byte 0xFF fuel ;;;
  reply <- sd_exec_cmd (sd_cmd 0x51 offset) ;;
  if negb (reply =? 0) then fatal "SD card replies cmd17 with status"
  else
    wait_byte 0xFE fuel ;;;
    l <- recv_bytes (Z.to_nat BLOCK_SIZE) ;;
    recv_data_byte ;;;
    recv_data_byte ;;;
    ret (Z_byte <$> l).

(** [while ((reply = recv_data_byte()) == 0xFF)]. *)
Fixpoint wait_ack (n : nat) : M B Z :=
  match n with
  | O => nofuel
  | S n' => reply <- recv_data_byte ;; if reply =? 0xFF then wait_ack n' else ret reply
  end.

Definition single_write (ty : sd_type) (offset : Z) (src : list byte) : M B unit :=
  let offset := sd_addr ty offset in
  wait_byte 0xFF fuel ;;;
  reply <- sd_exec_cmd (sd_cmd 0x58 offset) ;;
  if negb (reply =? 0) then fatal "SD card replies cmd24 with status"
  else
    send_data_byte 0xFE ;;;
    send_bytes (byte_Z <$> take (Z.to_nat BLOCK_SIZE) src) ;;;
    send_data_byte 0xFF ;;;
    send_data_byte 0xFF ;;;
    reply <- wait_ack fuel ;;
    if negb (Z.land reply 0x1F =? 0x05) then fatal "SD card write ack with status" else ret tt.

(** [sdread] and [sdwrite]: the [n] blocks from [offset] on. *)
Fixpoint sdread (ty : sd_type) (offset : Z) (n : nat) : M B (list byte) :=
  match n with
  | O => ret []
  | S n' =>
      b <- single_read ty offset ;;
      l <- sdread ty (u32 (offset + 1)) n' ;;
      ret (b ++ l)
  end.
Fixpoint sdwrite (ty : sd_type) (offset : Z) (n : nat) (src : list byte) : M B unit :=
  match n with
  | O => ret tt
  | S n' =>
      single_write ty offset src ;;;
      sdwrite ty (u32 (offset + 1)) n' (drop (Z.to_nat BLOCK_SIZE) src)
  end.
End sd.

(** ** earth/dev_disk.c *)

Inductive disk_type := SD_CARD | FLASH_ROM.
#[export] Instance disk_type_eq_dec : EqDecision disk_type.
Proof. solve_decision. Defined.

(** The static variables of the two drivers, the registers, and the disk image
    in ROM, at 0x20800000. *)
Record disk_state (B : Type) := {
  type : disk_type;
  SD_CARD_TYPE : sd_type;
  disk_bus : B;
  rom : mem
}.
Arguments type {B}.
Arguments SD_CARD_TYPE {B}.
Arguments disk_bus {B}.
Arguments rom {B}.

Section dev_disk.
Context {B : Type} `{Bus B} (platform : platform_t) (fuel : nat).
Abbreviation st := (disk_state B).

Definition set_type (t : disk_type) (s : st) : st :=
  {| type := t; SD_CARD_TYPE := SD_CARD_TYPE s; disk_bus := disk_bus s; rom := rom s |}.
Definition set_card (t : sd_type) (s : st) : st :=
  {| type := type s; SD_CARD_TYPE := t; disk_bus := disk_bus s; rom := rom s |}.
Definition on_spi {A} (m : M B A) : M st A := fun s =>
  match m (disk_bus s) with
  | Ok (a, b) => Ok (a, {| type := type s; SD_CARD_TYPE := SD_CARD_TYPE s; disk_bus := b; rom := rom s |})
  | Fatal msg => Fatal msg
  | Undef w => Undef w
  | NoFuel => NoFuel
  end.

Definition dev_disk_read (block_no nblocks : Z) : M st (Z * list byte) :=
  s <- get ;;
  match type s with
  | SD_CARD =>
      l <- on_spi (sdread platform fuel (SD_CARD_TYPE s) block_no (Z.to_nat nblocks)) ;;
      ret (0, l)
  | FLASH_ROM =>
      ret (0, load (rom s) (u32 (0x20800000 + block_no * BLOCK_SIZE)) (u32 (nblocks * BLOCK_SIZE)))
  end.

Definition dev_disk_write (block_no nblocks : Z) (src : list byte) : M st Z :=
  s <- get ;;
  match type s with
  | FLASH_ROM => fatal "disk_write: Writing to the read-only ROM"
  | SD_CARD =>
      on_spi (sdwrite platform fuel (SD_CARD_TYPE s) block_no (Z.to_nat nblocks) src) ;;;
      ret 0
  end.

#[export] Instance dev_disk : Disk st := {|
  disk_read := dev_disk_read;
  disk_write := dev_disk_write
|}.
End dev_disk.

(** [disk_init] uses the terminal as well, which is a state of its own. *)
Section disk_init.
Context {B C : Type} `{Bus B} `{Bus C} (platform : platform_t) (fuel : nat).

Definition on_fst {A} (m : M (disk_state B) A) : M (disk_state B * tty_state C) A := fun s =>
  match m (fst s) with
  | Ok (a, x) => Ok (a, (x, snd s))
  | Fatal msg => Fatal msg
  | Undef w => Undef w
  | NoFuel => NoFuel
  end.
Definition on_snd {A} (m : M (tty_state C) A) : M (disk_state B * tty_state C) A := fun s =>
  match m (snd s) with
  | Ok (a, x) => Ok (a, (fst s, x))
  | Fatal msg => Fatal msg
  | Undef w => Undef w
  | NoFuel => NoFuel
  end.

Definition disk_init : M (disk_state B * tty_state C) unit :=
  if decide (platform = QEMU_SIFIVE) then on_fst (modify (set_type FLASH_ROM))
  else
    buf <- on_snd (choose platform fuel fuel [0; 0]) ;;
    let t := if default 0 (buf !! 0%nat) =? 48 then SD_CARD else FLASH_ROM in
    on_fst (modify (set_type t)) ;;;
    if decide (t = SD_CARD) then
      ty <- on_fst (on_spi (sdinit platform fuel)) ;;
      on_fst (modify (set_card ty))
    else ret tt.
End disk_init.
