(* ===== verification/SdCard.v ===== *)
(** What the SD card driver relies on (the SPI controller of the FE310, and the
    protocol of the card), and that with it the driver makes the card a disk in
    the sense of Earth.v. *)

From Stdlib Require Import ZArith Lia Strings.Byte.
From stdpp Require Import base numbers list strings gmap.
From S2P Require Import Prelude Bytes Memory Earth Bus Tty Sd.

Local Open Scope egos_scope.

(** ** The SPI controller *)

(** A card takes a byte and answers a byte. *)
Class Card (C : Type) := {
  card_step : Z -> C -> Z * C;
  card_byte x c : 0 <= fst (card_step x c) < 256
}.

(** SPI1 (FE310 manual, chapter 19): TXDATA has bit 31 set while the queue is
    full, RXDATA while nothing was received; a byte written to TXDATA is
    exchanged with a byte of the card. *)
Class SpiLaws (B C : Type) (base : Z) `{Bus B} `{Card C} := {
  card : B -> C;
  tx_wait : B -> nat;
  rx_wait : B -> nat;
  rx_byte : B -> Z;
  spi_max : nat;
  tx_wait_bound b : (tx_wait b <= spi_max)%nat;
  rx_wait_bound b : (rx_wait b <= spi_max)%nat;
  spi_txdata : access (REGW base SPI_TXDATA) (fun b v b' =>
    v = match tx_wait b with O => 0 | S _ => 2 ^ 31 end /\ tx_wait b' = pred (tx_wait b) /\
    card b' = card b);
  spi_send c : 0 <= c < 256 -> access (REGW_set base SPI_TXDATA c) (fun b _ b' =>
    tx_wait b = O -> card b' = snd (card_step c (card b)) /\ rx_byte b' = fst (card_step c (card b)));
  spi_sendb c : 0 <= c < 256 -> access (REGB_set base SPI_TXDATA c) (fun b _ b' =>
    tx_wait b = O -> card b' = snd (card_step c (card b)) /\ rx_byte b' = fst (card_step c (card b)));
  spi_rxdata : access (REGW base SPI_RXDATA) (fun b v b' =>
    v = match rx_wait b with O => rx_byte b | S _ => 2 ^ 31 end /\ rx_wait b' = pred (rx_wait b) /\
    rx_byte b' = rx_byte b /\ card b' = card b)
}.
Arguments card {B C} base {_ _ _} b.
Arguments spi_max {B C} base {_ _ _}.

(** ** The card *)

Section answers.
Context {C : Type} `{Card C}.

(** The card answers [y] to each [x] of the list, and ends in [c']. *)
Fixpoint answers (l : list (Z * Z)) (c c' : C) : Prop :=
  match l with
  | [] => c' = c
  | (x, y) :: l' => fst (card_step x c) = y /\ answers l' (snd (card_step x c)) c'
  end.

(** What the card answers while the driver only reads. *)
Definition reads (l : list Z) : list (Z * Z) := pair 0xFF <$> l.

Lemma answers_app l1 l2 c c' :
  answers (l1 ++ l2) c c' <-> exists c1, answers l1 c c1 /\ answers l2 c1 c'.
Proof.
  revert c. induction l1 as [|[x y] l1 IH]; intros c; simpl.
  - split; [by exists c|]. by intros (c1 & -> & ?).
  - rewrite IH. split.
    + intros (Hy & c1 & H1 & H2). by exists c1.
    + intros (c1 & [Hy H1] & H2). split; [done|]. by exists c1.
Qed.
End answers.

(** The protocol of the card in SPI mode (SD physical layer specification):
    between commands the card answers 0xFF once it is ready; commands 17 and 24
    read and write one block.  [card_ty] says how blocks are addressed. *)
Class CardLaws (C : Type) `{Card C} := {
  card_ty : sd_type;
  c_between : C -> bool;
  c_ready : C -> Prop;
  c_blocks : C -> gmap Z block;
  c_size : Z;
  c_delay : nat;
  c_size_range : 0 <= c_size <= 2 ^ 23;
  c_dom c i : is_Some (c_blocks c !! i) <-> 0 <= i < c_size;
  c_block_ok c i b : c_blocks c !! i = Some b -> block_ok b;
  card_ready c :
    c_between c ->
    exists ys c', Forall (fun y => y <> 0xFF) ys /\ (length ys <= c_delay)%nat /\
      answers (reads (ys ++ [0xFF])) c c' /\ c_ready c' /\ c_blocks c' = c_blocks c;
  card_read c i b :
    c_ready c -> c_blocks c !! i = Some b ->
    exists js n1 ys k1 k2 c', length js = 6%nat /\ Z.of_nat n1 < 8000 /\
      Forall (fun y => y <> 0xFE) ys /\ (length ys <= c_delay)%nat /\
      answers (zip (sd_cmd 0x51 (sd_addr card_ty i)) js ++
               reads (replicate n1 0xFF ++ [0]) ++ reads (ys ++ [0xFE]) ++
               reads (byte_Z <$> b) ++ reads [k1; k2]) c c' /\
      c_between c' /\ c_blocks c' = c_blocks c;
  card_write c i b :
    c_ready c -> 0 <= i < c_size -> block_ok b ->
    exists js n1 js1 n2 r c', length js = 6%nat /\ Z.of_nat n1 < 8000 /\
      length js1 = length (0xFE :: (byte_Z <$> b) ++ [0xFF; 0xFF]) /\ (n2 <= c_delay)%nat /\
      r <> 0xFF /\ Z.land r 0x1F = 0x05 /\
      answers (zip (sd_cmd 0x58 (sd_addr card_ty i)) js ++
               reads (replicate n1 0xFF ++ [0]) ++
               zip (0xFE :: (byte_Z <$> b) ++ [0xFF; 0xFF]) js1 ++
               reads (replicate n2 0xFF ++ [r])) c c' /\
      c_between c' /\ c_blocks c' = <[i := b]> (c_blocks c)
}.

(** ** The driver *)

Section driver.
Context {B C : Type} (platform : platform_t) `{SpiLaws B C (SPI_BASE platform)} `{!CardLaws C}.
Context (fuel : nat) (fuel_spi : (spi_max (SPI_BASE platform) < fuel)%nat) (fuel_card : (c_delay < fuel)%nat).
Abbreviation crd := (card (SPI_BASE platform)).

Lemma spi_wait_tx_spec n b :
  (tx_wait b < n)%nat ->
  exists b', spi_wait_tx platform n b = Ok (tt, b') /\ tx_wait b' = O /\ crd b' = crd b.
Proof.
  revert b. induction n as [|n IH]; intros b Hn; [lia|]. cbn [spi_wait_tx].
  destruct (spi_txdata b) as (v & b1 & E1 & -> & T1 & C1). rewrite (bind_ok _ _ _ _ _ E1).
  destruct (tx_wait b) as [|k] eqn:Ek.
  - exists b1. split; [done|]. by split.
  - change (negb (Z.land (2 ^ 31) (Z.shiftl 1 31) =? 0)) with true. cbv iota.
    destruct (IH b1) as (b2 & E2 & T2 & C2); [rewrite T1; simpl; lia|]. exists b2. by rewrite E2, C2.
Qed.

Lemma spi_wait_rx_spec n b :
  (rx_wait b < n)%nat -> 0 <= rx_byte b < 256 ->
  exists b', spi_wait_rx platform n b = Ok (rx_byte b, b') /\ crd b' = crd b.
Proof.
  revert b. induction n as [|n IH]; intros b Hn Hb; [lia|]. cbn [spi_wait_rx].
  destruct (spi_rxdata b) as (v & b1 & E1 & -> & T1 & R1 & C1). rewrite (bind_ok _ _ _ _ _ E1).
  destruct (rx_wait b) as [|k] eqn:Ek.
  - rewrite land_bit31 by lia. exists b1. done.
  - change (negb (Z.land (2 ^ 31) (Z.shiftl 1 31) =? 0)) with true. cbv iota.
    destruct (IH b1) as (b2 & E2 & C2); [rewrite T1; simpl; lia|by rewrite R1|].
    exists b2. by rewrite E2, R1, C2.
Qed.

(** One exchange. *)
Lemma send_data_byte_spec c b :
  0 <= c < 256 ->
  exists b', send_data_byte platform fuel c b = Ok (fst (card_step c (crd b)), b') /\
    crd b' = snd (card_step c (crd b)).
Proof.
  intros Hc. unfold send_data_byte.
  destruct (spi_wait_tx_spec fuel b) as (b1 & E1 & T1 & C1).
  { eapply Nat.le_lt_trans; [apply tx_wait_bound|done]. }
  rewrite (bind_ok _ _ _ _ _ E1).
  assert (exists u b2, (if decide (platform = ARTY) then REGB_set (SPI_BASE platform) SPI_TXDATA c
    else REGW_set (SPI_BASE platform) SPI_TXDATA c) b1 = Ok (u, b2) /\
    crd b2 = snd (card_step c (crd b1)) /\ rx_byte b2 = fst (card_step c (crd b1))) as (u & b2 & E2 & C2 & R2).
  { destruct (decide (platform = ARTY)).
    - destruct (spi_sendb c Hc b1) as (u & b2 & E2 & HQ). exists u, b2. split; [done|]. by apply HQ.
    - destruct (spi_send c Hc b1) as (u & b2 & E2 & HQ). exists u, b2. split; [done|]. by apply HQ. }
  rewrite (bind_ok _ _ _ _ _ E2). pose proof (card_byte c (crd b1)) as Hy.
  destruct (spi_wait_rx_spec fuel b2) as (b3 & E3 & C3).
  { eapply Nat.le_lt_trans; [apply rx_wait_bound|done]. }
  { by rewrite R2. }
  rewrite (bind_ok _ _ _ _ _ E3). exists b3. rewrite R2, C3, C2, C1. split; [|done].
  unfold ret. change 0xFF with (Z.ones 8). rewrite C1 in Hy. rewrite Z.land_ones, Z.mod_small by lia. done.
Qed.

Lemma send_bytes_spec l js b c' :
  Forall (fun x => 0 <= x < 256) l -> length js = length l -> answers (zip l js) (crd b) c' ->
  exists b', send_bytes platform fuel l b = Ok (tt, b') /\ crd b' = c'.
Proof.
  revert js b. induction l as [|x l IH]; intros js b Hl Hj Ha; cbn [send_bytes].
  - simpl in Ha. subst c'. by exists b.
  - destruct js as [|y js]; [done|]. apply Forall_cons in Hl as [Hx Hl]. destruct Ha as [Hy Ha].
    destruct (send_data_byte_spec x b Hx) as (b1 & E1 & C1). rewrite (bind_ok _ _ _ _ _ E1).
    apply (IH js); [done|by injection Hj|by rewrite C1].
Qed.

Lemma recv_bytes_spec l b c' :
  answers (reads l) (crd b) c' ->
  exists b', recv_bytes platform fuel (length l) b = Ok (l, b') /\ crd b' = c'.
Proof.
  revert b. induction l as [|y l IH]; intros b Ha; cbn [recv_bytes length].
  - simpl in Ha. subst c'. by exists b.
  - destruct Ha as [Hy Ha]. destruct (send_data_byte_spec 0xFF b) as (b1 & E1 & C1); [lia|].
    unfold recv_data_byte. rewrite (bind_ok _ _ _ _ _ E1). rewrite Hy.
    destruct (IH b1) as (b2 & E2 & C2); [by rewrite C1|]. exists b2. unfold bind. by rewrite E2.
Qed.

(** Waiting for [x]: answers that are not [x], then [x]. *)
Lemma wait_byte_spec x ys n b c' :
  Forall (fun y => y <> x) ys -> (length ys < n)%nat -> answers (reads (ys ++ [x])) (crd b) c' ->
  exists b', wait_byte platform fuel x n b = Ok (tt, b') /\ crd b' = c'.
Proof.
  revert ys b. induction n as [|n IH]; intros ys b Hy Hn Ha; [lia|]. cbn [wait_byte]. unfold recv_data_byte.
  destruct (send_data_byte_spec 0xFF b) as (b1 & E1 & C1); [lia|]. rewrite (bind_ok _ _ _ _ _ E1).
  destruct ys as [|y ys].
  - destruct Ha as [-> Ha]. rewrite Z.eqb_refl. simpl in Ha. exists b1. by rewrite C1.
  - destruct Ha as [-> Ha]. apply Forall_cons in Hy as [Hne Hy].
    rewrite (proj2 (Z.eqb_neq _ _) Hne). simpl in Hn. apply (IH ys); [done|lia|by rewrite C1].
Qed.

Lemma wait_ack_spec r k n b c' :
  r <> 0xFF -> (k < n)%nat -> answers (reads (replicate k 0xFF ++ [r])) (crd b) c' ->
  exists b', wait_ack platform fuel n b = Ok (r, b') /\ crd b' = c'.
Proof.
  revert k b. induction n as [|n IH]; intros k b Hr Hn Ha; [lia|]. cbn [wait_ack]. unfold recv_data_byte.
  destruct (send_data_byte_spec 0xFF b) as (b1 & E1 & C1); [lia|]. rewrite (bind_ok _ _ _ _ _ E1).
  destruct k as [|k]; destruct Ha as [-> Ha].
  - rewrite (proj2 (Z.eqb_neq _ _) Hr). simpl in Ha. exists b1. by rewrite C1.
  - change (0xFF =? 0xFF) with true. cbv iota. apply (IH k); [done|lia|by rewrite C1].
Qed.

Lemma poll_reply_spec r k n b c' :
  r <> 0xFF -> (k < n)%nat -> answers (reads (replicate k 0xFF ++ [r])) (crd b) c' ->
  exists b', poll_reply platform fuel n b = Ok (r, b') /\ crd b' = c'.
Proof.
  revert k b. induction n as [|n IH]; intros k b Hr Hn Ha; [lia|]. cbn [poll_reply]. unfold recv_data_byte.
  destruct (send_data_byte_spec 0xFF b) as (b1 & E1 & C1); [lia|]. rewrite (bind_ok _ _ _ _ _ E1).
  destruct k as [|k]; destruct Ha as [-> Ha].
  - rewrite (proj2 (Z.eqb_neq _ _) Hr). simpl in Ha. exists b1. by rewrite C1.
  - change (negb (0xFF =? 0xFF)) with false. cbv iota. apply (IH k); [done|lia|by rewrite C1].
Qed.

Lemma sd_cmd_bytes c a : 0 <= c < 256 -> Forall (fun x => 0 <= x < 256) (sd_cmd c a).
Proof.
  intros Hc.
  assert (forall x, 0 <= Z.land x 0xFF < 256) as Hx.
  { intros x. change 0xFF with (Z.ones 8). rewrite Z.land_ones by lia. apply Z.mod_pos_bound. lia. }
  unfold sd_cmd. repeat (apply Forall_cons; split; [first [lia|apply Hx]|]). constructor.
Qed.

Lemma sd_exec_cmd_spec cmd a js n1 r b c' :
  0 <= cmd < 256 -> length js = 6%nat -> Z.of_nat n1 < 8000 -> r <> 0xFF ->
  answers (zip (sd_cmd cmd a) js ++ reads (replicate n1 0xFF ++ [r])) (crd b) c' ->
  exists b', sd_exec_cmd platform fuel (sd_cmd cmd a) b = Ok (r, b') /\ crd b' = c'.
Proof.
  intros Hc Hj Hn Hr (c1 & A1 & A2)%answers_app. unfold sd_exec_cmd.
  destruct (send_bytes_spec (sd_cmd cmd a) js b c1) as (b1 & E1 & C1); [by apply sd_cmd_bytes|done|done|].
  rewrite (bind_ok _ _ _ _ _ E1). apply (poll_reply_spec r n1); [done|lia|by rewrite C1].
Qed.

(** The start of both transfers. *)
Lemma wait_ready b :
  c_between (crd b) ->
  exists b', wait_byte platform fuel 0xFF fuel b = Ok (tt, b') /\ c_ready (crd b') /\
    c_blocks (crd b') = c_blocks (crd b).
Proof.
  intros Hb. destruct (card_ready _ Hb) as (ys & c1 & Hy & Hl & Ha & Hr & Hbl).
  destruct (wait_byte_spec 0xFF ys fuel b c1) as (b1 & E1 & C1); [done|lia|done|].
  exists b1. by rewrite C1.
Qed.

(** [single_read] of a block of the card. *)
Lemma single_read_spec i blk b :
  c_between (crd b) -> c_blocks (crd b) !! i = Some blk ->
  exists b', single_read platform fuel card_ty i b = Ok (blk, b') /\ c_between (crd b') /\
    c_blocks (crd b') = c_blocks (crd b).
Proof.
  intros Hb Hi. unfold single_read. cbv zeta.
  destruct (wait_ready b Hb) as (b1 & E1 & R1 & B1). rewrite (bind_ok _ _ _ _ _ E1).
  rewrite <- B1 in Hi.
  destruct (card_read _ i blk R1 Hi) as (js & n1 & ys & k1 & k2 & c' & Hj & Hn1 & Hy & Hl & Ha & Hc & Hbl).
  rewrite app_assoc in Ha. apply answers_app in Ha as (c2 & A2 & Ha).
  destruct (sd_exec_cmd_spec 0x51 (sd_addr card_ty i) js n1 0 b1 c2) as (b2 & E2 & C2); [lia|done|done|lia|done|].
  rewrite (bind_ok _ _ _ _ _ E2). change (negb (0 =? 0)) with false. cbv iota.
  apply answers_app in Ha as (c3 & A3 & Ha).
  destruct (wait_byte_spec 0xFE ys fuel b2 c3) as (b3 & E3 & C3); [done|lia|by rewrite C2|].
  rewrite (bind_ok _ _ _ _ _ E3). apply answers_app in Ha as (c4 & A4 & A5).
  destruct (recv_bytes_spec (byte_Z <$> blk) b3 c4) as (b4 & E4 & C4); [by rewrite C3|].
  pose proof (c_block_ok _ _ _ Hi) as Hbk. rewrite length_fmap, Hbk in E4.
  rewrite (bind_ok _ _ _ _ _ E4). unfold recv_data_byte. destruct A5 as [_ [_ A5]]. simpl in A5.
  destruct (send_data_byte_spec 0xFF b4) as (b5 & E5 & C5); [lia|]. rewrite (bind_ok _ _ _ _ _ E5).
  destruct (send_data_byte_spec 0xFF b5) as (b6 & E6 & C6); [lia|]. rewrite (bind_ok _ _ _ _ _ E6).
  exists b6. assert (crd b6 = c') as -> by by rewrite C6, C5, C4. split.
  - unfold ret. do 2 f_equal. rewrite <- list_fmap_compose. rewrite <- (list_fmap_id blk) at 2.
    apply list_fmap_ext. intros k x _. apply Z_byte_Z.
  - split; [done|]. by rewrite Hbl.
Qed.

Lemma single_write_spec i blk b src :
  c_between (crd b) -> 0 <= i < c_size -> take (Z.to_nat BLOCK_SIZE) src = blk -> block_ok blk ->
  exists b', single_write platform fuel card_ty i src b = Ok (tt, b') /\ c_between (crd b') /\
    c_blocks (crd b') = <[i := blk]> (c_blocks (crd b)).
Proof.
  intros Hb Hi Hs Hbk. unfold single_write. cbv zeta. rewrite Hs.
  destruct (wait_ready b Hb) as (b1 & E1 & R1 & B1). rewrite (bind_ok _ _ _ _ _ E1).
  destruct (card_write _ i blk R1 Hi Hbk) as (js & n1 & js1 & n2 & r & c' & Hj & Hn1 & Hj1 & Hn2 & Hr & Hr5 & Ha & Hc & Hbl).
  rewrite app_assoc in Ha. apply answers_app in Ha as (c2 & A2 & Ha).
  destruct (sd_exec_cmd_spec 0x58 (sd_addr card_ty i) js n1 0 b1 c2) as (b2 & E2 & C2); [lia|done|done|lia|done|].
  rewrite (bind_ok _ _ _ _ _ E2). change (negb (0 =? 0)) with false. cbv iota.
  apply answers_app in Ha as (c3 & A3 & A4).
  destruct (send_bytes_spec (0xFE :: (byte_Z <$> blk) ++ [0xFF; 0xFF]) js1 b2 c3) as (b3 & E3 & C3);
    [|done|by rewrite C2|].
  { constructor; [lia|]. apply Forall_app. split; [|repeat constructor; lia].
    apply Forall_fmap, Forall_true. intros x. apply byte_Z_range. }
  assert (forall k : unit -> M B unit, bind (send_bytes platform fuel (0xFE :: (byte_Z <$> blk) ++ [0xFF; 0xFF])) k b2 =
    (send_data_byte platform fuel 0xFE ;;; send_bytes platform fuel (byte_Z <$> blk) ;;;
     send_data_byte platform fuel 0xFF ;;; send_data_byte platform fuel 0xFF ;;; k tt) b2) as Hsend.
  { intros k. cbn [send_bytes]. rewrite bind_assoc. apply bind_ext. intros _ s. generalize (byte_Z <$> blk).
    intros l. revert s. induction l as [|x l IH]; intros s; cbn [app send_bytes].
    - rewrite bind_assoc, bind_ret. apply bind_ext. intros _ s'. rewrite bind_assoc. apply bind_ext. by intros.
    - rewrite !bind_assoc. apply bind_ext. intros _ s'. apply IH. }
  rewrite <- (Hsend (fun _ => reply <- wait_ack platform fuel fuel ;;
    if negb (Z.land reply 0x1F =? 0x05) then fatal "SD card write ack with status" else ret tt)).
  rewrite (bind_ok _ _ _ _ _ E3).
  destruct (wait_ack_spec r n2 fuel b3 c') as (b4 & E4 & C4); [done|lia|by rewrite C3|].
  rewrite (bind_ok _ _ _ _ _ E4), Hr5. exists b4. rewrite C4. split; [done|]. split; [done|]. by rewrite Hbl, B1.
Qed.

(** ** Many blocks *)

Lemma sdread_spec n i b :
  c_between (crd b) -> 0 <= i -> i + Z.of_nat n <= c_size ->
  exists b', sdread platform fuel card_ty i n b = Ok (blocks_at (c_blocks (crd b)) i (Z.of_nat n), b') /\
    c_between (crd b') /\ c_blocks (crd b') = c_blocks (crd b).
Proof.
  revert i b. induction n as [|n IH]; intros i b Hb Hi Hn; cbn [sdread]; [by exists b|].
  destruct (proj2 (c_dom (crd b) i)) as [blk Hblk]; [lia|].
  destruct (single_read_spec i blk b Hb Hblk) as (b1 & E1 & Hb1 & B1). rewrite (bind_ok _ _ _ _ _ E1).
  pose proof (c_size_range (C := C)) as Hsz. rewrite u32_small by (unfold is_u32; lia).
  destruct (IH (i + 1) b1 Hb1) as (b2 & E2 & Hb2 & B2); [lia|lia|]. rewrite (bind_ok _ _ _ _ _ E2).
  exists b2. split; [|by rewrite B2]. unfold ret, blocks_at. rewrite B1.
  rewrite (seqZ_cons i) by lia. rewrite bind_cons, Hblk. replace (Z.pred (Z.of_nat (S n))) with (Z.of_nat n) by lia. done.
Qed.

Lemma sdwrite_spec n i src b :
  c_between (crd b) -> 0 <= i -> i + Z.of_nat n <= c_size -> Z.of_nat (length src) = Z.of_nat n * BLOCK_SIZE ->
  exists b', sdwrite platform fuel card_ty i n src b = Ok (tt, b') /\ c_between (crd b') /\
    forall j, c_blocks (crd b') !! j = write_blocks (c_blocks (crd b)) i (Z.of_nat n) src j.
Proof.
  revert i src b. induction n as [|n IH]; intros i src b Hb Hi Hn Hl; cbn [sdwrite].
  { exists b. split; [done|]. split; [done|]. intros j. unfold write_blocks.
    destruct (Z.leb_spec i j), (Z.ltb_spec j (i + Z.of_nat 0)); simpl; done || lia. }
  assert (block_ok (take (Z.to_nat BLOCK_SIZE) src)) as Hbk.
  { unfold block_ok. rewrite length_take. unfold BLOCK_SIZE in *. lia. }
  destruct (single_write_spec i _ b src Hb ltac:(lia) eq_refl Hbk) as (b1 & E1 & Hb1 & B1).
  rewrite (bind_ok _ _ _ _ _ E1). pose proof (c_size_range (C := C)) as Hsz. rewrite u32_small by (unfold is_u32; lia).
  destruct (IH (i + 1) (drop (Z.to_nat BLOCK_SIZE) src) b1 Hb1) as (b2 & E2 & Hb2 & B2);
    [lia|lia|rewrite length_drop; unfold BLOCK_SIZE in *; lia|].
  exists b2. split; [done|]. split; [done|]. intros j. rewrite B2, B1. unfold write_blocks.
  rewrite lookup_insert, drop_drop.
  destruct (Z.leb_spec (i + 1) j), (Z.ltb_spec j (i + 1 + Z.of_nat n)), (Z.leb_spec i j),
    (Z.ltb_spec j (i + Z.of_nat (S n))), (decide (i = j)); simpl; try lia; try done.
  - do 3 f_equal. unfold BLOCK_SIZE. lia.
  - subst j. by rewrite Z.sub_diag.
Qed.
End driver.

(** ** The disk driver on a card *)

Section disk.
Context {B C : Type} (platform : platform_t) `{SpiLaws B C (SPI_BASE platform)} `{!CardLaws C}.
Context (fuel : nat) (fuel_spi : (spi_max (SPI_BASE platform) < fuel)%nat) (fuel_card : (c_delay < fuel)%nat).
Abbreviation crd := (card (SPI_BASE platform)).

(** What [disk_init] leaves when the card is chosen, and every access keeps. *)
Definition sd_wf (s : disk_state B) : bool :=
  bool_decide (type s = SD_CARD) && bool_decide (SD_CARD_TYPE s = card_ty) && c_between (crd (disk_bus s)).
Definition sd_blocks (s : disk_state B) : gmap Z block := c_blocks (crd (disk_bus s)).

Lemma sd_wf_split s :
  sd_wf s = true <-> type s = SD_CARD /\ SD_CARD_TYPE s = card_ty /\ c_between (crd (disk_bus s)) = true.
Proof. unfold sd_wf. rewrite !andb_true_iff, !bool_decide_eq_true. tauto. Qed.

Lemma on_spi_ok {A} (m : M B A) (s : disk_state B) a b :
  m (disk_bus s) = Ok (a, b) ->
  on_spi m s = Ok (a, {| type := type s; SD_CARD_TYPE := SD_CARD_TYPE s; disk_bus := b; rom := rom s |}).
Proof. intros E. unfold on_spi. by rewrite E. Qed.

Lemma dev_disk_read_spec s b n :
  sd_wf s = true -> 0 <= b -> 0 <= n -> b + n <= c_size ->
  exists s', dev_disk_read platform fuel b n s = Ok ((0, blocks_at (sd_blocks s) b n), s') /\
    sd_wf s' = true /\ sd_blocks s' = sd_blocks s.
Proof.
  intros (Ht & Hc & Hb)%sd_wf_split Hr1 Hr2 Hr3.
  destruct (sdread_spec platform fuel fuel_spi fuel_card (Z.to_nat n) b (disk_bus s)) as (b' & E & Hb' & HB);
    [by rewrite Hb|lia|lia|].
  eexists. split.
  - unfold dev_disk_read, bind at 1. cbn [get]. rewrite Ht, Hc.
    rewrite (bind_ok _ _ _ _ _ (on_spi_ok _ s _ _ E)), Z2Nat.id by lia. reflexivity.
  - split; [apply sd_wf_split|exact HB]. split; [exact Ht|]. split; [exact Hc|]. by apply Is_true_eq_true.
Qed.

Lemma dev_disk_write_spec s b n src :
  sd_wf s = true -> 0 <= b -> 0 <= n -> b + n <= c_size -> Z.of_nat (length src) = n * BLOCK_SIZE ->
  exists s', dev_disk_write platform fuel b n src s = Ok (0, s') /\
    sd_wf s' = true /\ forall i, sd_blocks s' !! i = write_blocks (sd_blocks s) b n src i.
Proof.
  intros (Ht & Hc & Hb)%sd_wf_split Hr1 Hr2 Hr3 Hr4.
  destruct (sdwrite_spec platform fuel fuel_spi fuel_card (Z.to_nat n) b src (disk_bus s)) as (b' & E & Hb' & HB);
    [by rewrite Hb|lia|lia|rewrite Z2Nat.id; [exact Hr4|exact Hr2]|].
  eexists. split.
  - unfold dev_disk_write, bind at 1. cbn [get]. rewrite Ht, Hc.
    rewrite (bind_ok _ _ _ _ _ (on_spi_ok _ s _ _ E)). reflexivity.
  - split; [apply sd_wf_split; split; [exact Ht|]; split; [exact Hc|]; by apply Is_true_eq_true|].
    intros i. rewrite Z2Nat.id in HB by lia. apply HB.
Qed.

(** The states of the driver in which the card was found: the accesses keep to
    them ([dev_disk_read_spec], [dev_disk_write_spec]). *)
Record sd_disk := { sd_state : disk_state B; sd_state_wf : sd_wf sd_state = true }.

Definition on_sd {A} (m : M (disk_state B) A) : M sd_disk A := fun d =>
  match m (sd_state d) with
  | Ok (a, s) =>
      match decide (sd_wf s = true) with
      | left Hs => Ok (a, {| sd_state := s; sd_state_wf := Hs |})
      | right _ => Undef "the card is left in the middle of a command"
      end
  | Fatal msg => Fatal msg
  | Undef w => Undef w
  | NoFuel => NoFuel
  end.

Lemma on_sd_ok {A} (m : M (disk_state B) A) d a s :
  m (sd_state d) = Ok (a, s) -> sd_wf s = true ->
  exists d', on_sd m d = Ok (a, d') /\ sd_state d' = s.
Proof.
  intros E Hs. unfold on_sd. rewrite E. destruct (decide (sd_wf s = true)) as [Hd|Hd]; [|done]. by eexists.
Qed.

#[local] Instance sd_ops : Disk sd_disk := {|
  disk_read b n := on_sd (dev_disk_read platform fuel b n);
  disk_write b n src := on_sd (dev_disk_write platform fuel b n src)
|}.

#[local, program] Instance sd_laws : DiskLaws sd_disk := {|
  disk_size := c_size;
  disk_blocks d := sd_blocks (sd_state d)
|}.
Next Obligation. intros d i. apply c_dom. Qed.
Next Obligation. intros d i b. apply c_block_ok. Qed.
Next Obligation.
  intros d b n Hr1 Hr2 Hr3. destruct (dev_disk_read_spec (sd_state d) b n (sd_state_wf d) Hr1 Hr2 Hr3) as (s' & E & W & HB).
  destruct (on_sd_ok _ d _ _ E W) as (d' & Ed & Es). exists d'. split; [exact Ed|]. by rewrite Es.
Qed.
Next Obligation.
  intros d b n src Hr1 Hr2 Hr3 Hr4.
  destruct (dev_disk_write_spec (sd_state d) b n src (sd_state_wf d) Hr1 Hr2 Hr3 Hr4) as (s' & E & W & HB).
  destruct (on_sd_ok _ d _ _ E W) as (d' & Ed & Es). exists d'. split; [exact Ed|]. by rewrite Es.
Qed.
End disk.
