(* ===== verification/SdDevice.v ===== *)
(** A card and an SPI controller that keep the laws of SdCard.v: a byte-addressed
    card of 4MB with the commands that the driver sends. *)

From Stdlib Require Import ZArith Lia Strings.Byte.
From stdpp Require Import base numbers list strings gmap.
From S2P Require Import Prelude Bytes Memory Earth Bus Tty Sd SdCard Devices.

Local Open Scope egos_scope.

#[local] Obligation Tactic := idtac.
#[local] Opaque MemDisk.blocks.

Module SimCard.

(** Waiting for a command; taking the rest of one; with bytes to send; taking
    the token, the bytes and the checksum of a block at [a]. *)
Inductive phase_t := Idle | Command (l : list Z) | Out (l : list Z) | Accept (a : Z) | Data (a : Z) (l : list Z).
Record simcard := { phase : phase_t; image : MemDisk.disk }.

Definition arg (l : list Z) : Z := fold_left (fun a x => a * 256 + x) (take 4 l) 0.
Definition block_at (a : Z) (c : simcard) : block := MemDisk.blk (image c) (a / BLOCK_SIZE).

(** The answer to a command. *)
Definition perform (l : list Z) (c : simcard) : phase_t :=
  match l with
  | 0x51 :: l' => Out ([0xFF; 0; 0xFF; 0xFE] ++ (byte_Z <$> block_at (arg l') c) ++ [0; 0])
  | 0x58 :: l' => Accept (arg l')
  | 0x40 :: _ => Out [1]
  | 0x48 :: _ => Out [1; 0; 0; 1; 0xAA]
  | 0x77 :: _ => Out [1]
  | 0x7A :: _ => Out [0; 0x80; 0; 0; 0]
  | _ => Out [0]
  end.

Definition step (x : Z) (c : simcard) : Z * simcard :=
  let go p := {| phase := p; image := image c |} in
  match phase c with
  | Idle => (0xFF, if x =? 0xFF then c else go (Command [x]))
  | Command l =>
      let l' := l ++ [x] in
      (0xFF, if decide (length l' = 6%nat) then go (perform l' c) else go (Command l'))
  | Out [] => (0xFF, go Idle)
  | Out [y] => (y mod 256, go Idle)
  | Out (y :: l) => (y mod 256, go (Out l))
  | Accept a => (0, go (Data a []))
  | Data a l =>
      let l' := l ++ [x] in
      (0xFF,
       if decide (length l' = 515%nat) then
         {| phase := Out [0xFF; 0xE5; 0];
            image := {| MemDisk.bytes := store (MemDisk.bytes (image c)) (a / BLOCK_SIZE * BLOCK_SIZE)
                                           (Z_byte <$> take (Z.to_nat BLOCK_SIZE) (tail l')) |} |}
       else go (Data a l'))
  end.

#[global, program] Instance is_card : Card simcard := {| card_step := step |}.
Next Obligation.
  intros x c. unfold step. destruct (phase c) as [|l|[|y [|z l]]|a|a l]; cbn [fst]; try lia;
    apply Z.mod_pos_bound; lia.
Qed.

Definition between (c : simcard) : bool :=
  match phase c with Idle => true | Out [0] => true | _ => false end.

(** The bytes to send are sent. *)
Lemma out_answers l y im :
  Forall (fun x => 0 <= x < 256) (l ++ [y]) ->
  answers (reads (l ++ [y])) {| phase := Out (l ++ [y]); image := im |} {| phase := Idle; image := im |}.
Proof.
  induction l as [|x l IH]; intros Hl.
  - apply Forall_cons in Hl as [Hy _]. split; [|done]. apply Z.mod_small. lia.
  - rewrite <- app_comm_cons in *. apply Forall_cons in Hl as [Hx Hl]. unfold reads in *. rewrite fmap_cons.
    destruct (l ++ [y]) as [|z l'] eqn:El; [by destruct l|].
    split; [apply Z.mod_small; lia|]. exact (IH Hl).
Qed.

(** A part of the bytes to send. *)
Lemma out_part l1 l2 im :
  Forall (fun x => 0 <= x < 256) l1 -> l2 <> [] ->
  answers (reads l1) {| phase := Out (l1 ++ l2); image := im |} {| phase := Out l2; image := im |}.
Proof.
  intros Hl Hn. induction l1 as [|x l1 IH]; [done|]. apply Forall_cons in Hl as [Hx Hl].
  rewrite <- app_comm_cons. unfold reads in *. rewrite fmap_cons. destruct (l1 ++ l2) as [|z l'] eqn:El; [by destruct l1|].
  split; [apply Z.mod_small; lia|]. exact (IH Hl).
Qed.

(** A command is taken with answers 0xFF. *)
Lemma command_answers x0 x1 x2 x3 x4 x5 im :
  x0 <> 0xFF ->
  answers (zip [x0; x1; x2; x3; x4; x5] (replicate 6 0xFF)) {| phase := Idle; image := im |}
    {| phase := perform [x0; x1; x2; x3; x4; x5] {| phase := Command [x0; x1; x2; x3; x4]; image := im |}; image := im |}.
Proof.
  intros Hx.
  assert (card_step x0 {| phase := Idle; image := im |} = (0xFF, {| phase := Command [x0]; image := im |})) as E.
  { cbn. unfold step. cbn. by rewrite (proj2 (Z.eqb_neq _ _) Hx). }
  cbn [zip zip_with replicate answers]. rewrite E. split; [done|]. by repeat (split; [reflexivity|]).
Qed.

(** The block is taken byte by byte. *)
Lemma data_answers a l0 l im :
  l <> [] -> (length l0 + length l = 515)%nat ->
  answers (zip l (replicate (length l) 0xFF)) {| phase := Data a l0; image := im |}
    {| phase := Out [0xFF; 0xE5; 0];
       image := {| MemDisk.bytes := store (MemDisk.bytes im) (a / BLOCK_SIZE * BLOCK_SIZE)
                                      (Z_byte <$> take (Z.to_nat BLOCK_SIZE) (tail (l0 ++ l))) |} |}.
Proof.
  revert l0. induction l as [|x l IH]; intros l0 Hn Hl; [done|]. cbn [length replicate zip zip_with answers].
  split; [done|]. unfold card_step. cbn [is_card]. unfold step. cbn [phase snd image]. simpl in Hl.
  destruct l as [|y l].
  - rewrite decide_True by (rewrite length_app; simpl in *; lia). done.
  - rewrite decide_False by (rewrite length_app; simpl in *; lia).
    replace (l0 ++ x :: y :: l) with ((l0 ++ [x]) ++ y :: l) by by rewrite <- app_assoc.
    apply IH; [done|]. rewrite length_app. simpl in *. lia.
Qed.

Lemma arg_addr i : 0 <= i < MemDisk.SIZE -> arg (tail (sd_cmd 0x51 (sd_addr SD_TYPE_SD2 i))) / BLOCK_SIZE = i.
Proof.
  intros Hi. unfold MemDisk.SIZE in Hi. unfold sd_addr. cbn [decide]. rewrite decide_True by done.
  rewrite u32_small by (unfold is_u32, BLOCK_SIZE; lia). unfold arg, sd_cmd. cbn [tail take fold_left].
  change 0xFF with (Z.ones 8). rewrite !Z.land_ones, !Z.shiftr_div_pow2 by lia.
  change (2 ^ 8) with 256. unfold BLOCK_SIZE. change (2 ^ 16) with (256 * 256). change (2 ^ 24) with (256 * 256 * 256).
  rewrite <- !Z.div_div by lia. set (v := i * 512). assert (0 <= v < 256 * 256 * 256 * 256) by lia.
  pose proof (Z.div_mod v 256 ltac:(lia)). pose proof (Z.div_mod (v / 256) 256 ltac:(lia)).
  pose proof (Z.div_mod (v / 256 / 256) 256 ltac:(lia)).
  assert (0 <= v / 256 / 256 / 256 < 256).
  { rewrite !Z.div_div by lia. split; [apply Z.div_pos; lia|apply Z.div_lt_upper_bound; lia]. }
  rewrite (Z.mod_small (v / 256 / 256 / 256)) by lia.
  replace ((((0 * 256 + v / 256 / 256 / 256) * 256 + (v / 256 / 256) mod 256) * 256 + (v / 256) mod 256) * 256 + v mod 256)
    with v by lia.
  unfold v. by rewrite Z.div_mul by lia.
Qed.

Lemma reads_app l1 l2 : reads (l1 ++ l2) = reads l1 ++ reads l2.
Proof. apply fmap_app. Qed.

Lemma bytes_range (l : list byte) : Forall (fun x => 0 <= x < 256) (byte_Z <$> l).
Proof. apply Forall_fmap, Forall_true. intros x. apply byte_Z_range. Qed.

(** The two commands of the driver. *)
Lemma read_answers i im :
  0 <= i < MemDisk.SIZE ->
  answers (zip (sd_cmd 0x51 (sd_addr SD_TYPE_SD2 i)) (replicate 6 0xFF) ++
           reads (replicate 1 0xFF ++ [0]) ++ reads ([0xFF] ++ [0xFE]) ++
           reads (byte_Z <$> MemDisk.blk im i) ++ reads [0; 0])
    {| phase := Idle; image := im |} {| phase := Idle; image := im |}.
Proof.
  intros Hi. apply answers_app. eexists. split; [by apply command_answers|]. cbn [perform]. unfold block_at.
  change (arg _) with (arg (tail (sd_cmd 0x51 (sd_addr SD_TYPE_SD2 i)))). rewrite arg_addr by done.
  rewrite <- !reads_app. cbn [image]. pose proof (bytes_range (MemDisk.blk im i)) as Hb.
  generalize dependent (byte_Z <$> MemDisk.blk im i). intros l Hl.
  change (replicate 1 0xFF ++ [0]) with [0xFF; 0].
  replace ([0xFF; 0] ++ ([0xFF] ++ [0xFE]) ++ l ++ [0; 0]) with (([0xFF; 0; 0xFF; 0xFE] ++ l ++ [0]) ++ [0])
    by by rewrite <- !app_assoc.
  replace ([0xFF; 0; 0xFF; 0xFE] ++ l ++ [0; 0]) with (([0xFF; 0; 0xFF; 0xFE] ++ l ++ [0]) ++ [0])
    by by rewrite <- !app_assoc.
  apply out_answers. rewrite !Forall_app. by repeat constructor; try lia.
Qed.

Lemma write_answers i (b : block) im :
  0 <= i < MemDisk.SIZE -> block_ok b ->
  answers (zip (sd_cmd 0x58 (sd_addr SD_TYPE_SD2 i)) (replicate 6 0xFF) ++
           reads (replicate 0 0xFF ++ [0]) ++
           zip (0xFE :: (byte_Z <$> b) ++ [0xFF; 0xFF]) (replicate 515 0xFF) ++
           reads (replicate 1 0xFF ++ [0xE5]))
    {| phase := Idle; image := im |}
    {| phase := Out [0]; image := {| MemDisk.bytes := store (MemDisk.bytes im) (i * BLOCK_SIZE) b |} |}.
Proof.
  intros Hi Hb. apply answers_app. eexists. split; [by apply command_answers|]. cbn [perform].
  change (arg _) with (arg (tail (sd_cmd 0x51 (sd_addr SD_TYPE_SD2 i)))).
  set (a := arg _). assert (a / BLOCK_SIZE = i) as Ha by by apply arg_addr.
  apply answers_app. exists {| phase := Data a []; image := im |}. split; [done|].
  assert (length (0xFE :: (byte_Z <$> b) ++ [0xFF; 0xFF]) = 515%nat) as Hl.
  { cbn [length]. rewrite length_app, length_fmap, Hb. done. }
  apply answers_app. eexists. split.
  { rewrite <- Hl. apply data_answers; [done|]. rewrite Hl. done. }
  rewrite Ha. cbn [app tail]. rewrite take_app_length' by by rewrite length_fmap.
  rewrite <- list_fmap_compose. replace (Z_byte ∘ byte_Z <$> b) with b; [done|].
  rewrite <- (list_fmap_id b) at 1. apply list_fmap_ext. intros k x _. symmetry. apply Z_byte_Z.
Qed.

#[global, program] Instance laws : CardLaws simcard := {|
  card_ty := SD_TYPE_SD2;
  c_between := between;
  c_ready c := phase c = Idle;
  c_blocks c := MemDisk.blocks (image c);
  c_size := MemDisk.SIZE;
  c_delay := 1
|}.
Next Obligation. done. Qed.
Next Obligation. intros c i. exact (disk_dom (H := MemDisk.ops) (DiskLaws := MemDisk.laws) (image c) i). Qed.
Next Obligation. intros c i b. exact (disk_block_ok (H := MemDisk.ops) (DiskLaws := MemDisk.laws) (image c) i b). Qed.
Next Obligation.
  intros [p im] Hb. exists (match p with Idle => [] | _ => [0] end), {| phase := Idle; image := im |}.
  destruct p as [|?|[|[] []]|?|?]; try done; by repeat constructor.
Qed.
Next Obligation.
  intros [p im] i b Hr Hb. cbn in Hr, Hb. subst p. rewrite MemDisk.blocks_lookup in Hb.
  destruct (_ && _) eqn:Hi; [|done]. injection Hb as <-. bool_prop.
  exists (replicate 6 0xFF), 1%nat, [0xFF], 0, 0, {| phase := Idle; image := im |}.
  split; [done|]. split; [lia|]. split; [by repeat constructor|]. split; [done|].
  split; [apply read_answers; lia|done].
Qed.
Next Obligation.
  intros [p im] i b Hr Hi Hb. cbn in Hr. subst p.
  exists (replicate 6 0xFF), 0%nat, (replicate 515 0xFF), 1%nat, 0xE5. eexists.
  split; [done|]. split; [lia|]. split; [cbn [length]; by rewrite length_app, length_fmap, Hb|].
  split; [done|]. split; [done|]. split; [done|]. split; [by apply write_answers|]. split; [done|]. cbn [image].
  apply map_eq. intros j. destruct (disk_write_spec im i 1 b) as (d' & E & HB); [lia|lia|unfold disk_size; cbn; lia|by rewrite Hb|].
  injection E as <-. rewrite HB. unfold write_blocks. rewrite lookup_insert.
  destruct (decide (i = j)) as [->|Hne].
  - rewrite Z.leb_refl, (proj2 (Z.ltb_lt j (j + 1))), Z.sub_diag by lia. cbn [andb]. f_equal.
    change (Z.to_nat (0 * BLOCK_SIZE)) with O. rewrite drop_0. apply take_ge. rewrite Hb. reflexivity.
  - replace ((i <=? j) && (j <? i + 1)) with false; [reflexivity|].
    symmetry. apply andb_false_iff. rewrite Z.leb_gt, Z.ltb_ge. lia.
Qed.

End SimCard.

(** The controller: every byte is exchanged at once. *)
Module Spi.

Record spi := { card : SimCard.simcard; last : Z }.

Definition exchange (v : Z) : M spi unit :=
  modify (fun b => let '(y, c) := card_step v (card b) in {| card := c; last := y |}).

#[global] Instance ops : Bus spi := {|
  REGW base off := b <- get ;; ret (if off =? SPI_RXDATA then last b else 0);
  REGW_set base off v := if off =? SPI_TXDATA then exchange v else ret tt;
  REGB base off := ret 0;
  REGB_set base off v := if off =? SPI_TXDATA then exchange v else ret tt
|}.

#[global, program] Instance laws base : SpiLaws spi SimCard.simcard base := {|
  SdCard.card := card;
  tx_wait b := O;
  rx_wait b := O;
  rx_byte := last;
  spi_max := O
|}.
Next Obligation. done. Qed.
Next Obligation. done. Qed.
Next Obligation. intros base b. by eexists _, _. Qed.
Next Obligation. intros base c Hc b. exists tt. eexists. split; [reflexivity|]. intros _. cbn. by destruct (SimCard.step c (card b)). Qed.
Next Obligation. intros base c Hc b. exists tt. eexists. split; [reflexivity|]. intros _. cbn. by destruct (SimCard.step c (card b)). Qed.
Next Obligation. intros base b. by eexists _, _. Qed.

(** A blank card, before and after [sdinit]. *)
Definition blank : spi := {| card := {| SimCard.phase := SimCard.Idle; SimCard.image := {| MemDisk.bytes := ∅ |} |}; last := 0 |}.

End Spi.
