(* ===== verification/Elf.v ===== *)
(** The program loader, library/elf/elf.c with the structures of elf.h: the
    program headers in the first block of an executable, the grass layer at its
    fixed address, and applications in frames of the memory management unit. *)

From Stdlib Require Import ZArith Lia Strings.Byte.
From stdpp Require Import base numbers list strings gmap.
From S2P Require Import Prelude Bytes Memory Earth Paging Mmu Kernel.

Local Open Scope egos_scope.

(** ** library/elf/elf.h *)

(** The [n]-byte field at [off] of a buffer. *)
Definition field (buf : list byte) (off n : Z) : Z := le_get (take (Z.to_nat n) (drop (Z.to_nat off) buf)).

Record elf32_header := { e_phoff : Z; e_phnum : Z }.
Definition elf_header (buf : list byte) : elf32_header :=
  {| e_phoff := field buf 28 4; e_phnum := field buf 44 2 |}.

Record elf32_program_header := { p_offset : Z; p_vaddr : Z; p_filesz : Z; p_memsz : Z }.
(** The program header at offset [off] of the buffer. *)
Definition elf_pheader (buf : list byte) (off : Z) : elf32_program_header :=
  {| p_offset := field buf (off + 4) 4; p_vaddr := field buf (off + 8) 4;
     p_filesz := field buf (off + 16) 4; p_memsz := field buf (off + 20) 4 |}.

(** Of library/servers/servers.h. *)
Definition CMD_NARGS : Z := 16.
Definition CMD_ARG_LEN : Z := 32.

(** ** library/elf/elf.c *)

Section elf.
Context {P : Type} `{Paging P}.
Abbreviation st := (mmu_state P).
(** [earth->translation]: it says what [earth->mmu_map] is. *)
Variable translation : translation_t.
(** The [elf_reader]: the bytes that it puts at its destination. *)
Variable reader : Z -> M st (list byte).

Definition elf_map (pid page_no frame_no : Z) : M st unit :=
  match translation with
  | SOFT_TLB => soft_tlb_map pid page_no frame_no
  | PAGE_TABLE => page_table_map pid page_no frame_no
  end.

(** The loop of [load_grass]. *)
Fixpoint grass_blocks (fuel : nat) (off filesz block_offset : Z) : M st unit :=
  if off <? filesz then
    match fuel with
    | O => nofuel
    | S fuel' =>
        l <- reader block_offset ;;
        put_mem (GRASS_ENTRY + off) l ;;;
        grass_blocks fuel' (u32 (off + BLOCK_SIZE)) filesz (u32 (block_offset + 1))
    end
  else ret tt.

(** The number of blocks of a file. *)
Definition file_blocks (filesz : Z) : nat := Z.to_nat ((filesz + BLOCK_SIZE - 1) / BLOCK_SIZE).

(** The size of the last [memset] is unsigned: a larger file would clear
    everything from the end of the grass layer on. *)
Definition load_grass (ph : elf32_program_header) : M st unit :=
  grass_blocks (file_blocks (p_filesz ph)) 0 (p_filesz ph) (p_offset ph / BLOCK_SIZE) ;;;
  if GRASS_SIZE <? p_filesz ph then undef "load_grass: memset"
  else put_mem (GRASS_ENTRY + p_filesz ph) (replicate (Z.to_nat (GRASS_SIZE - p_filesz ph)) x00).

(** A new page of [pid]: the address of its frame. *)
Definition new_page (pid page_no : Z) : M st Z :=
  '(frame_no, base) <- mmu_alloc ;;
  elf_map pid page_no frame_no ;;;
  ret base.

(** The loop that reads the file: [code_start] and [base] at the end of it. *)
Fixpoint app_blocks (fuel : nat) (pid off filesz block_offset code_start base : Z) : M st (Z * Z) :=
  if off <? filesz then
    match fuel with
    | O => nofuel
    | S fuel' =>
        '(code_start, base) <-
          (if off mod PAGE_SIZE =? 0 then
             base <- new_page pid code_start ;; ret (code_start + 1, base)
           else ret (code_start, base)) ;;
        l <- reader block_offset ;;
        put_mem (base + off mod PAGE_SIZE) l ;;;
        app_blocks fuel' pid (u32 (off + BLOCK_SIZE)) filesz (u32 (block_offset + 1)) code_start base
    end
  else ret (code_start, base).

(** The loop that maps the rest of the code and data pages, cleared. *)
Fixpoint zero_pages (fuel : nat) (pid code_start : Z) : M st unit :=
  if code_start <? Z.shiftr (APPS_ENTRY + APPS_SIZE) 12 then
    match fuel with
    | O => nofuel
    | S fuel' =>
        base <- new_page pid code_start ;;
        put_mem base zero_page ;;;
        zero_pages fuel' pid (code_start + 1)
    end
  else ret tt.

(** [argc], the pointers [argv] and the [argc] strings they point to, in the
    page at [base]; [argv] is the array of the caller. *)
Definition put_args (base argc : Z) (argv : option (list byte)) : M st unit :=
  put_mem base (le_put 4 argc) ;;;
  (match argv with
   | Some args => put_mem (base + 4 + 4 * CMD_NARGS) (take (Z.to_nat (u32 argc * CMD_ARG_LEN)) args)
   | None => ret tt
   end) ;;;
  for_n (Z.to_nat (u32 argc)) 0 (fun i =>
    put_mem (base + 4 + 4 * i) (le_put 4 (APPS_ARG + 4 + 4 * CMD_NARGS + i * CMD_ARG_LEN))).

(** [base] has no value when the file is empty; it is not used then. *)
Definition load_app (pid argc : Z) (argv : option (list byte)) (ph : elf32_program_header) : M st unit :=
  '(code_start, base) <- app_blocks (file_blocks (p_filesz ph)) pid 0 (p_filesz ph)
                           (p_offset ph / BLOCK_SIZE) (Z.shiftr APPS_ENTRY 12) 0 ;;
  let last_page_filled := p_filesz ph mod PAGE_SIZE in
  let last_page_nzeros := PAGE_SIZE - last_page_filled in
  (if negb (last_page_filled =? 0)
   then put_mem (base + last_page_filled) (replicate (Z.to_nat last_page_nzeros) x00)
   else ret tt) ;;;
  zero_pages (Z.to_nat (APPS_SIZE / PAGE_SIZE)) pid code_start ;;;
  let stack_start := Z.shiftr APPS_ARG 12 in
  base <- new_page pid stack_start ;;
  put_args base argc argv ;;;
  new_page pid (stack_start + 1) ;;;
  ret tt.

(** One program header. *)
Definition load_segment (pid argc : Z) (argv : option (list byte)) (ph : elf32_program_header) : M st unit :=
  if p_memsz ph =? 0 then ret tt
  else if p_vaddr ph =? GRASS_ENTRY then load_grass ph
  else if p_vaddr ph =? APPS_ENTRY then load_app pid argc argv ph
  else fatal "elf_load: Invalid p_vaddr".

(** Program headers outside the first block are outside [buf]. *)
Definition elf_load (pid argc : Z) (argv : option (list byte)) : M st unit :=
  buf <- reader 0 ;;
  let header := elf_header buf in
  for_n (Z.to_nat (e_phnum header)) 0 (fun i =>
    let off := e_phoff header + 32 * i in
    if off + 24 <=? BLOCK_SIZE then load_segment pid argc argv (elf_pheader buf off)
    else undef "elf_load: pheader").
End elf.
