(* ===== verification/ElfProof.v ===== *)
(** Proofs on the loader: an application gets its file, zeros after it, its
    arguments and a stack in frames that nobody used, and the memory of every
    other process stays as it was. *)

From Stdlib Require Import ZArith Lia Strings.Byte.
From stdpp Require Import base numbers list strings gmap.
From S2P Require Import Prelude Bytes Memory Earth Paging Mmu MmuProof Kernel Elf.

Local Open Scope egos_scope.

(** Linear arithmetic with [/] and [mod]. *)
Ltac dm_lia := Z.div_mod_to_equations; lia.

Lemma splice_lookup {A} (dst src : list A) n i :
  (n + length src <= length dst)%nat ->
  splice dst n src !! i =
  if decide (n <= i < n + length src)%nat then src !! (i - n)%nat else dst !! i.
Proof.
  intros Hl. unfold splice. destruct (decide (i < n)%nat) as [Hi|Hi].
  - rewrite lookup_app_l, lookup_take_lt by (rewrite ?length_take; lia). by rewrite decide_False by lia.
  - rewrite lookup_app_r, length_take, Nat.min_l by (rewrite ?length_take; lia).
    case_decide as Hr.
    + by rewrite lookup_app_l by lia.
    + rewrite lookup_app_r, lookup_drop by lia. f_equal. lia.
Qed.

Section loader.
Context {P : Type} `{PagingLaws P}.
Abbreviation st := (mmu_state P).
(** What the loader reads stays where it is: [keeps] says so of the device. *)
Variable keeps : P -> Prop.
Hypothesis keeps_mem : forall m d, keeps d -> keeps (set_pmem m d).
Hypothesis keeps_read : forall f a d d',
  pg_ok d -> 0 <= f < NFRAMES -> keeps d -> paging_read f true d = Ok (a, d') -> keeps d'.

(** [n] frames are not in use. *)
Definition free_frames (s : st) (n : nat) : Prop :=
  exists l : list Z, NoDup l /\ length l = n /\ forall i, i ∈ l -> 0 <= i < NFRAMES /\ use (entry s i) = 0.

(** Page [p] of process [q] is in frame [f], which is cached at [a]. *)
Definition page_in (s : st) (q p f a : Z) : Prop :=
  0 <= f < NFRAMES /\ maps (entry s f) q p /\ frame_at (dev s) f = Some a.

(** The pages of process [q] may change, and memory from the frame cache on. *)
Record grows (q : Z) (s s' : st) : Prop := {
  gr_ok : mmu_ok s';
  gr_curr : curr_vm_pid s' = curr_vm_pid s;
  gr_full : pg_full (dev s) -> pg_full (dev s');
  gr_low : low_eq (mmem s) (mmem s');
  gr_keeps : keeps (dev s) -> keeps (dev s');
  gr_view q' p : q' <> 0 -> q' <> q -> view s' q' p = view s q' p
}.

Lemma grows_refl q s : mmu_ok s -> grows q s s.
Proof. by split. Qed.

Lemma grows_trans q s1 s2 s3 : grows q s1 s2 -> grows q s2 s3 -> grows q s1 s3.
Proof.
  intros G1 G2. split.
  - exact (gr_ok _ _ _ G2).
  - by rewrite (gr_curr _ _ _ G2), (gr_curr _ _ _ G1).
  - intros Hf. by apply (gr_full _ _ _ G2), (gr_full _ _ _ G1).
  - eapply low_eq_trans; [exact (gr_low _ _ _ G1)|exact (gr_low _ _ _ G2)].
  - intros Hk. by apply (gr_keeps _ _ _ G2), (gr_keeps _ _ _ G1).
  - intros q' p Hq Hne. by rewrite (gr_view _ _ _ G2), (gr_view _ _ _ G1).
Qed.

Lemma free_frames_exists s n : length (table s) = Z.to_nat NFRAMES -> free_frames s (S n) -> Exists (fun e => use e = 0) (table s).
Proof.
  intros Hlen (l & _ & Hl & Hu). destruct l as [|i l]; [done|].
  destruct (Hu i) as [Hi Hz]; [left|]. apply Exists_exists. exists (entry s i). split; [|done].
  unfold entry. destruct (lookup_lt_is_Some_2 (table s) (Z.to_nat i)) as [e He].
  { rewrite Hlen. unfold NFRAMES in *. lia. }
  rewrite He. simpl. by apply list_elem_of_lookup_2 in He.
Qed.

(** One frame is taken. *)
Lemma free_frames_take (s s' : st) n f :
  (forall i, 0 <= i -> i <> f -> entry s' i = entry s i) -> free_frames s (S n) -> free_frames s' n.
Proof.
  intros HE (l & Hnd & Hl & Hu).
  assert (exists l', NoDup l' /\ length l' = n /\ forall i, i ∈ l' -> i ∈ l /\ i <> f) as (l' & Hnd' & Hl' & Hin).
  { destruct (decide (f ∈ l)) as [Hf|Hf].
    - apply elem_of_Permutation in Hf as [l' HP]. rewrite HP in Hnd. apply NoDup_cons in Hnd as [Hnf Hnd].
      exists l'. split; [done|]. split; [apply Permutation_length in HP; simpl in HP; lia|].
      intros i Hi. split; [rewrite HP; by right|]. by intros ->.
    - destruct l as [|x l]; [done|]. apply NoDup_cons in Hnd as [_ Hnd]. exists l. split; [done|].
      split; [simpl in Hl; lia|]. intros i Hi. split; [by right|]. intros ->. apply Hf. by right. }
  exists l'. split; [done|]. split; [done|]. intros i Hi. destruct (Hin i Hi) as [Hil Hne].
  destruct (Hu i Hil) as [Hr Hz]. split; [done|]. by rewrite HE by (done || lia).
Qed.

Lemma free_frames_static (s s' : st) n : table s' = table s -> free_frames s n -> free_frames s' n.
Proof. intros E (l & Hnd & Hl & Hu). exists l. split_and!; [done..|]. unfold entry. by rewrite E. Qed.

Lemma mmu_alloc_dev s f a s' :
  mmu_alloc s = Ok ((f, a), s') -> exists a', paging_read f true (dev s) = Ok (a', dev s').
Proof.
  unfold mmu_alloc, bind. cbn [get]. destruct (find_frame 0 (table s)) as [i|]; [|done]. unfold on_dev.
  destruct (paging_read i true (dev s)) as [[a' d]| | |] eqn:E; [|done..]. intros [= <- <- <-]. by exists a'.
Qed.

(** [mmu_alloc] and [mmu_map]. *)
Lemma new_page_ok t s q p n :
  mmu_ok s -> free_frames s (S n) -> 0 < q -> q <> curr_vm_pid s -> (t = PAGE_TABLE -> q < 32) ->
  user_page p -> view s q p = None ->
  exists f a s', new_page t q p s = Ok (a, s') /\ grows q s s' /\ free_frames s' n /\ page_in s' q p f a /\
    (forall p', p' <> p -> view s' q p' = view s q p') /\ is_Some (view s' q p).
Proof.
  intros Hok Hfree Hq Hc Ht Hp Hv.
  destruct (alloc_frame_ok s Hok (free_frames_exists s n (mo_len _ Hok) Hfree))
    as (f & a & s1 & E1 & Hf & _ & He & HE1 & Hok1 & Hfl & Hc1 & Hlow & Hat & HV1).
  destruct (map_frame_ok s1 f q p Hok1 Hf) as (s2 & E2 & Hok2 & Hd & Hc2 & Hm & HE2 & Hv2 & HV2); try (done || lia).
  { by rewrite He. } { by rewrite He. }
  { specialize (HV1 q p ltac:(lia)). rewrite Hv in HV1. unfold view in HV1. by destruct (frame_of (table s1) q p). }
  exists f, a, s2. split.
  { unfold new_page. rewrite (bind_ok _ _ _ _ _ E1). unfold elf_map.
    assert ((match t with SOFT_TLB => soft_tlb_map q p f | PAGE_TABLE => page_table_map q p f end) s1 = Ok (tt, s2)) as E.
    { destruct t; [|exact E2]. unfold page_table_map. by rewrite (proj2 (Z.leb_gt 32 q)) by (apply Ht; done). }
    by rewrite (bind_ok _ _ _ _ _ E). }
  split; [split; [done|by rewrite Hc2| |unfold mmem in *; by rewrite Hd| |]|].
  { intros Hfu. rewrite Hd. auto. }
  { intros Hk. rewrite Hd. destruct (mmu_alloc_dev _ _ _ _ E1) as [a' Ea]. by eapply keeps_read; [apply Hok| | |]. }
  { intros q' p' Hq' Hne. rewrite HV2, HV1 by (done || congruence). done. }
  split; [eapply (free_frames_take s _ n f); [|done]|].
  { intros i Hi Hne. by rewrite HE2, HE1. }
  split; [split; [done|]; split; [done|]; by rewrite Hd|]. split; [|by rewrite Hv2].
  intros p' Hne. rewrite HV2, HV1 by (lia || congruence). done.
Qed.

Lemma view_in s q p f a v :
  mmu_ok s -> q <> 0 -> q <> curr_vm_pid s -> page_in s q p f a -> view s q p = Some v -> v = frame (dev s) f.
Proof.
  intros Hok Hq Hc (Hf & Hm & _) Hv. rewrite (view_some s q p f Hok Hq) in Hv by (done || lia).
  rewrite (proj2 (Z.eqb_neq _ _) Hc) in Hv. congruence.
Qed.

Lemma load_splice (m : mem) a off l n :
  0 <= off -> off + Z.of_nat (length l) <= n ->
  load (store m (a + off) l) a n = splice (load m a n) (Z.to_nat off) l.
Proof.
  intros Ho Hl. apply list_eq. intros i.
  rewrite splice_lookup by (rewrite length_load; lia). rewrite !load_lookup.
  destruct (Z.ltb_spec (Z.of_nat i) n) as [Hi|Hi].
  - rewrite store_lookup. destruct (decide _) as [Hr|Hr].
    + rewrite (proj2 (Z.leb_le _ _)), (proj2 (Z.ltb_lt _ _)) by lia. simpl.
      replace (Z.to_nat (a + Z.of_nat i - (a + off))) with (i - Z.to_nat off)%nat by lia.
      destruct (lookup_lt_is_Some_2 l (i - Z.to_nat off)) as [x ->]; [lia|done].
    + replace ((a + off <=? a + Z.of_nat i) && (a + Z.of_nat i <? a + off + Z.of_nat (length l))) with false; [done|].
      symmetry. apply andb_false_iff. rewrite Z.leb_gt, Z.ltb_ge. lia.
  - rewrite decide_False by lia. done.
Qed.

(** A write to the frame of a page. *)
Lemma put_page_ok s q p f a off l v :
  mmu_ok s -> q <> 0 -> q <> curr_vm_pid s -> page_in s q p f a -> view s q p = Some v ->
  0 <= off -> off + Z.of_nat (length l) <= PAGE_SIZE ->
  exists s', put_mem (a + off) l s = Ok (tt, s') /\ grows q s s' /\ table s' = table s /\
    page_in s' q p f a /\ (forall p', p' <> p -> view s' q p' = view s q p') /\
    view s' q p = Some (splice v (Z.to_nat off) l).
Proof.
  intros Hok Hq Hc Hin Hv Ho Hl. pose proof (view_in s q p f a v Hok Hq Hc Hin Hv) as ->.
  destruct Hin as (Hf & Hm & Hat).
  destruct (frame_at_load (dev s) f a (mo_dev _ Hok) Hf Hat) as [Ha Hfr].
  destruct (frame_at_store (dev s) f a off l (mo_dev _ Hok) Hf Hat Ho Hl) as (Hpg & Hfl & Hat' & Hg).
  set (d := set_pmem (store (pmem (dev s)) (a + off) l) (dev s)) in *.
  assert (mmem (set_dev d s) = store (mmem s) (a + off) l) as Hmem by apply pmem_set.
  assert (low_eq (mmem s) (mmem (set_dev d s))) as Hlow.
  { intros x Hx. rewrite Hmem, store_lookup.
    by rewrite (proj2 (Z.leb_gt _ _)) by lia. }
  assert (mmu_ok (set_dev d s)) as Hok' by (apply (mmu_ok_static s); [done|done|exact Hpg]).
  assert (forall q' p', q' <> 0 -> (q', p') <> (q, p) -> view (set_dev d s) q' p' = view s q' p') as HV.
  { intros q' p' Hq' Hne. unfold view. cbn [table curr_vm_pid set_dev].
    destruct (frame_of (table s) q' p') as [i|] eqn:Ei; [|done]. simpl. f_equal.
    apply frame_of_some in Ei as [Hi Hmi]. case_goal.
    - apply low_eq_page; [done|]. by apply (mo_page _ Hok i q').
    - apply Hg; [pose proof (maps_range s i q' p' (mo_len _ Hok) Hmi); lia|].
      intros ->. apply Hne. destruct Hm as (_ & ? & ?), Hmi as (_ & ? & ?). congruence. }
  exists (set_dev d s). split; [reflexivity|].
  split; [split; [done|done|exact Hfl|done|apply keeps_mem|]|].
  { intros q' p' Hq' Hne. apply HV; congruence. }
  split; [done|]. split; [split; [done|]; split; [done|exact Hat']|].
  split; [intros p' Hne; apply HV; congruence|].
  rewrite (view_some (set_dev d s) q p f Hok' Hq) by (done || lia). cbn [curr_vm_pid set_dev].
  rewrite (proj2 (Z.eqb_neq _ _) Hc). f_equal.
  destruct (frame_at_load d f a Hpg Hf Hat') as [_ Hfr']. rewrite Hfr, <- load_splice by done.
  cbn [dev set_dev]. rewrite Hfr'. f_equal. apply pmem_set.
Qed.
(** ** The loops of [load_app] *)

Variable translation : translation_t.
Variable reader : Z -> M st (list byte).

(** The reader gives the blocks [0, n) of a file and changes no memory and no
    frame. *)
Definition reads_file (file : Z -> block) (n : Z) : Prop := forall s b,
  mmu_ok s -> keeps (dev s) -> 0 <= b < n -> block_ok (file b) /\
  exists s', reader b s = Ok (file b, s') /\ table s' = table s /\ curr_vm_pid s' = curr_vm_pid s /\
    mmem s' = mmem s /\ pg_ok (dev s') /\ keeps (dev s') /\ (pg_full (dev s) -> pg_full (dev s')) /\
    forall g, 0 <= g < NFRAMES ->
      frame (dev s') g = frame (dev s) g /\ frame_at (dev s') g = frame_at (dev s) g.

Variable file : Z -> block.
Variable nblocks : Z.
Hypothesis reader_file : reads_file file nblocks.
Hypothesis nblocks_range : nblocks < 2 ^ 32.

Variable q : Z.
Hypothesis q_pos : 0 < q.
Hypothesis q_table : translation = PAGE_TABLE -> q < 32.

Lemma reader_ok s b :
  mmu_ok s -> keeps (dev s) -> 0 <= b < nblocks ->
  exists s', reader b s = Ok (file b, s') /\ grows q s s' /\ table s' = table s /\
    (forall p f a, page_in s q p f a -> page_in s' q p f a) /\ (forall p, view s' q p = view s q p).
Proof.
  intros Hok Hk Hb. destruct (reader_file s b Hok Hk Hb) as (_ & s' & E & Et & Ec & Em & Hpg & Hk' & Hfl & Hg).
  assert (forall q' p, view s' q' p = view s q' p) as HV.
  { intros q' p. unfold view. rewrite Et, Ec, Em. destruct (frame_of (table s) q' p) as [i|] eqn:Ei; [|done]. simpl.
    f_equal. case_goal; [done|]. apply frame_of_some in Ei as [Hi Hm].
    apply Hg. pose proof (maps_range s i q' p (mo_len _ Hok) Hm). lia. }
  exists s'. split; [done|]. split; [split; [by apply (mmu_ok_static s)|done|done|by rewrite Em|done|auto]|].
  split; [done|]. split; [|auto]. intros p f a (Hf & Hm & Hat). split; [done|]. split.
  - unfold entry. by rewrite Et.
  - by rewrite (proj2 (Hg f Hf)).
Qed.

(** The first page of the code. *)
Abbreviation code0 := (Z.shiftr APPS_ENTRY 12).

(** The bytes of page [v] are those of [g] from [lo] on, below [hi]. *)
Definition filled (g : Z -> byte) (v : list byte) (lo hi : Z) : Prop :=
  length v = Z.to_nat PAGE_SIZE /\
  forall x : nat, Z.of_nat x < PAGE_SIZE -> lo + Z.of_nat x < hi -> v !! x = Some (g (lo + Z.of_nat x)).

(** The code pages below [cs] are mapped, filled below [off], with [n] frames
    left for the other pages. *)
Record loading (g : Z -> byte) (s0 s : st) (off cs : Z) (n : nat) : Prop := {
  lo_grows : grows q s0 s;
  lo_pages p : code0 <= p < cs -> exists v, view s q p = Some v /\ filled g v ((p - code0) * PAGE_SIZE) off;
  lo_none p : ~ code0 <= p < cs -> view s q p = None;
  lo_free : free_frames s (n + Z.to_nat (code0 + 3 - cs))
}.

Lemma view_len s p v : mmu_ok s -> view s q p = Some v -> length v = Z.to_nat PAGE_SIZE.
Proof.
  intros Hok. unfold view. destruct (frame_of (table s) q p) as [i|] eqn:Ei; [|done].
  intros [= <-]. case_goal; [apply length_load|]. apply frame_len. exact (mo_dev _ Hok).
Qed.

(** One more code page. *)
Lemma loading_page g s0 s off cs n :
  loading g s0 s off cs n -> q <> curr_vm_pid s0 -> code0 <= cs < code0 + 3 -> off <= (cs - code0) * PAGE_SIZE ->
  exists f a s', new_page translation q cs s = Ok (a, s') /\ loading g s0 s' off (cs + 1) n /\
    page_in s' q cs f a.
Proof.
  intros L Hc Hcs Ho. pose proof (gr_ok _ _ _ (lo_grows _ _ _ _ _ _ L)) as Hok.
  destruct (new_page_ok translation s q cs (n + Z.to_nat (code0 + 3 - (cs + 1))))
    as (f & a & s' & E & G & Hfr & Hin & HV & [v Hv]); try done.
  - eapply eq_rect; [exact (lo_free _ _ _ _ _ _ L)|]. f_equal. lia.
  - by rewrite (gr_curr _ _ _ (lo_grows _ _ _ _ _ _ L)).
  - change code0 with 0x8005 in *. split; unfold PAGE_SIZE, FRAME_CACHE_START; lia.
  - apply (lo_none _ _ _ _ _ _ L). lia.
  - exists f, a, s'. split; [done|]. split; [|done]. split.
    + eapply grows_trans; [exact (lo_grows _ _ _ _ _ _ L)|done].
    + intros p Hp. destruct (decide (p = cs)) as [->|Hne].
      * exists v. split; [done|]. split; [by apply (view_len s' cs); [apply G|]|]. intros x Hx Hlt. lia.
      * rewrite HV by done. apply (lo_pages _ _ _ _ _ _ L). lia.
    + intros p Hp. rewrite HV by (intros ->; lia). apply (lo_none _ _ _ _ _ _ L). lia.
    + done.
Qed.

(** Bytes put in the last page. *)
Lemma loading_put g s0 s off off' cs n f a l :
  loading g s0 s off cs n -> q <> curr_vm_pid s0 -> code0 < cs <= code0 + 3 -> page_in s q (cs - 1) f a ->
  (cs - 1 - code0) * PAGE_SIZE <= off -> off' = off + Z.of_nat (length l) -> off' <= (cs - code0) * PAGE_SIZE ->
  (forall i : nat, (i < length l)%nat -> l !! i = Some (g (off + Z.of_nat i))) ->
  exists s', put_mem (a + (off - (cs - 1 - code0) * PAGE_SIZE)) l s = Ok (tt, s') /\
    loading g s0 s' off' cs n /\ page_in s' q (cs - 1) f a.
Proof.
  intros L Hc Hcs Hin Ho -> Ho' Hl. pose proof (lo_grows _ _ _ _ _ _ L) as G.
  destruct (lo_pages _ _ _ _ _ _ L (cs - 1)) as (v & Hv & Hlen & Hfill); [lia|].
  set (k := off - (cs - 1 - code0) * PAGE_SIZE) in *.
  destruct (put_page_ok s q (cs - 1) f a k l v) as (s' & E & G' & Et & Hin' & HV & Hv'); try done; try lia.
  { apply G. } { rewrite (gr_curr _ _ _ G). done. }
  exists s'. split; [done|]. split; [|done]. split.
  - by eapply grows_trans.
  - intros p Hp. destruct (decide (p = cs - 1)) as [->|Hne].
    + eexists. split; [exact Hv'|]. split; [rewrite length_splice; [done|lia]|].
      intros x Hx Hlt. rewrite splice_lookup by lia. case_decide as Hr.
      * rewrite Hl by lia. do 2 f_equal. lia.
      * apply Hfill; [done|lia].
    + rewrite HV by done. destruct (lo_pages _ _ _ _ _ _ L p Hp) as (w & Hw & Hwl & Hwf).
      exists w. split; [done|]. split; [done|]. intros x Hx Hlt. apply Hwf; [done|]. unfold PAGE_SIZE in *. lia.
  - intros p Hp. rewrite HV by (intros ->; lia). by apply (lo_none _ _ _ _ _ _ L).
  - eapply free_frames_static; [exact Et|]. exact (lo_free _ _ _ _ _ _ L).
Qed.

(** ** The file *)

(** Byte [i] of the segment at block [b0]. *)
Definition fbyte (b0 i : Z) : byte := default x00 (file (b0 + i / BLOCK_SIZE) !! Z.to_nat (i mod BLOCK_SIZE)).

(** The number of pages that [off] bytes reach. *)
Definition npages (off : Z) : Z := (off + PAGE_SIZE - 1) / PAGE_SIZE.

Lemma fbyte_block b0 off i :
  off mod BLOCK_SIZE = 0 -> (i < Z.to_nat BLOCK_SIZE)%nat -> block_ok (file (b0 + off / BLOCK_SIZE)) ->
  file (b0 + off / BLOCK_SIZE) !! i = Some (fbyte b0 (off + Z.of_nat i)).
Proof.
  intros Ho Hi Hb. unfold fbyte. unfold block_ok in Hb. unfold BLOCK_SIZE in *.
  assert ((off + Z.of_nat i) / 512 = off / 512) as -> by dm_lia.
  assert (Z.to_nat ((off + Z.of_nat i) mod 512) = i) as -> by dm_lia.
  by destruct (lookup_lt_is_Some_2 (file (b0 + off / 512)) i) as [x ->]; [lia|].
Qed.

(** The page of the block at [off]: a new one at the start of a page. *)
Lemma block_page s0 s n b0 off base :
  loading (fbyte b0) s0 s off (code0 + npages off) n -> q <> curr_vm_pid s0 ->
  0 <= off -> off mod BLOCK_SIZE = 0 -> off + BLOCK_SIZE <= APPS_SIZE ->
  (0 < off -> exists f, page_in s q (code0 + npages off - 1) f base) ->
  let cs := code0 + npages (off + BLOCK_SIZE) in
  exists f a s1, (if off mod PAGE_SIZE =? 0 then
     base <- new_page translation q (code0 + npages off) ;; ret (code0 + npages off + 1, base)
     else ret (code0 + npages off, base)) s = Ok ((cs, a), s1) /\
     loading (fbyte b0) s0 s1 off cs n /\ page_in s1 q (cs - 1) f a.
Proof.
  intros L Hc Ho Hom Hlt Hbase cs.
  assert (code0 < cs <= code0 + 3) as Hcs by (unfold cs, npages, PAGE_SIZE, BLOCK_SIZE, APPS_SIZE in *; dm_lia).
  assert (off <= npages off * PAGE_SIZE) as Hnp by (unfold npages, PAGE_SIZE in *; dm_lia).
  destruct (Z.eqb_spec (off mod PAGE_SIZE) 0) as [Hz|Hz].
  - assert (cs = code0 + npages off + 1) as -> by (unfold cs, npages, PAGE_SIZE, BLOCK_SIZE in *; dm_lia).
    destruct (loading_page (fbyte b0) s0 s off (code0 + npages off) n L Hc) as (f & a & s1 & E1 & L1 & Hin1); [lia|lia|].
    exists f, a, s1. rewrite (bind_ok _ _ _ _ _ E1). split; [done|]. split; [done|].
    by replace (code0 + npages off + 1 - 1) with (code0 + npages off) by lia.
  - assert (cs = code0 + npages off) as Ecs by (unfold cs, npages, PAGE_SIZE, BLOCK_SIZE in *; dm_lia).
    destruct Hbase as [f Hin]; [destruct (decide (off = 0)) as [->|]; [done|lia]|].
    exists f, base, s. rewrite Ecs. done.
Qed.

(** The next block goes to the last page. *)
Lemma block_copy s0 s n b0 off cs f a :
  loading (fbyte b0) s0 s off cs n -> q <> curr_vm_pid s0 -> keeps (dev s0) ->
  0 <= b0 + off / BLOCK_SIZE < nblocks -> off mod BLOCK_SIZE = 0 -> page_in s q (cs - 1) f a ->
  code0 < cs <= code0 + 3 -> (cs - 1 - code0) * PAGE_SIZE <= off -> off + BLOCK_SIZE <= (cs - code0) * PAGE_SIZE ->
  exists s1 s2, reader (b0 + off / BLOCK_SIZE) s = Ok (file (b0 + off / BLOCK_SIZE), s1) /\
    put_mem (a + (off - (cs - 1 - code0) * PAGE_SIZE)) (file (b0 + off / BLOCK_SIZE)) s1 = Ok (tt, s2) /\
    loading (fbyte b0) s0 s2 (off + BLOCK_SIZE) cs n /\ page_in s2 q (cs - 1) f a.
Proof.
  intros L Hc Hk Hb Hom Hin Hcs Hp1 Hp3. pose proof (lo_grows _ _ _ _ _ _ L) as G.
  destruct (reader_ok s (b0 + off / BLOCK_SIZE)) as (s1 & E1 & G1 & Et1 & Hin1 & HV1);
    [apply G|by apply (gr_keeps _ _ _ G)|done|].
  assert (loading (fbyte b0) s0 s1 off cs n) as L1.
  { split; [eapply grows_trans; [exact G|done]|intros p Hp; rewrite HV1; by apply (lo_pages _ _ _ _ _ _ L)
      |intros p Hp; rewrite HV1; by apply (lo_none _ _ _ _ _ _ L)|].
    eapply free_frames_static; [exact Et1|]. exact (lo_free _ _ _ _ _ _ L). }
  destruct (reader_file s (b0 + off / BLOCK_SIZE)) as (Hbk & _); [apply G|by apply (gr_keeps _ _ _ G)|done|].
  destruct (loading_put (fbyte b0) s0 s1 off (off + BLOCK_SIZE) cs n f a (file (b0 + off / BLOCK_SIZE)))
    as (s2 & E2 & L2 & Hin2); try done.
  - by apply Hin1.
  - by rewrite Hbk.
  - intros i Hi. apply fbyte_block; [done| |done]. by rewrite <- Hbk.
  - by exists s1, s2.
Qed.

Lemma app_blocks_ok s0 n b0 filesz m : forall s off base,
  loading (fbyte b0) s0 s off (code0 + npages off) n -> q <> curr_vm_pid s0 -> keeps (dev s0) ->
  0 <= off -> off mod BLOCK_SIZE = 0 -> filesz <= APPS_SIZE ->
  (0 < off -> exists f, page_in s q (code0 + npages off - 1) f base) ->
  filesz <= off + BLOCK_SIZE * Z.of_nat m ->
  ((0 < m)%nat -> off + BLOCK_SIZE * (Z.of_nat m - 1) < filesz) ->
  0 <= b0 -> b0 + off / BLOCK_SIZE + Z.of_nat m <= nblocks ->
  exists base' s', let off' := off + BLOCK_SIZE * Z.of_nat m in
    app_blocks translation reader m q off filesz (b0 + off / BLOCK_SIZE) (code0 + npages off) base s =
      Ok ((code0 + npages off', base'), s') /\
    loading (fbyte b0) s0 s' off' (code0 + npages off') n /\
    (0 < off' -> exists f, page_in s' q (code0 + npages off' - 1) f base').
Proof.
  induction m as [|m IH]; intros s off base L Hc Hk Ho Hom Hsz Hbase Hend Hm Hb0 Hb; cbv zeta.
  - replace (off + BLOCK_SIZE * Z.of_nat 0) with off in * by lia. exists base, s. split; [|done].
    cbn [app_blocks]. by rewrite (proj2 (Z.ltb_ge off filesz)) by lia.
  - cbn [app_blocks]. rewrite (proj2 (Z.ltb_lt off filesz)) by (unfold BLOCK_SIZE in *; lia).
    assert (Hlt : off + BLOCK_SIZE <= APPS_SIZE).
    { unfold BLOCK_SIZE, APPS_SIZE in *. specialize (Hm ltac:(lia)). dm_lia. }
    set (cs := code0 + npages (off + BLOCK_SIZE)).
    assert (code0 < cs <= code0 + 3) as Hcs by (unfold cs, npages, PAGE_SIZE, BLOCK_SIZE, APPS_SIZE in *; dm_lia).
    assert (Hpos : (cs - 1 - code0) * PAGE_SIZE <= off /\ off - (cs - 1 - code0) * PAGE_SIZE = off mod PAGE_SIZE /\
      off + BLOCK_SIZE <= (cs - code0) * PAGE_SIZE).
    { unfold cs, npages, PAGE_SIZE, BLOCK_SIZE, APPS_SIZE in *. dm_lia. }
    destruct Hpos as (Hp1 & Hp2 & Hp3).
    destruct (block_page s0 s n b0 off base L Hc Ho Hom Hlt Hbase) as (f & a & s1 & E1 & L1 & Hin1). fold cs in E1, L1, Hin1.
    rewrite (bind_ok _ _ _ _ _ E1). cbv iota beta.
    destruct (block_copy s0 s1 n b0 off cs f a L1 Hc Hk) as (s2 & s3 & E2 & E3 & L3 & Hin3);
      [unfold BLOCK_SIZE in *; dm_lia|done..|].
    rewrite (bind_ok _ _ _ _ _ E2). rewrite Hp2 in E3. rewrite (bind_ok _ _ _ _ _ E3).
    rewrite u32_small by (unfold is_u32, APPS_SIZE, BLOCK_SIZE in *; lia).
    rewrite u32_small by (unfold is_u32, BLOCK_SIZE in *; dm_lia).
    assert (b0 + off / BLOCK_SIZE + 1 = b0 + (off + BLOCK_SIZE) / BLOCK_SIZE) as Eb.
    { unfold BLOCK_SIZE. dm_lia. }
    rewrite Eb.
    assert (BLOCK_SIZE * Z.of_nat (S m) = BLOCK_SIZE + BLOCK_SIZE * Z.of_nat m) as Em by (unfold BLOCK_SIZE; lia).
    destruct (IH s3 (off + BLOCK_SIZE) a L3 Hc Hk) as (base' & s' & E' & L' & Hin');
      [unfold BLOCK_SIZE; lia|unfold BLOCK_SIZE in *; dm_lia|done|by exists f|lia
      |intros; unfold BLOCK_SIZE in *; lia|done|lia|].
    replace (off + BLOCK_SIZE + BLOCK_SIZE * Z.of_nat m) with (off + BLOCK_SIZE * Z.of_nat (S m)) in * by lia.
    exists base', s'. done.
Qed.

(** Byte [i] of the segment in memory: the file, then zeros. *)
Definition seg_byte (b0 filesz i : Z) : byte := if i <? filesz then fbyte b0 i else x00.

Lemma loading_weaken g g' s0 s off off' cs n :
  loading g s0 s off cs n -> off' <= off -> (forall i, i < off' -> g' i = g i) -> loading g' s0 s off' cs n.
Proof.
  intros [L1 L2 L3 L4] Ho Hg. split; [done| |done|done].
  intros p (v & Hv & Hl & Hf)%L2. exists v. split; [done|]. split; [done|]. intros x Hx Hlt.
  rewrite Hg by done. apply Hf; [done|lia].
Qed.

(** The rest of the last page of the file is cleared. *)
Lemma zero_tail_ok s0 s n b0 filesz base :
  loading (seg_byte b0 filesz) s0 s filesz (code0 + npages filesz) n -> q <> curr_vm_pid s0 ->
  0 <= filesz <= APPS_SIZE -> (0 < filesz -> exists f, page_in s q (code0 + npages filesz - 1) f base) ->
  exists s', (if negb (filesz mod PAGE_SIZE =? 0)
              then put_mem (base + filesz mod PAGE_SIZE) (replicate (Z.to_nat (PAGE_SIZE - filesz mod PAGE_SIZE)) x00)
              else ret tt) s = Ok (tt, s') /\
    loading (seg_byte b0 filesz) s0 s' (npages filesz * PAGE_SIZE) (code0 + npages filesz) n.
Proof.
  intros L Hc Hsz Hbase. destruct (Z.eqb_spec (filesz mod PAGE_SIZE) 0) as [Hz|Hz]; cbn [negb].
  - exists s. split; [done|]. replace (npages filesz * PAGE_SIZE) with filesz; [done|].
    unfold npages, PAGE_SIZE in *. dm_lia.
  - destruct Hbase as [f Hin]; [unfold PAGE_SIZE in *; dm_lia|].
    set (l := replicate (Z.to_nat (PAGE_SIZE - filesz mod PAGE_SIZE)) x00).
    assert (Z.of_nat (length l) = PAGE_SIZE - filesz mod PAGE_SIZE) as Hl.
    { unfold l. rewrite length_replicate. unfold PAGE_SIZE. dm_lia. }
    destruct (loading_put (seg_byte b0 filesz) s0 s filesz (npages filesz * PAGE_SIZE) (code0 + npages filesz) n f base l)
      as (s' & E & L' & _); try done.
    { unfold npages, PAGE_SIZE, APPS_SIZE in *. dm_lia. }
    { unfold npages, PAGE_SIZE, APPS_SIZE in *. dm_lia. }
    { rewrite Hl. unfold npages, PAGE_SIZE in *. dm_lia. }
    { lia. }
    { intros i Hi. unfold seg_byte. rewrite (proj2 (Z.ltb_ge _ _)) by lia.
      apply lookup_replicate_2. unfold l in Hi. by rewrite length_replicate in Hi. }
    exists s'. split; [|done]. rewrite <- E. f_equal. unfold npages, PAGE_SIZE in *. dm_lia.
Qed.

Lemma zero_pages_ok s0 n b0 filesz fuel : forall s cs,
  loading (seg_byte b0 filesz) s0 s ((cs - code0) * PAGE_SIZE) cs n -> q <> curr_vm_pid s0 ->
  code0 <= cs <= code0 + 3 -> filesz <= (cs - code0) * PAGE_SIZE -> code0 + 3 - cs <= Z.of_nat fuel ->
  exists s', zero_pages translation fuel q cs s = Ok (tt, s') /\
    loading (seg_byte b0 filesz) s0 s' APPS_SIZE (code0 + 3) n.
Proof.
  induction fuel as [|fuel IH]; intros s cs L Hc Hcs Hsz Hf; cbn [zero_pages];
    change (Z.shiftr (APPS_ENTRY + APPS_SIZE) 12) with (code0 + 3);
    destruct (Z.ltb_spec cs (code0 + 3)) as [Hlt|Hge]; try lia.
  1,3: assert (cs = code0 + 3) as -> by lia; by exists s.
  destruct (loading_page _ s0 s _ cs n L Hc) as (f & a & s1 & E1 & L1 & Hin1); [lia|lia|].
  rewrite (bind_ok _ _ _ _ _ E1).
  assert (length zero_page = Z.to_nat PAGE_SIZE) as Hz by apply length_replicate.
  destruct (loading_put _ s0 s1 _ ((cs + 1 - code0) * PAGE_SIZE) (cs + 1) n f a zero_page L1 Hc) as (s2 & E2 & L2 & _).
  { lia. } { by replace (cs + 1 - 1) with cs by lia. } { lia. } { rewrite Hz. unfold PAGE_SIZE. lia. } { lia. }
  { intros i Hi. unfold seg_byte. rewrite (proj2 (Z.ltb_ge _ _)) by lia. apply lookup_replicate_2.
    by rewrite Hz in Hi. }
  replace (a + ((cs - code0) * PAGE_SIZE - (cs + 1 - 1 - code0) * PAGE_SIZE)) with a in E2 by lia.
  rewrite (bind_ok _ _ _ _ _ E2). apply (IH s2 (cs + 1)); [done|done|lia|unfold PAGE_SIZE in *; lia|lia].
Qed.

(** The pages of a loaded segment. *)
Lemma loading_done b0 filesz s0 s n k :
  loading (seg_byte b0 filesz) s0 s APPS_SIZE (code0 + 3) n -> 0 <= k < 3 ->
  view s q (code0 + k) = Some (seg_byte b0 filesz <$> seqZ (k * PAGE_SIZE) PAGE_SIZE).
Proof.
  intros L Hk. destruct (lo_pages _ _ _ _ _ _ L (code0 + k)) as (v & -> & Hl & Hf); [lia|]. f_equal.
  apply list_eq. intros x. destruct (decide (x < Z.to_nat PAGE_SIZE)%nat) as [Hx|Hx].
  - rewrite Hf by (unfold APPS_SIZE, PAGE_SIZE in *; lia). rewrite list_lookup_fmap, lookup_seqZ_lt by (unfold PAGE_SIZE in *; lia).
    simpl. do 2 f_equal. lia.
  - rewrite (lookup_ge_None_2 v) by lia. symmetry. apply lookup_ge_None_2. rewrite length_fmap, length_seqZ. lia.
Qed.

(** ** The arguments *)

(** What [put_args] leaves in the page of the arguments. *)
Definition args_page (v : list byte) (argc : Z) (argv : option (list byte)) : Prop :=
  field v 0 4 = argc /\
  (forall i, 0 <= i < argc -> field v (4 + 4 * i) 4 = APPS_ARG + 4 + 4 * CMD_NARGS + i * CMD_ARG_LEN) /\
  match argv with
  | Some args =>
      take (Z.to_nat (argc * CMD_ARG_LEN)) (drop (Z.to_nat (4 + 4 * CMD_NARGS)) v) =
      take (Z.to_nat (argc * CMD_ARG_LEN)) args
  | None => True
  end.

(** A state of a page that is being written: what [put_page_ok] keeps. *)
Definition writing (s0 s : st) (p f a : Z) (v : list byte) : Prop :=
  grows q s0 s /\ table s = table s0 /\ page_in s q p f a /\
  (forall p', p' <> p -> view s q p' = view s0 q p') /\ view s q p = Some v.

Lemma writing_put s0 s p f a v off l :
  writing s0 s p f a v -> q <> curr_vm_pid s0 -> 0 <= off -> off + Z.of_nat (length l) <= PAGE_SIZE ->
  exists s', put_mem (a + off) l s = Ok (tt, s') /\ writing s0 s' p f a (splice v (Z.to_nat off) l).
Proof.
  intros (G & Et & Hin & HV & Hv) Hc Ho Hl.
  destruct (put_page_ok s q p f a off l v) as (s' & E & G' & Et' & Hin' & HV' & Hv'); try done; try lia.
  { apply G. } { by rewrite (gr_curr _ _ _ G). }
  exists s'. split; [done|]. split; [by eapply grows_trans|]. split; [congruence|]. split; [done|].
  split; [|done]. intros p' Hne. rewrite HV', HV by done. done.
Qed.

Lemma writing_len s0 s p f a v : writing s0 s p f a v -> length v = Z.to_nat PAGE_SIZE.
Proof. intros (G & _ & _ & _ & Hv). apply (view_len s p); [apply G|done]. Qed.

Lemma field_hit v off z :
  0 <= off -> off + 4 <= Z.of_nat (length v) -> field (splice v (Z.to_nat off) (le_put 4 z)) off 4 = u32 z.
Proof.
  intros Ho Hl. unfold field. change (Z.to_nat 4) with 4%nat. rewrite <- (length_le_put 4 z) at 1.
  rewrite splice_hit by (rewrite length_le_put; lia). apply le_get_put.
Qed.

Lemma field_miss v off l off' :
  0 <= off -> 0 <= off' -> off + Z.of_nat (length l) <= Z.of_nat (length v) ->
  off' + 4 <= off \/ off + Z.of_nat (length l) <= off' -> field (splice v (Z.to_nat off) l) off' 4 = field v off' 4.
Proof. intros Ho Ho' Hl Hd. unfold field. rewrite splice_miss; [done|lia|lia]. Qed.

Lemma put_args_ok s0 p f a v argc argv :
  writing s0 s0 p f a v -> q <> curr_vm_pid s0 -> 0 <= argc <= CMD_NARGS ->
  (forall args, argv = Some args -> Z.of_nat (length args) = CMD_NARGS * CMD_ARG_LEN) ->
  exists s' v', put_args a argc argv s0 = Ok (tt, s') /\ writing s0 s' p f a v' /\ args_page v' argc argv.
Proof.
  intros W Hc Hargc Hargs. unfold put_args, CMD_NARGS, CMD_ARG_LEN in *.
  rewrite !(u32_small argc) by (unfold is_u32; lia).
  destruct (writing_put s0 s0 p f a v 0 (le_put 4 argc) W Hc) as (s1 & E1 & W1);
    [lia|rewrite length_le_put; unfold PAGE_SIZE; lia|].
  rewrite Z.add_0_r in E1. rewrite (bind_ok _ _ _ _ _ E1).
  set (v1 := splice v (Z.to_nat 0) (le_put 4 argc)) in *.
  pose proof (writing_len _ _ _ _ _ _ W) as Hlen. pose proof (writing_len _ _ _ _ _ _ W1) as Hlen1.
  assert (field v1 0 4 = argc) as Hf1.
  { unfold v1. rewrite field_hit by (rewrite ?Hlen; unfold PAGE_SIZE; lia). apply u32_small. unfold is_u32. lia. }
  assert (exists s2 v2, (match argv with
    | Some args => put_mem (a + 4 + 4 * 16) (take (Z.to_nat (argc * 32)) args)
    | None => ret tt end) s1 = Ok (tt, s2) /\ writing s0 s2 p f a v2 /\ field v2 0 4 = argc /\
    match argv with Some args => take (Z.to_nat (argc * 32)) (drop 68 v2) = take (Z.to_nat (argc * 32)) args
    | None => True end) as (s2 & v2 & E2 & W2 & Hf2 & Ha2).
  { destruct argv as [args|]; [|by exists s1, v1]. specialize (Hargs args eq_refl).
    assert (length (take (Z.to_nat (argc * 32)) args) = Z.to_nat (argc * 32)) as Hlt by (rewrite length_take; lia).
    destruct (writing_put s0 s1 p f a v1 68 (take (Z.to_nat (argc * 32)) args) W1 Hc) as (s2 & E2 & W2);
      [lia|rewrite Hlt; unfold PAGE_SIZE; lia|].
    eexists s2, _. replace (a + 4 + 4 * 16) with (a + 68) by lia. split; [exact E2|]. split; [exact W2|].
    split; [rewrite field_miss by (rewrite ?Hlt, ?Hlen1; unfold PAGE_SIZE; lia); done|].
    rewrite <- Hlt at 1. change 68%nat with (Z.to_nat 68).
    apply splice_hit. rewrite Hlt, Hlen1. unfold PAGE_SIZE. lia. }
  rewrite (bind_ok _ _ _ _ _ E2).
  destruct (for_n_inv (fun i s => exists v', writing s0 s p f a v' /\ field v' 0 4 = argc /\
      (forall j, 0 <= j < i -> field v' (4 + 4 * j) 4 = APPS_ARG + 4 + 4 * 16 + j * 32) /\
      take (Z.to_nat (argc * 32)) (drop 68 v') = take (Z.to_nat (argc * 32)) (drop 68 v2))
    (Z.to_nat argc) 0 (fun i => put_mem (a + 4 + 4 * i) (le_put 4 (APPS_ARG + 4 + 4 * 16 + i * 32))) s2)
    as (s3 & E3 & v3 & W3 & Hf3 & Hp3 & Ha3).
  - intros i s Hi (v' & W' & Hf' & Hp' & Ha'). pose proof (writing_len _ _ _ _ _ _ W') as Hlen'.
    destruct (writing_put s0 s p f a v' (4 + 4 * i) (le_put 4 (APPS_ARG + 4 + 4 * 16 + i * 32)) W' Hc) as (s' & E' & W'');
      [lia|rewrite length_le_put; unfold PAGE_SIZE; lia|].
    exists s'. replace (a + 4 + 4 * i) with (a + (4 + 4 * i)) by lia. split; [done|].
    eexists. split; [exact W''|].
    split; [by rewrite field_miss by (rewrite ?length_le_put, ?Hlen'; unfold PAGE_SIZE; lia)|]. split.
    + intros j Hj. destruct (decide (j = i)) as [->|Hne].
      * rewrite field_hit by (rewrite ?Hlen'; unfold PAGE_SIZE; lia). apply u32_small. unfold is_u32, APPS_ARG. lia.
      * rewrite field_miss by (rewrite ?length_le_put, ?Hlen'; unfold PAGE_SIZE; lia). apply Hp'. lia.
    + rewrite splice_miss; [done|rewrite length_le_put, Hlen'; unfold PAGE_SIZE; lia|rewrite length_le_put; lia].
  - exists v2. split; [done|]. split; [done|]. split; [lia|done].
  - exists s3, v3. split; [done|]. split; [done|]. split; [done|]. split; [intros i Hi; apply Hp3; lia|].
    destruct argv as [args|]; [|done]. unfold CMD_NARGS, CMD_ARG_LEN.
    change (Z.to_nat (4 + 4 * 16)) with 68%nat. by rewrite Ha3.
Qed.

(** ** [load_app] and [elf_load] *)

Lemma file_blocks_range filesz :
  0 <= filesz -> filesz <= BLOCK_SIZE * Z.of_nat (file_blocks filesz) /\
  ((0 < file_blocks filesz)%nat -> BLOCK_SIZE * (Z.of_nat (file_blocks filesz) - 1) < filesz) /\
  npages (BLOCK_SIZE * Z.of_nat (file_blocks filesz)) = npages filesz.
Proof.
  intros Hf. unfold file_blocks, npages, BLOCK_SIZE, PAGE_SIZE.
  assert (0 <= (filesz + 512 - 1) / 512) by (apply Z.div_pos; lia). rewrite Z2Nat.id by done. dm_lia.
Qed.

Record app_loaded (s s' : st) (b0 filesz argc : Z) (argv : option (list byte)) : Prop := {
  ldd_grows : grows q s s';
  ldd_code k : 0 <= k < 3 -> view s' q (code0 + k) = Some (seg_byte b0 filesz <$> seqZ (k * PAGE_SIZE) PAGE_SIZE);
  ldd_args : exists v, view s' q (APPS_ARG / PAGE_SIZE) = Some v /\ args_page v argc argv;
  ldd_stack : is_Some (view s' q (APPS_ARG / PAGE_SIZE + 1));
  ldd_rest p : ~ (code0 <= p < code0 + 3 \/ APPS_ARG / PAGE_SIZE <= p < APPS_ARG / PAGE_SIZE + 2) -> view s' q p = None
}.

Lemma load_app_ok s argc argv ph n :
  mmu_ok s -> keeps (dev s) -> q <> curr_vm_pid s -> free_frames s (5 + n) -> (forall p, view s q p = None) ->
  0 <= p_filesz ph <= APPS_SIZE -> 0 <= p_offset ph ->
  p_offset ph / BLOCK_SIZE + Z.of_nat (file_blocks (p_filesz ph)) <= nblocks ->
  0 <= argc <= CMD_NARGS ->
  (forall args, argv = Some args -> Z.of_nat (length args) = CMD_NARGS * CMD_ARG_LEN) ->
  exists s', load_app translation reader q argc argv ph s = Ok (tt, s') /\
    app_loaded s s' (p_offset ph / BLOCK_SIZE) (p_filesz ph) argc argv /\ free_frames s' n.
Proof.
  intros Hok Hk Hc Hfree Hnone Hsz Ho Hb Hargc Hargs. unfold load_app.
  set (b0 := p_offset ph / BLOCK_SIZE) in *. set (fs := p_filesz ph) in *.
  assert (0 <= b0) as Hb0 by (apply Z.div_pos; unfold BLOCK_SIZE; lia).
  destruct (file_blocks_range fs) as (Hfb1 & Hfb2 & Hfb3); [lia|].
  assert (loading (fbyte b0) s s 0 (code0 + npages 0) (2 + n)) as L0.
  { split; [by apply grows_refl|intros p Hp; exfalso; change (npages 0) with 0 in Hp; lia|done|].
    eapply eq_rect; [exact Hfree|]. change (Z.to_nat (code0 + 3 - (code0 + npages 0))) with 3%nat. lia. }
  destruct (app_blocks_ok s (2 + n) b0 fs (file_blocks fs) s 0 0 L0 Hc Hk) as (base & s1 & E1 & L1 & Hin1);
    [lia|done|lia|lia|lia|lia|done|rewrite Z.add_0_r; done|].
  rewrite Z.add_0_l in *. rewrite Z.add_0_r in E1. change (code0 + npages 0) with code0 in E1.
  rewrite (bind_ok _ _ _ _ _ E1). cbv iota beta zeta. rewrite Hfb3 in *.
  assert (loading (seg_byte b0 fs) s s1 fs (code0 + npages fs) (2 + n)) as L1'.
  { eapply loading_weaken; [exact L1|lia|]. intros i Hi. unfold seg_byte. by rewrite (proj2 (Z.ltb_lt _ _)) by lia. }
  destruct (zero_tail_ok s s1 (2 + n) b0 fs base L1' Hc Hsz) as (s2 & E2 & L2).
  { intros Hpos. apply Hin1. lia. }
  rewrite (bind_ok _ _ _ _ _ E2).
  destruct (zero_pages_ok s (2 + n) b0 fs (Z.to_nat (APPS_SIZE / PAGE_SIZE)) s2 (code0 + npages fs)) as (s3 & E3 & L3).
  { by replace (code0 + npages fs - code0) with (npages fs) by lia. } { done. }
  { unfold npages, PAGE_SIZE, APPS_SIZE in *. dm_lia. } { unfold npages, PAGE_SIZE in *. dm_lia. }
  { change (Z.of_nat (Z.to_nat (APPS_SIZE / PAGE_SIZE))) with 3. unfold npages, PAGE_SIZE. dm_lia. }
  rewrite (bind_ok _ _ _ _ _ E3). pose proof (lo_grows _ _ _ _ _ _ L3) as G3.
  change (Z.shiftr APPS_ARG 12) with 0x80000. change (APPS_ARG / PAGE_SIZE) with 0x80000.
  pose proof (lo_free _ _ _ _ _ _ L3) as Hfree3. rewrite Z.sub_diag, Nat.add_0_r in Hfree3.
  assert (q <> curr_vm_pid s3) as Hc3 by by rewrite (gr_curr _ _ _ G3).
  destruct (new_page_ok translation s3 q 0x80000 (1 + n)) as (f & a & s4 & E4 & G4 & Hfree4 & Hin4 & HV4 & [v Hv4]);
    [apply G3|exact Hfree3|done|done|done|split; vm_compute; discriminate| |].
  { apply (lo_none _ _ _ _ _ _ L3). change code0 with 0x8005. lia. }
  rewrite (bind_ok _ _ _ _ _ E4).
  destruct (put_args_ok s4 0x80000 f a v argc argv) as (s5 & v5 & E5 & (G5 & Et5 & _ & HV5 & Hv5) & Hargs5); try done.
  { split; [apply grows_refl, G4|done]. } { by rewrite (gr_curr _ _ _ G4). }
  rewrite (bind_ok _ _ _ _ _ E5).
  destruct (new_page_ok translation s5 q (0x80000 + 1) n) as (f' & a' & s6 & E6 & G6 & Hfree6 & _ & HV6 & Hv6);
    [apply G5|by eapply free_frames_static|done|by rewrite (gr_curr _ _ _ G5), (gr_curr _ _ _ G4)|done
    |split; vm_compute; discriminate| |].
  { rewrite HV5, HV4 by done. apply (lo_none _ _ _ _ _ _ L3). change code0 with 0x8005. lia. }
  rewrite (bind_ok _ _ _ _ _ E6). exists s6. split; [done|].
  assert (forall p, p <> 0x80000 -> p <> 0x80001 -> view s6 q p = view s3 q p) as HV.
  { intros p Hp1 Hp2. rewrite HV6, HV5, HV4 by (done || lia). done. }
  split; [|exact Hfree6]. split.
  - eapply grows_trans; [exact G3|]. eapply grows_trans; [exact G4|]. by eapply grows_trans.
  - intros k Hkr. rewrite HV by (change code0 with 0x8005; lia). by eapply loading_done.
  - exists v5. split; [|done]. by rewrite HV6.
  - done.
  - intros p Hp. change (APPS_ARG / PAGE_SIZE) with 0x80000 in Hp. rewrite HV by lia.
    apply (lo_none _ _ _ _ _ _ L3). lia.
Qed.

(** The program headers of a file: header [j] is the only one with contents. *)
Record one_segment (buf : list byte) (j : Z) : Prop := {
  os_index : 0 <= j < e_phnum (elf_header buf);
  os_inside : e_phoff (elf_header buf) + 32 * (e_phnum (elf_header buf) - 1) + 24 <= BLOCK_SIZE;
  os_empty i : 0 <= i < e_phnum (elf_header buf) -> i <> j ->
    p_memsz (elf_pheader buf (e_phoff (elf_header buf) + 32 * i)) = 0;
  os_memsz : p_memsz (elf_pheader buf (e_phoff (elf_header buf) + 32 * j)) <> 0
}.
Definition segment (buf : list byte) (j : Z) : elf32_program_header :=
  elf_pheader buf (e_phoff (elf_header buf) + 32 * j).

(** [elf_load] reads the headers and loads that segment. *)
Lemma elf_load_one s s1 j argc argv (Q : st -> Prop) :
  one_segment (file 0) j -> reader 0 s = Ok (file 0, s1) ->
  (exists s', load_segment translation reader q argc argv (segment (file 0) j) s1 = Ok (tt, s') /\ Q s') ->
  exists s', elf_load translation reader q argc argv s = Ok (tt, s') /\ Q s'.
Proof.
  intros [Hj Hin Hem Hmem] E (s2 & E2 & HQ). unfold elf_load. rewrite (bind_ok _ _ _ _ _ E). cbv zeta.
  set (h := elf_header (file 0)) in *.
  destruct (for_n_inv (fun i s => if decide (i <= j) then s = s1 else Q s) (Z.to_nat (e_phnum h)) 0
    (fun i => if e_phoff h + 32 * i + 24 <=? BLOCK_SIZE
              then load_segment translation reader q argc argv (elf_pheader (file 0) (e_phoff h + 32 * i))
              else undef "elf_load: pheader") s1) as (s3 & E3 & HI).
  - intros i s' Hi HI. rewrite (proj2 (Z.leb_le _ _)) by lia. destruct (decide (i = j)) as [->|Hne].
    + rewrite decide_True in HI by lia. subst s'. exists s2. split; [done|]. by rewrite decide_False by lia.
    + exists s'. unfold load_segment. rewrite Hem by lia. split; [done|].
      destruct (decide (i <= j)), (decide (i + 1 <= j)); (done || lia).
  - by rewrite decide_True by lia.
  - exists s3. split; [done|]. by rewrite decide_False in HI by lia.
Qed.

Lemma elf_load_app_ok s argc argv j n :
  let ph := segment (file 0) j in
  mmu_ok s -> keeps (dev s) -> q <> curr_vm_pid s -> free_frames s (5 + n) -> (forall p, view s q p = None) ->
  0 < nblocks -> one_segment (file 0) j -> p_vaddr ph = APPS_ENTRY ->
  0 <= p_filesz ph <= APPS_SIZE -> 0 <= p_offset ph ->
  p_offset ph / BLOCK_SIZE + Z.of_nat (file_blocks (p_filesz ph)) <= nblocks ->
  0 <= argc <= CMD_NARGS ->
  (forall args, argv = Some args -> Z.of_nat (length args) = CMD_NARGS * CMD_ARG_LEN) ->
  exists s', elf_load translation reader q argc argv s = Ok (tt, s') /\
    app_loaded s s' (p_offset ph / BLOCK_SIZE) (p_filesz ph) argc argv /\ free_frames s' n.
Proof.
  intros ph Hok Hk Hc Hfree Hnone Hnb Hone Hva Hsz Ho Hb Hargc Hargs.
  destruct (reader_ok s 0 Hok Hk) as (s1 & E1 & G1 & Et & _ & HV); [lia|].
  eapply elf_load_one; [exact Hone|exact E1|]. fold ph. unfold load_segment.
  rewrite (proj2 (Z.eqb_neq (p_memsz ph) 0) (os_memsz _ _ Hone)), Hva.
  change (APPS_ENTRY =? GRASS_ENTRY) with false. change (APPS_ENTRY =? APPS_ENTRY) with true. cbv iota.
  destruct (load_app_ok s1 argc argv ph n) as (s' & E' & [Lg Lc La Ls Lr] & Hfr); try done.
  { apply G1. } { by apply (gr_keeps _ _ _ G1). } { by rewrite (gr_curr _ _ _ G1). } { by eapply free_frames_static. } { intros p. by rewrite HV. }
  exists s'. split; [done|]. split; [|done]. split; try done. by eapply grows_trans.
Qed.

(** ** The grass layer *)

(** The address spaces stay as they are, and what the loader reads. *)
Definition still (s s' : st) : Prop :=
  table s' = table s /\ curr_vm_pid s' = curr_vm_pid s /\ (keeps (dev s) -> keeps (dev s')).

Lemma still_trans s1 s2 s3 : still s1 s2 -> still s2 s3 -> still s1 s3.
Proof. intros (A1 & A2 & A3) (B1 & B2 & B3). split; [congruence|]. split; [congruence|]. tauto. Qed.

(** A write below the frame cache: the frames stay. *)
Lemma put_low_ok s a l :
  mmu_ok s -> a + Z.of_nat (length l) <= FRAME_CACHE_START ->
  exists s', put_mem a l s = Ok (tt, s') /\ mmu_ok s' /\ still s s' /\
    mmem s' = store (mmem s) a l.
Proof.
  intros Hok Hl. exists (set_mmem (store (mmem s) a l) s). split; [done|].
  destruct (frame_low (store (mmem s) a l) (dev s) 0 (mo_dev _ Hok)) as (Hpg & _); [by split|..].
  { intros x Hx. rewrite store_lookup. replace (x <? a + Z.of_nat (length l)) with false; [by rewrite andb_false_r|].
    symmetry. apply Z.ltb_ge. lia. }
  split; [by apply (mmu_ok_static s)|]. split; [split; [done|]; split; [done|apply keeps_mem]|]. apply pmem_set.
Qed.

(** The first [off] bytes of the grass layer are in memory, the rest as in [m0]. *)
Definition grass_loaded (g : Z -> byte) (m0 m : mem) (off : Z) : Prop :=
  forall a, load_byte m a =
    if (GRASS_ENTRY <=? a) && (a <? GRASS_ENTRY + off) then g (a - GRASS_ENTRY) else load_byte m0 a.

Lemma grass_put g m0 s off l :
  mmu_ok s -> grass_loaded g m0 (mmem s) off -> 0 <= off -> off + Z.of_nat (length l) <= GRASS_SIZE ->
  (forall i : nat, (i < length l)%nat -> l !! i = Some (g (off + Z.of_nat i))) ->
  exists s', put_mem (GRASS_ENTRY + off) l s = Ok (tt, s') /\ mmu_ok s' /\ still s s' /\
    grass_loaded g m0 (mmem s') (off + Z.of_nat (length l)).
Proof.
  intros Hok HG Ho Hl Hg. destruct (put_low_ok s (GRASS_ENTRY + off) l Hok) as (s' & E & Hok' & Hk & Hm).
  { unfold GRASS_SIZE, GRASS_ENTRY, FRAME_CACHE_START in *. lia. }
  exists s'. split; [done|]. split; [done|]. split; [done|]. intros a. rewrite Hm, store_lookup, HG.
  destruct (Z.leb_spec (GRASS_ENTRY + off) a), (Z.ltb_spec a (GRASS_ENTRY + off + Z.of_nat (length l))),
    (Z.leb_spec GRASS_ENTRY a), (Z.ltb_spec a (GRASS_ENTRY + off)),
    (Z.ltb_spec a (GRASS_ENTRY + (off + Z.of_nat (length l)))); simpl; try lia; try done.
  rewrite Hg by lia. simpl. f_equal. lia.
Qed.

Lemma grass_blocks_ok m0 b0 filesz m : forall s off,
  mmu_ok s -> keeps (dev s) -> grass_loaded (fbyte b0) m0 (mmem s) off -> 0 <= off -> off mod BLOCK_SIZE = 0 ->
  filesz <= GRASS_SIZE -> filesz <= off + BLOCK_SIZE * Z.of_nat m ->
  ((0 < m)%nat -> off + BLOCK_SIZE * (Z.of_nat m - 1) < filesz) ->
  0 <= b0 -> b0 + off / BLOCK_SIZE + Z.of_nat m <= nblocks ->
  exists s', grass_blocks reader m off filesz (b0 + off / BLOCK_SIZE) s = Ok (tt, s') /\ mmu_ok s' /\ still s s' /\
    grass_loaded (fbyte b0) m0 (mmem s') (off + BLOCK_SIZE * Z.of_nat m).
Proof.
  induction m as [|m IH]; intros s off Hok Hk HG Ho Hom Hsz Hend Hm Hb0 Hb.
  - exists s. cbn [grass_blocks]. rewrite (proj2 (Z.ltb_ge off filesz)) by lia.
    split; [done|]. split; [done|]. split; [done|]. by replace (off + BLOCK_SIZE * Z.of_nat 0) with off by lia.
  - cbn [grass_blocks]. rewrite (proj2 (Z.ltb_lt off filesz)) by (unfold BLOCK_SIZE in *; lia).
    assert (Hlt : off + BLOCK_SIZE <= GRASS_SIZE).
    { unfold BLOCK_SIZE, GRASS_SIZE in *. specialize (Hm ltac:(lia)). dm_lia. }
    assert (0 <= b0 + off / BLOCK_SIZE < nblocks) as Hbr by (unfold BLOCK_SIZE in *; dm_lia).
    destruct (reader_file s _ Hok Hk Hbr) as (Hbk & s1 & E1 & Et & Ec & Em & Hpg & Hk1 & _).
    rewrite (bind_ok _ _ _ _ _ E1).
    destruct (grass_put (fbyte b0) m0 s1 off (file (b0 + off / BLOCK_SIZE))) as (s2 & E2 & Hok2 & Hk2 & HG2).
    { by apply (mmu_ok_static s). } { by rewrite Em. } { done. } { by rewrite Hbk. }
    { intros i Hi. apply fbyte_block; [done| |done]. by rewrite <- Hbk. }
    rewrite (bind_ok _ _ _ _ _ E2). rewrite Hbk in HG2. change (Z.of_nat (Z.to_nat BLOCK_SIZE)) with BLOCK_SIZE in HG2.
    rewrite u32_small by (unfold is_u32, GRASS_SIZE, BLOCK_SIZE in *; lia).
    rewrite u32_small by (unfold is_u32; lia).
    assert (b0 + off / BLOCK_SIZE + 1 = b0 + (off + BLOCK_SIZE) / BLOCK_SIZE) as -> by (unfold BLOCK_SIZE; dm_lia).
    replace (off + BLOCK_SIZE * Z.of_nat (S m)) with (off + BLOCK_SIZE + BLOCK_SIZE * Z.of_nat m) in * by (unfold BLOCK_SIZE; lia).
    assert (still s s2) as HS by (apply (still_trans s s1); [by split|done]).
    destruct (IH s2 (off + BLOCK_SIZE)) as (s' & E' & Hok' & HS' & HG'); [done|by apply HS|done|unfold BLOCK_SIZE; lia|unfold BLOCK_SIZE in *; dm_lia|done|done
      |intros; unfold BLOCK_SIZE in *; lia|done|unfold BLOCK_SIZE in *; dm_lia|].
    exists s'. split; [exact E'|]. split; [done|]. split; [by apply (still_trans s s2)|exact HG'].
Qed.

Lemma load_grass_ok s ph :
  mmu_ok s -> keeps (dev s) -> 0 <= p_filesz ph <= GRASS_SIZE -> 0 <= p_offset ph ->
  p_offset ph / BLOCK_SIZE + Z.of_nat (file_blocks (p_filesz ph)) <= nblocks ->
  exists s', load_grass reader ph s = Ok (tt, s') /\ mmu_ok s' /\ still s s' /\
    grass_loaded (seg_byte (p_offset ph / BLOCK_SIZE) (p_filesz ph)) (mmem s) (mmem s') GRASS_SIZE.
Proof.
  intros Hok Hk Hsz Ho Hb. unfold load_grass. set (b0 := p_offset ph / BLOCK_SIZE) in *. set (fs := p_filesz ph) in *.
  destruct (file_blocks_range fs) as (Hfb1 & Hfb2 & _); [lia|].
  assert (0 <= b0) as Hb0 by (apply Z.div_pos; unfold BLOCK_SIZE; lia).
  destruct (grass_blocks_ok (mmem s) b0 fs (file_blocks fs) s 0 Hok Hk) as (s1 & E1 & Hok1 & HS1 & HG1);
    [|lia|done|lia|lia|lia|done|rewrite Z.add_0_r; done|].
  { intros a. destruct (Z.leb_spec GRASS_ENTRY a), (Z.ltb_spec a (GRASS_ENTRY + 0)); simpl; done || lia. }
  rewrite Z.add_0_r in E1. rewrite (bind_ok _ _ _ _ _ E1), (proj2 (Z.ltb_ge GRASS_SIZE fs)) by lia.
  set (l := replicate (Z.to_nat (GRASS_SIZE - fs)) x00).
  assert (Z.of_nat (length l) = GRASS_SIZE - fs) as Hl by (unfold l; rewrite length_replicate; lia).
  destruct (put_low_ok s1 (GRASS_ENTRY + fs) l Hok1) as (s' & E' & Hok' & HS2 & Hm).
  { rewrite Hl. unfold GRASS_SIZE, GRASS_ENTRY, FRAME_CACHE_START in *. lia. }
  assert (forall k, default x00 (l !! k) = x00) as Hz.
  { intros k. unfold l. destruct (replicate _ _ !! k) as [x|] eqn:Ex; [|done]. by apply lookup_replicate_1 in Ex as [-> _]. }
  exists s'. split; [done|]. split; [done|]. split; [exact (still_trans _ _ _ HS1 HS2)|].
  intros a. rewrite Hm, store_lookup, HG1, Hl. unfold seg_byte.
  assert (BLOCK_SIZE * Z.of_nat (file_blocks fs) <= GRASS_SIZE) as Hend.
  { unfold file_blocks, BLOCK_SIZE, GRASS_SIZE in *. rewrite Z2Nat.id by (apply Z.div_pos; lia). dm_lia. }
  destruct (Z.leb_spec (GRASS_ENTRY + fs) a), (Z.ltb_spec a (GRASS_ENTRY + fs + (GRASS_SIZE - fs))),
    (Z.leb_spec GRASS_ENTRY a), (Z.ltb_spec a (GRASS_ENTRY + (0 + BLOCK_SIZE * Z.of_nat (file_blocks fs)))),
    (Z.ltb_spec a (GRASS_ENTRY + GRASS_SIZE)), (Z.ltb_spec (a - GRASS_ENTRY) fs); simpl; try lia; first [done|apply Hz].
Qed.
End loader.
