(* ===== verification/Boot.v ===== *)
(** The executables on disk and the start of the two layers: the readers of
    earth/earth.c, grass/grass.c and apps/system/sys_proc.c, the loading part of
    the two [main] functions, and what the loader promises to the kernel. *)

From Stdlib Require Import ZArith Lia Strings.Byte.
From stdpp Require Import base numbers list strings gmap.
From S2P Require Import Prelude Bytes Memory Earth Paging Mmu MmuProof Kernel KernelSpec KernelReach Bus Tty EarthState Elf ElfProof.

Local Open Scope egos_scope.

Section readers.
Context {D R : Type} `{Disk D} (rand : R -> Z * R).
Abbreviation P := (paging_state D R).
#[local] Instance paging_ops : Paging P := dev_paging rand.

(** [earth->disk_read(base + block_no, 1, dst)]. *)
Definition exec_read (base block_no : Z) : M (mmu_state P) (list byte) :=
  '(_, l) <- on_dev (on_disk (disk_read (u32 (base + block_no)) 1)) ;;
  ret l.

(** The three readers. *)
Definition grass_read : Z -> M (mmu_state P) (list byte) := exec_read GRASS_EXEC_START.
Definition sys_proc_read : Z -> M (mmu_state P) (list byte) := exec_read SYS_PROC_EXEC_START.
Definition server_read (sys_proc_base : Z) : Z -> M (mmu_state P) (list byte) := exec_read sys_proc_base.

Context {B : Type} `{Bus B}.
Abbreviation est := (earth_state P B).

(** [main] of earth/earth.c, from [earth_init] to [mret]. *)
Definition earth_main (fuel : nat) (disk_init : M est unit) : M est unit :=
  earth_init fuel disk_init ;;;
  e <- get ;;
  on_mmu (elf_load (translation e) grass_read 0 0 None) ;;;
  enter_grass.

(** [main] of grass/grass.c: the program of the first process, then
    [grass_start] (KernelReach.v). *)
Definition grass_main : M (kernel est) unit :=
  s <- get ;;
  on_earth (on_mmu (elf_load (translation (earth s)) sys_proc_read GPID_PROCESS 0 None)) ;;;
  grass_start.

(** [sys_spawn] of apps/system/sys_proc.c. *)
Definition sys_spawn (base : Z) : M (kernel est) unit :=
  q <- proc_alloc ;;
  s <- get ;;
  on_earth (on_mmu (elf_load (translation (earth s)) (server_read base) q 0 None)) ;;;
  proc_set_ready q.
End readers.

(** ** The readers on a disk *)

Section laws.
Context {D R : Type} `{DiskLaws D} (rand : R -> Z * R).
Context (rand_nonneg : forall r, 0 <= fst (rand r)) (disk_room : NFRAMES * NBLOCKS_PER_PAGE <= disk_size D).
Context (p0 : platform_t).
Abbreviation P := (paging_state D R).
#[local] Instance paging_ops' : Paging P := dev_paging rand.
#[local] Instance paging_laws : @PagingLaws P (dev_paging rand) := dev_paging_laws rand rand_nonneg disk_room p0.

(** The disk of [d] holds the blocks of [file] from [base] on, outside the
    blocks of the paging device. *)
Definition on_disk_at (base n : Z) (file : Z -> block) (d : P) : Prop :=
  NFRAMES * NBLOCKS_PER_PAGE <= base /\ base + n <= disk_size D /\ base + n < 2 ^ 32 /\
  forall b, 0 <= b < n -> disk_blocks (pg_disk d) !! (base + b) = Some (file b).

Lemma on_disk_at_mem base n file m d : on_disk_at base n file d -> on_disk_at base n file (set_pmem m d).
Proof. done. Qed.

(** The cache writes to the blocks of the paging device only. *)
Lemma on_disk_at_read base n file f a d d' :
  pg_ok d -> 0 <= f < NFRAMES -> on_disk_at base n file d -> paging_read f true d = Ok (a, d') ->
  on_disk_at base n file d'.
Proof.
  intros [Hp Hok] Hf (Hb & Hs & Hu & HB) E.
  assert (forall b, NFRAMES * NBLOCKS_PER_PAGE <= b -> disk_blocks (pg_disk d') !! b = disk_blocks (pg_disk d) !! b) as HD.
  { cbn in E. unfold dev_paging_read, bind at 1 in E. cbn [get] in E. unfold dev_ok in Hok.
    destruct (Paging.platform d) eqn:HP; [|injection E as _ <-; done..].
    destruct (scan_slots f 0 (-1) (cache_slots d)) as [i|r] eqn:Es; [injection E as _ <-; done|].
    destruct (Z.eqb_spec r (-1)) as [->|Hr]; cbv iota in E; [|injection E as _ <-; done].
    assert (dev_full d) as Hfull.
    { intros _. destruct (find_slot f 0 (cache_slots d)) as [j|] eqn:Ef.
      - rewrite (scan_slots_find _ _ _ _ _ Ef) in Es. done.
      - destruct (scan_slots_free f 0 (-1) (cache_slots d) Ef) as (r & Er & Hr); [lia|by left|].
        rewrite Es in Er. injection Er as <-. destruct Hr as [(_ & _ & Hr)|[? _]]; [done|lia]. }
    destruct (eviction_spec rand rand_nonneg disk_room d HP (Hok eq_refl) Hfull) as (i & s1 & E1 & _ & _ & _ & _ & HD & _).
    rewrite E1 in E. injection E as _ <-. exact HD. }
  split; [done|]. split; [done|]. split; [done|]. intros b Hbr. rewrite HD by lia. by apply HB.
Qed.

(** A reader keeps whatever depends on the contents of the disk only. *)
Lemma exec_read_keeps (keeps : P -> Prop) base n file :
  (forall d, keeps d -> on_disk_at base n file d) ->
  (forall d d', disk_blocks (pg_disk d') = disk_blocks (pg_disk d) -> keeps d -> keeps d') ->
  reads_file keeps (exec_read base) file n.
Proof.
  intros Hat HK s b Hok Hk Hbr. destruct (Hat _ Hk) as (Hb & Hs & Hu & HB). pose proof (HB b Hbr) as Hblk.
  split; [by eapply disk_block_ok|].
  assert (0 <= NFRAMES * NBLOCKS_PER_PAGE) as Hpos by done.
  destruct (disk_read_spec (pg_disk (dev s)) (base + b) 1) as (d' & E & HD); [lia..|].
  assert (blocks_at (disk_blocks (pg_disk (dev s))) (base + b) 1 = file b) as Hfb.
  { unfold blocks_at. rewrite seqZ_cons by lia. simpl. rewrite Hblk. apply app_nil_r. }
  rewrite Hfb in E.
  eexists. split.
  { unfold exec_read. rewrite u32_small by (unfold is_u32; lia). unfold on_dev, on_disk, bind. rewrite E. reflexivity. }
  split; [done|]. split; [done|]. split; [done|]. pose proof (mo_dev _ Hok) as [Hp Hdo].
  split; [by split|]. split; [by eapply HK; [|exact Hk]|].
  split; [done|]. intros g Hg. cbn. unfold dev_frame, dev_frame_at, arty_frame. cbn. rewrite HD. done.
Qed.

Lemma exec_read_file base n file : reads_file (on_disk_at base n file) (exec_read base) file n.
Proof. apply exec_read_keeps; [done|]. intros d d' HD (? & ? & ? & HB). split_and!; try done. by rewrite HD. Qed.

(** The grass layer: its segment of the executable is in memory, and nothing else
    changes. *)
Lemma load_grass_layer (keeps : P -> Prop) n file ph (t : translation_t) (s : mmu_state P) j :
  (forall d, keeps d -> on_disk_at GRASS_EXEC_START n file d) ->
  (forall d d', disk_blocks (pg_disk d') = disk_blocks (pg_disk d) -> keeps d -> keeps d') ->
  mmu_ok s -> keeps (dev s) -> 0 < n ->
  one_segment (file 0) j -> segment (file 0) j = ph -> p_vaddr ph = GRASS_ENTRY ->
  0 <= p_filesz ph <= GRASS_SIZE -> 0 <= p_offset ph ->
  p_offset ph / BLOCK_SIZE + Z.of_nat (file_blocks (p_filesz ph)) <= n ->
  exists s', elf_load t grass_read 0 0 None s = Ok (tt, s') /\ mmu_ok s' /\ still keeps s s' /\
    forall a, load_byte (mmem s') a =
      if (GRASS_ENTRY <=? a) && (a <? GRASS_ENTRY + GRASS_SIZE)
      then seg_byte file (p_offset ph / BLOCK_SIZE) (p_filesz ph) (a - GRASS_ENTRY) else load_byte (mmem s) a.
Proof.
  intros Hat HK Hok Hk Hn Hone Hph Hva Hsz Ho Hb.
  assert (n < 2 ^ 32) as Hn32.
  { destruct (Hat _ Hk) as (Hd1 & _ & Hd2 & _). assert (0 <= NFRAMES * NBLOCKS_PER_PAGE) by done. lia. }
  pose proof (exec_read_keeps keeps GRASS_EXEC_START n file Hat HK) as Hread.
  destruct (Hread s 0 Hok Hk) as (_ & s1 & E1 & Et & Ec & Em & Hpg & Hk1 & _); [lia|].
  eapply (elf_load_one (P := P)); [exact Hone|exact E1|]. rewrite Hph. unfold load_segment.
  pose proof (os_memsz _ _ Hone) as Hms. change (p_memsz (segment (file 0) j) <> 0) in Hms. rewrite Hph in Hms.
  rewrite (proj2 (Z.eqb_neq _ _) Hms), Hva, Z.eqb_refl.
  assert (forall m d, keeps d -> keeps (set_pmem m d)) as Hmem by (intros m d; by apply HK).
  destruct (load_grass_ok keeps Hmem
    grass_read file n Hread Hn32 s1 ph) as (s' & E' & Hok' & HS & HG); try done.
  { by apply (mmu_ok_static s). }
  exists s'. split; [done|]. split; [done|]. split; [apply (still_trans _ s s1); [by split|done]|].
  intros a. rewrite HG. by rewrite Em.
Qed.
End laws.

(** ** The loader and the kernel *)

(** An executable on disk: its only segment is [ph], for applications, and the
    blocks [0, n) hold all of it. *)
Record app_file (file : Z -> block) (n : Z) (ph : elf32_program_header) : Prop := {
  af_segment : exists j, one_segment (file 0) j /\ segment (file 0) j = ph;
  af_vaddr : p_vaddr ph = APPS_ENTRY;
  af_filesz : 0 <= p_filesz ph <= APPS_SIZE;
  af_offset : 0 <= p_offset ph;
  af_blocks : p_offset ph / BLOCK_SIZE + Z.of_nat (file_blocks (p_filesz ph)) <= n
}.

Section kernel.
Context {D R B : Type} `{DiskLaws D} (rand : R -> Z * R) `{ClintLaws B}.
Context (rand_nonneg : forall r, 0 <= fst (rand r)) (disk_room : NFRAMES * NBLOCKS_PER_PAGE <= disk_size D).
(** On QEMU the paging device keeps every frame in memory. *)
Context (p0 : platform_t) (on_qemu : p0 <> ARTY).
Context (uart_laws : forall p : platform_t, UartLaws B (UART0_BASE p)).
Abbreviation P := (paging_state D R).
#[local] Instance qemu_paging : Paging P := dev_paging rand.
#[local] Instance qemu_laws : PagingLaws P := dev_paging_laws rand rand_nonneg disk_room p0.
Lemma qemu_no_evict : pg_evicts (P := P) = false.
Proof. by apply bool_decide_eq_false. Qed.
Abbreviation est := (earth_state P B).
#[local] Instance qemu_earth : EarthLaws est := earth_laws uart_laws qemu_no_evict.

Section load.
Variable n : Z.
Variable file : Z -> block.
Variable ph : elf32_program_header.
Hypothesis file_app : app_file file n ph.
Hypothesis file_size : 0 < n < 2 ^ 32.
(** The reader of the executable, and what it needs of the paging device. *)
Variable keeps : P -> Prop.
Hypothesis keeps_mem : forall m d, keeps d -> keeps (set_pmem m d).
Hypothesis keeps_read : forall f a d d',
  pg_ok d -> 0 <= f < NFRAMES -> keeps d -> paging_read f true d = Ok (a, d') -> keeps d'.
Variable reader : Z -> M (mmu_state P) (list byte).
Hypothesis reader_file : reads_file keeps reader file n.

(** The conditions on the machine under which the program can be loaded. *)
Record can_load_from (e : est) (q : Z) : Prop := {
  clf_ok : est_ok e;
  clf_keeps : keeps (dev (mmu e));
  clf_free : exists k, free_frames (mmu e) (5 + k);
  clf_pid : 0 < q /\ q <> curr_vm_pid (mmu e) /\ (translation e = PAGE_TABLE -> q < 32);
  clf_none p : view (mmu e) q p = None
}.

(** The program and its arguments are in the address space of [q]. *)
Definition has_app_from (e e' : est) (q argc : Z) (argv : option (list byte)) : Prop :=
  app_loaded keeps file q (mmu e) (mmu e') (p_offset ph / BLOCK_SIZE) (p_filesz ph) argc argv.

Lemma load_from e q argc argv :
  can_load_from e q -> 0 <= argc <= CMD_NARGS ->
  (forall args, argv = Some args -> Z.of_nat (length args) = CMD_NARGS * CMD_ARG_LEN) ->
  exists m', on_mmu (elf_load (translation e) reader q argc argv) e = Ok (tt, set_mmu m' e) /\
    has_app_from e (set_mmu m' e) q argc argv /\ loads q e (set_mmu m' e) /\
    mapped_range (set_mmu m' e) q SYSCALL_ARG SYSCALL_SIZE.
Proof.
  intros [Hok Hd [k Hfree] (Hq & Hc & Ht) Hn] Hargc Hargs. destruct file_app as [[j [Hone Hph]] Hva Hsz Ho Hb].
  rewrite <- Hph in Hva, Hsz, Ho, Hb.
  destruct (elf_load_app_ok keeps keeps_mem keeps_read (translation e) reader file n
    reader_file ltac:(lia) q Hq Ht (mmu e) argc argv j k) as (m' & E & L & _); try done; try apply Hok; try lia.
  rewrite Hph in L. exists m'. split; [by apply (lift_ok mmu set_mmu)|]. split; [done|].
  pose proof (ldd_grows _ _ _ _ _ _ _ _ _ L) as G.
  assert (forall a, est_mapped (set_mmu m' e) q a ->
    0x8005 <= a / PAGE_SIZE < 0x8008 \/ 0x80000 <= a / PAGE_SIZE < 0x80002) as Hpages.
  { intros a [v Hv]. cbn in Hv.
    destruct (decide (0x8005 <= a / PAGE_SIZE < 0x8008 \/ 0x80000 <= a / PAGE_SIZE < 0x80002)) as [?|Hno]; [done|].
    rewrite (ldd_rest _ _ _ _ _ _ _ _ _ L) in Hv; [done|].
    change (Z.shiftr APPS_ENTRY 12) with 0x8005. change (APPS_ARG / PAGE_SIZE) with 0x80000. lia. }
  split; [split|].
  - split; [apply G|apply (gr_full _ _ _ _ G), Hok|apply Hok].
  - exact (gr_curr _ _ _ _ G).
  - intros q' a Hq' Hne. apply (est_same e (set_mmu m' e) q'). intros p. by apply (gr_view _ _ _ _ G).
  - intros q' a Hq' Hne _. apply (est_same e (set_mmu m' e) q'). intros p. by apply (gr_view _ _ _ _ G).
  - intros a Ha%Hpages. unfold kernel_area, regs_area, SAVED_REGISTER_ADDR, SAVED_REGISTER_SIZE, SAVED_REGISTER_NUM,
      GRASS_STACK_TOP, PAGE_SIZE in *. dm_lia.
  - intros x Hx. assert (x / PAGE_SIZE = 0x80000) as Hp.
    { unfold SYSCALL_ARG, SYSCALL_SIZE, SYS_MSG_SIZE, SYSCALL_MSG_LEN, PAGE_SIZE in *. dm_lia. }
    cbn. unfold est_mapped. rewrite Hp. destruct (ldd_args _ _ _ _ _ _ _ _ _ L) as (v & Hv & _).
    change (APPS_ARG / PAGE_SIZE) with 0x80000 in Hv. by exists v.
Qed.

(** It takes five frames. *)
Lemma load_frees e q argc argv m' k :
  can_load_from e q -> 0 <= argc <= CMD_NARGS ->
  (forall args, argv = Some args -> Z.of_nat (length args) = CMD_NARGS * CMD_ARG_LEN) ->
  on_mmu (elf_load (translation e) reader q argc argv) e = Ok (tt, set_mmu m' e) ->
  free_frames (mmu e) (5 + k) -> free_frames m' k.
Proof.
  intros [Hok Hd _ (Hq & Hc & Ht) Hn] Hargc Hargs E' Hfree. destruct file_app as [[j [Hone Hph]] Hva Hsz Ho Hb].
  rewrite <- Hph in Hva, Hsz, Ho, Hb.
  destruct (elf_load_app_ok keeps keeps_mem keeps_read (translation e) reader file n
    reader_file ltac:(lia) q Hq Ht (mmu e) argc argv j k) as (m1 & E & _ & Hf); try done; try apply Hok; try lia.
  unfold on_mmu, lift in E'. rewrite E in E'. injection E' as Em. by rewrite <- Em.
Qed.

(** A new process with the program: [proc_alloc], [elf_load] and
    [proc_set_ready], as in [sys_spawn] and [app_spawn]. *)
Lemma spawn_ok (s : kernel est) i argc argv :
  let q := proc_nprocs s + 1 in
  k_run s -> q < 2 ^ 31 -> find_unused 0 (proc_set s) = Some i -> can_load_from (earth s) q ->
  0 <= argc <= CMD_NARGS ->
  (forall args, argv = Some args -> Z.of_nat (length args) = CMD_NARGS * CMD_ARG_LEN) ->
  exists s1 m' s3, proc_alloc s = Ok (q, s1) /\ earth s1 = earth s /\
    on_mmu (elf_load (translation (earth s1)) reader q argc argv) (earth s1) = Ok (tt, set_mmu m' (earth s1)) /\
    proc_set_ready q (set_earth (set_mmu m' (earth s1)) s1) = Ok (tt, s3) /\
    rtc step s s3 /\ k_run s3 /\ proc s3 i = set_status PROC_READY (new_proc q (proc s i)) /\
    (forall j, 0 <= j < MAX_NPROCESS -> j <> i -> proc s3 j = proc s j) /\
    earth s3 = set_mmu m' (earth s1) /\ has_app_from (earth s) (earth s3) q argc argv.
Proof.
  intros q Hrun Hq Hf Hcl Hargc Hargs. pose proof (kr_ok _ Hrun) as Hok.
  destruct (proc_alloc_spec s i Hok Hq Hf) as (Hi & Hst & s1 & E1 & Hok1 & Ee1 & Ei1 & En1 & Hp1). fold q in E1, En1, Hp1.
  pose proof (alloc_run s s1 q Hrun Hq E1) as Hrun1. rewrite <- Ee1 in Hcl.
  destruct (load_from (earth s1) q argc argv Hcl Hargc Hargs) as (m' & E2 & Happ & Hl & Hm).
  assert (proc s1 i = new_proc q (proc s i)) as Hpi by (rewrite Hp1, Z.eqb_refl by done; done).
  set (e' := set_mmu m' (earth s1)) in *. set (s2 := set_earth e' s1).
  assert (pid (proc s2 i) = q) as Hpid by (change (pid (proc s1 i) = q); by rewrite Hpi).
  assert (status (proc s2 i) = PROC_LOADING) as Hst2 by (change (status (proc s1 i) = PROC_LOADING); by rewrite Hpi).
  assert (step s1 s2) as St2.
  { apply (step_load s1 i e' Hi Hst2). change (proc s1 i) with (proc s2 i). rewrite Hpid. exact Hl. }
  pose proof (step_k_run _ _ St2 Hrun1) as Hrun2.
  destruct (proc_set_status_spec s2 q PROC_READY (ko_len _ (kr_ok _ Hrun2))) as (s3 & E3 & Ee3 & _ & _ & _ & Hp3).
  assert (step s2 s3) as St3 by (apply (step_ready s2 s3 i Hi Hst2); rewrite Hpid; done).
  exists s1, m', s3. split; [done|]. split; [done|]. split; [done|]. split; [done|].
  split; [|split; [by apply (step_k_run _ _ St3)|split; [|split; [|split]]]].
  - eapply rtc_l; [eapply step_alloc; [exact Hq|exact E1]|]. eapply rtc_l; [exact St2|]. by apply rtc_once.
  - rewrite Hp3, Hpid, Z.eqb_refl by done. change (proc s2 i) with (proc s1 i). by rewrite Hpi.
  - intros j Hj Hne. rewrite Hp3 by done. change (proc s2 j) with (proc s1 j). rewrite Hp1 by done.
    rewrite (proj2 (Z.eqb_neq j i)) by done. rewrite (proj2 (Z.eqb_neq _ q)); [done|].
    pose proof (ko_pid _ Hok j Hj). unfold q. lia.
  - by rewrite Ee3.
  - rewrite Ee3, <- Ee1. exact Happ.
Qed.
End load.

(** ** Executables outside the file system *)

Variable base n : Z.
Variable file : Z -> block.
Variable ph : elf32_program_header.
Hypothesis file_app : app_file file n ph.
Hypothesis file_size : 0 < n.

Definition can_load : est -> Z -> Prop := can_load_from (on_disk_at base n file).
Definition has_app : est -> est -> Z -> Z -> option (list byte) -> Prop := has_app_from file ph (on_disk_at base n file).

Lemma on_disk_size (d : P) : on_disk_at base n file d -> n < 2 ^ 32.
Proof. intros (Hd1 & _ & Hd2 & _). assert (0 <= NFRAMES * NBLOCKS_PER_PAGE) by done. lia. Qed.

Lemma load_exec e q argc argv :
  can_load e q -> 0 <= argc <= CMD_NARGS ->
  (forall args, argv = Some args -> Z.of_nat (length args) = CMD_NARGS * CMD_ARG_LEN) ->
  exists m', on_mmu (elf_load (translation e) (exec_read base) q argc argv) e = Ok (tt, set_mmu m' e) /\
    has_app e (set_mmu m' e) q argc argv /\ loads q e (set_mmu m' e) /\
    mapped_range (set_mmu m' e) q SYSCALL_ARG SYSCALL_SIZE.
Proof.
  intros Hcl. pose proof (on_disk_size _ (clf_keeps _ _ _ Hcl)) as Hn.
  apply (load_from n file ph file_app (conj file_size Hn) (on_disk_at base n file) (on_disk_at_mem rand base n file)
    (on_disk_at_read rand rand_nonneg disk_room p0 base n file) (exec_read base)
    (exec_read_file rand rand_nonneg disk_room p0 base n file) e q argc argv Hcl).
Qed.

Lemma spawn_exec (s : kernel est) i :
  let q := proc_nprocs s + 1 in
  k_run s -> q < 2 ^ 31 -> find_unused 0 (proc_set s) = Some i -> can_load (earth s) q ->
  exists s', sys_spawn rand base s = Ok (tt, s') /\ rtc step s s' /\ k_run s' /\
    proc s' i = set_status PROC_READY (new_proc q (proc s i)) /\
    (forall j, 0 <= j < MAX_NPROCESS -> j <> i -> proc s' j = proc s j) /\
    has_app (earth s) (earth s') q 0 None.
Proof.
  intros q Hrun Hq Hf Hcl. pose proof (on_disk_size _ (clf_keeps _ _ _ Hcl)) as Hn.
  destruct (spawn_ok n file ph file_app (conj file_size Hn) (on_disk_at base n file) (on_disk_at_mem rand base n file)
    (on_disk_at_read rand rand_nonneg disk_room p0 base n file) (exec_read base)
    (exec_read_file rand rand_nonneg disk_room p0 base n file) s i 0 None Hrun Hq Hf Hcl)
    as (s1 & m' & s3 & E1 & Ee & E2 & E3 & Hs & Hr & Hi & Hj & He & Happ); [done|done|].
  exists s3. split; [|done]. unfold sys_spawn. rewrite (bind_ok _ _ _ _ _ E1). unfold bind at 1. cbn [get].
  rewrite (bind_ok _ _ _ _ _ (on_earth_ok _ s1 _ _ E2)). exact E3.
Qed.
End kernel.
