(* ===== verification/BootTheorems.v ===== *)
(** The properties of the loader and of the start of the system, with the
    witnesses on a disk that holds a small executable. *)

From Stdlib Require Import ZArith Lia Strings.Byte.
From stdpp Require Import base numbers list strings gmap relations.
From S2P Require Import Prelude Bytes Memory Earth Paging Mmu MmuProof Bus Tty Kernel KernelSpec KernelTrap KernelReach EarthState Elf ElfProof Boot Devices KernelExample.

Local Open Scope egos_scope.

Section theorems.
Context {D R B : Type} `{DiskLaws D} (rand : R -> Z * R) `{ClintLaws B}.
Context (rand_nonneg : forall r, 0 <= fst (rand r)) (disk_room : NFRAMES * NBLOCKS_PER_PAGE <= disk_size D).
Context (p0 : platform_t) (on_qemu : p0 <> ARTY).
Context (uart_laws : forall p : platform_t, UartLaws B (UART0_BASE p)).
Abbreviation P := (paging_state D R).
#[local] Instance loader_paging : Paging P := dev_paging rand.
#[local] Instance loader_laws : PagingLaws P := dev_paging_laws rand rand_nonneg disk_room p0.
Abbreviation est := (earth_state P B).
#[local] Instance loader_earth : EarthLaws est := qemu_earth rand rand_nonneg disk_room p0 on_qemu uart_laws.
Variable file : Z -> block.
Variable n : Z.
Variable ph : elf32_program_header.

(** C16. [sys_spawn] of the process server, with a free process entry and five
    free frames: the new process gets a fresh pid and is ready; its three code
    pages hold the segment of the executable on disk, followed by zeros; its
    argument page holds [argc] 0; it has a stack page and nothing else; no other
    process entry and no page of another process changes; and the whole call is
    a run of the step relation of the kernel, so that the invariants hold. *)
Theorem sys_spawn_starts_program base (s : kernel est) i :
  let q := proc_nprocs s + 1 in
  app_file file n ph -> 0 < n -> k_run s -> q < 2 ^ 31 -> find_unused 0 (proc_set s) = Some i ->
  can_load rand rand_nonneg disk_room p0 base n file (earth s) q ->
  exists s', sys_spawn rand base s = Ok (tt, s') /\ rtc step s s' /\ k_run s' /\
    proc s' i = set_status PROC_READY (new_proc q (proc s i)) /\
    (forall j, 0 <= j < MAX_NPROCESS -> j <> i -> proc s' j = proc s j) /\
    has_app rand rand_nonneg disk_room p0 base n file ph (earth s) (earth s') q 0 None.
Proof.
  intros q Hfile Hn Hrun Hq Hf Hcl.
  exact (spawn_exec rand rand_nonneg disk_room p0 on_qemu uart_laws base n file ph Hfile Hn s i Hrun Hq Hf Hcl).
Qed.

(** The start of the grass layer: [main] of grass/grass.c loads the program
    of the process server from its place on disk and makes it the running
    process, in a state that keeps the kernel's invariant; the memory at
    [APPS_ENTRY], where it jumps, holds that program followed by zeros. *)
Theorem grass_main_runs_first_process (e : est) :
  app_file file n ph -> 0 < n ->
  can_load rand rand_nonneg disk_room p0 SYS_PROC_EXEC_START n file e GPID_PROCESS ->
  (forall q a, q <> 0 -> mapped e q a -> ~ kernel_area a) ->
  exists s, grass_main rand (grass0 e) = Ok (tt, s) /\ k_run s /\ curr_pid s = GPID_PROCESS /\
    forall x, 0 <= x < APPS_SIZE ->
      load_byte (emem (earth s)) (APPS_ENTRY + x) = seg_byte file (p_offset ph / BLOCK_SIZE) (p_filesz ph) x.
Proof.
  intros Hfile Hn Hcl Hk.
  destruct (load_exec rand rand_nonneg disk_room p0 on_qemu uart_laws SYS_PROC_EXEC_START n file ph Hfile Hn e
    GPID_PROCESS 0 None Hcl) as (m' & E1 & Happ & Hl & Hm); [done|done|].
  set (e' := set_mmu m' e) in *.
  destruct (grass_start_run e') as (s & E2 & Hrun & Hc & Hsp); [apply Hl|done| |].
  { intros q a Hq Hma. destruct (decide (q = GPID_PROCESS)) as [->|Hne]; [by apply (ld_kernel _ _ _ Hl)|].
    apply (ld_mapped _ _ _ Hl) in Hma; [|done..]. by apply (Hk q). }
  exists s. split.
  { unfold grass_main, bind at 1. cbn [get]. rewrite (bind_ok _ _ _ _ _ (on_earth_ok _ (grass0 e) _ _ E1)). exact E2. }
  split; [done|]. split; [done|]. intros x Hx.
  set (k := x / PAGE_SIZE). assert (0 <= k < 3) as Hkr by (unfold k, PAGE_SIZE, APPS_SIZE in *; dm_lia).
  assert ((APPS_ENTRY + x) / PAGE_SIZE = 0x8005 + k) as Hpg by (unfold k, PAGE_SIZE, APPS_ENTRY; dm_lia).
  assert ((APPS_ENTRY + x) mod PAGE_SIZE = x mod PAGE_SIZE) as Hmod by (unfold PAGE_SIZE, APPS_ENTRY; dm_lia).
  pose proof (ldd_code _ _ _ _ _ _ _ _ _ Happ k Hkr) as Hv. change (Z.shiftr APPS_ENTRY 12) with 0x8005 in Hv.
  assert (mapped e' GPID_PROCESS (APPS_ENTRY + x)) as Hmp by (cbn; unfold est_mapped; rewrite Hpg, Hv; by eexists).
  assert (e_vm (earth s) = GPID_PROCESS) as Hvm by by rewrite (kr_vm _ Hrun).
  rewrite <- view_curr; [|exact (ko_earth _ (kr_ok _ Hrun))|rewrite Hvm; by apply (ss_mapped _ _ Hsp)].
  rewrite Hvm, (ss_view _ _ Hsp) by done. cbn. unfold est_view. rewrite Hpg, Hmod, Hv. cbn.
  rewrite list_lookup_fmap, lookup_seqZ_lt by (unfold PAGE_SIZE; dm_lia). cbn. f_equal. unfold k, PAGE_SIZE. dm_lia.
Qed.

(** [elf_load] of the grass layer (the end of [main] of earth/earth.c): the
    memory at [GRASS_ENTRY] holds the segment of the executable on disk, zeros
    up to [GRASS_SIZE], no other byte of memory changes, and the memory
    management unit stays in order. *)
Theorem grass_layer_loaded (t : translation_t) (s : mmu_state P) j :
  mmu_ok s -> on_disk_at GRASS_EXEC_START n file (dev s) -> 0 < n ->
  one_segment (file 0) j -> segment (file 0) j = ph -> p_vaddr ph = GRASS_ENTRY ->
  0 <= p_filesz ph <= GRASS_SIZE -> 0 <= p_offset ph ->
  p_offset ph / BLOCK_SIZE + Z.of_nat (file_blocks (p_filesz ph)) <= n ->
  exists s', elf_load t grass_read 0 0 None s = Ok (tt, s') /\ mmu_ok s' /\
    forall a, load_byte (mmem s') a =
      if (GRASS_ENTRY <=? a) && (a <? GRASS_ENTRY + GRASS_SIZE)
      then seg_byte file (p_offset ph / BLOCK_SIZE) (p_filesz ph) (a - GRASS_ENTRY) else load_byte (mmem s) a.
Proof.
  intros Hok Hd Hn Hone Hph Hva Hsz Ho Hb.
  destruct (load_grass_layer rand rand_nonneg disk_room p0 (on_disk_at GRASS_EXEC_START n file) n file ph t s j)
    as (s' & E & Hok' & _ & HG); try done; [|by exists s'].
  intros d d' HD (? & ? & ? & HB). split_and!; try done. by rewrite HD.
Qed.
End theorems.

(** ** A disk with executables *)

(** The first block of an executable with one segment, in its second block. *)
Definition elf_block (vaddr filesz : Z) : block :=
  set_u32 (set_u32 (set_u32 (set_u32 (set_u32 (set_u32 null_block 7 52) 11 1) 14 512) 15 vaddr) 17 filesz) 18 filesz.
Definition code : list byte := [x13; x05; x10; x00; x73].

Definition image (base vaddr : Z) : MemDisk.disk :=
  {| MemDisk.bytes := store (store ∅ (base * BLOCK_SIZE) (elf_block vaddr 5)) ((base + 1) * BLOCK_SIZE) code |}.
Definition image_file (base vaddr b : Z) : block := MemDisk.blk (image base vaddr) (base + b).

Definition with_disk (d : MemDisk.disk) (s : mmu_state P0) : mmu_state P0 :=
  set_dev {| pg_mem := pg_mem (dev s); cache_slots := cache_slots (dev s); Paging.platform := Paging.platform (dev s);
             pg_disk := d; pg_rand := pg_rand (dev s) |} s.
Definition boot_earth (d : MemDisk.disk) (vm : Z) : E0 := set_mmu (with_disk d (mmu (earth0 ∅ vm []))) (earth0 ∅ vm []).

Lemma boot_earth_ok d vm : vm <> 0 -> est_ok (boot_earth d vm).
Proof.
  intros Hv. destruct (earth0_ok ∅ vm [] Hv) as [H1 H2 H3]. split; [|exact H2|exact H3].
  apply (mmu_ok_static (mmu (earth0 ∅ vm []))); [exact H1|done|exact (mo_dev _ H1)].
Qed.

Lemma image_on_disk base vaddr (d : P0) :
  pg_disk d = image base vaddr -> NFRAMES * NBLOCKS_PER_PAGE <= base -> base + 2 <= MemDisk.SIZE ->
  on_disk_at base 2 (image_file base vaddr) d.
Proof.
  intros Hd H1 H2. assert (MemDisk.SIZE < 2 ^ 32) as Hs by (vm_compute; reflexivity).
  assert (0 <= NFRAMES * NBLOCKS_PER_PAGE) as Hp by (vm_compute; intros Hx; discriminate Hx).
  split; [exact H1|]. split; [exact H2|]. split; [lia|]. intros b Hb.
  rewrite Hd. change (MemDisk.blocks (image base vaddr) !! (base + b) = Some (image_file base vaddr b)).
  rewrite MemDisk.blocks_lookup, (proj2 (Z.leb_le _ _)), (proj2 (Z.ltb_lt _ _)) by lia. reflexivity.
Qed.

Lemma boot_free d vm : exists k, free_frames (mmu (boot_earth d vm)) (5 + k).
Proof.
  exists 0%nat, (seqZ 3 5). split; [apply NoDup_seqZ|]. split; [reflexivity|].
  intros i Hi%elem_of_seqZ. split; [unfold NFRAMES; lia|].
  change (entry (mmu (boot_earth d vm)) i) with (entry (mmu (earth0 ∅ vm [])) i).
  destruct (entry0 ∅ vm [] i) as [[Hn _]|[[Hn _]|[[Hn _]| ->]]]; [lia..|reflexivity].
Qed.

Lemma boot_view_none d vm q p : q <> 1 -> q <> 5 -> q <> 6 -> view (mmu (boot_earth d vm)) q p = None.
Proof.
  intros H1 H2 H3. unfold view. change (table (mmu (boot_earth d vm))) with (table (mmu (earth0 ∅ vm []))).
  destruct (frame_of (table (mmu (earth0 ∅ vm []))) q p) as [i|] eqn:E; [|reflexivity].
  apply frame_of_some in E as [_ [_ Hm]%maps0]. lia.
Qed.

Lemma boot_can_load base q vm :
  NFRAMES * NBLOCKS_PER_PAGE <= base -> base + 2 <= MemDisk.SIZE -> vm <> 0 -> 0 < q -> q <> vm ->
  q <> 1 -> q <> 5 -> q <> 6 ->
  can_load rand0 rand0_nonneg room0 QEMU_LATEST base 2 (image_file base APPS_ENTRY) (boot_earth (image base APPS_ENTRY) vm) q.
Proof.
  intros H1 H2 H3 H4 H5 H6 H7 H8. split.
  - exact (boot_earth_ok _ _ H3).
  - apply image_on_disk; [reflexivity|exact H1|exact H2].
  - apply boot_free.
  - split; [exact H4|]. split; [exact H5|]. intros Hx. discriminate Hx.
  - intros p. exact (boot_view_none _ _ _ _ H6 H7 H8).
Qed.

Definition app_ph : elf32_program_header := {| p_offset := 512; p_vaddr := APPS_ENTRY; p_filesz := 5; p_memsz := 5 |}.
Definition FILE_BASE : Z := SYS_FILE_EXEC_START.

(** The image holds an application. *)
Lemma block_segment vaddr : one_segment (elf_block vaddr 5) 0.
Proof.
  assert (elf_header (elf_block vaddr 5) = {| e_phoff := 52; e_phnum := 1 |}) as Eh by (vm_compute; reflexivity).
  assert (p_memsz (elf_pheader (elf_block vaddr 5) 52) = 5) as Em by (vm_compute; reflexivity).
  split; rewrite Eh; cbn [e_phoff e_phnum].
  - lia.
  - unfold BLOCK_SIZE. lia.
  - intros i Hi Hne. lia.
  - change (52 + 32 * 0) with 52. rewrite Em. lia.
Qed.

Lemma image_segment base vaddr :
  image_file base vaddr 0 = elf_block vaddr 5 -> one_segment (image_file base vaddr 0) 0.
Proof. intros ->. apply block_segment. Qed.

Lemma image_app base :
  image_file base APPS_ENTRY 0 = elf_block APPS_ENTRY 5 -> app_file (image_file base APPS_ENTRY) 2 app_ph.
Proof.
  intros E. split.
  - exists 0. split; [exact (image_segment _ _ E)|]. rewrite E. vm_compute. reflexivity.
  - reflexivity.
  - vm_compute. split; intros Hx; discriminate Hx.
  - vm_compute. intros Hx. discriminate Hx.
  - vm_compute. intros Hx. discriminate Hx.
Qed.

(** The machine before the grass layer starts: no frame is in use. *)
Definition blank_mmu (d : MemDisk.disk) : mmu_state P0 :=
  {| table := replicate 256 unused_frame; curr_vm_pid := -1; frame_id := 0; root := 0; leaf := 0;
     pid_to_pagetable_base := replicate 32 0;
     dev := {| pg_mem := ∅; cache_slots := []; Paging.platform := QEMU_LATEST; pg_disk := d; pg_rand := tt |} |}.
Definition blank_earth (d : MemDisk.disk) : E0 := set_mmu (blank_mmu d) (earth0 ∅ 5 []).

Lemma blank_entry d i : entry (blank_mmu d) i = unused_frame.
Proof.
  unfold entry. cbn [table blank_mmu]. destruct (replicate 256 unused_frame !! Z.to_nat i) as [x|] eqn:Ex; [|reflexivity].
  apply lookup_replicate_1 in Ex as [-> _]. reflexivity.
Qed.

Lemma blank_maps d i q p : ~ maps (entry (blank_mmu d) i) q p.
Proof. rewrite blank_entry. intros [Hu _]. apply Hu. reflexivity. Qed.

Lemma blank_ok d : mmu_ok (blank_mmu d).
Proof.
  split.
  - reflexivity.
  - split; [reflexivity|]. intros Hx. discriminate Hx.
  - intros Hx. discriminate Hx.
  - intros i _. apply blank_entry.
  - intros i q p _ Hm. destruct (blank_maps _ _ _ _ Hm).
  - intros i j q p _ _ _ Hm. destruct (blank_maps _ _ _ _ Hm).
Qed.

Lemma blank_view d q p : view (blank_mmu d) q p = None.
Proof.
  unfold view. destruct (frame_of (table (blank_mmu d)) q p) as [i|] eqn:E; [|reflexivity].
  apply frame_of_some in E as [_ Hm]. destruct (blank_maps _ _ _ _ Hm).
Qed.

Lemma blank_can_load base :
  NFRAMES * NBLOCKS_PER_PAGE <= base -> base + 2 <= MemDisk.SIZE ->
  can_load rand0 rand0_nonneg room0 QEMU_LATEST base 2 (image_file base APPS_ENTRY) (blank_earth (image base APPS_ENTRY))
    GPID_PROCESS.
Proof.
  intros H1 H2. split.
  - split; [apply blank_ok|intros Hx; discriminate Hx|]. vm_compute. split; [intros Hx; discriminate Hx|reflexivity].
  - apply image_on_disk; [reflexivity|exact H1|exact H2].
  - exists 0%nat, (seqZ 3 5). split; [apply NoDup_seqZ|]. split; [reflexivity|].
    intros i Hi%elem_of_seqZ. split; [unfold NFRAMES; lia|]. cbn [mmu blank_earth set_mmu]. rewrite blank_entry. reflexivity.
  - split; [reflexivity|]. split; intros Hx; discriminate Hx.
  - intros p. apply blank_view.
Qed.

(** ** The properties on the concrete machine *)

Lemma on_qemu0 : QEMU_LATEST <> ARTY.
Proof. discriminate. Qed.

(** Three processes on a machine with a given disk. *)
Definition kernel_on (d : MemDisk.disk) : kernel E0 := set_earth (boot_earth d 5) (kernel1 PROC_RUNNABLE PROC_RUNNABLE 0 ∅ []).
Definition spawn_kernel : kernel E0 := kernel_on (image FILE_BASE APPS_ENTRY).

Lemma mapped_table (e e' : E0) q x : table (mmu e') = table (mmu e) -> est_mapped e' q x <-> est_mapped e q x.
Proof.
  intros Et. unfold est_mapped, view. rewrite Et. destruct (frame_of (table (mmu e)) q (x / PAGE_SIZE)) as [i|]; cbn;
    split; intros [v Hv]; first [discriminate Hv|eexists; reflexivity].
Qed.

Lemma kernel_on_run d : k_run (kernel_on d).
Proof.
  apply (k_run_earth (kernel1 PROC_RUNNABLE PROC_RUNNABLE 0 ∅ [])).
  - apply kernel1_run; intros Hx; discriminate Hx.
  - apply boot_earth_ok. intros Hx. discriminate Hx.
  - reflexivity.
  - intros q x _. apply mapped_table. reflexivity.
Qed.

(** The laws of the earth layer are those of the theorems. *)
Lemma kernel_on_run_qemu d :
  k_run (H0 := qemu_earth rand0 rand0_nonneg room0 QEMU_LATEST on_qemu0 Board.uart) (kernel_on d).
Proof.
  destruct (kernel_on_run d) as [[F1 F2 F3 F4 F5 F6 F7 F8 F9 F10] G1 G2]. split; [|exact G1|exact G2].
  split; [exact F1|exact F2|exact F3|exact F4|exact F5|exact F6|exact F7|exact F8|exact F9|exact F10].
Qed.

Lemma sys_spawn_starts_program_witness :
  exists s', sys_spawn rand0 FILE_BASE spawn_kernel = Ok (tt, s') /\
    pid (proc s' 3) = 8 /\ status (proc s' 3) = PROC_READY.
Proof.
  destruct (sys_spawn_starts_program rand0 rand0_nonneg room0 QEMU_LATEST on_qemu0 Board.uart
    (image_file FILE_BASE APPS_ENTRY) 2 app_ph FILE_BASE spawn_kernel 3) as (s' & H1 & _ & _ & H4 & _).
  - apply image_app. vm_compute. reflexivity.
  - lia.
  - apply kernel_on_run_qemu.
  - vm_compute. reflexivity.
  - vm_compute. reflexivity.
  - apply boot_can_load; vm_compute; (reflexivity || intros Hx; discriminate Hx).
  - exists s'. split; [exact H1|]. rewrite H4. split; reflexivity.
Defined.

Lemma grass_main_runs_first_process_witness :
  exists s, grass_main rand0 (grass0 (blank_earth (image SYS_PROC_EXEC_START APPS_ENTRY))) = Ok (tt, s) /\
    curr_pid s = GPID_PROCESS /\ load_byte (emem (earth s)) APPS_ENTRY = x13 /\ load_byte (emem (earth s)) (APPS_ENTRY + 5) = x00.
Proof.
  destruct (grass_main_runs_first_process rand0 rand0_nonneg room0 QEMU_LATEST on_qemu0 Board.uart
    (image_file SYS_PROC_EXEC_START APPS_ENTRY) 2 app_ph (blank_earth (image SYS_PROC_EXEC_START APPS_ENTRY)))
    as (s & H1 & _ & H2 & H3).
  - apply image_app. vm_compute. reflexivity.
  - lia.
  - apply blank_can_load; vm_compute; intros Hx; discriminate Hx.
  - intros q a _ [v Hv]. change (view (blank_mmu (image SYS_PROC_EXEC_START APPS_ENTRY)) q (a / PAGE_SIZE) = Some v) in Hv.
    rewrite blank_view in Hv. discriminate Hv.
  - exists s. split; [exact H1|]. split; [exact H2|]. split.
    + refine (eq_trans (H3 0 _) _); [unfold APPS_SIZE; lia|vm_compute; reflexivity].
    + refine (eq_trans (H3 5 _) _); [unfold APPS_SIZE; lia|vm_compute; reflexivity].
Defined.

Definition grass_ph : elf32_program_header := {| p_offset := 512; p_vaddr := GRASS_ENTRY; p_filesz := 5; p_memsz := 5 |}.

Lemma grass_layer_loaded_witness :
  exists s', elf_load SOFT_TLB grass_read 0 0 None (blank_mmu (image GRASS_EXEC_START GRASS_ENTRY)) = Ok (tt, s') /\
    load_byte (mmem s') GRASS_ENTRY = x13.
Proof.
  destruct (grass_layer_loaded rand0 rand0_nonneg room0 QEMU_LATEST (image_file GRASS_EXEC_START GRASS_ENTRY) 2 grass_ph
    SOFT_TLB (blank_mmu (image GRASS_EXEC_START GRASS_ENTRY)) 0) as (s' & H1 & _ & H2).
  - apply blank_ok.
  - apply image_on_disk; [reflexivity|vm_compute; intros Hx; discriminate Hx..].
  - lia.
  - apply image_segment. vm_compute. reflexivity.
  - vm_compute. reflexivity.
  - reflexivity.
  - vm_compute. split; intros Hx; discriminate Hx.
  - vm_compute. intros Hx. discriminate Hx.
  - vm_compute. intros Hx. discriminate Hx.
  - exists s'. split; [exact H1|]. refine (eq_trans (H2 GRASS_ENTRY) _). vm_compute. reflexivity.
Defined.
