(* ===== verification/Layout.v ===== *)
(** The memory that the three linker scripts give to the layers (earth/earth.lds,
    grass/grass.lds, apps/app.lds), and the start of [main] of earth/earth.c,
    which clears the bss segment and copies the data segment from the ROM. *)

From Stdlib Require Import ZArith Lia Strings.Byte.
From stdpp Require Import base numbers list strings gmap.
From S2P Require Import Prelude Bytes Memory Earth Elf.

(** ** The regions *)

Record region := { ORIGIN : Z; LENGTH : Z }.
Definition region_end (r : region) : Z := ORIGIN r + LENGTH r.

Definition earth_ram : region := {| ORIGIN := 0x08000000; LENGTH := 0x2000 |}.
Definition earth_rom : region := {| ORIGIN := 0x20400000; LENGTH := 0x400000 |}.
Definition earth_disk : region := {| ORIGIN := 0x20800000; LENGTH := 0x400000 |}.
Definition grass_ram : region := {| ORIGIN := 0x08002800; LENGTH := 0x2800 |}.
Definition app_ram : region := {| ORIGIN := 0x08005000; LENGTH := 0x3000 |}.

Definition grass_heap_end : Z := 0x08005000.
Definition app_heap_end : Z := 0x08008000.

(** ** The segments of the earth layer *)

(** What the compiler and the linker choose: the sizes of the two segments and
    the place of the initial data in the ROM. *)
Record segments := { data_size : Z; bss_size : Z; data_rom : Z }.

Definition ALIGN (n a : Z) : Z := (a + n - 1) / n * n.

Section symbols.
Variable g : segments.
Definition data_start : Z := ALIGN 8 (ORIGIN earth_ram).
Definition data_end : Z := data_start + data_size g.
Definition bss_start : Z := ALIGN 8 data_end.
Definition bss_end : Z := bss_start + bss_size g.
Definition earth_heap_start : Z := ALIGN 8 bss_end.
Definition earth_heap_end : Z := data_start + 0x2800.

(** The linker refuses segments that do not fit into their region. *)
Record fits : Prop := {
  ft_sizes : 0 <= data_size g /\ 0 <= bss_size g;
  ft_ram : earth_heap_start <= region_end earth_ram;
  ft_rom : ORIGIN earth_rom <= data_rom g /\ data_rom g + data_size g <= region_end earth_rom
}.

(** The [memset] and the [memcpy] of [main]. *)
Definition prepare_memory (m : mem) : mem :=
  let m := memset m bss_start x00 (bss_end - bss_start) in
  store m data_start (load m (data_rom g) (data_end - data_start)).

(** ** Theorems *)

Lemma ALIGN_range n a : 0 < n -> a <= ALIGN n a < a + n.
Proof.
  intros Hn. unfold ALIGN. pose proof (Z.div_mod (a + n - 1) n ltac:(lia)).
  pose proof (Z.mod_pos_bound (a + n - 1) n Hn). lia.
Qed.

Lemma symbols_order :
  fits -> data_start = 0x08000000 /\ data_start <= data_end <= bss_start /\ bss_start <= bss_end /\ bss_end <= 0x08002000.
Proof.
  intros [[H1 H2] H3 _]. pose proof (ALIGN_range 8 data_end ltac:(lia)) as A1. fold bss_start in A1.
  pose proof (ALIGN_range 8 bss_end ltac:(lia)) as A2. fold earth_heap_start in A2.
  split; [done|]. unfold data_end, bss_end in *. change (region_end earth_ram) with 0x08002000 in H3. lia.
Qed.

(** After the two calls the data segment holds its initial values, the bss
    segment is zero, and no other byte of memory changed. *)
Theorem prepare_memory_spec m a :
  fits ->
  load_byte (prepare_memory m) a =
  if (data_start <=? a) && (a <? data_end) then load_byte m (data_rom g + (a - data_start))
  else if (bss_start <=? a) && (a <? bss_end) then x00
  else load_byte m a.
Proof.
  intros Hf. destruct (symbols_order Hf) as (Hd & Hde & Hbs & Hbe). destruct Hf as [[Hs1 Hs2] _ [Hr1 Hr2]].
  change (ORIGIN earth_rom) with 0x20400000 in Hr1.
  unfold prepare_memory. set (r := data_rom g) in *. set (n := data_size g) in *.
  assert (data_end = data_start + n) as Hn by done.
  generalize dependent data_start. generalize dependent data_end. generalize dependent bss_start.
  generalize dependent bss_end. clearbody r n. intros bss_end Hbe bss_start Hbs data_end data_start Hd Hde Hn.
  rewrite store_lookup, length_load.
  replace (data_start + Z.of_nat (Z.to_nat (data_end - data_start))) with data_end by lia.
  destruct (Z.leb_spec data_start a), (Z.ltb_spec a data_end); simpl.
  - rewrite load_lookup, (proj2 (Z.ltb_lt _ _)) by lia. simpl. rewrite Z2Nat.id by lia.
    unfold memset. rewrite store_lookup, length_replicate.
    destruct (Z.leb_spec bss_start (r + (a - data_start))),
      (Z.ltb_spec (r + (a - data_start)) (bss_start + Z.of_nat (Z.to_nat (bss_end - bss_start)))); simpl; done || lia.
  - unfold memset. rewrite store_lookup, length_replicate.
    replace (bss_start + Z.of_nat (Z.to_nat (bss_end - bss_start))) with bss_end by lia.
    destruct (Z.leb_spec bss_start a), (Z.ltb_spec a bss_end); simpl; try done.
    rewrite lookup_replicate_2 by lia. done.
  - unfold memset. rewrite store_lookup. destruct (Z.leb_spec bss_start a); simpl; done || lia.
  - lia.
Qed.

(** The regions of the scripts are those of library/egos.h, in this order and
    apart from each other, and each heap ends where the next region starts. *)
Theorem regions_apart :
  fits ->
  earth_heap_start <= earth_heap_end <= ORIGIN grass_ram /\
  region_end grass_ram = grass_heap_end /\ grass_heap_end <= ORIGIN app_ram /\
  region_end app_ram = app_heap_end /\ app_heap_end <= ORIGIN earth_rom /\
  region_end earth_rom <= ORIGIN earth_disk /\ region_end earth_disk <= APPS_ARG /\
  (ORIGIN grass_ram, LENGTH grass_ram) = (GRASS_ENTRY, GRASS_SIZE) /\
  (ORIGIN app_ram, LENGTH app_ram) = (APPS_ENTRY, APPS_SIZE).
Proof.
  intros [_ H _]. change (region_end earth_ram) with 0x08002000 in H.
  change earth_heap_end with 0x08002800. split; [change (ORIGIN grass_ram) with 0x08002800; lia|].
  by repeat split.
Qed.
End symbols.
