(* ===== verification/Dir.v ===== *)
(** The directory server, apps/system/sys_dir.c: the lookup of a name in the
    contents of a directory, with the functions of the C library that it uses,
    and the request loop. *)

From Stdlib Require Import ZArith Lia Strings.Byte.
From stdpp Require Import base numbers list strings.
From S2P Require Import Prelude Bytes.

Local Open Scope egos_scope.

(** ** C strings *)

(** [a[i]]: outside the array it is undefined. *)
Definition char_at (a : list byte) (i : Z) : M unit byte :=
  match a !! Z.to_nat i with
  | Some c => if 0 <=? i then ret c else undef "char"
  | None => undef "char"
  end.

(** [strlen(a + i)]. *)
Fixpoint strlen_from (fuel : nat) (a : list byte) (i : Z) : M unit Z :=
  match fuel with
  | O => nofuel
  | S fuel' =>
      c <- char_at a i ;;
      if decide (c = x00) then ret 0 else n <- strlen_from fuel' a (i + 1) ;; ret (n + 1)
  end.
(** The array and one byte more are enough. *)
Definition strlen (a : list byte) : M unit Z := strlen_from (S (length a)) a 0.

(** [!strncmp(s, a + i, n)]. *)
Fixpoint strncmp_eq (n : nat) (s a : list byte) (k i : Z) : M unit bool :=
  match n with
  | O => ret true
  | S n' =>
      c <- char_at s k ;;
      d <- char_at a i ;;
      if decide (c = d) then if decide (c = x00) then ret true else strncmp_eq n' s a (k + 1) (i + 1)
      else ret false
  end.

(** [isspace] and [isdigit]. *)
Definition isspace (c : byte) : bool := let z := byte_Z c in (z =? 32) || ((9 <=? z) && (z <=? 13)).
Definition isdigit (c : byte) : bool := let z := byte_Z c in (48 <=? z) && (z <=? 57).

(** [atoi(a + i)]: spaces, a sign, digits.  A number outside [int] is undefined. *)
Fixpoint atoi_digits (fuel : nat) (a : list byte) (i acc : Z) : M unit Z :=
  match fuel with
  | O => nofuel
  | S fuel' =>
      c <- char_at a i ;;
      if isdigit c then atoi_digits fuel' a (i + 1) (acc * 10 + (byte_Z c - 48)) else ret acc
  end.
Fixpoint atoi_skip (fuel : nat) (a : list byte) (i : Z) : M unit Z :=
  match fuel with
  | O => nofuel
  | S fuel' => c <- char_at a i ;; if isspace c then atoi_skip fuel' a (i + 1) else ret i
  end.
Definition atoi (a : list byte) (i : Z) : M unit Z :=
  let fuel := S (length a) in
  i <- atoi_skip fuel a i ;;
  c <- char_at a i ;;
  let neg := byte_Z c =? 45 in
  let i := if neg || (byte_Z c =? 43) then i + 1 else i in
  n <- atoi_digits fuel a i 0 ;;
  let n := if neg then - n else n in
  if (- 2 ^ 31 <=? n) && (n <? 2 ^ 31) then ret n else undef "atoi".

(** ** [dir_do_lookup] *)

Definition is_space (c : byte) : bool := byte_Z c =? 32.

(** The test of the loop at [i]. *)
Definition entry_at (buf name : list byte) (namelen i : Z) : M unit bool :=
  b1 <- strncmp_eq (Z.to_nat namelen) name buf 0 i ;;
  if negb b1 then ret false
  else
    c <- char_at buf (i + namelen) ;;
    if negb (is_space c) then ret false
    else if i =? 0 then ret true
    else d <- char_at buf (i - 1) ;; ret (is_space d).

(** The loop; [strlen(buf) - namelen] is an unsigned difference, and [strlen]
    does not change. *)
Fixpoint lookup_loop (fuel : nat) (buf name : list byte) (namelen bound i : Z) : M unit Z :=
  match fuel with
  | O => nofuel
  | S fuel' =>
      if i <? bound then
        b <- entry_at buf name namelen i ;;
        if b then atoi buf (i + namelen) else lookup_loop fuel' buf name namelen bound (i + 1)
      else ret (-1)
  end.

(** [buf] is what [file_read] puts there.  The loop cannot go on past the end of
    the buffer. *)
Definition dir_do_lookup (buf name : list byte) : M unit Z :=
  namelen <- strlen name ;;
  len <- strlen buf ;;
  lookup_loop (length buf + 2) buf name namelen (u32 (len - namelen)) 0.
