(* ===== verification/DirProof.v ===== *)
(** Proofs on the directory server: the contents of a directory, as tools/mkfs.c
    writes them, and their lookup. *)

From Stdlib Require Import ZArith Lia Strings.Byte.
From stdpp Require Import base numbers list strings.
From S2P Require Import Prelude Bytes Dir.

Local Open Scope egos_scope.

Abbreviation SP := x20.

(** ** C strings *)

Lemma char_at_lookup a i c : 0 <= i -> a !! Z.to_nat i = Some c -> char_at a i tt = Ok (c, tt).
Proof. intros Hi E. unfold char_at. by rewrite E, (proj2 (Z.leb_le 0 i)). Qed.

Lemma char_at_mid pre c l : char_at (pre ++ c :: l) (Z.of_nat (length pre)) tt = Ok (c, tt).
Proof. apply char_at_lookup; [lia|]. by rewrite Nat2Z.id, list_lookup_middle. Qed.

Lemma char_at_nat a (i : nat) c : a !! i = Some c -> char_at a (Z.of_nat i) tt = Ok (c, tt).
Proof. intros E. apply char_at_lookup; [lia|]. by rewrite Nat2Z.id. Qed.

Lemma char_at_none a i : a !! Z.to_nat i = None -> char_at a i tt = Undef "char".
Proof. intros E. unfold char_at. by rewrite E. Qed.

Lemma strlen_from_ok l pre r fuel :
  x00 ∉ l -> (length l < fuel)%nat ->
  strlen_from fuel (pre ++ l ++ x00 :: r) (Z.of_nat (length pre)) tt = Ok (Z.of_nat (length l), tt).
Proof.
  revert pre fuel. induction l as [|c l IH]; intros pre fuel Hl Hf; destruct fuel as [|fuel]; simpl in Hf; try lia;
    cbn [strlen_from].
  - cbn [app]. rewrite (bind_ok _ _ _ _ _ (char_at_mid pre x00 r)). by rewrite decide_True.
  - apply not_elem_of_cons in Hl as [Hc Hl].
    cbn [app]. rewrite (bind_ok _ _ _ _ _ (char_at_mid pre c _)). rewrite decide_False by done.
    specialize (IH (pre ++ [c]) fuel Hl ltac:(lia)). rewrite length_app in IH. simpl in IH.
    rewrite <- app_assoc in IH. simpl in IH.
    replace (Z.of_nat (length pre) + 1) with (Z.of_nat (length pre + 1)) by lia.
    rewrite (bind_ok _ _ _ _ _ IH). unfold ret. do 2 f_equal. simpl. lia.
Qed.

Lemma strlen_ok l r : x00 ∉ l -> strlen (l ++ x00 :: r) tt = Ok (Z.of_nat (length l), tt).
Proof. intros Hl. apply (strlen_from_ok l []); [done|]. rewrite length_app. simpl. lia. Qed.

(** A string without NUL against a string that ends at [z]. *)
Lemma strncmp_ok n pre r buf i z :
  x00 ∉ n -> 0 <= i -> (Z.to_nat i <= z)%nat -> buf !! z = Some x00 ->
  strncmp_eq (length n) (pre ++ n ++ x00 :: r) buf (Z.of_nat (length pre)) i tt =
  Ok (bool_decide (take (length n) (drop (Z.to_nat i) buf) = n), tt).
Proof.
  revert pre i. induction n as [|c n IH]; intros pre i Hn Hi Hz Hbz; cbn [strncmp_eq length]; [done|].
  apply not_elem_of_cons in Hn as [Hc Hn].
  cbn [app]. rewrite (bind_ok _ _ _ _ _ (char_at_mid pre c _)).
  destruct (lookup_lt_is_Some_2 buf (Z.to_nat i)) as [d Hd].
  { apply lookup_lt_Some in Hbz. lia. }
  rewrite (bind_ok _ _ _ _ _ (char_at_lookup _ _ d Hi Hd)).
  rewrite (drop_S _ _ _ Hd). cbn [take].
  destruct (decide (c = d)) as [<-|Hne].
  - rewrite decide_False by done.
    assert (Z.to_nat i <> z) as Hnz by (intros Ez; rewrite Ez in Hd; congruence).
    specialize (IH (pre ++ [c]) (i + 1) Hn ltac:(lia) ltac:(lia) Hbz).
    rewrite length_app, <- app_assoc in IH. simpl in IH.
    replace (Z.of_nat (length pre) + 1) with (Z.of_nat (length pre + 1)) by lia.
    replace (Z.to_nat (i + 1)) with (S (Z.to_nat i)) in IH by lia. rewrite IH.
    do 2 f_equal. apply bool_decide_ext. split; congruence.
  - unfold ret. rewrite bool_decide_eq_false_2 by congruence. done.
Qed.

(** ** The scan as a function of what is left *)

(** The token at the start of [l] is [n]. *)
Definition token_is (n l : list byte) : bool :=
  bool_decide (take (length n) l = n) && bool_decide (l !! length n = Some SP).

(** What follows the first token [n], when [sp] says that a token can start. *)
Fixpoint find_entry (n : list byte) (sp : bool) (l : list byte) : option (list byte) :=
  match l with
  | [] => None
  | c :: l' => if sp && token_is n l then Some (drop (length n) l) else find_entry n (is_space c) l'
  end.

Lemma is_space_iff c : is_space c = bool_decide (c = SP).
Proof.
  unfold is_space. destruct (Z.eqb_spec (byte_Z c) 32) as [E|E]; symmetry.
  - apply bool_decide_eq_true. by apply byte_Z_inj.
  - apply bool_decide_eq_false. intros ->. done.
Qed.

Section scan.
Variable (n content r : list byte) (k : nat).
Hypothesis n_nul : x00 ∉ n.
Hypothesis content_nul : x00 ∉ content.
Let name := n ++ x00 :: r.
Let buf := content ++ replicate (S k) x00.

Lemma buf_end : buf !! length content = Some x00.
Proof. unfold buf. cbn [replicate]. by rewrite list_lookup_middle. Qed.

(** The space after a token is in the contents. *)
Lemma token_inside i : token_is n (drop i buf) = true -> (i + length n < length content)%nat.
Proof.
  unfold token_is. intros [_ H]%andb_true_iff. apply bool_decide_eq_true in H. rewrite lookup_drop in H.
  destruct (decide (i + length n < length content)%nat) as [?|Hge]; [done|]. exfalso.
  unfold buf in H. rewrite lookup_app_r in H by lia. by apply lookup_replicate_1 in H as [? _].
Qed.

Definition starts (i : nat) : bool :=
  match i with O => true | S j => match buf !! j with Some c => is_space c | None => false end end.

Lemma entry_at_ok i :
  (i <= length content)%nat ->
  entry_at buf name (Z.of_nat (length n)) (Z.of_nat i) tt = Ok (starts i && token_is n (drop i buf), tt).
Proof.
  intros Hi. unfold entry_at. rewrite Nat2Z.id.
  pose proof (strncmp_ok n [] r buf (Z.of_nat i) (length content) n_nul ltac:(lia) ltac:(lia) buf_end) as E.
  rewrite Nat2Z.id in E. change (Z.of_nat (length [])) with 0 in E. rewrite app_nil_l in E.
  rewrite (bind_ok _ _ _ _ _ E). unfold token_is.
  case_bool_decide as Hp; cbn [negb]; [|by rewrite andb_false_r].
  assert (i + length n <= length content)%nat as Hlen.
  { destruct (decide (i + length n <= length content)%nat) as [?|Hgt]; [done|]. exfalso. apply n_nul.
    rewrite <- Hp. apply (list_elem_of_lookup_2 _ (length content - i)).
    rewrite lookup_take_lt by lia. rewrite lookup_drop.
    replace (i + (length content - i))%nat with (length content) by lia. apply buf_end. }
  destruct (lookup_lt_is_Some_2 buf (i + length n)) as [c Hc].
  { unfold buf. rewrite length_app, length_replicate. lia. }
  rewrite <- Nat2Z.inj_add, (bind_ok _ _ _ _ _ (char_at_nat _ _ _ Hc)).
  rewrite lookup_drop, Hc, is_space_iff. case_bool_decide as Hsp; cbn [negb].
  - rewrite bool_decide_eq_true_2 by congruence. rewrite andb_true_r.
    destruct i as [|j]; [done|]. rewrite (proj2 (Z.eqb_neq _ _)) by lia.
    destruct (lookup_lt_is_Some_2 buf j) as [d Hd]; [apply lookup_lt_Some in Hc; lia|].
    replace (Z.of_nat (S j) - 1) with (Z.of_nat j) by lia. rewrite (bind_ok _ _ _ _ _ (char_at_nat _ _ _ Hd)).
    cbn [starts]. by rewrite Hd.
  - rewrite bool_decide_eq_false_2 by congruence. by rewrite andb_false_r.
Qed.

Lemma find_entry_late sp i : (length content <= i + length n)%nat -> find_entry n sp (drop i buf) = None.
Proof.
  intros Hi. remember (drop i buf) as l eqn:El. revert sp i Hi El. induction l as [|c l IH]; intros sp i Hi El; [done|].
  cbn [find_entry]. destruct (token_is n (c :: l)) eqn:Et.
  - rewrite El in Et. apply token_inside in Et. lia.
  - rewrite andb_false_r. apply (IH _ (S i)); [lia|]. 
    replace (S i) with (i + 1)%nat by lia. by rewrite <- drop_drop, <- El.
Qed.

Lemma lookup_loop_ok fuel i :
  (i <= length content)%nat -> (length n <= length content)%nat -> (length content - i < fuel)%nat ->
  lookup_loop fuel buf name (Z.of_nat (length n)) (Z.of_nat (length content) - Z.of_nat (length n)) (Z.of_nat i) tt =
  match find_entry n (starts i) (drop i buf) with
  | Some l => atoi buf (Z.of_nat (length buf - length l)) tt
  | None => Ok (-1, tt)
  end.
Proof.
  revert i. induction fuel as [|fuel IH]; intros i Hi Hn Hf; [lia|]. cbn [lookup_loop].
  destruct (Z.ltb_spec (Z.of_nat i) (Z.of_nat (length content) - Z.of_nat (length n))) as [Hlt|Hge].
  - rewrite (bind_ok _ _ _ _ _ (entry_at_ok i Hi)).
    destruct (lookup_lt_is_Some_2 buf i) as [c Hc].
    { unfold buf. rewrite length_app. lia. }
    assert (length buf = length content + S k)%nat as Hlb by (unfold buf; by rewrite length_app, length_replicate).
    rewrite (drop_S _ _ _ Hc). cbn [find_entry]. rewrite <- (drop_S _ _ _ Hc).
    destruct (starts i && token_is n (drop i buf)) eqn:Em.
    + rewrite drop_drop, length_drop. f_equal. lia.
    + replace (Z.of_nat i + 1) with (Z.of_nat (S i)) by lia. rewrite IH by lia. cbn [starts]. by rewrite Hc.
  - by rewrite find_entry_late by lia.
Qed.
End scan.

(** ** The contents of a directory (tools/mkfs.c) *)

Definition digit (k : Z) : byte := Z_byte (48 + k).
(** The decimal digits of a number below 1000. *)
Definition dec (n : Z) : list byte :=
  if n <? 10 then [digit n]
  else if n <? 100 then [digit (n / 10); digit (n mod 10)]
  else [digit (n / 100); digit (n / 10 mod 10); digit (n mod 10)].

(** A name, its inode number on four columns, and a space. *)
Definition dir_entry (e : list byte * Z) : list byte :=
  e.1 ++ replicate (4 - length (dec e.2)) SP ++ dec e.2 ++ [SP].
Definition dir_text (es : list (list byte * Z)) : list byte := es ≫= dir_entry.

(** The inode number of the first entry with a name. *)
Definition assoc (es : list (list byte * Z)) (n : list byte) : option Z :=
  snd <$> (snd <$> list_find (fun e : list byte * Z => e.1 = n) es).

Definition word_ok (n : list byte) : Prop := n <> [] /\ (x00 ∉ n) /\ (SP ∉ n).
Definition entry_ok (e : list byte * Z) : Prop := word_ok e.1 /\ 0 <= e.2 < 1000.

Lemma byte_Z_digit k : 0 <= k < 10 -> byte_Z (digit k) = 48 + k.
Proof. intros Hk. unfold digit. rewrite byte_Z_byte. apply Z.mod_small. lia. Qed.

Lemma isdigit_digit k : 0 <= k < 10 -> isdigit (digit k) = true.
Proof. intros Hk. unfold isdigit. rewrite byte_Z_digit by done. apply andb_true_iff. rewrite !Z.leb_le. lia. Qed.

Lemma digit_not k c : 0 <= k < 10 -> (byte_Z c < 48 \/ 57 < byte_Z c) -> digit k <> c.
Proof. intros Hk Hc E. rewrite <- E, byte_Z_digit in Hc by done. lia. Qed.

(** The digits of [dec], and their value. *)
Lemma dec_digits n :
  0 <= n < 1000 -> exists ds, dec n = digit <$> ds /\ Forall (fun k => 0 <= k < 10) ds /\ ds <> [] /\
    fold_left (fun a k => a * 10 + k) ds 0 = n /\ (length ds <= 3)%nat.
Proof.
  intros Hn. unfold dec. destruct (Z.ltb_spec n 10), (Z.ltb_spec n 100); try lia.
  - exists [n]. split; [done|]. split; [apply Forall_singleton; lia|]. split; [done|]. simpl. lia.
  - exists [n / 10; n mod 10]. split; [done|]. split; [|split; [done|simpl; Z.div_mod_to_equations; lia]].
    rewrite !Forall_cons. split_and!; try (Z.div_mod_to_equations; lia). by constructor.
  - exists [n / 100; n / 10 mod 10; n mod 10]. split; [done|]. split; [|split; [done|simpl; Z.div_mod_to_equations; lia]].
    rewrite !Forall_cons. split_and!; try (Z.div_mod_to_equations; lia). by constructor.
Qed.

Lemma dec_word n : 0 <= n < 1000 -> word_ok (dec n).
Proof.
  intros Hn. destruct (dec_digits n Hn) as (ds & -> & Hd & Hne & _). split; [by destruct ds|].
  split; intros (k & Ek & Hk)%list_elem_of_fmap; rewrite Forall_forall in Hd; specialize (Hd k Hk);
    symmetry in Ek; revert Ek; apply digit_not; (done || by left).
Qed.

(** ** Tokens *)

Lemma token_word n t l : SP ∉ n -> SP ∉ t -> token_is n (t ++ SP :: l) = bool_decide (n = t).
Proof.
  intros Hn Ht. unfold token_is. destruct (decide (n = t)) as [->|Hne].
  - rewrite take_app_length, list_lookup_middle by done. by rewrite !bool_decide_eq_true_2.
  - rewrite (bool_decide_eq_false_2 (n = t)) by done. apply andb_false_iff.
    destruct (decide (take (length n) (t ++ SP :: l) = n)) as [Hp|?]; [|left; by apply bool_decide_eq_false].
    right. apply bool_decide_eq_false. intros Hs.
    destruct (decide (length n <= length t)%nat) as [Hle|Hgt].
    + rewrite take_app_le in Hp by done.
      destruct (decide (length n = length t)) as [He|Hlt]; [by rewrite take_ge in Hp by lia|].
      rewrite lookup_app_l in Hs by lia. apply Ht. by eapply list_elem_of_lookup_2.
    + apply Hn. rewrite <- Hp. apply (list_elem_of_lookup_2 _ (length t)).
      rewrite lookup_take_lt by lia. by apply list_lookup_middle.
Qed.

(** In the middle of a token nothing starts. *)
Lemma find_entry_skip n t l : SP ∉ t -> find_entry n false (t ++ SP :: l) = find_entry n true l.
Proof.
  induction t as [|c t IH]; intros Ht; cbn [app find_entry andb]; [by rewrite is_space_iff|].
  apply not_elem_of_cons in Ht as [Hc Ht]. rewrite is_space_iff, bool_decide_eq_false_2 by done. by apply IH.
Qed.

Lemma find_entry_token n t l :
  SP ∉ n -> SP ∉ t -> t <> [] ->
  find_entry n true (t ++ SP :: l) = if decide (n = t) then Some (SP :: l) else find_entry n true l.
Proof.
  intros Hn Ht Hne. destruct t as [|c t]; [done|]. cbn [app find_entry andb].
  change (c :: t ++ SP :: l) with ((c :: t) ++ SP :: l). rewrite token_word by done.
  destruct (decide (n = c :: t)) as [->|Hd].
  - rewrite bool_decide_eq_true_2 by done. f_equal. by apply drop_app_length'.
  - rewrite bool_decide_eq_false_2 by done. apply not_elem_of_cons in Ht as [Hc Ht].
    rewrite is_space_iff, bool_decide_eq_false_2 by done. by apply find_entry_skip.
Qed.

Lemma find_entry_spaces n j l : word_ok n -> find_entry n true (replicate j SP ++ l) = find_entry n true l.
Proof.
  intros (Hne & _ & Hsp). induction j as [|j IH]; [done|]. cbn [replicate app find_entry andb].
  change (SP :: replicate j SP ++ l) with ([] ++ SP :: (replicate j SP ++ l)).
  rewrite token_word by (done || apply not_elem_of_nil). rewrite bool_decide_eq_false_2 by done.
  rewrite is_space_iff, bool_decide_eq_true_2 by done. done.
Qed.

(** One entry of a directory. *)
Lemma find_entry_entry n e l :
  word_ok n -> entry_ok e -> n <> dec e.2 ->
  find_entry n true (dir_entry e ++ l) =
  if decide (n = e.1) then Some (replicate (4 - length (dec e.2)) SP ++ dec e.2 ++ SP :: l) else find_entry n true l.
Proof.
  intros Hn [(Hw1 & Hw2 & Hw3) Hino] Hd. unfold dir_entry. destruct (dec_word e.2 Hino) as (Hd1 & _ & Hd3).
  destruct (dec_digits e.2 Hino) as (ds & Eds & _ & _ & _ & Hlen).
  destruct (4 - length (dec e.2))%nat as [|j] eqn:Ej; [rewrite Eds, length_fmap in Ej; lia|].
  rewrite <- !app_assoc. cbn [replicate app]. rewrite find_entry_token by (done || apply Hn).
  destruct (decide (n = e.1)) as [|Hne]; [done|]. rewrite find_entry_spaces by done.
  rewrite find_entry_token by (done || apply Hn). by rewrite decide_False.
Qed.

(** ** [atoi] *)

Lemma atoi_skip_ok j pre c l fuel :
  isspace c = false -> (j < fuel)%nat ->
  atoi_skip fuel (pre ++ replicate j SP ++ c :: l) (Z.of_nat (length pre)) tt =
  Ok (Z.of_nat (length pre + j), tt).
Proof.
  revert pre fuel. induction j as [|j IH]; intros pre fuel Hc Hf; destruct fuel as [|fuel]; try lia; cbn [atoi_skip replicate app].
  - rewrite (bind_ok _ _ _ _ _ (char_at_mid pre c l)), Hc. by rewrite Nat.add_0_r.
  - rewrite (bind_ok _ _ _ _ _ (char_at_mid pre SP _)). change (isspace SP) with true. cbv iota.
    specialize (IH (pre ++ [SP]) fuel Hc ltac:(lia)). rewrite length_app, <- app_assoc in IH. simpl in IH.
    replace (Z.of_nat (length pre) + 1) with (Z.of_nat (length pre + 1)) by lia. rewrite IH. do 3 f_equal. lia.
Qed.

Lemma atoi_digits_ok ds pre c l acc fuel :
  isdigit c = false -> Forall (fun k => 0 <= k < 10) ds -> (length ds < fuel)%nat ->
  atoi_digits fuel (pre ++ (digit <$> ds) ++ c :: l) (Z.of_nat (length pre)) acc tt =
  Ok (fold_left (fun a k => a * 10 + k) ds acc, tt).
Proof.
  intros Hc. revert pre acc fuel. induction ds as [|k ds IH]; intros pre acc fuel Hd Hf;
    destruct fuel as [|fuel]; simpl in Hf; try lia; cbn [atoi_digits fmap list_fmap app fold_left].
  - by rewrite (bind_ok _ _ _ _ _ (char_at_mid pre c l)), Hc.
  - apply Forall_cons in Hd as [Hk Hd]. rewrite (bind_ok _ _ _ _ _ (char_at_mid pre (digit k) _)).
    rewrite isdigit_digit, byte_Z_digit by done. replace (48 + k - 48) with k by lia.
    specialize (IH (pre ++ [digit k]) (acc * 10 + k) fuel Hd ltac:(lia)). rewrite length_app, <- app_assoc in IH. simpl in IH.
    replace (Z.of_nat (length pre) + 1) with (Z.of_nat (length pre + 1)) by lia. exact IH.
Qed.

Lemma isspace_digit k : 0 <= k < 10 -> isspace (digit k) = false.
Proof.
  intros Hk. unfold isspace. rewrite byte_Z_digit by done.
  destruct (Z.eqb_spec (48 + k) 32), (Z.leb_spec 9 (48 + k)), (Z.leb_spec (48 + k) 13); simpl; done || lia.
Qed.

(** [atoi] after spaces: the digits up to the first other character. *)
Lemma atoi_num pre j ds c l :
  ds <> [] -> Forall (fun k => 0 <= k < 10) ds -> isdigit c = false ->
  0 <= fold_left (fun a k => a * 10 + k) ds 0 < 2 ^ 31 ->
  atoi (pre ++ replicate j SP ++ (digit <$> ds) ++ c :: l) (Z.of_nat (length pre)) tt =
  Ok (fold_left (fun a k => a * 10 + k) ds 0, tt).
Proof.
  intros Hne Hd Hc Hv. unfold atoi.
  destruct ds as [|k ds]; [done|]. cbn [fmap list_fmap app]. pose proof Hd as [Hk _]%Forall_cons.
  set (a := pre ++ replicate j SP ++ digit k :: (digit <$> ds) ++ c :: l).
  assert (length a = length pre + j + S (length ds + S (length l)))%nat as Hla.
  { unfold a. rewrite !length_app, length_replicate. simpl. rewrite length_app, length_fmap. simpl. lia. }
  pose proof (atoi_skip_ok j pre (digit k) ((digit <$> ds) ++ c :: l) (S (length a)) (isspace_digit k Hk) ltac:(lia)) as Es.
  fold a in Es. rewrite (bind_ok _ _ _ _ _ Es).
  assert (a = (pre ++ replicate j SP) ++ (digit <$> k :: ds) ++ c :: l) as Ea by (unfold a; by rewrite <- !app_assoc).
  assert (length (pre ++ replicate j SP) = length pre + j)%nat as Hlp by (by rewrite length_app, length_replicate).
  rewrite Ea, <- Hlp. cbn [fmap list_fmap app]. rewrite (bind_ok _ _ _ _ _ (char_at_mid _ (digit k) _)).
  rewrite byte_Z_digit by done. rewrite (proj2 (Z.eqb_neq (48 + k) 45)), (proj2 (Z.eqb_neq (48 + k) 43)) by lia.
  cbn [orb]. pose proof (atoi_digits_ok (k :: ds) (pre ++ replicate j SP) c l 0 (S (length a)) Hc Hd ltac:(simpl; lia)) as E.
  rewrite Ea in E. cbn [fmap list_fmap app] in E. rewrite (bind_ok _ _ _ _ _ E).
  rewrite (proj2 (Z.leb_le _ _)), (proj2 (Z.ltb_lt _ _)) by lia. done.
Qed.

Lemma atoi_ok pre j n l :
  0 <= n < 1000 -> atoi (pre ++ replicate j SP ++ dec n ++ SP :: l) (Z.of_nat (length pre)) tt = Ok (n, tt).
Proof.
  intros Hn. destruct (dec_digits n Hn) as (ds & Eds & Hd & Hne & Hv & _). rewrite Eds.
  rewrite atoi_num, Hv; [done|done|done|by vm_compute|]. rewrite Hv. lia.
Qed.

(** ** Lookup *)

Lemma find_entry_suffix n sp l r : find_entry n sp l = Some r -> exists p, l = p ++ r.
Proof.
  revert sp. induction l as [|c l IH]; intros sp; [done|]. cbn [find_entry].
  destruct (sp && token_is n (c :: l)).
  - intros [= <-]. exists (take (length n) (c :: l)). symmetry. apply take_drop.
  - intros (p & ->)%IH. by exists (c :: p).
Qed.

Lemma find_entry_zeros n sp k : find_entry n sp (replicate k x00) = None.
Proof.
  revert sp. induction k as [|k IH]; intros sp; [done|].
  assert (token_is n (replicate (S k) x00) = false) as Ht.
  { unfold token_is. apply andb_false_iff. right. apply bool_decide_eq_false. by intros [? _]%lookup_replicate_1. }
  cbn [replicate find_entry] in *. by rewrite Ht, andb_false_r.
Qed.

Lemma find_entry_dir n es k :
  word_ok n -> Forall entry_ok es -> Forall (fun e => n <> dec e.2) es ->
  match assoc es n with
  | Some ino => 0 <= ino < 1000 /\ exists j r,
      find_entry n true (dir_text es ++ replicate k x00) = Some (replicate j SP ++ dec ino ++ SP :: r)
  | None => find_entry n true (dir_text es ++ replicate k x00) = None
  end.
Proof.
  intros Hn. unfold assoc. induction es as [|e es IH]; intros Hes Hd; [apply find_entry_zeros|].
  apply Forall_cons in Hes as [He Hes], Hd as [Hd Hds]. specialize (IH Hes Hds).
  unfold dir_text. cbn [mbind list_bind list_find]. fold (dir_text es). rewrite <- app_assoc, find_entry_entry by done.
  destruct (decide (e.1 = n)) as [->|Hne].
  - rewrite decide_True by done. simpl. split; [apply He|]. by eexists _, _.
  - rewrite (decide_False (P := n = e.1)) by congruence. change (es ≫= dir_entry) with (dir_text es).
    destruct (list_find (fun e : list byte * Z => e.1 = n) es) as [[i x]|]; exact IH.
Qed.

Lemma dir_text_nul es : Forall entry_ok es -> x00 ∉ dir_text es.
Proof.
  intros Hes. unfold dir_text. intros (e & Hin & He)%list_elem_of_bind. rewrite Forall_forall in Hes.
  destruct (Hes e He) as [(_ & H1 & _) H2]. destruct (dec_word e.2 H2) as (_ & H3 & _).
  unfold dir_entry in Hin. rewrite !elem_of_app in Hin. destruct Hin as [?|[Hr|[?|Hs]]]; try done.
  - by apply elem_of_replicate_inv in Hr.
  - by apply list_elem_of_singleton in Hs.
Qed.

Lemma dir_lookup_ok n es k r :
  word_ok n -> Forall entry_ok es -> Forall (fun e => n <> dec e.2) es ->
  (length n <= length (dir_text es))%nat -> Z.of_nat (length (dir_text es)) < 2 ^ 32 ->
  dir_do_lookup (dir_text es ++ replicate (S k) x00) (n ++ x00 :: r) tt = Ok (default (-1) (assoc es n), tt).
Proof.
  intros Hn Hes Hd Hlen Hsz. pose proof (dir_text_nul es Hes) as Hnul. unfold dir_do_lookup.
  rewrite (bind_ok _ _ _ _ _ (strlen_ok n r ltac:(apply Hn))).
  change (replicate (S k) x00) with (x00 :: replicate k x00).
  rewrite (bind_ok _ _ _ _ _ (strlen_ok (dir_text es) (replicate k x00) Hnul)).
  change (x00 :: replicate k x00) with (replicate (S k) x00).
  rewrite u32_small by (unfold is_u32; lia). change 0 with (Z.of_nat 0).
  rewrite (lookup_loop_ok n (dir_text es) r k) by (try apply Hn; try done; rewrite ?length_app; lia).
  rewrite drop_0. cbn [starts]. pose proof (find_entry_dir n es (S k) Hn Hes Hd) as Hf.
  destruct (assoc es n) as [ino|]; [|by rewrite Hf].
  destruct Hf as (Hi & j & r0 & Hf). rewrite Hf. destruct (find_entry_suffix _ _ _ _ Hf) as [p Hp].
  rewrite Hp, length_app. replace (length p + _ - _)%nat with (length p) by lia.
  by apply atoi_ok.
Qed.

(** A name that is longer than the contents. *)
Lemma dir_lookup_long n content k r :
  x00 ∉ n -> x00 ∉ content -> (length content < length n)%nat -> Z.of_nat (length n) < 2 ^ 31 ->
  Z.of_nat (length content + S k) < 2 ^ 31 ->
  dir_do_lookup (content ++ replicate (S k) x00) (n ++ x00 :: r) tt = Undef "char".
Proof.
  intros Hn Hc Hlen Hn31 Hk31. unfold dir_do_lookup. set (buf := content ++ replicate (S k) x00).
  rewrite (bind_ok _ _ _ _ _ (strlen_ok n r Hn)).
  assert (strlen buf tt = Ok (Z.of_nat (length content), tt)) as Eb by exact (strlen_ok content (replicate k x00) Hc).
  rewrite (bind_ok _ _ _ _ _ Eb).
  assert (u32 (Z.of_nat (length content) - Z.of_nat (length n)) = 2 ^ 32 + Z.of_nat (length content) - Z.of_nat (length n)) as ->.
  { unfold u32. rewrite <- (Z.mod_unique _ (2 ^ 32) (-1) (2 ^ 32 + Z.of_nat (length content) - Z.of_nat (length n))); lia. }
  assert (length buf = length content + S k)%nat as Hlb by (unfold buf; by rewrite length_app, length_replicate).
  assert (forall fuel i, (i <= length buf)%nat -> (length buf - i < fuel)%nat ->
    lookup_loop fuel buf (n ++ x00 :: r) (Z.of_nat (length n)) (2 ^ 32 + Z.of_nat (length content) - Z.of_nat (length n))
      (Z.of_nat i) tt = Undef "char") as Hloop; [|apply (Hloop _ 0%nat); lia].
  destruct n as [|c n]; [simpl in Hlen; lia|]. apply not_elem_of_cons in Hn as Hcn. destruct Hcn as [Hc0 _].
  induction fuel as [|fuel IH]; intros i Hi Hf; [lia|]. cbn [lookup_loop].
  rewrite (proj2 (Z.ltb_lt _ _)) by lia. destruct (decide (i = length buf)) as [->|Hne].
  { (* the first byte after the buffer *)
    unfold entry_at, bind at 1 2. rewrite Nat2Z.id. cbn [length strncmp_eq app].
    assert (char_at (c :: n ++ x00 :: r) 0 tt = Ok (c, tt)) as E0 by done.
    rewrite (bind_ok _ _ _ _ _ E0). unfold bind at 1. rewrite char_at_none; [done|].
    rewrite Nat2Z.id. by apply lookup_ge_None_2. }
  assert (entry_at buf ((c :: n) ++ x00 :: r) (Z.of_nat (length (c :: n))) (Z.of_nat i) tt = Ok (false, tt)) as E.
  { unfold entry_at. rewrite Nat2Z.id. destruct (decide (i <= length content)%nat) as [Hic|Hic].
    - pose proof (strncmp_ok (c :: n) [] r buf (Z.of_nat i) (length content) Hn ltac:(lia) ltac:(lia)
        (buf_end content k)) as E. rewrite Nat2Z.id in E.
      change (Z.of_nat (length [])) with 0 in E. rewrite app_nil_l in E. rewrite (bind_ok _ _ _ _ _ E).
      rewrite bool_decide_eq_false_2; [done|]. intros Hp. apply Hn. rewrite <- Hp.
      apply (list_elem_of_lookup_2 _ (length content - i)). rewrite lookup_take_lt by lia. rewrite lookup_drop.
      replace (i + (length content - i))%nat with (length content) by lia. apply (buf_end content k).
    - cbn [length strncmp_eq app]. assert (char_at (c :: n ++ x00 :: r) 0 tt = Ok (c, tt)) as E0 by done.
      assert (buf !! i = Some x00) as Hbi.
      { unfold buf. rewrite lookup_app_r by lia. apply lookup_replicate_2. lia. }
      unfold bind at 1. rewrite (bind_ok _ _ _ _ _ E0), (bind_ok _ _ _ _ _ (char_at_nat _ _ _ Hbi)).
      by rewrite decide_False by congruence. }
  rewrite (bind_ok _ _ _ _ _ E). replace (Z.of_nat i + 1) with (Z.of_nat (S i)) by lia. apply IH; lia.
Qed.
