(* ===== verification/Servers.v ===== *)
(** The servers of the file system and their clients: the structures of
    library/servers/servers.h, the calls of library/servers/servers.c, and the
    bodies of the request loops of apps/system/sys_file.c and
    apps/system/sys_dir.c.  A call of a server is a message to it and its reply:
    [deliver] is what the two copies of a message leave in the buffer of the
    receiver (grass/syscall.c; the kernel in between moves the whole message,
    see KernelTheorems.v). *)

From Stdlib Require Import ZArith Lia Strings.Byte.
From stdpp Require Import base numbers list strings gmap.
From S2P Require Import Prelude Bytes InodeStore Treedisk Kernel Elf Dir.

Local Open Scope egos_scope.

(** ** library/servers/servers.h *)

Definition FILE_READ : Z := 1.
Definition FILE_OK : Z := 0.
Definition FILE_ERROR : Z := 1.
Definition DIR_LOOKUP : Z := 1.
Definition DIR_NAME_SIZE : Z := 32.
Definition DIR_OK : Z := 0.
Definition DIR_ERROR : Z := 1.

(** [struct file_request]; its [block] is not used by a read. *)
Definition file_request (type ino offset : Z) (b : block) : list byte :=
  le_put 4 type ++ le_put 4 ino ++ le_put 4 offset ++ b.
(** [struct file_reply]. *)
Definition file_reply (status : Z) (b : block) : list byte := le_put 4 status ++ b.
(** [struct dir_request] and [struct dir_reply]. *)
Definition dir_request (type ino : Z) (name : list byte) : list byte := le_put 4 type ++ le_put 4 ino ++ name.
Definition dir_reply (status ino : Z) : list byte := le_put 4 status ++ le_put 4 ino.

(** ** Messages *)

(** [memcpy(sc->msg.content, msg, size)] in the content of the last message. *)
Definition deliver (content msg : list byte) : list byte := splice content 0 msg.

(** The value of an [int] field. *)
Definition int_field (buf : list byte) (off : Z) : Z := s32 (field buf off 4).

(** What a call finds: what the two message buffers held before, the sender of
    the next message, and the bytes that the request leaves uninitialised. *)
Record call := { content1 : list byte; content2 : list byte; sender : Z; uninit : list byte }.

Section file.
Context {S : Type} {IS : InodeStore S}.
Variable ts : treedisk_state.
Variable junk : block.

(** ** apps/system/sys_file.c *)

(** One round of the loop: the message that is sent back.  The reply is built
    in the buffer of the request. *)
Definition file_serve (buf : list byte) : M S (list byte) :=
  if field buf 0 4 =? FILE_READ then
    '(r, b) <- treedisk_read 7 junk ts (field buf 4 4) (field buf 8 4) (take (Z.to_nat BLOCK_SIZE) (drop 4 buf)) ;;
    ret (file_reply (if r =? 0 then FILE_OK else FILE_ERROR) b)
  else fatal "sys_file: request not implemented".

(** ** library/servers/servers.c *)

Definition file_read (c : call) (file_ino offset : Z) : M S (Z * block) :=
  reply <- file_serve (deliver (content1 c) (file_request FILE_READ file_ino offset (uninit c))) ;;
  if negb (sender c =? GPID_FILE) then fatal "file_read: an error occurred"
  else
  let buf := deliver (content2 c) reply in
  ret (if field buf 0 4 =? FILE_OK then 0 else -1, take (Z.to_nat BLOCK_SIZE) (drop 4 buf)).

(** ** apps/system/sys_dir.c *)

(** A computation without a state of its own. *)
Definition pure {A} (m : M unit A) : M S A := fun s =>
  match m tt with
  | Ok (a, _) => Ok (a, s)
  | Fatal msg => Fatal msg
  | Undef w => Undef w
  | NoFuel => NoFuel
  end.

(** [c] is the call of the file server. *)
Definition dir_serve (c : call) (buf : list byte) : M S (list byte) :=
  if field buf 0 4 =? DIR_LOOKUP then
    '(_, contents) <- file_read c (field buf 4 4) 0 ;;
    ino <- pure (dir_do_lookup contents (drop 8 buf)) ;;
    ret (dir_reply (if ino =? -1 then DIR_ERROR else DIR_OK) ino)
  else fatal "sys_dir: request not implemented".

(** [name] is a C string; [strcpy] must stay inside [req.name]. *)
Definition dir_lookup (c c' : call) (dir_ino : Z) (name : list byte) : M S Z :=
  n <- pure (strlen name) ;;
  if DIR_NAME_SIZE <=? n then undef "dir_lookup: strcpy"
  else
    let req := dir_request DIR_LOOKUP dir_ino
                 (take (Z.to_nat DIR_NAME_SIZE) (take (Z.to_nat (n + 1)) name ++ uninit c)) in
    reply <- dir_serve c' (deliver (content1 c) req) ;;
    if negb (sender c =? GPID_DIR) then fatal "dir_lookup: an error occurred"
    else
    let buf := deliver (content2 c) reply in
    ret (if field buf 0 4 =? DIR_OK then int_field buf 4 else -1).
End file.
