(* ===== verification/ServerProof.v ===== *)
(** Proofs on the servers: a call of the file server reads the file system, and
    a call of the directory server finds a name in a directory. *)

From Stdlib Require Import ZArith Lia Strings.Byte.
From stdpp Require Import base numbers list strings gmap.
From S2P Require Import Prelude Bytes InodeStore Treedisk TreediskSpec TreediskTrees TreediskProof TreediskUpdate TreediskTop.
From S2P Require Import Kernel Elf Dir DirProof Servers.

Local Open Scope egos_scope.

(** ** Messages *)

Lemma field_le z l : field (le_put 4 z ++ l) 0 4 = u32 z.
Proof.
  unfold field. change (Z.to_nat 0) with 0%nat. rewrite drop_0, take_app_length' by by rewrite length_le_put. apply le_get_put.
Qed.

Lemma field_skip z l off n : 0 <= off -> field (le_put 4 z ++ l) (4 + off) n = field l off n.
Proof.
  intros Ho. unfold field. replace (Z.to_nat (4 + off)) with (length (le_put 4 z) + Z.to_nat off)%nat
    by (rewrite length_le_put; lia). by rewrite drop_app_add.
Qed.

(** A part of a message is a part of the buffer it is delivered to. *)
Lemma deliver_part c msg m k :
  (length msg <= length c)%nat -> (m + k <= length msg)%nat -> take k (drop m (deliver c msg)) = take k (drop m msg).
Proof.
  intros Hl Hm. unfold deliver, splice. rewrite take_0, app_nil_l.
  rewrite drop_app_le, take_app_le by (rewrite ?length_drop; lia). done.
Qed.

Lemma deliver_field c msg off n :
  (length msg <= length c)%nat -> 0 <= off -> 0 <= n -> off + n <= Z.of_nat (length msg) ->
  field (deliver c msg) off n = field msg off n.
Proof. intros Hl Ho Hn Hm. unfold field. by rewrite deliver_part by lia. Qed.

Lemma drop_deliver c msg m :
  (length msg <= length c)%nat -> (m <= length msg)%nat ->
  drop m (deliver c msg) = drop m msg ++ drop (length msg) c.
Proof. intros Hl Hm. unfold deliver, splice. rewrite take_0, app_nil_l, drop_app_le by lia. done. Qed.

(** The buffers of a call have the size of messages. *)
Record call_ok (c : call) (from : Z) : Prop := {
  co_content1 : length (content1 c) = Z.to_nat SYSCALL_MSG_LEN;
  co_content2 : length (content2 c) = Z.to_nat SYSCALL_MSG_LEN;
  co_sender : sender c = from;
  co_uninit : length (uninit c) = Z.to_nat BLOCK_SIZE
}.

(** File [dir] is a directory with the entries [es]. *)
Record dir_holds (fs : gmap Z block) (dir : Z) (es : list (list byte * Z)) : Prop := {
  dh_block : exists k, fs_of fs !! Z.to_nat dir ≫= lookup 0%nat = Some (dir_text es ++ replicate (S k) x00);
  dh_entries : Forall entry_ok es;
  dh_ino : is_u32 dir
}.

(** A name that the directory server can look up among [es]. *)
Record name_ok (es : list (list byte * Z)) (n : list byte) : Prop := {
  nk_word : word_ok n;
  nk_size : Z.of_nat (length n) < DIR_NAME_SIZE;
  nk_short : (length n <= length (dir_text es))%nat;
  nk_number : Forall (fun e => n <> dec e.2) es
}.

Lemma assoc_range es n ino : Forall entry_ok es -> assoc es n = Some ino -> 0 <= ino < 1000.
Proof.
  unfold assoc. destruct (list_find _ es) as [[i e]|] eqn:Ef; [|done]. intros Hes [= <-].
  apply list_find_Some in Ef as (Hi & _ & _). rewrite Forall_forall in Hes. apply (Hes e).
  by eapply list_elem_of_lookup_2.
Qed.

Section servers.
Context {S : Type} {IS : InodeStore S}.
Variable ts : treedisk_state.
Context {LAWS : InodeStoreLaws S (below_ino ts)}.
Variable junk : block.
Abbreviation sz := (store_size S (below_ino ts)).
Abbreviation dsk := (store_blocks (below_ino ts)).

(** The block at [off] of file [ino], if there is one. *)
Definition fs_lookup (s : S) (ino off : Z) : option block := fs_of (dsk s) !! Z.to_nat ino ≫= lookup (Z.to_nat off).

Lemma tree_lookup_ok (s : S) n b off : block_ok (tree_lookup (dsk s) n b off).
Proof.
  revert b. induction n as [|n IH]; intros b; cbn [tree_lookup]; destruct (b =? 0); try apply null_block_ok.
  - apply (blk_ok ts).
  - apply IH.
Qed.

Lemma treedisk_read_lookup s ino off buf F :
  fs_inv sz (dsk s) F -> 0 <= ino -> 0 <= off ->
  exists s', dsk s' = dsk s /\
    treedisk_read 7 junk ts ino off buf s =
    Ok (match fs_lookup s ino off with Some b => (0, b) | None => (-1, buf) end, s') /\
    forall b, fs_lookup s ino off = Some b -> block_ok b.
Proof.
  intros I Hino Hoff. unfold fs_lookup. destruct (Z.lt_ge_cases ino (ninode (dsk s))) as [Hlt|Hge].
  - rewrite fs_of_lookup by lia. cbn [mbind option_bind]. rewrite file_of_lookup by lia.
    destruct (read_ok ts junk s ino off buf F I) as (s' & ED & E); [lia..|].
    exists s'. split; [done|]. rewrite E. split; [by case_goal|]. intros b. case_goal; [|done].
    intros [= <-]. apply tree_lookup_ok.
  - rewrite fs_of_none by lia. destruct (read_bad_inode ts junk s ino off buf F I) as (s' & ED & E); [lia|].
    by exists s'.
Qed.

(** A call of the file server. *)
Lemma file_read_ok s c ino off F :
  fs_inv sz (dsk s) F -> call_ok c GPID_FILE -> is_u32 ino -> is_u32 off ->
  exists s' b, dsk s' = dsk s /\
    file_read ts junk c ino off s = Ok ((match fs_lookup s ino off with Some _ => 0 | None => -1 end, b), s') /\
    block_ok b /\ forall b', fs_lookup s ino off = Some b' -> b = b'.
Proof.
  intros I [C1 C2 C3 C4] Hino Hoff. unfold file_read, file_serve.
  set (msg := file_request FILE_READ ino off (uninit c)).
  assert (length msg = 524)%nat as Hlm.
  { unfold msg, file_request. rewrite !length_app, !length_le_put, C4. done. }
  assert (length msg <= length (content1 c))%nat as Hl1 by (rewrite Hlm, C1; vm_compute; lia).
  rewrite !deliver_field by (rewrite ?Hlm; lia).
  assert (field msg 0 4 = FILE_READ) as -> by apply field_le.
  assert (field msg 4 4 = ino) as ->.
  { unfold msg, file_request. rewrite (field_skip _ _ 0) by lia. rewrite field_le. by apply u32_small. }
  assert (field msg 8 4 = off) as ->.
  { unfold msg, file_request. rewrite (field_skip _ _ 4), (field_skip _ _ 0) by lia. rewrite field_le. by apply u32_small. }
  rewrite Z.eqb_refl, deliver_part; [|exact Hl1|rewrite Hlm; unfold BLOCK_SIZE; lia].
  set (buf := take _ (drop 4 msg)).
  assert (block_ok buf) as Hbuf.
  { unfold block_ok, buf. rewrite length_take, length_drop, Hlm. unfold BLOCK_SIZE. lia. }
  destruct (treedisk_read_lookup s ino off buf F I) as (s' & ED & E & Hbk); [apply Hino|apply Hoff|].
  assert (exists r b, match fs_lookup s ino off with Some b => (0, b) | None => (-1, buf) end = (r, b) /\ block_ok b /\
    r = (match fs_lookup s ino off with Some _ => 0 | None => -1 end) /\
    (forall b', fs_lookup s ino off = Some b' -> b = b')) as (r & b & Em & Hb & Hr & Hbb).
  { destruct (fs_lookup s ino off) as [b|]; [exists 0, b|exists (-1), buf]; naive_solver. }
  rewrite Em in E. exists s', b. split; [done|]. unfold bind. rewrite E. cbn [ret]. rewrite C3.
  change (negb (GPID_FILE =? GPID_FILE)) with false. cbv iota zeta.
  set (rep := file_reply _ b).
  assert (length rep = 516)%nat as Hlr by (unfold rep, file_reply; rewrite length_app, length_le_put, Hb; done).
  assert (length rep <= length (content2 c))%nat as Hl2 by (rewrite Hlr, C2; vm_compute; lia).
  rewrite deliver_field, deliver_part; [|exact Hl2|rewrite Hlr; unfold BLOCK_SIZE; lia|exact Hl2|lia|lia|rewrite Hlr; lia].
  split; [|done]. unfold ret, rep, file_reply. rewrite field_le.
  rewrite drop_app_length' by by rewrite length_le_put. rewrite take_ge by (rewrite Hb; lia).
  rewrite <- Hr. by destruct (fs_lookup s ino off); subst r.
Qed.

(** A call of the directory server. *)
Lemma dir_lookup_call s c c' dir_ino n r es k F :
  fs_inv sz (dsk s) F -> call_ok c GPID_DIR -> call_ok c' GPID_FILE -> is_u32 dir_ino ->
  fs_lookup s dir_ino 0 = Some (dir_text es ++ replicate (Datatypes.S k) x00) ->
  word_ok n -> Z.of_nat (length n) < DIR_NAME_SIZE -> (length n <= length (dir_text es))%nat ->
  Forall entry_ok es -> Forall (fun e => n <> dec e.2) es ->
  exists s', dsk s' = dsk s /\
    dir_lookup ts junk c c' dir_ino (n ++ x00 :: r) s = Ok (default (-1) (assoc es n), s').
Proof.
  intros I [C1 C2 C3 C4] Hc' Hino Hdir Hn Hn32 Hlen Hes Hd. unfold dir_lookup.
  assert (pure (S := S) (strlen (n ++ x00 :: r)) s = Ok (Z.of_nat (length n), s)) as E1.
  { unfold pure. rewrite strlen_ok by apply Hn. done. }
  rewrite (bind_ok _ _ _ _ _ E1), (proj2 (Z.leb_gt _ _)) by done. cbv zeta.
  assert (take (Z.to_nat (Z.of_nat (length n) + 1)) (n ++ x00 :: r) = n ++ [x00]) as ->.
  { replace (Z.to_nat (Z.of_nat (length n) + 1)) with (length (n ++ [x00])) by (rewrite length_app; simpl; lia).
    replace (n ++ x00 :: r) with ((n ++ [x00]) ++ r) by by rewrite <- app_assoc. apply take_app_length. }
  set (nm := take _ ((n ++ [x00]) ++ uninit c)).
  assert (exists t, nm = n ++ x00 :: t /\ length nm = 32%nat) as (t & Hnm & Hlnm).
  { unfold nm. rewrite take_app_ge by (rewrite length_app; simpl; unfold DIR_NAME_SIZE in *; lia).
    exists (take (Z.to_nat DIR_NAME_SIZE - length (n ++ [x00])) (uninit c)). split; [by rewrite <- !app_assoc|].
    rewrite length_app, length_take, C4, length_app. simpl. unfold DIR_NAME_SIZE, BLOCK_SIZE in *. lia. }
  set (msg := dir_request DIR_LOOKUP dir_ino nm).
  assert (length msg = 40)%nat as Hlm by (unfold msg, dir_request; rewrite !length_app, !length_le_put; lia).
  assert (length msg <= length (content1 c))%nat as Hl1 by (rewrite Hlm, C1; vm_compute; lia).
  unfold dir_serve. rewrite !deliver_field by (rewrite ?Hlm; lia).
  assert (field msg 0 4 = DIR_LOOKUP) as -> by apply field_le.
  assert (field msg 4 4 = dir_ino) as ->.
  { unfold msg, dir_request. rewrite (field_skip _ _ 0) by lia. rewrite field_le. by apply u32_small. }
  rewrite Z.eqb_refl. destruct (file_read_ok s c' dir_ino 0 F I Hc' Hino) as (s' & b & ED & E & Hb & Hbb); [done|].
  specialize (Hbb _ Hdir). subst b. exists s'. split; [done|].
  set (req := deliver (content1 c) msg).
  assert (drop 8 req = n ++ x00 :: (t ++ drop (length msg) (content1 c))) as Hname.
  { unfold req. rewrite drop_deliver by lia. unfold msg at 1, dir_request. rewrite (app_assoc (le_put 4 _)).
    rewrite drop_app_length' by by rewrite length_app, !length_le_put. rewrite Hnm. by rewrite <- app_assoc. }
  assert (Z.of_nat (length (dir_text es)) < 2 ^ 32) as Hsz.
  { unfold block_ok in Hb. rewrite length_app in Hb. unfold BLOCK_SIZE in Hb. lia. }
  pose proof (dir_lookup_ok n es k (t ++ drop (length msg) (content1 c)) Hn Hes Hd Hlen Hsz) as El.
  set (v := default (-1) (assoc es n)) in *.
  assert (v = -1 \/ 0 <= v < 1000) as Hv.
  { unfold v, assoc. destruct (list_find _ es) as [[i e]|] eqn:Ef; [|by left]. right.
    apply list_find_Some in Ef as (Hi & _ & _). rewrite Forall_forall in Hes. apply (Hes e).
    by eapply list_elem_of_lookup_2. }
  unfold bind at 1 2. rewrite E. unfold bind at 1. unfold pure. rewrite Hname, El. cbn [ret]. rewrite C3.
  change (negb (GPID_DIR =? GPID_DIR)) with false. cbv iota zeta.
  set (rep := dir_reply _ v). assert (length rep = 8)%nat as Hlr by (unfold rep, dir_reply; by rewrite length_app, !length_le_put).
  assert (length rep <= length (content2 c))%nat as Hl2 by (rewrite Hlr, C2; vm_compute; lia).
  unfold int_field. rewrite !deliver_field by (rewrite ?Hlr; lia). unfold ret. do 2 f_equal.
  unfold rep, dir_reply. rewrite field_le, (field_skip _ _ 0) by lia.
  rewrite <- (app_nil_r (le_put 4 v)), field_le.
  destruct (Z.eqb_spec v (-1)) as [->|Hne]; [done|]. destruct Hv as [?|Hv]; [done|].
  change (u32 DIR_OK =? DIR_OK) with true. cbv iota. rewrite u32_small by (unfold is_u32; lia). apply s32_small. lia.
Qed.
End servers.
