(* ===== verification/Shell.v ===== *)
(** The parser of the shell, apps/system/sys_shell.c, and what it computes: the
    words of the line. *)

From Stdlib Require Import ZArith Lia Strings.Byte.
From stdpp Require Import base numbers list strings.
From S2P Require Import Prelude Bytes Elf Dir DirProof.

Local Open Scope egos_scope.

(** The part of [struct proc_request] (library/servers/servers.h) that the
    parser fills; [argv] is the array of 16 strings of 32 bytes. *)
Record proc_request := { argc : Z; argv : list byte }.

(** [req->argv[nargs][idx] = c]. *)
Definition set_argv (l : list byte) (nargs idx : Z) (c : byte) : M unit (list byte) :=
  if (0 <=? nargs) && (nargs <? CMD_NARGS) && (0 <=? idx) && (idx <? CMD_ARG_LEN)
  then ret (<[Z.to_nat (nargs * CMD_ARG_LEN + idx) := c]> l) else undef "argv".

(** The loop over the characters of the line; [None] is [return -1]. *)
Fixpoint parse_loop (line : list byte) (idx nargs : Z) (l : list byte) : M unit (option proc_request) :=
  match line with
  | [] => ret (Some {| argc := if negb (idx =? 0) then nargs + 1 else nargs; argv := l |})
  | c :: line' =>
      if negb (is_space c) then
        l <- set_argv l nargs idx c ;;
        if CMD_ARG_LEN <=? idx + 1 then ret None else parse_loop line' (idx + 1) nargs l
      else if negb (idx =? 0) then
        l <- set_argv l nargs idx x00 ;;
        if CMD_NARGS <=? nargs + 1 then ret None else parse_loop line' 0 (nargs + 1) l
      else parse_loop line' idx nargs l
  end.

Definition parse_request (buf : list byte) : M unit (option proc_request) :=
  n <- strlen buf ;;
  parse_loop (take (Z.to_nat n) buf) 0 0 (replicate (Z.to_nat (CMD_NARGS * CMD_ARG_LEN)) x00).

(** ** The words of a line *)

(** The words of [line] when [w] was read of the first one. *)
Fixpoint words_from (w line : list byte) : list (list byte) :=
  match line with
  | [] => if decide (w = []) then [] else [w]
  | c :: line' =>
      if decide (c = SP) then if decide (w = []) then words_from [] line' else w :: words_from [] line'
      else words_from (w ++ [c]) line'
  end.
Definition words (line : list byte) : list (list byte) := words_from [] line.

(** The number of words that a space ends. *)
Fixpoint ended_from (w line : list byte) : nat :=
  match line with
  | [] => 0
  | c :: line' =>
      if decide (c = SP) then (if decide (w = []) then ended_from [] line' else S (ended_from [] line'))
      else ended_from (w ++ [c]) line'
  end.
Definition ended (line : list byte) : nat := ended_from [] line.

(** The array for given words. *)
Definition pad (w : list byte) : list byte := w ++ replicate (32 - length w) x00.
Definition args_array (ws : list (list byte)) : list byte :=
  (ws ≫= pad) ++ replicate (512 - 32 * length ws) x00.

Lemma length_pads ws : Forall (fun w => length w <= 32)%nat ws -> length (ws ≫= pad) = (32 * length ws)%nat.
Proof.
  induction 1 as [|w ws Hw _ IH]; [done|]. cbn [mbind list_bind]. rewrite length_app.
  change (list_bind _ _ pad ws) with (ws ≫= pad). rewrite IH. unfold pad. rewrite length_app, length_replicate.
  simpl length. lia.
Qed.

Lemma args_array_snoc ws w :
  (length ws < 16)%nat ->
  args_array (ws ++ [w]) = (ws ≫= pad) ++ pad w ++ replicate (480 - 32 * length ws) x00.
Proof.
  intros Hl. unfold args_array. rewrite bind_app. cbn [mbind list_bind]. rewrite app_nil_r, <- app_assoc, length_app.
  do 3 f_equal. simpl. lia.
Qed.

Lemma args_array_empty ws : (length ws < 16)%nat -> args_array (ws ++ [[]]) = args_array ws.
Proof.
  intros Hl. rewrite args_array_snoc by done. unfold args_array, pad. f_equal. cbn [app length].
  rewrite <- replicate_add. f_equal. lia.
Qed.

(** A character at the end of the current word. *)
Lemma args_array_set ws w c :
  Forall (fun w => length w <= 32)%nat ws -> (length ws < 16)%nat -> (length w < 32)%nat ->
  <[(32 * length ws + length w)%nat := c]> (args_array (ws ++ [w])) =
  (ws ≫= pad) ++ (w ++ c :: replicate (31 - length w) x00) ++ replicate (480 - 32 * length ws) x00.
Proof.
  intros Hws Hl Hw. rewrite args_array_snoc by done. pose proof (length_pads ws Hws) as Hlp. rewrite <- Hlp.
  rewrite insert_app_r. f_equal. rewrite insert_app_l by (unfold pad; rewrite length_app, length_replicate; lia). f_equal.
  unfold pad. replace (length w) with (length w + 0)%nat at 1 by lia. rewrite insert_app_r. f_equal.
  by replace (32 - length w)%nat with (S (31 - length w)) by lia.
Qed.

Lemma set_argv_ok ws w c :
  Forall (fun w => length w <= 32)%nat ws -> (length ws < 16)%nat -> (length w < 32)%nat ->
  set_argv (args_array (ws ++ [w])) (Z.of_nat (length ws)) (Z.of_nat (length w)) c tt =
  Ok ((ws ≫= pad) ++ (w ++ c :: replicate (31 - length w) x00) ++ replicate (480 - 32 * length ws) x00, tt).
Proof.
  intros Hws Hl Hw. unfold set_argv, CMD_NARGS, CMD_ARG_LEN.
  rewrite !(proj2 (Z.leb_le _ _)), !(proj2 (Z.ltb_lt _ _)) by lia. cbn [andb]. unfold ret. do 2 f_equal.
  replace (Z.to_nat _) with (32 * length ws + length w)%nat by lia. by apply args_array_set.
Qed.

Lemma args_array_char ws w c :
  (length ws < 16)%nat -> (length w < 32)%nat ->
  (ws ≫= pad) ++ (w ++ c :: replicate (31 - length w) x00) ++ replicate (480 - 32 * length ws) x00 =
  args_array (ws ++ [w ++ [c]]).
Proof.
  intros Hl Hw. rewrite args_array_snoc by done. f_equal. f_equal. unfold pad. rewrite <- app_assoc, length_app. simpl.
  do 3 f_equal. lia.
Qed.

Lemma args_array_nul ws w :
  (length ws < 16)%nat -> (length w < 32)%nat ->
  (ws ≫= pad) ++ (w ++ x00 :: replicate (31 - length w) x00) ++ replicate (480 - 32 * length ws) x00 =
  args_array (ws ++ [w]).
Proof.
  intros Hl Hw. rewrite args_array_snoc by done. f_equal. f_equal. unfold pad. f_equal.
  by replace (32 - length w)%nat with (S (31 - length w)) by lia.
Qed.

(** What the loop returns from a line: the words, unless one is too long or too
    many are ended. *)
Definition fits (w line : list byte) (n : nat) : bool :=
  forallb (fun w => length w <? 32)%nat (words_from w line) && (n + ended_from w line <? 16)%nat.

Lemma words_from_long w line :
  (32 <= length w)%nat -> forallb (fun w => length w <? 32)%nat (words_from w line) = false.
Proof.
  revert w. induction line as [|c line IH]; intros w Hw; cbn [words_from].
  - rewrite decide_False by (intros ->; simpl in Hw; lia). cbn [forallb].
    by rewrite (proj2 (Nat.ltb_ge _ _)) by lia.
  - rewrite (decide_False (P := w = [])) by (intros ->; simpl in Hw; lia). case_decide.
    + cbn [forallb]. by rewrite (proj2 (Nat.ltb_ge _ _)) by lia.
    + apply IH. rewrite length_app. lia.
Qed.

Lemma parse_loop_ok line : forall ws w,
  Forall (fun w => length w <= 32)%nat ws -> (length ws < 16)%nat -> (length w < 32)%nat ->
  parse_loop line (Z.of_nat (length w)) (Z.of_nat (length ws)) (args_array (ws ++ [w])) tt =
  Ok (if fits w line (length ws)
      then Some {| argc := Z.of_nat (length (ws ++ words_from w line)); argv := args_array (ws ++ words_from w line) |}
      else None, tt).
Proof.
  induction line as [|c line IH]; intros ws w Hws Hl Hw; unfold fits; cbn [parse_loop words_from ended_from].
  - destruct (decide (w = [])) as [->|Hne]; cbn [length forallb andb].
    + rewrite (proj2 (Nat.ltb_lt _ _)) by lia. rewrite args_array_empty, app_nil_r by done. done.
    + rewrite !(proj2 (Nat.ltb_lt _ _)) by lia. cbn [andb].
      rewrite (proj2 (Z.eqb_neq (Z.of_nat (length w)) 0)) by (destruct w; [done|simpl; lia]). cbn [negb].
      unfold ret. do 4 f_equal. rewrite length_app. simpl. lia.
  - rewrite is_space_iff. destruct (decide (c = SP)) as [->|Hc].
    + rewrite bool_decide_eq_true_2 by done. cbn [negb]. destruct (decide (w = [])) as [->|Hne].
      * cbn [length]. change (negb (Z.of_nat 0 =? 0)) with false. cbv iota. apply (IH ws []); [done..|simpl; lia].
      * rewrite (proj2 (Z.eqb_neq (Z.of_nat (length w)) 0)) by (destruct w; [done|simpl; lia]). cbn [negb].
        rewrite (bind_ok _ _ _ _ _ (set_argv_ok ws w x00 Hws Hl Hw)), args_array_nul by done.
        cbn [forallb]. rewrite (proj2 (Nat.ltb_lt (length w) 32)) by lia. cbn [andb]. unfold CMD_NARGS.
        destruct (Z.leb_spec 16 (Z.of_nat (length ws) + 1)) as [H16|H16].
        { replace (length ws + S (ended_from [] line) <? 16)%nat with false by (symmetry; apply Nat.ltb_ge; lia).
          by rewrite andb_false_r. }
        specialize (IH (ws ++ [w]) []). rewrite <- !app_assoc in IH. cbn [app] in IH.
        replace (Z.of_nat (length ws) + 1) with (Z.of_nat (length (ws ++ [w]))) by (rewrite length_app; simpl; lia).
        change 0 with (Z.of_nat (length (@nil byte))).
        rewrite <- (args_array_empty (ws ++ [w])) by (rewrite length_app; simpl; lia). rewrite <- app_assoc. cbn [app].
        rewrite IH; [| |rewrite length_app; simpl; lia|simpl; lia].
        -- unfold fits. rewrite length_app. cbn [length].
           by replace (length ws + 1 + ended_from [] line)%nat with (length ws + S (ended_from [] line))%nat by lia.
        -- apply Forall_app. split; [done|]. apply Forall_singleton. lia.
    + rewrite bool_decide_eq_false_2 by done. cbn [negb].
      rewrite (bind_ok _ _ _ _ _ (set_argv_ok ws w c Hws Hl Hw)), args_array_char by done.
      replace (Z.of_nat (length w) + 1) with (Z.of_nat (length (w ++ [c]))) by (rewrite length_app; simpl; lia).
      unfold CMD_ARG_LEN. destruct (Z.leb_spec 32 (Z.of_nat (length (w ++ [c])))) as [H32|H32].
      * rewrite words_from_long by lia. done.
      * apply IH; [done|done|lia].
Qed.

(** The parser on a line. *)
Lemma parse_request_ok line r :
  x00 ∉ line ->
  parse_request (line ++ x00 :: r) tt =
  Ok (if fits [] line 0 then Some {| argc := Z.of_nat (length (words line)); argv := args_array (words line) |} else None, tt).
Proof.
  intros Hl. unfold parse_request. rewrite (bind_ok _ _ _ _ _ (strlen_ok line r Hl)), Nat2Z.id, take_app_length.
  exact (parse_loop_ok line [] [] ltac:(constructor) ltac:(simpl; lia) ltac:(simpl; lia)).
Qed.
