(* ===== verification/Mkfs.v ===== *)
(** The disk image, tools/mkfs.c: [mkfs] builds the file system, [main] puts the
    paging area, the kernel executables and the file system one after the
    other.  The directories and the README are in the source, the executables
    are files of the build. *)

From Stdlib Require Import ZArith Lia Strings.Byte Strings.String.
From stdpp Require Import base numbers list strings gmap.
From S2P Require Import Prelude Bytes InodeStore Treedisk Memory Earth RamDisk.

Local Open Scope egos_scope.

Definition str (s : string) : list byte := list_byte_of_string s.

Definition NINODE : Z := 16.
Definition contents : list (list byte) := str <$> [
  "./   0 ../   0 home/   1 bin/   6 ";
  "./   1 ../   0 yunhao/   2 rvr/   3 lorenzo/   4 ";
  "./   2 ../   1 README   5 ";
  "./   3 ../   1 ";
  "./   4 ../   1 ";
  "With only 2000 lines of code, egos-2000 implements boot loader, microSD driver, tty driver, memory paging, address translation, interrupt handling, process scheduling and messaging, system call, file system, shell, 7 user commands and the `mkfs/mkrom` tools.";
  "./   6 ../   0 echo   7 cat   8 ls   9 cd  10 pwd  11 clock  12 crash1  13 crash2  14 ult  15 ";
  "#../build/release/echo.elf";
  "#../build/release/cat.elf";
  "#../build/release/ls.elf";
  "#../build/release/cd.elf";
  "#../build/release/pwd.elf";
  "#../build/release/clock.elf";
  "#../build/release/crash1.elf";
  "#../build/release/crash2.elf";
  "#../build/release/ult.elf"]%string.

(** The size of [buf]. *)
Definition BUF_SIZE : Z := GRASS_EXEC_SIZE / GRASS_NEXEC.

(** The 512 bytes that [strncpy(buf, s, BLOCK_SIZE)] writes. *)
Definition strncpy_block (s : list byte) : block :=
  take (Z.to_nat BLOCK_SIZE) (s ++ replicate (Z.to_nat BLOCK_SIZE) x00).

(** [buf + b * BLOCK_SIZE]. *)
Definition buf_block (buf : list byte) (b : nat) : block :=
  take (Z.to_nat BLOCK_SIZE) (drop (b * Z.to_nat BLOCK_SIZE) buf).

Section mkfs.
Context {S : Type} {IS : InodeStore S}.
Variable ts : treedisk_state.
Variable junk : block.
(** The file at a path of the build. *)
Variable exe : list byte -> list byte.

(** [for (uint b = 0; b * BLOCK_SIZE < st.st_size; b++)]: [n] rounds from [b]. *)
Fixpoint write_blocks_of (ino : Z) (buf : list byte) (b n : nat) : M S unit :=
  match n with
  | O => ret tt
  | Datatypes.S n' =>
      treedisk_write 7 junk ts ino (Z.of_nat b) (buf_block buf b) ;;;
      write_blocks_of ino buf (Datatypes.S b) n'
  end.

(** The number of rounds. *)
Definition blocks_of (size : nat) : nat := (size + 511) / 512.

(** One inode; [buf] is shared by all, and is returned. *)
Definition mkfs_one (ino : Z) (c buf : list byte) : M S (list byte) :=
  if negb (bool_decide (c !! 0%nat = Some x23)) then
    let buf := splice buf 0 (strncpy_block c) in
    treedisk_write 7 junk ts ino 0 (take (Z.to_nat BLOCK_SIZE) buf) ;;;
    ret buf
  else
    let f := exe (tail c) in
    if BUF_SIZE <? Z.of_nat (length f) then undef "mkfs: buf"
    else
      let buf := splice buf 0 f in
      write_blocks_of ino buf 0 (blocks_of (length f)) ;;;
      ret buf.

Fixpoint mkfs_loop (ino : Z) (cs : list (list byte)) (buf : list byte) : M S unit :=
  match cs with
  | [] => ret tt
  | c :: cs' => buf <- mkfs_one ino c buf ;; mkfs_loop (ino + 1) cs' buf
  end.

(** [buf] is not initialised.  The return values of the writes are ignored. *)
Definition mkfs (buf : list byte) : M S unit :=
  r <- treedisk_create junk ts NINODES ;;
  if r <? 0 then fatal "assert" else mkfs_loop 0 contents buf.
End mkfs.

(** ** [main] *)

Definition NKERNEL_PROC : Z := 5.
Definition kernel_processes : list (list byte) := str <$> [
  "../build/release/grass.elf";
  "../build/release/sys_proc.elf";
  "../build/release/sys_file.elf";
  "../build/release/sys_dir.elf";
  "../build/release/sys_shell.elf"]%string.

(** [exec] after [memset(exec, 0, GRASS_EXEC_SIZE)], and before it is written to. *)
Definition exec_zero : list byte := replicate (Z.to_nat GRASS_EXEC_SIZE) x00.
Definition exec_size : Z := GRASS_EXEC_SIZE / GRASS_NEXEC.

(** What the loop writes for one kernel executable [f]. *)
Definition kernel_image (f : list byte) : M mem (list byte) :=
  let size := Z.of_nat (length f) in
  if (0 <? size) && (size <=? exec_size) then
    let exec := splice exec_zero 0 f in
    ret (take (Z.to_nat size) exec ++ take (Z.to_nat (exec_size - size)) exec_zero)
  else fatal "assert".

Fixpoint kernel_images (exe : list byte -> list byte) (ps : list (list byte)) : M mem (list byte) :=
  match ps with
  | [] => ret []
  | p :: ps' => l <- kernel_image (exe p) ;; r <- kernel_images exe ps' ;; ret (l ++ r)
  end.

(** The file disk.img; the state is the array [fs], zeros at the start. *)
Definition mkfs_main (junk : block) (exe : list byte -> list byte) (buf : list byte) : M mem (list byte) :=
  mkfs {| below_ino := 0; ninodes := 0 |} junk exe buf ;;;
  let paging := take (Z.to_nat PAGING_DEV_SIZE) exec_zero in
  execs <- kernel_images exe kernel_processes ;;
  let rest := take (Z.to_nat ((GRASS_NEXEC - NKERNEL_PROC) * exec_size)) exec_zero in
  fs <- get ;;
  ret (paging ++ execs ++ rest ++ load fs 0 FS_DISK_SIZE).
