(* ===== verification/MkfsProof.v ===== *)
(** Proofs on the file system image: after [mkfs] the file system is well formed
    and holds the files of the table. *)

From Stdlib Require Import ZArith Lia Strings.Byte.
From stdpp Require Import base numbers list strings gmap.
From S2P Require Import Prelude Bytes InodeStore Treedisk TreediskSpec TreediskTrees TreediskProof TreediskUpdate.
From S2P Require Import TreediskTop TreediskCreate Memory Earth RamDisk Mkfs.

Local Open Scope egos_scope.

Lemma tree_missing_le D n b off : (tree_missing D n b off <= Datatypes.S n)%nat.
Proof.
  revert b. induction n as [|n IH]; intros b; cbn [tree_missing]; destruct (b =? 0); try lia.
  specialize (IH (refs (blk D b) (idx n off))). lia.
Qed.

(** A file of at most 128 blocks has at most one level of indirect blocks. *)
Lemma levels_small n : 0 <= n <= 128 -> (levels n <= 1)%nat.
Proof.
  intros Hn. unfold levels. destruct (depth_spec (Z.max 0 (n - 1))) as (_ & _ & H); [unfold is_u32; lia|].
  destruct (decide (depth (Z.max 0 (n - 1)) <= 1)%nat) as [?|Hgt]; [done|]. specialize (H 1%nat ltac:(lia)). lia.
Qed.

Section mkfs.
Context {S : Type} {IS : InodeStore S}.
Variable ts : treedisk_state.
Context {LAWS : InodeStoreLaws S (below_ino ts)}.
Variable junk : block.
Abbreviation sz := (store_size S (below_ino ts)).
Abbreviation dsk := (store_blocks (below_ino ts)).

(** Appending a block to a small file. *)
Lemma write_append s (ino : nat) f b F :
  fs_inv sz (dsk s) F -> fs_of (dsk s) !! ino = Some f -> (length f < 128)%nat -> block_ok b -> (2 <= length F)%nat ->
  exists s' F', treedisk_write 7 junk ts (Z.of_nat ino) (Z.of_nat (length f)) b s = Ok (0, s') /\
    fs_inv sz (dsk s') F' /\ fs_of (dsk s') = <[ino := f ++ [b]]> (fs_of (dsk s)) /\ (length F <= length F' + 2)%nat.
Proof.
  intros I Hf Hl Hb HF.
  assert (0 <= Z.of_nat ino < ninode (dsk s)) as Hino.
  { pose proof (lookup_lt_Some _ _ _ Hf) as Hlt. unfold fs_of in Hlt. rewrite length_fmap, length_seqZ in Hlt. lia. }
  pose proof (fs_of_lookup (dsk s) (Z.of_nat ino) Hino) as Hl1. rewrite Nat2Z.id, Hf in Hl1. injection Hl1 as Hfile.
  assert (i_nblocks (dsk s) (Z.of_nat ino) = Z.of_nat (length f)) as Hnb.
  { rewrite Hfile. unfold file_of. rewrite length_fmap, length_seqZ. pose proof (i_nblocks_u32 (dsk s) (Z.of_nat ino)) as [? _]. lia. }
  assert (write_need (dsk s) (Z.of_nat ino) (Z.of_nat (length f)) <= 2)%nat as Hneed.
  { unfold write_need. rewrite Hnb. pose proof (levels_small (Z.of_nat (length f)) ltac:(lia)) as H1.
    pose proof (levels_small (Z.max (Z.of_nat (length f)) (Z.of_nat (length f) + 1)) ltac:(lia)) as H2.
    destruct (levels _ - levels _)%nat as [|k] eqn:Ek; [|lia].
    pose proof (tree_missing_le (dsk s) (levels (Z.of_nat (length f))) (i_root (dsk s) (Z.of_nat ino)) (Z.of_nat (length f))). lia. }
  destruct (write_ok ts junk s (Z.of_nat ino) (Z.of_nat (length f)) b F) as (s' & L & F' & E & U & HL); [done|done|lia|done|lia|].
  exists s', F'. split; [done|]. split; [|split].
  - eapply updated_inv; [done|done|done|lia|intros; apply store_dom|intros ? ?; apply store_block_ok].
  - rewrite (updated_fs sz _ _ _ _ _ L F F' I U) by (done || lia). rewrite !Nat2Z.id. f_equal.
    rewrite <- Hfile. unfold file_write. replace (length f + 1 - length f)%nat with 1%nat by lia.
    replace (length f) with (length f + 0)%nat at 1 by lia. by rewrite insert_app_r.
  - rewrite (Permutation_length (up_taken _ _ _ _ _ _ _ _ U)), length_app. lia.
Qed.

Lemma write_blocks_of_ok ino buf n : forall s f F,
  fs_inv sz (dsk s) F -> fs_of (dsk s) !! ino = Some f -> (length f + n <= 128)%nat -> (2 * n <= length F)%nat ->
  (forall b, (b < length f + n)%nat -> block_ok (buf_block buf b)) ->
  exists s' F', write_blocks_of ts junk (Z.of_nat ino) buf (length f) n s = Ok (tt, s') /\ fs_inv sz (dsk s') F' /\
    fs_of (dsk s') = <[ino := f ++ (buf_block buf <$> seq (length f) n)]> (fs_of (dsk s)) /\
    (length F <= length F' + 2 * n)%nat.
Proof.
  induction n as [|n IH]; intros s f F I Hf Hl HF Hb; cbn [write_blocks_of seq fmap list_fmap].
  - exists s, F. split; [done|]. split; [done|]. split; [|lia]. rewrite app_nil_r. by rewrite list_insert_id.
  - destruct (write_append s ino f (buf_block buf (length f)) F I Hf) as (s1 & F1 & E1 & I1 & Hfs1 & HF1);
      [lia|apply Hb; lia|lia|].
    rewrite (bind_ok _ _ _ _ _ E1).
    destruct (IH s1 (f ++ [buf_block buf (length f)]) F1 I1) as (s2 & F2 & E2 & I2 & Hfs2 & HF2).
    + rewrite Hfs1. apply list_lookup_insert_eq. by eapply lookup_lt_Some.
    + rewrite length_app. simpl. lia.
    + lia.
    + intros b Hlt. apply Hb. rewrite length_app in Hlt. simpl in Hlt. lia.
    + rewrite length_app in E2, Hfs2. simpl in E2, Hfs2. rewrite Nat.add_1_r in E2, Hfs2.
      exists s2, F2. split; [done|]. split; [done|]. split; [|lia].
      rewrite Hfs2, Hfs1, list_insert_insert_eq. by rewrite <- app_assoc.
Qed.

Variable exe : list byte -> list byte.

(** The file that [mkfs_one] writes, and the buffer it leaves. *)
Definition mkfs_file (c buf : list byte) : list block * list byte :=
  if negb (bool_decide (c !! 0%nat = Some x23)) then ([strncpy_block c], splice buf 0 (strncpy_block c))
  else let buf := splice buf 0 (exe (tail c)) in (buf_block buf <$> seq 0 (blocks_of (length (exe (tail c)))), buf).

(** The executables are not larger than 128 blocks. *)
Definition exe_ok (c : list byte) : Prop := (length (exe (tail c)) <= 128 * 512)%nat.

(** A bound on the blocks that an inode takes from the free list. *)
Definition cost (c : list byte) : nat := if negb (bool_decide (c !! 0%nat = Some x23)) then 2 else 256.

Lemma strncpy_block_ok c : block_ok (strncpy_block c).
Proof. unfold block_ok, strncpy_block. rewrite length_take, length_app, length_replicate. lia. Qed.

Lemma mkfs_one_ok ino c buf s F :
  fs_inv sz (dsk s) F -> fs_of (dsk s) !! ino = Some [] -> Z.of_nat (length buf) = BUF_SIZE -> exe_ok c ->
  (cost c <= length F)%nat ->
  exists s' F', mkfs_one ts junk exe (Z.of_nat ino) c buf s = Ok ((mkfs_file c buf).2, s') /\ fs_inv sz (dsk s') F' /\
    fs_of (dsk s') = <[ino := (mkfs_file c buf).1]> (fs_of (dsk s)) /\ (length F <= length F' + cost c)%nat /\
    Z.of_nat (length (mkfs_file c buf).2) = BUF_SIZE.
Proof.
  intros I Hf Hbuf Hexe HF. unfold mkfs_one, mkfs_file, cost in *. change BUF_SIZE with (512 * 256) in *.
  destruct (negb (bool_decide (c !! 0%nat = Some x23))); cbv zeta; cbn [fst snd].
  - pose proof (strncpy_block_ok c) as Hok. unfold block_ok in Hok. change (Z.to_nat BLOCK_SIZE) with 512%nat in *.
    assert (take 512 (splice buf 0 (strncpy_block c)) = strncpy_block c) as ->.
    { unfold splice. rewrite take_0, app_nil_l, take_app_length' by done. done. }
    destruct (write_append s ino [] (strncpy_block c) F I Hf) as (s' & F' & E & I' & Hfs & HF'); [simpl; lia|done|lia|].
    exists s', F'. rewrite (bind_ok _ _ _ _ _ E). split; [done|]. split; [done|]. split; [done|].
    split; [lia|]. rewrite length_splice; lia.
  - unfold exe_ok in Hexe. set (f := exe (tail c)) in *.
    rewrite (proj2 (Z.ltb_ge _ _)) by lia.
    assert (length (splice buf 0 f) = length buf) as Hls by (apply length_splice; lia).
    assert (blocks_of (length f) <= 128)%nat as Hnb.
    { unfold blocks_of. apply Nat.lt_succ_r, Nat.Div0.div_lt_upper_bound. lia. }
    destruct (write_blocks_of_ok ino (splice buf 0 f) (blocks_of (length f)) s [] F I Hf) as (s' & F' & E & I' & Hfs & HF').
    + simpl. lia.
    + lia.
    + intros b Hb. unfold block_ok, buf_block. rewrite length_take, length_drop, Hls. change (Z.to_nat BLOCK_SIZE) with 512%nat.
      simpl in Hb. lia.
    + exists s', F'. simpl in E. rewrite (bind_ok _ _ _ _ _ E). split; [done|]. split; [done|]. split; [done|].
      split; [lia|]. rewrite Hls. done.
Qed.

Fixpoint mkfs_files (cs : list (list byte)) (buf : list byte) : list (list block) :=
  match cs with
  | [] => []
  | c :: cs' => (mkfs_file c buf).1 :: mkfs_files cs' (mkfs_file c buf).2
  end.

Lemma mkfs_loop_ok cs : forall fs0 m buf s F,
  fs_inv sz (dsk s) F -> fs_of (dsk s) = fs0 ++ replicate (length cs + m) [] -> Z.of_nat (length buf) = BUF_SIZE ->
  Forall exe_ok cs -> (sum_list_with cost cs <= length F)%nat ->
  exists s' F', mkfs_loop ts junk exe (Z.of_nat (length fs0)) cs buf s = Ok (tt, s') /\ fs_inv sz (dsk s') F' /\
    fs_of (dsk s') = fs0 ++ mkfs_files cs buf ++ replicate m [].
Proof.
  induction cs as [|c cs IH]; intros fs0 m buf s F I Hfs Hbuf Hexe HF; cbn [mkfs_loop mkfs_files app].
  - by exists s, F.
  - apply Forall_cons in Hexe as [Hc Hcs]. simpl in HF.
    destruct (mkfs_one_ok (length fs0) c buf s F I) as (s1 & F1 & E1 & I1 & Hfs1 & HF1 & Hb1); [|done|done|lia|].
    { rewrite Hfs. by apply list_lookup_middle. }
    rewrite (bind_ok _ _ _ _ _ E1).
    destruct (IH (fs0 ++ [(mkfs_file c buf).1]) m (mkfs_file c buf).2 s1 F1 I1) as (s2 & F2 & E2 & I2 & Hfs2); [|done|done|lia|].
    { rewrite Hfs1, Hfs. replace (length fs0) with (length fs0 + 0)%nat at 1 by lia. rewrite insert_app_r.
      rewrite <- app_assoc. done. }
    rewrite length_app in E2. simpl in E2. replace (Z.of_nat (length fs0 + 1)) with (Z.of_nat (length fs0) + 1) in E2 by lia.
    exists s2, F2. split; [done|]. split; [done|]. by rewrite Hfs2, <- app_assoc.
Qed.

Lemma mkfs_ok buf s :
  block_ok junk -> sz = 4096 -> nib (dsk s) = 0 -> Z.of_nat (length buf) = BUF_SIZE -> Forall exe_ok contents ->
  exists s' F, mkfs ts junk exe buf s = Ok (tt, s') /\ fs_inv sz (dsk s') F /\
    fs_of (dsk s') = mkfs_files contents buf ++ replicate 112 [].
Proof.
  intros Hj Hsz H0 Hbuf Hexe. unfold mkfs.
  destruct (create_ok ts junk Hj s NINODES) as (s1 & F1 & E1 & I1 & Hfs1 & HF1); [done|done|by rewrite Hsz|done|].
  rewrite (bind_ok _ _ _ _ _ E1). change (0 <? 0) with false. cbv iota.
  destruct (mkfs_loop_ok contents [] 112 buf s1 F1 I1) as (s2 & F2 & E2 & I2 & Hfs2); [done|done|done| |].
  { rewrite (Permutation_length HF1), length_seqZ, Hsz. apply Nat.leb_le. vm_compute. reflexivity. }
  exists s2, F2. done.
Qed.

(** ** The contents of the files *)

Lemma buf_blocks_concat buf n :
  (n * 512 <= length buf)%nat -> concat (buf_block buf <$> seq 0 n) = take (n * 512) buf.
Proof.
  induction n as [|n IH]; intros Hn; [done|].
  rewrite seq_S, fmap_app, concat_app, IH by lia. cbn [fmap list_fmap concat]. rewrite app_nil_r.
  unfold buf_block. change (Z.to_nat BLOCK_SIZE) with 512%nat. simpl (0 + n)%nat.
  replace (Datatypes.S n * 512)%nat with (n * 512 + 512)%nat by lia. by rewrite take_take_drop.
Qed.

(** What inode [c] of the table is to hold: its text padded to a block, or the
    executable, in as few blocks as it needs. *)
Definition holds (c : list byte) (f : list block) : Prop :=
  if negb (bool_decide (c !! 0%nat = Some x23)) then f = [strncpy_block c]
  else take (length (exe (tail c))) (concat f) = exe (tail c) /\ length f = blocks_of (length (exe (tail c))).

Lemma mkfs_file_holds c buf : Z.of_nat (length buf) = BUF_SIZE -> exe_ok c -> holds c (mkfs_file c buf).1.
Proof.
  intros Hbuf Hexe. unfold holds, mkfs_file, exe_ok in *. change BUF_SIZE with (512 * 256) in Hbuf.
  destruct (negb (bool_decide (c !! 0%nat = Some x23))); [done|]. cbv zeta. cbn [fst]. set (f := exe (tail c)) in *.
  assert (length (splice buf 0 f) = length buf) as Hls by (apply length_splice; lia).
  assert (length f <= blocks_of (length f) * 512 <= length f + 511)%nat as Hnb.
  { unfold blocks_of. pose proof (Nat.div_mod (length f + 511) 512 ltac:(lia)).
    pose proof (Nat.mod_upper_bound (length f + 511) 512 ltac:(lia)). lia. }
  split; [|by rewrite length_fmap, length_seq].
  rewrite buf_blocks_concat by lia. rewrite take_take, Nat.min_l by lia. unfold splice.
  by rewrite take_0, app_nil_l, take_app_length' by done.
Qed.

Lemma length_mkfs_file_buf c buf :
  Z.of_nat (length buf) = BUF_SIZE -> exe_ok c -> Z.of_nat (length (mkfs_file c buf).2) = BUF_SIZE.
Proof.
  intros Hbuf Hexe. unfold mkfs_file, exe_ok in *. change BUF_SIZE with (512 * 256) in *.
  pose proof (strncpy_block_ok c) as Hok. unfold block_ok in Hok. change (Z.to_nat BLOCK_SIZE) with 512%nat in *.
  destruct (negb (bool_decide (c !! 0%nat = Some x23))); cbv zeta; cbn [snd]; rewrite length_splice; lia.
Qed.

Lemma mkfs_files_hold cs : forall buf,
  Z.of_nat (length buf) = BUF_SIZE -> Forall exe_ok cs -> Forall2 holds cs (mkfs_files cs buf).
Proof.
  induction cs as [|c cs IH]; intros buf Hbuf Hexe; [constructor|]. apply Forall_cons in Hexe as [Hc Hcs].
  constructor; [by apply mkfs_file_holds|]. apply IH; [by apply length_mkfs_file_buf|done].
Qed.
End mkfs.

(** ** The disk image *)

(** Block [b] of an image. *)
Definition img_block (img : list byte) (b : Z) : block :=
  take (Z.to_nat BLOCK_SIZE) (drop (Z.to_nat (b * BLOCK_SIZE)) img).

(** An executable in its segment of the image. *)
Definition exec_segment (f : list byte) : list byte := f ++ replicate (Z.to_nat exec_size - length f) x00.

Definition exe_fits (f : list byte) : Prop := 0 < Z.of_nat (length f) <= exec_size.

Lemma length_exec_segment f : exe_fits f -> length (exec_segment f) = Z.to_nat exec_size.
Proof. intros [H1 H2]. unfold exec_segment. rewrite length_app, length_replicate. lia. Qed.

Lemma kernel_image_ok f s : exe_fits f -> kernel_image f s = Ok (exec_segment f, s).
Proof.
  intros [H1 H2]. unfold kernel_image. cbv zeta.
  rewrite (proj2 (Z.ltb_lt _ _)), (proj2 (Z.leb_le _ _)) by lia. cbn [andb]. unfold ret. do 2 f_equal.
  unfold exec_segment. rewrite Nat2Z.id. unfold splice. rewrite take_0, app_nil_l, take_app_length. f_equal.
  unfold exec_zero. rewrite take_replicate, Nat.min_l; [f_equal; lia|].
  apply Z2Nat.inj_le; [lia|done|]. assert (exec_size <= GRASS_EXEC_SIZE) by (by vm_compute). lia.
Qed.

Lemma kernel_images_ok exe ps s :
  Forall (fun p => exe_fits (exe p)) ps ->
  kernel_images exe ps s = Ok (concat ((fun p => exec_segment (exe p)) <$> ps), s).
Proof.
  induction 1 as [|p ps Hp _ IH]; [done|]. cbn [kernel_images].
  rewrite (bind_ok _ _ _ _ _ (kernel_image_ok _ s Hp)), (bind_ok _ _ _ _ _ IH). done.
Qed.

(** A part of one of several pieces of the same length. *)
Lemma concat_part {A} (n m k i : nat) (ls : list (list A)) l r :
  Forall (fun l => length l = n) ls -> ls !! i = Some l -> (m + k <= n)%nat ->
  take k (drop (i * n + m) (concat ls ++ r)) = take k (drop m l).
Proof.
  intros Hls. revert i. induction Hls as [|l0 ls Hl0 Hls IH]; intros i Hi Hmk; [done|]. cbn [concat]. rewrite <- app_assoc.
  destruct i as [|i]; simpl in Hi.
  - injection Hi as ->. simpl. rewrite drop_app_le, take_app_le by (rewrite ?length_drop; lia). done.
  - replace (S i * n + m)%nat with (length l0 + (i * n + m))%nat by lia. rewrite drop_app_add. by apply IH.
Qed.

Lemma concat_length_same {A} n (ls : list (list A)) : Forall (fun l => length l = n) ls -> length (concat ls) = (length ls * n)%nat.
Proof. induction 1 as [|l ls Hl _ IH]; [done|]. cbn [concat length]. rewrite length_app, IH, Hl. lia. Qed.

(** The blocks of the file system are those of the array. *)
Lemma load_block m b : 0 <= b < 4096 -> img_block (load m 0 FS_DISK_SIZE) b = load m (b * BLOCK_SIZE) BLOCK_SIZE.
Proof.
  intros Hb. unfold img_block. apply list_eq. intros k. rewrite load_lookup. unfold BLOCK_SIZE in *.
  destruct (Z.ltb_spec (Z.of_nat k) 512) as [Hk|Hk].
  - rewrite lookup_take_lt, lookup_drop, load_lookup by lia. change FS_DISK_SIZE with (4096 * 512).
    rewrite (proj2 (Z.ltb_lt _ _)) by lia. do 2 f_equal. lia.
  - by rewrite lookup_take_ge by lia.
Qed.

Lemma img_block_app l r a b :
  length l = Z.to_nat (a * BLOCK_SIZE) -> 0 <= a -> 0 <= b -> img_block (l ++ r) (a + b) = img_block r b.
Proof.
  intros Hl Ha Hb. unfold img_block. replace (Z.to_nat ((a + b) * BLOCK_SIZE)) with (length l + Z.to_nat (b * BLOCK_SIZE))%nat
    by (rewrite Hl; unfold BLOCK_SIZE; lia). by rewrite drop_app_add.
Qed.

Section image.
Variables (exe : list byte -> list byte) (s : mem).
Hypothesis execs_fit : Forall (fun p => exe_fits (exe p)) kernel_processes.
Let segs := (fun p => exec_segment (exe p)) <$> kernel_processes.
Let img := take (Z.to_nat PAGING_DEV_SIZE) exec_zero ++ concat segs ++
  take (Z.to_nat ((GRASS_NEXEC - NKERNEL_PROC) * exec_size)) exec_zero ++ load s 0 FS_DISK_SIZE.

Lemma segs_length : Forall (fun l => length l = Z.to_nat exec_size) segs.
Proof. unfold segs. apply Forall_fmap. eapply Forall_impl; [exact execs_fit|]. intros p Hp. by apply length_exec_segment. Qed.

Lemma length_segs : length segs = 5%nat.
Proof. unfold segs. by rewrite length_fmap. Qed.

Lemma length_zero n : 0 <= n <= GRASS_EXEC_SIZE -> length (take (Z.to_nat n) exec_zero) = Z.to_nat n.
Proof. intros Hn. unfold exec_zero. rewrite length_take, length_replicate. lia. Qed.

Lemma image_length : Z.of_nat (length img) = 8192 * BLOCK_SIZE.
Proof.
  unfold img. rewrite !length_app, (concat_length_same _ _ segs_length), length_segs, !length_zero, length_load by done.
  change PAGING_DEV_SIZE with (2048 * 512). change exec_size with (256 * 512). change GRASS_NEXEC with 8.
  change NKERNEL_PROC with 5. change FS_DISK_SIZE with (4096 * 512). unfold BLOCK_SIZE. lia.
Qed.

Lemma image_exec i p b :
  kernel_processes !! i = Some p -> 0 <= b < GRASS_EXEC_SEGMENT ->
  img_block img (GRASS_EXEC_START + Z.of_nat i * GRASS_EXEC_SEGMENT + b) = img_block (exec_segment (exe p)) b.
Proof.
  intros Hi Hb. change GRASS_EXEC_SEGMENT with 256 in *. rewrite <- Z.add_assoc.
  unfold img. rewrite img_block_app; [|by rewrite length_zero|done|lia].
  unfold img_block. replace (Z.to_nat ((Z.of_nat i * 256 + b) * BLOCK_SIZE))
    with (i * Z.to_nat exec_size + Z.to_nat (b * BLOCK_SIZE))%nat
    by (change exec_size with (256 * 512); unfold BLOCK_SIZE; lia).
  apply concat_part; [apply segs_length|unfold segs; by rewrite list_lookup_fmap, Hi|].
  change exec_size with (256 * 512). unfold BLOCK_SIZE. lia.
Qed.

Lemma image_fs b :
  0 <= b < 4096 -> array_blocks 4096 s !! b = Some (img_block img (GRASS_FS_START + b)).
Proof.
  intros Hb. rewrite array_blocks_lookup, (proj2 (Z.leb_le _ _)), (proj2 (Z.ltb_lt _ _)) by lia. cbn [andb]. f_equal.
  unfold img. change GRASS_FS_START with (2048 + (1280 + 768)). rewrite <- !Z.add_assoc.
  rewrite img_block_app; [|by rewrite length_zero|lia|lia].
  rewrite img_block_app; [|rewrite (concat_length_same _ _ segs_length), length_segs|lia|lia].
  - rewrite img_block_app; [|by rewrite length_zero|lia|lia]. by rewrite load_block.
  - change exec_size with (256 * 512). unfold BLOCK_SIZE. lia.
Qed.
End image.

(** An array of zeros has no file system. *)
Lemma array_fresh : nib (array_blocks 4096 ∅) = 0.
Proof. unfold nib, blk. rewrite array_blocks_lookup. vm_compute. reflexivity. Qed.

(** The image that [main] writes. *)
Lemma mkfs_image_ok (junk : block) (exe : list byte -> list byte) (buf : list byte) :
  block_ok junk -> Z.of_nat (length buf) = BUF_SIZE ->
  Forall (fun p => exe_fits (exe p)) kernel_processes -> Forall (exe_ok exe) contents ->
  exists img s F files, mkfs_main junk exe buf ∅ = Ok (img, s) /\
    Z.of_nat (length img) = 8192 * BLOCK_SIZE /\
    (forall i p b, kernel_processes !! i = Some p -> 0 <= b < GRASS_EXEC_SEGMENT ->
      img_block img (GRASS_EXEC_START + Z.of_nat i * GRASS_EXEC_SEGMENT + b) = img_block (exec_segment (exe p)) b) /\
    (forall b, 0 <= b < 4096 -> array_blocks 4096 s !! b = Some (img_block img (GRASS_FS_START + b))) /\
    fs_inv 4096 (array_blocks 4096 s) F /\
    fs_of (array_blocks 4096 s) = files ++ replicate 112 [] /\ Forall2 (holds exe) contents files.
Proof.
  intros Hj Hbuf Hk He.
  destruct (mkfs_ok {| below_ino := 0; ninodes := 0 |} junk exe buf ∅) as (s & F & E & I & Hfs);
    [done|done|by apply array_fresh|done|done|].
  exists (take (Z.to_nat PAGING_DEV_SIZE) exec_zero ++ concat ((fun p => exec_segment (exe p)) <$> kernel_processes) ++
    take (Z.to_nat ((GRASS_NEXEC - NKERNEL_PROC) * exec_size)) exec_zero ++ load s 0 FS_DISK_SIZE), s, F, (mkfs_files exe contents buf).
  split.
  { etransitivity; [exact (bind_ok _ _ _ _ _ E)|]. cbv zeta.
    by rewrite (bind_ok _ _ _ _ _ (kernel_images_ok exe kernel_processes s Hk)). }
  split; [by apply image_length|]. split; [intros; by apply image_exec|]. split; [intros; by apply image_fs|].
  split; [exact I|]. split; [exact Hfs|]. by apply mkfs_files_hold.
Qed.
