(* ===== verification/Log.v ===== *)
(** What the system prints: the log functions of earth/dev_tty.c
    ([tty_printf], [tty_info], [tty_fatal], [tty_success], [tty_critical]), the
    conversions of [vprintf] that the sources use, the buffer of the standard
    output between [vprintf] and [_write], and the other system calls that
    library/libc/print.c gives to the C library. *)

From Stdlib Require Import ZArith Lia.
From Stdlib Require Import Strings.Byte.
From stdpp Require Import base numbers list strings.
From S2P Require Import Prelude Bytes Earth Bus Tty Dir DirProof Mkfs.

Local Open Scope egos_scope.

(** ** The conversions *)

(** An argument of a variadic function: a 32-bit integer or a string. *)
Inductive arg := Int (v : Z) | Str (s : list byte).

(** The digits of [n] in a base from 2 on, the first one first; 32 rounds are
    enough for 32 bits. *)
Fixpoint digits (fuel : nat) (base n : Z) (acc : list Z) : list Z :=
  match fuel with
  | O => acc
  | S fuel' => if n <? base then n :: acc else digits fuel' base (n / base) (n mod base :: acc)
  end.
(** The digits with at least [prec] of them. *)
Definition number (base : Z) (prec : nat) (n : Z) : list Z :=
  let ds := digits 32 base n [] in replicate (prec - length ds) 0 ++ ds.
Definition hex_digit (k : Z) : byte := if k <? 10 then digit k else Z_byte (87 + k).
Definition decimal (z : Z) : list byte :=
  (if z <? 0 then [x2d] else []) ++ (digit <$> number 10 1 (Z.abs z)).

(** The text of one argument for the conversion [c], with the precision if there
    is one; the sources give one to [x] only. *)
Definition convert (prec : option nat) (c : byte) (a : arg) : M unit (list byte) :=
  match c, prec, a with
  | x64, None, Int v => ret (decimal (s32 v))                            (* d *)
  | x75, None, Int v => ret (digit <$> number 10 1 (u32 v))              (* u *)
  | x78, _, Int v => ret (hex_digit <$> number 16 (default 1%nat prec) (u32 v))  (* x *)
  | x63, None, Int v => ret [Z_byte v]                                   (* c *)
  | x73, None, Str s => n <- strlen s ;; ret (take (Z.to_nat n) s)        (* s *)
  | _, _, _ => undef "printf: conversion"
  end.

(** Reading a format: plain text, or a conversion with the precision read so far.
    A [long] has 32 bits, so [l] changes nothing. *)
Inductive mode := Text | Conv (prec : option nat).

Fixpoint format_text (md : mode) (fmt : list byte) (args : list arg) : M unit (list byte) :=
  match fmt with
  | [] => match md with Text => ret [] | Conv _ => undef "printf: format" end
  | c :: fmt' =>
      match md with
      | Text =>
          if decide (c = x25) then format_text (Conv None) fmt' args
          else l <- format_text Text fmt' args ;; ret (c :: l)
      | Conv prec =>
          if decide (c = x6c) then format_text (Conv prec) fmt' args
          else if decide (c = x2e) then format_text (Conv (Some O)) fmt' args
          else if isdigit c then
            match prec with
            | Some p => format_text (Conv (Some (10 * p + Z.to_nat (byte_Z c - 48))%nat)) fmt' args
            | None => undef "printf: field width"
            end
          else
            match args with
            | [] => undef "printf: too few arguments"
            | a :: args' => t <- convert prec c a ;; l <- format_text Text fmt' args' ;; ret (t ++ l)
            end
      end
  end.

(** ** The standard output *)

Record stdio (B : Type) := { stdout : list byte; device : tty_state B }.
Arguments stdout {B}.
Arguments device {B}.

Section log.
Context {B : Type} `{Bus B} (platform : platform_t) (fuel : nat).
(** How many bytes of its buffer the C library hands to [_write] after it added
    some text to it. *)
Context (ready : list byte -> nat).
Abbreviation st := (stdio B).

Definition on_device {A} (m : M (tty_state B) A) : M st A := fun s =>
  match m (device s) with
  | Ok (a, d) => Ok (a, {| stdout := stdout s; device := d |})
  | Fatal msg => Fatal msg
  | Undef w => Undef w
  | NoFuel => NoFuel
  end.
Definition set_stdout (l : list byte) (s : st) : st := {| stdout := l; device := device s |}.

(** The first [n] bytes of the buffer go to [_write]. *)
Definition flush (n : nat) : M st unit :=
  s <- get ;;
  on_device (_write platform fuel STDOUT_FILENO (byte_Z <$> take n (stdout s))) ;;;
  modify (set_stdout (drop n (stdout s))).
Definition fflush : M st unit := s <- get ;; flush (length (stdout s)).

Definition pure {A} (m : M unit A) : M st A := fun s =>
  match m tt with
  | Ok (a, _) => Ok (a, s)
  | Fatal msg => Fatal msg
  | Undef w => Undef w
  | NoFuel => NoFuel
  end.
Definition vprintf (fmt : list byte) (args : list arg) : M st unit :=
  l <- pure (format_text Text fmt args) ;;
  s <- get ;;
  modify (set_stdout (stdout s ++ l)) ;;;
  flush (ready (stdout s ++ l)).

(** ** earth/dev_tty.c *)

Definition LOG (x y fmt : list byte) (args : list arg) : M st unit :=
  vprintf x [] ;;; vprintf fmt args ;;; vprintf y [].

Definition CRLF : list byte := [x0d; x0a].
(** ESC and a colour. *)
Definition ESC (s : string) : list byte := x1b :: str s.

Definition tty_printf (fmt : list byte) (args : list arg) : M st unit := LOG [] [] fmt args ;;; fflush.
Definition tty_info : list byte -> list arg -> M st unit := LOG (str "[INFO] ") CRLF.
(** [while(1);] *)
Fixpoint spin (n : nat) : M st unit := match n with O => nofuel | S n' => spin n' end.
Definition tty_fatal (n : nat) (fmt : list byte) (args : list arg) : M st unit :=
  LOG (ESC "[1;31m[FATAL] ") (ESC "[1;0m" ++ CRLF) fmt args ;;; spin n.
Definition tty_success : list byte -> list arg -> M st unit :=
  LOG (ESC "[1;32m[SUCCESS] ") (ESC "[1;0m" ++ CRLF).
Definition tty_critical : list byte -> list arg -> M st unit :=
  LOG (ESC "[1;33m[CRITICAL] ") (ESC "[1;0m" ++ CRLF).
End log.

(** ** The rest of library/libc/print.c *)

Definition _close (file : Z) : Z := -1.
Definition _fstat (file : Z) : Z := -1.
Definition _lseek (file ptr dir : Z) : Z := -1.
Definition _read (file len : Z) : Z := -1.
Definition _isatty (file : Z) : Z := if file =? STDOUT_FILENO then 1 else 0.
Definition _getpid : Z := -1.

(** ** What reaches the serial line *)

Section proof.
Context {B : Type} (platform : platform_t) `{UartLaws B (UART0_BASE platform)}.
Context (fuel : nat) (enough : (busy_max < fuel)%nat) (ready : list byte -> nat).
Abbreviation st := (stdio B).

(** [text] is printed: it leaves the buffer after what the buffer held, and
    nothing of it stays there. *)
Definition prints (m : M st unit) (s : st) (text : list byte) : Prop :=
  exists s', m s = Ok (tt, s') /\ stdout s' = [] /\
    sent (tty_bus (device s')) = sent (tty_bus (device s)) ++ (byte_Z <$> stdout s ++ text) /\
    pending (tty_bus (device s')) = pending (tty_bus (device s)) /\
    tty_c (device s') = tty_c (device s) /\ is_reading (device s') = is_reading (device s).

(** [text] is added to what was sent or is in the buffer. *)
Definition adds (m : M st unit) (s : st) (text : list byte) (s' : st) : Prop :=
  m s = Ok (tt, s') /\
  sent (tty_bus (device s')) ++ (byte_Z <$> stdout s') =
    sent (tty_bus (device s)) ++ (byte_Z <$> stdout s ++ text) /\
  pending (tty_bus (device s')) = pending (tty_bus (device s)) /\
  tty_c (device s') = tty_c (device s) /\ is_reading (device s') = is_reading (device s).

Lemma sent_bytes (l : list byte) : (fun c => c mod 2 ^ 8) <$> (byte_Z <$> l) = byte_Z <$> l.
Proof.
  induction l as [|c l IH]; [done|]. cbn [fmap list_fmap] in *. f_equal; [|exact IH].
  pose proof (byte_Z_range c). apply Z.mod_small. lia.
Qed.

Lemma flush_ok n s : exists s', adds (flush platform fuel n) s [] s' /\ stdout s' = drop n (stdout s).
Proof using enough.
  destruct (tty_write_spec platform fuel (byte_Z <$> take n (stdout s)) (device s) enough) as (b & E & S' & P).
  exists {| stdout := drop n (stdout s);
            device := {| tty_c := tty_c (device s); is_reading := is_reading (device s); tty_bus := b |} |}.
  split; [|done]. split; [|split; [|done]].
  - unfold flush, bind, get, on_device, _write, modify, ret. cbn [negb Z.eqb STDOUT_FILENO Pos.eqb].
    unfold bind, ret. by rewrite E.
  - cbn [device tty_bus stdout]. rewrite S', sent_bytes, <- app_assoc, <- fmap_app, take_drop, app_nil_r. done.
Qed.

Lemma vprintf_ok fmt args l s :
  format_text Text fmt args tt = Ok (l, tt) ->
  exists s', adds (vprintf platform fuel ready fmt args) s l s' /\
    stdout s' = drop (ready (stdout s ++ l)) (stdout s ++ l).
Proof using enough.
  intros El. destruct (flush_ok (ready (stdout s ++ l)) (set_stdout (stdout s ++ l) s)) as (s' & (E & S1 & P) & D).
  exists s'. split; [|exact D]. split; [|split; [|exact P]].
  - unfold vprintf, bind at 1, pure. rewrite El. exact E.
  - rewrite S1. cbn [set_stdout stdout device]. by rewrite app_nil_r.
Qed.

Lemma adds_trans m1 m2 s l1 s1 l2 s2 :
  adds m1 s l1 s1 -> adds m2 s1 l2 s2 -> adds (m1 ;;; m2) s (l1 ++ l2) s2.
Proof.
  intros (E1 & S1 & P1 & C1 & R1) (E2 & S2 & P2 & C2 & R2).
  split; [by rewrite (bind_ok _ _ _ _ _ E1)|]. split; [|by rewrite P2, C2, R2].
  rewrite S2, fmap_app, (app_assoc (sent _)), S1, <- app_assoc, <- fmap_app, <- app_assoc. done.
Qed.

Lemma adds_prints m s l s' : adds m s l s' -> stdout s' = [] -> prints m s l.
Proof.
  intros (E & S1 & P) D. exists s'. split; [exact E|]. split; [exact D|]. split; [|exact P].
  by rewrite D, app_nil_r in S1.
Qed.

(** Text without a percent sign stands for itself, before a format and alone. *)
Lemma format_prefix l fmt args r :
  x25 ∉ l -> format_text Text fmt args tt = Ok (r, tt) -> format_text Text (l ++ fmt) args tt = Ok (l ++ r, tt).
Proof.
  intros Hl Hr. induction l as [|c l IH]; [done|]. apply not_elem_of_cons in Hl as [Hc Hl]. cbn [app format_text].
  rewrite decide_False by done. by rewrite (bind_ok _ _ _ _ _ (IH Hl)).
Qed.
Lemma format_plain l args : x25 ∉ l -> format_text Text l args tt = Ok (l, tt).
Proof. intros Hl. pose proof (format_prefix l [] args [] Hl eq_refl) as E. by rewrite !app_nil_r in E. Qed.

(** The conversion of a string prints what is before its end. *)
Lemma format_string text r : x00 ∉ text -> format_text Text [x25; x73] [Str (text ++ x00 :: r)] tt = Ok (text, tt).
Proof.
  intros Ht. assert (convert None x73 (Str (text ++ x00 :: r)) tt = Ok (text, tt)) as Ec.
  { cbn [convert]. rewrite (bind_ok _ _ _ _ _ (strlen_ok text r Ht)). rewrite Nat2Z.id, take_app_length. reflexivity. }
  cbn [format_text]. rewrite decide_True by done. rewrite !decide_False by done.
  change (isdigit x73) with false. cbv iota. rewrite (bind_ok _ _ _ _ _ Ec). unfold bind, ret. by rewrite app_nil_r.
Qed.

(** The three parts; nothing stays in the buffer when the last one ends a line,
    as the C library sends whole lines. *)
Lemma LOG_ok x y fmt args l s :
  x25 ∉ x -> x25 ∉ y -> format_text Text fmt args tt = Ok (l, tt) ->
  exists s', adds (LOG platform fuel ready x y fmt args) s (x ++ l ++ y) s' /\
    ((forall b, length b < ready (b ++ [x0a]))%nat -> (exists y', y = y' ++ [x0a]) -> stdout s' = []).
Proof using enough.
  intros Hx Hy El.
  destruct (vprintf_ok x [] x s (format_plain _ _ Hx)) as (s1 & A1 & _).
  destruct (vprintf_ok fmt args l s1 El) as (s2 & A2 & _).
  destruct (vprintf_ok y [] y s2 (format_plain _ _ Hy)) as (s3 & A3 & D3).
  exists s3. split; [exact (adds_trans _ _ _ _ _ _ _ A1 (adds_trans _ _ _ _ _ _ _ A2 A3))|].
  intros Hr [y' ->]. rewrite D3, app_assoc. apply drop_ge. rewrite length_app. simpl. specialize (Hr (stdout s2 ++ y')). lia.
Qed.

Lemma tty_printf_ok fmt args l s :
  format_text Text fmt args tt = Ok (l, tt) -> prints (tty_printf platform fuel ready fmt args) s l.
Proof using enough.
  intros El. destruct (LOG_ok [] [] fmt args l s) as (s1 & A1 & _); [apply not_elem_of_nil..|done|].
  destruct (flush_ok (length (stdout s1)) s1) as (s2 & A2 & D2). rewrite drop_all in D2.
  assert (adds (fflush platform fuel) s1 [] s2) as A3 by exact A2.
  pose proof (adds_trans _ _ _ _ _ _ _ A1 A3) as A. cbn [app] in A. rewrite !app_nil_r in A.
  exact (adds_prints _ _ _ _ A D2).
Qed.

Lemma spin_never n (s : st) : spin n s = NoFuel.
Proof. by induction n. Qed.
End proof.

(** ** Numbers *)

Lemma digits_ok fuel base n acc :
  2 <= base -> 0 <= n < base ^ Z.of_nat fuel -> (0 < fuel)%nat ->
  exists ds, digits fuel base n acc = ds ++ acc /\ ds <> [] /\ Forall (fun k => 0 <= k < base) ds /\
    fold_left (fun a k => a * base + k) ds 0 = n.
Proof.
  intros Hb. revert n acc. induction fuel as [|fuel IH]; intros n acc Hn Hf; [lia|]. cbn [digits].
  destruct (Z.ltb_spec n base) as [Hlt|Hge].
  - exists [n]. split; [done|]. split; [done|]. split; [|simpl; lia]. apply Forall_singleton. lia.
  - rewrite Nat2Z.inj_succ, Z.pow_succ_r in Hn by lia.
    destruct (IH (n / base) (n mod base :: acc)) as (ds & E & Hne & Hd & Hv).
    { split; [apply Z.div_pos; lia|]. apply Z.div_lt_upper_bound; lia. }
    { destruct fuel; [simpl in Hn; lia|lia]. }
    exists (ds ++ [n mod base]). rewrite E, <- app_assoc. split; [done|]. split; [by destruct ds|].
    split; [apply Forall_app; split; [done|]; apply Forall_singleton, Z.mod_pos_bound; lia|].
    rewrite fold_left_app, Hv. simpl. rewrite (Z.div_mod n base) at 3 by lia. lia.
Qed.

(** With no precision, the digits of a 32-bit number in base 10. *)
Lemma number_ok n :
  0 <= n < 2 ^ 32 -> exists ds, number 10 1 n = ds /\ ds <> [] /\ Forall (fun k => 0 <= k < 10) ds /\
    fold_left (fun a k => a * 10 + k) ds 0 = n.
Proof.
  intros Hn. destruct (digits_ok 32 10 n [] ltac:(lia)) as (ds & E & Hne & Hd & Hv); [|lia|].
  { split; [lia|]. eapply Z.lt_trans; [apply Hn|]. by vm_compute. }
  exists ds. split; [|done]. unfold number. rewrite E, app_nil_r. by destruct ds as [|k [|k' ds]].
Qed.

(** [atoi] reads what [%d] prints. *)
Lemma decimal_atoi z c l :
  - 2 ^ 31 <= z < 2 ^ 31 -> isdigit c = false -> atoi (decimal z ++ c :: l) 0 tt = Ok (z, tt).
Proof.
  intros Hz Hc. destruct (number_ok (Z.abs z) ltac:(lia)) as (ds & E & Hne & Hd & Hv). unfold decimal. rewrite E.
  destruct (Z.ltb_spec z 0) as [Hneg|Hpos].
  - unfold atoi. set (a := ([x2d] ++ _) ++ _).
    assert (Ea : a = [x2d] ++ (digit <$> ds) ++ c :: l) by (unfold a; by rewrite <- app_assoc).
    pose proof (atoi_skip_ok 0 [] x2d ((digit <$> ds) ++ c :: l) (S (length a)) eq_refl ltac:(lia)) as Es.
    cbn [replicate app length] in Es. rewrite Ea in *. rewrite (bind_ok _ _ _ _ _ Es).
    rewrite (bind_ok _ _ _ _ _ (char_at_mid [] x2d ((digit <$> ds) ++ c :: l))).
    change (byte_Z x2d =? 45) with true. cbn [orb].
    pose proof (atoi_digits_ok ds [x2d] c l 0 (S (length ([x2d] ++ (digit <$> ds) ++ c :: l))) Hc Hd) as Ed.
    change (Z.of_nat (length [x2d])) with (0 + 1) in Ed.
    rewrite (bind_ok _ _ _ _ _ (Ed ltac:(rewrite !length_app, length_fmap; simpl; lia))), Hv.
    rewrite (proj2 (Z.leb_le _ _)), (proj2 (Z.ltb_lt _ _)) by lia. cbn [andb]. unfold ret. do 2 f_equal. lia.
  - pose proof (atoi_num [] 0 ds c l Hne Hd Hc) as En. rewrite Hv in En. cbn [replicate app length Z.of_nat] in En.
    cbn [app]. change 0 with (Z.of_nat 0) at 1. rewrite En by lia. do 2 f_equal. lia.
Qed.

(** ** The arguments that a format needs *)

(** What a conversion takes; [None]: not one of those above. *)
Inductive kind := KInt | KStr.
Definition conv_kind (prec : option nat) (c : byte) : option kind :=
  match c, prec with
  | x64, None | x75, None | x63, None | x78, _ => Some KInt
  | x73, None => Some KStr
  | _, _ => None
  end.
Fixpoint format_kinds (md : mode) (fmt : list byte) : option (list kind) :=
  match fmt with
  | [] => match md with Text => Some [] | Conv _ => None end
  | c :: fmt' =>
      match md with
      | Text => if decide (c = x25) then format_kinds (Conv None) fmt' else format_kinds Text fmt'
      | Conv prec =>
          if decide (c = x6c) then format_kinds (Conv prec) fmt'
          else if decide (c = x2e) then format_kinds (Conv (Some O)) fmt'
          else if isdigit c then
            match prec with
            | Some p => format_kinds (Conv (Some (10 * p + Z.to_nat (byte_Z c - 48))%nat)) fmt'
            | None => None
            end
          else k ← conv_kind prec c; ks ← format_kinds Text fmt'; Some (k :: ks)
      end
  end.
(** An argument of a kind; a string is ended by a zero byte. *)
Definition of_kind (a : arg) (k : kind) : Prop :=
  match a, k with Int _, KInt => True | Str s, KStr => x00 ∈ s | _, _ => False end.

Lemma convert_ok prec c a k :
  conv_kind prec c = Some k -> of_kind a k -> exists t, convert prec c a tt = Ok (t, tt).
Proof.
  intros Hc Ha. destruct c; try (destruct prec; discriminate); destruct prec; try discriminate;
    injection Hc as <-; destruct a as [v|s]; try done; try (by eexists).
  cbn [convert]. cbn in Ha. apply list_elem_of_split_l in Ha as (l1 & l2 & -> & Hl).
  rewrite (bind_ok _ _ _ _ _ (strlen_ok l1 l2 Hl)). by eexists.
Qed.

(** Arguments of the kinds that a format asks for give a text. *)
Lemma format_text_ok fmt : forall md args ks,
  format_kinds md fmt = Some ks -> Forall2 of_kind args ks ->
  exists l, format_text md fmt args tt = Ok (l, tt).
Proof.
  induction fmt as [|c fmt IH]; intros [|prec] args ks Hk Ha; cbn [format_kinds format_text] in *.
  - by eexists.
  - done.
  - destruct (decide (c = x25)); [by eapply IH|].
    destruct (IH _ _ _ Hk Ha) as (l & E). rewrite (bind_ok _ _ _ _ _ E). by eexists.
  - destruct (decide (c = x6c)); [by eapply IH|]. destruct (decide (c = x2e)); [by eapply IH|].
    destruct (isdigit c); [destruct prec; [by eapply IH|done]|].
    apply bind_Some in Hk as (k & Ek & (ks' & Eks & [= <-])%bind_Some).
    apply Forall2_cons_inv_r in Ha as (a & args' & Hak & Has & ->).
    destruct (convert_ok _ _ _ _ Ek Hak) as (t & Et). rewrite (bind_ok _ _ _ _ _ Et).
    destruct (IH _ _ _ Eks Has) as (l & El). rewrite (bind_ok _ _ _ _ _ El). by eexists.
Qed.
