(* ===== verification/ShellLoop.v ===== *)
(** The end of a round of the shell (apps/system/sys_shell.c): it prints the
    prompt and reads lines until one is not empty; and with the parser, the way
    from the characters typed to the words of the request. *)

From Stdlib Require Import ZArith Lia.
From Stdlib Require Import Strings.Byte.
From stdpp Require Import base numbers list strings.
From S2P Require Import Prelude Bytes Earth Bus Tty Devices EarthTheorems Dir DirProof Mkfs Log Elf Shell.

Local Open Scope egos_scope.

(** ** The loop *)

Definition LINE_SIZE : Z := 256.
(** A green arrow and the working directory. *)
Definition PROMPT : list byte := ESC "[1;32m" ++ [xe2; x9e; x9c; x20] ++ ESC "[1;36m%s" ++ ESC "[1;0m ".

Section prompt.
Context {B : Type} `{Bus B} (platform : platform_t) (fuel : nat) (ready : list byte -> nat).

(** [buf] before and after; [n] bounds the lines. *)
Fixpoint prompt_loop (n : nat) (workdir : list byte) (buf : list Z) : M (stdio B) (list Z) :=
  match n with
  | O => nofuel
  | S n' =>
      tty_printf platform fuel ready PROMPT [Str workdir] ;;;
      '(buf, r) <- on_device (tty_read platform fuel fuel buf LINE_SIZE) ;;
      if r =? 0 then prompt_loop n' workdir buf else ret buf
  end.
End prompt.

(** ** The first line that is not empty *)

(** [n] lines at most. *)
Fixpoint first_line (n : nat) (cs : list Z) : option (list Z) :=
  match n with
  | O => None
  | S n' =>
      match edit 255 [] cs with
      | Some ([], rest) => first_line n' rest
      | Some (line, _) => Some line
      | None => None
      end
  end.

Section proof.
Context {B : Type} (platform : platform_t) `{UartLaws B (UART0_BASE platform)}.
Context (fuel : nat) (enough : (busy_max < fuel)%nat) (ready : list byte -> nat).

Lemma prompt_text workdir t : exists l, format_text Text PROMPT [Str (workdir ++ x00 :: t)] tt = Ok (l, tt).
Proof.
  apply (format_text_ok PROMPT Text [Str (workdir ++ x00 :: t)] [KStr]); [done|].
  repeat constructor. apply elem_of_app. right. left.
Qed.

Lemma prompt_loop_ok n workdir t buf (s : stdio B) line :
  Z.of_nat (length buf) = LINE_SIZE ->
  first_line n (typed (pending (tty_bus (device s)))) = Some line ->
  (length (pending (tty_bus (device s))) < fuel)%nat ->
  exists buf' s', prompt_loop platform fuel ready n (workdir ++ x00 :: t) buf s = Ok (buf', s') /\
    line <> [] /\ Z.of_nat (length buf') = LINE_SIZE /\ take (length line) buf' = line /\ buf' !! length line = Some 0.
Proof using enough.
  revert buf s. induction n as [|n IH]; intros buf s Hb Hl Hp; [done|]. cbn [prompt_loop first_line] in *.
  destruct (prompt_text workdir t) as (l & El).
  destruct (tty_printf_ok platform fuel enough ready PROMPT _ l s El) as (s1 & E1 & _ & _ & P1 & _).
  rewrite (bind_ok _ _ _ _ _ E1). rewrite <- P1 in Hl, Hp.
  destruct (edit 255 [] (typed (pending (tty_bus (device s1))))) as [[line1 rest]|] eqn:Ee; [|done].
  destruct (tty_read_ok platform fuel fuel buf LINE_SIZE (device s1) line1 rest)
    as (buf' & d' & E2 & L2 & T2 & Z2 & _ & R2 & Q2); [done|unfold LINE_SIZE; lia|exact Ee|done|done|lia|].
  assert (on_device (tty_read platform fuel fuel buf LINE_SIZE) s1 =
    Ok ((buf', Z.of_nat (length line1)), {| stdout := stdout s1; device := d' |})) as E3 by (unfold on_device; by rewrite E2).
  rewrite (bind_ok _ _ _ _ _ E3). cbn beta iota. destruct line1 as [|c line1].
  - cbn [length Z.of_nat Z.eqb]. apply IH; [lia|cbn [device]; by rewrite R2|cbn [device]; lia].
  - injection Hl as <-. rewrite (proj2 (Z.eqb_neq _ _)) by (simpl; lia). eexists _, _. split; [reflexivity|].
    split; [done|]. split; [lia|done].
Qed.

(** C17. The shell gets the command that was typed: it prints the prompt and reads
    until a line is not empty, with the editing keys applied, and its parser then
    finds the words of that line, or refuses it when a word or the line is too
    long for the request. *)
Theorem shell_reads_command n workdir t buf (s : stdio B) line :
  Z.of_nat (length buf) = LINE_SIZE ->
  first_line n (typed (pending (tty_bus (device s)))) = Some line -> x00 ∉ Z_byte <$> line ->
  (length (pending (tty_bus (device s))) < fuel)%nat ->
  exists buf' s', prompt_loop platform fuel ready n (workdir ++ x00 :: t) buf s = Ok (buf', s') /\
    let ws := words (Z_byte <$> line) in
    parse_request (Z_byte <$> buf') tt =
    Ok (if forallb (fun w => length w <? 32)%nat ws && (ended (Z_byte <$> line) <? 16)%nat
        then Some {| argc := Z.of_nat (length ws); argv := args_array ws |} else None, tt).
Proof using enough.
  intros Hb Hl Hz Hp. destruct (prompt_loop_ok n workdir t buf s line Hb Hl Hp) as (buf' & s' & E & _ & _ & Ht & H0').
  exists buf', s'. split; [done|]. cbv zeta.
  assert (buf' = line ++ 0 :: drop (S (length line)) buf') as Eb.
  { rewrite <- Ht at 1. rewrite <- (take_drop (length line) buf') at 1. f_equal. by apply drop_S. }
  rewrite Eb, fmap_app. cbn [fmap list_fmap]. by apply parse_request_ok.
Qed.
End proof.

(** ** An empty line, then a command *)

Definition typing_ls : stdio Board.board :=
  {| stdout := [];
     device := {| tty_c := 0; is_reading := 0;
       tty_bus := {| Board.ticks := 0; Board.cmp := ∅;
         Board.rx := [Some x0d; Some x6c; None; Some x64; Some x7f; Some x73; Some x20; Some x2f; Some x0d]; Board.tx := [] |} |} |}.

Lemma shell_reads_command_witness :
  exists buf' s', prompt_loop QEMU_LATEST 20 (@length byte) 5 (str "/home" ++ [x00]) (replicate 256 0) typing_ls = Ok (buf', s') /\
    parse_request (Z_byte <$> buf') tt = Ok (Some {| argc := 2; argv := args_array [str "ls"; str "/"] |}, tt).
Proof.
  destruct (shell_reads_command QEMU_LATEST 20 ltac:(vm_compute; repeat constructor) (@length byte) 5 (str "/home") []
    (replicate 256 0) typing_ls [108; 115; 32; 47]) as (buf' & s' & H1 & H2).
  - reflexivity.
  - reflexivity.
  - apply (bool_decide_eq_true_1 _). reflexivity.
  - vm_compute. repeat constructor.
  - exists buf', s'. split; [exact H1|exact H2].
Defined.
