(* ===== verification/StartServers.v ===== *)
(** The start of the servers, [main] of apps/system/sys_proc.c up to its loop: the
    process server starts the file server, the directory server and the shell,
    and waits for a message in between.  Whatever the machine does while it
    waits, the next server can be started, and gets the pid that the other
    processes know it by. *)

From Stdlib Require Import ZArith Lia Strings.Byte.
From stdpp Require Import base numbers list strings gmap relations.
From S2P Require Import Prelude Bytes Memory Earth Paging Mmu MmuProof Bus Timer Tty Kernel KernelSpec KernelTrap KernelReach KernelPres.
From S2P Require Import EarthState Elf ElfProof Boot Dir DirProof Mkfs Log.

Local Open Scope egos_scope.

(** An executable outside the file system: its first block, the number of its
    blocks, their contents and its segment. *)
Record program := { pr_base : Z; pr_n : Z; pr_file : Z -> block; pr_ph : elf32_program_header }.
Definition program_ok (p : program) : Prop := app_file (pr_file p) (pr_n p) (pr_ph p) /\ 0 < pr_n p.

(** An entry that has a pid is in use. *)
Definition in_use (p : process) : Prop := pid p <> 0 -> status p <> PROC_UNUSED.

(** The names that [sys_spawn] prints, by pid. *)
Definition sysproc_names : list (list byte) := [str "sys_proc"; str "sys_file"; str "sys_dir"; str "sys_shell"].

(** ** The messages that the process server waits for *)

(** [strcpy(buf, text)] and [sys_send(GPID_PROCESS, buf, size)] at the start of the
    file server and of the directory server: the first [size] bytes of [buf],
    which held [junk]. *)
Definition notification (text junk : list byte) (size : Z) : list byte :=
  take (Z.to_nat size) (text ++ x00 :: junk).
Definition file_started : list byte -> list byte := fun junk => notification (str "Finish GPID_FILE initialization") junk 32.
Definition dir_started : list byte -> list byte := fun junk => notification (str "Finish GPID_DIR initialization") junk 31.

(** The sizes include the end of the string, so that the process server prints the
    text, whatever its buffer held before. *)
Theorem notifications_printed junk old :
  format_text Text (str "sys_proc receives: %s") [Str (file_started junk ++ old)] tt =
    Ok (str "sys_proc receives: Finish GPID_FILE initialization", tt) /\
  format_text Text (str "sys_proc receives: %s") [Str (dir_started junk ++ old)] tt =
    Ok (str "sys_proc receives: Finish GPID_DIR initialization", tt).
Proof.
  change (str "sys_proc receives: %s") with (str "sys_proc receives: " ++ [x25; x73]).
  split; apply (format_prefix (str "sys_proc receives: ")); try (by apply (bool_decide_eq_true_1 _)).
  - apply (format_string (str "Finish GPID_FILE initialization") old). by apply (bool_decide_eq_true_1 _).
  - apply (format_string (str "Finish GPID_DIR initialization") old). by apply (bool_decide_eq_true_1 _).
Qed.

Section servers.
Context {D R B : Type} `{DiskLaws D} (rand : R -> Z * R) `{ClintLaws B}.
Context (rand_nonneg : forall r, 0 <= fst (rand r)) (disk_room : NFRAMES * NBLOCKS_PER_PAGE <= disk_size D).
Context (p0 : platform_t) (on_qemu : p0 <> ARTY).
Context (uart_laws : forall p : platform_t, UartLaws B (UART0_BASE p)).
Abbreviation P := (paging_state D R).
Abbreviation est := (earth_state P B).
#[local] Instance servers_paging : Paging P := dev_paging rand.
#[local] Instance servers_laws : PagingLaws P := dev_paging_laws rand rand_nonneg disk_room p0.
#[local] Instance servers_earth : EarthLaws est := qemu_earth rand rand_nonneg disk_room p0 on_qemu uart_laws.

(** ** What the machine leaves alone *)

(** The frames in use, and the disk. *)
Definition steady (t : list frame_mapping) (d : D) (s : mmu_state P) : Prop :=
  table s = t /\ pg_disk (dev s) = d /\ platform (dev s) = p0.

Lemma steady_dev {A} t d (m : M P A) :
  pres (fun s => pg_disk s = d /\ platform s = p0) m (fun s => pg_disk s = d /\ platform s = p0) ->
  pres (steady t d) (on_dev m) (steady t d).
Proof.
  intros Hm s a s' (Ht & Hd) E. unfold on_dev in E. destruct (m (dev s)) as [[x v]| | |] eqn:Em; [|done..].
  injection E as <- <-. split; [done|]. exact (Hm _ _ _ Hd Em).
Qed.

Lemma steady_copy d dst src :
  pres (fun s : P => pg_disk s = d /\ platform s = p0) (copy_page dst src) (fun s => pg_disk s = d /\ platform s = p0).
Proof. apply pres_modify. intros s Hs. exact Hs. Qed.

Lemma steady_write t d f p : pres (steady t d) (on_dev (paging_write f p)) (steady t d).
Proof using on_qemu.
  apply steady_dev. intros s a s' [Hd Hp] E. change (dev_paging_write rand f p s = Ok (a, s')) in E.
  unfold dev_paging_write, bind at 1 in E. cbn [get] in E.
  destruct (platform s) eqn:Es; [congruence|..];
    exact (steady_copy d _ _ s a s' (conj Hd (eq_trans Es Hp)) E).
Qed.

Lemma steady_read t d f b : pres (steady t d) (on_dev (paging_read f b)) (steady t d).
Proof using on_qemu.
  apply steady_dev. intros s a s' [Hd Hp] E. change (dev_paging_read rand f b s = Ok (a, s')) in E.
  unfold dev_paging_read, bind at 1 in E. cbn [get] in E.
  destruct (platform s) eqn:Es; [congruence|..];
    exact (pres_ret (fun s : P => pg_disk s = d /\ platform s = p0) _ s a s' (conj Hd (eq_trans Es Hp)) E).
Qed.

Lemma steady_get {A} t d (k : mmu_state P -> M (mmu_state P) A) :
  (forall s, pres (steady t d) (k s) (steady t d)) -> pres (steady t d) (bind get k) (steady t d).
Proof. intros Hk s a s' Hs E. exact (Hk s s a s' Hs E). Qed.

Lemma steady_switch t d q : pres (steady t d) (soft_tlb_switch q) (steady t d).
Proof using on_qemu.
  unfold soft_tlb_switch. apply steady_get. intros s0. case_goal; [apply pres_ret|].
  apply (pres_bind _ (steady t d)); [|intros _; apply (pres_bind _ (steady t d)); [|intros _; by apply pres_modify]].
  - apply pres_for. intros i. apply steady_get. intros s1. case_goal; [apply steady_write|apply pres_ret].
  - apply pres_for. intros i. apply steady_get. intros s1. case_goal; [|apply pres_ret].
    eapply pres_bind; [apply steady_read|]. intros a. apply steady_get. intros s2. by apply pres_modify.
Qed.

(** The functions that the kernel calls keep it. *)
Lemma steady_lift {S A} t d (g : est -> S) (f : S -> est -> est) (m : M S A) :
  (forall x e, mmu (f x e) = mmu e) -> pres (fun e => steady t d (mmu e)) (lift g f m) (fun e => steady t d (mmu e)).
Proof.
  intros Hf e a e' He E. unfold lift in E. destruct (m (g e)) as [[x v]| | |]; [|done..].
  injection E as _ <-. by rewrite Hf.
Qed.

Lemma steady_mmu {A} t d (m : M (mmu_state P) A) :
  pres (steady t d) m (steady t d) -> pres (fun e : est => steady t d (mmu e)) (on_mmu m) (fun e => steady t d (mmu e)).
Proof.
  intros Hm e a e' He E. unfold on_mmu, lift in E. destruct (m (mmu e)) as [[x v]| | |] eqn:Em; [|done..].
  injection E as _ <-. exact (Hm _ _ _ He Em).
Qed.

Lemma earth_get {A} (J : est -> Prop) (k : est -> M est A) : (forall e, pres J (k e) J) -> pres J (bind get k) J.
Proof. intros Hk s a s' Hs E. exact (Hk s s a s' Hs E). Qed.

Lemma steady_mmu_switch t d q :
  pres (fun e : est => steady t d (mmu e)) (mmu_switch q) (fun e => steady t d (mmu e)).
Proof using on_qemu. apply earth_get. intros e. apply steady_mmu. destruct (translation e); apply steady_switch. Qed.

Lemma machine_steady t d (s s' : kernel est) :
  machine_step s s' -> Forall in_use (proc_set s) /\ steady t d (mmu (earth s)) ->
  Forall in_use (proc_set s') /\ steady t d (mmu (earth s')).
Proof.
  intros Hs. apply (machine_keeps in_use (fun e => steady t d (mmu e))); try done.
  - intros Hp. by destruct Hp.
  - intros v p Hv Hp Hq. exact Hv.
  - apply steady_mmu_switch.
  - apply earth_get. intros e. by apply steady_lift.
  - apply earth_get. intros e. by apply steady_lift.
Qed.

(** ** A stage of the start *)

Variable programs : list program.
Hypothesis programs_ok : Forall program_ok programs.

Definition all_on_disk (d : P) : Prop := Forall (fun p => on_disk_at (pr_base p) (pr_n p) (pr_file p) d) programs.

(** [k] processes were started, with the pids 1 to [k] in this order; [m] frames
    are free, and no process with a larger pid has pages. *)
Record stage (k : Z) (m : nat) (s : kernel est) : Prop := {
  sg_run : k_run s;
  sg_n : proc_nprocs s = k;
  sg_pid i : 0 <= i < MAX_NPROCESS -> pid (proc s i) = if i <? k then i + 1 else 0;
  sg_used : Forall in_use (proc_set s);
  sg_free : free_frames (mmu (earth s)) m;
  sg_disk : all_on_disk (dev (mmu (earth s)));
  sg_none q p : k < q -> view (mmu (earth s)) q p = None
}.

(** The machine stays in the stage. *)
Lemma stage_machine k m (s s' : kernel est) : stage k m s -> machine_step s s' -> stage k m s'.
Proof.
  intros [R1 R2 R3 R4 R5 R6 R7] Hs.
  assert (platform (dev (mmu (earth s))) = p0) as Hp by apply (mo_dev _ (eo_mmu _ (ko_earth _ (kr_ok _ R1)))).
  destruct (machine_steady (table (mmu (earth s))) (pg_disk (dev (mmu (earth s)))) s s' Hs) as (U & Ht & Hd & _); [done|].
  assert (k_run s' /\ proc_nprocs s' = proc_nprocs s /\
    forall i, 0 <= i < MAX_NPROCESS -> pid (proc s' i) = pid (proc s i)) as (R' & Hn & Hpid).
  { destruct Hs as [s a l Hl Hm|s s' v regs ii id Hl E'].
    - destruct (user_run s a l) as [R' _]; [done..|]. by split.
    - destruct (with_regs_spec s v regs R1 Hl) as (R'' & _). pose proof (kernel_entry_spec _ _ _ _ R'' E') as N.
      split; [apply N|]. split; [exact (n_nprocs _ _ N)|exact (n_pid _ _ N)]. }
  split; [done|congruence| |done| | |].
  - intros i Hi. by rewrite Hpid, R3.
  - by eapply free_frames_static.
  - eapply Forall_impl; [exact R6|]. intros p (A1 & A2 & A3 & A4). split_and!; [done..|]. by rewrite Hd.
  - intros q p Hq. specialize (R7 q p Hq). unfold view in *. rewrite Ht. by destruct (frame_of _ q p).
Qed.

Lemma stage_run k m (s s' : kernel est) : rtc machine_step s s' -> stage k m s -> stage k m s'.
Proof. intros Hs. induction Hs as [s|s s1 s2 Hs _ IH]; [done|]. intros Hst. apply IH. by eapply stage_machine. Qed.

Lemma in_use_proc (s : kernel est) i : Forall in_use (proc_set s) -> in_use (proc s i).
Proof.
  intros HQ. unfold proc. destruct (proc_set s !! Z.to_nat i) as [p|] eqn:Ep; [|by intros Hp; destruct Hp].
  rewrite Forall_forall in HQ. apply HQ. by apply list_elem_of_lookup_2 in Ep.
Qed.

(** The next entry is the first unused one. *)
Lemma stage_unused k m s : stage k m s -> 0 <= k < MAX_NPROCESS -> find_unused 0 (proc_set s) = Some k.
Proof.
  intros [R1 R2 R3 R4 _ _ _] Hk. pose proof (kr_ok _ R1) as Hok.
  assert (forall i, 0 <= i < k -> status (proc s i) <> PROC_UNUSED) as Hlow.
  { intros i Hi. apply (in_use_proc s i R4). rewrite R3, (proj2 (Z.ltb_lt i k)) by lia. lia. }
  assert (status (proc s k) = PROC_UNUSED) as Huk.
  { destruct (decide (status (proc s k) = PROC_UNUSED)) as [|Hu]; [done|].
    apply (ko_live _ Hok k Hk) in Hu. rewrite R3, Z.ltb_irrefl in Hu by done. done. }
  destruct (find_unused 0 (proc_set s)) as [i|] eqn:Ef.
  - destruct (find_unused_some _ _ _ Ef) as [Hi Hst]. rewrite Z.sub_0_r in Hst.
    pose proof (find_unused_min _ _ _ (Z.to_nat k) Ef Huk) as Hm.
    destruct (decide (i < k)) as [Hlt|]; [by destruct (Hlow i ltac:(lia))|]. f_equal. lia.
  - by destruct (find_unused_full s Hok Ef k Hk).
Qed.

Lemma all_on_disk_blocks d d' : disk_blocks (pg_disk d') = disk_blocks (pg_disk d) -> all_on_disk d -> all_on_disk d'.
Proof.
  intros HD Ha. eapply Forall_impl; [exact Ha|]. intros p (A1 & A2 & A3 & A4). split_and!; [done..|]. by rewrite HD.
Qed.

(** [sys_spawn] starts the next process. *)
Lemma spawn_stage k m s p :
  stage k (5 + m) s -> 1 <= k < MAX_NPROCESS -> p ∈ programs ->
  exists s', sys_spawn rand (pr_base p) s = Ok (tt, s') /\ stage (k + 1) m s' /\ status (proc s' k) = PROC_READY /\
    has_app_from rand rand_nonneg disk_room p0 (pr_file p) (pr_ph p) all_on_disk (earth s) (earth s') (k + 1) 0 None.
Proof.
  intros Hst Hk Hp. pose proof Hst as [R1 R2 R3 R4 R5 R6 R7].
  pose proof (stage_unused k _ s Hst ltac:(lia)) as Hf.
  rewrite Forall_forall in programs_ok. destruct (programs_ok p Hp) as [Happ Hn].
  assert (forall d, all_on_disk d -> on_disk_at (pr_base p) (pr_n p) (pr_file p) d) as Hat.
  { intros d Hd. unfold all_on_disk in Hd. rewrite Forall_forall in Hd. exact (Hd p Hp). }
  pose proof (on_disk_size _ _ _ _ (Hat _ R6)) as Hn32.
  assert (forall m d, all_on_disk d -> all_on_disk (set_pmem m d)) as Hmem by (intros ? ?; by apply all_on_disk_blocks).
  assert (forall f a d d', pg_ok d -> 0 <= f < NFRAMES -> all_on_disk d -> paging_read f true d = Ok (a, d') -> all_on_disk d') as Hrd.
  { intros f a d d' Hd Hfr Ha E. eapply Forall_impl; [exact Ha|]. intros p' Hp'.
    by eapply (on_disk_at_read rand rand_nonneg disk_room p0). }
  pose proof (exec_read_keeps rand rand_nonneg disk_room p0 all_on_disk _ _ _ Hat all_on_disk_blocks) as Hread.
  assert (can_load_from rand rand_nonneg disk_room p0 all_on_disk (earth s) (k + 1)) as Hcl.
  { split; [apply R1|done|by exists m| |intros x; apply R7; lia]. split; [lia|].
    pose proof (kr_vm _ R1) as Hvm. change (curr_vm_pid (mmu (earth s)) = curr_pid s) in Hvm. rewrite Hvm.
    pose proof (ko_pid _ (kr_ok _ R1) _ (ko_idx _ (kr_ok _ R1))) as Hcp. unfold curr_pid, curr. rewrite R2 in Hcp.
    unfold MAX_NPROCESS in *. lia. }
  destruct (spawn_ok rand rand_nonneg disk_room p0 on_qemu uart_laws (pr_n p) (pr_file p) (pr_ph p) Happ (conj Hn Hn32)
    all_on_disk Hmem Hrd (exec_read (pr_base p)) Hread s k 0 None)
    as (s1 & m' & s3 & E1 & Ee & E2 & E3 & _ & Hrun & Hpk & Hpo & He & Happ'); try done.
  { unfold MAX_NPROCESS in *. lia. } { by rewrite R2. }
  rewrite R2 in *. exists s3. split.
  { unfold sys_spawn. rewrite (bind_ok _ _ _ _ _ E1). unfold bind at 1. cbn [get].
    rewrite (bind_ok _ _ _ _ _ (on_earth_ok _ s1 _ _ E2)). exact E3. }
  split; [|split; [by rewrite Hpk|exact Happ']].
  pose proof (ldd_grows _ _ _ _ _ _ _ _ _ Happ') as G.
  destruct (proc_alloc_spec s k (kr_ok _ R1)) as (_ & _ & s1' & E1' & _ & _ & _ & En & _);
    [rewrite R2; unfold MAX_NPROCESS in *; lia|done|]. rewrite R2 in E1', En.
  assert (s1' = s1) as -> by congruence.
  split.
  - done.
  - rewrite <- En. unfold proc_set_ready, proc_set_status, modify in E3. by injection E3 as <-.
  - intros i Hi. destruct (decide (i = k)) as [->|Hne].
    + rewrite Hpk, (proj2 (Z.ltb_lt _ _)) by lia. done.
    + rewrite Hpo, R3 by done. destruct (Z.ltb_spec i k), (Z.ltb_spec i (k + 1)); done || lia.
  - apply Forall_lookup. intros j x Hj. pose proof (lookup_lt_Some _ _ _ Hj) as Hjl. rewrite (ko_len _ (kr_ok _ Hrun)) in Hjl.
    assert (proc s3 (Z.of_nat j) = x) as <- by (unfold proc; by rewrite Nat2Z.id, Hj).
    destruct (decide (Z.of_nat j = k)) as [->|Hne]; [by rewrite Hpk|].
    rewrite Hpo by (unfold MAX_NPROCESS in *; lia). by apply in_use_proc.
  - rewrite He. apply (load_frees rand rand_nonneg disk_room p0 (pr_n p) (pr_file p) (pr_ph p) Happ (conj Hn Hn32)
      all_on_disk Hmem Hrd (exec_read (pr_base p)) Hread (earth s1) (k + 1) 0 None m' m); try done; by rewrite Ee.
  - by apply (gr_keeps _ _ _ _ G).
  - intros q x Hq. rewrite (gr_view _ _ _ _ G) by lia. apply R7. lia.
Qed.

(** ** The start of the servers *)

(** [sys_spawn(base)] prints the name of process [q] and starts it with the
    program at [base]; whatever the machine does after that, [next] follows. *)
Definition spawns (base q : Z) (s : kernel est) (next : kernel est -> Prop) : Prop :=
  is_Some (sysproc_names !! Z.to_nat (q - 1)) /\
  exists p s', p ∈ programs /\ pr_base p = base /\ sys_spawn rand base s = Ok (tt, s') /\ k_run s' /\
    pid (proc s' (q - 1)) = q /\ status (proc s' (q - 1)) = PROC_READY /\
    has_app_from rand rand_nonneg disk_room p0 (pr_file p) (pr_ph p) all_on_disk (earth s) (earth s') q 0 None /\
    forall s'', rtc machine_step s' s'' -> next s''.

Lemma stage_spawns k m s (next : kernel est -> Prop) base :
  stage k (5 + m) s -> 1 <= k < 4 -> (exists p, p ∈ programs /\ pr_base p = base) ->
  (forall s', stage (k + 1) m s' -> next s') -> spawns base (k + 1) s next.
Proof.
  intros Hst Hk (p & Hp & Hb) Hn.
  destruct (spawn_stage k m s p Hst) as (s' & E & Hst' & Hr & Ha); [unfold MAX_NPROCESS; lia|done|].
  split; [apply lookup_lt_is_Some_2; cbn; lia|]. exists p, s'. replace (k + 1 - 1) with k by lia.
  split; [done|]. split; [done|]. split; [by rewrite <- Hb|]. split; [apply Hst'|].
  split; [|split; [done|split; [done|intros s'' Hs''; apply Hn; by eapply stage_run]]].
  rewrite (sg_pid _ _ _ Hst') by (unfold MAX_NPROCESS; lia). by rewrite (proj2 (Z.ltb_lt _ _)) by lia.
Qed.

End servers.
