(* ===== verification/Startup.v ===== *)
(** From power-on to the first process: [main] of earth/earth.c, from the
    preparation of its memory to [mret], and [main] of grass/grass.c, on QEMU.
    What the initialisation leaves is shown by invariants of its steps, as its
    results are known from PageTable.v and Tty.v. *)

From Stdlib Require Import ZArith Lia Strings.Byte.
From stdpp Require Import base numbers list strings gmap relations.
From S2P Require Import Prelude Bytes Memory Earth Paging Mmu MmuProof PageTable Bus Timer Tty Kernel KernelSpec KernelTrap KernelReach.
From S2P Require Import EarthState EarthTheorems Elf ElfProof Boot BootTheorems Layout StartServers.

Local Open Scope egos_scope.

(** ** The identity mapping uses frames of pid 0 only *)

Section tables.
Context {D R : Type} `{Disk D} (rand : R -> Z * R).
Abbreviation P := (paging_state D R).
Abbreviation st := (mmu_state P).
#[local] Instance tables_paging : Paging P := dev_paging rand.
(** The paging device and the mapped process before. *)
Variables (d0 : P) (c0 : Z).
Hypothesis qemu0 : platform d0 <> ARTY.

(** Frames from [n] on are free, the others belong to pid 0, and of the paging
    device only the memory has changed. *)
Record fresh (n : Z) (s : st) : Prop := {
  fr_len : length (table s) = Z.to_nat NFRAMES;
  fr_dev : exists m, dev s = set_pmem m d0;
  fr_curr : curr_vm_pid s = c0;
  fr_unused i : 0 <= i -> use (entry s i) = 0 -> entry s i = unused_frame;
  fr_pid i : 0 <= i -> fm_pid (entry s i) = 0;
  fr_free : free_from s n
}.

Lemma fresh_weak n n' s : n <= n' -> fresh n s -> fresh n' s.
Proof. intros Hn [H1 H2 H3 H4 H5 H6]. split; [done..|]. intros i Hi. apply H6. lia. Qed.

Lemma fresh_static n (s s' : st) :
  table s' = table s -> curr_vm_pid s' = curr_vm_pid s -> (exists m, dev s' = set_pmem m (dev s)) -> fresh n s -> fresh n s'.
Proof.
  intros Et Ec [m' Ed] [H1 [m H2] H3 H4 H5 H6].
  assert (forall i, entry s' i = entry s i) as He by (intros i; unfold entry; by rewrite Et).
  split; [by rewrite Et| |by rewrite Ec|..].
  - exists m'. by rewrite Ed, H2.
  - intros i Hi. rewrite He. by apply H4.
  - intros i Hi. rewrite He. by apply H5.
  - intros i Hi. rewrite He. by apply H6.
Qed.

(** A frame is taken. *)
Lemma fresh_alloc n : 0 <= n < NFRAMES -> pres (fresh n) mmu_alloc (fresh (n + 1)).
Proof using qemu0.
  intros Hn s [f a] s' Hs E. pose proof Hs as [H1 [m H2] H3 H4 H5 H6].
  destruct (find_frame_first s n H1 Hn H6) as (f' & Ef & Hf & Hu).
  assert (platform (dev s) <> ARTY) as Hp by by rewrite H2.
  pose proof (eq_trans (eq_sym (alloc_pinned rand s f' Hp Ef)) E) as E'. clear E. injection E' as _ _ <-.
  assert (forall i, 0 <= i -> entry (set_entry f' {| use := 1; fm_pid := fm_pid (entry s f'); page_no := page_no (entry s f') |} s) i
    = if i =? f' then {| use := 1; fm_pid := fm_pid (entry s f'); page_no := page_no (entry s f') |} else entry s i) as He
    by (intros; apply entry_set; [done|lia|done]).
  split; [cbn; by rewrite length_insert|by exists m|done|..].
  - intros i Hi. rewrite He by done. case_goal; [done|by apply H4].
  - intros i Hi. rewrite He by done. case_goal; [apply H5; lia|by apply H5].
  - intros i Hi. rewrite He, (proj2 (Z.eqb_neq i f')) by lia. apply H6. lia.
Qed.

(** The frames have pid 0 already. *)
Lemma fresh_own n : pres (fresh n) (own_frame 0) (fresh n).
Proof.
  apply pres_modify. intros s Hs. apply (fresh_static n s); [|done| |done].
  - unfold set_entry, entry. cbn [table set_table]. set (k := Z.to_nat (frame_id s)).
    apply list_eq. intros j. destruct (table s !! k) as [e|] eqn:Ek.
    + pose proof (fr_pid _ _ Hs (Z.of_nat k) ltac:(lia)) as Hp. unfold entry in Hp. rewrite Nat2Z.id, Ek in Hp. cbn in Hp.
      cbn [default]. rewrite <- Hp. destruct e as [u q p]. by rewrite list_insert_id.
    + rewrite list_insert_ge; [done|]. by apply lookup_ge_None_1.
  - exists (pmem (dev s)). by destruct s as [? ? ? ? ? ? []].
Qed.

Lemma fresh_put n a l : pres (fresh n) (put_mem a l) (fresh n).
Proof. apply pres_modify. intros s. apply fresh_static; [done..|]. by eexists. Qed.

Lemma fresh_modify n (f : st -> st) :
  (forall s, table (f s) = table s /\ curr_vm_pid (f s) = curr_vm_pid s /\ dev (f s) = dev s) ->
  pres (fresh n) (modify f) (fresh n).
Proof.
  intros Hf. apply pres_modify. intros s. destruct (Hf s) as (H1 & H2 & H3). apply fresh_static; [done..|].
  exists (pmem (dev s)). rewrite H3. by destruct (dev s).
Qed.

Lemma fresh_leaf_table n v : 0 <= n < NFRAMES -> pres (fresh n) (leaf_table 0 v) (fresh (n + 1)).
Proof using qemu0.
  intros Hn. apply pres_get. intros s0.
  apply (pres_weak (fresh n) _ (fresh (n + 1)) _); [by intros s [? _]|done|]. case_goal.
  - apply (pres_weak (fresh n) _ (fresh n) _); [done|intros s; apply fresh_weak; lia|]. by apply fresh_modify.
  - eapply pres_bind; [by apply fresh_alloc|]. intros [f a].
    eapply pres_bind; [by apply fresh_modify|]. intros [].
    eapply pres_bind; [apply fresh_own|]. intros [].
    apply pres_get. intros s1. apply (pres_weak (fresh (n + 1)) _ (fresh (n + 1)) _); [by intros s [? _]|done|].
    eapply pres_bind; [apply fresh_put|]. intros []. apply fresh_put.
Qed.

Lemma fresh_region n addr npages flag :
  0 <= n < NFRAMES -> pres (fresh n) (setup_identity_region 0 addr npages flag) (fresh (n + 1)).
Proof using qemu0.
  intros Hn. eapply pres_bind; [by apply fresh_leaf_table|]. intros []. apply pres_get. intros s0.
  apply (pres_weak (fresh (n + 1)) _ (fresh (n + 1)) _); [by intros s [? _]|done|].
  apply pres_for. intros i. apply fresh_put.
Qed.

Lemma fresh_regions k n (region : Z -> M st unit) lo :
  0 <= n -> n + Z.of_nat k <= NFRAMES ->
  (forall i n, 0 <= n < NFRAMES -> pres (fresh n) (region i) (fresh (n + 1))) ->
  pres (fresh n) (for_n k lo region) (fresh (n + Z.of_nat k)).
Proof.
  intros Hn Hk Hr. revert n lo Hn Hk. induction k as [|k IH]; intros n lo Hn Hk; cbn [for_n].
  - rewrite Z.add_0_r. apply pres_ret.
  - eapply pres_bind; [apply Hr; lia|]. intros []. replace (n + Z.of_nat (S k)) with (n + 1 + Z.of_nat k) by lia.
    apply IH; lia.
Qed.

(** The root table and at most one table for each of the 14 regions. *)
Lemma fresh_identity p : pres (fresh 0) (pagetable_identity_mapping p 0) (fresh 15).
Proof using qemu0.
  eapply pres_bind; [by apply fresh_alloc|]. intros [f a].
  eapply pres_bind; [by apply fresh_modify|]. intros [].
  eapply pres_bind; [apply fresh_own|]. intros [].
  apply pres_get. intros s1. apply (pres_weak (fresh 1) _ (fresh 15) _); [by intros s [? _]|done|].
  eapply pres_bind; [apply fresh_put|]. intros [].
  eapply pres_bind; [by apply fresh_modify|]. intros [].
  do 6 (eapply pres_bind; [by apply fresh_region|]; intros []).
  apply (fresh_regions 8 7); [done..|]. intros i n Hn. by apply fresh_region.
Qed.
End tables.

(** ** [mmu_init] *)

Section init.
Context {D R B : Type} `{Disk D} (rand : R -> Z * R) `{Bus B}.
Abbreviation P := (paging_state D R).
Abbreviation est := (earth_state P B).
#[local] Instance init_paging : Paging P := dev_paging rand.

Lemma pres_lift {S A} (g : est -> S) (f : S -> est -> est) (m : M S A) (I J : S -> Prop) (K : est -> Prop) :
  (forall x e, g (f x e) = x) -> (forall x e, K e -> K (f x e)) -> pres I m J ->
  pres (fun e => I (g e) /\ K e) (lift g f m) (fun e => J (g e) /\ K e).
Proof.
  intros Hg HK Hm e a e' [HI HKe] E. unfold lift in E. destruct (m (g e)) as [[x y]| | |] eqn:Em; [|done..].
  injection E as <- <-. rewrite Hg. split; [by eapply Hm|by apply HK].
Qed.

(** What [mmu_init] leaves alone. *)
Definition same_cpu (e e' : est) : Prop :=
  platform_of e' = platform_of e /\ mhartid e' = mhartid e /\
  csr_mie (csr e') = csr_mie (csr e) /\ csr_mstatus (csr e') = csr_mstatus (csr e).

(** The device after [paging_init]. *)
Definition init_dev (d : P) : P := set_slots (replicate (Z.to_nat ARTY_CACHED_NFRAMES) (-1)) d.

Lemma mmu_init_fresh fuel (e0 : est) :
  platform (dev (mmu e0)) <> ARTY -> fresh rand (dev (mmu e0)) (curr_vm_pid (mmu e0)) 0 (mmu e0) ->
  pres (fun e => e = e0) (mmu_init fuel)
    (fun e' => fresh rand (init_dev (dev (mmu e0))) (curr_vm_pid (mmu e0)) 15 (mmu e') /\ same_cpu e0 e').
Proof.
  intros Hp Hf. set (F n := fresh rand (init_dev (dev (mmu e0))) (curr_vm_pid (mmu e0)) n).
  set (K := same_cpu e0).
  assert (forall n (f : est -> est), (forall e, mmu (f e) = mmu e) -> (forall e, K e -> K (f e)) ->
    pres (fun e => F n (mmu e) /\ K e) (modify f) (fun e => F n (mmu e) /\ K e)) as Hmod.
  { intros n f Hm HK. apply pres_modify. intros e [H1 H2]. rewrite Hm. by split; [|apply HK]. }
  unfold mmu_init. eapply (pres_bind _ (fun e => F 0 (mmu e) /\ K e)).
  { intros e [] e' -> [= <-]. split; [|by split]. destruct Hf as [F1 F2 F3 F4 F5 F6]. split; [done| |done..].
    exists (pg_mem (dev (mmu e0))). done. }
  intros []. eapply pres_bind; [by apply (Hmod 0)|]. intros [].
  eapply pres_bind; [by apply (Hmod 0)|]. intros []. apply pres_get. intros e.
  apply (pres_weak (fun e => F 0 (mmu e) /\ K e) _ (fun e => F 15 (mmu e) /\ K e) _); [by intros ? [? _]|done|].
  assert (forall e : est, F 0 (mmu e) /\ K e -> F 15 (mmu e) /\ K e) as Hw.
  { intros e1 [H1 H2]. split; [by apply (fresh_weak rand _ _ 0)|done]. }
  destruct (decide (platform_of e = ARTY)); [by apply (pres_weak _ _ _ _ _ (fun _ h => h) Hw), pres_ret|].
  eapply (pres_bind _ (fun e => F 0 (mmu e) /\ K e)).
  { apply (pres_weak (fun e => True /\ (F 0 (mmu e) /\ K e)) _ (fun e => True /\ (F 0 (mmu e) /\ K e)) _); [by split|by intros ? [_ ?]|].
    apply (pres_lift tty set_tty _ (fun _ => True) (fun _ => True)); [done..|]. by intros ? ? ? _ _. }
  intros buf. destruct (default 0 (buf !! 0%nat) =? 48); [|by apply (pres_weak _ _ _ _ _ (fun _ h => h) Hw), pres_ret].
  eapply pres_bind; [by apply (Hmod 0)|]. intros [].
  eapply pres_bind; [|intros []; by apply (Hmod 15)].
  apply (pres_lift mmu set_mmu); [done..|]. by apply fresh_identity.
Qed.
End init.

(** ** The two [main] functions *)

(** The mode that [mret] enters: bits 11 and 12 of [mstatus]. *)
Definition MPP (mstatus : Z) : Z := Z.land (Z.shiftr mstatus 11) 3.

Lemma MPP_enter m mode :
  0 <= mode < 4 ->
  MPP (Z.lor (Z.lor (Z.ldiff m (Z.shiftl 3 11)) (Z.shiftl mode 11)) (Z.shiftl 1 18)) = mode.
Proof.
  intros Hm. unfold MPP. apply Z.bits_inj'. intros i Hi.
  rewrite Z.land_spec, Z.shiftr_spec, !Z.lor_spec, Z.ldiff_spec, !Z.shiftl_spec by lia.
  replace (i + 11 - 11) with i by lia.
  assert (Z.testbit 3 i = (i <? 2)) as -> by (change 3 with (Z.ones 2); by apply Z.testbit_ones_nonneg).
  destruct (Z.ltb_spec i 2).
  - rewrite (Z.testbit_neg_r 1) by lia. cbn. by rewrite andb_false_r, orb_false_r, andb_true_r.
  - rewrite andb_false_r. symmetry. apply Z.bits_above_log2; [lia|].
    destruct (decide (mode = 0)) as [->|]; [cbn; lia|]. pose proof (Z.log2_lt_pow2 mode 2 ltac:(lia)). lia.
Qed.

(** The executable of the grass layer. *)
Record grass_file (file : Z -> block) (n : Z) (ph : elf32_program_header) : Prop := {
  gf_segment : exists j, one_segment (file 0) j /\ segment (file 0) j = ph;
  gf_vaddr : p_vaddr ph = GRASS_ENTRY;
  gf_filesz : 0 <= p_filesz ph <= GRASS_SIZE;
  gf_offset : 0 <= p_offset ph;
  gf_blocks : p_offset ph / BLOCK_SIZE + Z.of_nat (file_blocks (p_filesz ph)) <= n
}.

Section boot.
Context {D R B : Type} `{DiskLaws D} (rand : R -> Z * R) `{ClintLaws B}.
Context (rand_nonneg : forall r, 0 <= fst (rand r)) (disk_room : NFRAMES * NBLOCKS_PER_PAGE <= disk_size D).
Context (p0 : platform_t) (on_qemu : p0 <> ARTY).
Context (uart_laws : forall p : platform_t, UartLaws B (UART0_BASE p)).
Abbreviation P := (paging_state D R).
Abbreviation est := (earth_state P B).
#[local] Instance boot_paging : Paging P := dev_paging rand.
#[local] Instance boot_laws : PagingLaws P := dev_paging_laws rand rand_nonneg disk_room p0.
#[local] Instance boot_earth_laws : EarthLaws est := qemu_earth rand rand_nonneg disk_room p0 on_qemu uart_laws.

(** [main] of earth/earth.c. *)
Definition main (fuel : nat) (disk_init : M est unit) (g : segments) : M est unit :=
  modify (fun e => set_emem (prepare_memory g (emem e)) e) ;;;
  earth_main rand fuel disk_init.

(** The machine at power-on, on platform [p0]: the variables of the memory
    management unit have their initial values. *)
Record power_on (e : est) : Prop := {
  po_table : table (mmu e) = replicate (Z.to_nat NFRAMES) unused_frame;
  po_curr : curr_vm_pid (mmu e) = -1;
  po_platform : platform (dev (mmu e)) = p0;
  po_bios : detect_platform (load_u32 (emem e) 0x8000002c) = p0
}.

(** [disk_init] changes the disk and the terminal. *)
Definition set_disk (d : D) (s : P) : P :=
  {| pg_mem := pg_mem s; cache_slots := cache_slots s; platform := platform s; pg_disk := d; pg_rand := pg_rand s |}.
Definition after_disk (d : D) (t : tty_state B) (e : est) : est :=
  set_tty t (set_mmu (set_dev (set_disk d (dev (mmu e))) (mmu e)) e).

Definition prepared (g : segments) (e : est) : est :=
  set_platform p0 (set_emem (prepare_memory g (emem e)) e).

Lemma bios_word g m : fits g -> load_u32 (prepare_memory g m) 0x8000002c = load_u32 m 0x8000002c.
Proof.
  intros Hg. unfold load_u32. f_equal. apply load_ext. intros a Ha. rewrite prepare_memory_spec by done.
  destruct (symbols_order g Hg) as (S1 & S2 & S3 & S4).
  destruct (Z.ltb_spec a (data_end g)); [lia|]. rewrite andb_false_r.
  destruct (Z.ltb_spec a (bss_end g)); [lia|]. by rewrite andb_false_r.
Qed.

Lemma fresh_power_on g d t e :
  power_on e -> let e2 := after_disk d t (prepared g e) in
  fresh rand (dev (mmu e2)) (curr_vm_pid (mmu e2)) 0 (mmu e2) /\ curr_vm_pid (mmu e2) = -1.
Proof.
  intros [Ht Hc Hp _] e2. split; [|exact Hc].
  assert (forall i, entry (mmu e2) i = unused_frame) as He.
  { intros i. unfold entry. change (table (mmu e2)) with (table (mmu e)). rewrite Ht.
    destruct (replicate _ _ !! _) eqn:E; [|done]. by apply lookup_replicate_1 in E as [-> _]. }
  split.
  - change (table (mmu e2)) with (table (mmu e)). by rewrite Ht, length_replicate.
  - exists (pmem (dev (mmu e2))). by destruct (dev (mmu e2)).
  - done.
  - intros i _ _. apply He.
  - intros i _. by rewrite He.
  - intros i _. by rewrite He.
Qed.

(** What a fresh memory management unit gives to the loader. *)
Lemma fresh_ok d n (s : mmu_state P) : platform d = p0 -> fresh rand d (-1) n s -> mmu_ok s.
Proof using on_qemu.
  intros Hp [F1 [m F2] F3 F4 F5 F6].
  assert (forall i, exists k, 0 <= k /\ entry s i = entry s k) as Hi.
  { intros i. exists (Z.of_nat (Z.to_nat i)). split; [lia|]. unfold entry. by rewrite Nat2Z.id. }
  assert (forall i q p, q <> 0 -> ~ maps (entry s i) q p) as Hno.
  { intros i q p Hq (_ & Hm & _). destruct (Hi i) as (k & Hk & E). rewrite E, F5 in Hm by done. congruence. }
  split.
  - done.
  - rewrite F2. split; [done|]. intros Hx. change (platform d = ARTY) in Hx. congruence.
  - by rewrite F3.
  - intros i. destruct (Hi i) as (k & Hk & ->). by apply F4.
  - intros i q p Hq Hm. by destruct (Hno i q p Hq).
  - intros i j q p _ _ Hq Hm. by destruct (Hno i q p Hq).
Qed.

Lemma fresh_none d n (s : mmu_state P) q p : fresh rand d (-1) n s -> q <> 0 -> view s q p = None.
Proof.
  intros [_ _ _ _ F5 _] Hq. unfold view. destruct (frame_of (table s) q p) as [i|] eqn:E; [|done].
  apply frame_of_some in E as [Hi (_ & Hm & _)]. rewrite F5 in Hm by done. congruence.
Qed.

Lemma on_tty_ret (e : est) : on_tty (ret tt) e = Ok (tt, e).
Proof. by destruct e. Qed.

(** The initialisation of the earth layer. *)
Lemma earth_init_ok fuel disk_init g d t c (e : est) :
  let e2 := after_disk d t (prepared g e) in
  let pend := pending (UartLaws := uart_laws p0) (tty_bus t) in
  power_on e -> fits g -> disk_init (prepared g e) = Ok (tt, e2) ->
  first_choice (typed pend) = Some c -> (length pend < fuel)%nat -> (busy_max (UartLaws := uart_laws p0) < fuel)%nat ->
  exists e', earth_init fuel disk_init (set_emem (prepare_memory g (emem e)) e) = Ok (tt, e') /\
    fresh rand (init_dev (dev (mmu e2))) (-1) 15 (mmu e') /\ platform_of e' = p0 /\ QUANTUM e' = 500000 /\
    translation e' = (if c =? 48 then PAGE_TABLE else SOFT_TLB) /\
    csr_mtvec (csr e') = Some (if c =? 48 then trap_from_S_mode else trap_from_M_mode).
Proof using on_qemu H2.
  intros e2 pend Hpo Hg Hd Hc Hf Hb. destruct (fresh_power_on g d t e Hpo) as [Hfr Hcv]. fold e2 in Hfr, Hcv.
  unfold earth_init, bind at 1. cbn [get]. unfold bind at 1. cbn [modify].
  change (emem (set_emem ?m e)) with m. rewrite bios_word, (po_bios _ Hpo) by done.
  fold (prepared g e). unfold bind at 1. cbn [get]. change (platform_of (prepared g e)) with p0.
  assert (on_tty (tty_init p0 fuel) (prepared g e) = Ok (tt, prepared g e)) as E1.
  { unfold tty_init. rewrite decide_False by done. apply on_tty_ret. }
  rewrite (bind_ok _ _ _ _ _ E1), (bind_ok _ _ _ _ _ Hd).
  destruct (mmu_init_ok (U := uart_laws) rand fuel e2 c) as (e3 & E3 & _ & Ht).
  { exact (po_platform _ Hpo). } { apply Hfr. } { intros i Hi. apply (fr_free _ _ _ _ _ Hfr). lia. }
  { exact Hc. } { exact Hf. } { exact Hb. }
  assert (platform (dev (mmu e2)) <> ARTY) as Hq.
  { change (platform (dev (mmu e)) <> ARTY). by rewrite (po_platform _ Hpo). }
  destruct (mmu_init_fresh rand fuel e2 Hq Hfr e2 tt e3 eq_refl E3) as [Hf3 (Hp3 & Hh3 & _ & _)].
  rewrite Hcv in Hf3. change (platform_of e2) with p0 in Hp3, Ht. rewrite bool_decide_eq_true_2 in Ht by done.
  rewrite (bind_ok _ _ _ _ _ E3). unfold bind at 1. cbn [get].
  destruct (mtimecmp_set_ok (mhartid e3) 0x0FFFFFFFFFFFFFFF (tty_bus (tty e3)) ltac:(lia)) as (b' & Eb & _).
  assert (timer_init (mhartid e3) (platform_of e3) (tty_bus (tty e3)) = Ok (500000, b')) as Et.
  { unfold timer_init. rewrite Hp3, decide_False by done. by rewrite (bind_ok _ _ _ _ _ Eb). }
  assert (on_regs (timer_init (mhartid e3) (platform_of e3)) e3 = Ok (500000, set_tty (set_bus b' (tty e3)) e3)) as Er
    by exact (lift_ok (fun e => tty_bus (tty e)) _ _ e3 _ _ Et).
  rewrite (bind_ok _ _ _ _ _ Er). unfold bind at 1. cbn [modify].
  eexists. split; [reflexivity|]. split; [exact Hf3|]. split; [exact Hp3|]. split; [done|].
  cbn [translation csr set_csr set_csr_trap csr_mtvec set_QUANTUM set_tty]. cbn [andb] in Ht.
  destruct (c =? 48); destruct Ht as [-> _]; by split.
Qed.

(** The executables: the grass layer, the process server, and those that the
    process server will start. *)
Variables (gfile file : Z -> block) (gn n : Z) (gph ph : elf32_program_header).
Hypothesis grass_exec : grass_file gfile gn gph.
Hypothesis server_exec : app_file file n ph.
Hypothesis sizes : 0 < gn /\ 0 < n.
Variable programs : list program.

Definition has_system (d : P) : Prop :=
  on_disk_at GRASS_EXEC_START gn gfile d /\ on_disk_at SYS_PROC_EXEC_START n file d /\ all_on_disk programs d.

Lemma has_system_blocks d d' : disk_blocks (pg_disk d') = disk_blocks (pg_disk d) -> has_system d -> has_system d'.
Proof.
  intros HD [(A1 & A2 & A3 & A4) [(B1 & B2 & B3 & B4) Hp]].
  split; [split_and!; [done..|]; by rewrite HD|]. split; [split_and!; [done..|]; by rewrite HD|].
  by eapply all_on_disk_blocks.
Qed.

(** The state that [main] of the earth layer leaves to the grass layer. *)
Record grass_ready (c : Z) (e' : est) : Prop := {
  gd_mepc : csr_mepc (csr e') = GRASS_ENTRY;
  gd_mode : MPP (csr_mstatus (csr e')) = (if c =? 48 then 1 else 3);
  gd_mtvec : csr_mtvec (csr e') = Some (if c =? 48 then trap_from_S_mode else trap_from_M_mode);
  gd_translation : translation e' = (if c =? 48 then PAGE_TABLE else SOFT_TLB);
  gd_code x : 0 <= x < GRASS_SIZE ->
    load_byte (emem e') (GRASS_ENTRY + x) = seg_byte gfile (p_offset gph / BLOCK_SIZE) (p_filesz gph) x
}.

Lemma free_after k d c (s : mmu_state P) : fresh rand d c 15 s -> (15 + k <= Z.to_nat NFRAMES)%nat -> free_frames s k.
Proof.
  intros Hf Hk. exists (seqZ 15 (Z.of_nat k)). split; [apply NoDup_seqZ|]. split; [by rewrite length_seqZ, Nat2Z.id|].
  intros i Hi%elem_of_seqZ. unfold NFRAMES in *. split; [lia|]. apply (fr_free _ _ _ _ _ Hf). unfold NFRAMES. lia.
Qed.

Lemma main_ok fuel disk_init g d t c (e : est) :
  let e2 := after_disk d t (prepared g e) in
  let pend := pending (UartLaws := uart_laws p0) (tty_bus t) in
  power_on e -> fits g -> disk_init (prepared g e) = Ok (tt, e2) -> has_system (dev (mmu e2)) ->
  first_choice (typed pend) = Some c -> (length pend < fuel)%nat -> (busy_max (UartLaws := uart_laws p0) < fuel)%nat ->
  exists e', main fuel disk_init g e = Ok (tt, e') /\ grass_ready c e' /\
    can_load_from rand rand_nonneg disk_room p0 has_system e' GPID_PROCESS /\
    free_frames (mmu e') 20 /\ forall q p, q <> 0 -> view (mmu e') q p = None.
Proof.
  intros e2 pend Hpo Hg Hd Hsys Hc Hf Hb.
  destruct (earth_init_ok fuel disk_init g d t c e Hpo Hg Hd Hc Hf Hb) as (e3 & E3 & Hfr & Hp & HQ & Ht & Hv). fold e2 in Hfr.
  assert (platform (init_dev (dev (mmu e2))) = p0) as Hpd by exact (po_platform _ Hpo).
  pose proof (fresh_ok _ _ _ Hpd Hfr) as Hok.
  assert (has_system (dev (mmu e3))) as Hs3.
  { destruct (fr_dev _ _ _ _ _ Hfr) as [m ->]. by apply (has_system_blocks (dev (mmu e2))). }
  destruct grass_exec as [(j & Hone & Hph) Hva Hsz Ho Hbl].
  destruct (load_grass_layer rand rand_nonneg disk_room p0 has_system gn gfile gph (translation e3) (mmu e3) j)
    as (m' & E4 & Hok' & (Et & Ec & Hk) & Hm); try done; [by intros ? [? _]|exact has_system_blocks|apply sizes|].
  eexists. split.
  { unfold main, bind at 1. cbn [modify]. unfold earth_main. rewrite (bind_ok _ _ _ _ _ E3).
    unfold bind at 1. cbn [get]. rewrite (bind_ok _ _ _ _ _ (lift_ok mmu set_mmu _ _ _ _ E4)). reflexivity. }
  assert (forall q p, q <> 0 -> view m' q p = None) as Hnone.
  { intros q p Hq. pose proof (fresh_none _ _ _ q p Hfr Hq) as Hn. unfold view in *. rewrite Et.
    by destruct (frame_of (table (mmu e3)) q p). }
  assert (free_frames m' 20) as Hfree.
  { eapply free_frames_static; [exact Et|]. apply (free_after 20 _ _ _ Hfr). by apply Nat.leb_le. }
  split; [|split; [|by split]].
  - split; cbn [csr set_csr csr_mepc csr_mstatus csr_mtvec translation set_mmu]; [done| |done|done|].
    + rewrite Ht. destruct (c =? 48); [rewrite decide_False by done|rewrite decide_True by done]; apply MPP_enter; lia.
    + intros x Hx. cbn. rewrite Hm, (proj2 (Z.leb_le _ _)), (proj2 (Z.ltb_lt _ _)) by lia. cbn. f_equal. lia.
  - split.
    + split; [exact Hok'| |].
      * intros Hx. destruct (mo_dev _ Hok') as [Hpl _]. change (platform (dev m') = ARTY) in Hx. congruence.
      * change (0 <= QUANTUM e3 < 2 ^ 32). rewrite HQ. lia.
    + by apply Hk.
    + by exists 15%nat.
    + cbn. rewrite Ec, (fr_curr _ _ _ _ _ Hfr). done.
    + intros p. by apply Hnone.
Qed.

(** [grass_start] takes the first entry, with pid 1. *)
Definition first_proc : process :=
  {| pid := 1; status := PROC_RUNNING; mepc := 0;
     saved_register := replicate (Z.to_nat SAVED_REGISTER_SIZE) x00; receiver_pid := 0 |}.
Definition first_procs : list process := first_proc :: replicate 7 proc0.

Lemma grass_start_procs (e : est) :
  grass_start (grass0 e) = on_earth (earth_mmu_switch GPID_PROCESS)
    {| proc_set := first_procs; proc_curr_idx := 0; proc_nprocs := 1; earth := e |}.
Proof. reflexivity. Qed.

(** The process server, and frames for the others. *)
Lemma grass_start_stage (e : est) s :
  grass_start (grass0 e) = Ok (tt, s) -> k_run s -> mmu_ok (mmu e) -> all_on_disk programs (dev (mmu e)) ->
  free_frames (mmu e) 15 -> (forall q p, 1 < q -> view (mmu e) q p = None) ->
  stage rand rand_nonneg disk_room p0 on_qemu uart_laws programs 1 15 s.
Proof.
  intros E Hrun Hok Hd Hfree Hnone. rewrite grass_start_procs in E. unfold on_earth in E. cbn [earth] in E.
  destruct (earth_mmu_switch GPID_PROCESS e) as [[[] e']| | |] eqn:Em; [|discriminate E..].
  assert (s = {| proc_set := first_procs; proc_curr_idx := 0; proc_nprocs := 1; earth := e' |}) as Hs by (symmetry; by injection E).
  destruct (steady_mmu_switch rand p0 on_qemu (table (mmu e)) (pg_disk (dev (mmu e))) GPID_PROCESS e tt e') as (Ht & Hd' & _);
    [by split; [|split; [|apply (mo_dev _ Hok)]]|exact Em|].
  split; [done|by rewrite Hs|..]; rewrite Hs; cbn [proc_set earth].
  - intros i Hi. unfold MAX_NPROCESS in Hi. unfold proc. cbn [proc_set].
    assert (i = 0 \/ 1 <= i < 8) as [->|Hi'] by lia; [done|]. rewrite (proj2 (Z.ltb_ge _ _)) by lia.
    destruct (Z.to_nat i) as [|j] eqn:Ej; [lia|]. cbn [first_procs lookup list_lookup].
    destruct (replicate 7 proc0 !! j) eqn:El; [|done]. by apply lookup_replicate_1 in El as [-> _].
  - constructor; [done|]. apply Forall_replicate. intros Hp. by destruct Hp.
  - by eapply free_frames_static.
  - eapply (all_on_disk_blocks programs); [|exact Hd]. by rewrite Hd'.
  - intros q p Hq. specialize (Hnone q p Hq). unfold view in *. rewrite Ht. by destruct (frame_of _ q p).
Qed.

(** The grass layer starts the process server and leaves room for the others. *)
Lemma grass_main_ok (e : est) :
  can_load_from rand rand_nonneg disk_room p0 has_system e GPID_PROCESS ->
  free_frames (mmu e) 20 -> (forall q p, q <> 0 -> view (mmu e) q p = None) ->
  exists s, grass_main rand (grass0 e) = Ok (tt, s) /\ curr_pid s = GPID_PROCESS /\
    stage rand rand_nonneg disk_room p0 on_qemu uart_laws programs 1 15 s /\
    forall x, 0 <= x < APPS_SIZE ->
      load_byte (emem (earth s)) (APPS_ENTRY + x) = seg_byte file (p_offset ph / BLOCK_SIZE) (p_filesz ph) x.
Proof.
  intros Hcl Hfree Hnone.
  destruct (grass_main_runs_first_process rand rand_nonneg disk_room p0 on_qemu uart_laws file n ph e server_exec
    (proj2 sizes)) as (s & Es & Hrun & Hcp & Hcode).
  { destruct Hcl as [C1 (_ & C2 & _) C3 C4 C5]. by split. }
  { intros q a Hq [v Hv]. rewrite Hnone in Hv by done. done. }
  exists s. split; [done|]. split; [done|]. split; [|done].
  assert (forall m d, has_system d -> has_system (set_pmem m d)) as Hmem by (intros ? ?; by apply has_system_blocks).
  assert (forall f a d d', pg_ok d -> 0 <= f < NFRAMES -> has_system d -> paging_read f true d = Ok (a, d') -> has_system d') as Hrd.
  { intros f a d d' Hd Hf (G1 & G2 & G3) Er. split; [|split].
    - by eapply (on_disk_at_read rand rand_nonneg disk_room p0).
    - by eapply (on_disk_at_read rand rand_nonneg disk_room p0).
    - eapply Forall_impl; [exact G3|]. intros p Hp. by eapply (on_disk_at_read rand rand_nonneg disk_room p0). }
  assert (reads_file has_system (exec_read SYS_PROC_EXEC_START) file n) as Hread.
  { apply (exec_read_keeps rand rand_nonneg disk_room p0); [by intros d (_ & ? & _)|exact has_system_blocks]. }
  assert (0 < n < 2 ^ 32) as Hn.
  { split; [apply sizes|]. eapply on_disk_size. apply (clf_keeps _ _ _ _ _ _ _ Hcl). }
  destruct (load_from rand rand_nonneg disk_room p0 on_qemu uart_laws n file ph server_exec Hn has_system Hmem Hrd
    (exec_read SYS_PROC_EXEC_START) Hread e GPID_PROCESS 0 None Hcl) as (m' & E1 & Happ & _); [done|done|].
  pose proof (load_frees rand rand_nonneg disk_room p0 n file ph server_exec Hn has_system Hmem Hrd
    (exec_read SYS_PROC_EXEC_START) Hread e GPID_PROCESS 0 None m' 15 Hcl ltac:(done) ltac:(done) E1 Hfree) as Hfree'.
  pose proof (ldd_grows _ _ _ _ _ _ _ _ _ Happ) as G.
  apply (grass_start_stage (set_mmu m' e)); [|exact Hrun|apply G| |exact Hfree'|].
  - rewrite <- Es. unfold grass_main, bind at 1. cbn [get]. symmetry.
    exact (bind_ok _ _ _ _ _ (on_earth_ok _ (grass0 e) _ _ E1)).
  - by apply (gr_keeps _ _ _ _ G), (clf_keeps _ _ _ _ _ _ _ Hcl).
  - intros q p Hq. change (view m' q p = None). rewrite (gr_view _ _ _ _ G) by (unfold GPID_PROCESS; lia).
    apply Hnone. lia.
Qed.

(** From power-on to the process server. *)
Lemma boot_ok fuel disk_init g d t c (e : est) :
  let e2 := after_disk d t (prepared g e) in
  let pend := pending (UartLaws := uart_laws p0) (tty_bus t) in
  power_on e -> fits g -> disk_init (prepared g e) = Ok (tt, e2) -> has_system (dev (mmu e2)) ->
  first_choice (typed pend) = Some c -> (length pend < fuel)%nat -> (busy_max (UartLaws := uart_laws p0) < fuel)%nat ->
  exists e' s, main fuel disk_init g e = Ok (tt, e') /\ grass_ready c e' /\
    grass_main rand (grass0 e') = Ok (tt, s) /\ curr_pid s = GPID_PROCESS /\
    stage rand rand_nonneg disk_room p0 on_qemu uart_laws programs 1 15 s /\
    forall x, 0 <= x < APPS_SIZE ->
      load_byte (emem (earth s)) (APPS_ENTRY + x) = seg_byte file (p_offset ph / BLOCK_SIZE) (p_filesz ph) x.
Proof.
  intros e2 pend Hpo Hg Hd Hsys Hc Hf Hb.
  destruct (main_ok fuel disk_init g d t c e Hpo Hg Hd Hsys Hc Hf Hb) as (e' & E & Hr & Hl & Hfree & Hno).
  destruct (grass_main_ok e' Hl Hfree Hno) as (s & Es & Hs). by exists e', s.
Qed.

(** C11. The system starts.  From power-on on QEMU, with a disk that [disk_init]
    finds and that holds the executables, and with 0 or 1 typed for the
    translation: [main] of earth/earth.c initialises the layer, leaves the grass
    layer in memory and enters it at [GRASS_ENTRY], in supervisor mode with page
    tables and in machine mode with the software TLB, with the trap handler of
    that mode; from there [main] of grass/grass.c starts the process server as
    process 1, in a state that keeps the kernel's invariant, with its program at
    [APPS_ENTRY], and with room for the servers that it will start ([stage]). *)
Theorem system_boots fuel disk_init g d t c (e : est) :
  let e2 := after_disk d t (prepared g e) in
  let pend := pending (UartLaws := uart_laws p0) (tty_bus t) in
  power_on e -> fits g -> disk_init (prepared g e) = Ok (tt, e2) -> has_system (dev (mmu e2)) ->
  first_choice (typed pend) = Some c -> (length pend < fuel)%nat -> (busy_max (UartLaws := uart_laws p0) < fuel)%nat ->
  exists e' s, main fuel disk_init g e = Ok (tt, e') /\ grass_ready c e' /\
    grass_main rand (grass0 e') = Ok (tt, s) /\ curr_pid s = GPID_PROCESS /\
    stage rand rand_nonneg disk_room p0 on_qemu uart_laws programs 1 15 s /\
    forall x, 0 <= x < APPS_SIZE ->
      load_byte (emem (earth s)) (APPS_ENTRY + x) = seg_byte file (p_offset ph / BLOCK_SIZE) (p_filesz ph) x.
Proof. apply boot_ok. Qed.
End boot.
