(* ===== verification/StartupExample.v ===== *)
(** The start of the system on a machine with a small disk: the executables have
    five bytes of code, and page tables are chosen. *)

From Stdlib Require Import ZArith Lia Strings.Byte.
From stdpp Require Import base numbers list strings gmap.
From S2P Require Import Prelude Bytes Memory Earth RamDisk Paging Mmu Bus Tty Kernel KernelSpec KernelReach EarthState Devices KernelExample.
From S2P Require Import Elf ElfProof Boot BootTheorems Layout StartServers Startup.

Local Open Scope egos_scope.

(** The grass layer, the process server and the three other servers on one disk. *)
Definition put_exec (base : Z) (m : mem) : mem :=
  store (store m (base * BLOCK_SIZE) (elf_block APPS_ENTRY 5)) ((base + 1) * BLOCK_SIZE) code.
Definition system_disk : MemDisk.disk :=
  {| MemDisk.bytes :=
       put_exec SYS_SHELL_EXEC_START (put_exec SYS_DIR_EXEC_START (put_exec SYS_FILE_EXEC_START
         (put_exec SYS_PROC_EXEC_START (MemDisk.bytes (image GRASS_EXEC_START GRASS_ENTRY))))) |}.
Definition exec_file (base b : Z) : block := MemDisk.blk system_disk (base + b).

Lemma exec_on_disk base (d : P0) :
  pg_disk d = system_disk -> NFRAMES * NBLOCKS_PER_PAGE <= base -> base + 2 <= MemDisk.SIZE ->
  on_disk_at base 2 (exec_file base) d.
Proof.
  intros Hd H1 H2. assert (MemDisk.SIZE < 2 ^ 32) as Hs by (vm_compute; reflexivity).
  assert (0 <= NFRAMES * NBLOCKS_PER_PAGE) as Hp by (vm_compute; intros Hx; discriminate Hx).
  split; [exact H1|]. split; [exact H2|]. split; [lia|]. intros b Hb.
  rewrite Hd. change (MemDisk.blocks system_disk !! (base + b) = Some (exec_file base b)).
  rewrite MemDisk.blocks_lookup, (proj2 (Z.leb_le _ _)), (proj2 (Z.ltb_lt _ _)) by lia. reflexivity.
Qed.

Lemma grass_block : exec_file GRASS_EXEC_START 0 = elf_block GRASS_ENTRY 5.
Proof. vm_compute. reflexivity. Qed.

Lemma system_grass : grass_file (exec_file GRASS_EXEC_START) 2 grass_ph.
Proof.
  split.
  - exists 0. rewrite grass_block. split; [apply block_segment|vm_compute; reflexivity].
  - reflexivity.
  - vm_compute. split; intros Hx; discriminate Hx.
  - vm_compute. intros Hx. discriminate Hx.
  - vm_compute. intros Hx. discriminate Hx.
Qed.

Lemma exec_app base : exec_file base 0 = elf_block APPS_ENTRY 5 -> app_file (exec_file base) 2 app_ph.
Proof.
  intros E. split.
  - exists 0. rewrite E. split; [apply block_segment|vm_compute; reflexivity].
  - reflexivity.
  - vm_compute. split; intros Hx; discriminate Hx.
  - vm_compute. intros Hx. discriminate Hx.
  - vm_compute. intros Hx. discriminate Hx.
Qed.

Lemma system_server : app_file (exec_file SYS_PROC_EXEC_START) 2 app_ph.
Proof. apply exec_app. vm_compute. reflexivity. Qed.

Definition server_at (base : Z) : program :=
  {| pr_base := base; pr_n := 2; pr_file := exec_file base; pr_ph := app_ph |}.
Definition server_programs : list program :=
  [server_at SYS_FILE_EXEC_START; server_at SYS_DIR_EXEC_START; server_at SYS_SHELL_EXEC_START].

Lemma server_programs_ok : Forall program_ok server_programs.
Proof.
  unfold server_programs. repeat apply Forall_cons_2; [..|apply Forall_nil_2];
    (split; [apply exec_app; vm_compute; reflexivity|reflexivity]).
Qed.

(** QEMU: the word of its boot ROM, and 1 and 0 typed for the two questions. *)
Definition powered : E0 :=
  set_mmu (set_dev {| pg_mem := store_u32 ∅ 0x8000002c 90; cache_slots := []; Paging.platform := QEMU_LATEST;
                      pg_disk := system_disk; pg_rand := tt |} (blank_mmu system_disk))
    (earth0 ∅ 5 [Some x31; Some x30]).
(** This disk needs no preparation after the question. *)
Definition ask_disk : M E0 unit := _ <- on_tty (choose QEMU_LATEST 20 20 [0; 0]) ;; ret tt.
Definition segments0 : segments := {| data_size := 100; bss_size := 200; data_rom := 0x20410000 |}.

Lemma powered_on : power_on rand0 QEMU_LATEST powered.
Proof. split; [reflexivity..|]. vm_compute. reflexivity. Qed.

Lemma segments0_fit : fits segments0.
Proof. split; [split|..|split]; vm_compute; intros Hx; discriminate Hx. Qed.

(** The terminal after the first answer. *)
Definition typed_one : tty_state Board.board :=
  {| tty_c := 49; is_reading := 0;
     tty_bus := {| Board.ticks := 0; Board.cmp := ∅; Board.rx := [Some x30]; Board.tx := [49] |} |}.

Lemma ask_disk_answer (e : E0) :
  tty e = tty powered ->
  ask_disk e = Ok (tt, after_disk (pg_disk (dev (mmu e))) typed_one e).
Proof.
  intros Ht. unfold ask_disk.
  assert (on_tty (choose QEMU_LATEST 20 20 [0; 0]) e = Ok ([49; 0], set_tty typed_one e)) as E.
  { apply (lift_ok tty set_tty). rewrite Ht. vm_compute. reflexivity. }
  unfold bind. rewrite E. destruct e as [[? ? ? ? ? ? []] ? ? ? ? ? ?]. reflexivity.
Qed.

Lemma powered_disk :
  ask_disk (prepared rand0 QEMU_LATEST segments0 powered) =
  Ok (tt, after_disk system_disk typed_one (prepared rand0 QEMU_LATEST segments0 powered)).
Proof. apply (ask_disk_answer (prepared rand0 QEMU_LATEST segments0 powered)). reflexivity. Qed.

Lemma powered_system :
  has_system (exec_file GRASS_EXEC_START) (exec_file SYS_PROC_EXEC_START) 2 2 server_programs
    (dev (mmu (after_disk system_disk typed_one (prepared rand0 QEMU_LATEST segments0 powered)))).
Proof.
  split; [|split].
  - apply exec_on_disk; [reflexivity|vm_compute; intros Hx; discriminate Hx..].
  - apply exec_on_disk; [reflexivity|vm_compute; intros Hx; discriminate Hx..].
  - unfold all_on_disk, server_programs. repeat apply Forall_cons_2; [..|apply Forall_nil_2];
      (apply exec_on_disk; [reflexivity|vm_compute; intros Hx; discriminate Hx..]).
Qed.

Lemma system_boots_witness :
  exists e' s, main rand0 20 ask_disk segments0 powered = Ok (tt, e') /\ MPP (csr_mstatus (csr e')) = 1 /\
    grass_main rand0 (grass0 e') = Ok (tt, s) /\ curr_pid s = GPID_PROCESS /\
    load_byte (emem (earth s)) APPS_ENTRY = x13.
Proof.
  destruct (system_boots rand0 rand0_nonneg room0 QEMU_LATEST on_qemu0 Board.uart
    (exec_file GRASS_EXEC_START) (exec_file SYS_PROC_EXEC_START) 2 2 grass_ph app_ph system_grass system_server
    (conj eq_refl eq_refl) server_programs 20 ask_disk segments0 system_disk typed_one 48 powered)
    as (e' & s & H1 & [_ H2 _ _ _] & H3 & H4 & _ & H5).
  - exact powered_on.
  - exact segments0_fit.
  - exact powered_disk.
  - exact powered_system.
  - reflexivity.
  - vm_compute. repeat constructor.
  - vm_compute. repeat constructor.
  - exists e', s. split; [exact H1|]. split; [exact H2|]. split; [exact H3|]. split; [exact H4|].
    refine (eq_trans (H5 0 _) _); [unfold APPS_SIZE; lia|vm_compute; reflexivity].
Defined.

(** The process server of this machine. *)
Lemma powered_stage :
  exists s, curr_pid s = GPID_PROCESS /\
    stage rand0 rand0_nonneg room0 QEMU_LATEST on_qemu0 Board.uart server_programs 1 15 s.
Proof.
  destruct (boot_ok rand0 rand0_nonneg room0 QEMU_LATEST on_qemu0 Board.uart
    (exec_file GRASS_EXEC_START) (exec_file SYS_PROC_EXEC_START) 2 2 grass_ph app_ph system_grass system_server
    (conj eq_refl eq_refl) server_programs 20 ask_disk segments0 system_disk typed_one 48 powered)
    as (e' & s & _ & _ & _ & H4 & H5 & _).
  - exact powered_on.
  - exact segments0_fit.
  - exact powered_disk.
  - exact powered_system.
  - reflexivity.
  - vm_compute. repeat constructor.
  - vm_compute. repeat constructor.
  - exists s. split; [exact H4|exact H5].
Qed.

