(* ===== verification/Trap.v ===== *)
(** The code of earth/earth.s that saves and restores the registers around
    [trap_entry], and the entry points of grass/grass.s and apps/app.s: a small
    machine with the instructions they use, their text as programs of it, and
    the decoding of [mcause] in earth/cpu_intr.c. *)

From Stdlib Require Import ZArith Lia Strings.Byte.
From stdpp Require Import base numbers list strings gmap.
From S2P Require Import Prelude Bytes Memory Earth Kernel.

(** ** The machine *)

Inductive reg :=
| ra | sp | gp | tp
| t0 | t1 | t2 | t3 | t4 | t5 | t6
| a0 | a1 | a2 | a3 | a4 | a5 | a6 | a7
| s0 | s1 | s2 | s3 | s4 | s5 | s6 | s7 | s8 | s9 | s10 | s11.
#[export] Instance reg_eq_dec : EqDecision reg.
Proof. solve_decision. Defined.

Record cpu := { regs : reg -> Z; cpu_mem : mem; mscratch : Z; mstatus : Z }.

Inductive instr :=
| csrw_mscratch (r : reg)
| csrr_mscratch (r : reg)
| csrs_mstatus (r : reg)
| csrc_mstatus (r : reg)
| li (r : reg) (v : Z)
| lui (r : reg) (v : Z)
| addi (r r' : reg) (v : Z)
| sw (r : reg) (off : Z) (b : reg)
| lw (r : reg) (off : Z) (b : reg).

Definition set_reg (r : reg) (v : Z) (c : cpu) : cpu :=
  {| regs := fun x => if decide (x = r) then v else regs c x; cpu_mem := cpu_mem c; mscratch := mscratch c;
     mstatus := mstatus c |}.

Definition exec (i : instr) (c : cpu) : cpu :=
  match i with
  | csrw_mscratch r => {| regs := regs c; cpu_mem := cpu_mem c; mscratch := regs c r; mstatus := mstatus c |}
  | csrr_mscratch r => set_reg r (mscratch c) c
  | csrs_mstatus r =>
      {| regs := regs c; cpu_mem := cpu_mem c; mscratch := mscratch c; mstatus := Z.lor (mstatus c) (regs c r) |}
  | csrc_mstatus r =>
      {| regs := regs c; cpu_mem := cpu_mem c; mscratch := mscratch c; mstatus := Z.ldiff (mstatus c) (regs c r) |}
  | li r v => set_reg r (u32 v) c
  | lui r v => set_reg r (u32 (Z.shiftl v 12)) c
  | addi r r' v => set_reg r (u32 (regs c r' + v)) c
  | sw r off b =>
      {| regs := regs c; cpu_mem := store_u32 (cpu_mem c) (u32 (regs c b + off)) (regs c r); mscratch := mscratch c;
         mstatus := mstatus c |}
  | lw r off b => set_reg r (load_u32 (cpu_mem c) (u32 (regs c b + off))) c
  end.

Definition run (p : list instr) (c : cpu) : cpu := fold_left (fun c i => exec i c) p c.

(** ** earth/earth.s *)

(** [earth_entry], up to the call of [main]. *)
Definition earth_entry : list instr := [li t0 0x8; csrc_mstatus t0; li sp 0x80003f80].

(** The part of [trap_from_S_mode] before it falls into [trap_from_M_mode]. *)
Definition trap_from_S_mode_prefix : list instr :=
  [csrw_mscratch t0; li t0 0x20800; csrs_mstatus t0; csrr_mscratch t0].

(** [trap_from_M_mode] before and after the call of [trap_entry]. *)
Definition trap_save : list instr :=
  [csrw_mscratch sp; lui sp 0x80004; addi sp sp (-128); addi sp sp (-116);
   sw ra 0 sp; sw t0 4 sp; sw t1 8 sp; sw t2 12 sp; sw t3 16 sp; sw t4 20 sp; sw t5 24 sp; sw t6 28 sp;
   sw a0 32 sp; sw a1 36 sp; sw a2 40 sp; sw a3 44 sp; sw a4 48 sp; sw a5 52 sp; sw a6 56 sp; sw a7 60 sp;
   sw s0 64 sp; sw s1 68 sp; sw s2 72 sp; sw s3 76 sp; sw s4 80 sp; sw s5 84 sp; sw s6 88 sp; sw s7 92 sp;
   sw s8 96 sp; sw s9 100 sp; sw s10 104 sp; sw s11 108 sp;
   csrr_mscratch t0; sw t0 112 sp].
Definition trap_restore : list instr :=
  [lw ra 0 sp; lw t0 4 sp; lw t1 8 sp; lw t2 12 sp; lw t3 16 sp; lw t4 20 sp; lw t5 24 sp; lw t6 28 sp;
   lw a0 32 sp; lw a1 36 sp; lw a2 40 sp; lw a3 44 sp; lw a4 48 sp; lw a5 52 sp; lw a6 56 sp; lw a7 60 sp;
   lw s0 64 sp; lw s1 68 sp; lw s2 72 sp; lw s3 76 sp; lw s4 80 sp; lw s5 84 sp; lw s6 88 sp; lw s7 92 sp;
   lw s8 96 sp; lw s9 100 sp; lw s10 104 sp; lw s11 108 sp;
   lw sp 112 sp].

(** [trap_entry] is compiled C code: what it does to the machine. *)
Definition trap_from_M_mode_code (trap_entry : cpu -> cpu) (c : cpu) : cpu :=
  run trap_restore (trap_entry (run trap_save c)).
Definition trap_from_S_mode_code (trap_entry : cpu -> cpu) (c : cpu) : cpu :=
  trap_from_M_mode_code trap_entry (run trap_from_S_mode_prefix c).

(** ** grass/grass.s and apps/app.s, up to the call of [main] *)

Definition grass_entry : list instr := [li sp 0x80003f80].
Definition app_entry : list instr := [lw a0 0 a0; li sp 0x80002000].

(** ** earth/cpu_intr.c *)

Section trap_entry.
Context {E : Type} `{EarthOps E}.

(** The static variable [kernel_entry]; [None] is NULL. *)
Definition handler : Type := Z -> Z -> M (kernel E) unit.
Definition kernel_entry_init (new_entry : handler) : M (option handler) unit := put (Some new_entry).

Definition trap_entry (kernel_entry : option handler) (mcause : Z) : M (kernel E) unit :=
  match kernel_entry with
  | Some entry => entry (Z.land mcause (Z.shiftl 1 31)) (Z.land mcause 0x3FF)
  | None => undef "trap_entry: kernel_entry"
  end.

(** Once grass/grass.c has registered the kernel, a trap enters it: the first
    argument says whether bit 31 of [mcause] is set, the second is the cause. *)
Lemma trap_entry_kernel h h' mcause (s : kernel E) :
  kernel_entry_init kernel_entry h = Ok (tt, h') ->
  trap_entry h' mcause s = kernel_entry (Z.land mcause (Z.shiftl 1 31)) (mcause mod 2 ^ 10) s.
Proof. intros [= <-]. cbn [trap_entry]. by rewrite <- (Z.land_ones mcause 10) by lia. Qed.
End trap_entry.

(** ** The saved registers *)

(** The order in which the registers are saved. *)
Definition saved_order : list reg :=
  [ra; t0; t1; t2; t3; t4; t5; t6; a0; a1; a2; a3; a4; a5; a6; a7;
   s0; s1; s2; s3; s4; s5; s6; s7; s8; s9; s10; s11; sp].

(** The [saved_register] array for given registers. *)
Definition reg_bytes (g : reg -> Z) : list byte := saved_order ≫= fun r => le_put 4 (g r).

Lemma store_app m a l1 l2 : store m a (l1 ++ l2) = store (store m a l1) (a + Z.of_nat (length l1)) l2.
Proof.
  revert m a. induction l1 as [|b l1 IH]; intros m a; cbn [store app length].
  - by rewrite Z.add_0_r.
  - rewrite IH. f_equal. lia.
Qed.

Lemma length_reg_bytes g : length (reg_bytes g) = Z.to_nat SAVED_REGISTER_SIZE.
Proof. done. Qed.

(** The frame of [trap_save]. *)
Lemma trap_save_mem c : cpu_mem (run trap_save c) = store (cpu_mem c) SAVED_REGISTER_ADDR (reg_bytes (regs c)).
Proof.
  unfold reg_bytes, saved_order. cbn [mbind list_bind]. rewrite app_nil_r.
  rewrite !(store_app _ _ (le_put 4 _)). reflexivity.
Qed.

Lemma trap_save_regs c r :
  regs (run trap_save c) r =
  if decide (r = sp) then SAVED_REGISTER_ADDR else if decide (r = t0) then regs c sp else regs c r.
Proof. destruct r; reflexivity. Qed.

(** A word of the frame. *)
Lemma frame_word (m : mem) g i r :
  load m SAVED_REGISTER_ADDR SAVED_REGISTER_SIZE = reg_bytes g -> saved_order !! i = Some r -> is_u32 (g r) ->
  load_u32 m (u32 (SAVED_REGISTER_ADDR + 4 * Z.of_nat i)) = g r.
Proof.
  intros Hl Hi Hg.
  assert (i < 29)%nat as Hlt by exact (lookup_lt_Some _ _ _ Hi).
  assert (0 <= 4 * Z.of_nat i) as Hp by lia.
  rewrite u32_small by (unfold is_u32, SAVED_REGISTER_ADDR, GRASS_STACK_TOP, SAVED_REGISTER_SIZE, SAVED_REGISTER_NUM; lia).
  assert (load m (SAVED_REGISTER_ADDR + 4 * Z.of_nat i) 4 =
          take 4 (drop (4 * i) (load m SAVED_REGISTER_ADDR SAVED_REGISTER_SIZE))) as Hw.
  { apply list_eq. intros k. rewrite load_lookup. destruct (Z.ltb_spec (Z.of_nat k) 4).
    - rewrite lookup_take_lt, lookup_drop, load_lookup by lia.
      rewrite (proj2 (Z.ltb_lt _ _)) by (unfold SAVED_REGISTER_SIZE, SAVED_REGISTER_NUM; lia). do 2 f_equal. lia.
    - by rewrite lookup_take_ge by lia. }
  unfold load_u32. rewrite Hw, Hl.
  assert (take 4 (drop (4 * i) (reg_bytes g)) = le_put 4 (g r)) as ->.
  { clear -Hi Hlt. do 29 (destruct i as [|i]; [injection Hi as <-; reflexivity|]). lia. }
  rewrite le_get_put. by apply Z.mod_small.
Qed.

(** What [trap_restore] loads. *)
Lemma trap_restore_regs c i r :
  saved_order !! i = Some r -> regs (run trap_restore c) r = load_u32 (cpu_mem c) (u32 (regs c sp + 4 * Z.of_nat i)).
Proof.
  intros Hi. assert (i < 29)%nat as Hlt by exact (lookup_lt_Some _ _ _ Hi).
  do 29 (destruct i as [|i]; [injection Hi as <-; reflexivity|]). lia.
Qed.

Lemma saved_order_all r : r <> gp -> r <> tp -> exists i, saved_order !! i = Some r.
Proof.
  intros Hgp Htp. exists (default 0%nat (fst <$> list_find (eq r) saved_order)). by destruct r.
Qed.
