(* ===== verification/TrapTheorems.v ===== *)
(** The properties of the trap code. *)

From Stdlib Require Import ZArith Lia Strings.Byte.
From stdpp Require Import base numbers list strings gmap.
From S2P Require Import Prelude Bytes Memory Earth Kernel Trap.

(** C30. The trap code saves the registers where [kernel_entry] finds them and
    restores those that it leaves there.  Whatever [trap_entry] does, as long as
    it returns with its stack pointer: the 29 words below the kernel stack are,
    at the call, the registers of the interrupted program in the order of
    [saved_register] (its [sp] last), and no other memory is written; after the
    restore every one of these registers has the value that the 29 words have
    then, so that changing them switches to another program; [gp] and [tp] are
    left to [trap_entry]. *)
Theorem trap_switches_registers (c : cpu) (h : cpu -> cpu) (g : reg -> Z) :
  let c1 := run trap_save c in
  (forall r, is_u32 (g r)) -> regs (h c1) sp = regs c1 sp ->
  load (cpu_mem (h c1)) SAVED_REGISTER_ADDR SAVED_REGISTER_SIZE = reg_bytes g ->
  load (cpu_mem c1) SAVED_REGISTER_ADDR SAVED_REGISTER_SIZE = reg_bytes (regs c) /\
  (forall a, ~ SAVED_REGISTER_ADDR <= a < GRASS_STACK_TOP -> load_byte (cpu_mem c1) a = load_byte (cpu_mem c) a) /\
  (forall r, r <> gp -> r <> tp -> regs (trap_from_M_mode_code h c) r = g r) /\
  regs (trap_from_M_mode_code h c) gp = regs (h c1) gp /\ regs (trap_from_M_mode_code h c) tp = regs (h c1) tp.
Proof.
  intros c1 Hg Hsp Hfr. split; [|split; [|split]].
  - unfold c1. rewrite trap_save_mem. apply load_store_len; [apply length_reg_bytes|done].
  - intros a Ha. unfold c1. rewrite trap_save_mem, store_lookup, length_reg_bytes.
    replace ((SAVED_REGISTER_ADDR <=? a) && _) with false; [done|]. symmetry. apply andb_false_iff.
    unfold SAVED_REGISTER_ADDR, SAVED_REGISTER_SIZE, SAVED_REGISTER_NUM, GRASS_STACK_TOP in *.
    rewrite Z.leb_gt, Z.ltb_ge. lia.
  - assert (regs (h c1) sp = SAVED_REGISTER_ADDR) as Hs by by rewrite Hsp; unfold c1; rewrite trap_save_regs.
    intros r Hgp Htp. destruct (saved_order_all r Hgp Htp) as [i Hi].
    unfold trap_from_M_mode_code. fold c1. rewrite (trap_restore_regs _ i r Hi), Hs. by apply frame_word.
  - done.
Qed.

(** The code of [trap_from_S_mode] that precedes it sets the bits [MPRV] and
    [MPP] (to S mode) of [mstatus]; every register keeps its value. *)
Lemma trap_from_S_mode_prefix_transparent (c : cpu) :
  let c' := run trap_from_S_mode_prefix c in
  (forall r, regs c' r = regs c r) /\ cpu_mem c' = cpu_mem c /\
  Z.testbit (mstatus c') 17 = true /\ Z.testbit (mstatus c') 11 = true.
Proof.
  intros c'. assert (mstatus c' = Z.lor (mstatus c) 0x20800) as Hm by done.
  split; [by intros []|]. split; [done|]. rewrite Hm, !Z.lor_spec. split; apply orb_true_r.
Qed.

(** ** A trap that switches *)

(** The machine with [v] in every register, and a handler that leaves the
    registers [w] of another program on the stack. *)
Definition cpu0 (v : Z) : cpu := {| regs := fun _ => v; cpu_mem := ∅; mscratch := 0; mstatus := 0 |}.
Definition switch_to (w : Z) (c : cpu) : cpu :=
  {| regs := regs c; cpu_mem := store (cpu_mem c) SAVED_REGISTER_ADDR (reg_bytes (fun _ => w)); mscratch := 0;
     mstatus := mstatus c |}.

Lemma trap_switches_registers_witness :
  regs (trap_from_M_mode_code (switch_to 9) (cpu0 7)) a0 = 9 /\ regs (trap_from_M_mode_code (switch_to 9) (cpu0 7)) gp = 7.
Proof.
  destruct (trap_switches_registers (cpu0 7) (switch_to 9) (fun _ => 9)) as (_ & _ & H1 & H2 & _).
  - intros r. split; [lia|reflexivity].
  - reflexivity.
  - vm_compute. reflexivity.
  - split; [apply H1; intros Hx; discriminate Hx|exact H2].
Defined.
