(* ===== verification/DiskTheorems.v ===== *)
(** The properties of the SD card driver, and of the file server on a disk, with
    the witnesses on the card of SdDevice.v. *)

From Stdlib Require Import ZArith Lia Strings.Byte.
From stdpp Require Import base numbers list strings gmap.
From S2P Require Import Prelude Bytes Memory Earth Bus InodeStore Treedisk TreediskSpec TreediskCreate FsDisk Sd SdCard.
From S2P Require Import Kernel Servers ServerProof Devices SdDevice.

Local Open Scope egos_scope.

Section sd.
Context {B C : Type} (platform : platform_t) `{SpiLaws B C (SPI_BASE platform)} `{!CardLaws C}.
Context (fuel : nat) (fuel_spi : (spi_max (SPI_BASE platform) < fuel)%nat) (fuel_card : (c_delay < fuel)%nat).

End sd.

(** C22. The file server on any disk that keeps the laws of the disk interface: a
    call of [file_read] with any inode number and offset gives 0 and the block
    that the file system on the disk has there, or -1 when there is none; the
    contents of the file system do not change. *)
Theorem file_server_reads_disk {D : Type} `{DiskLaws D} (ts : treedisk_state) (junk : block)
    (room : GRASS_FS_START + 4096 <= disk_size D) (d : D) c ino off F :
  fs_inv 4096 (fs_part d) F -> call_ok c GPID_FILE -> is_u32 ino -> is_u32 off ->
  exists d' b, fs_part d' = fs_part d /\
    file_read (IS := fs_disk_init) ts junk c ino off d =
      Ok ((match fs_of (fs_part d) !! Z.to_nat ino ≫= lookup (Z.to_nat off) with Some _ => 0 | None => -1 end, b), d') /\
    forall b', fs_of (fs_part d) !! Z.to_nat ino ≫= lookup (Z.to_nat off) = Some b' -> b = b'.
Proof.
  intros I Hc Hino Hoff.
  destruct (file_read_ok (IS := fs_disk_init) (LAWS := fs_disk_laws room (below_ino ts)) ts junk d c ino off F I Hc Hino Hoff)
    as (d' & b & E1 & E2 & _ & E3).
  exists d', b. split; [exact E1|]. split; [exact E2|exact E3].
Qed.

(** ** A card *)

(** The driver after it found the card, which holds nothing. *)
Definition sd0 : disk_state Spi.spi :=
  {| type := SD_CARD; SD_CARD_TYPE := SD_TYPE_SD2; disk_bus := Spi.blank; rom := ∅ |}.

Lemma fuel_spi0 : (spi_max (C := SimCard.simcard) (B := Spi.spi) (SPI_BASE ARTY) < 8)%nat.
Proof. apply Nat.ltb_lt. reflexivity. Qed.
Lemma fuel_card0 : (c_delay (C := SimCard.simcard) < 8)%nat.
Proof. apply Nat.ltb_lt. reflexivity. Qed.

(** [sdinit] finds the type of the card. *)
Lemma sdinit_finds_card : result (sdinit ARTY 8 Spi.blank) = Some SD_TYPE_SD2.
Proof. vm_compute. reflexivity. Qed.


(** The card as the disk of the file system. *)
Abbreviation card_disk := (sd_disk (B := Spi.spi) (C := SimCard.simcard) ARTY).
Definition card_ops : Disk card_disk := sd_ops ARTY 8.
Definition card_laws : DiskLaws card_disk := sd_laws ARTY 8 fuel_spi0 fuel_card0.
Definition card0 : card_disk := {| sd_state := sd0; sd_state_wf := eq_refl |}.
Definition ts1 : treedisk_state := {| below_ino := 0; ninodes := 0 |}.
Lemma card_room : GRASS_FS_START + 4096 <= disk_size (H := card_ops) (DiskLaws := card_laws) card_disk.
Proof. vm_compute. intros Hx. discriminate Hx. Qed.

(** There is no file system on the card yet. *)
Lemma card0_fresh : nib (fs_part (H := card_ops) (H0 := card_laws) card0) = 0.
Proof.
  unfold nib, TreediskSpec.blk. rewrite fs_part_lookup.
  assert (disk_blocks (H := card_ops) (DiskLaws := card_laws) card0 = MemDisk.blocks (SimCard.image (Spi.card Spi.blank))) as ->
    by reflexivity.
  rewrite MemDisk.blocks_lookup. reflexivity.
Qed.

(** A call with empty buffers. *)
Definition call0 (from : Z) : call :=
  {| content1 := replicate (Z.to_nat SYSCALL_MSG_LEN) x00; content2 := replicate (Z.to_nat SYSCALL_MSG_LEN) x00;
     sender := from; uninit := null_block |}.
Lemma call0_ok from : call_ok (call0 from) from.
Proof. split; reflexivity. Qed.

(** A new file system on the card: file 3 has no block at offset 0. *)
Lemma file_server_reads_disk_witness :
  exists d d' b, treedisk_create (H := fs_disk_init (H := card_ops)) null_block ts1 128 card0 = Ok (0, d) /\
    file_read (IS := fs_disk_init (H := card_ops)) ts1 null_block (call0 GPID_FILE) 3 0 d = Ok ((-1, b), d').
Proof.
  destruct (create_ok (IS := fs_disk_init (H := card_ops)) (LAWS := fs_disk_laws (H := card_ops) (H0 := card_laws) card_room 0)
    ts1 null_block null_block_ok card0 128) as (d & F & E & I & Hfs & _).
  - lia.
  - lia.
  - rewrite fs_disk_size. vm_compute. intros Hx. discriminate Hx.
  - rewrite fs_disk_store. apply card0_fresh.
  - destruct (file_server_reads_disk (H := card_ops) (H0 := card_laws) ts1 null_block card_room d (call0 GPID_FILE) 3 0 F)
      as (d' & b & _ & E' & _).
    + exact I.
    + apply call0_ok.
    + split; [lia|reflexivity].
    + split; [lia|reflexivity].
    + exists d, d', b. split; [exact E|]. rewrite E'.
      rewrite fs_disk_store in Hfs. rewrite Hfs. reflexivity.
Defined.
