(* ===== verification/AppTheorems.v ===== *)
(** The properties of the disk image, of the directory server and of the parser
    of the shell, with their witnesses. *)

From Stdlib Require Import ZArith Lia Strings.Byte.
From stdpp Require Import base numbers list strings gmap.
From S2P Require Import Prelude Bytes Memory Earth InodeStore Treedisk TreediskSpec RamDisk Mkfs MkfsProof FsDisk.
From S2P Require Import Kernel Elf Dir DirProof Servers ServerProof Shell Devices DiskTheorems.

Local Open Scope egos_scope.

(** ** The disk image *)

Opaque array_blocks.

(** C6. The image that tools/mkfs.c writes is one that the machine can start
    from.  When the executables fit their places, it has exactly the 8192
    blocks of the disk; the kernel executable number [i] is at the block from
    which the loaders read it, [GRASS_EXEC_START + i * GRASS_EXEC_SEGMENT], and
    is followed by zeros; the last 4096 blocks are a well-formed file system,
    whose first 16 files hold the directories, the README and the user
    executables of the table and whose other inodes are empty. *)
Theorem mkfs_image (junk : block) (exe : list byte -> list byte) (buf : list byte) :
  block_ok junk -> Z.of_nat (length buf) = BUF_SIZE ->
  Forall (fun p => exe_fits (exe p)) kernel_processes -> Forall (exe_ok exe) contents ->
  exists img s F files, mkfs_main junk exe buf ∅ = Ok (img, s) /\
    Z.of_nat (length img) = 8192 * BLOCK_SIZE /\
    (forall i p b, kernel_processes !! i = Some p -> 0 <= b < GRASS_EXEC_SEGMENT ->
      img_block img (GRASS_EXEC_START + Z.of_nat i * GRASS_EXEC_SEGMENT + b) = img_block (exec_segment (exe p)) b) /\
    (forall b, 0 <= b < 4096 -> array_blocks 4096 s !! b = Some (img_block img (GRASS_FS_START + b))) /\
    fs_inv 4096 (array_blocks 4096 s) F /\
    fs_of (array_blocks 4096 s) = files ++ replicate 112 [] /\ Forall2 (holds exe) contents files.
Proof. apply mkfs_image_ok. Qed.

(** A buffer of zeros. *)
Definition buf0 : list byte := replicate (Z.to_nat BUF_SIZE) x00.
Lemma buf0_length : Z.of_nat (length buf0) = BUF_SIZE.
Proof. unfold buf0. rewrite length_replicate. by apply Z2Nat.id. Qed.
Opaque buf0.

(** Executables of one byte. *)
Definition exe1 (p : list byte) : list byte := [x7f].
Lemma exe1_ok cs : Forall (exe_ok exe1) cs.
Proof. apply Forall_forall. intros c _. unfold exe_ok, exe1. cbn [length]. lia. Qed.
Lemma exe1_fits ps : Forall (fun p => exe_fits (exe1 p)) ps.
Proof. apply Forall_forall. intros c _. by split. Qed.

Lemma mkfs_image_witness :
  exists img s, mkfs_main null_block exe1 buf0 ∅ = Ok (img, s) /\
    img_block img SYS_PROC_EXEC_START = img_block (exec_segment [x7f]) 0 /\
    fs_of (array_blocks 4096 s) !! 3%nat = Some [strncpy_block (str "./   3 ../   1 ")].
Proof.
  destruct (mkfs_image null_block exe1 buf0)
    as (img & s & F & files & E & _ & HE & _ & _ & Hfs & Hh).
  - exact null_block_ok.
  - apply buf0_length.
  - apply exe1_fits.
  - apply exe1_ok.
  - exists img, s. split; [exact E|]. split.
    + apply (HE 1%nat (str "../build/release/sys_proc.elf") 0); [reflexivity|]. split; [lia|reflexivity].
    + destruct (Forall2_lookup_l _ _ _ 3 (str "./   3 ../   1 ") Hh) as (f & Hf & Hc); [reflexivity|].
      rewrite Hfs, (lookup_app_l_Some _ _ _ f Hf). cbv in Hc. by rewrite Hc.
Defined.

(** ** The directory server *)

Section dir.
Context {D : Type} `{DiskLaws D} (ts : treedisk_state) (junk : block) (room : GRASS_FS_START + 4096 <= disk_size D).

(** C19. The directory server on top of the file server, on any disk that keeps
    the laws of the disk interface: when the first block of inode [dir_ino] has
    the entries [es] in the format of tools/mkfs.c, [dir_lookup] of a name that
    [dir_request] can hold gives the inode number of the first entry with that
    name, or -1 when there is none, and the file system does not change.  The
    name must not be the number of an entry, which the server would take for a
    name, nor longer than the contents. *)
Theorem dir_lookup_finds_entry (d : D) c c' dir_ino n r es k F :
  fs_inv 4096 (fs_part d) F -> call_ok c GPID_DIR -> call_ok c' GPID_FILE -> is_u32 dir_ino ->
  fs_of (fs_part d) !! Z.to_nat dir_ino ≫= lookup 0%nat = Some (dir_text es ++ replicate (S k) x00) ->
  word_ok n -> Z.of_nat (length n) < DIR_NAME_SIZE -> (length n <= length (dir_text es))%nat ->
  Forall entry_ok es -> Forall (fun e => n <> dec e.2) es ->
  exists d', fs_part d' = fs_part d /\
    dir_lookup (IS := fs_disk_init) ts junk c c' dir_ino (n ++ x00 :: r) d = Ok (default (-1) (assoc es n), d').
Proof.
  intros I Hc Hc' Hino Hdir Hn Hn32 Hlen Hes Hd.
  exact (dir_lookup_call (IS := fs_disk_init) (LAWS := fs_disk_laws room (below_ino ts)) ts junk d c c' dir_ino n r es k F
    I Hc Hc' Hino Hdir Hn Hn32 Hlen Hes Hd).
Qed.
End dir.

(** [bin/] in the root directory of the image. *)
Definition root_entries : list (list byte * Z) :=
  [(str "./", 0); (str "../", 0); (str "home/", 1); (str "bin/", 6)].

Lemma dir_lookup_finds_entry_witness :
  exists d d', mkfs (IS := fs_disk_init (H := card_ops)) ts1 null_block exe1 buf0 card0 = Ok (tt, d) /\
    dir_lookup (IS := fs_disk_init (H := card_ops)) ts1 null_block (call0 GPID_DIR) (call0 GPID_FILE) 0 (str "bin/" ++ [x00]) d = Ok (6, d').
Proof.
  destruct (mkfs_ok (IS := fs_disk_init (H := card_ops)) (LAWS := fs_disk_laws (H := card_ops) (H0 := card_laws) card_room 0)
    ts1 null_block exe1 buf0 card0) as (d & F & E & I & Hfs).
  - exact null_block_ok.
  - apply fs_disk_size.
  - rewrite fs_disk_store. apply card0_fresh.
  - apply buf0_length.
  - apply exe1_ok.
  - rewrite fs_disk_store in Hfs.
    destruct (dir_lookup_finds_entry (H := card_ops) (H0 := card_laws) ts1 null_block card_room d (call0 GPID_DIR)
      (call0 GPID_FILE) 0 (str "bin/") [] root_entries 477 F) as (d' & _ & E').
    + exact I.
    + apply call0_ok.
    + apply call0_ok.
    + split; [lia|reflexivity].
    + rewrite Hfs. reflexivity.
    + split; [intros Hx; discriminate Hx|]. split; apply (bool_decide_eq_true_1 _); reflexivity.
    + reflexivity.
    + apply Nat.leb_le. reflexivity.
    + unfold root_entries, entry_ok, word_ok. apply (bool_decide_eq_true_1 _). reflexivity.
    + apply (bool_decide_eq_true_1 _). reflexivity.
    + exists d, d'. split; [exact E|]. exact E'.
Defined.

(** C40. A name that is longer than the contents of the directory: the bound of
    the scan, [strlen(buf) - namelen], is a difference of unsigned numbers and
    wraps around, so the scan leaves the buffer and reads past its end. *)
Theorem dir_lookup_long_name_overruns (n content r : list byte) (k : nat) :
  x00 ∉ n -> x00 ∉ content -> (length content < length n)%nat -> Z.of_nat (length n) < 2 ^ 31 ->
  Z.of_nat (length content + S k) < 2 ^ 31 ->
  dir_do_lookup (content ++ replicate (S k) x00) (n ++ x00 :: r) tt = Undef "char".
Proof. intros Hn Hc Hlen Hn31 Hk31. by apply dir_lookup_long. Qed.

(** A name of 16 characters in /home/rvr, whose contents have 15. *)
Lemma dir_lookup_long_name_overruns_witness :
  dir_do_lookup (strncpy_block (str "./   3 ../   1 ")) (str "long_file_name.c" ++ [x00]) tt = Undef "char".
Proof.
  apply (dir_lookup_long_name_overruns (str "long_file_name.c") (str "./   3 ../   1 ") [] 496).
  - apply (bool_decide_eq_true_1 _). reflexivity.
  - apply (bool_decide_eq_true_1 _). reflexivity.
  - apply Nat.leb_le. reflexivity.
  - reflexivity.
  - reflexivity.
Defined.

(** ** The shell *)

(** The parser of the shell: for every line, it returns the words of the line
    in [argv], each padded with zeros, and their number in [argc]; it refuses the
    line exactly when a word has 32 characters or more, or when 16 words are
    followed by a space.  It never writes outside the array. *)
Theorem parse_request_words (line r : list byte) :
  x00 ∉ line ->
  parse_request (line ++ x00 :: r) tt =
  Ok (if forallb (fun w => length w <? 32)%nat (words line) && (ended line <? 16)%nat
      then Some {| argc := Z.of_nat (length (words line)); argv := args_array (words line) |}
      else None, tt).
Proof.
  intros Hl. exact (parse_request_ok line r Hl).
Qed.

Lemma parse_request_words_witness :
  words (str "cat  README ") = [str "cat"; str "README"] /\
  parse_request (str "cat  README " ++ [x00]) tt =
    Ok (Some {| argc := 2; argv := args_array [str "cat"; str "README"] |}, tt).
Proof.
  split; [reflexivity|].
  apply (parse_request_words (str "cat  README ") []).
  apply (bool_decide_eq_true_1 _). reflexivity.
Defined.
