(* ===== verification/ProcServer.v ===== *)
(** The process server, apps/system/sys_proc.c: the loading of a command and the
    body of the request loop, over what they call (a class), and the loop of the
    shell, apps/system/sys_shell.c, that talks to it. *)

From Stdlib Require Import ZArith Lia Strings.Byte.
From stdpp Require Import base numbers list strings.
From S2P Require Import Prelude Bytes Kernel Elf Dir Servers Shell.

Local Open Scope egos_scope.

(** ** library/servers/servers.h *)

Definition PROC_SPAWN : Z := 0.
Definition PROC_EXIT : Z := 1.
Definition PROC_KILLALL : Z := 2.
Definition CMD_OK : Z := 0.
Definition CMD_ERROR : Z := 1.

(** [sizeof(struct proc_request)] and the offset of [argv]. *)
Definition PROC_REQUEST_SIZE : Z := 8 + CMD_NARGS * CMD_ARG_LEN.
Definition ARGV_OFFSET : Z := 8.

(** A request with its fields. *)
Definition proc_message (type argc : Z) (argv : list byte) : list byte := le_put 4 type ++ le_put 4 argc ++ argv.

(** ** The process server *)

(** The functions of [struct grass], of library/servers/servers.c and of
    library/elf/elf.c that it calls.  The loader gets the inode of the program,
    from which [app_read] reads. *)
Class ProcOps (K : Type) := {
  g_dir_lookup : Z -> list byte -> M K Z;
  g_proc_alloc : M K Z;
  g_elf_load : Z -> Z -> Z -> list byte -> M K unit;
  g_proc_set_ready : Z -> M K unit;
  g_proc_free : Z -> M K unit
}.

(** The variables of the server, the messages it has sent, and the rest of the
    machine. *)
Record server (K : Type) := {
  app_ino : Z;
  app_pid : Z;
  shell_waiting : bool;
  sent : list (Z * list byte);
  kern : K
}.
Arguments app_ino {K}.
Arguments app_pid {K}.
Arguments shell_waiting {K}.
Arguments sent {K}.
Arguments kern {K}.

(** [argv[argc - 1][0]]: outside the array it is undefined. *)
Definition last_arg_char {S} (argc : Z) (argv : list byte) : M S byte :=
  if (1 <=? argc) && (argc <=? CMD_NARGS)
  then ret (default x00 (argv !! Z.to_nat ((argc - 1) * CMD_ARG_LEN))) else undef "argv".
Abbreviation AMP := x26.

Section server.
Context {K : Type} `{ProcOps K}.
Abbreviation st := (server K).

Definition set_app_ino (v : Z) (s : st) : st :=
  {| app_ino := v; app_pid := app_pid s; shell_waiting := shell_waiting s; sent := sent s; kern := kern s |}.
Definition set_app_pid (v : Z) (s : st) : st :=
  {| app_ino := app_ino s; app_pid := v; shell_waiting := shell_waiting s; sent := sent s; kern := kern s |}.
Definition set_waiting (v : bool) (s : st) : st :=
  {| app_ino := app_ino s; app_pid := app_pid s; shell_waiting := v; sent := sent s; kern := kern s |}.
Definition add_sent (x : Z * list byte) (s : st) : st :=
  {| app_ino := app_ino s; app_pid := app_pid s; shell_waiting := shell_waiting s; sent := sent s ++ [x]; kern := kern s |}.
Definition set_kern (k : K) (s : st) : st :=
  {| app_ino := app_ino s; app_pid := app_pid s; shell_waiting := shell_waiting s; sent := sent s; kern := k |}.

Definition on_kern {A} (m : M K A) : M st A := fun s =>
  match m (kern s) with
  | Ok (a, k) => Ok (a, set_kern k s)
  | Fatal msg => Fatal msg
  | Undef w => Undef w
  | NoFuel => NoFuel
  end.
(** [grass->sys_send]. *)
Definition g_sys_send (receiver : Z) (msg : list byte) : M st unit := modify (add_sent (receiver, msg)).

(** The fields of the request in [buf]. *)
Definition req_argc (buf : list byte) : Z := int_field buf 4.
Definition req_argv (buf : list byte) : list byte := take (Z.to_nat (CMD_NARGS * CMD_ARG_LEN)) (drop (Z.to_nat ARGV_OFFSET) buf).

Definition BIN : list byte := [x62; x69; x6e; x2f].

Definition app_spawn (buf : list byte) : M st Z :=
  bin_ino <- on_kern (g_dir_lookup 0 (BIN ++ [x00])) ;;
  ino <- on_kern (g_dir_lookup bin_ino (req_argv buf)) ;;
  modify (set_app_ino ino) ;;;
  if ino <? 0 then ret (-1)
  else
    pid <- on_kern g_proc_alloc ;;
    modify (set_app_pid pid) ;;;
    c <- last_arg_char (req_argc buf) (req_argv buf) ;;
    let argc := if decide (c = AMP) then req_argc buf - 1 else req_argc buf in
    on_kern (g_elf_load pid ino argc (req_argv buf)) ;;;
    on_kern (g_proc_set_ready pid) ;;;
    ret 0.

(** One round of the loop, for a message [buf] of [sender].  The reply is built
    in the buffer of the request; [sizeof(reply)] is the size of a pointer. *)
Definition proc_serve (sender : Z) (buf : list byte) : M st unit :=
  let type := field buf 0 4 in
  if type =? PROC_SPAWN then
    r <- app_spawn buf ;;
    c <- last_arg_char (req_argc buf) (req_argv buf) ;;
    modify (set_waiting (negb (bool_decide (c = AMP)))) ;;;
    g_sys_send GPID_SHELL (le_put 4 (if r <? 0 then CMD_ERROR else CMD_OK))
  else if type =? PROC_EXIT then
    on_kern (g_proc_free sender) ;;;
    s <- get ;;
    if shell_waiting s && (app_pid s =? sender) then g_sys_send GPID_SHELL (take 4 buf) else ret tt
  else if type =? PROC_KILLALL then on_kern (g_proc_free (-1))
  else fatal "sys_proc: invalid request".
End server.

(** ** The shell *)

(** The system calls of the shell. *)
Inductive action := Send (receiver : Z) (msg : list byte) | Recv.

(** [strcmp(buf, s) == 0] for a string without zeros. *)
Definition str_is (buf s : list byte) : bool := bool_decide (take (S (length s)) buf = s ++ [x00]).
Definition KILLALL : list byte := [x6b; x69; x6c; x6c; x61; x6c; x6c].

(** One round of the loop for the line in [buf]: [reply_type] is the type in the
    first reply.  The request of [killall] is not initialised beyond its type,
    [junk]. *)
Definition shell_round (junk buf : list byte) (reply_type : Z) : M unit (list action) :=
  if str_is buf KILLALL then ret [Send GPID_PROCESS (le_put 4 PROC_KILLALL ++ junk)]
  else
    o <- parse_request buf ;;
    match o with
    | None => ret []
    | Some req =>
        let first := [Send GPID_PROCESS (proc_message PROC_SPAWN (argc req) (argv req)); Recv] in
        if negb (reply_type =? CMD_OK) then ret first
        else
          c <- last_arg_char (argc req) (argv req) ;;
          ret (if negb (bool_decide (c = AMP)) then first ++ [Recv] else first)
    end.
