(* ===== verification/ProcProof.v ===== *)
(** Proofs on the process server and the shell: the messages between them. *)

From Stdlib Require Import ZArith Lia Strings.Byte.
From stdpp Require Import base numbers list strings.
From S2P Require Import Prelude Bytes Kernel Elf Dir DirProof Servers ServerProof Shell ProcServer.

Local Open Scope egos_scope.

(** ** Requests *)

Lemma words_from_ended w line : (length (words_from w line) <= S (ended_from w line))%nat.
Proof.
  revert w. induction line as [|c line IH]; intros w; cbn [words_from ended_from].
  - by case_decide; simpl; lia.
  - repeat case_decide; cbn [length]; rewrite IH || apply le_n_S, IH; lia.
Qed.

Lemma length_args_array ws :
  Forall (fun w => length w <= 32)%nat ws -> (length ws <= 16)%nat -> length (args_array ws) = 512%nat.
Proof. intros Hw Hl. unfold args_array. rewrite length_app, length_pads, length_replicate by done. lia. Qed.

Lemma fits_words line :
  fits [] line 0 = true -> (length (words line) <= 16)%nat /\ Forall (fun w => length w <= 32)%nat (words line).
Proof.
  unfold fits, words. intros [H1 H2]%andb_true_iff. apply Nat.ltb_lt in H2.
  pose proof (words_from_ended [] line). split; [lia|]. apply Forall_forall. intros w Hw.
  rewrite forallb_forall in H1. apply list_elem_of_In in Hw. apply H1, Nat.ltb_lt in Hw. lia.
Qed.

Lemma fits_short line : fits [] line 0 = true -> Forall (fun w => length w < 32)%nat (words line).
Proof.
  unfold fits, words. intros [H1 _]%andb_true_iff. apply Forall_forall. intros w Hw.
  rewrite forallb_forall in H1. apply list_elem_of_In in Hw. by apply H1, Nat.ltb_lt in Hw.
Qed.

(** The first argument is the first word. *)
Lemma args_array_first w ws :
  Forall (fun w => length w < 32)%nat (w :: ws) -> exists rest, args_array (w :: ws) = w ++ x00 :: rest.
Proof.
  intros [Hw _]%Forall_cons. unfold args_array. cbn [mbind list_bind]. unfold pad at 1. rewrite <- !app_assoc.
  replace (32 - length w)%nat with (S (31 - length w)) by lia. cbn [replicate app]. by eexists.
Qed.

Section message.
Variables (c : list byte) (type ac : Z) (av : list byte).
Hypothesis c_len : length c = Z.to_nat SYSCALL_MSG_LEN.
Hypothesis av_len : length av = 512%nat.
Hypothesis ac_range : 0 <= ac < 2 ^ 31.
Let msg := proc_message type ac av.

Lemma length_proc_message : length msg = 520%nat.
Proof. unfold msg, proc_message. by rewrite !length_app, !length_le_put, av_len. Qed.

Lemma message_fits : (length msg <= length c)%nat.
Proof. rewrite length_proc_message, c_len. vm_compute. lia. Qed.

Lemma req_type : is_u32 type -> field (deliver c msg) 0 4 = type.
Proof.
  intros Ht. rewrite deliver_field by (first [apply message_fits|rewrite length_proc_message; lia|lia]).
  unfold msg, proc_message. rewrite field_le. by apply u32_small.
Qed.

Lemma req_argc_ok : req_argc (deliver c msg) = ac.
Proof.
  unfold req_argc, int_field. rewrite deliver_field by (first [apply message_fits|rewrite length_proc_message; lia|lia]).
  unfold msg, proc_message. rewrite (field_skip _ _ 0) by lia. rewrite field_le, u32_small by (unfold is_u32; lia).
  apply s32_small. lia.
Qed.

Lemma req_argv_ok : req_argv (deliver c msg) = av.
Proof.
  unfold req_argv. change (Z.to_nat (CMD_NARGS * CMD_ARG_LEN)) with 512%nat. change (Z.to_nat ARGV_OFFSET) with 8%nat.
  rewrite deliver_part; [|apply message_fits|rewrite length_proc_message; lia].
  unfold msg, proc_message. rewrite app_assoc, drop_app_length' by by rewrite length_app, !length_le_put.
  by apply take_ge; rewrite av_len.
Qed.
End message.

(** The request that the shell sends for a line, as the server reads it. *)
Lemma line_request c line :
  let ac := Z.of_nat (length (words line)) in let av := args_array (words line) in
  let buf := deliver c (proc_message PROC_SPAWN ac av) in
  length c = Z.to_nat SYSCALL_MSG_LEN -> fits [] line 0 = true -> words line <> [] ->
  field buf 0 4 = PROC_SPAWN /\ req_argc buf = ac /\ req_argv buf = av /\ length av = 512%nat /\ 1 <= ac <= CMD_NARGS.
Proof.
  intros ac av buf Hc Hf Hw. destruct (fits_words line Hf) as [H16 H32].
  assert (length av = 512%nat) as Hav by by apply length_args_array.
  assert (1 <= ac <= CMD_NARGS) as Hac by (unfold ac, CMD_NARGS; destruct (words line); [done|simpl in *; lia]).
  assert (0 <= ac < 2 ^ 31) as Hac31 by (unfold CMD_NARGS in Hac; lia).
  split; [by apply req_type|]. split; [by apply req_argc_ok|]. split; [by apply req_argv_ok|]. done.
Qed.

(** ** Rounds of the server *)

Section rounds.
Context {K : Type} `{ProcOps K}.
Abbreviation st := (server K).

Lemma on_kern_ok {A} (m : M K A) (s : st) a k : m (kern s) = Ok (a, k) -> on_kern m s = Ok (a, set_kern k s).
Proof. unfold on_kern. by intros ->. Qed.

Lemma on_kern_inv {A} (m : M K A) (s s' : st) a :
  on_kern m s = Ok (a, s') -> exists k, m (kern s) = Ok (a, k) /\ s' = set_kern k s.
Proof. unfold on_kern. destruct (m (kern s)) as [[b k]| | |]; intros E; simplify_eq. by exists k. Qed.

(** [app_spawn] sends nothing; when it starts a process, [app_pid] is what
    [proc_alloc] gave. *)
Lemma app_spawn_inv buf (s s' : st) r :
  app_spawn buf s = Ok (r, s') -> sent s' = sent s /\ shell_waiting s' = shell_waiting s /\
  ((r = -1 /\ app_pid s' = app_pid s) \/ (r = 0 /\ exists k k', g_proc_alloc k = Ok (app_pid s', k'))).
Proof.
  unfold app_spawn. intros E. apply bind_inv in E as (b & s1 & E1 & E). apply on_kern_inv in E1 as (k1 & _ & ->).
  apply bind_inv in E as (ino & s2 & E2 & E). apply on_kern_inv in E2 as (k2 & _ & ->).
  apply bind_inv in E as ([] & s3 & E3 & E). injection E3 as <-.
  destruct (ino <? 0); [injection E as <- <-; split; [done|]; split; [done|]; by left|].
  apply bind_inv in E as (p & s4 & E4 & E). apply on_kern_inv in E4 as (k4 & E4 & ->).
  apply bind_inv in E as ([] & s5 & E5 & E). injection E5 as <-.
  apply bind_inv in E as (c & s6 & E6 & E).
  assert (s6 = set_app_pid p (set_kern k4 (set_app_ino ino (set_kern k2 (set_kern k1 s))))) as ->.
  { revert E6. unfold last_arg_char. destruct (_ && _); [|done]. by intros [= _ ->]. }
  apply bind_inv in E as ([] & s7 & E7 & E). apply on_kern_inv in E7 as (k7 & _ & ->).
  apply bind_inv in E as ([] & s8 & E8 & E). apply on_kern_inv in E8 as (k8 & _ & ->).
  injection E as <- <-. split; [done|]. split; [done|]. right. split; [done|]. by eexists _, k4.
Qed.

(** The first character of the last argument. *)
Lemma last_arg_char_ok {S} ac av (x : S) :
  1 <= ac <= CMD_NARGS -> last_arg_char ac av x = Ok (default x00 (av !! Z.to_nat ((ac - 1) * CMD_ARG_LEN)), x).
Proof. intros Hac. unfold last_arg_char. by rewrite !(proj2 (Z.leb_le _ _)) by lia. Qed.

(** A round for a command: one reply, and [shell_waiting] says whether the last
    argument asks for the background. *)
Definition background (ac : Z) (av : list byte) : bool :=
  bool_decide (default x00 (av !! Z.to_nat ((ac - 1) * CMD_ARG_LEN)) = AMP).

Lemma serve_spawn sender buf (s s1 : st) r :
  field buf 0 4 = PROC_SPAWN -> 1 <= req_argc buf <= CMD_NARGS -> app_spawn buf s = Ok (r, s1) ->
  proc_serve sender buf s =
  Ok (tt, add_sent (GPID_SHELL, le_put 4 (if r <? 0 then CMD_ERROR else CMD_OK))
            (set_waiting (negb (background (req_argc buf) (req_argv buf))) s1)).
Proof.
  intros Ht Hac E. unfold proc_serve. rewrite Ht. cbv zeta. rewrite Z.eqb_refl, (bind_ok _ _ _ _ _ E).
  by rewrite (bind_ok _ _ _ _ _ (last_arg_char_ok _ _ _ Hac)).
Qed.

(** A round for a process that exits. *)
Lemma serve_exit sender buf (s : st) k :
  field buf 0 4 = PROC_EXIT -> g_proc_free sender (kern s) = Ok (tt, k) ->
  proc_serve sender buf s =
  Ok (tt, if shell_waiting s && (app_pid s =? sender) then add_sent (GPID_SHELL, take 4 buf) (set_kern k s) else set_kern k s).
Proof.
  intros Ht E. unfold proc_serve. rewrite Ht. cbv zeta. change (PROC_EXIT =? PROC_SPAWN) with false.
  rewrite Z.eqb_refl. cbv iota. rewrite (bind_ok _ _ _ _ _ (on_kern_ok _ s _ _ E)). unfold bind. cbn.
  by destruct (shell_waiting s && (app_pid s =? sender)).
Qed.

(** A command that is not found. *)
Lemma app_spawn_unknown buf (s : st) b k1 k2 :
  g_dir_lookup 0 (BIN ++ [x00]) (kern s) = Ok (b, k1) -> g_dir_lookup b (req_argv buf) k1 = Ok (-1, k2) ->
  app_spawn buf s = Ok (-1, set_app_ino (-1) (set_kern k2 s)).
Proof.
  intros E1 E2. unfold app_spawn. rewrite (bind_ok _ _ _ _ _ (on_kern_ok _ s _ _ E1)).
  by rewrite (bind_ok _ _ _ _ _ (on_kern_ok _ (set_kern k1 s) _ _ E2)).
Qed.
End rounds.

(** ** A round of the shell *)

Lemma not_killall line r : x00 ∉ line -> line <> KILLALL -> str_is (line ++ x00 :: r) KILLALL = false.
Proof.
  intros Hl Hne. unfold str_is. apply bool_decide_eq_false. intros E. apply Hne. clear Hne.
  cut (take (length line) (line ++ x00 :: r) = KILLALL /\ length line = length KILLALL).
  { intros [E1 _]. by rewrite take_app_length in E1. }
  destruct (lt_eq_lt_dec (length line) (length KILLALL)) as [[Hlt|Heq]|Hgt].
  - exfalso. assert ((KILLALL ++ [x00]) !! length line = Some x00) as Hx.
    { rewrite <- E, lookup_take_lt by lia. by apply list_lookup_middle. }
    rewrite lookup_app_l in Hx by done. apply list_elem_of_lookup_2 in Hx. revert Hx. by apply (bool_decide_eq_true_1 _).
  - split; [|done]. apply (f_equal (take (length KILLALL))) in E. rewrite take_take, <- Heq in E.
    rewrite Nat.min_l in E by lia. rewrite E, Heq. reflexivity.
  - exfalso. apply Hl. assert ((KILLALL ++ [x00]) !! length KILLALL = Some x00) as Hx by done.
    rewrite <- E, lookup_take_lt, lookup_app_l in Hx by (simpl in *; lia). by eapply list_elem_of_lookup_2.
Qed.

Lemma shell_round_command junk line r t :
  x00 ∉ line -> line <> KILLALL -> fits [] line 0 = true -> words line <> [] ->
  let ac := Z.of_nat (length (words line)) in let av := args_array (words line) in
  shell_round junk (line ++ x00 :: r) t tt =
  Ok ([Send GPID_PROCESS (proc_message PROC_SPAWN ac av); Recv] ++
      (if (t =? CMD_OK) && negb (background ac av) then [Recv] else []), tt).
Proof.
  intros Hl Hne Hf Hw ac av. destruct (fits_words line Hf) as [H16 _]. unfold shell_round.
  rewrite not_killall by done. rewrite (bind_ok _ _ _ _ _ (parse_request_ok line r Hl)), Hf. cbn [argc argv]. fold ac av.
  destruct (t =? CMD_OK); cbn [negb andb]; [|done].
  assert (1 <= ac <= CMD_NARGS) as Hac by (unfold ac, CMD_NARGS; destruct (words line); [done|simpl in *; lia]).
  rewrite (bind_ok _ _ _ _ _ (last_arg_char_ok ac av tt Hac)). unfold background. by case_bool_decide.
Qed.
