(* ===== verification/ProcKernel.v ===== *)
(** The process server on the kernel: what [app_spawn] (apps/system/sys_proc.c)
    calls, on the process table of grass/, the loader, and the file system on the
    disk below, and what a command that it starts finds in its memory.  A call of
    a server is the exchange of Servers.v, which changes the disk only; the
    machine is QEMU, where every frame is in memory. *)

From Stdlib Require Import ZArith Lia Strings.Byte.
From stdpp Require Import base numbers list strings gmap relations.
From S2P Require Import Prelude Bytes Memory Earth Paging InodeStore Treedisk TreediskSpec FsDisk Mmu MmuProof Kernel KernelSpec KernelTrap KernelReach.
From S2P Require Import Bus Tty EarthState Elf ElfProof Boot Dir DirProof Servers ServerProof ProcServer ProcProof.

Local Open Scope egos_scope.

Section ops.
Context {D R B : Type} `{Disk D} (rand : R -> Z * R) `{Bus B}.
Abbreviation P := (paging_state D R).
#[local] Instance spawn_paging : Paging P := dev_paging rand.
Abbreviation est := (earth_state P B).
Context (ts : treedisk_state) (junk : block).
(** What the calls of the directory server and of the file server find, for each
    directory and for each block. *)
Context (cd cdf cf : Z -> call).

(** A call that changes the disk. *)
Definition fs_call {A} (m : M D A) : M (mmu_state P) A := on_dev (on_disk m).

(** [file_read(app_ino, off, dst)]; [app_read] has no return statement, and the
    loader ignores its value. *)
Definition app_read (ino off : Z) : M (mmu_state P) (list byte) :=
  '(_, l) <- fs_call (file_read (IS := fs_disk_init) ts junk (cf off) ino off) ;;
  ret l.

#[export] Instance kernel_ops : ProcOps (kernel est) := {|
  g_dir_lookup dir name :=
    on_earth (on_mmu (fs_call (dir_lookup (IS := fs_disk_init) ts junk (cd dir) (cdf dir) dir name)));
  g_proc_alloc := proc_alloc;
  g_elf_load pid ino argc argv :=
    s <- get ;;
    on_earth (on_mmu (elf_load (translation (earth s)) (app_read ino) pid argc (Some argv)));
  g_proc_set_ready := proc_set_ready;
  g_proc_free := proc_free
|}.
End ops.

Section spawn.
Context {D R B : Type} `{DiskLaws D} (rand : R -> Z * R) `{ClintLaws B}.
Context (rand_nonneg : forall r, 0 <= fst (rand r)) (disk_room : NFRAMES * NBLOCKS_PER_PAGE <= disk_size D).
Context (p0 : platform_t) (on_qemu : p0 <> ARTY).
Context (uart_laws : forall p : platform_t, UartLaws B (UART0_BASE p)).
Abbreviation P := (paging_state D R).
#[local] Instance spawn_paging' : Paging P := dev_paging rand.
#[local] Instance spawn_laws : PagingLaws P := dev_paging_laws rand rand_nonneg disk_room p0.
Abbreviation est := (earth_state P B).
#[local] Instance spawn_earth : EarthLaws est := qemu_earth rand rand_nonneg disk_room p0 on_qemu uart_laws.
Context (ts : treedisk_state) (junk : block) (room : GRASS_FS_START + 4096 <= disk_size D).
Context (cd cdf cf : Z -> call).
Context (cd_ok : forall x, call_ok (cd x) GPID_DIR) (cdf_ok : forall x, call_ok (cdf x) GPID_FILE).
Context (cf_ok : forall x, call_ok (cf x) GPID_FILE).
#[local] Instance spawn_ops : ProcOps (kernel est) := kernel_ops rand ts junk cd cdf cf.

(** ** Another disk below the machine *)

Definition put_disk (d : D) (p : P) : P :=
  {| pg_mem := pg_mem p; cache_slots := cache_slots p; Paging.platform := Paging.platform p; pg_disk := d; pg_rand := pg_rand p |}.
Definition set_disk (d : D) (e : est) : est := set_mmu (set_dev (put_disk d (dev (mmu e))) (mmu e)) e.
Definition the_disk (e : est) : D := pg_disk (dev (mmu e)).

Lemma put_disk_frame (p : P) d g : pg_ok p -> frame (put_disk d p) g = frame p g.
Proof. intros [Hp _]. cbn. unfold dev_frame. cbn. destruct (Paging.platform p); [congruence|done..]. Qed.

Lemma set_disk_view e d q p : est_ok e -> view (mmu (set_disk d e)) q p = view (mmu e) q p.
Proof.
  intros He. unfold view. change (table (mmu (set_disk d e))) with (table (mmu e)).
  change (curr_vm_pid (mmu (set_disk d e))) with (curr_vm_pid (mmu e)).
  destruct (frame_of (table (mmu e)) q p) as [i|]; [|done]. cbn [mbind option_bind].
  destruct (q =? curr_vm_pid (mmu e)); [done|]. f_equal. apply (put_disk_frame (dev (mmu e))), He.
Qed.

Lemma set_disk_ok e d : est_ok e -> est_ok (set_disk d e).
Proof.
  intros [H1' H2' H3']. split; [|exact H2'|exact H3']. apply (mmu_ok_static (mmu e)); [exact H1'|done|].
  exact (mo_dev _ H1').
Qed.

Lemma set_disk_run (s : kernel est) d : k_run s -> k_run (set_earth (set_disk d (earth s)) s).
Proof.
  intros Hr. pose proof (ko_earth _ (kr_ok _ Hr)) as He. apply k_run_earth; [done|by apply set_disk_ok|done|].
  intros q x _. apply (est_same (earth s) (set_disk d (earth s)) q). intros p. by apply set_disk_view.
Qed.

Lemma fs_call_ok {A} (m : M D A) (s : mmu_state P) a d :
  m (pg_disk (dev s)) = Ok (a, d) -> fs_call m s = Ok (a, set_dev (put_disk d (dev s)) s).
Proof. intros E. unfold fs_call, on_dev, on_disk. by rewrite E. Qed.

Lemma earth_call_ok {A} (m : M D A) (s : kernel est) a d :
  m (the_disk (earth s)) = Ok (a, d) ->
  on_earth (on_mmu (fs_call m)) s = Ok (a, set_earth (set_disk d (earth s)) s).
Proof. intros E. apply on_earth_ok, (lift_ok mmu set_mmu). by apply fs_call_ok. Qed.

(** ** The reader of a command *)

(** The file system stays as it is. *)
Definition fs_is (fs : gmap Z block) (p : P) : Prop := fs_part (pg_disk p) = fs.

Lemma fs_is_mem fs m p : fs_is fs p -> fs_is fs (set_pmem m p).
Proof. done. Qed.

Lemma fs_is_read fs f a (d d' : P) :
  pg_ok d -> 0 <= f < NFRAMES -> fs_is fs d -> paging_read f true d = Ok (a, d') -> fs_is fs d'.
Proof.
  intros [Hp _] Hf Hfs E. cbn in E. unfold dev_paging_read, bind in E. cbn [get] in E.
  destruct (Paging.platform d); [congruence|injection E as _ <-; done..].
Qed.

(** The blocks of a file. *)
Definition blocks_fn (f : list block) (b : Z) : block := default null_block (f !! Z.to_nat b).

Lemma app_read_file fs F ino f :
  fs_inv 4096 fs F -> is_u32 ino -> fs_of fs !! Z.to_nat ino = Some f -> Z.of_nat (length f) < 2 ^ 32 ->
  reads_file (fs_is fs) (app_read ts junk cf ino) (blocks_fn f) (Z.of_nat (length f)).
Proof.
  intros I Hino Hf Hlen s b Hok Hfs Hb. unfold fs_is in Hfs.
  destruct (file_read_ok (IS := fs_disk_init) (LAWS := fs_disk_laws room (below_ino ts)) ts junk (pg_disk (dev s)) (cf b) ino b F)
    as (d' & l & ED & E & Hl & Hlb); [by rewrite fs_disk_store, Hfs|apply cf_ok|done|unfold is_u32; lia|].
  rewrite fs_disk_store in ED. 
  destruct (lookup_lt_is_Some_2 f (Z.to_nat b)) as [x Hx]; [lia|].
  assert (fs_lookup (IS := fs_disk_init) ts (LAWS := fs_disk_laws room (below_ino ts)) (pg_disk (dev s)) ino b = Some x) as Hlk.
  { unfold fs_lookup. rewrite fs_disk_store, Hfs, Hf. exact Hx. }
  specialize (Hlb x Hlk). subst x. unfold blocks_fn. rewrite Hx. cbn [default]. split; [done|].
  eexists. split; [unfold app_read; by rewrite (bind_ok _ _ _ _ _ (fs_call_ok _ s _ _ E))|].
  split; [done|]. split; [done|]. split; [done|]. pose proof (mo_dev _ Hok) as Hpg. split; [exact Hpg|].
  split; [unfold fs_is; cbn; by rewrite ED|]. split; [done|].
  intros g Hg. split; [by apply (put_disk_frame (dev s))|]. cbn. unfold dev_frame_at. cbn. done.
Qed.

(** ** Directories *)

Lemma lookup_ok (s : kernel est) fs F dir es n r :
  fs_inv 4096 fs F -> fs_part (the_disk (earth s)) = fs -> dir_holds fs dir es -> name_ok es n ->
  exists d', fs_part d' = fs /\
    g_dir_lookup dir (n ++ x00 :: r) s = Ok (default (-1) (assoc es n), set_earth (set_disk d' (earth s)) s).
Proof.
  intros I Hfs [[k Hb] He Hd] [N1 N2 N3 N4].
  destruct (dir_lookup_call (IS := fs_disk_init) (LAWS := fs_disk_laws room (below_ino ts)) ts junk (the_disk (earth s))
    (cd dir) (cdf dir) dir n r es k F) as (d' & ED & E); [by rewrite fs_disk_store, Hfs|apply cd_ok|apply cdf_ok|done| |done..|].
  { unfold fs_lookup. by rewrite fs_disk_store, Hfs. }
  exists d'. rewrite !fs_disk_store in ED. split; [congruence|]. by apply earth_call_ok.
Qed.

Lemma can_load_disk fs e q d :
  can_load_from rand rand_nonneg disk_room p0 (fs_is fs) e q -> fs_part d = fs ->
  can_load_from rand rand_nonneg disk_room p0 (fs_is fs) (set_disk d e) q.
Proof.
  intros [C1 C2 C3 C4 C5] Hd. split; [by apply set_disk_ok|exact Hd|exact C3|exact C4|].
  intros p. by rewrite set_disk_view.
Qed.

(** ** A command *)

(** The memory of process [q] after the program [f] with the segment [ph] was
    loaded with arguments: three pages of code and data, the page of the
    arguments, a page for the stack.  Every other process keeps its memory, and
    the file system is as before. *)
Record command_loaded (fs : gmap Z block) (e e' : est) (f : list block) (ph : elf32_program_header)
    (q argc : Z) (argv : list byte) : Prop := {
  ld_code k : 0 <= k < 3 -> view (mmu e') q (Z.shiftr APPS_ENTRY 12 + k) =
    Some (seg_byte (blocks_fn f) (p_offset ph / BLOCK_SIZE) (p_filesz ph) <$> seqZ (k * PAGE_SIZE) PAGE_SIZE);
  ld_args : exists v, view (mmu e') q (APPS_ARG / PAGE_SIZE) = Some v /\ args_page v argc (Some argv);
  ld_stack : is_Some (view (mmu e') q (APPS_ARG / PAGE_SIZE + 1));
  ld_rest p : ~ (Z.shiftr APPS_ENTRY 12 <= p < Z.shiftr APPS_ENTRY 12 + 3 \/
                 APPS_ARG / PAGE_SIZE <= p < APPS_ARG / PAGE_SIZE + 2) -> view (mmu e') q p = None;
  ld_others q' p : q' <> 0 -> q' <> q -> view (mmu e') q' p = view (mmu e) q' p;
  ld_fs : fs_part (the_disk e') = fs
}.

(** The arguments of a command: without the [&] at the end. *)
Definition cmd_argc (ac : Z) (av : list byte) : Z := if background ac av then ac - 1 else ac.

Lemma cmd_argc_decide ac av :
  (if decide (default x00 (av !! Z.to_nat ((ac - 1) * CMD_ARG_LEN)) = AMP) then ac - 1 else ac) = cmd_argc ac av.
Proof. unfold cmd_argc, background. by case_decide; case_bool_decide. Qed.

Lemma app_spawn_ok (s : server (kernel est)) i buf fs F es0 es1 bino name rest ino f ph :
  let k := kern s in let q := proc_nprocs k + 1 in let ac := req_argc buf in let av := req_argv buf in
  k_run k -> q < 2 ^ 31 -> find_unused 0 (proc_set k) = Some i ->
  fs_inv 4096 fs F ->
  dir_holds fs 0 es0 -> name_ok es0 BIN -> assoc es0 BIN = Some bino ->
  dir_holds fs bino es1 -> name_ok es1 name -> assoc es1 name = Some ino ->
  fs_of fs !! Z.to_nat ino = Some f -> app_file (blocks_fn f) (Z.of_nat (length f)) ph ->
  0 < Z.of_nat (length f) < 2 ^ 32 -> can_load_from rand rand_nonneg disk_room p0 (fs_is fs) (earth k) q ->
  av = name ++ x00 :: rest -> length av = 512%nat -> 1 <= ac <= CMD_NARGS ->
  exists s', app_spawn buf s = Ok (0, s') /\ app_pid s' = q /\ sent s' = sent s /\ k_run (kern s') /\
    proc (kern s') i = set_status PROC_READY (new_proc q (proc k i)) /\
    (forall j, 0 <= j < MAX_NPROCESS -> j <> i -> proc (kern s') j = proc k j) /\
    command_loaded fs (earth k) (earth (kern s')) f ph q (cmd_argc ac av) av.
Proof.
  intros k q ac av Hrun Hq Hf I D0 N0 A0 D1 N1 A1 Hfile Happ Hlen Hcl Hav Hav512 Hac.
  pose proof (clf_keeps _ _ _ _ _ _ _ Hcl) as Hfs.
  destruct (lookup_ok k fs F 0 es0 BIN [] I Hfs D0 N0) as (d1 & Hd1 & E1). rewrite A0 in E1. change (default (-1) (Some bino)) with bino in E1.
  set (k1 := set_earth (set_disk d1 (earth k)) k) in *.
  destruct (lookup_ok k1 fs F bino es1 name rest I Hd1 D1 N1) as (d2 & Hd2 & E2). rewrite A1, <- Hav in E2.
  change (default (-1) (Some ino)) with ino in E2.
  set (k2 := set_earth (set_disk d2 (earth k1)) k1) in *.
  pose proof (assoc_range _ _ _ (dh_entries _ _ _ D1) A1) as Hino.
  assert (k_run k2) as Hrun2 by by do 2 apply set_disk_run.
  assert (can_load_from rand rand_nonneg disk_room p0 (fs_is fs) (earth k2) q) as Hcl2
    by exact (can_load_disk fs _ q d2 (can_load_disk fs (earth k) q d1 Hcl Hd1) Hd2).
  assert (is_u32 ino) as Hino32 by (unfold is_u32; lia).
  destruct (spawn_ok rand rand_nonneg disk_room p0 on_qemu uart_laws (Z.of_nat (length f)) (blocks_fn f) ph Happ Hlen (fs_is fs)
    (fs_is_mem fs) (fs_is_read fs) (app_read ts junk cf ino) (app_read_file fs F ino f I Hino32 Hfile ltac:(lia))
    k2 i (cmd_argc ac av) (Some av) Hrun2 Hq Hf Hcl2)
    as (s1 & m' & s3 & P1 & Ee & P2 & P3 & _ & Hr3 & Hi & Hj & He3 & Hload).
  { unfold cmd_argc. destruct (background ac av); lia. }
  { intros args [= <-]. by rewrite Hav512. }
  change (proc_nprocs k2 + 1) with q in *.
  exists (set_kern s3 (set_kern (set_earth (set_mmu m' (earth s1)) s1) (set_app_pid q (set_kern s1
    (set_app_ino ino (set_kern k2 (set_kern k1 s))))))).
  split; [|split; [reflexivity|split; [reflexivity|split; [exact Hr3|split; [exact Hi|split; [exact Hj|]]]]]].
  - unfold app_spawn. rewrite (bind_ok _ _ _ _ _ (on_kern_ok _ s _ _ E1)).
    rewrite (bind_ok _ _ _ _ _ (on_kern_ok _ (set_kern k1 s) _ _ E2)). unfold bind at 1. cbn [modify].
    rewrite (proj2 (Z.ltb_ge ino 0)) by lia.
    erewrite bind_ok; [|apply on_kern_ok; exact P1].
    unfold bind at 1. cbn [modify]. fold ac av.
    rewrite (bind_ok _ _ _ _ _ (last_arg_char_ok ac av _ Hac)). fold av ac. cbv zeta.
    rewrite cmd_argc_decide.
    erewrite bind_ok; [|apply on_kern_ok; cbn; unfold bind; cbn [get]; apply on_earth_ok; exact P2].
    erewrite bind_ok; [|apply on_kern_ok; exact P3]. reflexivity.
  - destruct Hload as [Lg Lc La Ls Lr]. cbn [kern set_kern]. split; [exact Lc|exact La|exact Ls|exact Lr| |].
    + intros q' p Hq' Hne. rewrite (gr_view _ _ _ _ Lg) by done.
      change (earth k2) with (set_disk d2 (set_disk d1 (earth k))). rewrite !set_disk_view; [done|apply Hcl|].
      apply set_disk_ok, Hcl.
    + exact (gr_keeps _ _ _ _ Lg Hd2).
Qed.
End spawn.
