(* ===== verification/ProcTheorems.v ===== *)
(** The properties of the process server and the shell, with their witnesses. *)

From Stdlib Require Import ZArith Lia Strings.Byte.
From stdpp Require Import base numbers list strings gmap.
From S2P Require Import Prelude Bytes Memory Earth Paging InodeStore Treedisk TreediskSpec FsDisk Mmu MmuProof Kernel KernelSpec KernelReach.
From S2P Require Import Bus Tty EarthState Elf ElfProof Boot Dir DirProof Servers ServerProof Shell ProcServer ProcProof ProcKernel.

Local Open Scope egos_scope.

(** ** The exchange of messages *)

Section protocol.
Context {K : Type} `{ProcOps K}.

(** C20. The shell and the process server agree on their messages.  For every line
    that the parser accepts and that has a word, whatever the functions below
    the server do: when [app_spawn] returns, the server answers with one
    message, and with the type in it the shell makes one more system call to
    receive exactly when the command was started and the server will announce
    its end ([shell_waiting]).  When a process ends, the server sends one more
    message if that process is [app_pid] and the shell waits, and none
    otherwise. *)
Theorem shell_and_server_agree (line r junk c : list byte) (s s1 : server K) v :
  let msg := proc_message PROC_SPAWN (Z.of_nat (length (words line))) (args_array (words line)) in
  x00 ∉ line -> line <> KILLALL -> fits [] line 0 = true -> words line <> [] ->
  length c = Z.to_nat SYSCALL_MSG_LEN -> app_spawn (deliver c msg) s = Ok (v, s1) ->
  exists s' t, proc_serve GPID_SHELL (deliver c msg) s = Ok (tt, s') /\
    sent s' = sent s ++ [(GPID_SHELL, le_put 4 t)] /\ (t = CMD_OK <-> v = 0) /\
    shell_round junk (line ++ x00 :: r) t tt =
      Ok ([Send GPID_PROCESS msg; Recv] ++ (if (t =? CMD_OK) && shell_waiting s' then [Recv] else []), tt) /\
    (t = CMD_OK -> exists k k', g_proc_alloc k = Ok (app_pid s', k')) /\
    forall q buf k, field buf 0 4 = PROC_EXIT -> g_proc_free q (kern s') = Ok (tt, k) ->
      exists s'', proc_serve q buf s' = Ok (tt, s'') /\
        sent s'' = sent s' ++ (if shell_waiting s' && (app_pid s' =? q) then [(GPID_SHELL, take 4 buf)] else []).
Proof.
  intros msg Hl Hne Hf Hw Hc E. destruct (line_request c line Hc Hf Hw) as (Et & Ea & Ev & _ & Hac). fold msg in Et, Ea, Ev.
  pose proof (serve_spawn GPID_SHELL _ s s1 v Et ltac:(by rewrite Ea) E) as Es. rewrite Ea, Ev in Es.
  destruct (app_spawn_inv _ _ _ _ E) as (Hsent & _ & Hv).
  eexists _, (if v <? 0 then CMD_ERROR else CMD_OK). split; [exact Es|]. cbn [sent add_sent set_waiting shell_waiting app_pid].
  split; [by rewrite Hsent|]. split; [|split; [by apply shell_round_command|split]].
  - destruct Hv as [[-> _]|[-> _]]; [split; intros Hx; discriminate Hx|done].
  - destruct Hv as [[-> _]|[-> Hp]]; [intros Hx; discriminate Hx|done].
  - intros q buf k Hb Hk. eexists. split; [by apply (serve_exit q buf _ k Hb)|].
    cbn [shell_waiting add_sent set_waiting app_pid sent]. by destruct (_ && (_ =? q)); cbn; rewrite ?app_nil_r.
Qed.

(** C35. A stale reply.  While a command runs in the background, a line whose
    command does not exist makes the server believe that the shell waits for the
    process in the background: the shell gets an error and waits for nothing,
    but when that process ends, the server sends a message to the shell.  (When
    the shell then sends its next command, the two wait for each other, see the
    cycles of senders in KernelTheorems.v.) *)
Theorem unknown_command_stale_reply (line r junk c : list byte) (s : server K) b k1 k2 k3 buf :
  let msg := proc_message PROC_SPAWN (Z.of_nat (length (words line))) (args_array (words line)) in
  x00 ∉ line -> line <> KILLALL -> fits [] line 0 = true -> words line <> [] ->
  background (Z.of_nat (length (words line))) (args_array (words line)) = false ->
  length c = Z.to_nat SYSCALL_MSG_LEN -> shell_waiting s = false ->
  g_dir_lookup 0 (BIN ++ [x00]) (kern s) = Ok (b, k1) -> g_dir_lookup b (args_array (words line)) k1 = Ok (-1, k2) ->
  g_proc_free (app_pid s) k2 = Ok (tt, k3) -> field buf 0 4 = PROC_EXIT ->
  exists s1 s2, proc_serve GPID_SHELL (deliver c msg) s = Ok (tt, s1) /\
    sent s1 = sent s ++ [(GPID_SHELL, le_put 4 CMD_ERROR)] /\
    shell_round junk (line ++ x00 :: r) CMD_ERROR tt = Ok ([Send GPID_PROCESS msg; Recv], tt) /\
    proc_serve (app_pid s) buf s1 = Ok (tt, s2) /\ sent s2 = sent s1 ++ [(GPID_SHELL, take 4 buf)].
Proof.
  intros msg Hl Hne Hf Hw Hbg Hc Hsw E1 E2 E3 Hb.
  destruct (line_request c line Hc Hf Hw) as (Et & Ea & Ev & _ & Hac). fold msg in Et, Ea, Ev.
  assert (app_spawn (deliver c msg) s = Ok (-1, set_app_ino (-1) (set_kern k2 s))) as E.
  { apply (app_spawn_unknown _ s b k1 k2 E1). by rewrite Ev. }
  pose proof (serve_spawn GPID_SHELL _ s _ _ Et ltac:(by rewrite Ea) E) as Es. rewrite Ea, Ev, Hbg in Es.
  eexists _, _. split; [exact Es|]. split; [done|]. split.
  { pose proof (shell_round_command junk line r CMD_ERROR Hl Hne Hf Hw) as Hr. exact Hr. }
  split; [by apply (serve_exit _ buf _ k3 Hb)|]. cbn [shell_waiting add_sent set_waiting app_pid set_app_ino set_kern].
  by rewrite Z.eqb_refl.
Qed.
End protocol.

(** ** A command, from the line to the program *)

Section command.
Context {D R B : Type} `{DiskLaws D} (rand : R -> Z * R) `{ClintLaws B}.
Context (rand_nonneg : forall r, 0 <= fst (rand r)) (disk_room : NFRAMES * NBLOCKS_PER_PAGE <= disk_size D).
Context (p0 : platform_t) (on_qemu : p0 <> ARTY).
Context (uart_laws : forall p : platform_t, UartLaws B (UART0_BASE p)).
Abbreviation P := (paging_state D R).
#[local] Instance cmd_paging : Paging P := dev_paging rand.
#[local] Instance cmd_laws : PagingLaws P := dev_paging_laws rand rand_nonneg disk_room p0.
Abbreviation est := (earth_state P B).
#[local] Instance cmd_earth : EarthLaws est := qemu_earth rand rand_nonneg disk_room p0 on_qemu uart_laws.
Context (ts : treedisk_state) (junk : block) (room : GRASS_FS_START + 4096 <= disk_size D).
Context (cd cdf cf : Z -> call).
Context (cd_ok : forall x, call_ok (cd x) GPID_DIR) (cdf_ok : forall x, call_ok (cdf x) GPID_FILE).
Context (cf_ok : forall x, call_ok (cf x) GPID_FILE).
#[local] Instance cmd_ops : ProcOps (kernel est) := kernel_ops rand ts junk cd cdf cf.

End command.
