(* ===== verification/ProcExample.v ===== *)
(** Witnesses for the properties of the process server: a table of pids for the
    exchange of messages, and a machine whose disk was made by tools/mkfs.c for
    the start of a command. *)

From Stdlib Require Import ZArith Lia Strings.Byte.
From stdpp Require Import base numbers list strings gmap.
From S2P Require Import Prelude Bytes Memory Earth Paging InodeStore Treedisk TreediskSpec FsDisk Mmu MmuProof Kernel KernelSpec KernelReach.
From S2P Require Import Bus Tty EarthState Elf ElfProof Boot Dir DirProof Servers ServerProof Shell ProcServer ProcProof ProcKernel.
From S2P Require Import Mkfs MkfsProof Devices KernelExample BootTheorems DiskTheorems AppTheorems ProcTheorems.

Local Open Scope egos_scope.

(** ** A server over a counter of pids *)

(** One command, [cat]. *)
#[local] Instance toy_ops : ProcOps Z := {|
  g_dir_lookup dir name := ret (if dir =? 0 then 6 else if bool_decide (take 4 name = str "cat" ++ [x00]) then 8 else -1);
  g_proc_alloc := n <- get ;; put (n + 1) ;;; ret (n + 1);
  g_elf_load pid ino argc argv := ret tt;
  g_proc_set_ready pid := ret tt;
  g_proc_free pid := ret tt
|}.
Definition toy (pid n : Z) : server Z :=
  {| app_ino := 8; app_pid := pid; shell_waiting := false; sent := []; kern := n |}.
Definition content0 : list byte := replicate (Z.to_nat SYSCALL_MSG_LEN) x00.

Lemma shell_and_server_agree_witness :
  exists (s' : server Z) t, sent s' = [(GPID_SHELL, le_put 4 t)] /\
    shell_round [] (str "cat README" ++ [x00]) t tt =
      Ok ([Send GPID_PROCESS (proc_message PROC_SPAWN 2 (args_array [str "cat"; str "README"])); Recv] ++
          (if (t =? CMD_OK) && shell_waiting s' then [Recv] else []), tt).
Proof.
  destruct (shell_and_server_agree (str "cat README") [] [] content0 (toy 0 4) (toy 5 5) 0) as (s' & t & _ & H1 & _ & H2 & _).
  - apply (bool_decide_eq_true_1 _). reflexivity.
  - intros Hx. discriminate Hx.
  - reflexivity.
  - intros Hx. discriminate Hx.
  - reflexivity.
  - vm_compute. reflexivity.
  - exists s', t. split; [exact H1|exact H2].
Defined.

(** Process 5 runs in the background; the command [x] does not exist. *)
Lemma unknown_command_stale_reply_witness :
  exists s1 s2 : server Z, sent s1 = [(GPID_SHELL, le_put 4 CMD_ERROR)] /\
    sent s2 = sent s1 ++ [(GPID_SHELL, le_put 4 PROC_EXIT)].
Proof.
  destruct (unknown_command_stale_reply (str "x") [] [] content0 (toy 5 5) 6 5 5 5 (le_put 4 PROC_EXIT))
    as (s1 & s2 & _ & H1 & _ & _ & H2).
  - apply (bool_decide_eq_true_1 _). reflexivity.
  - intros Hx. discriminate Hx.
  - reflexivity.
  - intros Hx. discriminate Hx.
  - reflexivity.
  - reflexivity.
  - reflexivity.
  - reflexivity.
  - vm_compute. reflexivity.
  - reflexivity.
  - reflexivity.
  - exists s1, s2. split; [exact H1|exact H2].
Defined.

(** ** A machine with the disk of mkfs *)

Definition exe2 (p : list byte) : list byte := elf_block APPS_ENTRY 5 ++ code.
Definition empty_disk : MemDisk.disk := {| MemDisk.bytes := ∅ |}.
Definition bin_entries : list (list byte * Z) :=
  [(str "./", 6); (str "../", 0); (str "echo", 7); (str "cat", 8); (str "ls", 9); (str "cd", 10); (str "pwd", 11);
   (str "clock", 12); (str "crash1", 13); (str "crash2", 14); (str "ult", 15)].

Lemma exe2_ok cs : Forall (exe_ok exe2) cs.
Proof.
  apply Forall_forall. intros c _. unfold exe_ok. assert (length (exe2 (tail c)) = 517%nat) as -> by (vm_compute; reflexivity). lia.
Qed.

(** A user executable has two blocks, the first of which is the header. *)
Lemma exe2_file c buf : c !! 0%nat = Some x23 -> exists b, (mkfs_file exe2 c buf).1 = [elf_block APPS_ENTRY 5; b].
Proof.
  intros Hc. unfold mkfs_file. rewrite bool_decide_eq_true_2 by done. cbn [negb]. cbv zeta. cbn [fst].
  assert (blocks_of (length (exe2 (tail c))) = 2%nat) as -> by (vm_compute; reflexivity).
  eexists. reflexivity.
Qed.

Lemma mem_room : GRASS_FS_START + 4096 <= disk_size (H := MemDisk.ops) (DiskLaws := MemDisk.laws) MemDisk.disk.
Proof. vm_compute. intros Hx. discriminate Hx. Qed.

Lemma memdisk_fresh : nib (fs_part (H := MemDisk.ops) (H0 := MemDisk.laws) empty_disk) = 0.
Proof.
  unfold nib, TreediskSpec.blk. rewrite fs_part_lookup.
  change (disk_blocks (H := MemDisk.ops) (DiskLaws := MemDisk.laws) empty_disk) with (MemDisk.blocks empty_disk).
  rewrite MemDisk.blocks_lookup. reflexivity.
Qed.

Abbreviation fs_on := (fs_part (H := MemDisk.ops) (H0 := MemDisk.laws)).

(** The disk that mkfs makes: its file system, the two directories, and the
    executable of [cat]. *)
Lemma mkfs_disk :
  exists d F f b, fs_inv 4096 (fs_on d) F /\ f = [elf_block APPS_ENTRY 5; b] /\ fs_of (fs_on d) !! 8%nat = Some f /\
    dir_holds (fs_on d) 0 root_entries /\ dir_holds (fs_on d) 6 bin_entries.
Proof.
  destruct (mkfs_ok (IS := fs_disk_init (H := MemDisk.ops)) (LAWS := fs_disk_laws (H := MemDisk.ops) (H0 := MemDisk.laws) mem_room 0)
    ts1 null_block exe2 buf0 empty_disk) as (d & F & E & I & Hfs).
  - exact null_block_ok.
  - apply fs_disk_size.
  - rewrite fs_disk_store. apply memdisk_fresh.
  - apply buf0_length.
  - apply exe2_ok.
  - rewrite fs_disk_store in Hfs.
    assert (exists buf, (mkfs_files exe2 contents buf0 ++ replicate 112 []) !! 8%nat =
      Some (mkfs_file exe2 (str "#../build/release/cat.elf") buf).1) as [buf Hbuf] by (eexists; reflexivity).
    destruct (exe2_file (str "#../build/release/cat.elf") buf) as [b Hb]; [reflexivity|].
    exists d, F, [elf_block APPS_ENTRY 5; b], b. split; [exact I|]. split; [reflexivity|].
    split; [by rewrite Hfs, Hbuf, Hb|]. split; split.
    + exists 477%nat. rewrite Hfs. reflexivity.
    + unfold root_entries, entry_ok, word_ok. apply (bool_decide_eq_true_1 _). reflexivity.
    + split; [lia|reflexivity].
    + exists 417%nat. rewrite Hfs. reflexivity.
    + unfold bin_entries, entry_ok, word_ok. apply (bool_decide_eq_true_1 _). reflexivity.
    + split; [lia|reflexivity].
Qed.

(** The executable is an application with one segment of five bytes. *)
Lemma elf_app b : app_file (blocks_fn [elf_block APPS_ENTRY 5; b]) 2 app_ph.
Proof.
  assert (elf_header (elf_block APPS_ENTRY 5) = {| e_phoff := 52; e_phnum := 1 |}) as Eh by (vm_compute; reflexivity).
  assert (elf_pheader (elf_block APPS_ENTRY 5) 52 = app_ph) as Ep by (vm_compute; reflexivity).
  split.
  - exists 0. change (blocks_fn [elf_block APPS_ENTRY 5; b] 0) with (elf_block APPS_ENTRY 5). split.
    + split; rewrite Eh; cbn [e_phoff e_phnum]; [lia|unfold BLOCK_SIZE; lia|intros i Hi Hne; lia|].
      change (52 + 32 * 0) with 52. rewrite Ep. intros Hx. discriminate Hx.
    + unfold segment. rewrite Eh. exact Ep.
  - reflexivity.
  - vm_compute. split; intros Hx; discriminate Hx.
  - vm_compute. intros Hx. discriminate Hx.
  - vm_compute. intros Hx. discriminate Hx.
Qed.

Lemma boot_can_load_fs d :
  can_load_from rand0 rand0_nonneg room0 QEMU_LATEST (fs_is (H := MemDisk.ops) (H0 := MemDisk.laws) (fs_on d)) (boot_earth d 5) 8.
Proof.
  split.
  - apply boot_earth_ok. intros Hx. discriminate Hx.
  - reflexivity.
  - apply boot_free.
  - split; [reflexivity|]. split; [intros Hx; discriminate Hx|]. intros Hx. discriminate Hx.
  - intros p. apply boot_view_none; intros Hx; discriminate Hx.
Qed.

(** The server on the machine. *)
Definition server_on (d : MemDisk.disk) : server (kernel E0) :=
  {| app_ino := 0; app_pid := 0; shell_waiting := false; sent := []; kern := kernel_on d |}.

