(* ===== verification/Syscall.v ===== *)
(** The system call interface, grass/syscall.c, and [exit] of
    library/servers/servers.c: what a process does before and after the kernel
    runs, and the delivery of a message from the buffer of the sender to the
    buffer of the receiver. *)

From Stdlib Require Import ZArith Lia Strings.Byte.
From stdpp Require Import base numbers list strings gmap relations.
From S2P Require Import Prelude Bytes Memory Earth Kernel KernelSpec KernelIpc KernelTrap KernelReach.
From S2P Require Import Paging Mmu MmuProof Bus EarthState Devices KernelTheorems KernelExample ProcServer.

Local Open Scope egos_scope.

Section syscall.
Context {E : Type} `{EarthOps E}.
Abbreviation st := (kernel E).
(** What the machine does from the software interrupt of the current process
    until that process runs again. *)
Variable trap : M st unit.

(** The store of 1 to [MSIP], which raises the software interrupt. *)
Definition raise : M st unit := s <- get ;; wr_int (MSIP (earth_platform (earth s))) 1.

(** [while (sc->type != SYS_UNUSED)]: the kernel has cleared the type, otherwise
    the process does not go on. *)
Definition wait_unused : M st unit :=
  type <- rd_int sc_type ;;
  if negb (type =? SYS_UNUSED) then nofuel else ret tt.

Definition sys_invoke : M st unit := raise ;;; trap ;;; wait_unused.

(** The writes of [sys_send] before [sys_invoke]. *)
Definition send_args (receiver : Z) (msg : list byte) : M st unit :=
  wr_int sc_type SYS_SEND ;;;
  wr_int sc_receiver receiver ;;;
  wr sc_content msg.

Definition sys_send (receiver : Z) (msg : list byte) : M st Z :=
  if SYSCALL_MSG_LEN <? Z.of_nat (length msg) then ret (-1)
  else send_args receiver msg ;;; sys_invoke ;;; rd_int sc_retval.

(** The reads of [sys_recv] after [sys_invoke]: the bytes, the sender and the
    value that is returned. *)
Definition recv_result (size : Z) : M st (list byte * Z * Z) :=
  l <- rd sc_content size ;;
  p <- rd_int sc_sender ;;
  v <- rd_int sc_retval ;;
  ret (l, p, v).

(** [None] is the return value -1, with nothing written. *)
Definition sys_recv (size : Z) : M st (option (list byte * Z * Z)) :=
  if SYSCALL_MSG_LEN <? size then ret None
  else wr_int sc_type SYS_RECV ;;; sys_invoke ;;; x <- recv_result size ;; ret (Some x).

(** The request is on the stack and only its type is set: [rest] is what the
    stack holds for the other fields. *)
Definition sys_exit (rest : list byte) (status : Z) : M st unit :=
  sys_send GPID_PROCESS (take (Z.to_nat PROC_REQUEST_SIZE) (le_put 4 PROC_EXIT ++ rest)) ;;; ret tt.

(** [exit] does not come back. *)
Definition exit (rest : list byte) (status : Z) : M st unit := sys_exit rest status ;;; nofuel.
(** [_exit] of library/libc/print.c, for the C library. *)
Definition _exit (rest : list byte) (status : Z) : M st unit := sys_exit rest status ;;; nofuel.
End syscall.

Section delivery.
Context {E : Type} `{EarthLaws E}.
Abbreviation st := (kernel E).

(** The message of the current process is in memory as the process sees it. *)
Lemma message_curr (s : st) :
  k_run s -> message (earth s) (curr_pid s) = load (emem (earth s)) sc_msg SYS_MSG_SIZE.
Proof.
  intros R. destruct (curr_mapped s R) as [_ Hm]. unfold message. rewrite <- (kr_vm _ R).
  apply eload_curr; [apply R|]. rewrite (kr_vm _ R). eapply mapped_sub; [exact Hm|sc_lia..].
Qed.

Lemma receiver_curr (s : st) :
  k_run s -> msg_receiver (earth s) (curr_pid s) = s32 (load_u32 (emem (earth s)) sc_receiver).
Proof.
  intros R. destruct (curr_mapped s R) as [_ Hm]. unfold msg_receiver, load_u32. rewrite <- (kr_vm _ R).
  rewrite eload_curr; [done|apply R|]. rewrite (kr_vm _ R). eapply mapped_sub; [exact Hm|sc_lia..].
Qed.

(** A write of the current process to its system call area. *)
Lemma wr_run (s : st) a l :
  k_run s -> a + Z.of_nat (length l) <= FRAME_CACHE_START ->
  exists e', wr a l s = Ok (tt, set_earth e' s) /\ k_run (set_earth e' s) /\
    emem e' = store (emem (earth s)) a l /\ earth_platform e' = earth_platform (earth s).
Proof.
  intros R Ha. destruct (wr_spec s a l (ko_earth _ (kr_ok _ R)) Ha) as (e' & Ew & W).
  exists e'. split; [exact Ew|]. split; [|split; [by apply wr_mem|apply W]].
  destruct R as [Hok Hst Hvm]. split; [by eapply k_ok_wrote|exact Hst|].
  change (e_vm e' = curr_pid s). by rewrite (w_vm _ _ _ _ W).
Qed.

(** The system call area when the kernel gets the call. *)
Lemma send_args_spec (s : st) r msg :
  k_run s -> Z.of_nat (length msg) <= SYSCALL_MSG_LEN -> - 2 ^ 31 <= r < 2 ^ 31 ->
  exists e1, bind (send_args r msg) (fun _ => raise) s = Ok (tt, set_earth e1 s) /\ k_run (set_earth e1 s) /\
    s32 (load_u32 (emem e1) sc_type) = SYS_SEND /\
    msg_receiver e1 (curr_pid s) = r /\
    load (emem e1) sc_content (Z.of_nat (length msg)) = msg.
Proof.
  intros R Hl Hr. unfold send_args. rewrite !bind_assoc.
  destruct (wr_run s sc_type (le_put 4 (u32 SYS_SEND)) R) as (e1 & E1 & R1 & M1 & P1);
    [rewrite length_le_put; sc_lia|]. erewrite bind_ok by exact E1. rewrite !bind_assoc.
  destruct (wr_run _ sc_receiver (le_put 4 (u32 r)) R1) as (e2 & E2 & R2 & M2 & P2);
    [rewrite length_le_put; sc_lia|]. erewrite bind_ok by exact E2.
  destruct (wr_run _ sc_content msg R2) as (e3 & E3 & R3 & M3 & P3); [sc_lia|].
  erewrite bind_ok by exact E3. unfold raise. unfold bind at 1. cbn [get].
  set (p := earth_platform _).
  assert (0x2000000 <= MSIP p <= 0x2000004) as Hp by (unfold MSIP; case_goal; lia).
  destruct (wr_run _ (MSIP p) (le_put 4 (u32 1)) R3) as (e4 & E4 & R4 & M4 & P4);
    [rewrite length_le_put; sc_lia|].
  exists e4. split; [exact E4|]. split; [exact R4|].
  change (emem e2 = store (emem e1) sc_receiver (le_put 4 (u32 r))) in M2.
  change (emem e3 = store (emem e2) sc_content msg) in M3.
  change (emem e4 = store (emem e3) (MSIP p) (le_put 4 (u32 1))) in M4.
  pose proof (receiver_curr _ R4 : msg_receiver e4 (curr_pid s) = s32 (load_u32 (emem e4) sc_receiver)) as ->.
  rewrite M4, !load_u32_store_ne, load_store_ne by (rewrite length_le_put; sc_lia).
  rewrite M3, !load_u32_store_ne, load_store_eq by sc_lia. split; [|split; [|done]].
  - rewrite M2, load_u32_store_ne by (rewrite length_le_put; sc_lia).
    rewrite M1. change (s32 (load_u32 (store_u32 (emem (earth s)) sc_type SYS_SEND) sc_type) = SYS_SEND).
    by rewrite load_store_u32.
  - rewrite M2. change (s32 (load_u32 (store_u32 (emem e1) sc_receiver (u32 r)) sc_receiver) = r).
    rewrite load_store_u32. unfold u32. rewrite Z.mod_mod by lia.
    unfold s32. rewrite Z.mod_mod by lia. by apply (s32_small r).
Qed.

Lemma stamped_fields q m :
  take 4 (stamped q m) = le_put 4 (u32 q) /\ drop 8 (stamped q m) = drop 8 m.
Proof.
  unfold stamped, splice. rewrite length_le_put. simpl take at 2. rewrite app_nil_l. split.
  - by rewrite take_app_length' by by rewrite length_le_put.
  - rewrite drop_app_ge by (rewrite length_le_put; lia). by rewrite drop_drop, length_le_put.
Qed.

(** The calls, around the software interrupt. *)
Lemma sys_send_unfold trap (s s1 : st) r msg :
  Z.of_nat (length msg) <= SYSCALL_MSG_LEN -> bind (send_args r msg) (fun _ => raise) s = Ok (tt, s1) ->
  sys_send trap r msg s = bind trap (fun _ => bind wait_unused (fun _ => rd_int sc_retval)) s1.
Proof.
  intros Hl E1. unfold sys_send, sys_invoke. rewrite (proj2 (Z.ltb_ge _ _)) by done.
  rewrite <- (bind_ok _ (fun _ => bind trap (fun _ => bind wait_unused (fun _ => rd_int sc_retval))) _ _ _ E1).
  rewrite bind_assoc. apply bind_ext. intros [] s'. rewrite !bind_assoc. apply bind_ext. intros [] s''. apply bind_assoc.
Qed.

Lemma sys_recv_unfold trap size (s0 s3 : st) x :
  size <= SYSCALL_MSG_LEN -> bind (wr_int sc_type SYS_RECV) (fun _ => bind raise (fun _ => trap)) s0 = Ok (tt, s3) ->
  s32 (load_u32 (emem (earth s3)) sc_type) = SYS_UNUSED -> recv_result size s3 = Ok (x, s3) ->
  sys_recv trap size s0 = Ok (Some x, s3).
Proof.
  intros Hsz E1 Ht Er. unfold sys_recv, sys_invoke. rewrite (proj2 (Z.ltb_ge _ _)) by done.
  transitivity (bind wait_unused (fun _ => bind (recv_result size) (fun x => ret (Some x))) s3).
  - rewrite <- (bind_ok _ (fun _ => bind wait_unused (fun _ => bind (recv_result size) (fun x => ret (Some x)))) _ _ _ E1).
    rewrite bind_assoc. apply bind_ext. intros [] s'. rewrite !bind_assoc. apply bind_ext. intros [] s''. apply bind_assoc.
  - unfold wait_unused, bind at 1 2. cbn [rd_int gets]. rewrite Ht. cbn [ret negb Z.eqb SYS_UNUSED].
    by rewrite (bind_ok _ _ _ _ _ Er).
Qed.

(** The receiver's message while the others run. *)
Lemma message_kept (s s' : st) i :
  rtc (while_waiting i) s s' -> k_run s -> 0 <= i < MAX_NPROCESS -> can_run (status (proc s i)) = true ->
  k_run s' /\ pid (proc s' i) = pid (proc s i) /\ can_run (status (proc s' i)) = true /\
  message (earth s') (pid (proc s i)) = message (earth s) (pid (proc s i)).
Proof.
  intros Hs. induction Hs as [s|s s1 s' Hw _ IH]; intros R Hi Hc; [done|].
  pose proof (waiting_can_run s s1 i R Hi Hw Hc) as Hc1. destruct Hw as (Hst & Hne & Hld & Hp & _ & Hm).
  destruct IH as (R' & Hp' & Hc' & Hmsg); [by eapply step_k_run|done..|]. rewrite Hp in Hp', Hmsg.
  split; [done|]. split; [done|]. split; [done|]. rewrite Hmsg. unfold message, eload.
  apply list_fmap_ext. intros k x Hx. apply list_elem_of_lookup_2, elem_of_seqZ in Hx.
  assert (mapped (earth s) (pid (proc s i)) (sc_msg + x)) as Hmx.
  { apply (ko_mapped _ (kr_ok _ R)); [done..|]. sc_lia. }
  apply (step_isolated s s1 i); auto.
Qed.

(** What [sys_recv] reads of a message. *)
Lemma recv_result_spec (s : st) q msg :
  k_run s -> is_u32 q -> q < 2 ^ 31 -> Z.of_nat (length msg) <= SYSCALL_MSG_LEN ->
  take (length msg) (drop 8 (message (earth s) (curr_pid s))) = msg ->
  take 4 (message (earth s) (curr_pid s)) = le_put 4 (u32 q) ->
  forall size, 0 <= size <= SYSCALL_MSG_LEN ->
  exists l v, recv_result size s = Ok ((l, q, v), s) /\ length l = Z.to_nat size /\
    take (length msg) l = take (Z.to_nat size) msg.
Proof.
  intros R Hq Hq' Hl Hmsg Hsnd size Hsz. rewrite message_curr in Hmsg, Hsnd by done.
  exists (load (emem (earth s)) sc_content size), (s32 (load_u32 (emem (earth s)) sc_retval)).
  assert (s32 (load_u32 (emem (earth s)) sc_sender) = q) as Hs.
  { unfold load_u32. rewrite (load_sub _ sc_msg SYS_MSG_SIZE sc_sender) by sc_lia.
    etransitivity; [exact (f_equal (fun l => s32 (le_get l)) Hsnd)|].
    rewrite le_get_put. change (256 ^ Z.of_nat 4) with (2 ^ 32). rewrite u32_small by done.
    unfold is_u32 in Hq. rewrite Z.mod_small by done. apply s32_small. lia. }
  split; [|split].
  - unfold recv_result, bind, rd, rd_int, gets, ret. by rewrite Hs.
  - apply length_load.
  - rewrite (load_sub _ sc_msg SYS_MSG_SIZE) by sc_lia.
    change (Z.to_nat (sc_content - sc_msg)) with 8%nat.
    rewrite take_take, Nat.min_comm, <- take_take. by rewrite Hmsg.
Qed.

End delivery.

Lemma hi_next :
  match bind (send_args 6 [x68; x69]) (fun _ => bind raise (fun _ => proc_syscall)) waiting1 with
  | Ok (_, s2) => proc_curr_idx s2 = 2 /\ s32 (load_u32 (emem (earth s2)) sc_type) = SYS_UNUSED
  | _ => False
  end.
Proof. vm_compute. split; reflexivity. Qed.

