(* ===== verification/UserApps.v ===== *)
(** The user applications of apps/user (cd, ls, cat, echo, pwd and clock) and
    [_sbrk] of library/libc/malloc.c.  The working directory is in [struct grass]
    (library/egos.h), which all applications share; what [printf] writes is the
    list of bytes [printed].  The messages of [INFO] are left out. *)

From Stdlib Require Import ZArith Lia Strings.Byte.
From stdpp Require Import base numbers list strings.
From S2P Require Import Prelude Bytes Earth Kernel Dir Mkfs Log.

Local Open Scope egos_scope.

(** ** Functions of the C library *)

Abbreviation SLASH := x2f.

Definition WORKDIR_SIZE : Z := 128.

(** [strcpy(a, s)], [strcat(a, s)] and [strncat(a, s, k)]: the result must stay
    inside the array [a]. *)
Definition put_string (a : list byte) (n : Z) (s : list byte) : M unit (list byte) :=
  if n + Z.of_nat (length s) <? Z.of_nat (length a)
  then ret (splice a (Z.to_nat n) (s ++ [x00])) else undef "string".
Definition strcpy (a s : list byte) : M unit (list byte) :=
  m <- strlen s ;; put_string a 0 (take (Z.to_nat m) s).
Definition strncat (a s : list byte) (k : Z) : M unit (list byte) :=
  n <- strlen a ;; m <- strlen s ;; put_string a n (take (Z.to_nat (Z.min k m)) s).
Definition strcat (a s : list byte) : M unit (list byte) :=
  n <- strlen a ;; m <- strlen s ;; put_string a n (take (Z.to_nat m) s).
(** [!strcmp(s, a)]. *)
Definition strcmp_eq (s a : list byte) : M unit bool := strncmp_eq (S (length s)) s a 0 0.

(** A string constant. *)
Definition lit (s : string) : list byte := str s ++ [x00].

(** ** The calls of library/servers/servers.c *)

Class FileCalls (F : Type) := {
  c_dir_lookup : Z -> list byte -> M F Z;
  c_file_read : Z -> Z -> M F (Z * list byte)
}.

(** The state that an application sees. *)
Record application (F : Type) := {
  workdir_ino : Z;
  workdir : list byte;
  printed : list byte;
  files : F
}.
Arguments workdir_ino {F}.
Arguments workdir {F}.
Arguments printed {F}.
Arguments files {F}.

Section apps.
Context {F : Type} `{FileCalls F}.
Abbreviation st := (application F).

Definition set_workdir_ino (v : Z) (s : st) : st :=
  {| workdir_ino := v; workdir := workdir s; printed := printed s; files := files s |}.
Definition set_workdir (v : list byte) (s : st) : st :=
  {| workdir_ino := workdir_ino s; workdir := v; printed := printed s; files := files s |}.
Definition add_printed (v : list byte) (s : st) : st :=
  {| workdir_ino := workdir_ino s; workdir := workdir s; printed := printed s ++ v; files := files s |}.
Definition set_files (v : F) (s : st) : st :=
  {| workdir_ino := workdir_ino s; workdir := workdir s; printed := printed s; files := v |}.

Definition on_files {A} (m : M F A) : M st A := fun s =>
  match m (files s) with
  | Ok (a, f) => Ok (a, set_files f s)
  | Fatal msg => Fatal msg
  | Undef w => Undef w
  | NoFuel => NoFuel
  end.
Definition on_strings {A} (m : M unit A) : M st A := fun s =>
  match m tt with
  | Ok (a, _) => Ok (a, s)
  | Fatal msg => Fatal msg
  | Undef w => Undef w
  | NoFuel => NoFuel
  end.

Definition print (l : list byte) : M st unit := modify (add_printed l).
Definition printf (fmt : list byte) (args : list arg) : M st unit :=
  l <- on_strings (format_text Text fmt args) ;; print l.
(** [printf("%s", s)]. *)
Definition print_string (s : list byte) : M st unit :=
  n <- on_strings (strlen s) ;; print (take (Z.to_nat n) s).

(** ** apps/user/cd.c *)

(** [while (grass->workdir[len] != '/') grass->workdir[len--] = 0]; the array
    and one step more are enough. *)
Fixpoint up_loop (fuel : nat) (w : list byte) (len : Z) : M unit (list byte * Z) :=
  match fuel with
  | O => nofuel
  | S fuel' =>
      c <- char_at w len ;;
      if decide (c = SLASH) then ret (w, len)
      else up_loop fuel' (<[Z.to_nat len := x00]> w) (u32 (len - 1))
  end.

(** The new path name; [arg] is the argument with its slash. *)
Definition new_workdir (w arg : list byte) : M unit (list byte) :=
  here <- strcmp_eq (lit "./") arg ;;
  if here then ret w
  else
    len <- strlen w ;;
    up <- strcmp_eq (lit "../") arg ;;
    if negb up then
      w <- (if 1 <? len then strcat w (lit "/") else ret w) ;;
      n <- strlen arg ;;
      strncat w arg (u32 (n - 1))
    else
      '(w, len) <- up_loop (S (length w)) w len ;;
      ret (if negb (len =? 0) then <[Z.to_nat len := x00]> w else w).

Definition cd (argc : Z) (argv1 : list byte) : M st Z :=
  if argc =? 1 then
    home_ino <- on_files (c_dir_lookup 0 (lit "home/")) ;;
    ino <- on_files (c_dir_lookup home_ino (lit "yunhao/")) ;;
    modify (set_workdir_ino ino) ;;;
    s <- get ;;
    w <- on_strings (strcpy (workdir s) (lit "/home/yunhao")) ;;
    modify (set_workdir w) ;;;
    ret 0
  else
    arg <- on_strings (strcat argv1 (lit "/")) ;;
    s <- get ;;
    dir_ino <- on_files (c_dir_lookup (workdir_ino s) arg) ;;
    if dir_ino =? -1 then ret (-1)
    else
      modify (set_workdir_ino dir_ino) ;;;
      s <- get ;;
      w <- on_strings (new_workdir (workdir s) arg) ;;
      modify (set_workdir w) ;;;
      ret 0.

(** ** apps/user/ls.c *)

Fixpoint ls_loop (fuel : nat) (buf : list byte) (i : Z) : M unit (list byte) :=
  match fuel with
  | O => nofuel
  | S fuel' =>
      n <- strlen buf ;;
      if i <? n then
        p <- char_at buf (i - 1) ;;
        c <- char_at buf i ;;
        ls_loop fuel' (if is_space p && isdigit c then <[Z.to_nat i := x20]> buf else buf) (i + 1)
      else ret buf
  end.

Definition ls (argc : Z) : M st Z :=
  if 1 <? argc then ret (-1)
  else
    s <- get ;;
    '(_, buf) <- on_files (c_file_read (workdir_ino s) 0) ;;
    buf <- on_strings (ls_loop (S (length buf)) buf 1) ;;
    print_string buf ;;;
    print CRLF ;;;
    ret 0.

(** ** apps/user/cat.c *)

Definition cat (argc : Z) (argv1 : list byte) : M st Z :=
  if argc =? 1 then ret (-1)
  else
    s <- get ;;
    file_ino <- on_files (c_dir_lookup (workdir_ino s) argv1) ;;
    if file_ino <? 0 then ret (-1)
    else
      '(_, buf) <- on_files (c_file_read file_ino 0) ;;
      print_string buf ;;;
      n <- on_strings (strlen buf) ;;
      c <- on_strings (char_at buf (n - 1)) ;;
      (if decide (c <> x0a) then print CRLF else ret tt) ;;;
      ret 0.

(** ** apps/user/echo.c, apps/user/pwd.c and apps/user/clock.c *)

Fixpoint echo_loop (argv : list (list byte)) : M st unit :=
  match argv with
  | [] => ret tt
  | a :: argv' => print_string a ;;; print [x20] ;;; echo_loop argv'
  end.
(** [argv] has [argc] strings. *)
Definition echo (argv : list (list byte)) : M st Z :=
  echo_loop (drop 1 argv) ;;; print CRLF ;;; ret 0.

Definition pwd : M st Z := s <- get ;; print_string (workdir s) ;;; print CRLF ;;; ret 0.

(** One line; the waiting loop has no effect. *)
Definition tick (i cnt : Z) : M st unit :=
  printf (str "clock: tick#%d / #%d" ++ CRLF) [Int (i + 1); Int cnt].
(** [i] is unsigned, and so is the comparison with [cnt]. *)
Definition clock (argc : Z) (argv1 : list byte) : M st Z :=
  cnt <- (if argc =? 1 then ret 1000 else on_strings (atoi argv1 0)) ;;
  for_n (Z.to_nat (u32 cnt)) 0 (fun i => tick i cnt) ;;;
  ret 0.
End apps.

(** ** library/libc/malloc.c *)

(** [brk] is the state; the linker gives [__heap_end].  Beyond the end of the
    heap a write to an unmapped address raises a memory exception. *)
Definition _sbrk (platform : platform_t) (__heap_end size : Z) : M Z Z :=
  let heap_end := match platform with ARTY => __heap_end | _ => 0xa000000 end in
  brk <- get ;;
  if heap_end <? u32 (brk + size) then fatal "_sbrk: heap grows too large"
  else put (u32 (brk + size)) ;;; ret brk.
