(* ===== verification/UserProof.v ===== *)
(** Lemmas on the user applications: C strings in arrays, the path name of the
    working directory, and the blanking of the inode numbers. *)

From Stdlib Require Import ZArith Lia Strings.Byte.
From stdpp Require Import base numbers list strings.
From S2P Require Import Prelude Bytes Dir DirProof Mkfs UserApps.

Local Open Scope egos_scope.

(** ** Strings in arrays *)

(** The array [a] holds the C string [s]. *)
Definition holds_string (a s : list byte) : Prop := (x00 ∉ s) /\ exists r, a = s ++ x00 :: r.

Lemma holds_strlen a s : holds_string a s -> strlen a tt = Ok (Z.of_nat (length s), tt).
Proof. intros [Hs [r ->]]. by apply strlen_ok. Qed.

Lemma holds_take a s : holds_string a s -> take (length s) a = s.
Proof. intros [Hs [r ->]]. apply take_app_length. Qed.

Lemma put_string_ok a l s :
  holds_string a l -> x00 ∉ s -> (length l + length s < length a)%nat ->
  exists a', put_string a (Z.of_nat (length l)) s tt = Ok (a', tt) /\ holds_string a' (l ++ s) /\
    length a' = length a.
Proof.
  intros Hl Hs Hlen. exists (splice a (length l) (s ++ [x00])). split; [|split].
  - unfold put_string. rewrite (proj2 (Z.ltb_lt _ _)) by lia. by rewrite Nat2Z.id.
  - split; [apply not_elem_of_app; split; [apply Hl|done]|]. unfold splice.
    rewrite (holds_take a l Hl). eexists. by rewrite <- !app_assoc.
  - apply length_splice. rewrite length_app. simpl. lia.
Qed.

Lemma strcpy_ok a s t :
  holds_string s t -> (length t < length a)%nat ->
  exists a', strcpy a s tt = Ok (a', tt) /\ holds_string a' t /\ length a' = length a.
Proof.
  intros Ht Hlen. exists (splice a 0 (t ++ [x00])). split; [|split].
  - unfold strcpy. rewrite (bind_ok _ _ _ _ _ (holds_strlen _ _ Ht)), Nat2Z.id, (holds_take _ _ Ht).
    unfold put_string. by rewrite (proj2 (Z.ltb_lt _ _)) by lia.
  - split; [apply Ht|]. unfold splice. rewrite take_0. eexists. simpl. by rewrite <- app_assoc.
  - apply length_splice. rewrite length_app. simpl. lia.
Qed.

Lemma strncat_ok a l s t k :
  holds_string a l -> holds_string s t -> 0 <= k <= Z.of_nat (length t) ->
  (length l + Z.to_nat k < length a)%nat ->
  exists a', strncat a s k tt = Ok (a', tt) /\ holds_string a' (l ++ take (Z.to_nat k) t) /\ length a' = length a.
Proof.
  intros Hl Ht Hk Hlen. unfold strncat. rewrite (bind_ok _ _ _ _ _ (holds_strlen _ _ Hl)).
  rewrite (bind_ok _ _ _ _ _ (holds_strlen _ _ Ht)), Z.min_l by lia.
  assert (take (Z.to_nat k) s = take (Z.to_nat k) t) as ->.
  { destruct Ht as [_ [r ->]]. apply take_app_le. lia. }
  apply put_string_ok; [done| |rewrite length_take; lia].
  intros Hin. apply (proj1 Ht). rewrite <- (take_drop (Z.to_nat k) t). apply elem_of_app. by left.
Qed.

Lemma strcat_ok a l s t :
  holds_string a l -> holds_string s t -> (length l + length t < length a)%nat ->
  exists a', strcat a s tt = Ok (a', tt) /\ holds_string a' (l ++ t) /\ length a' = length a.
Proof.
  intros Hl Ht Hlen. unfold strcat. rewrite (bind_ok _ _ _ _ _ (holds_strlen _ _ Hl)).
  rewrite (bind_ok _ _ _ _ _ (holds_strlen _ _ Ht)), Nat2Z.id, (holds_take _ _ Ht).
  apply put_string_ok; [done|apply Ht|done].
Qed.

Lemma strcmp_from s t pre pre' r r' fuel :
  x00 ∉ s -> x00 ∉ t -> (length s < fuel)%nat ->
  strncmp_eq fuel (pre ++ s ++ x00 :: r) (pre' ++ t ++ x00 :: r') (Z.of_nat (length pre)) (Z.of_nat (length pre')) tt =
  Ok (bool_decide (s = t), tt).
Proof.
  revert t pre pre' fuel. induction s as [|c s IH]; intros t pre pre' fuel Hs Ht Hf;
    (destruct fuel as [|fuel]; [simpl in Hf; lia|]); cbn [strncmp_eq app].
  - rewrite (bind_ok _ _ _ _ _ (char_at_mid pre _ _)).
    destruct t as [|d t]; cbn [app]; rewrite (bind_ok _ _ _ _ _ (char_at_mid pre' _ _)); [done|].
    rewrite decide_False; [done|]. intros <-. apply Ht, elem_of_cons. by left.
  - rewrite (bind_ok _ _ _ _ _ (char_at_mid pre _ _)). apply not_elem_of_cons in Hs as [Hc Hs].
    destruct t as [|d t]; cbn [app]; rewrite (bind_ok _ _ _ _ _ (char_at_mid pre' _ _)).
    { by rewrite decide_False. }
    apply not_elem_of_cons in Ht as [Hd Ht]. destruct (decide (c = d)) as [->|Hne].
    + rewrite decide_False by done.
      replace (pre ++ d :: s ++ x00 :: r) with ((pre ++ [d]) ++ s ++ x00 :: r) by by rewrite <- app_assoc.
      replace (pre' ++ d :: t ++ x00 :: r') with ((pre' ++ [d]) ++ t ++ x00 :: r') by by rewrite <- app_assoc.
      replace (Z.of_nat (length pre) + 1) with (Z.of_nat (length (pre ++ [d]))) by (rewrite length_app; simpl; lia).
      replace (Z.of_nat (length pre') + 1) with (Z.of_nat (length (pre' ++ [d]))) by (rewrite length_app; simpl; lia).
      rewrite IH by (done || (simpl in Hf; lia)). f_equal. f_equal. apply bool_decide_ext. naive_solver.
    + rewrite bool_decide_eq_false_2; [done|]. naive_solver.
Qed.

Lemma strcmp_ok a b s t :
  holds_string a s -> holds_string b t -> strcmp_eq a b tt = Ok (bool_decide (s = t), tt).
Proof.
  intros [Hs [r ->]] [Ht [r' ->]]. apply (strcmp_from s t [] []); [done..|]. rewrite length_app. simpl. lia.
Qed.

Lemma lit_holds (s : string) : x00 ∉ str s -> holds_string (lit s) (str s).
Proof. intros Hs. split; [done|]. by exists []. Qed.

(** ** Path names *)

(** The name of a directory in a path. *)
Record dir_ok (d : list byte) : Prop := {
  do_word : word_ok d;
  do_slash : SLASH ∉ d;
  do_here : d <> str ".";
  do_up : d <> str ".."
}.

Definition names (p : list (list byte)) : list byte := p ≫= fun d => SLASH :: d.
(** The path name of the directory that the names [p] lead to from the root. *)
Definition path (p : list (list byte)) : list byte := if decide (p = []) then [SLASH] else names p.

(** The names after [cd n]. *)
Definition cd_names (p : list (list byte)) (n : list byte) : list (list byte) :=
  if decide (n = str ".") then p else if decide (n = str "..") then removelast p else p ++ [n].

Lemma names_snoc p d : names (p ++ [d]) = names p ++ SLASH :: d.
Proof. unfold names. rewrite bind_app. simpl. by rewrite app_nil_r. Qed.

Lemma names_nul p : Forall dir_ok p -> x00 ∉ names p.
Proof.
  unfold names. intros Hp (d & Hin & Hd)%list_elem_of_bind. rewrite Forall_forall in Hp.
  apply elem_of_cons in Hin as [Hin|Hin]; [done|]. by destruct (do_word _ (Hp d Hd)) as (_ & H0 & _).
Qed.

Lemma names_long p : p <> [] -> Forall dir_ok p -> (1 < length (names p))%nat.
Proof.
  intros Hne Hp. destruct p as [|d p]; [done|]. apply Forall_cons in Hp as [Hd _].
  unfold names. simpl. rewrite length_app. destruct (do_word _ Hd) as (Hd0 & _). destruct d; [done|]. simpl. lia.
Qed.

Lemma path_nul p : Forall dir_ok p -> x00 ∉ path p.
Proof.
  intros Hp. unfold path. case_decide; [|by apply names_nul]. by intros Hin%list_elem_of_singleton.
Qed.

Lemma path_snoc p d : path (p ++ [d]) = names p ++ SLASH :: d.
Proof. unfold path. rewrite decide_False by by destruct p. apply names_snoc. Qed.

Lemma up_loop_ok l pre r fuel :
  SLASH ∉ l -> (length l < fuel)%nat -> Z.of_nat (length pre + length l) < 2 ^ 32 ->
  up_loop fuel (pre ++ SLASH :: l ++ r) (Z.of_nat (length pre + length l)) tt =
  Ok ((pre ++ SLASH :: replicate (length l) x00 ++ r, Z.of_nat (length pre)), tt).
Proof.
  revert r fuel. induction l as [|c l IH] using rev_ind; intros r fuel Hl Hf Hb;
    (destruct fuel as [|fuel]; [simpl in Hf; lia|]); cbn [up_loop].
  - simpl. rewrite Nat.add_0_r, (bind_ok _ _ _ _ _ (char_at_mid pre _ _)). by rewrite decide_True.
  - rewrite length_app in *. simpl (length [c]) in *. apply not_elem_of_app in Hl as [Hl Hc].
    assert (pre ++ SLASH :: (l ++ [c]) ++ r = (pre ++ SLASH :: l) ++ c :: r) as -> by by rewrite <- !app_assoc.
    assert (length pre + (length l + 1) = length (pre ++ SLASH :: l))%nat as ->
      by (rewrite length_app; simpl; lia).
    rewrite (bind_ok _ _ _ _ _ (char_at_mid _ _ _)), decide_False.
    2:{ intros ->. apply Hc. by apply list_elem_of_singleton. }
    rewrite Nat2Z.id, insert_app_r_alt, Nat.sub_diag by lia. cbn [insert list_insert].
    rewrite <- app_assoc. change ((SLASH :: l) ++ x00 :: r) with (SLASH :: l ++ x00 :: r).
    rewrite u32_small by (unfold is_u32; rewrite length_app; simpl; lia).
    replace (Z.of_nat (length (pre ++ SLASH :: l)) - 1) with (Z.of_nat (length pre + length l))
      by (rewrite length_app; simpl; lia).
    rewrite IH by (done || lia). by rewrite replicate_add, <- app_assoc.
Qed.

Lemma str_slash d : x00 ∉ d -> x00 ∉ d ++ [SLASH].
Proof. intros Hd. apply not_elem_of_app. split; [done|]. by intros ?%list_elem_of_singleton. Qed.

Lemma slash_eq d (s : list byte) : bool_decide (s ++ [SLASH] = d ++ [SLASH]) = bool_decide (d = s).
Proof. apply bool_decide_ext. split; [by intros ?%app_inj_tail_iff%proj1|by intros ->]. Qed.

Lemma up_workdir_ok w p :
  holds_string w (path p) -> Forall dir_ok p -> Z.of_nat (length w) < 2 ^ 32 ->
  exists w', ('(w, len) <- up_loop (S (length w)) w (Z.of_nat (length (path p))) ;;
     ret (if negb (len =? 0) then <[Z.to_nat len := x00]> w else w)) tt = Ok (w', tt) /\
    holds_string w' (path (removelast p)) /\ length w' = length w.
Proof.
  intros [Hz [r ->]] Hp Hw32. destruct p as [|d p _] using rev_ind.
  - assert (SLASH ∉ [x00]) as Hs by by intros ?%list_elem_of_singleton.
    pose proof (up_loop_ok [x00] [] r (S (length (path [] ++ x00 :: r))) Hs ltac:(simpl; lia) ltac:(done)) as E.
    eexists. split; [exact (bind_ok _ _ _ _ _ E)|]. split; [|done]. split; [done|]. by exists r.
  - rewrite path_snoc in *. apply Forall_app in Hp as [Hp [Hd _]%Forall_cons]. rewrite removelast_last.
    assert (SLASH ∉ d ++ [x00]) as Hds.
    { apply not_elem_of_app. split; [apply Hd|]. by intros ?%list_elem_of_singleton. }
    assert ((names p ++ SLASH :: d) ++ x00 :: r = names p ++ SLASH :: (d ++ [x00]) ++ r) as Ew by by rewrite <- !app_assoc.
    assert (length (names p ++ SLASH :: d) = length (names p) + length (d ++ [x00]))%nat as ->
      by (rewrite !length_app; simpl; lia).
    rewrite Ew in *. rewrite !length_app in Hw32. simpl in Hw32. rewrite !length_app in Hw32. simpl in Hw32.
    rewrite (bind_ok _ _ _ _ _ (up_loop_ok _ (names p) r (S (length (names p ++ SLASH :: (d ++ [x00]) ++ r))) Hds
      ltac:(rewrite !length_app; simpl; rewrite !length_app; simpl; lia) ltac:(rewrite length_app; simpl; lia))).
    eexists. split; [reflexivity|]. unfold path. destruct (decide (p = [])) as [->|Hne].
    + cbn [names mbind list_bind length app negb Z.eqb Z.of_nat]. rewrite length_app, Nat.add_comm. cbn [length Nat.add replicate app].
      split; [split; [by intros ?%list_elem_of_singleton|]|].
      * eexists. reflexivity.
      * simpl. rewrite !length_app, length_replicate. simpl. lia.
    + pose proof (names_long p Hne Hp). rewrite (proj2 (Z.eqb_neq _ 0)) by lia. cbn [negb].
      rewrite Nat2Z.id, insert_app_r_alt, Nat.sub_diag by lia. cbn [insert list_insert].
      split; [split; [by apply names_nul|by eexists]|]. rewrite !length_app. simpl.
      * simpl. rewrite ?length_app, ?length_replicate, ?length_app. simpl. lia.
Qed.

Lemma down_workdir_ok w arg p n :
  holds_string w (path p) -> holds_string arg (n ++ [SLASH]) -> Forall dir_ok p -> dir_ok n ->
  (length (path (p ++ [n])) < length w)%nat -> Z.of_nat (length arg) < 2 ^ 32 ->
  exists w', (w <- (if 1 <? Z.of_nat (length (path p)) then strcat w (lit "/") else ret w) ;;
     k <- strlen arg ;; strncat w arg (u32 (k - 1))) tt = Ok (w', tt) /\
    holds_string w' (path (p ++ [n])) /\ length w' = length w.
Proof.
  intros Hw Harg Hp Hn Hlen Ha32. rewrite path_snoc in *. rewrite length_app in Hlen. simpl in Hlen.
  assert (exists w1, (if 1 <? Z.of_nat (length (path p)) then strcat w (lit "/") else ret w) tt = Ok (w1, tt) /\
    holds_string w1 (names p ++ [SLASH]) /\ length w1 = length w) as (w1 & E1 & Hw1 & Hl1).
  { destruct (decide (p = [])) as [->|Hne]; [by exists w|].
    unfold path in *. rewrite decide_False in * by done. pose proof (names_long p Hne Hp).
    rewrite (proj2 (Z.ltb_lt _ _)) by lia. apply strcat_ok; [done| |simpl; lia].
    split; [by intros ?%list_elem_of_singleton|]. by exists []. }
  rewrite (bind_ok _ _ _ _ _ E1), (bind_ok _ _ _ _ _ (holds_strlen _ _ Harg)).
  assert (length n < length arg)%nat as Hna.
  { destruct Harg as [_ [r ->]]. rewrite !length_app. simpl. lia. }
  rewrite length_app. simpl (length [SLASH]). rewrite u32_small by (unfold is_u32; lia).
  replace (Z.of_nat (length n + 1) - 1) with (Z.of_nat (length n)) by lia.
  destruct (strncat_ok w1 _ arg _ (Z.of_nat (length n)) Hw1 Harg) as (w2 & E2 & Hw2 & Hl2).
  - rewrite length_app. lia.
  - rewrite length_app. simpl. lia.
  - exists w2. split; [exact E2|]. split; [|lia]. rewrite Nat2Z.id, take_app_length, <- app_assoc in Hw2. exact Hw2.
Qed.

(** The path name follows the names. *)
Lemma new_workdir_ok w arg p n :
  holds_string w (path p) -> holds_string arg (n ++ [SLASH]) -> Forall dir_ok p ->
  (dir_ok n \/ n = str "." \/ n = str "..") -> (length (path (cd_names p n)) < length w)%nat ->
  Z.of_nat (length w) < 2 ^ 32 -> Z.of_nat (length arg) < 2 ^ 32 ->
  exists w', new_workdir w arg tt = Ok (w', tt) /\ holds_string w' (path (cd_names p n)) /\ length w' = length w.
Proof.
  intros Hw Harg Hp Hn Hlen Hw32 Ha32. unfold new_workdir, cd_names in *.
  assert (holds_string (lit "./") (str "." ++ [SLASH])) as L1 by (split; [by apply (bool_decide_eq_true_1 _)|by exists []]).
  assert (holds_string (lit "../") (str ".." ++ [SLASH])) as L2 by (split; [by apply (bool_decide_eq_true_1 _)|by exists []]).
  rewrite (bind_ok _ _ _ _ _ (strcmp_ok _ _ _ _ L1 Harg)), slash_eq.
  destruct (decide (n = str ".")) as [Hd|Hd]; [rewrite bool_decide_eq_true_2 by done; by exists w|].
  rewrite bool_decide_eq_false_2 by done.
  rewrite (bind_ok _ _ _ _ _ (holds_strlen _ _ Hw)), (bind_ok _ _ _ _ _ (strcmp_ok _ _ _ _ L2 Harg)), slash_eq.
  destruct (decide (n = str "..")) as [Hu|Hu].
  - rewrite bool_decide_eq_true_2 by done. cbn [negb]. by apply up_workdir_ok.
  - rewrite bool_decide_eq_false_2 by done. cbn [negb].
    destruct Hn as [Hn|[?|?]]; [|done..]. by apply down_workdir_ok.
Qed.

(** ** The listing of a directory *)

(** Digits that follow a space or a digit that was blanked, blanked. *)
Fixpoint hide (sp : bool) (l : list byte) : list byte :=
  match l with
  | [] => []
  | c :: l' => if sp && isdigit c then SP :: hide true l' else c :: hide (is_space c) l'
  end.

Lemma length_hide sp l : length (hide sp l) = length l.
Proof. revert sp. induction l as [|c l IH]; intros sp; simpl; [done|]. case_goal; simpl; by rewrite IH. Qed.

Lemma ls_loop_ok l pre c r fuel :
  (x00 ∉ pre ++ c :: l) -> (length l < fuel)%nat ->
  ls_loop fuel (pre ++ c :: l ++ x00 :: r) (Z.of_nat (S (length pre))) tt =
  Ok (pre ++ c :: hide (is_space c) l ++ x00 :: r, tt).
Proof.
  revert pre c fuel. induction l as [|d l IH]; intros pre c fuel Hz Hf;
    (destruct fuel as [|fuel]; [simpl in Hf; lia|]); cbn [ls_loop].
  - assert (pre ++ c :: [] ++ x00 :: r = (pre ++ [c]) ++ x00 :: r) as -> by by rewrite <- app_assoc.
    rewrite (bind_ok _ _ _ _ _ (strlen_ok _ r Hz)), (proj2 (Z.ltb_ge _ _)) by (rewrite length_app; simpl; lia).
    by rewrite <- app_assoc.
  - assert (pre ++ c :: (d :: l) ++ x00 :: r = (pre ++ c :: d :: l) ++ x00 :: r) as Eb by by rewrite <- app_assoc.
    assert (strlen (pre ++ c :: (d :: l) ++ x00 :: r) tt = Ok (Z.of_nat (length (pre ++ c :: d :: l)), tt)) as E0
      by (rewrite Eb; by apply strlen_ok).
    rewrite (bind_ok _ _ _ _ _ E0), (proj2 (Z.ltb_lt _ _)) by (rewrite length_app; simpl; lia).
    replace (Z.of_nat (S (length pre)) - 1) with (Z.of_nat (length pre)) by lia.
    rewrite (bind_ok _ _ _ _ _ (char_at_mid pre _ _)).
    assert (pre ++ c :: (d :: l) ++ x00 :: r = (pre ++ [c]) ++ d :: l ++ x00 :: r) as -> by by rewrite <- app_assoc.
    assert (S (length pre) = length (pre ++ [c])) as -> by (rewrite length_app; simpl; lia).
    rewrite (bind_ok _ _ _ _ _ (char_at_mid (pre ++ [c]) _ _)), Nat2Z.id.
    assert (pre ++ c :: d :: l = (pre ++ [c]) ++ d :: l) as Ez by by rewrite <- app_assoc. rewrite Ez in Hz.
    replace (Z.of_nat (length (pre ++ [c])) + 1) with (Z.of_nat (S (length (pre ++ [c])))) by lia.
    cbn [hide]. destruct (is_space c && isdigit d).
    + rewrite insert_app_r_alt, Nat.sub_diag by lia. cbn [insert list_insert].
      rewrite IH; [by rewrite <- app_assoc| |simpl in Hf; lia].
      apply not_elem_of_app in Hz as [H1 H2]. apply not_elem_of_cons in H2 as [_ H2].
      apply not_elem_of_app. split; [done|]. by apply not_elem_of_cons.
    + rewrite IH; [by rewrite <- app_assoc|done|simpl in Hf; lia].
Qed.

(** A name, and the spaces after it. *)
Lemma hide_word n l : (SP ∉ n) -> hide false (n ++ SP :: l) = n ++ SP :: hide true l.
Proof.
  induction n as [|c n IH]; intros Hn; simpl; [by rewrite is_space_iff|].
  apply not_elem_of_cons in Hn as [Hc Hn]. by rewrite is_space_iff, bool_decide_eq_false_2, IH by done.
Qed.

Lemma hide_spaces j l : hide true (replicate j SP ++ l) = replicate j SP ++ hide true l.
Proof. induction j as [|j IH]; [done|]. cbn [replicate app]. rewrite <- IH. done. Qed.

Lemma hide_digits ds l :
  Forall (fun k => 0 <= k < 10) ds ->
  hide true ((digit <$> ds) ++ l) = replicate (length ds) SP ++ hide true l.
Proof.
  induction ds as [|k ds IH]; intros Hd; [done|]. apply Forall_cons in Hd as [Hk Hd].
  cbn [fmap list_fmap app hide length replicate]. rewrite (isdigit_digit k Hk). cbn [andb]. f_equal. exact (IH Hd).
Qed.

(** An entry as [ls] prints it. *)
Definition listed (e : list byte * Z) : list byte := e.1 ++ replicate 5 SP.

(** The name does not start with a digit. *)
Definition no_digit (e : list byte * Z) : Prop := match e.1 with c :: _ => isdigit c = false | [] => False end.

Lemma hide_entry e l :
  entry_ok e -> no_digit e -> hide true (dir_entry e ++ l) = listed e ++ hide true l.
Proof.
  intros [(Hne & _ & Hsp) Hn] Hd. unfold no_digit in Hd. unfold dir_entry, listed. destruct e as [n k]. cbn [fst snd] in *.
  destruct (dec_digits k Hn) as (ds & -> & Hds & Hds0 & _ & Hlen). rewrite length_fmap.
  assert (exists j, (4 - length ds = S j)%nat) as [j Hj] by (exists (3 - length ds)%nat; lia). rewrite Hj.
  assert (replicate 5 SP = SP :: replicate j SP ++ replicate (length ds) SP ++ [SP]) as ->.
  { change [SP] with (replicate 1 SP). rewrite <- !replicate_add. change (replicate 5 SP = replicate (S (j + (length ds + 1))) SP).
    f_equal. lia. }
  destruct n as [|c n]; [done|]. apply not_elem_of_cons in Hsp as [Hc Hsp]. rewrite <- !app_assoc. cbn [app hide replicate].
  rewrite Hd, is_space_iff, bool_decide_eq_false_2 by done. cbn [andb]. f_equal.
  rewrite hide_word, <- !app_assoc, hide_spaces, hide_digits by done. done.
Qed.

Lemma hide_dir es :
  Forall entry_ok es -> Forall no_digit es -> hide true (dir_text es) = es ≫= listed.
Proof.
  induction es as [|e es IH]; intros He Hd; [done|]. apply Forall_cons in He as [He Hes].
  apply Forall_cons in Hd as [Hd Hds]. 
  change (hide true (dir_entry e ++ dir_text es) = listed e ++ (es ≫= listed)).
  rewrite hide_entry by done. by rewrite IH.
Qed.

(** The loop of [ls] on the block of a directory. *)
Lemma ls_dir es k :
  Forall entry_ok es -> Forall no_digit es -> es <> [] ->
  let buf := dir_text es ++ replicate (S k) x00 in
  ls_loop (S (length buf)) buf 1 tt = Ok ((es ≫= listed) ++ replicate (S k) x00, tt).
Proof.
  intros He Hd Hne buf. subst buf. pose proof (dir_text_nul es He) as Hz. rewrite <- (hide_dir es He Hd).
  destruct es as [|e es]; [done|]. apply Forall_cons in Hd as [Hd _]. unfold no_digit in Hd.
  destruct (e.1) as [|c n] eqn:En; [done|].
  assert (exists l, dir_text (e :: es) = c :: l) as [l El].
  { unfold dir_text, dir_entry. simpl. rewrite En. by eexists. }
  rewrite El in *. cbn [replicate app hide andb]. rewrite Hd.
  apply (ls_loop_ok l [] c (replicate k x00)); [done|]. simpl. rewrite length_app. lia.
Qed.
