(* ===== verification/UserTheorems.v ===== *)
(** The theorems on the user applications, for every implementation of the calls
    of library/servers/servers.c that keeps the promises of [FileServers]; the
    servers of Servers.v on a disk keep them. *)

From Stdlib Require Import ZArith Lia Strings.Byte.
From stdpp Require Import base numbers list strings gmap.
From S2P Require Import Prelude Bytes Earth Kernel InodeStore Treedisk TreediskSpec Elf FsDisk Dir DirProof Servers ServerProof.
From S2P Require Import Mkfs MkfsProof Log DiskTheorems AppTheorems UserApps UserProof.

Local Open Scope egos_scope.

Section theorems.
Context {F : Type} `{FileCalls F}.
(** The first block of every file. *)
Variable block_of : Z -> option (list byte).

(** File [i] is a directory with the entries [es]. *)
Record is_dir (i : Z) (es : list (list byte * Z)) : Prop := {
  id_block : exists k, block_of i = Some (dir_text es ++ replicate (Datatypes.S k) x00);
  id_entries : Forall entry_ok es;
  id_ino : is_u32 i
}.

(** What the servers promise to the applications. *)
Class FileServers := {
  files_ok : F -> Prop;
  lookup_finds f dir es n r :
    files_ok f -> is_dir dir es -> name_ok es n ->
    exists f', files_ok f' /\ c_dir_lookup dir (n ++ x00 :: r) f = Ok (default (-1) (assoc es n), f');
  read_first f ino b :
    files_ok f -> is_u32 ino -> block_of ino = Some b ->
    exists f', files_ok f' /\ c_file_read ino 0 f = Ok ((0, b), f')
}.
Context {FS : FileServers}.

Lemma on_files_ok {A} (m : M F A) (a : application F) v f :
  m (files a) = Ok (v, f) -> on_files m a = Ok (v, set_files f a).
Proof. intros E. unfold on_files. by rewrite E. Qed.

Lemma on_strings_ok {A} (m : M unit A) (a : application F) v :
  m tt = Ok (v, tt) -> on_strings m a = Ok (v, a).
Proof. intros E. unfold on_strings. by rewrite E. Qed.

Lemma print_string_ok (a : application F) b s :
  holds_string b s -> print_string b a = Ok (tt, add_printed s a).
Proof.
  intros Hb. unfold print_string.
  rewrite (bind_ok _ _ _ _ _ (on_strings_ok _ a _ (holds_strlen _ _ Hb))), Nat2Z.id, (holds_take _ _ Hb). done.
Qed.

(** ** The tree of directories *)

(** The directories [ds] form a tree with root 0: the entries [./] and [../]
    lead to the directory and to the one that it is in. *)
Record tree_ok (ds : list Z) (dirs : Z -> list (list byte * Z)) : Prop := {
  t_dir i : i ∈ ds -> is_dir i (dirs i);
  t_root : 0 ∈ ds;
  t_root_up : assoc (dirs 0) (str "../") = Some 0;
  t_here i : i ∈ ds -> assoc (dirs i) (str "./") = Some i;
  t_down i n j : i ∈ ds -> dir_ok n -> assoc (dirs i) (n ++ [SLASH]) = Some j ->
    j ∈ ds /\ assoc (dirs j) (str "../") = Some i
}.

(** The directory that the names [p] lead to from [i]. *)
Fixpoint resolve (dirs : Z -> list (list byte * Z)) (i : Z) (p : list (list byte)) : option Z :=
  match p with
  | [] => Some i
  | d :: p' => assoc (dirs i) (d ++ [SLASH]) ≫= fun j => resolve dirs j p'
  end.

Lemma resolve_snoc dirs i p d :
  resolve dirs i (p ++ [d]) = resolve dirs i p ≫= fun j => assoc (dirs j) (d ++ [SLASH]).
Proof.
  revert i. induction p as [|c p IH]; intros i; simpl.
  - by destruct (assoc (dirs i) (d ++ [SLASH])).
  - destruct (assoc (dirs i) (c ++ [SLASH])) as [j|]; simpl; [apply IH|done].
Qed.

Lemma resolve_in ds dirs p i :
  tree_ok ds dirs -> Forall dir_ok p -> resolve dirs 0 p = Some i -> i ∈ ds.
Proof.
  intros T. revert i. induction p as [|d p IH] using rev_ind; intros i Hp.
  - intros [= <-]. apply T.
  - apply Forall_app in Hp as [Hp [Hd _]%Forall_cons]. rewrite resolve_snoc.
    destruct (resolve dirs 0 p) as [j|] eqn:Ej; [|done]. cbn [mbind option_bind]. intros Ei.
    apply (t_down _ _ T j d); [by apply IH|done..].
Qed.

(** The entry of the directory leads to where the names lead. *)
Lemma resolve_cd ds dirs p i n :
  tree_ok ds dirs -> Forall dir_ok p -> resolve dirs 0 p = Some i ->
  (dir_ok n \/ n = str "." \/ n = str "..") ->
  resolve dirs 0 (cd_names p n) = assoc (dirs i) (n ++ [SLASH]).
Proof.
  intros T Hp Hi Hn. unfold cd_names. destruct (decide (n = str ".")) as [->|Hne].
  { rewrite Hi. symmetry. apply (t_here _ _ T). by eapply resolve_in. }
  destruct (decide (n = str "..")) as [->|Hnu].
  2:{ by rewrite resolve_snoc, Hi. }
  destruct p as [|d p _] using rev_ind.
  - injection Hi as <-. symmetry. apply T.
  - rewrite removelast_last. apply Forall_app in Hp as [Hp [Hd _]%Forall_cons]. rewrite resolve_snoc in Hi.
    destruct (resolve dirs 0 p) as [j|] eqn:Ej; [|done]. symmetry.
    apply (t_down _ _ T j d i); [by eapply resolve_in|done|exact Hi].
Qed.

Lemma cd_names_ok p n :
  Forall dir_ok p -> (dir_ok n \/ n = str "." \/ n = str "..") -> Forall dir_ok (cd_names p n).
Proof.
  intros Hp Hn. unfold cd_names. case_decide; [done|]. case_decide.
  - destruct p as [|d p _] using rev_ind; [done|]. rewrite removelast_last. by apply Forall_app in Hp as [Hp _].
  - apply Forall_app. split; [done|]. apply Forall_singleton. by destruct Hn as [?|[?|?]].
Qed.

(** The working directory is at the names [p]: its path name and its inode. *)
Record at_names (dirs : Z -> list (list byte * Z)) (p : list (list byte)) (a : application F) : Prop := {
  an_names : Forall dir_ok p;
  an_ino : resolve dirs 0 p = Some (workdir_ino a);
  an_path : holds_string (workdir a) (path p);
  an_size : Z.of_nat (length (workdir a)) = WORKDIR_SIZE;
  an_files : files_ok (files a)
}.

(** C18. [cd] keeps the path name and the inode of the working directory in step,
    in every tree of directories: from the directory at the names [p], [cd n]
    goes to where the names after [cd n] lead (one down, one up for [..], the
    same for [.]), with the path name of these names; when they lead nowhere it
    returns -1 and the working directory stays. *)
Theorem cd_keeps_path ds dirs (a : application F) p n argc argv1 :
  tree_ok ds dirs -> at_names dirs p a -> argc <> 1 ->
  holds_string argv1 n -> Z.of_nat (length argv1) = CMD_ARG_LEN -> Z.of_nat (length n) + 1 < CMD_ARG_LEN ->
  (dir_ok n \/ n = str "." \/ n = str "..") -> name_ok (dirs (workdir_ino a)) (n ++ [SLASH]) ->
  Z.of_nat (length (path (cd_names p n))) < WORKDIR_SIZE ->
  exists v a', cd argc argv1 a = Ok (v, a') /\ printed a' = printed a /\
    match resolve dirs 0 (cd_names p n) with
    | Some _ => v = 0 /\ at_names dirs (cd_names p n) a'
    | None => v = -1 /\ at_names dirs p a'
    end.
Proof.
  intros T [A1 A2 A3 A4 A5] Hargc Hn Hslot Hlen Hd Hok Hpath. unfold cd. rewrite (proj2 (Z.eqb_neq _ _)) by done.
  pose proof (resolve_in ds dirs p _ T A1 A2) as Hin.
  destruct (strcat_ok argv1 n (lit "/") [SLASH] Hn) as (arg & E1 & Harg & Hl1).
  { split; [by apply (bool_decide_eq_true_1 _)|by exists []]. } { simpl. lia. }
  rewrite (bind_ok _ _ _ _ _ (on_strings_ok _ a _ E1)). unfold bind at 1. cbn [get].
  destruct Harg as [Hz [r Er]].
  destruct (lookup_finds (files a) (workdir_ino a) (dirs (workdir_ino a)) (n ++ [SLASH]) r A5) as (f & Hf & E2);
    [by apply T|done|]. rewrite <- Er in E2.
  rewrite (bind_ok _ _ _ _ _ (on_files_ok _ a _ _ E2)), (resolve_cd ds dirs p _ n T A1 A2 Hd).
  destruct (assoc (dirs (workdir_ino a)) (n ++ [SLASH])) as [ino|] eqn:Ea.
  2:{ exists (-1), (set_files f a). split; [done|]. split; [done|]. by split. }
  pose proof (assoc_range _ _ _ (id_entries _ _ (t_dir _ _ T _ Hin)) Ea) as Hr.
  change (default (-1) (Some ino)) with ino. rewrite (proj2 (Z.eqb_neq ino (-1))) by lia. unfold bind at 1. cbn [modify]. unfold bind at 1. cbn [get].
  change (workdir (set_workdir_ino ino (set_files f a))) with (workdir a).
  destruct (new_workdir_ok (workdir a) arg p n A3) as (w & E3 & Hw & Hlw); 
    [split; [done|by exists r]|done|done|lia|by rewrite A4|by rewrite Hl1, Hslot|].
  rewrite (bind_ok _ _ _ _ _ (on_strings_ok _ _ _ E3)). unfold bind at 1. cbn [modify ret].
  eexists 0, _. split; [reflexivity|]. split; [done|]. split; [done|]. split; [by apply cd_names_ok| |done| |done].
  - by rewrite (resolve_cd ds dirs p _ n T A1 A2 Hd).
  - cbn [workdir set_workdir]. by rewrite Hlw.
Qed.

(** [cd] without an argument goes to the home directory, with its path name. *)
Lemma cd_home ds dirs (a : application F) p argv1 ino :
  tree_ok ds dirs -> at_names dirs p a -> resolve dirs 0 [str "home"; str "yunhao"] = Some ino ->
  (forall i, i ∈ ds -> name_ok (dirs i) (str "home/") /\ name_ok (dirs i) (str "yunhao/")) ->
  exists a', cd 1 argv1 a = Ok (0, a') /\ at_names dirs [str "home"; str "yunhao"] a'.
Proof.
  intros T [A1 A2 A3 A4 A5] Hres Hok. unfold cd. cbn [Z.eqb Pos.eqb].
  assert (Forall dir_ok [str "home"; str "yunhao"]) as Hp.
  { repeat constructor; by apply (bool_decide_eq_true_1 _). }
  change (resolve dirs 0 ([str "home"] ++ [str "yunhao"]) = Some ino) in Hres. rewrite resolve_snoc in Hres.
  destruct (resolve dirs 0 [str "home"]) as [j|] eqn:Ej; [|done]. change (assoc (dirs j) (str "yunhao/") = Some ino) in Hres.
  assert (j ∈ ds) as Hj by (eapply resolve_in; [done| |done]; by apply Forall_cons in Hp as [? _]; apply Forall_singleton).
  assert (assoc (dirs 0) (str "home/") = Some j) as Eh.
  { change ((assoc (dirs 0) (str "home/") ≫= fun j => Some j) = Some j) in Ej. by destruct (assoc (dirs 0) (str "home/")). }
  destruct (lookup_finds (files a) 0 (dirs 0) (str "home/") [] A5) as (f & Hf & E1); [apply T, T|apply Hok, T|].
  rewrite (bind_ok _ _ _ _ _ (on_files_ok _ a _ _ E1)), Eh. change (default (-1) (Some j)) with j.
  destruct (lookup_finds f j (dirs j) (str "yunhao/") [] Hf) as (f' & Hf' & E2); [by apply T|by apply Hok|].
  rewrite (bind_ok _ _ _ _ _ (on_files_ok _ (set_files f a) _ _ E2)), Hres. change (default (-1) (Some ino)) with ino.
  unfold bind at 1. cbn [modify]. unfold bind at 1. cbn [get].
  destruct (strcpy_ok (workdir a) (lit "/home/yunhao") (str "/home/yunhao")) as (w & E3 & Hw & Hl).
  { split; [by apply (bool_decide_eq_true_1 _)|by exists []]. } { unfold WORKDIR_SIZE in A4. simpl. lia. }
  change (workdir (set_workdir_ino ino (set_files f' (set_files f a)))) with (workdir a).
  rewrite (bind_ok _ _ _ _ _ (on_strings_ok _ _ _ E3)). unfold bind at 1. cbn [modify ret].
  eexists. split; [reflexivity|]. split; [done| |exact Hw|cbn [workdir set_workdir]; lia|done].
  change [str "home"; str "yunhao"] with ([str "home"] ++ [str "yunhao"]). by rewrite resolve_snoc, Ej.
Qed.

(** ** The other applications *)

(** [ls] prints the names in the working directory, each followed by five
    spaces: the inode numbers and the spaces in front of them are blanked, for
    names that do not start with a digit. *)
Theorem ls_lists_names (a : application F) es :
  files_ok (files a) -> is_dir (workdir_ino a) es -> Forall no_digit es -> es <> [] ->
  exists a', ls 1 a = Ok (0, a') /\ printed a' = printed a ++ (es ≫= listed) ++ CRLF /\
    workdir a' = workdir a /\ workdir_ino a' = workdir_ino a /\ files_ok (files a').
Proof.
  intros Hf [[k Hb] He Hi] Hd Hne. unfold ls. cbn [Z.ltb Z.compare Pos.compare Pos.compare_cont]. unfold bind at 1. cbn [get].
  destruct (read_first (files a) (workdir_ino a) _ Hf Hi Hb) as (f & Hf' & E1).
  rewrite (bind_ok _ _ _ _ _ (on_files_ok _ a _ _ E1)).
  rewrite (bind_ok _ _ _ _ _ (on_strings_ok _ _ _ (ls_dir es k He Hd Hne))).
  assert (x00 ∉ es ≫= listed) as Hz.
  { intros (e & Hin & Hel)%list_elem_of_bind. rewrite Forall_forall in He. destruct (He e Hel) as [(_ & H1 & _) _].
    unfold listed in Hin. apply elem_of_app in Hin as [?|Hin]; [done|]. by apply elem_of_replicate in Hin as [? _]. }
  assert (holds_string ((es ≫= listed) ++ replicate (Datatypes.S k) x00) (es ≫= listed)) as Hs
    by (split; [exact Hz|by exists (replicate k x00)]).
  rewrite (bind_ok _ _ _ _ _ (print_string_ok _ _ _ Hs)).
  unfold bind. cbn [print modify ret]. eexists. split; [reflexivity|]. split; [|done].
  cbn [printed add_printed set_files]. by rewrite <- app_assoc.
Qed.

(** [cat] prints the text in the first block of a file of the working
    directory, and ends the line when the text does not. *)
Theorem cat_prints_text (a : application F) es argc argv1 n ino text r :
  files_ok (files a) -> is_dir (workdir_ino a) es -> argc <> 1 -> holds_string argv1 n -> name_ok es n ->
  assoc es n = Some ino -> block_of ino = Some (text ++ x00 :: r) -> x00 ∉ text -> text <> [] ->
  exists a', cat argc argv1 a = Ok (0, a') /\
    printed a' = printed a ++ text ++ (if decide (last text = Some x0a) then [] else CRLF).
Proof.
  intros Hf Hdir Hargc [Hz [t Et]] Hn Ha Hb Htz Hte. unfold cat. rewrite (proj2 (Z.eqb_neq _ _)) by done.
  unfold bind at 1. cbn [get].
  destruct (lookup_finds (files a) (workdir_ino a) es n t Hf Hdir Hn) as (f & Hf' & E1). rewrite <- Et, Ha in E1.
  rewrite (bind_ok _ _ _ _ _ (on_files_ok _ a _ _ E1)). change (default (-1) (Some ino)) with ino.
  pose proof (assoc_range _ _ _ (id_entries _ _ Hdir) Ha) as Hr. rewrite (proj2 (Z.ltb_ge _ _)) by lia.
  destruct (read_first f ino _ Hf' ltac:(unfold is_u32; lia) Hb) as (f2 & Hf2 & E2).
  rewrite (bind_ok _ _ _ _ _ (on_files_ok _ (set_files f a) _ _ E2)).
  assert (holds_string (text ++ x00 :: r) text) as Hs by (split; [done|by exists r]).
  rewrite (bind_ok _ _ _ _ _ (print_string_ok _ _ _ Hs)).
  rewrite (bind_ok _ _ _ _ _ (on_strings_ok _ _ _ (holds_strlen _ _ Hs))).
  destruct text as [|c text _] using rev_ind; [done|]. rewrite last_snoc.
  assert (char_at ((text ++ [c]) ++ x00 :: r) (Z.of_nat (length (text ++ [c])) - 1) tt = Ok (c, tt)) as E3.
  { rewrite <- app_assoc, length_app. simpl (length [c]).
    replace (Z.of_nat (length text + 1) - 1) with (Z.of_nat (length text)) by lia. apply char_at_mid. }
  rewrite (bind_ok _ _ _ _ _ (on_strings_ok _ _ _ E3)).
  destruct (decide (c = x0a)) as [->|Hc].
  - rewrite decide_False, decide_True by (done || tauto). unfold bind. cbn [ret]. eexists. split; [reflexivity|].
    cbn [printed add_printed set_files]. by rewrite app_nil_r.
  - rewrite decide_True, decide_False by (done || congruence). unfold bind. cbn [print modify ret]. eexists. split; [reflexivity|].
    cbn [printed add_printed set_files]. by rewrite <- app_assoc.
Qed.
End theorems.
