(* ===== verification/UserExample.v ===== *)
(** The servers of Servers.v on a disk keep the promises that the user
    applications rely on, and a disk that tools/mkfs.c made, on which the theorems
    of UserTheorems.v apply. *)

From Stdlib Require Import ZArith Lia Strings.Byte.
From stdpp Require Import base numbers list strings gmap.
From S2P Require Import Prelude Bytes Earth Kernel InodeStore Treedisk TreediskSpec Elf FsDisk Dir DirProof Servers ServerProof.
From S2P Require Import Mkfs MkfsProof Log DiskTheorems AppTheorems UserApps UserProof UserTheorems.

Section disk.
Context {D : Type} `{DiskLaws D} (ts : treedisk_state) (junk : block).
Context (room : GRASS_FS_START + 4096 <= disk_size D).
(** The calls of the directory server and of the file server. *)
Context (k1 k2 : Z -> call) (k1_ok : forall i, call_ok (k1 i) GPID_DIR) (k2_ok : forall i, call_ok (k2 i) GPID_FILE).
Context (fs : gmap Z block) (G : list Z) (inv : fs_inv 4096 fs G).

Definition disk_calls : FileCalls D := {|
  c_dir_lookup dir name := dir_lookup (IS := fs_disk_init) ts junk (k1 dir) (k2 dir) dir name;
  c_file_read ino off := file_read (IS := fs_disk_init) ts junk (k2 ino) ino off
|}.

Definition first_block (ino : Z) : option (list byte) := fs_of fs !! Z.to_nat ino ≫= lookup 0%nat.

Definition disk_servers : FileServers (H := disk_calls) first_block.
Proof.
  refine {| files_ok := (fun d => fs_part d = fs) : D -> Prop |}.
  - intros d dir es n r Hfs [[k Hb] He Hi] [N1 N2 N3 N4].
    destruct (dir_lookup_call (IS := fs_disk_init) (LAWS := fs_disk_laws room (below_ino ts)) ts junk d
      (k1 dir) (k2 dir) dir n r es k G) as (d' & ED & E); [by rewrite fs_disk_store, Hfs|apply k1_ok|apply k2_ok|done| |done..|].
    { unfold fs_lookup. by rewrite fs_disk_store, Hfs. }
    exists d'. rewrite !fs_disk_store in ED. split; [congruence|]. exact E.
  - intros d ino b Hfs Hi Hb.
    destruct (file_read_ok (IS := fs_disk_init) (LAWS := fs_disk_laws room (below_ino ts)) ts junk d (k2 ino) ino 0 G)
      as (d' & b' & ED & E & _ & Hbb); [by rewrite fs_disk_store, Hfs|apply k2_ok|done|done|].
    assert (fs_lookup (IS := fs_disk_init) (LAWS := fs_disk_laws room (below_ino ts)) ts d ino 0 = Some b) as Hl.
    { unfold fs_lookup. by rewrite fs_disk_store, Hfs. }
    rewrite (Hbb b Hl), Hl in E. exists d'. rewrite !fs_disk_store in ED. split; [congruence|]. exact E.
Defined.
End disk.

(** ** The directories of tools/mkfs.c *)

Definition home_entries : list (list byte * Z) :=
  [(str "./", 1); (str "../", 0); (str "yunhao/", 2); (str "rvr/", 3); (str "lorenzo/", 4)].
Definition yunhao_entries : list (list byte * Z) := [(str "./", 2); (str "../", 1); (str "README", 5)].
Definition image_bin_entries : list (list byte * Z) :=
  [(str "./", 6); (str "../", 0); (str "echo", 7); (str "cat", 8); (str "ls", 9); (str "cd", 10); (str "pwd", 11);
   (str "clock", 12); (str "crash1", 13); (str "crash2", 14); (str "ult", 15)].
Definition image_dirs (i : Z) : list (list byte * Z) :=
  if i =? 0 then root_entries else if i =? 1 then home_entries else if i =? 2 then yunhao_entries
  else if i =? 6 then image_bin_entries else [(str "./", i); (str "../", 1)].
Definition image_ds : list Z := [0; 1; 2; 3; 4; 6].

Lemma assoc_in es n j : assoc es n = Some j -> (n, j) ∈ es.
Proof.
  unfold assoc. destruct (list_find _ es) as [[i e]|] eqn:Ef; [|done]. intros [= <-].
  apply list_find_Some in Ef as (Hi & <- & _). destruct e. by eapply list_elem_of_lookup_2.
Qed.

(** An entry of directory [i]: itself, the one above, a file, or a directory
    that leads back. *)
Definition entry_back (i : Z) (e : list byte * Z) : Prop :=
  e.1 = str "./" \/ e.1 = str "../" \/ last e.1 <> Some SLASH \/
  (e.2 ∈ image_ds /\ assoc (image_dirs e.2) (str "../") = Some i).

Lemma image_back : Forall (fun i => Forall (entry_back i) (image_dirs i)) image_ds.
Proof. unfold entry_back. apply (bool_decide_eq_true_1 _). vm_compute. reflexivity. Qed.

Lemma image_down i n j :
  i ∈ image_ds -> dir_ok n -> assoc (image_dirs i) (n ++ [SLASH]) = Some j ->
  j ∈ image_ds /\ assoc (image_dirs j) (str "../") = Some i.
Proof.
  intros Hi Hn Ha%assoc_in. pose proof image_back as Hb. rewrite Forall_forall in Hb. specialize (Hb i Hi).
  rewrite Forall_forall in Hb. destruct (Hb _ Ha) as [He|[He|[He|He]]]; cbn [fst snd] in He; [| | |exact He].
  - destruct (do_here _ Hn). exact (proj1 (app_inj_tail n (str ".") _ _ He)).
  - destruct (do_up _ Hn). exact (proj1 (app_inj_tail n (str "..") _ _ He)).
  - by rewrite last_snoc in He.
Qed.

Lemma image_tree fs :
  fs_of fs = mkfs_files exe1 contents buf0 ++ replicate 112 [] -> tree_ok (first_block fs) image_ds image_dirs.
Proof.
  intros Hfs. split; [|apply (bool_decide_eq_true_1 _); reflexivity|reflexivity| |exact image_down].
  - intros i Hi. unfold image_ds in Hi.
    assert (exists k, first_block fs i = Some (dir_text (image_dirs i) ++ replicate (S k) x00)) as Hb.
    { exists (511 - length (dir_text (image_dirs i)))%nat. unfold first_block. rewrite Hfs.
      repeat (apply elem_of_cons in Hi as [->|Hi]; [vm_compute; reflexivity|]). by apply elem_of_nil in Hi. }
    split; [exact Hb| |].
    + unfold entry_ok, word_ok. repeat (apply elem_of_cons in Hi as [->|Hi]; [apply (bool_decide_eq_true_1 _); vm_compute; reflexivity|]).
      by apply elem_of_nil in Hi.
    + repeat (apply elem_of_cons in Hi as [->|Hi]; [split; [lia|reflexivity]|]). by apply elem_of_nil in Hi.
  - intros i Hi. repeat (apply elem_of_cons in Hi as [->|Hi]; [reflexivity|]). by apply elem_of_nil in Hi.
Qed.

(** A card with the files. *)
Lemma image_card :
  exists d G, mkfs (IS := fs_disk_init (H := card_ops)) ts1 null_block exe1 buf0 card0 = Ok (tt, d) /\
    fs_inv 4096 (fs_part (H := card_ops) (H0 := card_laws) d) G /\
    fs_of (fs_part (H := card_ops) (H0 := card_laws) d) = mkfs_files exe1 contents buf0 ++ replicate 112 [].
Proof.
  destruct (mkfs_ok (IS := fs_disk_init (H := card_ops)) (LAWS := fs_disk_laws (H := card_ops) (H0 := card_laws) card_room 0)
    ts1 null_block exe1 buf0 card0) as (d & G & E & I & Hfs).
  - exact null_block_ok.
  - apply fs_disk_size.
  - rewrite fs_disk_store. apply card0_fresh.
  - apply buf0_length.
  - apply exe1_ok.
  - rewrite fs_disk_store in Hfs. exists d, G. split; [exact E|]. split; [exact I|exact Hfs].
Qed.

Definition kd (i : Z) : call := call0 GPID_DIR.
Definition kf (i : Z) : call := call0 GPID_FILE.
#[local] Instance card_calls : FileCalls card_disk := disk_calls (H := card_ops) ts1 null_block kd kf.
Definition card_servers fs G (I : fs_inv 4096 fs G) : FileServers (first_block fs) :=
  disk_servers (H := card_ops) (H0 := card_laws) ts1 null_block card_room kd kf
    (fun _ => call0_ok GPID_DIR) (fun _ => call0_ok GPID_FILE) fs G I.

(** An argument in its slot of 32 bytes. *)
Definition slot (s : string) : list byte := str s ++ replicate (32 - length (str s)) x00.

(** The working directory [/home]. *)
Definition at_home (d : card_disk) : application card_disk :=
  {| workdir_ino := 1; workdir := str "/home" ++ replicate 123 x00; printed := []; files := d |}.

Lemma cd_keeps_path_witness :
  exists d a', mkfs (IS := fs_disk_init (H := card_ops)) ts1 null_block exe1 buf0 card0 = Ok (tt, d) /\
    cd 2 (slot "yunhao") (at_home d) = Ok (0, a') /\ workdir_ino a' = 2 /\
    take 13 (workdir a') = str "/home/yunhao" ++ [x00].
Proof.
  destruct image_card as (d & G & E & I & Hfs).
  destruct (cd_keeps_path (first_block (fs_part (H := card_ops) (H0 := card_laws) d)) (FS := card_servers _ G I)
    image_ds image_dirs (at_home d) [str "home"] (str "yunhao") 2 (slot "yunhao")) as (v & a' & Ec & _ & Hv & Ha).
  - exact (image_tree _ Hfs).
  - split; [|reflexivity| |reflexivity|reflexivity].
    + repeat constructor; apply (bool_decide_eq_true_1 _); reflexivity.
    + split; [apply (bool_decide_eq_true_1 _); reflexivity|]. exists (replicate 122 x00). reflexivity.
  - intros Hx. discriminate Hx.
  - split; [apply (bool_decide_eq_true_1 _); reflexivity|]. exists (replicate 25 x00). reflexivity.
  - reflexivity.
  - reflexivity.
  - left. repeat constructor; apply (bool_decide_eq_true_1 _); reflexivity.
  - split; [unfold word_ok; apply (bool_decide_eq_true_1 _); reflexivity|reflexivity|apply Nat.leb_le; reflexivity|].
    apply (bool_decide_eq_true_1 _). reflexivity.
  - reflexivity.
  - exists d, a'. split; [exact E|]. rewrite <- Hv. split; [exact Ec|]. destruct Ha as [_ Hi [_ [r Hr]] _ _]. split.
    + injection Hi as Hi. symmetry. exact Hi.
    + rewrite Hr. reflexivity.
Defined.

Lemma ls_lists_names_witness :
  exists d a', mkfs (IS := fs_disk_init (H := card_ops)) ts1 null_block exe1 buf0 card0 = Ok (tt, d) /\
    ls 1 (at_home d) = Ok (0, a') /\ printed a' = str "./     ../     yunhao/     rvr/     lorenzo/     " ++ CRLF.
Proof.
  destruct image_card as (d & G & E & I & Hfs).
  destruct (ls_lists_names (first_block (fs_part (H := card_ops) (H0 := card_laws) d)) (FS := card_servers _ G I)
    (at_home d) home_entries) as (a' & El & Hp & _).
  - reflexivity.
  - apply (t_dir _ _ _ (image_tree _ Hfs) 1). apply (bool_decide_eq_true_1 _). reflexivity.
  - repeat constructor.
  - intros Hx. discriminate Hx.
  - exists d, a'. split; [exact E|]. split; [exact El|]. rewrite Hp. reflexivity.
Defined.

(** The README in the home directory. *)
Lemma cat_prints_text_witness :
  exists d a', mkfs (IS := fs_disk_init (H := card_ops)) ts1 null_block exe1 buf0 card0 = Ok (tt, d) /\
    cat 2 (slot "README") {| workdir_ino := 2; workdir := []; printed := []; files := d |} = Ok (0, a') /\
    printed a' = default [] (contents !! 5%nat) ++ CRLF.
Proof.
  destruct image_card as (d & G & E & I & Hfs).
  destruct (cat_prints_text (first_block (fs_part (H := card_ops) (H0 := card_laws) d)) (FS := card_servers _ G I)
    {| workdir_ino := 2; workdir := []; printed := []; files := d |} yunhao_entries 2 (slot "README") (str "README") 5
    (default [] (contents !! 5%nat)) (replicate (511 - length (default [] (contents !! 5%nat))) x00)) as (a' & Ec & Hp).
  - reflexivity.
  - apply (t_dir _ _ _ (image_tree _ Hfs) 2). apply (bool_decide_eq_true_1 _). reflexivity.
  - intros Hx. discriminate Hx.
  - split; [apply (bool_decide_eq_true_1 _); reflexivity|]. exists (replicate 25 x00). reflexivity.
  - split; [unfold word_ok; apply (bool_decide_eq_true_1 _); reflexivity|reflexivity|apply Nat.leb_le; reflexivity|].
    apply (bool_decide_eq_true_1 _). reflexivity.
  - reflexivity.
  - unfold first_block. rewrite Hfs. vm_compute. reflexivity.
  - apply (bool_decide_eq_true_1 _). vm_compute. reflexivity.
  - intros Hx. discriminate Hx.
  - exists d, a'. split; [exact E|]. split; [exact Ec|]. rewrite Hp. reflexivity.
Defined.
