(* ===== verification/LogTheorems.v ===== *)
(** The theorems on what the system prints: a line of the log reaches the serial
    line whole, the formats of the sources get the arguments they need, and the
    lines of the clock. *)

From Stdlib Require Import ZArith Lia.
From Stdlib Require Import Strings.Byte.
From stdpp Require Import base numbers list strings.
From S2P Require Import Prelude Bytes Earth Bus Tty Devices EarthTheorems Dir DirProof Mkfs Log UserApps UserProof UserTheorems.

Local Open Scope egos_scope.

(** C24. Every log function writes its text to the UART, between its prefix and
    its suffix and after what was printed before, in order and with nothing left
    in the buffer of the C library: [tty_printf] because it flushes, the others
    because they end the line ([ready] sends whole lines).  [tty_fatal] has
    printed its message when it starts to wait, and it never returns. *)
Theorem log_reaches_uart {B : Type} (p : platform_t) `{UartLaws B (UART0_BASE p)}
    fuel (ready : list byte -> nat) fmt args l (s : stdio B) :
  (busy_max < fuel)%nat -> (forall b, length b < ready (b ++ [x0a]))%nat ->
  format_text Text fmt args tt = Ok (l, tt) ->
  prints p (tty_printf p fuel ready fmt args) s l /\
  prints p (tty_info p fuel ready fmt args) s (str "[INFO] " ++ l ++ CRLF) /\
  prints p (tty_success p fuel ready fmt args) s (ESC "[1;32m[SUCCESS] " ++ l ++ ESC "[1;0m" ++ CRLF) /\
  prints p (tty_critical p fuel ready fmt args) s (ESC "[1;33m[CRITICAL] " ++ l ++ ESC "[1;0m" ++ CRLF) /\
  prints p (LOG p fuel ready (ESC "[1;31m[FATAL] ") (ESC "[1;0m" ++ CRLF) fmt args) s
    (ESC "[1;31m[FATAL] " ++ l ++ ESC "[1;0m" ++ CRLF) /\
  forall n, tty_fatal p fuel ready n fmt args s = NoFuel.
Proof.
  intros Hf Hr El.
  assert (forall x y, x25 ∉ x -> x25 ∉ y -> (exists y', y = y' ++ [x0a]) ->
    prints p (LOG p fuel ready x y fmt args) s (x ++ l ++ y)) as Hlog.
  { intros x y Hx Hy Hn. destruct (LOG_ok p fuel Hf ready x y fmt args l s Hx Hy El) as (s' & A & D).
    exact (adds_prints p _ _ _ _ A (D Hr Hn)). }
  assert (forall c, x25 ∉ ESC c -> prints p (LOG p fuel ready (ESC c) (ESC "[1;0m" ++ CRLF) fmt args) s
    (ESC c ++ l ++ ESC "[1;0m" ++ CRLF)) as Hcol.
  { intros c Hc. apply Hlog; [done|by apply (bool_decide_eq_true_1 _)|]. by exists (ESC "[1;0m" ++ [x0d]). }
  split; [exact (tty_printf_ok p fuel Hf ready fmt args l s El)|].
  split; [apply Hlog; [by apply (bool_decide_eq_true_1 _)..|by exists [x0d]]|].
  split; [apply Hcol; by apply (bool_decide_eq_true_1 _)|].
  split; [apply Hcol; by apply (bool_decide_eq_true_1 _)|].
  split; [apply Hcol; by apply (bool_decide_eq_true_1 _)|].
  intros n. destruct (Hcol "[1;31m[FATAL] ") as (s' & E & _); [by apply (bool_decide_eq_true_1 _)|].
  unfold tty_fatal. rewrite (bind_ok _ _ _ _ _ E). apply spin_never.
Qed.

(** ** The calls of the sources *)

(** A format and the kinds of the arguments that its call gives. *)
Definition logged : list (list byte * list kind) := [
  (str "SD card not responding cmd%d", [KInt]);                                    (* sd/sd_utils.c *)
  (str "Set SPI clock frequency to %ldHz", [KInt]);
  (str "SD card replies cmd8 with status 0x%.2x and payload 0x%.8x", [KInt; KInt]);
  (str "SD card replies cmd58 with payload 0x%.8x", [KInt]);
  (str "SD card replies cmd17 with status 0x%.2x", [KInt]);                        (* sd/sd_rw.c *)
  (str "SD card replies cmd24 with status %.2x", [KInt]);
  (str "SD card write ack with status 0x%.2x", [KInt]);
  (str "--- Booting on %s ---", [KStr]);                                           (* earth.c *)
  (str "%s translation is chosen", [KStr]);                                        (* cpu_mmu.c *)
  (str "%s is chosen", [KStr]);                                                    (* dev_disk.c *)
  (str "%c", [KInt]);                                                              (* dev_tty.c *)
  (str "!!TDERR: inode number too large %u %u" ++ [x0a], [KInt; KInt]);            (* file.c *)
  (str "Grass kernel file size: 0x%.8x bytes", [KInt]);                            (* elf.c *)
  (str "Grass kernel memory size: 0x%.8x bytes", [KInt]);
  (str "App file size: 0x%.8x bytes", [KInt]);
  (str "App memory size: 0x%.8x bytes", [KInt]);
  (str "elf_load: Invalid p_vaddr: 0x%.8x", [KInt]);
  (str "Load kernel process #%d: sys_proc", [KInt]);                               (* grass.c *)
  (str "excp_entry: kernel got exception %d", [KInt]);                             (* kernel.c *)
  (str "process %d killed by interrupt", [KInt]);
  (str "proc_syscall: got unknown syscall type=%d", [KInt]);
  (str "proc_alloc: reach the limit of %d processes", [KInt]);                     (* process.c *)
  (str "%s: got '%s'" ++ [x0a], [KStr; KStr]);                                     (* ult.c *)
  (str "clock: tick#%d / #%d" ++ CRLF, [KInt; KInt]);                              (* clock.c *)
  (str "%s" ++ CRLF, [KStr]);                                                      (* ls.c, pwd.c *)
  (str "%s ", [KStr]);                                                             (* echo.c *)
  (str "%s", [KStr]);                                                              (* cat.c *)
  (str "cat: file %s not found", [KStr]);
  (str "cd: directory %s not found", [KStr]);                                      (* cd.c *)
  (str "sys_proc receives: %s", [KStr]);                                           (* sys_proc.c *)
  (str "process %d running in the background", [KInt]);
  (str "background process %d terminated", [KInt]);
  (str "sys_proc: invalid request %d", [KInt]);
  (str "Load kernel process #%d: %s", [KInt; KStr]);
  (str "sys_file: request%d not implemented", [KInt]);                             (* sys_file.c *)
  (str "sys_dir: request%d not implemented", [KInt]);                              (* sys_dir.c *)
  (ESC "[1;32m" ++ [xe2; x9e; x9c; x20] ++ ESC "[1;36m%s" ++ ESC "[1;0m ", [KStr])   (* sys_shell.c *)
].

Lemma logged_kinds : Forall (fun c => format_kinds Text c.1 = Some c.2) logged.
Proof. repeat constructor. Qed.

(** Every call gives its format what it needs, so no call is undefined. *)
Theorem logged_formats_safe fmt ks args :
  (fmt, ks) ∈ logged -> Forall2 of_kind args ks -> exists l, format_text Text fmt args tt = Ok (l, tt).
Proof.
  intros Hin Ha. pose proof logged_kinds as Hk. rewrite Forall_forall in Hk.
  exact (format_text_ok fmt Text args ks (Hk _ Hin) Ha).
Qed.

(** ** The clock *)

(** The line of tick [i] of [cnt]. *)
Definition tick_line (cnt i : Z) : list byte :=
  str "clock: tick#" ++ decimal i ++ str " / #" ++ decimal cnt ++ CRLF.

Lemma tick_text a b :
  format_text Text (str "clock: tick#%d / #%d" ++ CRLF) [Int a; Int b] tt = Ok (tick_line (s32 b) (s32 a), tt).
Proof. reflexivity. Qed.

(** [clock] with a number reads it back and prints that many lines, numbered from 1. *)
Theorem clock_ticks {F} `{FileCalls F} (a : application F) argc cnt r :
  0 <= cnt < 2 ^ 31 - 1 -> argc <> 1 ->
  clock argc (decimal cnt ++ x00 :: r) a =
  Ok (0, add_printed (seqZ 1 cnt ≫= tick_line cnt) a).
Proof.
  intros Hc Ha. unfold clock. rewrite (proj2 (Z.eqb_neq _ _)) by done.
  rewrite (bind_ok _ _ _ _ _ (on_strings_ok _ _ _ (decimal_atoi cnt x00 r ltac:(lia) eq_refl))).
  rewrite u32_small by (unfold is_u32; lia).
  destruct (for_n_inv (fun i s => s = add_printed (seqZ 1 i ≫= tick_line cnt) a)
    (Z.to_nat cnt) 0 (fun i => tick i cnt) a) as (s' & E & Es).
  - intros i s Hi ->. eexists. split.
    + unfold tick, printf. rewrite (bind_ok _ _ _ _ _ (on_strings_ok _ _ _ (tick_text _ _))). reflexivity.
    + rewrite !s32_small by lia. unfold add_printed. cbn [workdir_ino workdir printed files].
      assert (seqZ (1 + i) 1 = [1 + i]) as Es by (rewrite seqZ_cons, seqZ_nil by lia; done).
      rewrite (seqZ_app 1 i 1), bind_app, Es by lia. cbn [mbind list_bind].
      rewrite <- app_assoc, app_nil_r, (Z.add_comm 1 i). done.
  - unfold add_printed. destruct a. cbn. by rewrite app_nil_r.
  - rewrite (bind_ok _ _ _ _ _ E), Es, Z2Nat.id by lia. done.
Qed.

(** ** A witness *)

(** A board whose UART is ready, and a C library that sends its buffer at once. *)
Lemma log_reaches_uart_witness :
  prints QEMU_LATEST
    (tty_info QEMU_LATEST 20 (@length byte) (str "process %d killed by interrupt") [Int 7])
    {| stdout := []; device := typing |} (str "[INFO] process 7 killed by interrupt" ++ CRLF).
Proof.
  destruct (log_reaches_uart QEMU_LATEST 20 (@length byte) (str "process %d killed by interrupt") [Int 7]
    (str "process 7 killed by interrupt") {| stdout := []; device := typing |}) as (_ & H1 & _).
  - vm_compute. repeat constructor.
  - intros b. rewrite length_app. simpl. lia.
  - vm_compute. reflexivity.
  - exact H1.
Defined.
