(* ===== verification/Ult.v ===== *)
(** The producers and consumers of apps/user/ult.c.  The functions on threads and
    semaphores are an exercise, with empty bodies: the semaphores are a class
    here, with the laws that the exercise asks for, and every thread runs from
    one [sema_dec] to the next without a switch, as user-level threads do.  The
    ring of slots is then a queue, in any order of the threads. *)

From Stdlib Require Import ZArith Lia.
From stdpp Require Import base numbers list.
From S2P Require Import Prelude Bytes.

(** A counting semaphore; [sema_dec] is [None] when the thread has to wait. *)
Class Semaphore (T : Type) := {
  sema_init : Z -> T;
  sema_inc : T -> T;
  sema_dec : T -> option T;
  sema_count : T -> Z
}.
Class SemaphoreLaws (T : Type) `{Semaphore T} := {
  count_init n : 0 <= n -> sema_count (sema_init n) = n;
  count_inc s : sema_count (sema_inc s) = sema_count s + 1;
  count_dec s s' : sema_dec s = Some s' -> sema_count s' = sema_count s - 1;
  dec_waits s : sema_dec s = None <-> sema_count s <= 0
}.

Definition NSLOTS : Z := 3.

Section ult.
Context {T A : Type} `{Semaphore T}.

(** The static variables; [None] is a null pointer. *)
Record buffer := { slots : list (option A); in_ : Z; out : Z; s_empty : T; s_full : T }.

Definition initial : buffer :=
  {| slots := replicate (Z.to_nat NSLOTS) None; in_ := 0; out := 0; s_empty := sema_init NSLOTS; s_full := sema_init 0 |}.

(** [slots[in++] = arg; if (in == NSLOTS) in = 0], between the semaphores. *)
Definition producer (arg : A) (b : buffer) : option buffer :=
  e ← sema_dec (s_empty b);
  let i := in_ b + 1 in
  Some {| slots := <[Z.to_nat (in_ b) := Some arg]> (slots b);
          in_ := if i =? NSLOTS then 0 else i; out := out b;
          s_empty := e; s_full := sema_inc (s_full b) |}.

(** [x = slots[out++]; if (out == NSLOTS) out = 0]: the value of [x]. *)
Definition consumer (b : buffer) : option (option A * buffer) :=
  f ← sema_dec (s_full b);
  let x := default None (slots b !! Z.to_nat (out b)) in
  let o := out b + 1 in
  Some (x, {| slots := slots b; in_ := in_ b; out := if o =? NSLOTS then 0 else o;
              s_empty := sema_inc (s_empty b); s_full := f |}).

(** The rounds of the threads, in the order in which they run. *)
Inductive round := Put (a : A) | Get.
Fixpoint rounds (l : list round) (b : buffer) : option (list (option A) * buffer) :=
  match l with
  | [] => Some ([], b)
  | Put a :: l' => b' ← producer a b; rounds l' b'
  | Get :: l' => '(x, b') ← consumer b; '(xs, b'') ← rounds l' b'; Some (x :: xs, b'')
  end.

Definition put_values (l : list round) : list A := omap (fun r => match r with Put a => Some a | Get => None end) l.

(** ** The queue *)

Context `{!SemaphoreLaws T}.

(** The items in the ring, from [out] on. *)
Record holds (b : buffer) (q : list A) : Prop := {
  ho_len : length (slots b) = 3%nat;
  ho_out : 0 <= out b < 3;
  ho_size : (length q <= 3)%nat;
  ho_in : in_ b = (out b + Z.of_nat (length q)) mod 3;
  ho_full : sema_count (s_full b) = Z.of_nat (length q);
  ho_empty : sema_count (s_empty b) = 3 - Z.of_nat (length q);
  ho_item i a : q !! i = Some a -> slots b !! Z.to_nat ((out b + Z.of_nat i) mod 3) = Some (Some a)
}.

Lemma holds_initial : holds initial [].
Proof.
  split; cbn; try done; try lia.
  - by rewrite count_init.
  - by rewrite count_init.
Qed.

Lemma wrap o k : 0 <= o < 3 -> 0 <= k <= 3 -> (o + k) mod 3 = if o + k <? 3 then o + k else if o + k <? 6 then o + k - 3 else 0.
Proof.
  intros Ho Hk. destruct (Z.ltb_spec (o + k) 3); [apply Z.mod_small; lia|].
  destruct (Z.ltb_spec (o + k) 6); [|lia]. rewrite <- (Z_mod_plus_full _ (-1)). apply Z.mod_small. lia.
Qed.

Ltac wrap_lia :=
  repeat match goal with
  | |- context [?a <? ?b] => destruct (Z.ltb_spec a b)
  | |- context [?a =? ?b] => destruct (Z.eqb_spec a b)
  end; lia.

(** A producer adds at the end, exactly when there is room. *)
Lemma producer_ok b q a :
  holds b q ->
  match producer a b with
  | Some b' => (length q < 3)%nat /\ holds b' (q ++ [a])
  | None => length q = 3%nat
  end.
Proof.
  intros [H1 H2 H3 H4 H5 H6 H7]. unfold producer. destruct (sema_dec (s_empty b)) as [e|] eqn:Ed; cbn [mbind option_bind].
  - assert (length q < 3)%nat as Hlt.
    { destruct (decide (length q = 3)%nat); [|lia]. assert (sema_dec (s_empty b) = None) by (apply dec_waits; lia). congruence. }
    apply count_dec in Ed. split; [done|]. pose proof (wrap (out b) (Z.of_nat (length q)) H2 ltac:(lia)) as Hw.
    split; cbn [slots in_ out s_empty s_full]; rewrite ?length_insert, ?length_app; cbn [length]; try done; try lia.
    + rewrite H4, Nat2Z.inj_add. pose proof (wrap (out b) (Z.of_nat (length q) + 1) H2 ltac:(lia)) as Hw'.
      change (Z.of_nat 1) with 1. rewrite Hw', Hw. unfold NSLOTS.
      wrap_lia.
    + rewrite count_inc. lia.
    + intros i x Hi. destruct (decide (i = length q)) as [->|Hne].
      * rewrite lookup_app_r, Nat.sub_diag in Hi by lia. injection Hi as ->. rewrite <- H4. apply list_lookup_insert_eq.
        rewrite H1, H4. pose proof (Z.mod_pos_bound (out b + Z.of_nat (length q)) 3 ltac:(lia)). lia.
      * assert (i < length q)%nat as Hil by (apply lookup_lt_Some in Hi; rewrite length_app in Hi; cbn in Hi; lia).
        rewrite lookup_app_l in Hi by done. rewrite list_lookup_insert_ne; [by apply H7|].
        rewrite H4, Hw, (wrap (out b) (Z.of_nat i) H2) by lia. wrap_lia.
  - apply dec_waits in Ed. lia.
Qed.

(** A consumer takes the first item, exactly when there is one. *)
Lemma consumer_ok b q :
  holds b q ->
  match consumer b with
  | Some (x, b') => exists a q', q = a :: q' /\ x = Some a /\ holds b' q'
  | None => q = []
  end.
Proof.
  intros [H1 H2 H3 H4 H5 H6 H7]. unfold consumer. destruct (sema_dec (s_full b)) as [f|] eqn:Ed; cbn [mbind option_bind].
  - destruct q as [|a q].
    { assert (sema_dec (s_full b) = None) by (apply dec_waits; cbn in H5; lia). congruence. }
    apply count_dec in Ed. cbn [length] in *. exists a, q. split; [done|]. split.
    { specialize (H7 0%nat a eq_refl). rewrite Z.add_0_r, Z.mod_small in H7 by lia. by rewrite H7. }
    assert (forall k, 0 <= k <= 2 -> ((if out b + 1 =? NSLOTS then 0 else out b + 1) + k) mod 3 = (out b + (k + 1)) mod 3) as Hs.
    { intros k Hk. unfold NSLOTS. rewrite (wrap (out b) (k + 1)) by lia.
      destruct (Z.eqb_spec (out b + 1) 3); rewrite wrap by lia; wrap_lia. }
    split; cbn [slots in_ out s_empty s_full]; try done; try lia.
    + unfold NSLOTS. wrap_lia.
    + rewrite Hs, H4 by lia. f_equal. lia.
    + rewrite count_inc. lia.
    + intros i x Hi. pose proof (lookup_lt_Some _ _ _ Hi). rewrite Hs by lia.
      replace (Z.of_nat i + 1) with (Z.of_nat (S i)) by lia. by apply H7.
  - apply dec_waits in Ed. destruct q; [done|cbn in H5; lia].
Qed.

Lemma rounds_ok l b q xs b' :
  holds b q -> rounds l b = Some (xs, b') ->
  exists got q', xs = Some <$> got /\ q ++ put_values l = got ++ q' /\ holds b' q'.
Proof.
  revert b q xs. induction l as [|[a|] l IH]; intros b q xs Hq E; cbn [rounds] in E.
  - injection E as <- <-. exists [], q. cbn. by rewrite app_nil_r.
  - apply bind_Some in E as (b1 & E1 & E2). pose proof (producer_ok b q a Hq) as Hp. rewrite E1 in Hp.
    destruct Hp as [_ Hp]. destruct (IH _ _ _ Hp E2) as (got & q' & H1 & H2 & H3). exists got, q'.
    rewrite <- app_assoc in H2. done.
  - apply bind_Some in E as ([x b1] & E1 & E2). apply bind_Some in E2 as ([ys b2] & E2 & [= <- <-]).
    pose proof (consumer_ok b q Hq) as Hc. rewrite E1 in Hc. destruct Hc as (a & q1 & -> & -> & Hc).
    destruct (IH _ _ _ Hc E2) as (got & q' & -> & H2 & H3). exists (a :: got), q'. split; [done|]. split; [|done].
    cbn. by f_equal.
Qed.

(** In every order of the threads, what the consumers get is what the
    producers put, in the same order and without loss or repetition, except for
    the items that are still in the three slots; a producer waits only when the
    slots are full, a consumer only when they are empty, so that one of them can
    always go on. *)
Theorem producers_consumers_fifo l xs b :
  rounds l initial = Some (xs, b) ->
  exists got q, xs = Some <$> got /\ put_values l = got ++ q /\ (length q <= 3)%nat /\
    (forall a, producer a b = None <-> length q = 3%nat) /\ (consumer b = None <-> q = []).
Proof.
  intros E. destruct (rounds_ok l initial [] xs b holds_initial E) as (got & q & H1 & H2 & H3).
  exists got, q. split; [done|]. split; [done|]. split; [apply H3|]. split.
  - intros a. pose proof (producer_ok b q a H3) as Hp. destruct (producer a b); [|done]. split; [done|lia].
  - pose proof (consumer_ok b q H3) as Hc. destruct (consumer b) as [[x b']|]; [|done].
    destruct Hc as (a & q' & -> & _). done.
Qed.
End ult.

(** ** Four rounds with a counter as semaphore *)

#[export] Instance counter_ops : Semaphore Z := {|
  sema_init n := n;
  sema_inc s := s + 1;
  sema_dec s := if s <=? 0 then None else Some (s - 1);
  sema_count s := s
|}.
#[export] Program Instance counter_laws : SemaphoreLaws Z.
Next Obligation. done. Qed.
Next Obligation. done. Qed.
Next Obligation. intros s s'. cbn. destruct (s <=? 0); [done|]. by intros [= <-]. Qed.
Next Obligation. intros s. cbn. destruct (Z.leb_spec s 0); split; done || lia. Qed.

Lemma producers_consumers_fifo_witness :
  exists got q, [Some 1; Some 2] = Some <$> got /\ [1; 2; 3] = got ++ q /\ (length q <= 3)%nat.
Proof.
  destruct (producers_consumers_fifo (T := Z) (A := Z) [Put 1; Put 2; Get; Put 3; Get] [Some 1; Some 2]
    {| slots := [Some 1; Some 2; Some 3]; in_ := 0; out := 2; s_empty := 2; s_full := 1 |}) as (got & q & H1 & H2 & H3 & _).
  - reflexivity.
  - exists got, q. split; [exact H1|]. split; [exact H2|exact H3].
Defined.
