(* ===== verification/Crash.v ===== *)
(** The two programs that test the protection of memory: apps/user/crash1.c, which
    asks for more memory than the heap has, and apps/user/crash2.c, which clears
    the frame cache.  The protection is an exercise; without it, as the sources
    are, the first stops and the second destroys the pages of other processes. *)

From Stdlib Require Import ZArith Lia Strings.Byte.
From stdpp Require Import base numbers list strings gmap.
From S2P Require Import Prelude Bytes Memory Earth Paging Mmu MmuProof Bus Tty Kernel EarthState Elf UserApps.

Local Open Scope egos_scope.

(** [malloc] of the C library asks [_sbrk] for [grow n] bytes when the heap has no
    [n] bytes. *)
Definition crash1 (platform : platform_t) (__heap_end : Z) (grow : Z -> Z) : M Z Z :=
  _sbrk platform __heap_end (grow (32 * 1024 * 1024)).

(** An application whose heap starts after its code: the request is refused on
    both kinds of platform, before the heap grows. *)
Theorem crash1_refused p grow brk :
  (forall n, 0 <= n < 2 ^ 30 -> n <= grow n < 2 ^ 31) -> APPS_ENTRY <= brk <= APPS_ENTRY + APPS_SIZE ->
  crash1 p (APPS_ENTRY + APPS_SIZE) grow brk = Fatal "_sbrk: heap grows too large".
Proof.
  intros Hg Hb. specialize (Hg (32 * 1024 * 1024) ltac:(lia)). unfold crash1, _sbrk, bind. cbn [get].
  unfold APPS_ENTRY, APPS_SIZE in *. rewrite u32_small by (unfold is_u32; lia).
  replace (_ <? _) with true; [done|]. symmetry. apply Z.ltb_lt. destruct p; lia.
Qed.

Section crash2.
Context {D R B : Type} `{DiskLaws D} (rand : R -> Z * R) `{Bus B}.
Context (rand_nonneg : forall r, 0 <= fst (rand r)) (disk_room : NFRAMES * NBLOCKS_PER_PAGE <= disk_size D).
Context (p0 : platform_t) (on_qemu : p0 <> ARTY).
Abbreviation P := (paging_state D R).
Abbreviation est := (earth_state P B).
#[local] Instance crash_paging : Paging P := dev_paging rand.
#[local] Instance crash_laws : PagingLaws P := dev_paging_laws rand rand_nonneg disk_room p0.

(** [memset] from [FRAME_CACHE_START] to [FRAME_CACHE_END]; [pmpcfg0] allows it. *)
Definition crash2 : M est unit :=
  modify (fun e => set_emem (memset (emem e) FRAME_CACHE_START x00 (FRAME_CACHE_END - FRAME_CACHE_START)) e).

(** Every page of another process that is in one of the first 28 frames is
    zero afterwards: the isolation of the processes relies on applications that
    write to their own pages only. *)
Theorem crash2_corrupts (e : est) q p f :
  mmu_ok (mmu e) -> q <> curr_vm_pid (mmu e) -> frame_of (table (mmu e)) q p = Some f -> 0 <= f < 28 ->
  exists e', crash2 e = Ok (tt, e') /\ view (mmu e') q p = Some (replicate (Z.to_nat PAGE_SIZE) x00).
Proof.
  intros Hok Hq Hf Hr. eexists. split; [reflexivity|].
  unfold view. change (table (mmu (set_emem ?m e))) with (table (mmu e)). rewrite Hf. cbn [mbind option_bind].
  change (curr_vm_pid (mmu (set_emem ?m e))) with (curr_vm_pid (mmu e)). rewrite (proj2 (Z.eqb_neq _ _) Hq). f_equal.
  set (m' := memset (emem e) FRAME_CACHE_START x00 (FRAME_CACHE_END - FRAME_CACHE_START)).
  assert (frame (dev (mmu (set_emem m' e))) f = load m' (page_addr f) PAGE_SIZE) as ->.
  { change (dev_frame (set_pmem m' (dev (mmu e))) f = load m' (page_addr f) PAGE_SIZE). unfold dev_frame.
    change (platform (set_pmem m' (dev (mmu e)))) with (platform (dev (mmu e))).
    destruct (mo_dev _ Hok) as [Hp _]. destruct (platform (dev (mmu e))); [congruence|reflexivity..]. }
  apply list_eq. intros i. rewrite load_lookup. destruct (Z.ltb_spec (Z.of_nat i) PAGE_SIZE).
  - rewrite lookup_replicate_2 by (unfold PAGE_SIZE in *; lia). f_equal. unfold m', memset. rewrite store_lookup, length_replicate.
    unfold page_addr, PAGE_SIZE, FRAME_CACHE_START, FRAME_CACHE_END in *.
    rewrite (proj2 (Z.leb_le _ _)), (proj2 (Z.ltb_lt _ _)) by lia. cbn [andb]. by rewrite lookup_replicate_2 by lia.
  - symmetry. apply lookup_ge_None_2. rewrite length_replicate. lia.
Qed.
End crash2.
