(* ===== verification/Mkrom.v ===== *)
(** The boot ROM of the Arty board: tools/mkrom.c, the flash memory that holds
    its output, and the ROM disk of earth/dev_disk.c on it. *)

From Stdlib Require Import ZArith Lia Strings.Byte.
From stdpp Require Import base numbers list strings gmap.
From S2P Require Import Prelude Bytes Memory Earth Bus Sd.

Local Open Scope egos_scope.

Definition SIZE_4MB : Z := 4 * 1024 * 1024.

Section mkrom.
(** What [read(0, dst, n)] returns at offset [off] of a file, for the [n] bytes
    that are left: the number of bytes that it read, or -1. *)
Variable read_count : Z -> Z -> Z.

(** The loop of [load_file] for a file with the bytes [f].  The fuel is enough
    when every [read] makes progress; [dst] must have room for what is read. *)
Fixpoint load_loop (fuel : nat) (f dst : list byte) (nread : Z) : M unit (list byte) :=
  match fuel with
  | O => nofuel
  | S fuel' =>
      let st_size := Z.of_nat (length f) in
      if nread <? st_size then
        let n := read_count nread (st_size - nread) in
        if Z.of_nat (length dst) <? nread + n then undef "load_file: dst"
        else
          load_loop fuel' f (splice dst (Z.to_nat nread) (take (Z.to_nat n) (drop (Z.to_nat nread) f))) (u32 (nread + n))
      else ret dst
  end.

(** The array with the file, and the size that is returned, an [int]. *)
Definition load_file (f dst : list byte) : M unit (Z * list byte) :=
  dst <- load_loop (S (length f)) f dst 0 ;;
  ret (s32 (Z.of_nat (length f)), dst).

(** The global arrays, zeros at the start. *)
Definition mem_zero : list byte := replicate (Z.to_nat SIZE_4MB) x00.

(** [main]: the bytes of bootROM.bin, for the contents of the three files. *)
Definition mkrom_main (fe310 earth disk : list byte) : M unit (list byte) :=
  '(fe310_size, mem_fe310) <- load_file fe310 mem_zero ;;
  '(earth_size, mem_earth) <- load_file earth mem_zero ;;
  '(disk_size, mem_disk) <- load_file disk mem_zero ;;
  if (u32 fe310_size <=? SIZE_4MB) && (u32 earth_size <=? SIZE_4MB) && (u32 disk_size =? SIZE_4MB)
  then ret (mem_fe310 ++ mem_earth ++ mem_disk)
  else fatal "assert".

(** ** What is loaded *)

(** [read] of a regular file returns some of the bytes that are left. *)
Definition reads_on : Prop := forall off n, 0 < n -> 0 < read_count off n <= n.

Definition rom_part (f : list byte) : list byte := f ++ replicate (Z.to_nat SIZE_4MB - length f) x00.

Hypothesis Hread : reads_on.

Lemma load_loop_ok fuel f dst (n : nat) :
  (length f <= length dst)%nat -> Z.of_nat (length f) < 2 ^ 32 -> (n <= length f)%nat -> (length f - n < fuel)%nat ->
  take n dst = take n f ->
  exists dst', load_loop fuel f dst (Z.of_nat n) tt = Ok (dst', tt) /\ length dst' = length dst /\
    take (length f) dst' = f /\ drop (length f) dst' = drop (length f) dst.
Proof.
  intros Hl H32. revert dst n Hl. induction fuel as [|fuel IH]; intros dst n Hl Hn Hf Ht; [lia|].
  cbn [load_loop]. cbv zeta. destruct (Z.ltb_spec (Z.of_nat n) (Z.of_nat (length f))) as [Hlt|Hge].
  - pose proof (Hread (Z.of_nat n) (Z.of_nat (length f) - Z.of_nat n) ltac:(lia)) as Hr.
    set (k := read_count _ _) in *. rewrite (proj2 (Z.ltb_ge _ _)) by lia.
    assert (exists j, k = Z.of_nat j) as [j Hj] by (exists (Z.to_nat k); lia). rewrite Hj in *.
    rewrite u32_small by (unfold is_u32; lia). rewrite <- Nat2Z.inj_add, !Nat2Z.id.
    set (part := take j (drop n f)).
    assert (length part = j) as Hp by (unfold part; rewrite length_take, length_drop; lia).
    destruct (IH (splice dst n part) (n + j)%nat) as (dst' & E & H1 & H2 & H3); [rewrite length_splice; lia|lia|lia| |].
    { unfold splice. rewrite Ht, app_assoc, take_app_le by (rewrite length_app, length_take; lia).
      rewrite take_ge by (rewrite length_app, length_take; lia). unfold part.
      rewrite <- (take_drop n (take (n + j) f)), take_take, Nat.min_l by lia. f_equal.
      by rewrite <- take_drop_commute. }
    exists dst'. split; [exact E|]. split; [rewrite H1; apply length_splice; lia|]. split; [done|]. rewrite H3.
    unfold splice. rewrite Hp, app_assoc, drop_app_ge by (rewrite length_app, length_take; lia).
    rewrite drop_drop, length_app, length_take, Hp. f_equal. lia.
  - exists dst. split; [done|]. split; [done|]. split; [|done]. rewrite <- (firstn_all f) at 2.
    replace (length f) with n by lia. rewrite Ht. done.
Qed.

Lemma load_file_ok f :
  Z.of_nat (length f) <= SIZE_4MB -> load_file f mem_zero tt = Ok ((Z.of_nat (length f), rom_part f), tt).
Proof.
  intros Hl. unfold SIZE_4MB in Hl. assert (length mem_zero = Z.to_nat SIZE_4MB) as Hm by apply length_replicate.
  destruct (load_loop_ok (S (length f)) f mem_zero 0) as (dst & E & H1 & H2 & H3);
    [rewrite Hm; unfold SIZE_4MB; lia|lia|lia|lia|done|].
  unfold load_file. change (Z.of_nat 0) with 0 in E. rewrite (bind_ok _ _ _ _ _ E). unfold ret. do 3 f_equal.
  - apply s32_small. lia.
  - rewrite <- (take_drop (length f) dst), H2, H3. unfold rom_part, mem_zero. by rewrite drop_replicate.
Qed.

Lemma length_rom_part f : Z.of_nat (length f) <= SIZE_4MB -> Z.of_nat (length (rom_part f)) = SIZE_4MB.
Proof. intros Hl. unfold rom_part. rewrite length_app, length_replicate. lia. Qed.

Lemma rom_part_full f : Z.of_nat (length f) = SIZE_4MB -> rom_part f = f.
Proof. intros Hl. unfold rom_part. replace (Z.to_nat SIZE_4MB - length f)%nat with 0%nat by lia. apply app_nil_r. Qed.

Lemma mkrom_main_ok fe310 earth disk :
  Z.of_nat (length fe310) <= SIZE_4MB -> Z.of_nat (length earth) <= SIZE_4MB -> Z.of_nat (length disk) = SIZE_4MB ->
  mkrom_main fe310 earth disk tt = Ok (rom_part fe310 ++ rom_part earth ++ disk, tt).
Proof.
  intros H1 H2 H3. unfold mkrom_main.
  rewrite (bind_ok _ _ _ _ _ (load_file_ok fe310 H1)), (bind_ok _ _ _ _ _ (load_file_ok earth H2)).
  rewrite (bind_ok _ _ _ _ _ (load_file_ok disk ltac:(lia))), (rom_part_full disk H3), H3.
  rewrite !u32_small by (unfold is_u32, SIZE_4MB in *; lia). rewrite Z.eqb_refl.
  by rewrite !(proj2 (Z.leb_le _ _)) by lia.
Qed.
End mkrom.

(** ** The flash memory *)

(** The address of the flash memory of the FE310, from which it also runs code;
    the second 4MB are the region [rom] of earth/earth.lds. *)
Definition FLASH_BASE : Z := 0x20000000.
Definition EARTH_ROM : Z := 0x20400000.

(** The flash memory [m] holds the bytes [l]. *)
Definition flashed (m : mem) (l : list byte) : Prop := load m FLASH_BASE (Z.of_nat (length l)) = l.

Lemma flashed_part m l1 l2 l3 :
  flashed m (l1 ++ l2 ++ l3) -> load m (FLASH_BASE + Z.of_nat (length l1)) (Z.of_nat (length l2)) = l2.
Proof.
  unfold flashed. intros H. rewrite (load_sub _ FLASH_BASE (Z.of_nat (length (l1 ++ l2 ++ l3)))) by (rewrite ?length_app; lia).
  rewrite H. replace (Z.to_nat (FLASH_BASE + Z.of_nat (length l1) - FLASH_BASE)) with (length l1) by lia.
  by rewrite Nat2Z.id, drop_app_length, take_app_length.
Qed.

(** A read of the ROM disk. *)
Lemma rom_disk_read {B} `{Bus B} platform fuel (s : disk_state B) l1 l2 img b n :
  type s = FLASH_ROM -> flashed (rom s) (l1 ++ l2 ++ img) ->
  Z.of_nat (length l1) = SIZE_4MB -> Z.of_nat (length l2) = SIZE_4MB -> Z.of_nat (length img) = SIZE_4MB ->
  0 <= b -> 0 <= n -> b + n <= 8192 ->
  dev_disk_read platform fuel b n s =
    Ok ((0, take (Z.to_nat (n * BLOCK_SIZE)) (drop (Z.to_nat (b * BLOCK_SIZE)) img)), s).
Proof.
  intros Ht Hf H1 H2 H3 Hb Hn Hbn. unfold dev_disk_read, bind, get. rewrite Ht. unfold ret. do 3 f_equal.
  rewrite app_assoc, <- (app_nil_r img) in Hf. apply flashed_part in Hf. unfold SIZE_4MB, BLOCK_SIZE in *.
  rewrite !u32_small by (unfold is_u32; lia).
  rewrite (load_sub _ (FLASH_BASE + Z.of_nat (length (l1 ++ l2))) (Z.of_nat (length img)))
    by (rewrite ?length_app; unfold FLASH_BASE; lia).
  rewrite Hf. f_equal. f_equal. rewrite ?length_app. unfold FLASH_BASE. lia.
Qed.
