(* ===== verification/RomTheorems.v ===== *)
(** The properties of the boot ROM, from the files of the build to the blocks
    that the loaders read. *)

From Stdlib Require Import ZArith Lia Strings.Byte.
From stdpp Require Import base numbers list strings gmap.
From S2P Require Import Prelude Bytes Memory Earth Bus InodeStore Treedisk TreediskSpec RamDisk Mkfs MkfsProof.
From S2P Require Import Sd Devices AppTheorems Mkrom.

Lemma rom_block_read {B} `{Bus B} platform fuel (s : disk_state B) l1 l2 img b :
  type s = FLASH_ROM -> flashed (rom s) (l1 ++ l2 ++ img) ->
  Z.of_nat (length l1) = SIZE_4MB -> Z.of_nat (length l2) = SIZE_4MB -> Z.of_nat (length img) = SIZE_4MB ->
  0 <= b < 8192 -> dev_disk_read platform fuel b 1 s = Ok ((0, img_block img b), s).
Proof.
  intros Ht Hf H1 H2 H3 Hb. rewrite (rom_disk_read platform fuel s l1 l2 img b 1 Ht Hf H1 H2 H3); [|lia..].
  unfold img_block. by rewrite Z.mul_1_l.
Qed.

(** C23. The boot ROM that tools/mkrom.c makes of the image of tools/mkfs.c is one
    that the Arty board starts from.  However [read] cuts the files into pieces,
    when the executables fit their places and the two binaries have at most
    4MB: the ROM has 12MB, and with it in the flash memory the earth layer is
    where it is linked to run, the ROM disk gives the blocks of the kernel
    executables where the loaders read them, and its last 4096 blocks are the
    well-formed file system of mkfs. *)
Theorem boot_rom {B : Type} `{Bus B} (platform : platform_t) (fuel : nat) (read_count : Z -> Z -> Z)
    (junk : block) (exe : list byte -> list byte) (buf fe310 earth : list byte) :
  reads_on read_count -> Z.of_nat (length fe310) <= SIZE_4MB -> Z.of_nat (length earth) <= SIZE_4MB ->
  block_ok junk -> Z.of_nat (length buf) = BUF_SIZE ->
  Forall (fun p => exe_fits (exe p)) kernel_processes -> Forall (exe_ok exe) contents ->
  exists img fs F bin,
    mkfs_main junk exe buf ∅ = Ok (img, fs) /\ mkrom_main read_count fe310 earth img tt = Ok (bin, tt) /\
    Z.of_nat (length bin) = 3 * SIZE_4MB /\ fs_inv 4096 (array_blocks 4096 fs) F /\
    forall s : disk_state B, type s = FLASH_ROM -> flashed (rom s) bin ->
      load (rom s) EARTH_ROM (Z.of_nat (length earth)) = earth /\
      (forall i p b, kernel_processes !! i = Some p -> 0 <= b < GRASS_EXEC_SEGMENT ->
         dev_disk_read platform fuel (GRASS_EXEC_START + Z.of_nat i * GRASS_EXEC_SEGMENT + b) 1 s =
           Ok ((0, img_block (exec_segment (exe p)) b), s)) /\
      (forall b, 0 <= b < 4096 -> exists x, array_blocks 4096 fs !! b = Some x /\
         dev_disk_read platform fuel (GRASS_FS_START + b) 1 s = Ok ((0, x), s)).
Proof.
  intros Hr Hf He Hj Hbuf Hk Hc.
  destruct (mkfs_image_ok junk exe buf Hj Hbuf Hk Hc) as (img & fs & F & _ & E & Hlen & Hexe & Hfs & I & _).
  assert (Z.of_nat (length img) = SIZE_4MB) as Hl by (rewrite Hlen; reflexivity).
  exists img, fs, F, (rom_part fe310 ++ rom_part earth ++ img). split; [exact E|]. split; [by apply mkrom_main_ok|].
  pose proof (length_rom_part fe310 Hf) as L1. pose proof (length_rom_part earth He) as L2.
  split; [rewrite !length_app; lia|]. split; [exact I|]. intros s Ht Hflash.
  pose proof (fun b => rom_block_read platform fuel s _ _ img b Ht Hflash L1 L2 Hl) as Hread. split; [|split].
  - unfold rom_part in Hflash at 2. rewrite <- app_assoc in Hflash. apply flashed_part in Hflash.
    rewrite L1 in Hflash. exact Hflash.
  - intros i p b Hi Hb. rewrite <- (Hexe i p b Hi Hb). apply Hread.
    apply lookup_lt_Some in Hi. change (length kernel_processes) with 5%nat in Hi.
    change GRASS_EXEC_SEGMENT with 256 in *. change GRASS_EXEC_START with 2048. lia.
  - intros b Hb. eexists. split; [by apply Hfs|]. apply Hread. change GRASS_FS_START with 4096. lia.
Qed.

(** A file that does not fit: [main] of mkrom.c compares the sizes only after
    it has loaded the files. *)
Lemma rom_file_overruns (read_count : Z -> Z -> Z) (f : list byte) :
  (forall off n, 0 < n -> read_count off n = n) -> SIZE_4MB < Z.of_nat (length f) ->
  load_file read_count f mem_zero tt = Undef "load_file: dst".
Proof.
  intros Hr Hf. unfold load_file. unfold bind. cbn [load_loop]. cbv zeta.
  rewrite (proj2 (Z.ltb_lt 0 _)) by (unfold SIZE_4MB in *; lia). rewrite Hr by (unfold SIZE_4MB in *; lia).
  unfold mem_zero at 1. rewrite length_replicate. rewrite (proj2 (Z.ltb_lt _ _)); [done|]. unfold SIZE_4MB in *. lia.
Qed.

(** Files of one byte, with reads of one byte at a time. *)
Definition one_byte (off n : Z) : Z := 1.
Definition rom_state (bin : list byte) : disk_state Board.board :=
  {| type := FLASH_ROM; SD_CARD_TYPE := SD_TYPE_UNKNOWN;
     disk_bus := {| Board.ticks := 0; Board.cmp := ∅; Board.rx := []; Board.tx := [] |};
     rom := store ∅ FLASH_BASE bin |}.

Lemma boot_rom_witness :
  exists img fs bin, mkfs_main null_block exe1 buf0 ∅ = Ok (img, fs) /\
    mkrom_main one_byte [x01] [x02] img tt = Ok (bin, tt) /\
    load (rom (rom_state bin)) EARTH_ROM 1 = [x02] /\
    dev_disk_read ARTY 0 SYS_PROC_EXEC_START 1 (rom_state bin) = Ok ((0, img_block (exec_segment [x7f]) 0), rom_state bin).
Proof.
  destruct (boot_rom (B := Board.board) ARTY 0 one_byte null_block exe1 buf0 [x01] [x02])
    as (img & fs & F & bin & E1 & E2 & _ & _ & Hs).
  - intros off n Hn. unfold one_byte. lia.
  - intros Hx. discriminate Hx.
  - intros Hx. discriminate Hx.
  - exact null_block_ok.
  - apply buf0_length.
  - apply exe1_fits.
  - apply exe1_ok.
  - exists img, fs, bin. split; [exact E1|]. split; [exact E2|].
    destruct (Hs (rom_state bin) eq_refl (load_store_eq ∅ FLASH_BASE bin)) as (H1 & H2 & _). split; [exact H1|].
    apply (H2 1%nat (str "../build/release/sys_proc.elf") 0); [reflexivity|]. split; [lia|reflexivity].
Defined.
